(* ===== verification/_CoqProject ===== *)
-Q . S2P
Prelude.v
Types.v
Time.v
Region.v
Kip.v
ThreadId.v
Fpage.v
State.v
Msg.v
Ring.v
Monad.v
Lib.v
Kmem.v
Pgent.v
Cache.v
Ptab.v
Mapnode.v
MdbAlloc.v
Mdbpools.v
Mdb.v
Mdbflush.v
Mdbtree.v
Walker.v
Walkrange.v
Walkmap.v
Asid.v
Tcb.v
Sched.v
Wakeup.v
Sendq.v
Vspace.v
Unwind.v
Ipcx.v
Ipc.v
Schedule.v
Resources.v
Thread.v
Interrupt.v
Timer.v
ThreadControl.v
SpaceControl.v
Tlb.v
Spacevm.v
Coherence.v
Memcontrol.v
Exception.v
Exregs.v
Invariant.v
Boot.v
