(* ===== verification/Prelude.v ===== *)
(** * Verification of the L4Thread kernel

    L4Thread is the L4Ka::Pistachio microkernel (API version 4) in C++.  The
    development models the kernel proper, under [src/kernel], in one
    configuration: MIPS64 R4x00, platform u4600, 64 bits, big endian, one
    processor, without [CONFIG_DEBUG] and the kernel debugger, and with the files
    of [api/backup] where they exist ([api/backup/thread.cc] is a copy of
    [api/v4/thread.cc]; the latter is modelled).  In that configuration [ASSERT],
    the spin locks and the tracepoints are empty; [panic], [UNIMPLEMENTED] and
    [enter_kdebug] end in an endless loop.

    ** How code becomes definitions

    Words are integers in [0, 2^64), with the wrap-around written out ([w64]);
    bit fields are read and written at the offsets that the compiler gives them
    ([bf_get], [bf_set]).  Kernel code runs in the monad of file Monad: it returns
    ([Ok]), never returns ([Hang]) or dereferences a null pointer ([Crash]).
    Objects live in stores indexed by their addresses, so that aliasing is that of
    the source; where the source works on raw memory (the memory allocator, page
    tables, the mapping database) the model works on words of memory.  A definition has
    the name of the function it models, or of the part of a function if a long
    function is split, and takes the arguments in the order of the source.

    [switch_to] of [glue/v4-mips64/tcb.h] has its assembly commented out in this
    source tree: it assigns the current thread and returns.  The model does what
    the source does, so the code after a switch runs at once.

    ** The parts

    - Data formats, each a file on [include/api/v4] or [include]: Types (address
      arithmetic and layout), Time, Region, Kip (kernel interface page),
      ThreadId, Fpage, State (thread state, queue state, bit masks), Msg (message tags,
      typed items, error codes).  Theorems: round trips and accessor laws.
    - Ring: the macros of [api/v4/queueing.h] on any heap of links.  They refine
      operations on lists; Sched, Wakeup and Sendq use this for the ready queues,
      the wakeup queue and the queues of senders.
    - Kmem: [generic/kmemory.cc] on the words of the free chunks; [kmem_ok] ties
      the memory to the sorted list of free chunks.
    - Pgent, Ptab: [arch/mips64/pgent.h], and the page table part of
      [glue/v4-mips64/space.cc] and of [generic/linear_ptab_walker.cc].
    - Mapnode, MdbAlloc, Mdb, Mdbflush: [mapping.h], [generic/mapping_alloc.cc] and
      [generic/mapping.cc].  Mdbpools proves that the pools of buffers implement the class
      [BufferHeap]; Mdbtree proves against this class that [mdb_map] inserts a
      child and that [mdb_flush] removes a subtree.
    - Walker: [map_fpage] and [unmap_fpage] of [generic/linear_ptab_walker.cc], over page
      tables and mapping database.  Walkrange proves which addresses a mapping can
      reach, Walkmap what mapping and unmapping a page do to the translations.
    - Asid: the cache of address space identifiers of [asid.h].
    - Tcb: the kernel's state (control blocks, UTCBs, spaces, globals, registers of the
      processor) and the accessors of [tcb_t].  The type of the virtual memory state is a
      parameter, with the operations of the class [VirtualMemory] of file Vspace.
    - Sched, Wakeup, Sendq, Schedule: [api/backup/schedule.cc] and
      [api/v4/schedule.h].  [ready_ok] and [wait_ok] tie the rings to lists of
      threads, one for each priority, and one of the threads with a timeout.
    - Ipc, Ipcx, Unwind: [api/backup/ipc.cc], [api/backup/ipcx.cc] and the unwinding of
      IPCs of [api/v4/thread.cc].
    - Thread, ThreadControl, Exregs, Interrupt, SpaceControl: the life of threads and
      the system calls on threads, interrupts and spaces.
    - Resources, Tlb, Exception: what the kernel does with the processor ([ks_cpu] of file
      Tcb): [glue/v4-mips64/resources.cc] (the floating-point unit), the translation
      buffer and the miss handlers of [glue/v4-mips64/space.cc], and
      [glue/v4-mips64/exception.cc].  The translation buffer is that of the
      architecture manual: probes, indexed and random writes.
    - Lib, Cache: [generic/lib.cc] on bytes, and [platform/u4600/cache.h] as the
      list of cache instructions each operation issues.
    - Timer: the tables of exception and interrupt handlers of
      [glue/v4-mips64/intctrl.cc], and the periodic timer of [timer.cc] on the registers
      Count and Compare.
    - Spacevm: the instance of [VirtualMemory] that [glue/v4-mips64/space.cc] is, by Ptab,
      Walker, Mdb, Kmem and Asid on one memory; the operations note what they do to the
      translation buffer, and [update_tlb] does it.  Coherence puts it together with Tlb: the
      buffer agrees with the page tables of all spaces ([coherent]).
    - Memcontrol: the system call of [glue/v4-mips64/memcontrol.cc], on Spacevm.
    - Invariant: an [entry] into the kernel is a system call, an interrupt (the timer's
      among them), a page fault, an exception or the handler of an extended
      transfer; [run_entry] is what the kernel does, [admissible] what the theorem on
      sequences of entries asks of each.
    - Boot: the start of the system, [glue/v4-mips64/init.cc] with the functions it calls in
      [platform/u4600/plat.cc], [api/backup/processor.cc] and [glue/v4-mips64/space.cc],
      and the first threads ([init_root_servers] of [api/v4/thread.cc]).

    ** What the theorems show

    - Invariants of the state: the ready queues, the wakeup queue, the queues of
      senders, the ASID cache, the free lists and the pools of buffers stay well-formed
      under the operations on them, and each operation has the effect on the lists
      that its name says.  Sequences of entries into the kernel keep the ready queues and the
      wakeup queue well-formed, as long as each is [admissible]; that no thread is created on a
      queued control block is needed, since such a creation breaks the queues.  Refills, the
      Unmap system call and MemoryControl keep the translation buffer in agreement with the
      page tables, for 4 KB pages; for larger ones the source goes wrong.
    - Functional behaviour: the scheduler picks the first runnable thread of the highest
      priority; a rendezvous delivers the message and makes both threads runnable; mapping a
      page shares it with the rights both sides allow; the Unmap system call takes a 4 KB
      page away from everybody it was mapped on to, in page tables and translation
      buffer; MemoryControl sets the attribute of the 4 KB page it names.
    - Start of the system: the kernel allocates from memory behind all images, interrupts go to
      their handlers, and the three servers of the interface page are ready at the top
      priority.
    - Bounds: a mapping reads within the send fpage and writes within the receive
      window, whatever the sender asks for; the timer catches up with whole periods, however
      late an interrupt is handled.
    - Processor state: lazy switching gives each thread floating-point registers of its
      own; a refill makes the translation buffer agree with the page table, and no
      address ever matches two entries.
    - Refusals: system calls that fail return the error code and change nothing else.
    - Termination: the walk over the wakeup queue and that of MemoryControl over an fpage
      end; unwinding takes at most three passes, and hangs only in the comparison of time
      points; an extended transfer within one space hangs only in a call of [map_fpage]
      or [memcpy], which [Ipcx.stopping] makes visible.
    - Errors of the source: some theorems prove what the code does where it is not what
      it means to do; these are listed with the findings of the project.

    ** Fuel

    Loops that are not structural take fuel and give [Hang] when it runs out, so
    a theorem that an operation returns [Ok] shows that the fuel was enough.  The
    bounds are in the theorems: the length of the list walked (ready queues, free
    lists, subtrees), twice the number of waiting threads for the wakeup queue, and
    constants for the loops over the message registers ([ITEM_FUEL], [STRING_FUEL]);
    sixteen for a page that is mapped, two rounds per page size; 1000 rounds
    ([ATTRIB_FUEL]) for MemoryControl, since the code never goes back up from a subtree; 1024
    lines of a cache ([LINES_FUEL]); 42950 periods for the timer, as many as 2^32 counts
    have; one round per chunk of the 4 MB the allocator starts with.

    ** Not modelled

    Assembly (the entries of exceptions and system calls, the fast path, the context
    switch, the code at the exception vectors), the console, what a cache instruction does to a
    cache, the debugger, SMP code, and the ports to other architectures.  An access of the
    kernel to user memory that faults is [Hang].  Parameters: what the linker provides and the
    functions of the interface page, whose file is not in the tree (record [image] of
    Boot: the bounds of the kernel's text and stack, the insertion of memory descriptors, the rest of
    the page's initialisation, the places of processor descriptors, the debugger's start), the
    function the page names as the entry of the debugger (Exception), and, where a file
    does not depend on Spacevm, the virtual memory (class [VirtualMemory]) and the current
    ASID of a space (Tlb); Coherence and Memcontrol use Spacevm and Asid for them. *)

From Stdlib Require Import ZArith Lia Bool List.
From stdpp Require Import base numbers list gmap.
Open Scope Z_scope.

(** ** Machine words

    A [word_t] of the MIPS64 configuration is a [Z] in [0, 2^64); every
    operation that can leave that range is written with its wrap-around. *)

Definition BITS_WORD : Z := 64.

Definition wrap (w x : Z) : Z := x mod 2 ^ w.

Abbreviation w64 := (wrap 64).
Abbreviation w32 := (wrap 32).
Abbreviation w16 := (wrap 16).
Abbreviation w8 := (wrap 8).

(** two's complement reading of the low [w] bits *)
Definition swrap (w x : Z) : Z :=
  let y := wrap w x in if y <? 2 ^ (w - 1) then y else y - 2 ^ w.

(** the complement operator on a [word_t] *)
Definition wnot (x : Z) : Z := w64 (Z.lnot x).

Definition is_word (x : Z) : Prop := 0 <= x < 2 ^ 64.

(** C's truth value of a word, and the word a [bool] converts to *)
Definition truth (x : Z) : bool := negb (x =? 0).

Lemma wrap_bounds w x : 0 <= w -> 0 <= wrap w x < 2 ^ w.
Proof. intros; unfold wrap; apply Z.mod_pos_bound; lia. Qed.

Lemma wrap_small w x : 0 <= x < 2 ^ w -> wrap w x = x.
Proof. apply Z.mod_small. Qed.

Lemma wrap_wrap w x : wrap w (wrap w x) = wrap w x.
Proof. unfold wrap. apply Zmod_mod. Qed.

Lemma wrap_add_l w x y : wrap w (wrap w x + y) = wrap w (x + y).
Proof. unfold wrap. apply Zplus_mod_idemp_l. Qed.

Lemma w64_is_word x : is_word (w64 x).
Proof. apply wrap_bounds; lia. Qed.

Lemma wrap_testbit w x i :
  0 <= w -> 0 <= i -> Z.testbit (wrap w x) i = (i <? w) && Z.testbit x i.
Proof.
  intros. unfold wrap. destruct (Z.ltb_spec i w); simpl.
  - now rewrite Z.mod_pow2_bits_low by lia.
  - now rewrite Z.mod_pow2_bits_high by lia.
Qed.

Lemma testbit_above n x i : 0 <= x < 2 ^ n -> n <= i -> Z.testbit x i = false.
Proof.
  intros Hx Hi. destruct (decide (0 <= n)).
  - rewrite <- (Z.mod_small x (2 ^ n)) by lia. apply Z.mod_pow2_bits_high; lia.
  - rewrite Z.pow_neg_r in Hx by lia. lia.
Qed.

(** A non-negative number none of whose bits at or above [n] is set is below
    [2^n]: the way every bound on a masked word is obtained. *)
Lemma bits_bound n x :
  0 <= n -> 0 <= x -> (forall i, n <= i -> Z.testbit x i = false) -> 0 <= x < 2 ^ n.
Proof.
  intros Hn Hx Hb. split; [lia|].
  replace x with (x mod 2 ^ n); [apply Z.mod_pos_bound; lia|].
  apply Z.bits_inj'. intros i Hi. destruct (Z.ltb_spec i n).
  - apply Z.mod_pow2_bits_low; lia.
  - rewrite Z.mod_pow2_bits_high by lia. symmetry. apply Hb. lia.
Qed.

Lemma land_pow2_eqb x n :
  0 <= n -> (Z.land x (2 ^ n) =? 0) = negb (Z.testbit x n).
Proof.
  intros Hn. destruct (Z.testbit x n) eqn:E; simpl.
  - apply Z.eqb_neq. intros H.
    assert (Z.testbit (Z.land x (2 ^ n)) n = false) as F by (rewrite H; apply Z.bits_0).
    rewrite Z.land_spec, Z.pow2_bits_true, E in F by lia. discriminate.
  - apply Z.eqb_eq. apply Z.bits_inj'. intros i Hi. rewrite Z.land_spec, Z.bits_0.
    destruct (Z.eq_dec i n) as [->|]; [now rewrite E|].
    rewrite Z.pow2_bits_false by lia. apply andb_false_r.
Qed.

(** ** Bit fields

    A bit field is an offset and a width in the enclosing word.  C++ leaves
    the order of bit fields to the ABI; [macros.h] hides it by declaring the
    members in opposite order on the two byte orders. *)
Record bitfield := BF { bf_off : Z; bf_width : Z }.

(** little-endian ABI: the first declared member takes the low-order bits *)
Fixpoint alloc_lsb (off : Z) (ws : list Z) : list bitfield :=
  match ws with
  | [] => []
  | w :: ws => BF off w :: alloc_lsb (off + w) ws
  end.

(** big-endian ABI: the first declared member takes the high-order bits *)
Fixpoint alloc_msb (top : Z) (ws : list Z) : list bitfield :=
  match ws with
  | [] => []
  | w :: ws => BF (top - w) w :: alloc_msb (top - w) ws
  end.

(** [BITFIELDn(t, a, b, ...)] with members of widths [ws], low-order member
    first, in a storage unit of [n] bits. *)
Definition BITFIELD (bigendian : bool) (n : Z) (ws : list Z) : list bitfield :=
  if bigendian then rev (alloc_msb n (rev ws)) else alloc_lsb 0 ws.

Definition sum_widths (ws : list Z) : Z := foldr Z.add 0 ws.

(** the [i]th member of a 64-bit [BITFIELDn] of this (big-endian) configuration *)
Definition member (ws : list Z) (i : nat) : bitfield :=
  nth i (BITFIELD true 64 ws) (BF 0 0).

Definition bf_get (f : bitfield) (raw : Z) : Z :=
  Z.land (Z.shiftr raw (bf_off f)) (Z.ones (bf_width f)).

Definition bf_set (f : bitfield) (v raw : Z) : Z :=
  Z.lor (Z.ldiff raw (Z.shiftl (Z.ones (bf_width f)) (bf_off f)))
        (Z.shiftl (Z.land v (Z.ones (bf_width f))) (bf_off f)).

Definition bf_ok (f : bitfield) : Prop := 0 <= bf_off f /\ 0 <= bf_width f.

(** [f] and [g] share no bit *)
Definition bf_disj (f g : bitfield) : Prop :=
  bf_off f + bf_width f <= bf_off g \/ bf_off g + bf_width g <= bf_off f.

(** Side conditions on concrete fields are closed computations. *)
Ltac bf_side :=
  solve [ assumption
        | unfold bf_ok, bf_disj; vm_compute; intuition (try discriminate; try congruence)
        | unfold bf_ok, bf_disj in *; simpl in *; lia ].

Lemma ones_testbit w i : 0 <= w -> 0 <= i -> Z.testbit (Z.ones w) i = (i <? w).
Proof.
  intros. destruct (Z.ltb_spec i w).
  - apply Z.ones_spec_low; lia.
  - apply Z.ones_spec_high; lia.
Qed.

Lemma bf_get_testbit f raw i :
  bf_ok f -> 0 <= i ->
  Z.testbit (bf_get f raw) i = (i <? bf_width f) && Z.testbit raw (i + bf_off f).
Proof.
  intros [? ?] ?. unfold bf_get.
  rewrite Z.land_spec, ones_testbit, Z.shiftr_spec by lia. apply andb_comm.
Qed.

Lemma bf_set_testbit f v raw i :
  bf_ok f -> 0 <= i ->
  Z.testbit (bf_set f v raw) i =
    if (bf_off f <=? i) && (i <? bf_off f + bf_width f)
    then Z.testbit v (i - bf_off f) else Z.testbit raw i.
Proof.
  intros [? ?] ?. unfold bf_set.
  rewrite Z.lor_spec, Z.ldiff_spec, !Z.shiftl_spec by lia.
  destruct (Z.leb_spec (bf_off f) i); simpl.
  - rewrite Z.land_spec, !ones_testbit by lia.
    destruct (Z.ltb_spec i (bf_off f + bf_width f)), (Z.ltb_spec (i - bf_off f) (bf_width f));
      try lia; simpl; rewrite ?andb_false_r, ?andb_true_r, ?orb_false_r; auto.
  - rewrite !(Z.testbit_neg_r _ (i - bf_off f)) by lia.
    simpl. now rewrite orb_false_r, andb_true_r.
Qed.

Lemma bf_get_mod f raw : bf_ok f -> bf_get f raw = (raw / 2 ^ bf_off f) mod 2 ^ bf_width f.
Proof.
  intros [? ?]. unfold bf_get. now rewrite Z.land_ones, Z.shiftr_div_pow2 by lia.
Qed.

Lemma bf_get_bounds f raw : bf_ok f -> 0 <= bf_get f raw < 2 ^ bf_width f.
Proof.
  intros Hf. rewrite bf_get_mod by done. apply Z.mod_pos_bound.
  destruct Hf. lia.
Qed.

Lemma bf_get_0 f : bf_get f 0 = 0.
Proof. unfold bf_get. now rewrite Z.shiftr_0_l. Qed.

Lemma bf_get_set_eq f v raw : bf_ok f -> bf_get f (bf_set f v raw) = v mod 2 ^ bf_width f.
Proof.
  intros Hf. apply Z.bits_inj'. intros i Hi. pose proof Hf as [? ?].
  rewrite bf_get_testbit, bf_set_testbit by (done || lia).
  replace (i + bf_off f - bf_off f) with i by lia.
  destruct (Z.ltb_spec i (bf_width f)); simpl.
  - rewrite Z.mod_pow2_bits_low by lia.
    destruct (Z.leb_spec (bf_off f) (i + bf_off f)),
      (Z.ltb_spec (i + bf_off f) (bf_off f + bf_width f)); try lia; done.
  - now rewrite Z.mod_pow2_bits_high by lia.
Qed.

Lemma bf_get_set_small f v raw :
  bf_ok f -> 0 <= v < 2 ^ bf_width f -> bf_get f (bf_set f v raw) = v.
Proof. intros. rewrite bf_get_set_eq by done. now apply Z.mod_small. Qed.

Lemma bf_get_set_ne f g v raw :
  bf_ok f -> bf_ok g -> bf_disj f g -> bf_get g (bf_set f v raw) = bf_get g raw.
Proof.
  intros Hf Hg Hd. apply Z.bits_inj'. intros i Hi.
  pose proof Hf as [? ?]; pose proof Hg as [? ?].
  rewrite !bf_get_testbit, bf_set_testbit by (done || lia).
  destruct (Z.ltb_spec i (bf_width g)); simpl; [|done].
  destruct (Z.leb_spec (bf_off f) (i + bf_off g)),
    (Z.ltb_spec (i + bf_off g) (bf_off f + bf_width f)); simpl; try done.
  destruct Hd; lia.
Qed.

Lemma bf_set_nonneg f v raw : bf_ok f -> 0 <= raw -> 0 <= bf_set f v raw.
Proof.
  intros [? ?] ?. unfold bf_set. apply Z.lor_nonneg. split.
  - apply Z.ldiff_nonneg. auto.
  - apply Z.shiftl_nonneg, Z.land_nonneg. right. rewrite Z.ones_equiv. lia.
Qed.

Lemma bf_set_bounds n f v raw :
  bf_ok f -> bf_off f + bf_width f <= n -> 0 <= raw < 2 ^ n -> 0 <= bf_set f v raw < 2 ^ n.
Proof.
  intros Hf Hn Hr. pose proof Hf as [? ?].
  apply bits_bound; [lia|apply bf_set_nonneg; [done|lia]|].
  intros i Hi. rewrite bf_set_testbit by (done || lia).
  destruct (Z.leb_spec (bf_off f) i), (Z.ltb_spec i (bf_off f + bf_width f));
    simpl; try lia; now apply (testbit_above n).
Qed.

Lemma bf_set_get f raw : bf_ok f -> bf_set f (bf_get f raw) raw = raw.
Proof.
  intros Hf. apply Z.bits_inj'. intros i Hi. pose proof Hf as [? ?].
  rewrite bf_set_testbit by done.
  destruct (Z.leb_spec (bf_off f) i), (Z.ltb_spec i (bf_off f + bf_width f)); simpl; try done.
  rewrite bf_get_testbit by (done || lia).
  destruct (Z.ltb_spec (i - bf_off f) (bf_width f)); try lia; simpl. f_equal. lia.
Qed.

Lemma bf_set_set_eq f v v' raw : bf_ok f -> bf_set f v (bf_set f v' raw) = bf_set f v raw.
Proof.
  intros Hf. apply Z.bits_inj'. intros i Hi.
  rewrite !bf_set_testbit by done. now destruct ((bf_off f <=? i) && _).
Qed.

(** A one-bit field is a boolean. *)
Definition bf_flag (f : bitfield) (raw : Z) : bool := truth (bf_get f raw).

(** ** The byte-order independence of [BITFIELDn] *)

Lemma alloc_msb_app top ws ws' :
  alloc_msb top (ws ++ ws') = alloc_msb top ws ++ alloc_msb (top - sum_widths ws) ws'.
Proof.
  revert top. induction ws as [|w ws IH]; intros top; simpl.
  - f_equal; lia.
  - rewrite IH. unfold sum_widths; simpl. do 3 f_equal. lia.
Qed.

Lemma sum_widths_rev ws : sum_widths (rev ws) = sum_widths ws.
Proof.
  unfold sum_widths. induction ws as [|w ws IH]; simpl; [done|].
  rewrite foldr_app. simpl.
  assert (forall l a, foldr Z.add a l = foldr Z.add 0 l + a) as H.
  { induction l as [|x l IHl]; intros a; simpl; [lia|]. rewrite IHl. lia. }
  rewrite H, IH. lia.
Qed.

Lemma alloc_msb_lsb off ws :
  rev (alloc_msb (off + sum_widths ws) (rev ws)) = alloc_lsb off ws.
Proof.
  revert off. induction ws as [|w ws IH]; intros off; simpl; [done|].
  rewrite alloc_msb_app, rev_app_distr, sum_widths_rev. simpl.
  f_equal.
  - f_equal. unfold sum_widths. simpl. lia.
  - rewrite <- IH. do 2 f_equal. unfold sum_widths. simpl. lia.
Qed.

(** [BITFIELDn] describes the same fields under both byte orders whenever its
    members fill the storage unit. *)
Lemma BITFIELD_any_endian be n ws :
  sum_widths ws = n -> BITFIELD be n ws = alloc_lsb 0 ws.
Proof. intros <-. destruct be; [apply (alloc_msb_lsb 0)|done]. Qed.

(** ** Shifts, as the MIPS64 instructions perform them

    The shift instructions use the low bits of the count; C++ leaves larger
    counts undefined. *)
Definition shr64 (x n : Z) : Z := Z.shiftr x (n mod 64).
Definition shl64 (x n : Z) : Z := w64 (Z.shiftl x (n mod 64)).
Definition sar32 (x n : Z) : Z := Z.shiftr x (n mod 32).
(** [1 << n] on a 32-bit [int] *)
Definition int_bit (n : Z) : Z := swrap 32 (Z.shiftl 1 (n mod 32)).

(** ** Alignment masks *)

Lemma land_wnot_mask x k :
  is_word x -> 0 <= k <= 64 -> Z.land x (wnot (2 ^ k - 1)) = x - x mod 2 ^ k.
Proof.
  intros Hx Hk.
  assert (x - x mod 2 ^ k = Z.shiftl (Z.shiftr x k) k) as ->.
  { rewrite Z.shiftl_mul_pow2, Z.shiftr_div_pow2 by lia.
    pose proof (Z.div_mod x (2 ^ k)). lia. }
  apply Z.bits_inj'. intros i Hi.
  unfold wnot. rewrite Z.land_spec, wrap_testbit, Z.lnot_spec by lia.
  replace (2 ^ k - 1) with (Z.ones k) by (rewrite Z.ones_equiv; lia).
  rewrite ones_testbit by lia.
  destruct (Z.ltb_spec i k); simpl.
  - now rewrite andb_false_r, andb_false_r, Z.shiftl_spec_low by lia.
  - rewrite andb_true_r, Z.shiftl_spec, Z.shiftr_spec by lia.
    replace (i - k + k) with i by lia.
    destruct (Z.ltb_spec i 64); simpl; [apply andb_true_r|].
    rewrite andb_false_r. symmetry. apply (testbit_above 64); unfold is_word in *; lia.
Qed.

Lemma aligned_land_mask x k : 0 <= k -> Z.land x (2 ^ k - 1) = x mod 2 ^ k.
Proof.
  intros. replace (2 ^ k - 1) with (Z.ones k) by (rewrite Z.ones_equiv; lia).
  apply Z.land_ones. lia.
Qed.

(** ** Automation shared by the development

    [l4] holds the bounds of masked words, [bf] the field algebra. *)
Create HintDb l4.
Create Rewrite HintDb bf.
#[export] Hint Resolve wrap_bounds w64_is_word bf_get_bounds bf_set_nonneg : l4.
#[export] Hint Rewrite bf_get_0 : bf.
#[export] Hint Rewrite bf_get_set_eq bf_set_get bf_set_set_eq using bf_side : bf.
#[export] Hint Rewrite bf_get_set_ne using bf_side : bf.

(** Normalise reads of concretely written bit fields, and evaluate the widths
    of concrete fields. *)
Ltac is_z_lit z :=
  match z with
  | Z0 => idtac
  | Zpos _ => idtac
  | Zneg _ => idtac
  end.

Ltac bf_widths :=
  repeat match goal with
  | |- context [bf_width ?f] =>
      let v := eval vm_compute in (bf_width f) in is_z_lit v; change (bf_width f) with v
  end.

Ltac bf_simpl := autorewrite with bf; bf_widths.

(** Case analysis on every boolean comparison of integers in sight. *)
Ltac zbool :=
  repeat match goal with
  | H : (_ =? _) = true |- _ => apply Z.eqb_eq in H
  | H : (_ =? _) = false |- _ => apply Z.eqb_neq in H
  | H : (_ <? _) = true |- _ => apply Z.ltb_lt in H
  | H : (_ <? _) = false |- _ => apply Z.ltb_ge in H
  | H : (_ <=? _) = true |- _ => apply Z.leb_le in H
  | H : (_ <=? _) = false |- _ => apply Z.leb_gt in H
  | H : _ && _ = true |- _ => apply andb_true_iff in H as [? ?]
  | H : _ || _ = false |- _ => apply orb_false_iff in H as [? ?]
  | H : negb _ = true |- _ => apply negb_true_iff in H
  | H : negb _ = false |- _ => apply negb_false_iff in H
  end.

Lemma div_pow2_bounds a b x :
  0 <= a -> 0 <= b -> 0 <= x < 2 ^ (a + b) -> 0 <= x / 2 ^ a < 2 ^ b.
Proof.
  intros Ha Hb Hx. rewrite Z.pow_add_r in Hx by lia.
  pose proof (Z.pow_pos_nonneg 2 a). split.
  - apply Z.div_pos; lia.
  - apply Z.div_lt_upper_bound; lia.
Qed.

(** rounding down to a power of two stays in the word *)
Lemma div_mul_pow2 a x : 0 <= a -> x / 2 ^ a * 2 ^ a = x - x mod 2 ^ a.
Proof. intros. pose proof (Z.div_mod x (2 ^ a)). lia. Qed.

(** [lia] after evaluating the literal powers of two and eliminating divisions
    and remainders. *)
Ltac is_pos_lit p :=
  match p with
  | xH => idtac
  | xO ?q => is_pos_lit q
  | xI ?q => is_pos_lit q
  end.

Ltac lit_pow :=
  repeat match goal with
  | |- context [2 ^ (Zpos ?p)] =>
      is_pos_lit p; let v := eval vm_compute in (2 ^ (Zpos p)) in change (2 ^ (Zpos p)) with v
  | H : context [2 ^ (Zpos ?p)] |- _ =>
      is_pos_lit p;
      let v := eval vm_compute in (2 ^ (Zpos p)) in change (2 ^ (Zpos p)) with v in H
  end.

Ltac zlia := unfold is_word in *; lit_pow; Z.div_mod_to_equations; lia.

(** ** Records with updates *)

(** [with_field f v r eta] is the record [r] with member [f] replaced by [v] *)
Ltac with_field f v r eta :=
  let t := eval cbv beta delta [eta] in (eta r) in
  let t := eval pattern (f r) in t in
  match t with ?g _ => let u := eval cbv beta in (g v) in exact u end.

(** ** Masking a word field by field *)

Lemma bf_get_land f t m : bf_get f (Z.land t m) = Z.land (bf_get f t) (bf_get f m).
Proof.
  unfold bf_get. rewrite Z.shiftr_land.
  apply Z.bits_inj'. intros i Hi. rewrite !Z.land_spec.
  now destruct (Z.testbit (Z.ones _) i), (Z.testbit (Z.shiftr t _) i), (Z.testbit (Z.shiftr m _) i).
Qed.

Lemma bf_get_land_keep f t m :
  bf_ok f -> bf_get f m = Z.ones (bf_width f) -> bf_get f (Z.land t m) = bf_get f t.
Proof.
  intros Hf Hm. rewrite bf_get_land, Hm, Z.land_ones by apply Hf.
  apply Z.mod_small. now apply bf_get_bounds.
Qed.

Lemma bf_get_land_drop f t m : bf_get f m = 0 -> bf_get f (Z.land t m) = 0.
Proof. intros Hm. now rewrite bf_get_land, Hm, Z.land_0_r. Qed.

Lemma bf_get_lor f t m : bf_get f (Z.lor t m) = Z.lor (bf_get f t) (bf_get f m).
Proof. unfold bf_get. now rewrite Z.shiftr_lor, Z.land_lor_distr_l. Qed.
