(* ===== verification/Types.v ===== *)
(** * Basic types and constants

    [include/types.h] (address arithmetic), the [min]/[max] macros of
    [macros.h], and the constants of [api/v4/config.h],
    [glue/v4-mips64/config.h] and [arch/mips64/page.h] for the configured
    target (MIPS64 R4x00 on the u4600, 64-bit, big endian, no SMP). *)

From Stdlib Require Import ZArith Lia Bool List.
From stdpp Require Import base numbers list.
From S2P Require Import Prelude.
Open Scope Z_scope.

(** ** [types.h] *)

Definition NULL : Z := 0.

Definition addr_offset (addr off : Z) : Z := w64 (addr + off).
Definition addr_mask (addr mask : Z) : Z := Z.land addr mask.
Definition addr_align (addr align : Z) : Z := addr_mask addr (wnot (w64 (align - 1))).
Definition addr_align_up (addr align : Z) : Z :=
  addr_mask (addr_offset addr (w64 (align - 1))) (wnot (w64 (align - 1))).

(** ** [macros.h] *)

Definition max (a b : Z) : Z := if a >? b then a else b.
Definition min (a b : Z) : Z := if a <? b then a else b.

(** ** [api/v4/config.h], 64-bit column *)

Module Config.
Definition L4_GLOBAL_THREADNO_BITS := 32.
Definition L4_GLOBAL_VERSION_BITS := 32.
Definition L4_LOCAL_ID_BITS := 58.
Definition L4_LOCAL_ID_ZERO_BITS := 6.
Definition L4_FPAGE_BASE_BITS := 54.

Definition MAX_PRIO := 255.
Definition ROOT_PRIORITY := MAX_PRIO.
Definition DEFAULT_PRIORITY := 100.
Definition ROOT_MAX_THREADS := 256.
Definition ROOT_VERSION := 1.
Definition IPC_NUM_MR := 64.
Definition IPC_NUM_BR := 33.
End Config.

(** ** [arch/mips64/page.h] and [glue/v4-mips64/config.h] *)

Module Layout.
Definition CONFIG_MIPS64_ADDRESS_BITS := 40.
Definition TOPLEVEL_PT_BITS := 39.
Definition MIPS64_PAGE_BITS := 12.
Definition MIPS64_PAGE_SIZE := 2 ^ MIPS64_PAGE_BITS.

Definition AS_XKUSEG_START := 0.
Definition AS_XKUSEG_SIZE := 2 ^ CONFIG_MIPS64_ADDRESS_BITS.
Definition AS_XKUSEG_END := AS_XKUSEG_START + AS_XKUSEG_SIZE - 1.
Definition AS_CKSEG0_START := 0xFFFFFFFF80000000.
Definition AS_CKSEG0_SIZE := 2 ^ 29.
Definition AS_CKSEG0_END := AS_CKSEG0_START + AS_CKSEG0_SIZE - 1.
Definition AS_CKSEG3_START := 0xFFFFFFFFe0000000.
Definition AS_CKSEG3_SIZE := 2 ^ 29.
Definition AS_XKSEG_START := 0x4000000000000000.
Definition AS_KSEG_START := AS_CKSEG0_START.
Definition AS_KSEG_END := AS_CKSEG0_END.

Definition HW_PGSHIFTS : list Z := [12; 14; 16; 18; 20; 22; 24; 32; 41].

Definition KTCB_BITS := 12.
Definition KTCB_SIZE := 4096.
Definition KTCB_MASK := wnot (2 ^ KTCB_BITS - 1).
Definition UTCB_BITS := 10.
Definition UTCB_SIZE := 1024.
Definition VALID_THREADNO_BITS := TOPLEVEL_PT_BITS - KTCB_BITS.
Definition KTCB_AREA_SIZE := 2 ^ (KTCB_BITS + VALID_THREADNO_BITS).
Definition KTCB_AREA_START := AS_XKSEG_START.
Definition KTCB_AREA_END := KTCB_AREA_START + KTCB_AREA_SIZE - 1.
Definition COPY_AREA_START := AS_CKSEG3_START.
Definition COPY_AREA_SIZE := AS_CKSEG3_SIZE.
Definition COPY_AREA_END := COPY_AREA_START + COPY_AREA_SIZE - 1.
Definition USER_AREA_START := AS_XKUSEG_START.
Definition USER_AREA_END := AS_XKUSEG_END.
Definition ROOT_UTCB_START := 2 ^ 32.
Definition ROOT_KIP_START := 2 ^ 33.
Definition TIMER_TICK_LENGTH := 2000.
End Layout.

(** ** Alignment *)

Lemma max_Zmax a b : max a b = Z.max a b.
Proof. unfold max. destruct (a >? b) eqn:E; lia. Qed.

Lemma wrap_pow2_pred k : 0 <= k < 64 -> w64 (2 ^ k - 1) = 2 ^ k - 1.
Proof.
  intros. apply wrap_small. pose proof (Z.pow_lt_mono_r 2 k 64). lia.
Qed.

Lemma addr_align_eq a k :
  is_word a -> 0 <= k < 64 -> addr_align a (2 ^ k) = a - a mod 2 ^ k.
Proof.
  intros. unfold addr_align, addr_mask. rewrite wrap_pow2_pred by lia.
  apply land_wnot_mask; [done|lia].
Qed.

Lemma addr_align_up_eq a k :
  is_word a -> 0 <= k < 64 ->
  addr_align_up a (2 ^ k) = w64 (a + 2 ^ k - 1) - w64 (a + 2 ^ k - 1) mod 2 ^ k.
Proof.
  intros. unfold addr_align_up, addr_offset, addr_mask. rewrite wrap_pow2_pred by lia.
  rewrite land_wnot_mask; [|apply w64_is_word|lia].
  now rewrite !Z.add_sub_assoc.
Qed.

(** [addr_align] and [addr_align_up] with a power-of-two alignment give the
    enclosing multiples: the greatest one not above the address, and the least
    one not below it.  The upper one is exact unless rounding up leaves the
    64-bit address space, in which case the result is 0. *)
Theorem addr_align_enclosing a k :
  is_word a -> 0 <= k < 64 ->
  let down := addr_align a (2 ^ k) in
  let up := addr_align_up a (2 ^ k) in
  (2 ^ k | down) /\ down <= a < down + 2 ^ k /\
  (a + 2 ^ k <= 2 ^ 64 -> (2 ^ k | up) /\ up - 2 ^ k < a <= up) /\
  (2 ^ 64 < a + 2 ^ k -> a mod 2 ^ k <> 0 -> up = 0).
Proof.
  intros Ha Hk down up. subst down up.
  rewrite addr_align_eq, addr_align_up_eq by done.
  unfold is_word in Ha.
  assert (0 < 2 ^ k) by lia.
  pose proof (Z.mod_pos_bound a (2 ^ k)).
  assert (Hdiv : forall x, (2 ^ k | x - x mod 2 ^ k)).
  { intros x. exists (x / 2 ^ k). pose proof (Z.div_mod x (2 ^ k)). lia. }
  split_and!; [apply Hdiv|lia|lia| |].
  - intros. rewrite wrap_small by lia. split; [apply Hdiv|].
    pose proof (Z.mod_pos_bound (a + 2 ^ k - 1) (2 ^ k)).
    split; [|lia].
    lia.
  - intros Hov Hne.
    assert (2 ^ 64 = 2 ^ (64 - k) * 2 ^ k) as Hp by (rewrite <- Z.pow_add_r by lia; f_equal; lia).
    pose proof (Z.pow_lt_mono_r 2 k 64).
    assert (w64 (a + 2 ^ k - 1) = a + 2 ^ k - 1 - 2 ^ 64) as ->.
    { unfold wrap. symmetry. apply (Zmod_unique _ _ 1); lia. }
    assert (0 <= a + 2 ^ k - 1 - 2 ^ 64 < 2 ^ k) by lia.
    rewrite Z.mod_small by lia. lia.
Qed.

Lemma addr_align_enclosing_witness :
  is_word 4097 /\ addr_align 4097 (2 ^ 12) = 4096 /\ (2 ^ 12 | addr_align 4097 (2 ^ 12)).
Proof.
  split; [unfold is_word; lia|]. split; [reflexivity|].
  apply (addr_align_enclosing 4097 12); [unfold is_word; lia|lia].
Defined.
