(* ===== verification/Time.v ===== *)
(** * Time values and timeouts

    [api/v4/types.h]: [time_t] (a 16-bit mantissa/exponent encoding of
    microseconds) and [timeout_t] (a word holding the receive and the send
    timeout of an IPC). *)

From Stdlib Require Import ZArith Lia Bool List.
From stdpp Require Import base numbers list.
From S2P Require Import Prelude Types.
Open Scope Z_scope.

(** ** [time_t] *)

(** [BITFIELD3(u16_t, mantissa : 10, exponent : 5, type : 1)] *)
Definition time_fields : list bitfield := BITFIELD true 16 [10; 5; 1].
Definition tm_mantissa := nth 0 time_fields (BF 0 0).
Definition tm_exponent := nth 1 time_fields (BF 0 0).
Definition tm_type := nth 2 time_fields (BF 0 0).

(** the three members fill the 16 bits, so the uninitialised local the source
    assigns them in leaves no trace and is modelled as 0 *)
Definition time_make (mantissa exponent type : Z) : Z :=
  bf_set tm_type type (bf_set tm_exponent exponent (bf_set tm_mantissa mantissa 0)).

Definition time_never : Z := 0.
Definition time_zero : Z := time_make 0 1 0.
Definition time_period (mantissa exponent : Z) : Z := time_make mantissa exponent 0.
Definition time_point (mantissa exponent : Z) : Z := time_make mantissa exponent 1.
Definition time_set_raw (raw : Z) : Z := w16 raw.

Definition time_is_never (t : Z) : bool := t =? 0.
Definition time_is_zero (t : Z) : bool := time_zero =? t.
Definition time_is_period (t : Z) : bool := bf_get tm_type t =? 0.
Definition time_is_point (t : Z) : bool := bf_get tm_type t =? 1.

(** [(1 << time.exponent) * time.mantissa]: both operands are [int]s, so the
    shift and the product are taken in 32 bits (with the wrap-around the
    hardware gives them) before the conversion to [u64_t]. *)
Definition get_microseconds (t : Z) : Z :=
  w64 (swrap 32 (int_bit (bf_get tm_exponent t) * bf_get tm_mantissa t)).

Definition DEFAULT_TIMESLICE_LENGTH : Z := time_period 625 4.
Definition DEFAULT_TOTAL_QUANTUM : Z := time_never.

(** ** [timeout_t] *)

(** [BITFIELD4(time_t, rcv_timeout, snd_timeout, _rv0, _rv1)]: 16-bit members *)
Definition to_rcv := member [16; 16; 16; 16] 0.
Definition to_snd := member [16; 16; 16; 16] 1.

Definition timeout_never : Z := 0.
Definition get_rcv (t : Z) : Z := bf_get to_rcv t.
Definition get_snd (t : Z) : Z := bf_get to_snd t.
Definition timeout_set_raw (raw : Z) : Z := raw.
Definition timeout_is_never (t : Z) : bool := t =? timeout_never.

(** ** Facts *)

Lemma swrap_small w x : 0 < w -> 0 <= x < 2 ^ (w - 1) -> swrap w x = x.
Proof.
  intros Hw Hx. unfold swrap.
  assert (2 ^ w = 2 * 2 ^ (w - 1)) by (rewrite <- Z.pow_succ_r by lia; f_equal; lia).
  rewrite wrap_small by lia. destruct (Z.ltb_spec x (2 ^ (w - 1))); lia.
Qed.

Lemma int_bit_small n : 0 <= n < 31 -> int_bit n = 2 ^ n.
Proof.
  intros. unfold int_bit. rewrite Z.mod_small, Z.shiftl_1_l by lia.
  apply swrap_small; [lia|]. split; [lia|].
  apply Z.pow_lt_mono_r; lia.
Qed.

Lemma time_make_fields m e t :
  0 <= m < 2 ^ 10 -> 0 <= e < 2 ^ 5 -> 0 <= t < 2 ->
  bf_get tm_mantissa (time_make m e t) = m /\
  bf_get tm_exponent (time_make m e t) = e /\
  bf_get tm_type (time_make m e t) = t.
Proof.
  intros. unfold time_make. bf_simpl. simpl.
  change (bf_width tm_mantissa) with 10. change (bf_width tm_exponent) with 5.
  change (bf_width tm_type) with 1.
  rewrite !Z.mod_small by lia. done.
Qed.

(** A time period built from a 10-bit mantissa [m] and a 5-bit exponent
    [e] decodes to exactly [m * 2^e] microseconds as long as that product fits
    a 32-bit signed [int]; it is a period and never a point, it is the value
    [never] exactly when both parts are zero, and [zero] exactly when [m = 0]
    and [e = 1]. *)
Theorem time_period_decodes m e :
  0 <= m < 2 ^ 10 -> 0 <= e < 2 ^ 5 ->
  let t := time_period m e in
  time_is_period t = true /\ time_is_point t = false /\
  time_is_never t = (m =? 0) && (e =? 0) /\
  time_is_zero t = (m =? 0) && (e =? 1) /\
  (e < 31 -> m * 2 ^ e < 2 ^ 31 -> get_microseconds t = m * 2 ^ e).
Proof.
  intros Hm He t.
  destruct (time_make_fields m e 0) as (Fm & Fe & Ft); [lia..|].
  change (time_make m e 0) with t in Fm, Fe, Ft.
  assert (Ht0 : t = time_period m e) by done. clearbody t.
  unfold time_is_period, time_is_point, time_is_never, time_is_zero.
  rewrite Ft. split_and!; [done|done| | |].
  - destruct (Z.eqb_spec t 0) as [E|E].
    + rewrite E, bf_get_0 in Fm, Fe. now subst.
    + destruct (Z.eqb_spec m 0), (Z.eqb_spec e 0); try done. clear Fm Fe. subst. now destruct E.
  - destruct (Z.eqb_spec time_zero t) as [E|E].
    + rewrite <- E in Fm, Fe. now subst.
    + destruct (Z.eqb_spec m 0), (Z.eqb_spec e 1); try done. clear Fm Fe. subst. now destruct E.
  - intros He' Hp. unfold get_microseconds.
    rewrite Fm, Fe, int_bit_small by lia.
    rewrite (Z.mul_comm _ m), swrap_small by lia.
    apply wrap_small. pose proof (Z.pow_lt_mono_r 2 31 64). lia.
Qed.

Lemma time_period_decodes_witness :
  (0 <= 625 < 2 ^ 10 /\ 0 <= 4 < 2 ^ 5) /\ get_microseconds (time_period 625 4) = 10000.
Proof.
  split; [lia|]. apply (time_period_decodes 625 4); lia.
Defined.

(** The microsecond value of a large period is wrong: mantissa 1023 with
    exponent 22 (71 minutes, less than 2^32 microseconds) decodes to a number
    above 2^63 (the negative [int] sign-extended to [u64_t]), and mantissa 2
    with exponent 31 decodes to no time at all. *)
Theorem get_microseconds_overflows :
  get_microseconds (time_period 1023 22) = 2 ^ 64 - 2 ^ 22 /\
  get_microseconds (time_period 2 31) = 0 /\
  1023 * 2 ^ 22 < 2 ^ 32.
Proof. vm_compute. done. Qed.
