(* ===== verification/Region.v ===== *)
(** * Memory regions

    [mem_region_t] of [generic/memregion.h]: half-open ranges of addresses. *)

From Stdlib Require Import ZArith Lia Bool.
From stdpp Require Import base numbers.
From S2P Require Import Prelude Types.
Open Scope Z_scope.

Record mem_region_t := Region { low : Z; high : Z }.

Definition is_adjacent (this reg : mem_region_t) : bool :=
  (high this =? low reg) || (low this =? high reg).
Definition is_intersection (this reg : mem_region_t) : bool :=
  ((low this <=? low reg) && (low reg <? high this)) ||
  ((low this <? high reg) && (high reg <=? high this)) ||
  ((low reg <=? low this) && (high this <=? high reg)).
Definition is_empty (this : mem_region_t) : bool := high this =? 0.
Definition set_empty (this : mem_region_t) : mem_region_t := Region (low this) 0.
(** [operator +=] *)
Definition plus_assign (this reg : mem_region_t) : mem_region_t :=
  Region (if low reg <? low this then low reg else low this)
         (if high this <? high reg then high reg else high this).
Definition set (l h : Z) : mem_region_t := Region l h.
Definition get_size (this : mem_region_t) : Z :=
  if is_empty this then 0 else w64 (high this - low this).

Definition in_region (r : mem_region_t) (a : Z) : Prop := low r <= a < high r.
Definition proper (r : mem_region_t) : Prop := 0 <= low r < high r.

(** Regions are sets of addresses: two proper regions intersect exactly if
    they share an address, the sum is the least region that contains both, and
    the sum of intersecting or adjacent regions holds nothing else. *)
Theorem regions_are_sets r1 r2 :
  proper r1 -> proper r2 ->
  (is_intersection r1 r2 = true <-> exists a, in_region r1 a /\ in_region r2 a) /\
  (forall a, in_region r1 a \/ in_region r2 a -> in_region (plus_assign r1 r2) a) /\
  (forall r, (forall a, in_region r1 a \/ in_region r2 a -> in_region r a) ->
     forall a, in_region (plus_assign r1 r2) a -> in_region r a) /\
  (is_intersection r1 r2 || is_adjacent r1 r2 = true ->
     forall a, in_region (plus_assign r1 r2) a -> in_region r1 a \/ in_region r2 a).
Proof.
  unfold proper, in_region. intros H1 H2.
  assert (Hi : is_intersection r1 r2 = true <-> low r1 < high r2 /\ low r2 < high r1).
  { unfold is_intersection. rewrite !orb_true_iff, !andb_true_iff, !Z.leb_le, !Z.ltb_lt. lia. }
  assert (Hlow : low (plus_assign r1 r2) = Z.min (low r1) (low r2)).
  { unfold plus_assign. simpl. destruct (Z.ltb_spec (low r2) (low r1)); lia. }
  assert (Hhigh : high (plus_assign r1 r2) = Z.max (high r1) (high r2)).
  { unfold plus_assign. simpl. destruct (Z.ltb_spec (high r1) (high r2)); lia. }
  rewrite Hlow, Hhigh. split_and!.
  - rewrite Hi. split; [|intros (a & ? & ?); lia]. intros [? ?]. exists (Z.max (low r1) (low r2)). lia.
  - intros a Ha. lia.
  - intros r Hr a Ha. pose proof (Hr (low r1)). pose proof (Hr (low r2)).
    pose proof (Hr (high r1 - 1)). pose proof (Hr (high r2 - 1)). lia.
  - rewrite orb_true_iff, Hi. unfold is_adjacent. rewrite orb_true_iff, !Z.eqb_eq. intros Hc a Ha. lia.
Qed.

Lemma regions_are_sets_witness :
  proper (Region 0 4096) /\ is_intersection (Region 0 4096) (Region 2048 8192) = true /\
  exists a, in_region (Region 0 4096) a /\ in_region (Region 2048 8192) a.
Proof.
  split; [unfold proper; simpl; lia|]. split; [reflexivity|].
  apply (regions_are_sets (Region 0 4096) (Region 2048 8192)); try (unfold proper; simpl; lia).
  reflexivity.
Defined.
