(* ===== verification/Kip.v ===== *)
(** * The kernel interface page

    [api/v4/kernelinterface.h] and [api/v4/memdesc.h]: the packed information
    words of the kernel interface page, with the accessors the kernel uses.
    Only what a kernel operation reads or writes is a member of [kip_t]. *)

From Stdlib Require Import ZArith Lia Bool List.
From stdpp Require Import base numbers list.
From S2P Require Import Prelude Types.
From S2P Require Region.
Open Scope Z_scope.

(** ** [memory_info_t] *)
Module MemoryInfo.
Definition n := member [32; 32] 0.
Definition memdesc_ptr := member [32; 32] 1.
Definition get_num_descriptors (w : Z) : Z := bf_get n w.
End MemoryInfo.

(** ** [utcb_info_t] *)
Module UtcbInfo.
Definition layout := [10; 6; 6; 42].
Definition multiplier := member layout 0.
Definition alignment := member layout 1.
Definition size := member layout 2.

(** [1 << size] and [1 << alignment] are [int] shifts, converted to [word_t] *)
Definition get_minimal_size (w : Z) : Z := w64 (int_bit (bf_get size w)).
Definition get_utcb_alignment (w : Z) : Z := w64 (int_bit (bf_get alignment w)).
Definition get_utcb_size (w : Z) : Z := w64 (get_utcb_alignment w * bf_get multiplier w).
Definition is_valid_utcb_location (w utcb_location : Z) : bool :=
  Z.land (w64 (swrap 32 (int_bit (bf_get alignment w) - 1))) utcb_location =? 0.
End UtcbInfo.

(** ** [kip_area_info_t] *)
Module KipAreaInfo.
Definition size := member [6; 58] 0.
Definition get_size (w : Z) : Z := w64 (int_bit (bf_get size w)).
Definition get_size_log2 (w : Z) : Z := bf_get size w.
End KipAreaInfo.

(** ** [clock_info_t] *)
Module ClockInfo.
Definition read_precision := member [16; 16; 32] 0.
Definition schedule_precision := member [16; 16; 32] 1.
Definition get_read_precision (w : Z) : Z := bf_get read_precision w.
Definition get_schedule_precision (w : Z) : Z := bf_get schedule_precision w.
End ClockInfo.

(** ** [thread_info_t] *)
Module ThreadInfo.
Definition layout := [8; 12; 12; 32].
Definition t := member layout 0.
Definition system_base := member layout 1.
Definition user_base := member layout 2.
Definition get_user_base (w : Z) : Z := bf_get user_base w.
Definition get_system_base (w : Z) : Z := bf_get system_base w.
Definition get_significant_threadbits (w : Z) : Z := bf_get t w.
Definition set_user_base (base w : Z) : Z := bf_set user_base base w.
Definition set_system_base (base w : Z) : Z := bf_set system_base base w.
End ThreadInfo.

(** ** [page_info_t] *)
Module PageInfo.
Definition rwx := member [3; 7; 54] 0.
Definition size_mask := member [3; 7; 54] 2.
Definition get_access_rights (w : Z) : Z := bf_get rwx w.
Definition get_page_size_mask (w : Z) : Z := w64 (Z.shiftl (bf_get size_mask w) 10).
End PageInfo.

(** ** [processor_info_t] *)
Module ProcessorInfo.
Definition processors := member [16; 44; 4] 0.
Definition size := member [16; 44; 4] 2.
Definition get_num_processors (w : Z) : Z := w64 (bf_get processors w + 1).
Definition get_procdesc_size (w : Z) : Z := w64 (int_bit (bf_get size w)).
End ProcessorInfo.

(** ** [api_flags_t], [api_version_t] *)
Module ApiFlags.
Definition endian := member [2; 2; 60] 0.
Definition word_size := member [2; 2; 60] 1.
Definition get_endian (w : Z) : Z := bf_get endian w.
Definition get_word_size (w : Z) : Z := bf_get word_size w.
Definition to_word (w : Z) : Z := Z.lor (w64 (Z.shiftl (bf_get word_size w) 2)) (bf_get endian w).
End ApiFlags.

Module ApiVersion.
Definition subversion := member [16; 8; 8; 32] 1.
Definition version := member [16; 8; 8; 32] 2.
Definition get_version (w : Z) : Z := bf_get version w.
Definition get_subversion (w : Z) : Z := bf_get subversion w.
Definition to_word (w : Z) : Z :=
  Z.lor (w64 (Z.shiftl (bf_get version w) 24)) (w64 (Z.shiftl (bf_get subversion w) 16)).
End ApiVersion.

(** ** [kernel_id_t], [kernel_gen_date_t], [kernel_version_t] *)
Module KernelId.
Definition subid := member [16; 8; 8; 32] 1.
Definition id := member [16; 8; 8; 32] 2.
Definition get_subid (w : Z) : Z := bf_get subid w.
Definition get_id (w : Z) : Z := bf_get id w.
Definition get_raw (w : Z) : Z :=
  Z.lor (w64 (Z.shiftl (bf_get id w) 24)) (w64 (Z.shiftl (bf_get subid w) 16)).
End KernelId.

Module KernelGenDate.
Definition day := member [5; 4; 7; 48] 0.
Definition month := member [5; 4; 7; 48] 1.
Definition year := member [5; 4; 7; 48] 2.
Definition get_day (w : Z) : Z := bf_get day w.
Definition get_month (w : Z) : Z := bf_get month w.
Definition get_year (w : Z) : Z := w64 (bf_get year w + 2000).
End KernelGenDate.

Module KernelVersion.
Definition subsubver := member [16; 8; 8; 32] 0.
Definition subver := member [16; 8; 8; 32] 1.
Definition ver := member [16; 8; 8; 32] 2.
Definition get_subsubver (w : Z) : Z := bf_get subsubver w.
Definition get_subver (w : Z) : Z := bf_get subver w.
Definition get_ver (w : Z) : Z := bf_get ver w.
End KernelVersion.

(** ** [memdesc_t]: two words *)
Module Memdesc.
Record t := mk { w0 : Z; w1 : Z }.

Inductive type_e := undefined | conventional | reserved | dedicated | shared | max_type.
Definition type_val (e : type_e) : Z :=
  match e with
  | undefined => 0 | conventional => 1 | reserved => 2
  | dedicated => 3 | shared => 4 | max_type => 5
  end.

Definition layout0 := [4; 4; 1; 1; 54].
Definition f_type := member layout0 0.
Definition f_t := member layout0 1.
Definition f_v := member layout0 3.
Definition f_low := member layout0 4.
Definition f_high := member [10; 54] 1.

Definition type (m : t) : Z := bf_get f_type (w0 m).
Definition subtype (m : t) : Z := bf_get f_t (w0 m).
Definition is_virtual (m : t) : bool := bf_flag f_v (w0 m).
Definition low (m : t) : Z := w64 (Z.shiftl (bf_get f_low (w0 m)) 10).
Definition high (m : t) : Z := w64 (w64 (Z.shiftl (bf_get f_high (w1 m)) 10) + 0x3ff).
Definition size (m : t) : Z :=
  w64 (Z.shiftl (w64 (bf_get f_high (w1 m) - bf_get f_low (w0 m) + 1)) 10).

Definition set (ty : type_e) (st : Z) (virt : bool) (lo hi : Z) (m : t) : t :=
  {| w0 := bf_set f_low (Z.shiftr lo 10)
             (bf_set f_v (Z.b2z virt) (bf_set f_t st (bf_set f_type (type_val ty) (w0 m))));
     w1 := bf_set f_high (Z.shiftr hi 10) (w1 m) |}.
End Memdesc.

(** ** [procdesc_t] of [api/v4/procdesc.h] *)
Record procdesc_t := Procdesc {
  external_freq : Z;
  internal_freq : Z;
  freq_change : Z;
  arch1 : Z;
}.
Definition set_external_frequency (freq : Z) (d : procdesc_t) : procdesc_t :=
  Procdesc freq (internal_freq d) (freq_change d) (arch1 d).
Definition set_internal_frequency (freq : Z) (d : procdesc_t) : procdesc_t :=
  Procdesc (external_freq d) freq (freq_change d) (arch1 d).

(** [root_server_t]: one of the initial servers *)
Record root_server_t := RootServer {
  rs_sp : Z;
  rs_ip : Z;
  rs_mem_region : Region.mem_region_t;
}.

(** ** The page itself *)

(** the members of [kernel_interface_page_t] that kernel operations use *)
Record kip_t := Kip {
  kip_utcb_info : Z;
  kip_kip_area_info : Z;
  kip_thread_info : Z;
  kip_processor_info : Z;
  kip_api_version : Z;
  kip_api_flags : Z;
  kip_kernel_desc_ptr : Z;
  kip_kernel_descriptor : Z;  (** the first word of the kernel descriptor *)
  kip_kdebug_init : Z;
  kip_kdebug_entry : Z;
  kip_sigma0 : root_server_t;
  kip_sigma1 : root_server_t;
  kip_root_server : root_server_t;
  kip_main_mem : Region.mem_region_t;
  kip_dedicated_mem0 : Region.mem_region_t;
  kip_dedicated_mem1 : Region.mem_region_t;
  kip_procdescs : list procdesc_t;  (** the processor descriptor array *)
}.

Definition kip_eta (k : kip_t) : kip_t :=
  Kip (kip_utcb_info k) (kip_kip_area_info k) (kip_thread_info k) (kip_processor_info k) (kip_api_version k)
      (kip_api_flags k) (kip_kernel_desc_ptr k) (kip_kernel_descriptor k) (kip_kdebug_init k) (kip_kdebug_entry k)
      (kip_sigma0 k) (kip_sigma1 k) (kip_root_server k) (kip_main_mem k) (kip_dedicated_mem0 k)
      (kip_dedicated_mem1 k) (kip_procdescs k).
Definition kip_set_thread_info (w : Z) (k : kip_t) : kip_t := ltac:(with_field kip_thread_info w k kip_eta).
Definition kip_set_processor_info (w : Z) (k : kip_t) : kip_t := ltac:(with_field kip_processor_info w k kip_eta).
Definition kip_set_dedicated_mem0 (r : Region.mem_region_t) (k : kip_t) : kip_t :=
  ltac:(with_field kip_dedicated_mem0 r k kip_eta).
Definition kip_set_dedicated_mem1 (r : Region.mem_region_t) (k : kip_t) : kip_t :=
  ltac:(with_field kip_dedicated_mem1 r k kip_eta).
Definition kip_set_procdescs (l : list procdesc_t) (k : kip_t) : kip_t := ltac:(with_field kip_procdescs l k kip_eta).

Definition no_server : root_server_t := RootServer 0 0 (Region.Region 0 0).
Definition zero_kip : kip_t :=
  Kip 0 0 0 0 0 0 0 0 0 0 no_server no_server no_server (Region.Region 0 0) (Region.Region 0 0) (Region.Region 0 0) [].

(** [KIP_UTCB_INFO] and [KIP_KIP_AREA] of [glue/v4-mips64/config.h] *)
Definition KIP_UTCB_INFO : Z :=
  bf_set UtcbInfo.size Layout.MIPS64_PAGE_BITS
    (bf_set UtcbInfo.alignment Layout.UTCB_BITS (bf_set UtcbInfo.multiplier 1 0)).
Definition KIP_KIP_AREA : Z := bf_set KipAreaInfo.size Layout.MIPS64_PAGE_BITS 0.

(** ** Facts *)

(** A memory descriptor reads back what [set] stored: type, subtype, kind
    of memory, and both bounds rounded to the 1 KB granularity (the lower
    bound down, the upper bound up to the last byte of its kilobyte), with
    [size] the number of bytes between them. *)
Theorem memdesc_set_roundtrip ty st virt lo hi m :
  0 <= st < 16 -> is_word lo -> is_word hi ->
  let d := Memdesc.set ty st virt lo hi m in
  Memdesc.type d = Memdesc.type_val ty /\ Memdesc.subtype d = st /\
  Memdesc.is_virtual d = virt /\
  Memdesc.low d = lo - lo mod 2 ^ 10 /\
  Memdesc.high d = hi - hi mod 2 ^ 10 + (2 ^ 10 - 1) /\
  (lo <= hi -> Memdesc.high d < 2 ^ 64 - 1 \/ 0 < Memdesc.low d ->
     Memdesc.size d = Memdesc.high d - Memdesc.low d + 1).
Proof.
  intros Hst Hlo Hhi d. unfold is_word in *.
  assert (Hl : bf_get Memdesc.f_low (Memdesc.w0 d) = lo / 1024).
  { unfold d, Memdesc.set; simpl. bf_simpl. rewrite Z.shiftr_div_pow2 by lia.
    apply Z.mod_small. apply (div_pow2_bounds 10 54); lia. }
  assert (Hh : bf_get Memdesc.f_high (Memdesc.w1 d) = hi / 1024).
  { unfold d, Memdesc.set; simpl. bf_simpl. rewrite Z.shiftr_div_pow2 by lia.
    apply Z.mod_small. apply (div_pow2_bounds 10 54); lia. }
  assert (Hlow : Memdesc.low d = lo - lo mod 2 ^ 10).
  { unfold Memdesc.low. rewrite Hl, Z.shiftl_mul_pow2 by lia. rewrite wrap_small; zlia. }
  assert (Hhigh : Memdesc.high d = hi - hi mod 2 ^ 10 + (2 ^ 10 - 1)).
  { unfold Memdesc.high. rewrite Hh, Z.shiftl_mul_pow2 by lia.
    rewrite (wrap_small 64 (hi / 1024 * 2 ^ 10)) by zlia. rewrite wrap_small; zlia. }
  split_and!; [| | |done|done|].
  - unfold Memdesc.type, d, Memdesc.set; simpl. bf_simpl. now destruct ty.
  - unfold Memdesc.subtype, d, Memdesc.set; simpl. bf_simpl. now apply Z.mod_small.
  - unfold Memdesc.is_virtual, bf_flag, d, Memdesc.set; simpl. bf_simpl. now destruct virt.
  - intros Hle Hne. rewrite Hlow, Hhigh in *. unfold Memdesc.size. rewrite Hl, Hh.
    rewrite (wrap_small 64 (hi / _ - _ + 1)) by zlia.
    rewrite Z.shiftl_mul_pow2 by lia. rewrite wrap_small; zlia.
Qed.

Lemma memdesc_set_roundtrip_witness :
  let d := Memdesc.set Memdesc.conventional 3 false 0x1234 0x5678 (Memdesc.mk 0 0) in
  Memdesc.low d = 0x1000 /\ Memdesc.size d = Memdesc.high d - Memdesc.low d + 1.
Proof.
  destruct (memdesc_set_roundtrip Memdesc.conventional 3 false 0x1234 0x5678 (Memdesc.mk 0 0))
    as (_ & _ & _ & Hl & _ & Hs); [lia|unfold is_word; lia..|].
  split; [exact Hl|]. apply Hs; [lia|]. right. vm_compute. done.
Defined.
