(* ===== verification/ThreadId.v ===== *)
(** * Thread identifiers

    [api/v4/thread.h]: a thread id is a word read either as a global id
    (version and thread number) or as a local id (a UTCB address, recognised
    by its low six bits being zero). *)

From Stdlib Require Import ZArith Lia Bool List.
From stdpp Require Import base numbers list.
From S2P Require Import Prelude Types Kip.
Open Scope Z_scope.

(** [threadid_t] is its [raw] word. *)
Abbreviation threadid_t := Z (only parsing).

Definition local_zero := member [Config.L4_LOCAL_ID_ZERO_BITS; Config.L4_LOCAL_ID_BITS] 0.
Definition local_id := member [Config.L4_LOCAL_ID_ZERO_BITS; Config.L4_LOCAL_ID_BITS] 1.
Definition global_version :=
  member [Config.L4_GLOBAL_VERSION_BITS; Config.L4_GLOBAL_THREADNO_BITS] 0.
Definition global_threadno :=
  member [Config.L4_GLOBAL_VERSION_BITS; Config.L4_GLOBAL_THREADNO_BITS] 1.

Definition anythread : threadid_t := w64 (-1).
Definition anylocalthread : threadid_t := bf_set local_id (w64 (-1)) (bf_set local_zero 0 0).
Definition nilthread : threadid_t := 0.

(** version and number fill the word, so the uninitialised local of the source
    is modelled as 0 *)
Definition threadid (threadno version : Z) : threadid_t :=
  bf_set global_threadno threadno (bf_set global_version version 0).
Definition irqthread (irq : Z) : threadid_t := threadid irq 1.

Definition is_global (tid : threadid_t) : bool := negb (bf_get local_zero tid =? 0).
Definition is_local (tid : threadid_t) : bool := bf_get local_zero tid =? 0.
Definition get_threadno (tid : threadid_t) : Z := bf_get global_threadno tid.
Definition get_version (tid : threadid_t) : Z := bf_get global_version tid.
Definition get_irqno (tid : threadid_t) : Z := get_threadno tid.
Definition is_interrupt (kip : kip_t) (tid : threadid_t) : bool :=
  (get_version tid =? 1) &&
  (get_threadno tid <? ThreadInfo.get_system_base (kip_thread_info kip)).
Definition is_nilthread (tid : threadid_t) : bool := tid =? 0.
Definition is_anythread (tid : threadid_t) : bool := tid =? w64 (-1).
Definition is_anylocalthread (tid : threadid_t) : bool := tid =? anylocalthread.
Definition set_global_id (threadno version : Z) (tid : threadid_t) : threadid_t :=
  bf_set global_version version (bf_set global_threadno threadno tid).

(** ** Facts *)

Lemma threadid_fields n v :
  0 <= n < 2 ^ 32 -> 0 <= v < 2 ^ 32 ->
  get_threadno (threadid n v) = n /\ get_version (threadid n v) = v.
Proof.
  intros. unfold get_threadno, get_version, threadid. bf_simpl.
  change (bf_width global_threadno) with 32. change (bf_width global_version) with 32.
  now rewrite !Z.mod_small.
Qed.

Lemma threadid_word n v : is_word (threadid n v).
Proof.
  unfold is_word, threadid.
  apply bf_set_bounds; [bf_side|vm_compute; discriminate|].
  apply bf_set_bounds; [bf_side|vm_compute; discriminate|lia].
Qed.

(** The low six bits of the version decide between global and local ids. *)
Lemma local_zero_version tid : bf_get local_zero tid = get_version tid mod 2 ^ 6.
Proof.
  unfold get_version. rewrite !bf_get_mod by bf_side.
  change (bf_off local_zero) with 0. change (bf_off global_version) with 0.
  change (bf_width local_zero) with 6. change (bf_width global_version) with 32.
  rewrite Z.mod_mod_divide; [done|]. now exists (2 ^ 26).
Qed.

Lemma threadid_split tid :
  is_word tid -> tid = threadid (get_threadno tid) (get_version tid).
Proof.
  intros Hw. unfold threadid, get_threadno, get_version.
  apply Z.bits_inj'. intros i Hi.
  rewrite !bf_set_testbit by bf_side.
  change (bf_off global_threadno) with 32. change (bf_off global_version) with 0.
  change (bf_width global_threadno) with 32. change (bf_width global_version) with 32.
  destruct (Z.leb_spec 32 i); simpl.
  - destruct (Z.ltb_spec i (32 + 32)); simpl.
    + rewrite bf_get_testbit by (bf_side || lia).
      change (bf_width global_threadno) with 32. change (bf_off global_threadno) with 32.
      destruct (Z.ltb_spec (i - 32) 32); [|lia]. simpl. f_equal. lia.
    + destruct (Z.leb_spec 0 i), (Z.ltb_spec i (0 + 32)); try lia. simpl.
      rewrite Z.bits_0. apply (testbit_above 64); [exact Hw|lia].
  - destruct (Z.leb_spec 0 i), (Z.ltb_spec i (0 + 32)); try lia. simpl.
    rewrite bf_get_testbit by (bf_side || lia).
    change (bf_width global_version) with 32. change (bf_off global_version) with 0.
    destruct (Z.ltb_spec (i - 0) 32); [|lia]. simpl. f_equal. lia.
Qed.

(** Global thread ids are faithful: a number and a version of 32 bits each
    are read back unchanged from the id built of them, [set_global_id] builds
    the same id over any old one, and distinct words are distinct pairs.  The
    id is a global one exactly when its version is not a multiple of 64, so
    such a version makes the id read as a local one. *)
Theorem threadid_roundtrip n v old :
  0 <= n < 2 ^ 32 -> 0 <= v < 2 ^ 32 -> is_word old ->
  get_threadno (threadid n v) = n /\ get_version (threadid n v) = v /\
  set_global_id n v old = threadid n v /\
  threadid (get_threadno old) (get_version old) = old /\
  is_global (threadid n v) = negb (v mod 64 =? 0) /\
  is_local (threadid n v) = negb (is_global (threadid n v)).
Proof.
  intros Hn Hv Hold. destruct (threadid_fields n v Hn Hv) as [E1 E2].
  split_and!; [done|done| | | |].
  - assert (is_word (set_global_id n v old)) as Hw.
    { unfold is_word, set_global_id.
      apply bf_set_bounds; [bf_side|vm_compute; discriminate|].
      apply bf_set_bounds; [bf_side|vm_compute; discriminate|exact Hold]. }
    rewrite (threadid_split _ Hw). f_equal;
      unfold get_threadno, get_version, set_global_id; bf_simpl; now apply Z.mod_small.
  - symmetry. now apply threadid_split.
  - unfold is_global. now rewrite local_zero_version, E2.
  - unfold is_global, is_local. now rewrite negb_involutive.
Qed.

Lemma threadid_roundtrip_witness :
  get_threadno (threadid 70 1) = 70 /\ is_global (threadid 70 1) = true /\
  is_global (threadid 70 64) = false.
Proof.
  destruct (threadid_roundtrip 70 1 5) as (? & _ & _ & _ & ? & _);
    [lia|lia|unfold is_word; lia|].
  split_and!; [done|done|reflexivity].
Defined.
