(* ===== verification/Fpage.v ===== *)
(** * Flexpages

    [api/v4/fpage.h]: size-aligned memory objects with access rights, packed
    in a word. *)

From Stdlib Require Import ZArith Lia Bool List.
From stdpp Require Import base numbers list.
From S2P Require Import Prelude Types.
Open Scope Z_scope.

(** [BITFIELD7(word_t, execute:1, write:1, read:1, reserved:1, size:6, base:54, :0)] *)
Definition fp_layout := [1; 1; 1; 1; 6; Config.L4_FPAGE_BASE_BITS].
Definition fp_execute := member fp_layout 0.
Definition fp_write := member fp_layout 1.
Definition fp_read := member fp_layout 2.
Definition fp_reserved := member fp_layout 3.
Definition fp_size := member fp_layout 4.
Definition fp_base := member fp_layout 5.

(** an [fpage_t] is its [raw] word *)
Abbreviation fpage_t := Z (only parsing).

(** [x.base = (base & (~0 >> (L4_FPAGE_BASE_BITS - size))) >> 10]: the mask is
    an [int] shifted arithmetically, then widened to a word *)
Definition fpage_set (base size : Z) (read write exec : bool) : fpage_t :=
  let b := Z.shiftr (Z.land base (w64 (sar32 (-1) (Config.L4_FPAGE_BASE_BITS - size)))) 10 in
  bf_set fp_execute (Z.b2z exec)
    (bf_set fp_write (Z.b2z write)
      (bf_set fp_read (Z.b2z read)
        (bf_set fp_size size
          (bf_set fp_base b 0)))).

Definition is_nil_fpage (f : fpage_t) : bool := f =? 0.

Definition is_complete_fpage (f : fpage_t) : bool :=
  (bf_get fp_size f =? 1) && (bf_get fp_base f =? 0).

Definition get_base (f : fpage_t) : Z := w64 (Z.shiftl (bf_get fp_base f) 10).

Definition get_address (f : fpage_t) : Z :=
  Z.land (w64 (Z.shiftl (bf_get fp_base f) 10))
         (wnot (shr64 (w64 (-1)) (64 - bf_get fp_size f))).

Definition get_size (f : fpage_t) : Z := shl64 1 (bf_get fp_size f).

Definition get_size_log2 (f : fpage_t) : Z :=
  if is_complete_fpage f then 64 else bf_get fp_size f.

Definition is_range_in_fpage (f : fpage_t) (start fin : Z) : bool :=
  is_complete_fpage f ||
  ((get_address f <=? start) && (addr_offset (get_address f) (get_size f) >=? fin)).

Definition is_addr_in_fpage (f : fpage_t) (addr : Z) : bool :=
  is_range_in_fpage f addr (w64 (addr + 8)).

Definition is_overlapping (this fpage : fpage_t) : bool :=
  if get_address fpage <? get_address this
  then addr_offset (get_address fpage) (get_size fpage) >? get_address this
  else addr_offset (get_address this) (get_size this) >? get_address fpage.

Definition is_read (f : fpage_t) : bool := bf_flag fp_read f.
Definition is_write (f : fpage_t) : bool := bf_flag fp_write f.
Definition is_execute (f : fpage_t) : bool := bf_flag fp_execute f.
Definition is_rwx (f : fpage_t) : bool := is_read f && is_write f && is_execute f.

Definition set_rwx_all (f : fpage_t) : fpage_t :=
  bf_set fp_execute 1 (bf_set fp_write 1 (bf_set fp_read 1 f)).
Definition set_rwx (rwx : Z) (f : fpage_t) : fpage_t := Z.lor f (Z.land rwx 7).
Definition get_rwx (f : fpage_t) : Z := Z.land f 7.

Definition fpage_complete : fpage_t := bf_set fp_size 1 0.
Definition fpage_nilpage : fpage_t := 0.

(** ** The address range of an fpage *)

(** the addresses an fpage denotes, as a half-open interval of integers *)
Definition fp_start (f : fpage_t) : Z := get_address f.
Definition fp_end (f : fpage_t) : Z := get_address f + get_size f.
Definition in_fpage (f : fpage_t) (a : Z) : Prop := fp_start f <= a < fp_end f.

(** the range lies below the top of the address space *)
Definition fp_nowrap (f : fpage_t) : Prop := fp_end f < 2 ^ 64.

Lemma fp_size_bounds f : 0 <= bf_get fp_size f < 64.
Proof. apply (bf_get_bounds fp_size f). bf_side. Qed.

Lemma fp_base_bounds f : 0 <= bf_get fp_base f < 2 ^ 54.
Proof. apply (bf_get_bounds fp_base f). bf_side. Qed.

Lemma get_base_eq f : get_base f = bf_get fp_base f * 2 ^ 10.
Proof.
  pose proof (fp_base_bounds f). unfold get_base.
  rewrite Z.shiftl_mul_pow2 by lia. apply wrap_small. zlia.
Qed.

Lemma get_size_eq f : get_size f = 2 ^ bf_get fp_size f.
Proof.
  pose proof (fp_size_bounds f). unfold get_size, shl64.
  rewrite Z.mod_small, Z.shiftl_1_l by lia. apply wrap_small.
  split; [lia|]. apply Z.pow_lt_mono_r; lia.
Qed.

Lemma ones_shr64 s : 0 < s < 64 -> shr64 (w64 (-1)) (64 - s) = 2 ^ s - 1.
Proof.
  intros. unfold shr64. rewrite Z.mod_small by lia.
  change (w64 (-1)) with (2 ^ 64 - 1).
  rewrite Z.shiftr_div_pow2 by lia.
  assert (2 ^ 64 = 2 ^ s * 2 ^ (64 - s)) as Hp by (rewrite <- Z.pow_add_r by lia; f_equal; lia).
  pose proof (Z.pow_pos_nonneg 2 s). pose proof (Z.pow_pos_nonneg 2 (64 - s)).
  symmetry. apply (Z.div_unique_pos _ _ _ (2 ^ (64 - s) - 1)); nia.
Qed.

Lemma get_base_word f : is_word (get_base f).
Proof. apply w64_is_word. Qed.

Lemma get_address_eq f :
  0 < bf_get fp_size f ->
  get_address f = get_base f - get_base f mod 2 ^ bf_get fp_size f.
Proof.
  intros Hpos. pose proof (fp_size_bounds f) as Hs.
  unfold get_address. fold (get_base f). rewrite ones_shr64 by lia.
  apply land_wnot_mask; [apply get_base_word|lia].
Qed.

(** a shift by the full word width keeps every bit on this machine: an fpage
    of size field 0 has address 0 *)
Lemma get_address_size0 f : bf_get fp_size f = 0 -> get_address f = 0.
Proof.
  intros E. unfold get_address. rewrite E.
  change (wnot (shr64 (w64 (-1)) (64 - 0))) with 0. apply Z.land_0_r.
Qed.

Lemma get_address_word f : is_word (get_address f).
Proof.
  unfold get_address. fold (get_base f). pose proof (get_base_word f) as Hb.
  apply bits_bound; [lia|apply Z.land_nonneg; left; apply Hb|].
  intros i Hi. rewrite Z.land_spec, (testbit_above 64) by (apply Hb || lia). done.
Qed.

Lemma get_size_pos f : 0 < get_size f.
Proof. rewrite get_size_eq. pose proof (fp_size_bounds f). lia. Qed.

Lemma fp_end_offset f : fp_nowrap f -> addr_offset (get_address f) (get_size f) = fp_end f.
Proof.
  intros Hn. apply wrap_small.
  pose proof (get_address_word f). pose proof (get_size_pos f).
  unfold fp_nowrap, fp_end, is_word in *. lia.
Qed.

#[export] Hint Resolve get_address_word get_base_word get_size_pos : l4.

(** [set] stores the rights and the size, and the base rounded down to the
    1 KB granularity of the field; [get_address] then is that base rounded
    down to the fpage's own size, so that the address range is size-aligned
    and contains the base.  (The mask [set] applies to the base is the
    identity for every size: it does not align the stored base.) *)
Theorem fpage_set_spec base size r w x :
  is_word base -> 0 < size < 64 ->
  let f := fpage_set base size r w x in
  bf_get fp_size f = size /\ is_read f = r /\ is_write f = w /\ is_execute f = x /\
  get_base f = base - base mod 2 ^ 10 /\
  get_size f = 2 ^ size /\
  get_address f = get_base f - get_base f mod 2 ^ size /\
  (2 ^ size | get_address f) /\ in_fpage f (get_base f).
Proof.
  intros Hb Hs f.
  assert (Hsz : bf_get fp_size f = size).
  { unfold f, fpage_set. bf_simpl. apply Z.mod_small. lia. }
  assert (Hbase : get_base f = base - base mod 2 ^ 10).
  { rewrite get_base_eq. unfold f, fpage_set. bf_simpl.
    assert (sar32 (-1) (Config.L4_FPAGE_BASE_BITS - size) = -1) as ->.
    { unfold sar32. apply Z.bits_inj'. intros i Hi.
      pose proof (Z.mod_pos_bound (Config.L4_FPAGE_BASE_BITS - size) 32).
      now rewrite Z.shiftr_spec, !Z.bits_m1 by lia. }
    change (w64 (-1)) with (Z.ones 64). rewrite Z.land_ones by lia.
    rewrite (Z.mod_small base) by exact Hb.
    rewrite Z.shiftr_div_pow2 by lia.
    rewrite Z.mod_small by (apply (div_pow2_bounds 10 54); [lia|lia|exact Hb]).
    apply div_mul_pow2. lia. }
  assert (Haddr : get_address f = get_base f - get_base f mod 2 ^ size).
  { rewrite get_address_eq; rewrite Hsz; [done|lia]. }
  assert (Hdiv : (2 ^ size | get_address f)).
  { rewrite Haddr, <- div_mul_pow2 by lia. apply Z.divide_factor_r. }
  split_and!; try done.
  - unfold is_read, bf_flag, f, fpage_set. bf_simpl. now destruct r.
  - unfold is_write, bf_flag, f, fpage_set. bf_simpl. now destruct w.
  - unfold is_execute, bf_flag, f, fpage_set. bf_simpl. now destruct x.
  - now rewrite get_size_eq, Hsz.
  - unfold in_fpage, fp_start, fp_end. rewrite Haddr, get_size_eq, Hsz.
    pose proof (Z.mod_pos_bound (get_base f) (2 ^ size)). lia.
Qed.

Lemma fpage_set_spec_witness :
  (is_word 0x100000400 /\ 0 < 18 < 64) /\
  get_address (fpage_set 0x100000400 18 true false false) = 0x100000000.
Proof.
  assert (is_word 0x100000400) as Hw by (unfold is_word; lia).
  split; [split; [exact Hw|lia]|].
  destruct (fpage_set_spec 0x100000400 18 true false false Hw)
    as (_ & _ & _ & _ & Hb & _ & Ha & _); [lia|].
  rewrite Ha, Hb. reflexivity.
Defined.

(** [is_range_in_fpage] decides containment: for an fpage that does not
    reach the top of the address space and a non-empty range, the answer is
    true exactly when every address of the range lies in the fpage (always,
    for the complete fpage). *)
Theorem is_range_in_fpage_spec f s e :
  fp_nowrap f -> is_word s -> s < e ->
  is_range_in_fpage f s e = true <->
  is_complete_fpage f = true \/ (forall a, s <= a < e -> in_fpage f a).
Proof.
  intros Hn Hs Hse. unfold is_range_in_fpage. rewrite fp_end_offset by done.
  rewrite orb_true_iff, andb_true_iff, Z.leb_le, Z.geb_le.
  unfold in_fpage, fp_start. split; (intros [H|H]; [now left|right]).
  - intros a Ha. lia.
  - pose proof (H s). pose proof (H (e - 1)). lia.
Qed.

Lemma is_range_in_fpage_spec_witness :
  let f := fpage_set 0x100000000 18 true true false in
  is_range_in_fpage f 0x100000400 0x100000800 = true.
Proof.
  intros f. apply (is_range_in_fpage_spec f 0x100000400 0x100000800).
  - vm_compute. done.
  - unfold is_word. lia.
  - lia.
  - right. intros a Ha. unfold in_fpage.
    change (fp_start f) with 0x100000000. change (fp_end f) with 0x100040000. lia.
Defined.

(** Two fpages below the top of the address space overlap, as
    [is_overlapping] computes it, exactly when some address lies in both; the
    test is therefore symmetric although the code is not. *)
Theorem is_overlapping_spec f g :
  fp_nowrap f -> fp_nowrap g ->
  (is_overlapping f g = true <-> exists a, in_fpage f a /\ in_fpage g a) /\
  is_overlapping f g = is_overlapping g f.
Proof.
  assert (forall f g, fp_nowrap f -> fp_nowrap g ->
    (is_overlapping f g = true <-> exists a, in_fpage f a /\ in_fpage g a)) as Hov.
  { clear. intros f g Hf Hg. unfold is_overlapping. rewrite !fp_end_offset by done.
    pose proof (get_size_pos f). pose proof (get_size_pos g).
    unfold in_fpage, fp_start, fp_end in *.
    destruct (Z.ltb_spec (get_address g) (get_address f)); rewrite Z.gtb_lt; split.
    - intros. exists (get_address f). lia.
    - intros (a & ? & ?). lia.
    - intros. exists (get_address g). lia.
    - intros (a & ? & ?). lia. }
  intros Hf Hg. split; [now apply Hov|].
  apply eq_true_iff_eq. rewrite !Hov by done.
  split; intros (a & ? & ?); now exists a.
Qed.

Lemma is_overlapping_spec_witness :
  let f := fpage_set 0x1000 12 true true true in
  let g := fpage_set 0x2000 12 true true true in
  is_overlapping f g = is_overlapping g f /\ is_overlapping f g = false.
Proof.
  intros f g. split; [|reflexivity].
  apply (is_overlapping_spec f g); vm_compute; done.
Defined.
