(* ===== verification/State.v ===== *)
(** * Thread states, queue states and bit masks

    [api/v4/threadstate.h], [api/v4/queuestate.h], [bitmask.h],
    [api/v4/resources.h] and [api/v4/preempt.h]. *)

From Stdlib Require Import ZArith Lia Bool List String.
From stdpp Require Import base numbers list decidable.
From S2P Require Import Prelude Types.
Open Scope Z_scope.

(** ** [thread_state_t] *)
Module ThreadState.

Definition RUNNABLE_STATE (id : Z) : Z := w64 (Z.lor (Z.shiftl id 1) 0).
Definition BLOCKED_STATE (id : Z) : Z := w64 (Z.lor (Z.shiftl id 1) 1).

Inductive thread_state_e :=
| running | waiting_forever | waiting_timeout | waiting_tunneled_pf
| locked_waiting | locked_running | locked_running_ipc_done | locked_running_nested
| polling | halted | aborted | xcpu_waiting_deltcb | xcpu_waiting_exregs.

#[export] Instance thread_state_e_eq_dec : EqDecision thread_state_e.
Proof. solve_decision. Defined.

(** the enumerators' values; the object holds the value as a word, and a
    zero-initialised object holds 0, which is no enumerator *)
Definition val (s : thread_state_e) : Z :=
  match s with
  | running => RUNNABLE_STATE 1
  | waiting_forever => BLOCKED_STATE (w64 (-1))
  | waiting_timeout => BLOCKED_STATE 2
  | waiting_tunneled_pf => BLOCKED_STATE 10
  | locked_waiting => BLOCKED_STATE 3
  | locked_running => RUNNABLE_STATE 4
  | locked_running_ipc_done => RUNNABLE_STATE 9
  | locked_running_nested => RUNNABLE_STATE 11
  | polling => BLOCKED_STATE 5
  | halted => BLOCKED_STATE 6
  | aborted => BLOCKED_STATE 7
  | xcpu_waiting_deltcb => BLOCKED_STATE 8
  | xcpu_waiting_exregs => BLOCKED_STATE 12
  end.

Coercion val : thread_state_e >-> Z.

Definition is_runnable (s : Z) : bool := negb (truth (Z.land s 1)).
Definition is_sending (s : Z) : bool := (s =? polling) || (s =? locked_running).
Definition is_receiving (s : Z) : bool :=
  (s =? waiting_forever) || (s =? waiting_timeout) || (s =? locked_waiting).
Definition is_halted (s : Z) : bool := s =? halted.
Definition is_aborted (s : Z) : bool := s =? aborted.
Definition is_running (s : Z) : bool := s =? running.
Definition is_waiting (s : Z) : bool := (s =? waiting_forever) || (s =? waiting_timeout).
Definition is_waiting_forever (s : Z) : bool := s =? waiting_forever.
Definition is_waiting_with_timeout (s : Z) : bool := s =? waiting_timeout.
Definition is_polling (s : Z) : bool := s =? polling.
Definition is_locked_running (s : Z) : bool := s =? locked_running.
Definition is_locked_waiting (s : Z) : bool := s =? locked_waiting.
Definition is_xcpu_waiting (s : Z) : bool :=
  (s =? xcpu_waiting_deltcb) || (s =? xcpu_waiting_exregs).

Definition string (s : Z) : String.string :=
  if s =? running then "RUNNING"
  else if s =? waiting_forever then "WAIT_FOREVER"
  else if s =? waiting_timeout then "WAIT_TIMEOUT"
  else if s =? waiting_tunneled_pf then "WAIT_TUNNELED_PF"
  else if s =? locked_waiting then "LCK_WAITING"
  else if s =? locked_running then "LCK_RUNNING"
  else if s =? locked_running_ipc_done then "LCK_RUNNING_DONE"
  else if s =? locked_running_nested then "LCK_RUNNING_NEST"
  else if s =? polling then "POLLING"
  else if s =? halted then "HALTED"
  else if s =? aborted then "ABORTED"
  else if s =? xcpu_waiting_deltcb then "WAIT_XPU_DELTCB"
  else if s =? xcpu_waiting_exregs then "WAIT_XPU_EXREGS"
  else "UNKNOWN".

(** every enumerator, in declaration order *)
Definition all : list thread_state_e :=
  [running; waiting_forever; waiting_timeout; waiting_tunneled_pf;
   locked_waiting; locked_running; locked_running_ipc_done; locked_running_nested;
   polling; halted; aborted; xcpu_waiting_deltcb; xcpu_waiting_exregs].

Lemma all_complete s : s ∈ all.
Proof. destruct s; unfold all; repeat (first [left; done | right]). Qed.

Lemma val_word s : is_word (val s).
Proof. destruct s; vm_compute; split; congruence. Qed.

Lemma val_inj s s' : val s = val s' -> s = s'.
Proof. destruct s, s'; vm_compute; congruence. Qed.

Lemma val_eqb s s' : (val s =? val s') = bool_decide (s = s').
Proof. destruct s, s'; reflexivity. Qed.

(** C40. The state encoding: distinct enumerators have distinct words, the
    lowest bit alone separates the four runnable states from the nine blocked
    ones, and the predicates the kernel branches on in [unwind] and [delete_tcb]
    (polling, waiting, tunneled page fault, the four locked states, cross-CPU
    waits, running) are pairwise exclusive and leave out only the halted and
    the aborted state. *)
Theorem state_encoding s s' :
  (val s = val s' <-> s = s') /\
  (is_runnable s = true <->
     s = running \/ s = locked_running \/ s = locked_running_ipc_done \/
     s = locked_running_nested) /\
  (is_sending s = true -> is_receiving s = false) /\
  (is_waiting s = true -> is_receiving s = true /\ is_runnable s = false) /\
  length (filter (fun b : bool => b = true)
    [is_polling s; is_waiting s; val s =? waiting_tunneled_pf;
     val s =? locked_running_ipc_done; val s =? locked_running;
     val s =? locked_running_nested; val s =? locked_waiting;
     is_xcpu_waiting s; is_running s]) =
    (if is_halted s || is_aborted s then 0%nat else 1%nat).
Proof.
  split_and!.
  - split; [apply val_inj|now intros ->].
  - destruct s; vm_compute; intuition congruence.
  - destruct s; vm_compute; congruence.
  - destruct s; vm_compute; intuition congruence.
  - destruct s; reflexivity.
Qed.

Lemma state_encoding_witness :
  is_waiting waiting_forever = true /\ is_receiving waiting_forever = true.
Proof.
  split; [reflexivity|].
  apply (state_encoding waiting_forever running). reflexivity.
Defined.

End ThreadState.
Coercion ThreadState.val : ThreadState.thread_state_e >-> Z.

(** ** [queue_state_t] *)
Module QueueState.

Inductive state_e := ready | wakeup | late_wakeup | wait | send | xcpu.

#[export] Instance state_e_eq_dec : EqDecision state_e.
Proof. solve_decision. Defined.

Definition val (s : state_e) : Z :=
  match s with
  | ready => 1 | wakeup => 2 | late_wakeup => 4 | wait => 8 | send => 16 | xcpu => 32
  end.

Definition init : Z := 0.
Definition clear (s : state_e) (q : Z) : Z := Z.land q (wnot (val s)).
Definition set (s : state_e) (q : Z) : Z := Z.lor q (val s).
Definition is_set (s : state_e) (q : Z) : bool := Z.land q (val s) =? val s.

Definition bit (s : state_e) : Z :=
  match s with
  | ready => 0 | wakeup => 1 | late_wakeup => 2 | wait => 3 | send => 4 | xcpu => 5
  end.

Lemma val_bit s : val s = 2 ^ bit s.
Proof. now destruct s. Qed.

Lemma bit_range s : 0 <= bit s < 64.
Proof. destruct s; simpl; lia. Qed.

Lemma bit_inj s s' : bit s = bit s' -> s = s'.
Proof. destruct s, s'; simpl; congruence. Qed.

Lemma is_set_testbit s q : is_set s q = Z.testbit q (bit s).
Proof.
  unfold is_set. rewrite val_bit. pose proof (bit_range s).
  destruct (Z.testbit q (bit s)) eqn:E.
  - apply Z.eqb_eq, Z.bits_inj'. intros i Hi. rewrite Z.land_spec.
    destruct (Z.eq_dec (bit s) i) as [<-|].
    + now rewrite Z.pow2_bits_true, E by lia.
    + rewrite Z.pow2_bits_false by lia. apply andb_false_r.
  - apply Z.eqb_neq. intros H'.
    assert (Z.testbit (Z.land q (2 ^ bit s)) (bit s) = true) as F
      by (rewrite H'; apply Z.pow2_bits_true; lia).
    rewrite Z.land_spec, E in F. discriminate.
Qed.

Lemma is_set_set s s' q : is_set s (set s' q) = bool_decide (s = s') || is_set s q.
Proof.
  rewrite !is_set_testbit. unfold set. rewrite Z.lor_spec, val_bit.
  pose proof (bit_range s). pose proof (bit_range s').
  case_bool_decide as E.
  - subst. rewrite Z.pow2_bits_true by lia. apply orb_true_r.
  - rewrite Z.pow2_bits_false; [apply orb_false_r|].
    intros F. apply E. now apply bit_inj.
Qed.

Lemma is_set_clear s s' q :
  is_set s (clear s' q) = negb (bool_decide (s = s')) && is_set s q.
Proof.
  rewrite !is_set_testbit. unfold clear, wnot.
  pose proof (bit_range s). pose proof (bit_range s').
  rewrite Z.land_spec, wrap_testbit, Z.lnot_spec, val_bit by lia.
  destruct (Z.ltb_spec (bit s) 64); [|lia]. simpl.
  case_bool_decide as E.
  - subst. rewrite Z.pow2_bits_true by lia. simpl. apply andb_false_r.
  - rewrite Z.pow2_bits_false; [apply andb_true_r|].
    intros F. apply E. now apply bit_inj.
Qed.

Lemma is_set_init s : is_set s init = false.
Proof. now destruct s. Qed.

End QueueState.

#[export] Hint Rewrite QueueState.is_set_set QueueState.is_set_clear QueueState.is_set_init : bf.

(** ** [bitmask_t] *)
Module Bitmask.

Definition add (m n : Z) : Z := Z.lor m (shl64 1 n).
Definition sub (m n : Z) : Z := Z.land m (wnot (shl64 1 n)).
Definition is_set (m n : Z) : bool := negb (Z.land m (shl64 1 n) =? 0).

Lemma shl64_1 n : 0 <= n < 64 -> shl64 1 n = 2 ^ n.
Proof.
  intros. unfold shl64. rewrite Z.mod_small, Z.shiftl_1_l by lia.
  apply wrap_small. split; [lia|]. apply Z.pow_lt_mono_r; lia.
Qed.

Lemma bit_set_testbit m n : 0 <= n < 64 -> is_set m n = Z.testbit m n.
Proof.
  intros. unfold is_set. rewrite shl64_1, land_pow2_eqb by lia. apply negb_involutive.
Qed.

(** A bit mask is a set of the numbers 0 to 63: [+=] inserts, [-=] removes,
    [is_set] is membership, and no operation disturbs another member. *)
Theorem bitmask_is_a_set m n i :
  0 <= n < 64 -> 0 <= i < 64 ->
  is_set (add m n) i = (n =? i) || is_set m i /\
  is_set (sub m n) i = negb (n =? i) && is_set m i /\
  is_set 0 i = false.
Proof.
  intros Hn Hi. rewrite !bit_set_testbit by lia. unfold add, sub, wnot.
  rewrite shl64_1, Z.lor_spec, Z.land_spec, wrap_testbit, Z.lnot_spec, Z.bits_0 by lia.
  destruct (Z.ltb_spec i 64); [simpl|lia].
  destruct (Z.eqb_spec n i) as [->|].
  - rewrite Z.pow2_bits_true by lia. simpl. now rewrite orb_true_r, andb_false_r.
  - rewrite Z.pow2_bits_false by lia. simpl. now rewrite orb_false_r, andb_true_r.
Qed.

Lemma bitmask_is_a_set_witness :
  is_set (add 0 63) 63 = true /\ is_set (sub (add 0 63) 63) 63 = false.
Proof.
  split.
  - apply (bitmask_is_a_set 0 63 63); lia.
  - apply (bitmask_is_a_set (add 0 63) 63 63); lia.
Defined.

End Bitmask.

(** ** [resource_bits_t] *)
Module ResourceBits.

(** [resource_type_e] of [glue/v4-mips64/resources.h] *)
Inductive resource_type_e := COPY_AREA | EXCEPTION.
Definition type_val (t : resource_type_e) : Z :=
  match t with COPY_AREA => 0 | EXCEPTION => 1 end.

Definition init : Z := 0.
Definition clear : Z := 0.
Definition add (b : Z) (t : resource_type_e) : Z := Bitmask.add b (type_val t).
Definition remove (b : Z) (t : resource_type_e) : Z := Bitmask.sub b (type_val t).
Definition have_resources (b : Z) : bool := negb (b =? 0).
Definition have_resource (b : Z) (t : resource_type_e) : bool := Bitmask.is_set b (type_val t).

End ResourceBits.

(** ** [preempt_flags_t] *)
Module PreemptFlags.

Definition fields : list bitfield := BITFIELD true 8 [5; 1; 1; 1].
Definition f_signaled := nth 1 fields (BF 0 0).
Definition f_delayed := nth 2 fields (BF 0 0).
Definition f_pending := nth 3 fields (BF 0 0).

Definition is_signaled (f : Z) : bool := bf_flag f_signaled f.
Definition is_delayed (f : Z) : bool := bf_flag f_delayed f.
Definition is_pending (f : Z) : bool := bf_flag f_pending f.
Definition set_pending (f : Z) : Z := bf_set f_pending 1 f.
Definition clear_pending (f : Z) : Z := bf_set f_pending 0 f.

End PreemptFlags.
