(* ===== verification/Msg.v ===== *)
(** * Messages

    [api/v4/ipc.h]: message tags, typed items, acceptors and the encoding of
    IPC error codes. *)

From Stdlib Require Import ZArith Lia Bool List.
From stdpp Require Import base numbers list.
From S2P Require Import Prelude Types Fpage.
Open Scope Z_scope.

(** ** Error codes *)

Definition ERR_IPC_TIMEOUT : Z := 1.
Definition ERR_IPC_NON_EXISTING : Z := 2.
Definition ERR_IPC_CANCELED : Z := 3.
Definition ERR_IPC_MSG_OVERFLOW (off : Z) : Z := w64 (4 + w64 (Z.shiftl off 3)).
Definition ERR_IPC_XFER_TIMEOUT_CURRENT (off : Z) : Z := w64 (5 + w64 (Z.shiftl off 3)).
Definition ERR_IPC_XFER_TIMEOUT_PARTNER (off : Z) : Z := w64 (6 + w64 (Z.shiftl off 3)).
Definition ERR_IPC_ABORTED (off : Z) : Z := w64 (7 + w64 (Z.shiftl off 3)).

Definition IPC_SND_ERROR (err : Z) : Z := Z.lor (w64 (Z.shiftl err 1)) 0.
Definition IPC_RCV_ERROR (err : Z) : Z := Z.lor (w64 (Z.shiftl err 1)) 1.

(** the value of [(-k ## UL) << 4] *)
Definition neg_label (k : Z) : Z := w64 (Z.shiftl (w64 (- k)) 4).
Definition IPC_MR0_PAGEFAULT : Z := neg_label 2.

(** ** [msg_tag_t] *)
Module MsgTag.

Definition layout := [6; 6; 1; 1; 1; 1; 48].
Definition f_untyped := member layout 0.
Definition f_typed := member layout 1.
Definition f_propagated := member layout 2.
Definition f_redirected := member layout 3.
Definition f_xcpu := member layout 4.
Definition f_error := member layout 5.
Definition f_label := member layout 6.

Definition get_label (t : Z) : Z := bf_get f_label t.
Definition get_typed (t : Z) : Z := bf_get f_typed t.
Definition get_untyped (t : Z) : Z := bf_get f_untyped t.

(** [~(0xf << 12)] and [~(0xe << 12)] are negative [int]s, sign-extended *)
Definition clear_flags (t : Z) : Z := Z.land t (wnot (Z.shiftl 0xf 12)).
Definition clear_receive_flags (t : Z) : Z := Z.land t (wnot (Z.shiftl 0xe 12)).

Definition set (typed untyped label : Z) : Z :=
  bf_set f_label label (bf_set f_untyped untyped (bf_set f_typed typed 0)).

Definition is_error (t : Z) : bool := bf_flag f_error t.
Definition set_error (t : Z) : Z := bf_set f_error 1 t.
Definition is_redirected (t : Z) : bool := bf_flag f_redirected t.
Definition set_redirected (t : Z) : Z := bf_set f_redirected 1 t.
Definition is_propagated (t : Z) : bool := bf_flag f_propagated t.
Definition set_propagated (v : bool) (t : Z) : Z := bf_set f_propagated (Z.b2z v) t.
Definition is_xcpu (t : Z) : bool := bf_flag f_xcpu t.
Definition set_xcpu (t : Z) : Z := bf_set f_xcpu 1 t.

Definition error_tag : Z := set_error 0.
Definition tag (typed untyped label : Z) : Z := set typed untyped label.
Definition irq_tag : Z := tag 0 0 (neg_label 1).
Definition preemption_tag : Z := tag 0 0 (neg_label 3).
Definition pagefault_tag (read write exec : bool) : Z :=
  tag 0 2 (Z.lor (Z.lor (Z.lor (neg_label 2) (if read then 4 else 0))
                        (if write then 2 else 0)) (if exec then 1 else 0)).

End MsgTag.

(** ** [msg_item_t] *)
Module MsgItem.

Definition layout := [1; 3; 5; 1; 54].
Definition f_continued := member layout 0.
Definition f_type := member layout 1.
Definition f_num_ptrs := member layout 2.
Definition f_continuation := member layout 3.
Definition f_length := member layout 4.

Definition is_map_item (i : Z) : bool := bf_get f_type i =? 4.
Definition is_grant_item (i : Z) : bool := bf_get f_type i =? 5.
Definition is_string_item (i : Z) : bool := Z.land (bf_get f_type i) 4 =? 0.
Definition more_strings (i : Z) : bool := bf_flag f_continued i.
Definition get_string_cache_hints (i : Z) : bool := truth (Z.land (bf_get f_type i) 3).
Definition get_string_length (i : Z) : Z := bf_get f_length i.
Definition get_string_ptr_count (i : Z) : Z := w64 (bf_get f_num_ptrs i + 1).
Definition is_string_compound (i : Z) : bool := bf_flag f_continuation i.
Definition get_snd_base (i : Z) : Z := Z.land i (wnot 0x3ff).

End MsgItem.

(** ** [acceptor_t] *)
Module Acceptor.

Definition layout := [1; 3; 60].
Definition f_strings := member layout 0.
Definition f_rcv_window := member layout 2.

Definition clear : Z := 0.
Definition accept_strings (a : Z) : bool := bf_flag f_strings a.
Definition get_rcv_window (a : Z) : Z := w64 (Z.shiftl (bf_get f_rcv_window a) 4).
Definition set_rcv_window (fpage a : Z) : Z := bf_set f_rcv_window (Z.shiftr fpage 4) a.

End Acceptor.

(** ** Facts *)

(** the error class and the offset an error word carries: the decoding the
    receiver of an error word performs ([(err >> 1) & 7] in [thread.cc]) *)
Definition err_class (w : Z) : Z := Z.land (Z.shiftr w 1) 7.
Definition err_offset (w : Z) : Z := Z.shiftr w 4.

Lemma lor_low_bit x b : 0 <= x -> x mod 2 = 0 -> 0 <= b < 2 -> Z.lor x b = x + b.
Proof.
  intros Hx He Hb. assert (b = 0 \/ b = 1) as [-> | ->] by lia.
  - now rewrite Z.lor_0_r, Z.add_0_r.
  - assert (Z.land x 1 = 0) as Hl.
    { change 1 with (Z.ones 1). rewrite Z.land_ones by lia. exact He. }
    now rewrite Z.add_nocarry_lxor, Z.lxor_lor.
Qed.

Lemma snd_error_eq e : 0 <= e < 2 ^ 63 -> IPC_SND_ERROR e = 2 * e.
Proof.
  intros. unfold IPC_SND_ERROR. rewrite Z.lor_0_r, Z.shiftl_mul_pow2 by lia.
  rewrite wrap_small; zlia.
Qed.

Lemma rcv_error_eq e : 0 <= e < 2 ^ 63 -> IPC_RCV_ERROR e = 2 * e + 1.
Proof.
  intros. unfold IPC_RCV_ERROR. rewrite Z.shiftl_mul_pow2 by lia.
  rewrite (wrap_small 64 (e * 2 ^ 1)) by zlia.
  rewrite lor_low_bit by zlia. lia.
Qed.

(** IPC error words round-trip: the phase is the lowest bit, the class
    (timeout 1, non-existing 2, cancelled 3, overflow 4, transfer timeouts 5
    and 6, abort 7) the next three, and a transfer error carries its byte
    offset above them as long as the offset is below 2^60. *)
Theorem ipc_error_roundtrip cls off :
  0 <= cls < 8 -> 0 <= off < 2 ^ 60 ->
  let e := w64 (cls + w64 (Z.shiftl off 3)) in
  err_class (IPC_SND_ERROR e) = cls /\ err_class (IPC_RCV_ERROR e) = cls /\
  err_offset (IPC_SND_ERROR e) = off /\ err_offset (IPC_RCV_ERROR e) = off /\
  Z.odd (IPC_SND_ERROR e) = false /\ Z.odd (IPC_RCV_ERROR e) = true.
Proof.
  intros Hc Ho e.
  assert (e = cls + 8 * off) as ->.
  { unfold e. rewrite Z.shiftl_mul_pow2 by lia.
    rewrite (wrap_small 64 (off * 2 ^ 3)) by zlia. rewrite wrap_small; zlia. }
  rewrite snd_error_eq, rcv_error_eq by zlia.
  unfold err_class, err_offset.
  change 7 with (Z.ones 3). rewrite !Z.land_ones, !Z.shiftr_div_pow2 by lia.
  split_and!; try zlia.
  - now rewrite Z.odd_mul.
  - now rewrite Z.odd_add, Z.odd_mul.
Qed.

Lemma ipc_error_roundtrip_witness :
  err_class (IPC_RCV_ERROR (ERR_IPC_ABORTED 4096)) = 7 /\
  err_offset (IPC_RCV_ERROR (ERR_IPC_ABORTED 4096)) = 4096.
Proof.
  split; apply (ipc_error_roundtrip 7 4096); lia.
Defined.

Lemma tag_fields typed untyped label :
  0 <= typed < 2 ^ 6 -> 0 <= untyped < 2 ^ 6 ->
  MsgTag.get_typed (MsgTag.set typed untyped label) = typed /\
  MsgTag.get_untyped (MsgTag.set typed untyped label) = untyped /\
  MsgTag.get_label (MsgTag.set typed untyped label) = label mod 2 ^ 48 /\
  MsgTag.is_error (MsgTag.set typed untyped label) = false.
Proof.
  intros. unfold MsgTag.get_typed, MsgTag.get_untyped, MsgTag.get_label, MsgTag.is_error,
    bf_flag, MsgTag.set. bf_simpl. now rewrite !Z.mod_small by zlia.
Qed.

(** what [clear_receive_flags] keeps *)
Lemma clear_receive_keeps t :
  MsgTag.is_propagated (MsgTag.clear_receive_flags t) = MsgTag.is_propagated t /\
  MsgTag.get_typed (MsgTag.clear_receive_flags t) = MsgTag.get_typed t /\
  MsgTag.get_untyped (MsgTag.clear_receive_flags t) = MsgTag.get_untyped t.
Proof.
  unfold MsgTag.clear_receive_flags, MsgTag.is_propagated, MsgTag.get_typed, MsgTag.get_untyped, bf_flag.
  now rewrite !bf_get_land_keep by (bf_side || reflexivity).
Qed.

(** Message tags: [set] stores the item counts and the low 48 bits of the
    label with every flag clear; the flag setters set one flag and keep
    everything else; [clear_receive_flags] clears redirected, xcpu and error
    and keeps the counts, the label and the propagation flag; [clear_flags]
    clears that one too. *)
Theorem msg_tag_spec t typed untyped label :
  is_word t -> 0 <= typed < 2 ^ 6 -> 0 <= untyped < 2 ^ 6 ->
  let s := MsgTag.set typed untyped label in
  let c := MsgTag.clear_receive_flags t in
  (MsgTag.get_typed s = typed /\ MsgTag.get_untyped s = untyped /\
   MsgTag.get_label s = label mod 2 ^ 48 /\ MsgTag.is_error s = false) /\
  (MsgTag.is_error (MsgTag.set_error t) = true /\
   MsgTag.get_label (MsgTag.set_error t) = MsgTag.get_label t /\
   MsgTag.is_propagated (MsgTag.set_error t) = MsgTag.is_propagated t) /\
  (MsgTag.get_label c = MsgTag.get_label t /\ MsgTag.get_typed c = MsgTag.get_typed t /\
   MsgTag.get_untyped c = MsgTag.get_untyped t /\
   MsgTag.is_propagated c = MsgTag.is_propagated t /\
   MsgTag.is_error c = false /\ MsgTag.is_xcpu c = false /\ MsgTag.is_redirected c = false) /\
  MsgTag.is_propagated (MsgTag.clear_flags t) = false.
Proof.
  intros Hw Ht Hu s c. destruct (tag_fields typed untyped label Ht Hu) as (? & ? & ? & ?).
  split_and!; try done.
  - unfold MsgTag.is_error, bf_flag, MsgTag.set_error. now bf_simpl.
  - unfold MsgTag.get_label, MsgTag.set_error. now bf_simpl.
  - unfold MsgTag.is_propagated, bf_flag, MsgTag.set_error. now bf_simpl.
  - unfold c, MsgTag.clear_receive_flags, MsgTag.get_label.
    apply bf_get_land_keep; [bf_side|reflexivity].
  - apply clear_receive_keeps.
  - apply clear_receive_keeps.
  - apply clear_receive_keeps.
  - unfold c, MsgTag.clear_receive_flags, MsgTag.is_error, bf_flag.
    now rewrite bf_get_land_drop.
  - unfold c, MsgTag.clear_receive_flags, MsgTag.is_xcpu, bf_flag.
    now rewrite bf_get_land_drop.
  - unfold c, MsgTag.clear_receive_flags, MsgTag.is_redirected, bf_flag.
    now rewrite bf_get_land_drop.
  - unfold MsgTag.clear_flags, MsgTag.is_propagated, bf_flag.
    now rewrite bf_get_land_drop.
Qed.

Lemma msg_tag_spec_witness :
  let t := MsgTag.set_error (MsgTag.set_propagated true (MsgTag.set 2 3 77)) in
  MsgTag.is_error (MsgTag.clear_receive_flags t) = false /\
  MsgTag.is_propagated (MsgTag.clear_receive_flags t) = MsgTag.is_propagated t.
Proof.
  intros t.
  destruct (msg_tag_spec t 2 3 77) as (_ & _ & (_ & _ & _ & Hp & He & _) & _);
    [vm_compute; intuition congruence|lia|lia|].
  split; [exact He|exact Hp].
Defined.
