(* ===== verification/Ring.v ===== *)
(** * Intrusive ring lists

    [api/v4/queueing.h]: the macros that enqueue a control block in, and
    dequeue it from, a circular doubly-linked list threaded through the blocks
    themselves.  The macros are modelled over any heap with a [ringlist_t]
    ([next], [prev]) cell per pointer; a dereference of [NULL] is [None].
    [is_ring] ties such a heap to the list of the queue's members, and the
    theorems show that the macros implement list operations on it. *)

From Stdlib Require Import ZArith Lia Bool List.
From stdpp Require Import base numbers list option gmap.
From S2P Require Import Prelude Types.
Open Scope Z_scope.

(** ** The heap interface *)

(** [ringlist_t<tcb_t>] of [api/v4/tcb.h] *)
Record ringlist := Ring { next : Z; prev : Z }.

(** What the queue macros need of memory: reading and writing one cell. *)
Class RingHeap (H : Type) := {
  rget : H -> Z -> ringlist;
  rput : Z -> ringlist -> H -> H;
  rget_rput : forall p q r h, rget (rput p r h) q = if decide (p = q) then r else rget h q;
}.

Section Macros.
Context {H : Type} `{!RingHeap H}.

Definition set_next (p v : Z) (h : H) : option H :=
  if p =? NULL then None else Some (rput p (Ring v (prev (rget h p))) h).

Definition set_prev (p v : Z) (h : H) : option H :=
  if p =? NULL then None else Some (rput p (Ring (next (rget h p)) v) h).

Definition get_next (p : Z) (h : H) : option Z :=
  if p =? NULL then None else Some (next (rget h p)).

Definition get_prev (p : Z) (h : H) : option Z :=
  if p =? NULL then None else Some (prev (rget h p)).

(** [tcb->list.next = head; tcb->list.prev = head->list.prev;
     head->list.prev->list.next = tcb; head->list.prev = tcb;] *)
Definition link_before (head tcb : Z) (h : H) : option H :=
  h ← set_next tcb head h;
  hp ← get_prev head h;
  h ← set_prev tcb hp h;
  hp ← get_prev head h;
  h ← set_next hp tcb h;
  set_prev head tcb h.

(** [tcb->list.next = tcb->list.prev = tcb;] *)
Definition link_alone (tcb : Z) (h : H) : option H :=
  h ← set_prev tcb tcb h;
  set_next tcb tcb h.

Definition ENQUEUE_LIST_TAIL (head tcb : Z) (h : H) : option (Z * H) :=
  if head =? NULL then
    h ← link_alone tcb h; Some (tcb, h)
  else
    h ← link_before head tcb h; Some (head, h).

Definition ENQUEUE_LIST_HEAD (head tcb : Z) (h : H) : option (Z * H) :=
  h ← if head =? NULL then link_alone tcb h else link_before head tcb h;
  Some (tcb, h).

Definition DEQUEUE_LIST (head tcb : Z) (h : H) : option (Z * H) :=
  n ← get_next tcb h;
  if n =? tcb then
    h ← set_prev tcb NULL h;
    h ← set_next tcb NULL h;
    Some (NULL, h)
  else
    let head := if head =? tcb then n else head in
    p ← get_prev tcb h;
    h ← set_prev n p h;
    p ← get_prev tcb h;
    n ← get_next tcb h;
    h ← set_next p n h;
    Some (head, h).

End Macros.

(** ** Circular linkage *)

(** consecutive members point at each other *)
Fixpoint linked (f g : Z -> Z) (xs : list Z) : Prop :=
  match xs with
  | x :: (y :: _) as t => f x = y /\ g y = x /\ linked f g t
  | _ => True
  end.

Lemma linked_cons f g x y t :
  linked f g (x :: y :: t) <-> f x = y /\ g y = x /\ linked f g (y :: t).
Proof. done. Qed.

Lemma linked_app f g xs m ys :
  linked f g (xs ++ m :: ys) <-> linked f g (xs ++ [m]) /\ linked f g (m :: ys).
Proof.
  induction xs as [|x xs IH]; [simpl; tauto|].
  destruct xs as [|x' xs].
  - cbn [app]. rewrite !linked_cons. simpl. tauto.
  - cbn [app] in *. rewrite !linked_cons. tauto.
Qed.

(** A chain only depends on the [next] of all members but the last and on the
    [prev] of all members but the first. *)
Lemma linked_frame f g f' g' xs z :
  linked f g (xs ++ [z]) ->
  (forall x, x ∈ xs -> f' x = f x) ->
  (forall x, x ∈ tail (xs ++ [z]) -> g' x = g x) ->
  linked f' g' (xs ++ [z]).
Proof.
  induction xs as [|x xs IH]; [done|]. intros Hl Hn Hp.
  assert (exists y t, xs ++ [z] = y :: t) as (y & t & E).
  { destruct xs as [|y xs]; [now exists z, []|now exists y, (xs ++ [z])]. }
  cbn [app tail] in *. rewrite E in *. rewrite linked_cons in Hl |- *.
  destruct Hl as (E1 & E2 & Hl). split_and!.
  - now rewrite Hn by left.
  - now rewrite Hp by left.
  - apply IH; [done|intros; apply Hn; now right|].
    intros w Hw. apply Hp. simpl in Hw. now right.
Qed.

(** a closed ring through the members of [x :: xs] *)
Definition circular (f g : Z -> Z) (x : Z) (xs : list Z) : Prop := linked f g (x :: xs ++ [x]).

Lemma circular_rotate f g x y ys :
  circular f g x (y :: ys) -> circular f g y (ys ++ [x]).
Proof.
  unfold circular. intros Hc. simpl in Hc. destruct Hc as (E1 & E2 & Hc).
  change (y :: (ys ++ [x]) ++ [y]) with (((y :: ys) ++ [x]) ++ [y]).
  rewrite <- app_assoc. apply linked_app. split; [exact Hc|]. simpl. done.
Qed.

(** Rotating a ring to start at any of its members. *)
Lemma circular_rotate_to f g x xs t ys :
  circular f g x (xs ++ t :: ys) -> circular f g t (ys ++ x :: xs).
Proof.
  revert x ys. induction xs as [|y xs IH]; intros x ys Hc; simpl in *.
  - now apply circular_rotate.
  - apply circular_rotate in Hc. rewrite <- app_assoc in Hc. simpl in Hc.
    apply IH in Hc. now rewrite <- app_assoc in Hc.
Qed.

(** the last member of the non-empty list [a :: zs] *)
Lemma split_last (a : Z) zs : exists ini, a :: zs = ini ++ [List.last zs a].
Proof.
  exists (removelast (a :: zs)).
  rewrite (app_removelast_last a (l := a :: zs)) at 1 by done.
  now destruct zs.
Qed.

(** Taking the first member out of a ring of at least two and closing the gap. *)
Lemma circular_unlink f g f' g' t a zs :
  NoDup (t :: a :: zs) -> circular f g t (a :: zs) ->
  f' (List.last zs a) = a -> g' a = List.last zs a ->
  (forall x, x <> List.last zs a -> x <> t -> f' x = f x) ->
  (forall x, x <> a -> x <> t -> g' x = g x) ->
  circular f' g' a zs.
Proof.
  intros Hnd Hc Hf Hg Hf' Hg'. unfold circular in *.
  apply NoDup_cons in Hnd as [Ht Hnd]. pose proof Hnd as [Ha _]%NoDup_cons.
  cbn [app] in Hc. rewrite linked_cons in Hc. destruct Hc as (_ & _ & Hc).
  rewrite app_comm_cons in Hc |- *.
  destruct (split_last a zs) as (ini & E). remember (List.last zs a) as b eqn:Hb. clear Hb.
  rewrite E in Hc, Hnd |- *. rewrite <- app_assoc in Hc |- *. cbn [app] in Hc |- *.
  apply linked_app. split; [|simpl; done]. apply linked_app in Hc as [Hc _].
  apply NoDup_app in Hnd as (_ & Hdis & _).
  apply (linked_frame f g); [done| |].
  - intros x Hx. apply Hf'.
    + intros ->. apply (Hdis b Hx). left.
    + intros ->. apply Ht. rewrite E. apply elem_of_app. now left.
  - intros x Hx. rewrite <- E in Hx. cbn [tail] in Hx. apply Hg'; intros ->; [done|].
    apply Ht. now right.
Qed.

(** Inserting a new member before the first one. *)
Lemma circular_insert f g f' g' t a zs :
  NoDup (a :: zs) -> t ∉ a :: zs -> circular f g a zs ->
  f' (List.last zs a) = t -> f' t = a -> g' t = List.last zs a -> g' a = t ->
  (forall x, x <> List.last zs a -> x <> t -> f' x = f x) ->
  (forall x, x <> a -> x <> t -> g' x = g x) ->
  circular f' g' a (zs ++ [t]).
Proof.
  intros Hnd Ht Hc Hf1 Hf2 Hg1 Hg2 Hf' Hg'. unfold circular in *.
  pose proof Hnd as [Ha _]%NoDup_cons.
  rewrite <- app_assoc, app_comm_cons. rewrite app_comm_cons in Hc.
  destruct (split_last a zs) as (ini & E). remember (List.last zs a) as b eqn:Hb. clear Hb.
  rewrite E in Hc, Hnd |- *. rewrite <- app_assoc in Hc |- *. cbn [app] in Hc |- *.
  apply linked_app. split; [|simpl; done]. apply linked_app in Hc as [Hc _].
  apply NoDup_app in Hnd as (_ & Hdis & _).
  apply (linked_frame f g); [done| |].
  - intros x Hx. apply Hf'.
    + intros ->. apply (Hdis b Hx). left.
    + intros ->. apply Ht. rewrite E. apply elem_of_app. now left.
  - intros x Hx. rewrite <- E in Hx. cbn [tail] in Hx. apply Hg'; intros ->; [done|].
    apply Ht. now right.
Qed.

Lemma circular_last f g x xs :
  circular f g x xs -> f (List.last xs x) = x /\ g x = List.last xs x.
Proof.
  unfold circular. intros Hc. rewrite app_comm_cons in Hc.
  destruct (split_last x xs) as (ini & E). rewrite E, <- app_assoc in Hc.
  cbn [app] in Hc. apply linked_app in Hc as [_ Hc]. rewrite linked_cons in Hc. tauto.
Qed.

Lemma last_default (a t : Z) zs : List.last (a :: zs) t = List.last zs a.
Proof.
  revert a. induction zs as [|b zs IH]; intros a; [done|].
  change (List.last (a :: b :: zs) t) with (List.last (b :: zs) t). rewrite IH. symmetry.
  revert IH. destruct zs as [|c zs]; [done|]. intros _. simpl. clear.
  revert c. induction zs as [|d zs IH]; intros c; [done|]. apply IH.
Qed.

Lemma last_elem_of (x : Z) xs : List.last xs x ∈ x :: xs.
Proof.
  destruct (split_last x xs) as (ini & E). rewrite E. apply elem_of_app. right. left.
Qed.

(** ** Rings in a heap *)

Section Refinement.
Context {H : Type} `{!RingHeap H}.

Definition nexts (h : H) (p : Z) : Z := next (rget h p).
Definition prevs (h : H) (p : Z) : Z := prev (rget h p).

(** [head] is the queue of the members [l] (in this order) in heap [h]. *)
Definition is_ring (h : H) (head : Z) (l : list Z) : Prop :=
  NoDup l /\ (NULL ∉ l) /\
  match l with
  | [] => head = NULL
  | x :: xs => head = x /\ circular (nexts h) (prevs h) x xs
  end.

Lemma perm_NoDup (l k : list Z) : NoDup l -> l ≡ₚ k -> NoDup k.
Proof. intros Hl Hp. now apply (NoDup_Permutation_proper _ _ Hp). Qed.

(** Two heaps agree outside a set of cells. *)
Definition same_but (h h' : H) (l : list Z) : Prop := forall p, p ∉ l -> rget h' p = rget h p.

Lemma ringlist_eta r : r = Ring (next r) (prev r).
Proof. now destruct r. Qed.

(** Reading a cell of an updated heap. *)
Ltac cells :=
  unfold nexts, prevs in *;
  repeat (rewrite rget_rput || (case_decide; [subst|]) || simpl in *); try congruence.

Lemma link_before_spec h head t :
  head <> NULL -> t <> NULL -> prevs h head <> NULL -> t <> head -> prevs h head <> t ->
  exists h', link_before head t h = Some h' /\
    nexts h' (prevs h head) = t /\ nexts h' t = head /\
    prevs h' t = prevs h head /\ prevs h' head = t /\
    (forall x, x <> prevs h head -> x <> t -> nexts h' x = nexts h x) /\
    (forall x, x <> head -> x <> t -> prevs h' x = prevs h x) /\
    same_but h h' [prevs h head; t; head].
Proof.
  intros Hh Ht Hp Hth Hpt.
  unfold link_before, set_next, set_prev, get_prev.
  apply Z.eqb_neq in Hh as Eh, Ht as Et, Hp as Ep. unfold NULL in *.
  rewrite Eh, Et. simpl. rewrite !rget_rput.
  destruct (decide (t = t)); [|done]. destruct (decide (t = head)); [done|]. simpl.
  fold (prevs h head). rewrite Ep. simpl. eexists. split; [done|].
  split_and!; [cells|cells|cells|cells|intros x Hx1 Hx2; cells|intros x Hx1 Hx2; cells|].
  intros x Hx. rewrite !not_elem_of_cons in Hx. cells; tauto.
Qed.

Lemma link_alone_spec h t :
  t <> NULL ->
  exists h', link_alone t h = Some h' /\ nexts h' t = t /\ prevs h' t = t /\
    same_but h h' [t].
Proof.
  intros Ht. unfold link_alone, set_next, set_prev.
  apply Z.eqb_neq in Ht as Et. unfold NULL in *. rewrite Et. simpl.
  eexists. split; [done|]. split_and!; [cells|cells|].
  intros x Hx. rewrite !not_elem_of_cons in Hx. cells; tauto.
Qed.

(** members of a ring point into the ring *)
Lemma is_ring_head_prev h x xs : is_ring h x (x :: xs) -> prevs h x ∈ x :: xs.
Proof.
  intros (_ & _ & _ & Hc). apply circular_last in Hc as [_ ->]. apply last_elem_of.
Qed.

Lemma not_null_member (l : list Z) x : (NULL ∉ l) -> x ∈ l -> x <> NULL.
Proof. intros ? ? ->. done. Qed.

Lemma link_before_ring h t x xs :
  is_ring h x (x :: xs) -> t <> NULL -> t ∉ x :: xs ->
  exists h', link_before x t h = Some h' /\
    circular (nexts h') (prevs h') x (xs ++ [t]) /\ same_but h h' (t :: x :: xs).
Proof.
  intros Hr Ht Hni. pose proof (is_ring_head_prev _ _ _ Hr) as Hpin.
  destruct Hr as (Hnd & Hnull & _ & Hc).
  pose proof (circular_last _ _ _ _ Hc) as [_ Hpv].
  destruct (link_before_spec h x t) as (h' & E & F1 & F2 & F3 & F4 & F5 & F6 & F7).
  - apply (not_null_member (x :: xs)); [done|left].
  - done.
  - apply (not_null_member (x :: xs)); done.
  - intros ->. apply Hni. left.
  - intros Heq. apply Hni. now rewrite <- Heq.
  - exists h'. split; [done|]. split.
    + rewrite Hpv in *. eapply (circular_insert (nexts h) (prevs h)); eauto.
    + intros p Hp. apply F7. rewrite !not_elem_of_cons in *.
      split_and!; try tauto; try apply not_elem_of_nil.
      intros ->. rewrite elem_of_cons in Hpin. tauto.
Qed.

Lemma NoDup_snoc (l : list Z) x : NoDup l -> x ∉ l -> NoDup (l ++ [x]).
Proof.
  intros Hl Hx. apply NoDup_app. split_and!; [done| |apply NoDup_singleton].
  intros y Hy ->%list_elem_of_singleton. done.
Qed.

Lemma enqueue_tail_ring h head t l :
  is_ring h head l -> t <> NULL -> t ∉ l ->
  exists head' h', ENQUEUE_LIST_TAIL head t h = Some (head', h') /\
    is_ring h' head' (l ++ [t]) /\ same_but h h' (t :: l).
Proof.
  intros Hr Ht Hni. unfold ENQUEUE_LIST_TAIL.
  destruct l as [|x xs].
  - destruct Hr as (_ & _ & ->). simpl.
    destruct (link_alone_spec h t Ht) as (h' & -> & F1 & F2 & F3). simpl.
    exists t, h'. split_and!; [done| |done].
    split_and!; [apply NoDup_singleton|set_solver|done|]. simpl. done.
  - pose proof Hr as (Hnd & Hnull & -> & _).
    assert (x =? NULL = false) as ->.
    { apply Z.eqb_neq. apply (not_null_member (x :: xs)); [done|left]. }
    destruct (link_before_ring h t x xs Hr Ht Hni) as (h' & -> & Hc & Hs). simpl.
    exists x, h'. split_and!; [done| |done].
    split_and!; [|set_solver|done|done].
    change (NoDup ((x :: xs) ++ [t])). now apply NoDup_snoc.
Qed.

Lemma enqueue_head_ring h head t l :
  is_ring h head l -> t <> NULL -> t ∉ l ->
  exists h', ENQUEUE_LIST_HEAD head t h = Some (t, h') /\
    is_ring h' t (t :: l) /\ same_but h h' (t :: l).
Proof.
  intros Hr Ht Hni. unfold ENQUEUE_LIST_HEAD.
  destruct l as [|x xs].
  - destruct Hr as (_ & _ & ->). simpl.
    destruct (link_alone_spec h t Ht) as (h' & -> & F1 & F2 & F3). simpl.
    exists h'. split_and!; [done| |done].
    split_and!; [apply NoDup_singleton|set_solver|done|]. simpl. done.
  - pose proof Hr as (Hnd & Hnull & -> & _).
    assert (x =? NULL = false) as ->.
    { apply Z.eqb_neq. apply (not_null_member (x :: xs)); [done|left]. }
    destruct (link_before_ring h t x xs Hr Ht Hni) as (h' & -> & Hc & Hs). simpl.
    exists h'. split_and!; [done| |done].
    split_and!; [now constructor|set_solver|done|].
    now apply (circular_rotate_to _ _ x xs t []) in Hc.
Qed.

(** the queue without [t] *)
Definition remove_member (t : Z) (l : list Z) : list Z := filter (fun x => x <> t) l.

Lemma remove_member_split t l1 l2 :
  NoDup (l1 ++ t :: l2) -> remove_member t (l1 ++ t :: l2) = l1 ++ l2.
Proof.
  intros Hnd. apply NoDup_app in Hnd as (_ & Hd & Hn). apply NoDup_cons in Hn as [Hn _].
  assert (forall l, t ∉ l -> remove_member t l = l) as Hid.
  { unfold remove_member. induction l as [|y l IH]; intros Hl; [done|].
    rewrite not_elem_of_cons in Hl. destruct Hl as [Hy Hl].
    rewrite filter_cons_True by congruence. f_equal. now apply IH. }
  unfold remove_member in *. rewrite filter_app, filter_cons_False by auto.
  rewrite !Hid; [done|done|]. intros Hin. apply (Hd t Hin). left.
Qed.

Lemma dequeue_inner_spec h head t :
  t <> NULL -> nexts h t <> NULL -> prevs h t <> NULL -> nexts h t <> t -> prevs h t <> t ->
  exists h', DEQUEUE_LIST head t h = Some (if head =? t then nexts h t else head, h') /\
    nexts h' (prevs h t) = nexts h t /\ prevs h' (nexts h t) = prevs h t /\
    (forall x, x <> prevs h t -> nexts h' x = nexts h x) /\
    (forall x, x <> nexts h t -> prevs h' x = prevs h x) /\
    same_but h h' [nexts h t; prevs h t].
Proof.
  intros Ht Hn Hp Hnt Hpt. unfold DEQUEUE_LIST, get_next, get_prev, set_next, set_prev.
  apply Z.eqb_neq in Ht as Et, Hn as En, Hp as Ep, Hnt as Ent. unfold NULL in *.
  rewrite Et. simpl. fold (nexts h t) (prevs h t). rewrite Ent, En. simpl.
  rewrite !rget_rput. destruct (decide (nexts h t = t)); [done|].
  fold (nexts h t) (prevs h t). rewrite Ep. simpl.
  eexists. split; [done|].
  split_and!; [cells|cells|intros x Hx; cells|intros x Hx; cells|].
  intros x Hx. rewrite !not_elem_of_cons in Hx. cells; tauto.
Qed.

Lemma dequeue_ring h head t l :
  is_ring h head l -> t ∈ l ->
  exists head' h', DEQUEUE_LIST head t h = Some (head', h') /\
    is_ring h' head' (remove_member t l) /\ same_but h h' l.
Proof.
  intros (Hnd & Hnull & Hr) Hin.
  pose proof (not_null_member _ _ Hnull Hin) as Ht.
  apply list_elem_of_split in Hin as (l1 & l2 & ->).
  rewrite remove_member_split by done.
  assert (circular (nexts h) (prevs h) t (l2 ++ l1)) as Hc.
  { destruct l1 as [|x xs]; simpl in Hr; destruct Hr as [_ Hc].
    - now rewrite app_nil_r.
    - now apply circular_rotate_to. }
  assert (NoDup (t :: l2 ++ l1)) as Hnd'.
  { apply (perm_NoDup (l1 ++ t :: l2)); [done|].
    rewrite <- Permutation_middle. constructor. apply Permutation_app_comm. }
  pose proof (circular_last _ _ _ _ Hc) as [_ Hpv].
  destruct (l2 ++ l1) as [|a zs] eqn:Ezs.
  { apply app_eq_nil in Ezs as [-> ->]. simpl in Hr, Hpv. destruct Hr as [-> _].
    unfold circular in Hc. cbn [app] in Hc. rewrite linked_cons in Hc. destruct Hc as (Hnx & _ & _).
    unfold DEQUEUE_LIST, get_next, set_prev, set_next.
    apply Z.eqb_neq in Ht as Et. unfold NULL in *. rewrite Et. simpl.
    fold (nexts h t). rewrite Hnx, Z.eqb_refl. simpl.
    eexists _, _. split; [done|]. split.
    - split_and!; [constructor|set_solver|done].
    - intros x Hx. cbn [app] in Hx. rewrite !not_elem_of_cons in Hx. cells; tauto. }
  assert (nexts h t = a) as Hna.
  { unfold circular in Hc. cbn [app] in Hc. rewrite linked_cons in Hc. tauto. }
  assert (Hmem : forall x, x ∈ a :: zs -> x ∈ l1 ++ t :: l2).
  { intros x. rewrite <- Ezs. rewrite !elem_of_app, elem_of_cons. tauto. }
  assert (Hne : forall x, x ∈ a :: zs -> x <> t /\ x <> NULL).
  { intros x Hx. apply NoDup_cons in Hnd' as [Hn _].
    split; [now intros ->|]. eapply not_null_member; [exact Hnull|auto]. }
  assert (prevs h t = List.last zs a) as Hpa by (rewrite Hpv; apply last_default).
  destruct (dequeue_inner_spec h head t Ht) as (h' & E & F1 & F2 & F3 & F4 & F5);
    try (rewrite ?Hna, ?Hpa; apply Hne; (apply last_elem_of || left)).
  rewrite Hna, Hpa in *.
  eexists _, h'. split; [exact E|]. split.
  - assert (circular (nexts h') (prevs h') a zs) as Hc'.
    { eapply (circular_unlink (nexts h) (prevs h)); eauto. }
    split_and!.
    + apply NoDup_cons in Hnd' as [_ Hnd']. rewrite <- Ezs in Hnd'.
      apply (perm_NoDup (l2 ++ l1)); [done|apply Permutation_app_comm].
    + intros Hx. apply Hnull. apply Hmem. rewrite <- Ezs. revert Hx.
      rewrite !elem_of_app. tauto.
    + destruct l1 as [|x xs]; simpl in *.
      * destruct Hr as [-> _]. rewrite app_nil_r in Ezs. subst l2. rewrite Z.eqb_refl. done.
      * destruct Hr as [-> _].
        assert (x =? t = false) as ->.
        { apply Z.eqb_neq, Hne. rewrite <- Ezs. apply elem_of_app. right. left. }
        split; [done|]. destruct l2 as [|b l2]; simpl in Ezs; simplify_eq.
        -- now rewrite app_nil_r.
        -- now apply circular_rotate_to in Hc'.
  - intros p Hp. apply F5. rewrite !not_elem_of_cons.
    split_and!; [| |apply not_elem_of_nil]; intros ->; apply Hp, Hmem; [left|apply last_elem_of].
Qed.

(** Making another member the head rotates the queue. *)
Lemma is_ring_rotate h x xs y ys :
  is_ring h x (x :: xs ++ y :: ys) -> is_ring h y (y :: ys ++ x :: xs).
Proof.
  intros (Hnd & Hnull & _ & Hc). split_and!.
  - apply (perm_NoDup ((x :: xs) ++ y :: ys)); [done|].
    apply (Permutation_app_comm (x :: xs)).
  - revert Hnull. rewrite !elem_of_cons, !elem_of_app, !elem_of_cons. tauto.
  - done.
  - now apply circular_rotate_to.
Qed.

(** the member after the head *)
Lemma is_ring_next h x xs :
  is_ring h x (x :: xs) -> nexts h x = hd x xs.
Proof.
  intros (_ & _ & _ & Hc). unfold circular in Hc.
  destruct xs; cbn [app] in Hc; rewrite linked_cons in Hc; simpl; tauto.
Qed.

(** Making the successor of any member the head moves that member to the end. *)
Lemma is_ring_after h head l1 t l2 :
  is_ring h head (l1 ++ t :: l2) -> is_ring h (nexts h t) (l2 ++ l1 ++ [t]).
Proof.
  intros Hr. assert (is_ring h t (t :: l2 ++ l1)) as Hr1.
  { destruct l1 as [|x l1].
    - rewrite app_nil_r. cbn [app] in Hr. pose proof Hr as (_ & _ & -> & _). exact Hr.
    - cbn [app] in Hr. pose proof Hr as (_ & _ & -> & _). now apply is_ring_rotate in Hr. }
  rewrite (is_ring_next _ _ _ Hr1), app_assoc.
  destruct (l2 ++ l1) as [|a zs] eqn:E; [exact Hr1|].
  apply (is_ring_rotate h t [] a zs) in Hr1. exact Hr1.
Qed.

(** The links determine the members: two chains that end where they began agree. *)
Lemma linked_unique f g x xs : forall a ys,
  linked f g (a :: xs ++ [x]) -> linked f g (a :: ys ++ [x]) -> x ∉ xs -> x ∉ ys -> xs = ys.
Proof.
  induction xs as [|b xs IH]; intros a [|c ys] H1 H2 N1 N2; [done|..];
    cbn [app] in *; rewrite linked_cons in H1, H2; destruct H1 as (F1 & _ & H1), H2 as (F2 & _ & H2).
  - destruct N2. assert (c = x) as <- by congruence. left.
  - destruct N1. assert (b = x) as <- by congruence. left.
  - assert (b = c) as <- by congruence. f_equal. rewrite not_elem_of_cons in N1, N2.
    now apply (IH b); [..|apply N1|apply N2].
Qed.

Lemma is_ring_unique h head l l' : is_ring h head l -> is_ring h head l' -> l = l'.
Proof.
  intros (Hn1 & Hz1 & H1) (Hn2 & Hz2 & H2). destruct l as [|x xs], l' as [|y ys]; [done|..].
  - destruct H2 as [-> _]. subst. destruct Hz2. left.
  - destruct H1 as [-> _]. subst. destruct Hz1. left.
  - destruct H1 as [-> H1], H2 as [-> H2]. f_equal.
    apply NoDup_cons in Hn1 as [Hn1 _], Hn2 as [Hn2 _].
    exact (linked_unique _ _ _ xs _ ys H1 H2 Hn1 Hn2).
Qed.

Lemma is_ring_same_but h h' head l k :
  is_ring h head l -> same_but h h' k -> (forall x, x ∈ l -> x ∉ k) -> is_ring h' head l.
Proof.
  intros (Hnd & Hnull & Hr) Hs Hd. split_and!; [done|done|].
  destruct l as [|x xs]; [done|]. destruct Hr as [-> Hc]. split; [done|].
  unfold circular in *. rewrite app_comm_cons in *.
  apply (linked_frame (nexts h) (prevs h)); [done| |].
  - intros y Hy. unfold nexts. now rewrite Hs by auto.
  - intros y Hy. unfold prevs. rewrite Hs; [done|]. apply Hd. cbn [app tail] in Hy.
    apply elem_of_app in Hy as [Hy| ->%list_elem_of_singleton]; [now right|left].
Qed.

End Refinement.

(** ** Frames

    The macros change a heap only by writing cells: they preserve every
    preorder that a write of a cell preserves. *)

Section Frame.
Context {H : Type} `{!RingHeap H} (R : H -> H -> Prop) `{!PreOrder R}.
Hypothesis Hput : forall p r h, R h (rput p r h).

Lemma set_next_frame p v h h' : set_next p v h = Some h' -> R h h'.
Proof. unfold set_next. destruct (p =? NULL); [done|]. intros [= <-]. apply Hput. Qed.

Lemma set_prev_frame p v h h' : set_prev p v h = Some h' -> R h h'.
Proof. unfold set_prev. destruct (p =? NULL); [done|]. intros [= <-]. apply Hput. Qed.

(** One step of a chain of [option] operations. *)
Ltac frame_step E :=
  lazymatch type of E with
  | (_ ← set_next _ _ _; _) = _ =>
      let E1 := fresh "E" in
      apply bind_Some in E as (? & E1 & E); apply set_next_frame in E1
  | (_ ← set_prev _ _ _; _) = _ =>
      let E1 := fresh "E" in
      apply bind_Some in E as (? & E1 & E); apply set_prev_frame in E1
  | (_ ← _; _) = _ => apply bind_Some in E as (? & _ & E)
  end.

Lemma link_before_frame head t h h' : link_before head t h = Some h' -> R h h'.
Proof.
  unfold link_before. intros E. do 5 frame_step E. apply set_prev_frame in E.
  repeat (etransitivity; [eassumption|]). reflexivity.
Qed.

Lemma link_alone_frame t h h' : link_alone t h = Some h' -> R h h'.
Proof.
  unfold link_alone. intros E. frame_step E. apply set_next_frame in E. etransitivity; eassumption.
Qed.

Lemma ENQUEUE_LIST_TAIL_frame head t h head' h' :
  ENQUEUE_LIST_TAIL head t h = Some (head', h') -> R h h'.
Proof.
  unfold ENQUEUE_LIST_TAIL. destruct (head =? NULL); intros E;
    apply bind_Some in E as (h1 & E1 & E); simplify_eq;
    eauto using link_alone_frame, link_before_frame.
Qed.

Lemma ENQUEUE_LIST_HEAD_frame head t h head' h' :
  ENQUEUE_LIST_HEAD head t h = Some (head', h') -> R h h'.
Proof.
  unfold ENQUEUE_LIST_HEAD. intros E. apply bind_Some in E as (h1 & E1 & E). simplify_eq.
  destruct (head =? NULL); eauto using link_alone_frame, link_before_frame.
Qed.

Lemma DEQUEUE_LIST_frame head t h head' h' :
  DEQUEUE_LIST head t h = Some (head', h') -> R h h'.
Proof.
  unfold DEQUEUE_LIST. intros E. frame_step E. destruct (_ =? t).
  - do 2 frame_step E. simplify_eq. etransitivity; eassumption.
  - do 5 frame_step E. simplify_eq. etransitivity; eassumption.
Qed.

End Frame.

(** ** Sequences of queue operations *)

(** the three ways kernel code changes a queue *)
Inductive queue_op := EnqueueTail (tcb : Z) | EnqueueHead (tcb : Z) | Dequeue (tcb : Z).

(** What the operation means for the list of members. *)
Definition queue_spec (op : queue_op) (l : list Z) : list Z :=
  match op with
  | EnqueueTail t => l ++ [t]
  | EnqueueHead t => t :: l
  | Dequeue t => remove_member t l
  end.

(** A system of queues in one heap: the head and the members of each.  The
    kernel has one for each priority; the send queues of all threads are another. *)
Definition set_queue {A} (i : Z) (v : A) (f : Z -> A) : Z -> A := fun j => if decide (i = j) then v else f j.

Lemma set_queue_same {A} i (v : A) f : set_queue i v f i = v.
Proof. unfold set_queue. now case_decide. Qed.

Lemma set_queue_other {A} i j (v : A) f : i <> j -> set_queue i v f j = f j.
Proof. intros. unfold set_queue. now case_decide. Qed.

(** Callers enqueue a block that is in no queue and dequeue one that is in the
    queue (the state flags of [queuestate_t] say which). *)
Definition queue_pre (i : Z) (op : queue_op) (Q : Z -> list Z) : Prop :=
  match op with
  | EnqueueTail t | EnqueueHead t => t <> NULL /\ forall j, t ∉ Q j
  | Dequeue t => t ∈ Q i
  end.

Fixpoint queue_spec_all (ops : list (Z * queue_op)) (Q : Z -> list Z) : Z -> list Z :=
  match ops with [] => Q | (i, op) :: ops => queue_spec_all ops (set_queue i (queue_spec op (Q i)) Q) end.

Fixpoint queue_pre_all (ops : list (Z * queue_op)) (Q : Z -> list Z) : Prop :=
  match ops with
  | [] => True
  | (i, op) :: ops => queue_pre i op Q /\ queue_pre_all ops (set_queue i (queue_spec op (Q i)) Q)
  end.

(** the block an operation is about *)
Definition queue_block (op : queue_op) : Z :=
  match op with EnqueueTail t | EnqueueHead t | Dequeue t => t end.

(** what an operation leaves in the queue was there or is its block *)
Lemma elem_of_queue_spec op l x : x ∈ queue_spec op l -> x ∈ l \/ x = queue_block op.
Proof.
  destruct op as [t|t|t]; simpl; rewrite ?elem_of_app, ?elem_of_cons, ?elem_of_nil; [tauto..|].
  unfold remove_member. rewrite list_elem_of_filter. tauto.
Qed.

Section Sequences.
Context {H : Type} `{!RingHeap H}.

Definition queue_run (op : queue_op) (head : Z) (h : H) : option (Z * H) :=
  match op with
  | EnqueueTail t => ENQUEUE_LIST_TAIL head t h
  | EnqueueHead t => ENQUEUE_LIST_HEAD head t h
  | Dequeue t => DEQUEUE_LIST head t h
  end.

(** each operation changes the head of its queue *)
Fixpoint queue_run_all (ops : list (Z * queue_op)) (heads : Z -> Z) (h : H) : option ((Z -> Z) * H) :=
  match ops with
  | [] => Some (heads, h)
  | (i, op) :: ops => '(head, h) ← queue_run op (heads i) h; queue_run_all ops (set_queue i head heads) h
  end.

(** every queue is a ring of its members, and no block is in two of them *)
Record queue_system (heads : Z -> Z) (h : H) (Q : Z -> list Z) : Prop := {
  qs_ring : forall i, is_ring h (heads i) (Q i);
  qs_disjoint : forall i j x, x ∈ Q i -> x ∈ Q j -> i = j;
}.

Lemma queue_run_ring i op head h Q :
  is_ring h head (Q i) -> queue_pre i op Q ->
  exists head' h', queue_run op head h = Some (head', h') /\
    is_ring h' head' (queue_spec op (Q i)) /\ same_but h h' (queue_block op :: Q i).
Proof.
  intros Hr Hp. destruct op as [t|t|t]; simpl in *.
  - destruct Hp as [Ht Hn]. now apply (enqueue_tail_ring h).
  - destruct Hp as [Ht Hn]. destruct (enqueue_head_ring h head t (Q i)) as (h' & E & H1 & H2); eauto.
  - destruct (dequeue_ring h head t (Q i) Hr Hp) as (head' & h' & E & H1 & H2).
    exists head', h'. split_and!; [done|done|]. intros p Hpn. apply H2.
    intros Hin. apply Hpn. now right.
Qed.

(** an operation on one queue of the system *)
Lemma queue_run_queues i op heads h Q :
  queue_system heads h Q -> queue_pre i op Q ->
  exists head' h', queue_run op (heads i) h = Some (head', h') /\
    queue_system (set_queue i head' heads) h' (set_queue i (queue_spec op (Q i)) Q) /\
    same_but h h' (queue_block op :: Q i).
Proof.
  intros [Hr Hd] Hp.
  destruct (queue_run_ring i op (heads i) h Q (Hr i) Hp) as (head' & h' & E & Hr' & Hs).
  exists head', h'. split_and!; [done| |done].
  assert (Hb : forall j x, j <> i -> x ∈ Q j -> x <> queue_block op /\ x ∉ Q i).
  { intros j x Hj Hx. split; [|intros Hi; now apply Hj, (Hd j i x)].
    intros ->. destruct op as [t|t|t]; simpl in *; [now destruct Hp as [_ Hp]; apply (Hp j)..|].
    now apply Hj, (Hd j i t). }
  split.
  - intros j. unfold set_queue. case_decide as Hj; [subst j; exact Hr'|].
    apply (is_ring_same_but h h' _ _ (queue_block op :: Q i)); [apply Hr|done|].
    intros x Hx. rewrite not_elem_of_cons. apply (Hb j); [congruence|done].
  - assert (Hin : forall j x, x ∈ set_queue i (queue_spec op (Q i)) Q j ->
      x ∈ Q j \/ x = queue_block op /\ j = i).
    { intros j x. unfold set_queue. case_decide; [subst|tauto]. intros [|]%elem_of_queue_spec; tauto. }
    intros j k x [Hj|[-> ->]]%Hin [Hk|[Hx ->]]%Hin; [now apply (Hd j k x)| | |done].
    + destruct (decide (j = i)) as [|Hji]; [done|]. now destruct (Hb j x Hji Hj).
    + destruct (decide (k = i)) as [|Hki]; [done|]. now destruct (Hb k _ Hki Hk).
Qed.

(** C16 Queue refinement: whatever sequence of enqueue and dequeue operations the
    kernel performs on a system of disjoint queues in one heap, as long as each
    enqueues a block that is in no queue and dequeues one that is in the queue
    it names, the pointer-manipulating macros never dereference [NULL] and leave
    every queue a well-formed ring whose members are exactly those of the list
    specification, in its order; so the queues that are not named keep their
    members, all stay disjoint, and no cell is written but those of blocks that were in
    a queue or are named by an operation. *)
Theorem queue_macros_refine_lists ops heads (h : H) Q :
  queue_system heads h Q -> queue_pre_all ops Q ->
  exists heads' h', queue_run_all ops heads h = Some (heads', h') /\
    queue_system heads' h' (queue_spec_all ops Q) /\
    forall p, (forall i, p ∉ Q i) -> (forall i op, (i, op) ∈ ops -> queue_block op <> p) ->
      rget h' p = rget h p.
Proof.
  revert heads h Q. induction ops as [|[i op] ops IH]; intros heads h Q Hq Hp; [now exists heads, h|].
  destruct Hp as [Hp Hps].
  destruct (queue_run_queues i op heads h Q Hq Hp) as (head1 & h1 & E1 & Hq1 & Hs1).
  destruct (IH _ h1 _ Hq1 Hps) as (heads' & h' & E & Hq' & Hs'). exists heads', h'.
  simpl. rewrite E1. simpl. split_and!; [exact E|exact Hq'|].
  intros p Hn Hb. pose proof (Hb i op ltac:(left)) as Hbp. rewrite Hs'.
  - apply Hs1. rewrite not_elem_of_cons. split; [congruence|apply Hn].
  - intros j. unfold set_queue. case_decide; [|apply Hn].
    intros [Hin| ->]%elem_of_queue_spec; [now apply (Hn i)|done].
  - intros j op' Hin. apply (Hb j). now right.
Qed.

End Sequences.

(** ** A heap of ring cells *)

Definition cell (h : gmap Z ringlist) (p : Z) : ringlist := default (Ring NULL NULL) (h !! p).

Lemma cell_insert (p q : Z) r (h : gmap Z ringlist) :
  cell (<[p := r]> h) q = if decide (p = q) then r else cell h q.
Proof. unfold cell. rewrite lookup_insert. now case_decide. Qed.

#[export] Instance gmap_RingHeap : RingHeap (gmap Z ringlist) :=
  { rget := cell; rput := insert; rget_rput := cell_insert }.

(** two queues: blocks move from one to the other *)
Definition some_operations : list (Z * queue_op) :=
  [(0, EnqueueTail 3); (1, EnqueueTail 5); (0, EnqueueHead 7); (0, Dequeue 3); (1, EnqueueTail 3);
   (0, EnqueueTail 9)].

Lemma queue_macros_refine_lists_witness :
  exists heads' (h' : gmap Z ringlist),
    queue_run_all some_operations (fun _ => NULL) ∅ = Some (heads', h') /\
    is_ring h' (heads' 0) [7; 9] /\ is_ring h' (heads' 1) [5; 3] /\ rget h' 4 = rget ∅ 4.
Proof.
  destruct (queue_macros_refine_lists some_operations (fun _ => NULL) (∅ : gmap Z ringlist) (fun _ => []))
    as (heads' & h' & E & [Hr _] & Hs).
  - split; [intros i; split_and!; [constructor|apply not_elem_of_nil|done]|].
    intros i j x Hx. now apply elem_of_nil in Hx.
  - cbn [some_operations queue_pre_all queue_pre].
    repeat (split; [first [split; [done|intros j; unfold set_queue; repeat case_decide; subst; try lia] |idtac];
                    apply (bool_decide_unpack _); vm_compute; exact I|]). done.
  - exists heads', h'. split_and!; [exact E|exact (Hr 0)|exact (Hr 1)|].
    apply Hs; [intros i; apply not_elem_of_nil|]. intros i op Hin.
    assert (Forall (fun o => queue_block o.2 <> 4) some_operations) as Hb by (repeat constructor; cbn; lia).
    rewrite Forall_forall in Hb. exact (Hb _ Hin).
Defined.

(** Evaluated: the members come out in the order of the lists. *)
Example queue_example :
  (p ← queue_run_all some_operations (fun _ => NULL) (∅ : gmap Z ringlist);
   Some (fst p 0, nexts (snd p) 7, nexts (snd p) 9, fst p 1, nexts (snd p) 5, nexts (snd p) 3))
  = Some (7, 9, 7, 5, 3, 5).
Proof. vm_compute. reflexivity. Qed.
