(* ===== verification/Monad.v ===== *)
(** * Outcomes of kernel code

    Kernel operations thread the kernel's state and can end in three ways:
    they return, they never return because the code reaches a panic loop
    ([UNIMPLEMENTED], [panic], [enter_kdebug] in a kernel without debugger), or
    they dereference [NULL].  [ASSERT] is empty in the configuration modelled
    (CONFIG_DEBUG is off), so it does not appear.  [run_to m s Q] is total
    correctness: [m] started in [s] returns, in a state that satisfies [Q]. *)

From Stdlib Require Import ZArith Lia Bool List.
From stdpp Require Import base numbers list option.
From S2P Require Import Prelude.
Open Scope Z_scope.

Inductive result (A : Type) :=
| Ok (a : A)
| Hang
| Crash.
Arguments Ok {A} a.
Arguments Hang {A}.
Arguments Crash {A}.

Definition M (S A : Type) : Type := S -> result (A * S).

Section Combinators.
Context {S A B : Type}.

Definition ret (a : A) : M S A := fun s => Ok (a, s).
Definition bind (m : M S A) (k : A -> M S B) : M S B := fun s =>
  match m s with
  | Ok (a, s') => k a s'
  | Hang => Hang
  | Crash => Crash
  end.
Definition gets (f : S -> A) : M S A := fun s => Ok (f s, s).
Definition modify (f : S -> S) : M S unit := fun s => Ok (tt, f s).
Definition hang : M S A := fun _ => Hang.
Definition crash : M S A := fun _ => Crash.
Definition when (b : bool) (m : M S unit) : M S unit :=
  if b then m else fun s => Ok (tt, s).

(** an [option] whose [None] is a dereference of [NULL] *)
Definition of_option (f : S -> option (A * S)) : M S A := fun s =>
  match f s with Some r => Ok r | None => Crash end.

(** [m] returns from [s] and what it returns satisfies [Q] *)
Definition run_to (m : M S A) (s : S) (Q : A -> S -> Prop) : Prop :=
  exists a s', m s = Ok (a, s') /\ Q a s'.

End Combinators.

Declare Scope kern_scope.
Delimit Scope kern_scope with kern.
Notation "'let*' x ':=' m 'in' k" := (bind m (fun x => k))
  (at level 200, x pattern, m at level 100, k at level 200, right associativity) : kern_scope.
Notation "m ';;;' k" := (bind m (fun _ => k))
  (at level 199, k at level 200, right associativity) : kern_scope.
Open Scope kern_scope.

Section Laws.
Context {S : Type}.

Lemma bind_ok {A B} (m : M S A) (k : A -> M S B) s a s' :
  m s = Ok (a, s') -> bind m k s = k a s'.
Proof. unfold bind. now intros ->. Qed.

Lemma bind_inv {A B} (m : M S A) (k : A -> M S B) s b s'' :
  bind m k s = Ok (b, s'') -> exists a s', m s = Ok (a, s') /\ k a s' = Ok (b, s'').
Proof. unfold bind. destruct (m s) as [[a s']| |]; try discriminate. eauto. Qed.

Lemma bind_ret_l {A B} (a : A) (k : A -> M S B) s : bind (ret a) k s = k a s.
Proof. done. Qed.

Lemma bind_gets {A B} (f : S -> A) (k : A -> M S B) s : bind (gets f) k s = k (f s) s.
Proof. done. Qed.

Lemma bind_modify {B} (f : S -> S) (k : unit -> M S B) s : bind (modify f) k s = k tt (f s).
Proof. done. Qed.

Lemma bind_when_false {B} (m : M S unit) (k : unit -> M S B) s : bind (when false m) k s = k tt s.
Proof. done. Qed.

Lemma bind_when_true {B} (m : M S unit) (k : unit -> M S B) s : bind (when true m) k s = bind m k s.
Proof. done. Qed.

(** the form [ret] and [when] unfold to *)
Lemma bind_pure {A B} (a : A) (k : A -> M S B) s : bind (fun s => Ok (a, s)) k s = k a s.
Proof. done. Qed.

Lemma bind_assoc {A B C} (m : M S A) (k : A -> M S B) (l : B -> M S C) s :
  bind (bind m k) l s = bind m (fun a => bind (k a) l) s.
Proof. unfold bind. destruct (m s) as [[a s']| |]; done. Qed.

Lemma bind_if {A B} (b : bool) (m1 m2 : M S A) (k : A -> M S B) s :
  bind (if b then m1 else m2) k s = if b then bind m1 k s else bind m2 k s.
Proof. now destruct b. Qed.

Lemma run_to_bind {A B} (m : M S A) (k : A -> M S B) s P Q :
  run_to m s P -> (forall a s', P a s' -> run_to (k a) s' Q) -> run_to (bind m k) s Q.
Proof.
  intros (a & s' & E & Hp) Hk. destruct (Hk a s' Hp) as (b & s'' & E' & Hq).
  exists b, s''. split; [|done]. now rewrite (bind_ok _ _ _ _ _ E).
Qed.

Lemma run_to_weaken {A} (m : M S A) s (P Q : A -> S -> Prop) :
  run_to m s P -> (forall a s', P a s' -> Q a s') -> run_to m s Q.
Proof. intros (a & s' & E & Hp) H. exists a, s'. auto. Qed.

Lemma run_to_ret {A} (a : A) s (Q : A -> S -> Prop) : Q a s -> run_to (ret a) s Q.
Proof. exists a, s. done. Qed.

Lemma run_to_gets {A} (f : S -> A) s (Q : A -> S -> Prop) : Q (f s) s -> run_to (gets f) s Q.
Proof. exists (f s), s. done. Qed.

Lemma run_to_modify f s (Q : unit -> S -> Prop) : Q tt (f s) -> run_to (modify f) s Q.
Proof. exists tt, (f s). done. Qed.

Lemma run_to_when b (m : M S unit) s (Q : unit -> S -> Prop) :
  (b = true -> run_to m s Q) -> (b = false -> Q tt s) -> run_to (when b m) s Q.
Proof. intros H1 H2. destruct b; [now apply H1|]. exists tt, s. auto. Qed.

(** what a returning run says about an exact result *)
Lemma run_to_ok {A} (m : M S A) s (Q : A -> S -> Prop) a s' :
  run_to m s Q -> m s = Ok (a, s') -> Q a s'.
Proof. intros (b & s'' & E & Hq) E'. congruence. Qed.

End Laws.

#[export] Hint Rewrite @bind_ret_l @bind_gets @bind_modify @bind_assoc @bind_if : kern.

(** Symbolic execution of the leading primitive steps of a computation. *)
Ltac kstep := autorewrite with kern.

(** Decompose a hypothesis that a sequence of operations returned. *)
Ltac kinv H :=
  let a := fresh "a" in let s := fresh "s" in let E := fresh "E" in
  apply bind_inv in H as (a & s & E & H).

(** ** Relations an operation preserves

    [preserves R m]: whenever [m] returns, the states before and after are
    related by [R].  [never_hangs m]: no state sends [m] into a panic loop. *)

Section Preservation.
Context {S : Type} (R : S -> S -> Prop) `{!PreOrder R}.

Definition preserves {A} (m : M S A) : Prop := forall s a s', m s = Ok (a, s') -> R s s'.

Lemma preserves_ret {A} (a : A) : preserves (ret a).
Proof. intros s b s' [= _ <-]. done. Qed.

Lemma preserves_bind {A B} (m : M S A) (k : A -> M S B) :
  preserves m -> (forall a, preserves (k a)) -> preserves (bind m k).
Proof.
  intros Hm Hk s b s'' (a & s' & E & E')%bind_inv.
  transitivity s'; [now apply (Hm s a)|now apply (Hk a s' b)].
Qed.

Lemma preserves_gets {A} (f : S -> A) : preserves (gets f).
Proof. intros s b s' [= _ <-]. done. Qed.

Lemma preserves_modify f : (forall s, R s (f s)) -> preserves (modify f).
Proof. intros Hf s a s' [= _ <-]. apply Hf. Qed.

Lemma preserves_hang {A} : preserves (hang (A := A)).
Proof. now intros s a s' [=]. Qed.

Lemma preserves_crash {A} : preserves (crash (A := A)).
Proof. now intros s a s' [=]. Qed.

Lemma preserves_when b (m : M S unit) : preserves m -> preserves (when b m).
Proof. destruct b; [done|]. intros _. apply (preserves_ret tt). Qed.

Lemma preserves_of_option {A} (f : S -> option (A * S)) :
  (forall s a s', f s = Some (a, s') -> R s s') -> preserves (of_option f).
Proof.
  intros Hf s a s'. unfold of_option. destruct (f s) as [[b t]|] eqn:E; [|done].
  intros [= -> ->]. now apply (Hf s a).
Qed.

End Preservation.

Section NeverHangs.
Context {S : Type}.

Definition never_hangs {A} (m : M S A) : Prop := forall s, m s <> Hang.

Lemma never_hangs_bind {A B} (m : M S A) (k : A -> M S B) :
  never_hangs m -> (forall a, never_hangs (k a)) -> never_hangs (bind m k).
Proof.
  intros Hm Hk s. unfold bind. specialize (Hm s). destruct (m s) as [[a s']| |]; [apply Hk|done|done].
Qed.

Lemma never_hangs_ret {A} (a : A) : never_hangs (ret (S := S) a).
Proof. done. Qed.

Lemma never_hangs_gets {A} (f : S -> A) : never_hangs (gets f).
Proof. done. Qed.

Lemma never_hangs_modify (f : S -> S) : never_hangs (modify f).
Proof. done. Qed.

Lemma never_hangs_crash {A} : never_hangs (crash (S := S) (A := A)).
Proof. done. Qed.

Lemma never_hangs_when b (m : M S unit) : never_hangs m -> never_hangs (when b m).
Proof. now destruct b. Qed.

Lemma never_hangs_of_option {A} (f : S -> option (A * S)) : never_hangs (of_option f).
Proof. intros s. unfold of_option. now destruct (f s). Qed.

End NeverHangs.

(** ** Ending

    [ends m s Q]: [m] does not hang in [s], and if it returns, its result and
    state satisfy [Q]. *)

Section Ends.
Context {S : Type}.

Definition ends {A} (m : M S A) (s : S) (Q : A -> S -> Prop) : Prop :=
  match m s with
  | Ok (a, s') => Q a s'
  | Hang => False
  | Crash => True
  end.

Lemma ends_bind {A B} (m : M S A) (k : A -> M S B) s P Q :
  ends m s P -> (forall a s', P a s' -> ends (k a) s' Q) -> ends (bind m k) s Q.
Proof.
  unfold ends, bind. intros Hm Hk. destruct (m s) as [[a s']| |]; [now apply Hk|done|done].
Qed.

Lemma ends_weaken {A} (m : M S A) s (P Q : A -> S -> Prop) :
  ends m s P -> (forall a s', P a s' -> Q a s') -> ends m s Q.
Proof. unfold ends. intros Hm HPQ. destruct (m s) as [[a s']| |]; [now apply HPQ|done|done]. Qed.

Lemma ends_never_hangs {A} (m : M S A) (R : S -> S -> Prop) s :
  never_hangs m -> preserves R m -> ends m s (fun _ s' => R s s').
Proof.
  intros Hn Hp. unfold ends. specialize (Hn s). destruct (m s) as [[a s']| |] eqn:E; [|done|done].
  now apply (Hp s a).
Qed.

Lemma ends_no_hang {A} (m : M S A) s Q : ends m s Q -> m s <> Hang.
Proof. unfold ends. intros H E. now rewrite E in H. Qed.

End Ends.

(** The two walkers go through the text of an operation: sequences, branches,
    calls (unfolded) and primitives (left to the caller's tactic). *)
Ltac head_of t := match t with ?f _ => head_of f | _ => t end.
Ltac unfold_call m := let h := head_of m in unfold h; cbv beta.

Ltac walk_pres prim :=
  lazymatch goal with
  | |- preserves _ (bind _ _) => apply preserves_bind; [typeclasses eauto|walk_pres prim|intros ?; walk_pres prim]
  | |- preserves _ (ret _) => apply preserves_ret; typeclasses eauto
  | |- preserves _ (gets _) => apply preserves_gets; typeclasses eauto
  | |- preserves _ hang => apply preserves_hang
  | |- preserves _ crash => apply preserves_crash
  | |- preserves _ (when _ _) => apply preserves_when; [typeclasses eauto|walk_pres prim]
  | |- preserves _ (if ?b then _ else _) => destruct b; walk_pres prim
  | |- preserves _ (match ?x with _ => _ end) => destruct x; walk_pres prim
  | |- preserves _ (of_option (if ?b then _ else _)) => destruct b; walk_pres prim
  | |- preserves _ (let x := _ in _) => cbv zeta; walk_pres prim
  | |- preserves _ ?m => first [prim tt | unfold_call m; walk_pres prim]
  end.

Ltac walk_hang prim :=
  lazymatch goal with
  | |- never_hangs (bind _ _) => apply never_hangs_bind; [walk_hang prim|intros ?; walk_hang prim]
  | |- never_hangs (ret _) => apply never_hangs_ret
  | |- never_hangs (gets _) => apply never_hangs_gets
  | |- never_hangs (modify _) => apply never_hangs_modify
  | |- never_hangs crash => apply never_hangs_crash
  | |- never_hangs (when _ _) => apply never_hangs_when; walk_hang prim
  | |- never_hangs (of_option _) => apply never_hangs_of_option
  | |- never_hangs (if ?b then _ else _) => destruct b; walk_hang prim
  | |- never_hangs (match ?x with _ => _ end) => destruct x; walk_hang prim
  | |- never_hangs (let x := _ in _) => cbv zeta; walk_hang prim
  | |- never_hangs ?m => first [prim tt | unfold_call m; walk_hang prim]
  end.
