(* ===== verification/Lib.v ===== *)
(** * Memory functions

    [memcpy] and [memset] of [generic/lib.cc], on any memory that is accessed
    byte by byte.  The length is an [unsigned int]. *)

From Stdlib Require Import ZArith Lia Bool List.
From stdpp Require Import base numbers list option gmap.
From S2P Require Import Prelude Monad.
Open Scope Z_scope.

Section Operations.
Context {S : Type}.
Variable load_byte : Z -> M S Z.
Variable store_byte : Z -> Z -> M S unit.

(** [while (len-- > 0) *d++ = *s++] *)
Fixpoint copy_loop (n : nat) (d s : Z) : M S unit :=
  match n with
  | O => ret tt
  | Datatypes.S n =>
      let* v := load_byte s in
      store_byte d v ;;;
      copy_loop n (w64 (d + 1)) (w64 (s + 1))
  end.
Definition memcpy (dst src len : Z) : M S Z :=
  copy_loop (Z.to_nat (w32 len)) dst src ;;; ret dst.

(** [while (len-- > 0) *s++ = c]; [c] is converted to a byte *)
Fixpoint set_loop (n : nat) (s c : Z) : M S unit :=
  match n with
  | O => ret tt
  | Datatypes.S n => store_byte s (w8 c) ;;; set_loop n (w64 (s + 1)) c
  end.
Definition memset (dst c len : Z) : M S Z :=
  set_loop (Z.to_nat (w32 len)) dst c ;;; ret dst.

Lemma copy_loop_never_hangs n d s :
  (forall a, never_hangs (load_byte a)) -> (forall a v, never_hangs (store_byte a v)) ->
  never_hangs (copy_loop n d s).
Proof.
  intros Hl Hs. revert d s. induction n as [|n IH]; intros d s; simpl; [apply never_hangs_ret|].
  apply never_hangs_bind; [apply Hl|]. intros v. apply never_hangs_bind; [apply Hs|]. intros _. apply IH.
Qed.
End Operations.

(** ** On a memory of bytes *)

Section Bytes.
Abbreviation bytes := (gmap Z Z).
Definition byte_at (m : bytes) (a : Z) : Z := default 0 (m !! a).
Definition get_byte (a : Z) : M bytes Z := gets (fun m => byte_at m a).
Definition put_byte (a v : Z) : M bytes unit := modify (<[a := v]>).

Lemma byte_at_put a b v m : byte_at (<[a := v]> m) b = if decide (a = b) then v else byte_at m b.
Proof. unfold byte_at. rewrite lookup_insert. now case_decide. Qed.

(** what is copied in ascending order: the source may overlap the destination
    from above *)
Lemma copy_loop_spec n d s m :
  0 <= d -> 0 <= s -> d + Z.of_nat n <= 2 ^ 64 -> s + Z.of_nat n <= 2 ^ 64 ->
  (s + Z.of_nat n <= d \/ d <= s) ->
  exists m', copy_loop get_byte put_byte n d s m = Ok (tt, m') /\
    forall a, byte_at m' a = if decide (d <= a < d + Z.of_nat n) then byte_at m (a - d + s) else byte_at m a.
Proof.
  revert d s m. induction n as [|n IH]; intros d s m Hd Hs Hdn Hsn Hov.
  - exists m. split; [done|]. intros a. rewrite decide_False by lia. done.
  - cbn [copy_loop]. unfold get_byte at 1, put_byte at 1. rewrite bind_gets, bind_modify.
    destruct n as [|n].
    { eexists. split; [reflexivity|]. intros a. rewrite byte_at_put.
      destruct (decide (d = a)) as [->|Hn]; [rewrite decide_True by lia; f_equal; lia|now rewrite decide_False by lia]. }
    rewrite !wrap_small by lia.
    destruct (IH (d + 1) (s + 1) (<[d := byte_at m s]> m)) as (m' & E & Hm'); [lia..|].
    exists m'. split; [exact E|]. intros a. rewrite Hm', !byte_at_put.
    destruct (decide (d = a)) as [->|Hn].
    + rewrite decide_False, decide_True by lia. f_equal. lia.
    + destruct (decide (d + 1 <= a < d + 1 + Z.of_nat (S n))).
      * rewrite decide_False, decide_True by lia. f_equal. lia.
      * rewrite decide_False by lia. done.
Qed.

(** [memcpy] copies a range and touches nothing else, whenever the source lies
    below the destination or starts above it. *)
Theorem memcpy_copies dst src len m :
  0 <= len < 2 ^ 32 -> 0 <= dst -> 0 <= src -> dst + len <= 2 ^ 64 -> src + len <= 2 ^ 64 ->
  (src + len <= dst \/ dst <= src) ->
  exists m', memcpy get_byte put_byte dst src len m = Ok (dst, m') /\
    forall a, byte_at m' a = if decide (dst <= a < dst + len) then byte_at m (a - dst + src) else byte_at m a.
Proof.
  intros Hl Hd Hs Hdl Hsl Hov. unfold memcpy. rewrite wrap_small by exact Hl.
  destruct (copy_loop_spec (Z.to_nat len) dst src m) as (m' & E & Hm'); [lia..|].
  rewrite (bind_ok _ _ _ _ _ E). exists m'. split; [done|]. intros a. rewrite Hm'.
  now rewrite Z2Nat.id by lia.
Qed.

Lemma memcpy_copies_witness :
  exists m', memcpy get_byte put_byte 10 11 2 (<[11 := 7]> (<[12 := 8]> ∅)) = Ok (10, m') /\
    byte_at m' 10 = 7 /\ byte_at m' 11 = 8.
Proof.
  destruct (memcpy_copies 10 11 2 (<[11 := 7]> (<[12 := 8]> ∅))) as (m' & E & H); [lia..|].
  exists m'. split; [exact E|]. split; [exact (H 10)|exact (H 11)].
Defined.

(** [memset] fills a range with the low byte of its argument. *)
Theorem memset_fills dst c len m :
  0 <= len < 2 ^ 32 -> 0 <= dst -> dst + len <= 2 ^ 64 ->
  exists m', memset put_byte dst c len m = Ok (dst, m') /\
    forall a, byte_at m' a = if decide (dst <= a < dst + len) then w8 c else byte_at m a.
Proof.
  intros Hl Hd Hdl. unfold memset. rewrite wrap_small by exact Hl.
  assert (H : forall n d m, 0 <= d -> d + Z.of_nat n <= 2 ^ 64 ->
    exists m', set_loop put_byte n d c m = Ok (tt, m') /\
      forall a, byte_at m' a = if decide (d <= a < d + Z.of_nat n) then w8 c else byte_at m a).
  { clear. induction n as [|n IH]; intros d m Hd Hn.
    - exists m. split; [done|]. intros a. now rewrite decide_False by lia.
    - cbn [set_loop]. unfold put_byte at 1. rewrite bind_modify. destruct n as [|n].
      { eexists. split; [reflexivity|]. intros a. rewrite byte_at_put.
        destruct (decide (d = a)) as [->|Hne]; [now rewrite decide_True by lia|now rewrite decide_False by lia]. }
      rewrite wrap_small by lia. destruct (IH (d + 1) (<[d := w8 c]> m)) as (m' & E & Hm'); [lia..|].
      exists m'. split; [exact E|]. intros a. rewrite Hm', byte_at_put.
      destruct (decide (d = a)) as [->|Hne]; [now rewrite decide_False, decide_True by lia|].
      destruct (decide (d + 1 <= a < d + 1 + Z.of_nat (S n))); [now rewrite decide_True by lia|now rewrite decide_False by lia]. }
  destruct (H (Z.to_nat len) dst m) as (m' & E & Hm'); [lia..|].
  rewrite (bind_ok _ _ _ _ _ E). exists m'. split; [done|]. intros a. rewrite Hm'. now rewrite Z2Nat.id by lia.
Qed.

Lemma memset_fills_witness :
  exists m', memset put_byte 4096 0x1ff 3 ∅ = Ok (4096, m') /\ byte_at m' 4098 = 255 /\ byte_at m' 4099 = 0.
Proof.
  destruct (memset_fills 4096 0x1ff 3 ∅) as (m' & E & H); [lia..|].
  exists m'. split; [exact E|]. split; [exact (H 4098)|exact (H 4099)].
Defined.
End Bytes.
