(* ===== verification/Kmem.v ===== *)
(** * The kernel memory allocator

    [generic/kmemory.cc]: free memory is a list of 1 KB chunks in address
    order, linked through the first word of each chunk.  The operations are
    modelled over a memory of words; [kmem_ok] ties the memory to the list
    of free chunks, and [free] and [alloc] are shown to implement list
    operations on it. *)

From Stdlib Require Import ZArith Lia Bool List.
From stdpp Require Import base numbers list option gmap sorting.
From S2P Require Import Prelude Types Monad.
Open Scope Z_scope.

(** ** Operations *)

Definition KMEM_CHUNKSIZE : Z := 1024.

(** [kmem_t] and the memory it manages: words by address *)
Record kmem_t := Kmem { kmem_free_list : Z; free_chunks : Z; mem : gmap Z Z }.

Definition load (m : gmap Z Z) (p : Z) : Z := default 0 (m !! p).
Definition store (p v : Z) (m : gmap Z Z) : gmap Z Z := <[p := v]> m.

(** [word_t * prev]: the address of [kmem_free_list] or of a chunk *)
Inductive link := Head | Chunk (p : Z).
Definition store_link (l : link) (v : Z) (k : kmem_t) : kmem_t :=
  match l with
  | Head => Kmem v (free_chunks k) (mem k)
  | Chunk p => Kmem (kmem_free_list k) (free_chunks k) (store p v (mem k))
  end.

(** the loop of [free] that writes the next pointers of the freed chunks; it
    returns [p], the last chunk *)
Fixpoint write_chain (fuel : nat) (p fin : Z) (m : gmap Z Z) : result (Z * gmap Z Z) :=
  if p <? fin then
    match fuel with
    | O => Hang
    | S fuel =>
        let m := store p (w64 (p + KMEM_CHUNKSIZE)) m in
        write_chain fuel (load m p) fin m
    end
  else Ok (p, m).

(** the loop of [free] that finds the place to insert: [prev] and [curr] *)
Fixpoint find_place (fuel : nat) (address : Z) (prev : link) (curr : Z) (m : gmap Z Z)
    : result (link * Z) :=
  if truth curr && (curr <? address) then
    match fuel with
    | O => Hang
    | S fuel => find_place fuel address (Chunk curr) (load m curr) m
    end
  else Ok (prev, curr).

Definition clamp_size (size : Z) : Z := max size KMEM_CHUNKSIZE.

Definition free (fuel : nat) (address size : Z) (k : kmem_t) : result kmem_t :=
  let size := clamp_size size in
  match write_chain fuel address (w64 (w64 (address + size) - KMEM_CHUNKSIZE)) (mem k) with
  | Ok (p, m) =>
      let k := Kmem (kmem_free_list k) (free_chunks k) m in
      match find_place fuel address Head (kmem_free_list k) m with
      | Ok (prev, curr) =>
          let k := store_link prev address k in
          let k := store_link (Chunk p) curr k in
          Ok (Kmem (kmem_free_list k) (w64 (free_chunks k + size / KMEM_CHUNKSIZE)) (mem k))
      | Hang => Hang
      | Crash => Crash
      end
  | Hang => Hang
  | Crash => Crash
  end.

Definition kmem_init (fuel : nat) (start fin : Z) (k : kmem_t) : result kmem_t :=
  free fuel start (w64 (fin - start)) (Kmem NULL 0 (mem k)).

(** the inner [for] loop of [alloc]: [n] chunks are left to check, the [i]th
    one has to be at [curr + i * KMEM_CHUNKSIZE] *)
Fixpoint check_run (n : nat) (curr tmp i : Z) (m : gmap Z Z) : Z :=
  match n with
  | O => tmp
  | S n =>
      if tmp =? 0 then tmp
      else if negb (tmp =? w64 (curr + KMEM_CHUNKSIZE * i)) then 0
      else check_run n curr (load m tmp) (i + 1) m
  end.

(** [for (word_t i = 0; i < size / sizeof(word_t); i++) curr[i] = 0] *)
Definition zero_block (curr size : Z) (m : gmap Z Z) : gmap Z Z :=
  foldr (fun i m => store (w64 (curr + 8 * Z.of_nat i)) 0 m) m (seq 0 (Z.to_nat (size / 8))).

(** the outer loop of [alloc] and [alloc_aligned], which differ in the test of
    the address of a chunk; running off the list ends in [enter_kdebug] *)
Fixpoint alloc_loop (fuel : nat) (suits : Z -> bool) (size : Z) (prev : link) (curr : Z)
    (k : kmem_t) : result (Z * kmem_t) :=
  if curr =? 0 then Hang else
  match fuel with
  | O => Hang
  | S fuel =>
      let tmp := (if suits curr
                  then check_run (Z.to_nat (size / KMEM_CHUNKSIZE - 1)) curr
                         (load (mem k) curr) 1 (mem k)
                  else 0) in
      if truth tmp then
        let k := store_link prev tmp k in
        let k := Kmem (kmem_free_list k) (free_chunks k) (zero_block curr size (mem k)) in
        Ok (curr, Kmem (kmem_free_list k) (w64 (free_chunks k - size / KMEM_CHUNKSIZE)) (mem k))
      else alloc_loop fuel suits size (Chunk curr) (load (mem k) curr) k
  end.

Definition size_aligned (size p : Z) : bool := Z.land p (w64 (size - 1)) =? 0.

Definition alloc (fuel : nat) (size : Z) (k : kmem_t) : result (Z * kmem_t) :=
  let size := clamp_size size in
  alloc_loop fuel (size_aligned size) size Head (kmem_free_list k) k.

Definition alloc_aligned (fuel : nat) (size alignment mask : Z) (k : kmem_t)
    : result (Z * kmem_t) :=
  let align := Z.land alignment mask in
  let size := clamp_size size in
  alloc_loop fuel (fun p => (Z.land p mask =? align) && size_aligned size p) size Head
    (kmem_free_list k) k.

(** [kmem_t::add] and the grouped entry points ([CONFIG_KMEM_TRACE] is off) *)
Definition add (fuel : nat) (address size : Z) (k : kmem_t) : result kmem_t :=
  free fuel address size k.

(** ** The abstract allocator

    The state is the list of free chunks in ascending order. *)

Definition chunk_at (a : Z) (i : Z) : Z := w64 (a + KMEM_CHUNKSIZE * i).

(** what is left of [l] once chunks [i], ..., [i + n - 1] of the block at [a]
    were taken from its front *)
Fixpoint take_run (a i : Z) (n : nat) (l : list Z) : option (list Z) :=
  match n with
  | O => Some l
  | S n =>
      match l with
      | y :: l => if y =? chunk_at a i then take_run a (i + 1) n l else None
      | [] => None
      end
  end.

(** First fit: the first suitable chunk that starts a run of [S n] free chunks
    and is not the end of the list.  The result is the address and the chunks
    that stay free. *)
Fixpoint alloc_spec (suits : Z -> bool) (n : nat) (l : list Z) : option (Z * list Z) :=
  match l with
  | [] => None
  | x :: l =>
      match (if suits x then take_run x 1 n l else None) with
      | Some (y :: l') => Some (x, y :: l')
      | _ =>
          match alloc_spec suits n l with
          | Some (a, l') => Some (a, x :: l')
          | None => None
          end
      end
  end.

(** the chunks of a block of [n] chunks at [a] *)
Definition block (a : Z) (n : nat) : list Z :=
  map (fun i => a + KMEM_CHUNKSIZE * Z.of_nat i) (seq 0 n).

Definition free_spec (a : Z) (n : nat) (l : list Z) : list Z :=
  filter (fun x => x < a) l ++ block a n ++ filter (fun x => ~ x < a) l.

(** the memory holds the list [l] from [h] to [e] *)
Fixpoint seg (m : gmap Z Z) (h : Z) (l : list Z) (e : Z) : Prop :=
  match l with
  | [] => h = e
  | x :: l => h = x /\ seg m (load m x) l e
  end.

Definition chunk_ok (x : Z) : Prop :=
  0 < x /\ x + KMEM_CHUNKSIZE < 2 ^ 64 /\ (KMEM_CHUNKSIZE | x).

(** the allocator's invariant: the free list is [l] *)
Definition kmem_ok (k : kmem_t) (l : list Z) : Prop :=
  seg (mem k) (kmem_free_list k) l 0 /\
  StronglySorted Z.lt l /\ Forall chunk_ok l /\
  free_chunks k = w64 (Z.of_nat (length l)).

(** ** List segments *)

Lemma load_store p q v m : load (store p v m) q = if decide (p = q) then v else load m q.
Proof. unfold load, store. rewrite lookup_insert. now case_decide. Qed.

Lemma load_store_eq p v m : load (store p v m) p = v.
Proof. rewrite load_store. now case_decide. Qed.

Lemma load_store_ne p q v m : p <> q -> load (store p v m) q = load m q.
Proof. intros. rewrite load_store. now case_decide. Qed.

Lemma seg_app m h l1 l2 e :
  seg m h (l1 ++ l2) e <-> exists c, seg m h l1 c /\ seg m c l2 e.
Proof.
  revert h. induction l1 as [|x l1 IH]; intros h; simpl.
  - split; [eauto|intros (c & -> & H); done].
  - rewrite IH. split.
    + intros (-> & c & H1 & H2). eauto.
    + intros (c & (-> & H1) & H2). eauto.
Qed.

Lemma seg_frame m m' h l e :
  (forall x, x ∈ l -> load m' x = load m x) -> seg m h l e -> seg m' h l e.
Proof.
  revert h. induction l as [|x l IH]; intros h Hf; simpl; [done|].
  intros [-> Hs]. split; [done|]. rewrite Hf by left.
  apply IH; [|done]. intros y Hy. apply Hf. now right.
Qed.

Lemma seg_head m h l : seg m h l 0 -> h = hd 0 l.
Proof. destruct l; simpl; tauto. Qed.

(** Redirecting the last link of a segment. *)
Lemma seg_store_last m h l x e v :
  NoDup (l ++ [x]) -> seg m h (l ++ [x]) e -> seg (store x v m) h (l ++ [x]) v.
Proof.
  intros Hnd Hs. apply seg_app in Hs as (c & H1 & H2). simpl in H2. destruct H2 as [-> _].
  apply seg_app. exists x. split.
  - apply (seg_frame m); [|done]. intros y Hy. apply load_store_ne.
    apply NoDup_app in Hnd as (_ & Hd & _). intros ->. apply (Hd y Hy). left.
  - simpl. split; [done|]. apply load_store_eq.
Qed.

(** the link that points behind the prefix [l] *)
Definition last_link (l : list Z) : link :=
  match last l with Some p => Chunk p | None => Head end.

Lemma last_link_snoc l x : last_link (l ++ [x]) = Chunk x.
Proof. unfold last_link. now rewrite last_snoc. Qed.

Lemma store_link_seg k l e v :
  NoDup l -> seg (mem k) (kmem_free_list k) l e ->
  seg (mem (store_link (last_link l) v k)) (kmem_free_list (store_link (last_link l) v k)) l v.
Proof.
  destruct l as [|x l _] using rev_ind; [done|].
  rewrite last_link_snoc. simpl. apply seg_store_last.
Qed.

Lemma store_link_load l v k y :
  y ∉ l -> load (mem (store_link (last_link l) v k)) y = load (mem k) y.
Proof.
  destruct l as [|x l _] using rev_ind; [done|].
  rewrite last_link_snoc. simpl. intros Hy. apply load_store_ne. intros ->.
  apply Hy. apply elem_of_app. right. left.
Qed.

Lemma store_link_chunks l v k : free_chunks (store_link l v k) = free_chunks k.
Proof. now destruct l. Qed.

Lemma sorted_NoDup l : StronglySorted Z.lt l -> NoDup l.
Proof.
  induction 1 as [|x l Hs IH Hx]; constructor; [|done].
  intros Hin. rewrite Forall_forall in Hx. specialize (Hx x Hin). lia.
Qed.

Lemma sorted_app l1 l2 :
  StronglySorted Z.lt (l1 ++ l2) <->
  StronglySorted Z.lt l1 /\ StronglySorted Z.lt l2 /\
  (forall x y, x ∈ l1 -> y ∈ l2 -> x < y).
Proof.
  induction l1 as [|a l1 IH]; simpl.
  - split; [intros; split_and!; [constructor|done|]|tauto]. intros x y Hx. now apply elem_of_nil in Hx.
  - split.
    + intros H. apply StronglySorted_inv in H as [H1 H2]. apply IH in H1 as (H3 & H4 & H5).
      apply Forall_app in H2 as [H6 H7]. split_and!; [now constructor|done|].
      intros x y [->|Hx]%elem_of_cons Hy; [|auto]. rewrite Forall_forall in H7. auto.
    + intros (H1 & H2 & H3). apply StronglySorted_inv in H1 as [H4 H5].
      constructor.
      * apply IH. split_and!; [done|done|]. intros x y Hx Hy. apply H3; [now right|done].
      * apply Forall_app. split; [done|]. apply Forall_forall. intros y Hy. apply H3; [left|done].
Qed.

(** two chunks do not overlap *)
Lemma chunks_apart x y : chunk_ok x -> chunk_ok y -> x < y -> x + KMEM_CHUNKSIZE <= y.
Proof. intros (_ & _ & [a ->]) (_ & _ & [b ->]) H. unfold KMEM_CHUNKSIZE in *. lia. Qed.

(** ** [alloc] *)

Lemma check_run_spec n a tmp i l m :
  seg m tmp l 0 -> (forall x, x ∈ l -> 0 < x) ->
  check_run n a tmp i m =
  match take_run a i n l with Some l' => hd 0 l' | None => 0 end.
Proof.
  revert tmp i l. induction n as [|n IH]; intros tmp i l Hs Hp; simpl.
  { apply (seg_head _ _ _ Hs). }
  destruct l as [|y l]; simpl in *.
  - now subst.
  - destruct Hs as [-> Hs]. specialize (Hp y ltac:(left)) as Hy.
    destruct (Z.eqb_spec y 0); [lia|]. unfold chunk_at.
    destruct (Z.eqb_spec y (w64 (a + KMEM_CHUNKSIZE * i))); simpl; [|done].
    apply IH; [done|]. intros x Hx. apply Hp. now right.
Qed.

Lemma block_S a n : block a (S n) = a :: block (a + KMEM_CHUNKSIZE) n.
Proof.
  unfold block. rewrite <- cons_seq, <- seq_shift, map_cons, map_map. f_equal; [unfold KMEM_CHUNKSIZE; lia|].
  apply map_ext. intros i. unfold KMEM_CHUNKSIZE. lia.
Qed.

Lemma elem_of_block a n x :
  x ∈ block a n <-> exists i, 0 <= i < Z.of_nat n /\ x = a + KMEM_CHUNKSIZE * i.
Proof.
  unfold block. rewrite list_elem_of_fmap. split.
  - intros (i & -> & Hi%elem_of_seq). exists (Z.of_nat i). split; [lia|done].
  - intros (i & Hi & ->). exists (Z.to_nat i).
    split; [now rewrite Z2Nat.id by lia|]. apply elem_of_seq. lia.
Qed.

Lemma length_block a n : length (block a n) = n.
Proof. unfold block. now rewrite length_map, length_seq. Qed.

(** A run of chunks in the free list is a contiguous block. *)
Lemma take_run_block a i n l l' :
  chunk_ok (a + KMEM_CHUNKSIZE * (i - 1)) -> Forall chunk_ok l ->
  take_run a i n l = Some l' -> l = block (a + KMEM_CHUNKSIZE * i) n ++ l'.
Proof.
  revert i l. induction n as [|n IH]; intros i l Ha Hl; cbn [take_run].
  - now intros [= <-].
  - destruct l as [|y l]; [done|]. destruct (Z.eqb_spec y (chunk_at a i)) as [->|]; [|done].
    assert (chunk_at a i = a + KMEM_CHUNKSIZE * i) as Ei.
    { unfold chunk_at. apply wrap_small. destruct Ha as (? & ? & _). unfold KMEM_CHUNKSIZE in *. lia. }
    apply Forall_cons in Hl as [Hy Hl]. rewrite Ei in *. intros Ht. rewrite block_S. simpl. f_equal.
    apply IH in Ht; [|now replace (i + 1 - 1) with i by lia|done].
    rewrite Ht. do 2 f_equal. lia.
Qed.

Lemma zero_block_other a size m y :
  (forall i, (i < Z.to_nat (size / 8))%nat -> y <> w64 (a + 8 * Z.of_nat i)) ->
  load (zero_block a size m) y = load m y.
Proof.
  unfold zero_block. generalize (Z.to_nat (size / 8)) as n. intros n Hn.
  assert (Hi : forall i, i ∈ seq 0 n -> y <> w64 (a + 8 * Z.of_nat i)).
  { intros i Hi%elem_of_seq. apply Hn. lia. }
  revert Hi. generalize (seq 0 n) as js. clear. induction js as [|i js IH]; intros Hi; [done|].
  simpl. rewrite load_store_ne.
  - apply IH. intros j Hj. apply Hi. now right.
  - intros E. apply (Hi i); [left|done].
Qed.

Lemma zero_block_zero a size m i :
  (i < Z.to_nat (size / 8))%nat -> load (zero_block a size m) (w64 (a + 8 * Z.of_nat i)) = 0.
Proof.
  unfold zero_block. generalize (Z.to_nat (size / 8)) as n. intros n Hn.
  assert (Hi : i ∈ seq 0 n) by (apply elem_of_seq; lia).
  revert Hi. generalize (seq 0 n) as js. clear. induction js as [|j js IH]; intros Hi.
  - now apply elem_of_nil in Hi.
  - simpl. rewrite load_store. case_decide; [done|].
    apply IH. apply elem_of_cons in Hi as [->|]; done.
Qed.

(** What a successful allocation promises: the free list lost the block, every
    word of the block is zero, and every word that is neither in the block nor
    the first word of a free chunk is untouched. *)
Definition alloc_post (k k' : kmem_t) (a : Z) (n : nat) (l l' : list Z) : Prop :=
  kmem_ok k' l' /\
  (forall i, 0 <= i < 128 * Z.of_nat n -> load (mem k') (a + 8 * i) = 0) /\
  (forall y, y ∉ l -> (y < a \/ a + KMEM_CHUNKSIZE * Z.of_nat n <= y) ->
     load (mem k') y = load (mem k) y).

Lemma chunk_ok_small x n : chunk_ok x -> 0 < n ->
  x + KMEM_CHUNKSIZE * n < 2 ^ 64 -> w64 (x + KMEM_CHUNKSIZE * n) = x + KMEM_CHUNKSIZE * n.
Proof. intros (? & ? & _) ? ?. apply wrap_small. unfold KMEM_CHUNKSIZE in *. lia. Qed.

(** the state after [alloc] took the block at [x] *)
Definition alloc_result (k : kmem_t) (l1 : list Z) (x y : Z) (n : nat) : kmem_t :=
  let size := KMEM_CHUNKSIZE * Z.of_nat n in
  let k := store_link (last_link l1) y k in
  Kmem (kmem_free_list k) (w64 (free_chunks k - size / KMEM_CHUNKSIZE))
       (zero_block x size (mem k)).

Lemma block_words n : Z.to_nat (KMEM_CHUNKSIZE * Z.of_nat n / 8) = (128 * n)%nat.
Proof.
  unfold KMEM_CHUNKSIZE. replace (1024 * Z.of_nat n) with (128 * Z.of_nat n * 8) by lia.
  rewrite Z.div_mul by lia. lia.
Qed.

(** zeroing a block leaves every word outside it alone *)
Lemma zero_block_outside x n m y :
  0 <= x -> x + KMEM_CHUNKSIZE * Z.of_nat n < 2 ^ 64 ->
  (y < x \/ x + KMEM_CHUNKSIZE * Z.of_nat n <= y) ->
  load (zero_block x (KMEM_CHUNKSIZE * Z.of_nat n) m) y = load m y.
Proof.
  intros Hx Hb Hy. apply zero_block_other. intros i. rewrite block_words. unfold KMEM_CHUNKSIZE in *.
  intros Hi. rewrite wrap_small by lia. lia.
Qed.

Lemma block_sorted_bounds l1 x n y rest :
  StronglySorted Z.lt (l1 ++ block x (S n) ++ y :: rest) ->
  Forall chunk_ok (l1 ++ block x (S n) ++ y :: rest) ->
  0 < x /\ x + KMEM_CHUNKSIZE * Z.of_nat (S n) < 2 ^ 64 /\
  forall z, z ∈ l1 ++ y :: rest ->
    z + KMEM_CHUNKSIZE <= x \/ x + KMEM_CHUNKSIZE * Z.of_nat (S n) <= z.
Proof.
  intros Hs Hok. apply sorted_app in Hs as (Hs1 & Hs2 & Hs3).
  apply sorted_app in Hs2 as (Hs4 & Hs5 & Hs6).
  rewrite !Forall_app in Hok. destruct Hok as (Ho1 & Ho2 & Ho3).
  rewrite Forall_forall in Ho1, Ho2, Ho3.
  assert (Hlast : x + KMEM_CHUNKSIZE * Z.of_nat n ∈ block x (S n)).
  { apply elem_of_block. exists (Z.of_nat n). split; [lia|done]. }
  assert (Hx : x ∈ block x (S n)) by (rewrite block_S; left).
  split_and!.
  - apply (Ho2 _ Hx).
  - destruct (Ho2 _ Hlast) as (_ & Hl & _). unfold KMEM_CHUNKSIZE in *. lia.
  - intros z [Hz|Hz]%elem_of_app.
    + left. apply chunks_apart; [auto|auto|]. apply Hs3; [done|].
      apply elem_of_app. now left.
    + right. specialize (Hs6 _ _ Hlast Hz).
      assert (chunk_ok (x + KMEM_CHUNKSIZE * Z.of_nat n)) as Hc by auto.
      assert (chunk_ok z) as Hcz by auto.
      pose proof (chunks_apart _ _ Hc Hcz Hs6). unfold KMEM_CHUNKSIZE in *. lia.
Qed.

Lemma alloc_result_ok k l1 x n y rest :
  kmem_ok k (l1 ++ block x (S n) ++ y :: rest) ->
  alloc_post k (alloc_result k l1 x y (S n)) x (S n)
    (l1 ++ block x (S n) ++ y :: rest) (l1 ++ y :: rest).
Proof.
  intros (Hseg & Hs & Hok & Hc).
  destruct (block_sorted_bounds _ _ _ _ _ Hs Hok) as (Hx & Hb & Hout).
  pose proof (sorted_NoDup _ Hs) as Hnd.
  apply NoDup_app in Hnd as (Hnd1 & Hdis & _).
  apply seg_app in Hseg as (c & Hseg1 & Hseg2). apply seg_app in Hseg2 as (c' & Hseg2 & Hseg3).
  assert (Hzero : forall z, z ∈ l1 ++ y :: rest ->
    load (mem (alloc_result k l1 x y (S n))) z = load (mem (store_link (last_link l1) y k)) z).
  { intros z Hz. apply zero_block_outside; [lia|lia|]. destruct (Hout z Hz); unfold KMEM_CHUNKSIZE in *; lia. }
  split_and!; [split_and!| |].
  - apply seg_app. exists y. split.
    + apply (seg_frame (mem (store_link (last_link l1) y k))).
      * intros z Hz. apply Hzero. apply elem_of_app. now left.
      * apply (store_link_seg _ _ c); done.
    + simpl in Hseg3. destruct Hseg3 as [-> Hseg3]. simpl. split; [done|].
      rewrite Hzero by (apply elem_of_app; right; left).
      rewrite store_link_load by (intros Hy; apply (Hdis y Hy), elem_of_app; right; left).
      apply (seg_frame (mem k)); [|done]. intros z Hz.
      rewrite Hzero by (apply elem_of_app; right; now right).
      apply store_link_load. intros Hy. apply (Hdis z Hy), elem_of_app. right. now right.
  - apply sorted_app in Hs as (H1 & H2 & H3). apply sorted_app in H2 as (_ & H2 & _).
    apply sorted_app. split_and!; [done|done|]. intros a b Ha Hb'. apply H3; [done|].
    apply elem_of_app. now right.
  - rewrite !Forall_app in Hok. rewrite !Forall_app. tauto.
  - unfold alloc_result. simpl. rewrite store_link_chunks, Hc.
    rewrite Z.mul_comm, Z.div_mul by (unfold KMEM_CHUNKSIZE; lia).
    rewrite !length_app, length_block. unfold wrap at 2. unfold wrap.
    rewrite Zminus_mod_idemp_l. f_equal. cbn [length]. lia.
  - intros i Hi. unfold alloc_result. cbn [mem].
    replace (x + 8 * i) with (w64 (x + 8 * Z.of_nat (Z.to_nat i))).
    + apply zero_block_zero. rewrite block_words. lia.
    + rewrite Z2Nat.id by lia. apply wrap_small. unfold KMEM_CHUNKSIZE in *. lia.
  - intros z Hz Hzb. unfold alloc_result. cbn [mem].
    rewrite zero_block_outside by lia. apply store_link_load.
    intros Hin. apply Hz. apply elem_of_app. now left.
Qed.

Lemma alloc_loop_spec fuel suits n k l1 l2 :
  kmem_ok k (l1 ++ l2) -> (length l2 <= fuel)%nat ->
  let run := alloc_loop fuel suits (KMEM_CHUNKSIZE * Z.of_nat (S n)) (last_link l1) (hd 0 l2) k in
  match alloc_spec suits n l2 with
  | Some (a, l2') => exists l y rest,
      l2 = l ++ block a (S n) ++ y :: rest /\ l2' = l ++ y :: rest /\
      run = Ok (a, alloc_result k (l1 ++ l) a y (S n))
  | None => run = Hang
  end.
Proof.
  revert fuel l1. induction l2 as [|x l2 IH]; intros fuel l1 Hok Hf; [now destruct fuel|].
  destruct fuel as [|fuel]; [simpl in Hf; lia|]. cbn [hd]; cbv zeta.
  destruct Hok as (Hseg & Hs & Hch & Hc).
  assert (Hxok : chunk_ok x) by (apply Forall_app in Hch as [_ Hch]; now apply Forall_cons in Hch).
  assert (Hl2 : Forall chunk_ok l2) by (apply Forall_app in Hch as [_ Hch]; now apply Forall_cons in Hch).
  pose proof Hxok as (Hx0 & _ & _). cbn [alloc_loop].
  destruct (Z.eqb_spec x 0); [lia|].
  pose proof Hseg as Hseg2. apply seg_app in Hseg2 as (c & _ & Hseg2). simpl in Hseg2.
  destruct Hseg2 as [-> Hseg2].
  assert (Hn : Z.to_nat (KMEM_CHUNKSIZE * Z.of_nat (S n) / KMEM_CHUNKSIZE - 1) = n).
  { rewrite Z.mul_comm, Z.div_mul by (unfold KMEM_CHUNKSIZE; lia). lia. }
  rewrite Hn. clear Hn. rewrite (check_run_spec n x _ 1 l2);
    [|done|intros z Hz; rewrite Forall_forall in Hl2; now apply Hl2].
  cbn [alloc_spec].
  replace (if suits x then match take_run x 1 n l2 with Some l' => hd 0 l' | None => 0 end else 0)
    with (match (if suits x then take_run x 1 n l2 else None) with
          | Some l' => hd 0 l' | None => 0 end) by now destruct (suits x).
  destruct (if suits x then take_run x 1 n l2 else None) as [[|y rest]|] eqn:E; cbn [hd].
  2: { revert E. destruct (suits x); [intros E|done].
       apply take_run_block in E; [|now replace (x + KMEM_CHUNKSIZE * (1 - 1)) with x by lia|done].
       assert (Hy : chunk_ok y).
       { rewrite E, Forall_app in Hl2. destruct Hl2 as [_ Hl2]. now apply Forall_cons in Hl2. }
       destruct Hy as (Hy & _). unfold truth. destruct (Z.eqb_spec y 0); [lia|]. simpl negb.
       exists [], y, rest. rewrite block_S, app_nil_r. cbn [app]. rewrite E.
       rewrite Z.mul_1_r. done. }
  all: unfold truth; simpl negb; cbv iota.
  all: assert (load (mem k) x = hd 0 l2) as -> by now apply (seg_head (mem k)).
  all: assert (Hok' : kmem_ok k ((l1 ++ [x]) ++ l2)) by (rewrite <- app_assoc; done).
  all: specialize (IH fuel (l1 ++ [x]) Hok' ltac:(simpl in Hf; lia)).
  all: rewrite last_link_snoc in IH.
  all: destruct (alloc_spec suits n l2) as [[a l2']|]; [|done].
  all: destruct IH as (l & y & rest & -> & -> & ->).
  all: exists (x :: l), y, rest; rewrite <- app_assoc; done.
Qed.

(** a size that is a positive multiple of the chunk size *)
Lemma clamp_size_chunks n : clamp_size (KMEM_CHUNKSIZE * Z.of_nat (S n)) = KMEM_CHUNKSIZE * Z.of_nat (S n).
Proof. unfold clamp_size. rewrite max_Zmax. unfold KMEM_CHUNKSIZE. lia. Qed.

Lemma alloc_loop_refines fuel suits n k l :
  kmem_ok k l -> (length l <= fuel)%nat ->
  match alloc_spec suits n l with
  | Some (a, l') => exists k',
      alloc_loop fuel suits (KMEM_CHUNKSIZE * Z.of_nat (S n)) Head (kmem_free_list k) k = Ok (a, k') /\
      alloc_post k k' a (S n) l l'
  | None => alloc_loop fuel suits (KMEM_CHUNKSIZE * Z.of_nat (S n)) Head (kmem_free_list k) k = Hang
  end.
Proof.
  intros Hok Hf. pose proof Hok as (Hseg & _). apply seg_head in Hseg as ->.
  pose proof (alloc_loop_spec fuel suits n k [] l Hok Hf) as H. simpl in H.
  destruct (alloc_spec suits n l) as [[a l']|]; [|exact H].
  destruct H as (l0 & y & rest & -> & -> & E). eexists. split; [exact E|].
  now apply alloc_result_ok.
Qed.

(** ** [free] *)

Lemma write_chain_spec fuel p n m :
  0 <= p -> p + KMEM_CHUNKSIZE * Z.of_nat n < 2 ^ 64 -> (n <= fuel)%nat ->
  exists m', write_chain fuel p (p + KMEM_CHUNKSIZE * Z.of_nat n) m
               = Ok (p + KMEM_CHUNKSIZE * Z.of_nat n, m') /\
    seg m' p (block p n) (p + KMEM_CHUNKSIZE * Z.of_nat n) /\
    (forall y, y ∉ block p n -> load m' y = load m y).
Proof.
  revert fuel p m. induction n as [|n IH]; intros fuel p m Hp Hb Hf.
  - exists m. replace (p + KMEM_CHUNKSIZE * Z.of_nat 0) with p by lia.
    destruct fuel; simpl; rewrite Z.ltb_irrefl; done.
  - destruct fuel as [|fuel]; [lia|]. cbn [write_chain].
    assert (p <? p + KMEM_CHUNKSIZE * Z.of_nat (S n) = true) as ->.
    { apply Z.ltb_lt. unfold KMEM_CHUNKSIZE. lia. }
    rewrite load_store_eq.
    assert (w64 (p + KMEM_CHUNKSIZE) = p + KMEM_CHUNKSIZE) as ->.
    { apply wrap_small. unfold KMEM_CHUNKSIZE in *. lia. }
    replace (p + KMEM_CHUNKSIZE * Z.of_nat (S n))
      with (p + KMEM_CHUNKSIZE + KMEM_CHUNKSIZE * Z.of_nat n) in * by lia.
    destruct (IH fuel (p + KMEM_CHUNKSIZE) (store p (p + KMEM_CHUNKSIZE) m))
      as (m' & E & Hs & Hf'); [unfold KMEM_CHUNKSIZE; lia|lia|lia|].
    assert (Hpn : p ∉ block (p + KMEM_CHUNKSIZE) n).
    { intros (i & Hi & E')%elem_of_block. unfold KMEM_CHUNKSIZE in *. lia. }
    exists m'. split_and!; [exact E| |].
    + rewrite block_S. simpl. split; [done|]. rewrite Hf' by done. now rewrite load_store_eq.
    + intros y Hy. rewrite block_S, not_elem_of_cons in Hy. destruct Hy as [Hy1 Hy2].
      rewrite Hf' by done. now apply load_store_ne.
Qed.

Lemma sorted_filter_split a l :
  StronglySorted Z.lt l -> filter (fun x => x < a) l ++ filter (fun x => ~ x < a) l = l.
Proof.
  induction 1 as [|x l Hs IH Hx]; [done|]. destruct (decide (x < a)) as [H|H].
  - rewrite filter_cons_True, filter_cons_False by auto. simpl. now rewrite IH.
  - assert (filter (fun x => x < a) l = []) as E.
    { clear IH. induction l as [|y l IH']; [done|]. apply Forall_cons in Hx as [Hy Hx].
      apply StronglySorted_inv in Hs as [Hs _].
      rewrite filter_cons_False by lia. now apply IH'. }
    rewrite filter_cons_False, filter_cons_True by auto. rewrite E in *. simpl in *. now rewrite IH.
Qed.

Lemma find_place_spec fuel a l1 l2 m :
  seg m (hd 0 l2) l2 0 -> (forall x, x ∈ l2 -> 0 < x) -> StronglySorted Z.lt l2 ->
  (length l2 <= fuel)%nat ->
  find_place fuel a (last_link l1) (hd 0 l2) m =
    Ok (last_link (l1 ++ filter (fun x => x < a) l2), hd 0 (filter (fun x => ~ x < a) l2)).
Proof.
  revert fuel l1. induction l2 as [|x l2 IH]; intros fuel l1 Hs Hp Hso Hf.
  - rewrite app_nil_r. now destruct fuel.
  - destruct fuel as [|fuel]; [simpl in Hf; lia|]. cbn [hd find_place].
    specialize (Hp x ltac:(left)) as Hx. unfold truth. destruct (Z.eqb_spec x 0); [lia|]. simpl negb.
    simpl in Hs. destruct Hs as [_ Hs]. pose proof (seg_head _ _ _ Hs) as Hh. rewrite Hh in Hs |- *.
    pose proof Hso as Hso'. apply StronglySorted_inv in Hso' as [Hso2 Hlt].
    destruct (Z.ltb_spec x a); cbn [andb].
    + rewrite filter_cons_True, filter_cons_False by lia.
      rewrite <- (last_link_snoc l1 x), IH; [|done| |done|simpl in Hf; lia].
      * now rewrite <- app_assoc.
      * intros y Hy. apply Hp. now right.
    + pose proof (sorted_filter_split a _ Hso) as Hsp.
      rewrite filter_cons_False, filter_cons_True in Hsp |- * by lia.
      assert (filter (fun x => x < a) l2 = []) as ->; [|now rewrite app_nil_r].
      destruct (filter (fun x => x < a) l2) as [|z zs] eqn:E; [done|].
      assert (z ∈ filter (fun x => x < a) l2) as Hz by (rewrite E; left).
      apply list_elem_of_filter in Hz as [Hz1 Hz2]. rewrite Forall_forall in Hlt.
      specialize (Hlt z Hz2). lia.
Qed.

(** what the caller of [free] owes: an aligned block of [S n] chunks inside the
    address space, none of which is free already *)
Definition free_pre (a : Z) (n : nat) (l : list Z) : Prop :=
  0 < a /\ (KMEM_CHUNKSIZE | a) /\ a + KMEM_CHUNKSIZE * Z.of_nat (S n) < 2 ^ 64 /\
  (forall x, x ∈ block a (S n) -> x ∉ l).

Lemma block_chunks a n :
  0 < a -> (KMEM_CHUNKSIZE | a) -> a + KMEM_CHUNKSIZE * Z.of_nat n < 2 ^ 64 ->
  Forall chunk_ok (block a n).
Proof.
  intros Ha Hd Hb. apply Forall_forall. intros x (i & Hi & ->)%elem_of_block.
  unfold chunk_ok, KMEM_CHUNKSIZE in *. split_and!; [lia|lia|].
  apply Z.divide_add_r; [done|apply Z.divide_factor_l].
Qed.

Lemma block_sorted a n : StronglySorted Z.lt (block a n).
Proof.
  revert a. induction n as [|n IH]; intros a; [constructor|]. rewrite block_S. constructor; [done|].
  apply Forall_forall. intros x (i & Hi & ->)%elem_of_block. unfold KMEM_CHUNKSIZE. lia.
Qed.

Lemma block_snoc a n : block a (S n) = block a n ++ [a + KMEM_CHUNKSIZE * Z.of_nat n].
Proof. unfold block. rewrite seq_S, map_app. done. Qed.

Lemma sorted_filter P `{!forall x, Decision (P x)} l :
  StronglySorted Z.lt l -> StronglySorted Z.lt (filter P l).
Proof.
  induction 1 as [|x l Hs IH Hx]; [constructor|]. destruct (decide (P x)).
  - rewrite filter_cons_True by done. constructor; [done|].
    rewrite Forall_forall in *. intros y [_ Hy]%list_elem_of_filter. auto.
  - now rewrite filter_cons_False.
Qed.

Lemma free_spec_sorted a n l :
  free_pre a n l -> StronglySorted Z.lt l -> Forall chunk_ok l ->
  StronglySorted Z.lt (free_spec a (S n) l) /\ Forall chunk_ok (free_spec a (S n) l).
Proof.
  intros (Ha & Hd & Hb & Hdis) Hs Hok.
  pose proof (block_chunks a (S n) Ha Hd Hb) as Hbc. rewrite Forall_forall in Hok, Hbc.
  unfold free_spec. split.
  - rewrite !sorted_app. split_and!; try (now apply sorted_filter); try apply block_sorted.
    + intros x y Hx [Hy1 Hy2]%list_elem_of_filter.
      pose proof Hx as (i & Hi & E)%elem_of_block.
      destruct (Z.le_gt_cases y x) as [Hle|]; [exfalso|lia].
      assert (y ∈ block a (S n)) as Hyb; [|now apply (Hdis y)].
      apply elem_of_block. destruct (Hok y Hy2) as (_ & _ & [c Hc]). destruct Hd as [d Hd].
      unfold KMEM_CHUNKSIZE in *. exists (c - d). split; lia.
    + intros x y [Hx1 Hx2]%list_elem_of_filter [Hy|Hy]%elem_of_app.
      * apply elem_of_block in Hy as (i & Hi & ->). unfold KMEM_CHUNKSIZE. lia.
      * apply list_elem_of_filter in Hy as [Hy _]. lia.
  - rewrite !Forall_app, !Forall_forall. split_and!; [|done|];
      intros x [_ Hx]%list_elem_of_filter; auto.
Qed.

Lemma free_refines fuel a n k l :
  kmem_ok k l -> free_pre a n l -> (length l <= fuel)%nat -> (n <= fuel)%nat ->
  exists k', free fuel a (KMEM_CHUNKSIZE * Z.of_nat (S n)) k = Ok k' /\
    kmem_ok k' (free_spec a (S n) l) /\
    (forall y, y ∉ block a (S n) -> y ∉ l -> load (mem k') y = load (mem k) y).
Proof.
  intros (Hseg & Hs & Hok & Hc) Hpre Hf1 Hf2.
  pose proof (free_spec_sorted _ _ _ Hpre Hs Hok) as [Hso Hoko].
  destruct Hpre as (Ha & Hd & Hb & Hdis).
  unfold free. rewrite clamp_size_chunks.
  rewrite (wrap_small 64 (a + _)) by (unfold KMEM_CHUNKSIZE in *; lia).
  rewrite (wrap_small 64 (a + _ - _)) by (unfold KMEM_CHUNKSIZE in *; lia).
  replace (a + KMEM_CHUNKSIZE * Z.of_nat (S n) - KMEM_CHUNKSIZE)
    with (a + KMEM_CHUNKSIZE * Z.of_nat n) by (unfold KMEM_CHUNKSIZE; lia).
  destruct (write_chain_spec fuel a n (mem k)) as (m & -> & Hchain & Hframe);
    [lia|unfold KMEM_CHUNKSIZE in *; lia|done|].
  set (p := a + KMEM_CHUNKSIZE * Z.of_nat n) in *. simpl.
  assert (Hml : forall x, x ∈ l -> load m x = load (mem k) x).
  { intros x Hx. apply Hframe. intros Hxb. apply (Hdis x); [|done].
    rewrite block_snoc. apply elem_of_app. now left. }
  assert (Hsegm : seg m (kmem_free_list k) l 0) by (apply (seg_frame (mem k)); auto).
  pose proof (seg_head _ _ _ Hsegm) as Hh. rewrite Hh in Hsegm |- *.
  change Head with (last_link []).
  rewrite find_place_spec; [|done| |done|done].
  2: { intros x Hx. rewrite Forall_forall in Hok. apply (Hok x Hx). }
  cbn [app].
  set (lo := filter (fun x => x < a) l) in *. set (hi := filter (fun x => ~ x < a) l) in *.
  pose proof (sorted_filter_split a l Hs) as Hsplit. fold lo hi in Hsplit.
  pose proof (sorted_NoDup _ Hso) as Hnd. unfold free_spec in Hnd. fold lo hi in Hnd.
  apply NoDup_app in Hnd as (Hndlo & Hdlo & Hnd). apply NoDup_app in Hnd as (Hndb & Hdb & _).
  eexists. split; [reflexivity|]. rewrite store_link_chunks. simpl.
  assert (Hp : p ∈ block a (S n)) by (rewrite block_snoc; apply elem_of_app; right; left).
  unfold kmem_ok. split_and!; [|done|done| |].
  - set (k1 := Kmem (hd 0 l) (free_chunks k) m).
    unfold free_spec. fold lo hi. apply seg_app. exists a.
    rewrite <- Hsplit in Hsegm at 2. apply seg_app in Hsegm as (c & Hlo & Hhi).
    pose proof (seg_head _ _ _ Hhi) as ->.
    split; [|apply seg_app; exists (hd 0 hi); split].
    + apply (seg_frame (mem (store_link (last_link lo) a k1))).
      * intros x Hx. apply load_store_ne. intros <-. apply (Hdlo p Hx), elem_of_app. now left.
      * apply (store_link_seg k1 lo (hd 0 hi)); done.
    + rewrite block_snoc. fold p. rewrite block_snoc in Hndb. fold p in Hndb.
      eapply seg_store_last; [done|]. apply seg_app. exists p. split; [|split; reflexivity].
      apply (seg_frame m); [|done]. intros x Hx. apply (store_link_load lo a k1).
      intros Hin. apply (Hdlo x Hin), elem_of_app. left. rewrite block_snoc. apply elem_of_app. now left.
    + apply (seg_frame m); [|done]. intros x Hx. etransitivity; [apply load_store_ne|].
      * intros <-. apply (Hdb p Hp Hx).
      * apply (store_link_load lo a k1). intros Hin. apply (Hdlo x Hin), elem_of_app. now right.
  - cbn [free_chunks]. rewrite Hc. rewrite Z.mul_comm, Z.div_mul by (unfold KMEM_CHUNKSIZE; lia).
    rewrite wrap_add_l. f_equal. unfold free_spec. fold lo hi.
    assert (length l = (length lo + length hi)%nat) as -> by now rewrite <- length_app, Hsplit.
    rewrite !length_app, length_block. lia.
  - intros y Hyb Hyl. etransitivity; [apply load_store_ne; intros <-; now apply Hyb|].
    etransitivity; [apply (store_link_load lo a (Kmem (hd 0 l) (free_chunks k) m))|].
    + intros Hin. apply Hyl. now apply list_elem_of_filter in Hin as [_ Hin].
    + simpl. apply Hframe. intros Hin. apply Hyb. rewrite block_snoc. apply elem_of_app. now left.
Qed.

(** ** The properties *)

(** C17 Allocation refines first fit: over a well-formed free list, [alloc] of a
    positive number of chunks returns exactly the block the specification
    picks, leaves a well-formed free list of the remaining chunks, clears the
    whole block, and writes no word outside the block and the links of the
    list.  It never returns [NULL]: if the specification finds no block, the
    kernel stops in the debugger entry. *)
Theorem alloc_refines fuel n k l :
  kmem_ok k l -> (length l <= fuel)%nat ->
  let size := KMEM_CHUNKSIZE * Z.of_nat (S n) in
  match alloc_spec (size_aligned size) n l with
  | Some (a, l') => exists k', alloc fuel size k = Ok (a, k') /\ alloc_post k k' a (S n) l l'
  | None => alloc fuel size k = Hang
  end.
Proof.
  intros Hok Hf size. unfold alloc, size. rewrite clamp_size_chunks.
  now apply alloc_loop_refines.
Qed.

(** a memory of four free chunks at 1024, 2048, 3072 and 8192 *)
Definition example_kmem : kmem_t :=
  Kmem 1024 4 (<[1024 := 2048]> (<[2048 := 3072]> (<[3072 := 8192]> (<[8192 := 0]> ∅)))).

Lemma example_kmem_ok : kmem_ok example_kmem [1024; 2048; 3072; 8192].
Proof.
  split_and!; [vm_compute; tauto| | |done].
  - repeat (constructor; [|repeat (constructor; [lia|]); constructor]). constructor.
  - repeat constructor; try lia; unfold KMEM_CHUNKSIZE;
      match goal with |- (_ | ?x) => exists (x / 1024); reflexivity end.
Qed.

Lemma alloc_refines_witness :
  alloc_spec (size_aligned 2048) 1 [1024; 2048; 3072; 8192] = Some (2048, [1024; 8192]) /\
  exists k', alloc 8 2048 example_kmem = Ok (2048, k') /\
    alloc_post example_kmem k' 2048 2 [1024; 2048; 3072; 8192] [1024; 8192].
Proof.
  split; [reflexivity|].
  exact (alloc_refines 8 1 example_kmem [1024; 2048; 3072; 8192] example_kmem_ok ltac:(simpl; lia)).
Defined.

(** C18 Release refines insertion: [free] of a block none of whose chunks is
    free terminates and leaves a well-formed free list that holds the old
    chunks and the chunks of the block, in ascending order; it writes nothing
    outside the block and the free chunks. *)
Theorem free_refines_insertion fuel a n k l :
  kmem_ok k l -> free_pre a n l -> (length l <= fuel)%nat -> (n <= fuel)%nat ->
  exists k', free fuel a (KMEM_CHUNKSIZE * Z.of_nat (S n)) k = Ok k' /\
    kmem_ok k' (free_spec a (S n) l) /\
    (forall y, y ∉ block a (S n) -> y ∉ l -> load (mem k') y = load (mem k) y).
Proof. apply free_refines. Qed.

Lemma free_refines_insertion_witness :
  free_pre 4096 1 [1024; 2048; 3072; 8192] /\
  exists k', free 8 4096 2048 example_kmem = Ok k' /\
    kmem_ok k' [1024; 2048; 3072; 4096; 5120; 8192].
Proof.
  assert (free_pre 4096 1 [1024; 2048; 3072; 8192]) as Hp.
  { split_and!; [lia|now exists 4|unfold KMEM_CHUNKSIZE; lia|].
    intros x (i & Hi & ->)%elem_of_block. unfold KMEM_CHUNKSIZE. rewrite !not_elem_of_cons.
    assert (i = 0 \/ i = 1) as [-> | ->] by lia; split_and!; try lia; apply not_elem_of_nil. }
  split; [exact Hp|].
  destruct (free_refines_insertion 8 4096 1 example_kmem [1024; 2048; 3072; 8192]
              example_kmem_ok Hp ltac:(simpl; lia) ltac:(lia)) as (k' & E & Hok & _).
  now exists k'.
Defined.

Lemma alloc_spec_split suits n l a l' :
  Forall chunk_ok l -> alloc_spec suits n l = Some (a, l') ->
  exists l0 y rest, l = l0 ++ block a (S n) ++ y :: rest /\ l' = l0 ++ y :: rest /\
    suits a = true.
Proof.
  intros Hok. revert a l'. induction l as [|x l IH]; intros a l' E; [done|].
  apply Forall_cons in Hok as [Hx Hok]. cbn [alloc_spec] in E.
  assert (Hrec : forall r, match alloc_spec suits n l with
                 | Some (a, l'') => Some (a, x :: l'') | None => None end = r ->
            r = Some (a, l') -> exists l0 y rest,
            x :: l = l0 ++ block a (S n) ++ y :: rest /\ l' = l0 ++ y :: rest /\ suits a = true).
  { intros r <- E'. destruct (alloc_spec suits n l) as [[a' l'']|]; [|done]. simplify_eq.
    destruct (IH Hok a l'' eq_refl) as (l0 & y & rest & -> & -> & Hs).
    exists (x :: l0), y, rest. done. }
  destruct (suits x) eqn:Es; [|eauto].
  destruct (take_run x 1 n l) as [[|y rest]|] eqn:Er; [eauto| |eauto].
  simplify_eq. apply take_run_block in Er;
    [|now replace (a + KMEM_CHUNKSIZE * (1 - 1)) with a by lia|done].
  exists [], y, rest. rewrite block_S. cbn [app]. rewrite Er, Z.mul_1_r. done.
Qed.

Lemma alloc_spec_short suits n l : (length l <= S n)%nat -> alloc_spec suits n l = None.
Proof.
  induction l as [|x l IH]; intros Hl; [done|]. cbn [alloc_spec length] in *.
  rewrite IH by lia. destruct (suits x); [|done].
  destruct (take_run x 1 n l) as [[|y rest]|] eqn:E; [done| |done].
  assert (forall a i n l l', take_run a i n l = Some l' -> length l = (n + length l')%nat) as Hlen.
  { clear. intros a i n l l'. revert i l. induction n as [|n IH]; intros i l; simpl; [now intros [= ->]|].
    destruct l as [|y l]; [done|]. destruct (y =? chunk_at a i); [|done]. intros E%IH. simpl. lia. }
  apply Hlen in E. simpl in E. lia.
Qed.

Lemma filter_parts a (l1 l2 : list Z) :
  (forall x, x ∈ l1 -> x < a) -> (forall x, x ∈ l2 -> ~ x < a) ->
  filter (fun x => x < a) (l1 ++ l2) = l1 /\ filter (fun x => ~ x < a) (l1 ++ l2) = l2.
Proof.
  intros H1 H2. induction l1 as [|x l1 IH]; simpl.
  - induction l2 as [|y l2 IH]; [done|].
    rewrite filter_cons_False, filter_cons_True by (apply H2; left).
    destruct IH as [-> ->]; [intros z Hz; apply H2; now right|done].
  - assert (x < a) by (apply H1; left).
    rewrite filter_cons_True, filter_cons_False by auto.
    destruct IH as [-> ->]; [intros z Hz; apply H1; now right|done].
Qed.

Lemma free_undoes_alloc l0 a n y rest :
  StronglySorted Z.lt (l0 ++ block a (S n) ++ y :: rest) ->
  Forall chunk_ok (l0 ++ block a (S n) ++ y :: rest) ->
  free_pre a n (l0 ++ y :: rest) /\
  free_spec a (S n) (l0 ++ y :: rest) = l0 ++ block a (S n) ++ y :: rest.
Proof.
  intros Hs Hok. destruct (block_sorted_bounds _ _ _ _ _ Hs Hok) as (Ha & Hb & _).
  assert (Hin : a ∈ block a (S n)) by (rewrite block_S; left).
  assert (chunk_ok a) as (_ & _ & Hd).
  { rewrite Forall_forall in Hok. apply Hok. apply elem_of_app. right. apply elem_of_app. now left. }
  apply sorted_NoDup in Hs as Hnd. apply sorted_app in Hs as (_ & Hs2 & Hs3).
  apply sorted_app in Hs2 as (_ & _ & Hs6). apply NoDup_app in Hnd as (_ & Hd1 & Hnd).
  apply NoDup_app in Hnd as (_ & Hd2 & _). split.
  - split_and!; [done|done|done|]. intros x Hx [Hl|Hl]%elem_of_app.
    + apply (Hd1 x Hl). apply elem_of_app. now left.
    + now apply (Hd2 x Hx).
  - unfold free_spec. destruct (filter_parts a l0 (y :: rest)) as [-> ->]; [| |done].
    + intros x Hx. apply Hs3; [done|]. apply elem_of_app. now left.
    + intros x Hx. specialize (Hs6 a x Hin Hx). lia.
Qed.

(** C36 Allocation and release are inverse: a block that [alloc] returned can be
    freed with the same size, and the free list is then the one before the
    allocation. *)
Theorem alloc_free_roundtrip fuel n k l a k' :
  kmem_ok k l -> (length l <= fuel)%nat -> (n <= fuel)%nat ->
  alloc fuel (KMEM_CHUNKSIZE * Z.of_nat (S n)) k = Ok (a, k') ->
  exists k'', free fuel a (KMEM_CHUNKSIZE * Z.of_nat (S n)) k' = Ok k'' /\ kmem_ok k'' l.
Proof.
  intros Hok Hf Hn E. unfold alloc in E. rewrite clamp_size_chunks in E.
  pose proof (alloc_loop_refines fuel (size_aligned (KMEM_CHUNKSIZE * Z.of_nat (S n))) n k l Hok Hf) as H.
  destruct (alloc_spec _ n l) as [[a' l']|] eqn:Es; [|congruence].
  destruct H as (k1 & E1 & Hok' & _). assert (a' = a /\ k1 = k') as [-> ->] by (split; congruence).
  destruct Hok as (_ & Hs & Hch & _).
  destruct (alloc_spec_split _ _ _ _ _ Hch Es) as (l0 & y & rest & -> & -> & _).
  destruct (free_undoes_alloc _ _ _ _ _ Hs Hch) as [Hpre Hspec]. rewrite <- Hspec.
  destruct (free_refines fuel a n k' (l0 ++ y :: rest)) as (k2 & E2 & Hok2 & _); [done|done| |done|now exists k2].
  rewrite !length_app, length_block in Hf. rewrite length_app. lia.
Qed.

(** the state after two chunks were taken from the example *)
Definition example_alloc : kmem_t :=
  match alloc 8 2048 example_kmem with Ok (_, k) => k | _ => example_kmem end.

Lemma example_alloc_ok : alloc 8 (KMEM_CHUNKSIZE * Z.of_nat 2) example_kmem = Ok (2048, example_alloc).
Proof. vm_compute. reflexivity. Qed.

Lemma alloc_free_roundtrip_witness :
  exists k'', free 8 2048 2048 example_alloc = Ok k'' /\ kmem_ok k'' [1024; 2048; 3072; 8192].
Proof.
  exact (alloc_free_roundtrip 8 1 example_kmem [1024; 2048; 3072; 8192] 2048 example_alloc
           example_kmem_ok ltac:(simpl; lia) ltac:(lia) example_alloc_ok).
Defined.

(** The allocator cannot hand out its last memory: a request for [S n]
    chunks stops the kernel whenever at most [S n] chunks are free, even if they
    are one suitable block, because the search only succeeds if another free
    chunk follows the block. *)
Theorem alloc_needs_a_spare_chunk fuel n k l :
  kmem_ok k l -> (length l <= fuel)%nat -> (length l <= S n)%nat ->
  alloc fuel (KMEM_CHUNKSIZE * Z.of_nat (S n)) k = Hang.
Proof.
  intros Hok Hf Hl. unfold alloc. rewrite clamp_size_chunks.
  pose proof (alloc_loop_refines fuel (size_aligned (KMEM_CHUNKSIZE * Z.of_nat (S n))) n k l Hok Hf) as H.
  now rewrite alloc_spec_short in H.
Qed.

Lemma alloc_needs_a_spare_chunk_witness :
  kmem_ok (Kmem 2048 1 ∅) [2048] /\ alloc 8 1024 (Kmem 2048 1 ∅) = Hang.
Proof.
  assert (kmem_ok (Kmem 2048 1 ∅) [2048]) as Hok.
  { split_and!; [vm_compute; tauto|repeat constructor| |done].
    repeat constructor; unfold KMEM_CHUNKSIZE; try lia. now exists 2. }
  split; [exact Hok|].
  exact (alloc_needs_a_spare_chunk 8 0 (Kmem 2048 1 ∅) [2048] Hok ltac:(simpl; lia) ltac:(simpl; lia)).
Defined.
