(* ===== verification/Pgent.v ===== *)
(** * Page table entries

    [arch/mips64/pgent.h] with the translations of [arch/mips64/tlb.h], the
    page size arithmetic of [linear_ptab.h] and the address conversions of
    [glue/v4-mips64/hwspace.h].  An entry is a word; entries live in the memory
    the kernel allocator manages, next to the links into the mapping database. *)

From Stdlib Require Import ZArith Lia Bool List.
From stdpp Require Import base numbers list option gmap.
From S2P Require Import Prelude Types Monad Kmem.
Open Scope Z_scope.

(** ** [hwspace.h] *)

Definition virt_to_phys (addr : Z) : Z := w64 (addr - Layout.AS_KSEG_START).
Definition phys_to_virt (addr : Z) : Z := w64 (addr + Layout.AS_KSEG_START).
Definition tree_to_addr (addr : Z) : Z :=
  Z.lor (Z.land addr 0x00FFFFFFFFFFFFFF) (Z.land Layout.AS_KSEG_START 0xFF00000000000000).

(** ** [translation_t] *)
Module Translation.

Definition x : list Z := [1; 1; 1; 3; 24; 32; 2].
Definition f_global := member x 0.
Definition f_valid := member x 1.
Definition f_dirty := member x 2.
Definition f_memory_attrib := member x 3.
Definition f_phys_addr := member x 4.
Definition f_rid := member x 6.

Definition CONFIG_MIPS64_VPN_SHIFT : Z := 12.

Inductive memattrib_e := write_through_noalloc | write_through | uncached | write_back.
Definition memattrib_val (a : memattrib_e) : Z :=
  match a with write_through_noalloc => 0 | write_through => 1 | uncached => 2 | write_back => 3 end.
(** neither CONFIG_UNCACHED nor CONFIG_SMP *)
Definition l4default : Z := memattrib_val write_back.

Definition memattrib (raw : Z) : Z := bf_get f_memory_attrib raw.
Definition phys_addr (raw : Z) : Z := Z.shiftl (bf_get f_phys_addr raw) CONFIG_MIPS64_VPN_SHIFT.
Definition get_raw (raw : Z) : Z := raw.
Definition get_valid (raw : Z) : Z := bf_get f_valid raw.
Definition get_dirty (raw : Z) : Z := bf_get f_dirty raw.
Definition get_global (raw : Z) : Z := bf_get f_global raw.
Definition is_kernel (raw : Z) : bool := truth (bf_get f_rid raw).
Definition reset_reference_bits (raw : Z) : Z := raw.

Definition set_dirty (d raw : Z) : Z := bf_set f_dirty d raw.
Definition set_valid (v raw : Z) : Z := bf_set f_valid v raw.
Definition set_global (g raw : Z) : Z := bf_set f_global g raw.
Definition set_attrib (a raw : Z) : Z := bf_set f_memory_attrib a raw.
Definition set_phys_addr (pa raw : Z) : Z :=
  bf_set f_phys_addr (Z.shiftr pa CONFIG_MIPS64_VPN_SHIFT) raw.

Definition set (attrib : Z) (allow_access allow_modify kernel : bool) (pa raw : Z) : Z :=
  let raw := bf_set f_global (Z.b2z kernel) raw in
  let raw := bf_set f_valid (Z.b2z allow_access) raw in
  let raw := bf_set f_dirty (Z.b2z allow_modify) raw in
  let raw := bf_set f_memory_attrib attrib raw in
  let raw := set_phys_addr pa raw in
  bf_set f_rid (if kernel then 1 else 0) raw.

(** the constructor *)
Definition make (attrib : Z) (allow_access allow_modify kernel : bool) (pa : Z) : Z :=
  set attrib allow_access allow_modify kernel pa 0.

(** *** Translation cache access

    A TLB entry maps a pair of pages; the probe for a pair either finds an entry
    or nothing.  [put_tc] returns the entry it writes (with [tlbwi] over the one
    found, else with [tlbwr]), [purge_tc] the one it writes back, if any. *)

Record tlb_entry := TlbEntry { entry_hi : Z; entry_lo0 : Z; entry_lo1 : Z }.

Definition is_odd (vaddr page_size : Z) : bool := truth (Z.land vaddr (Z.shiftl 1 page_size)).
Definition with_half (odd : bool) (lo : Z) (e : tlb_entry) : tlb_entry :=
  if odd then TlbEntry (entry_hi e) (entry_lo0 e) lo else TlbEntry (entry_hi e) lo (entry_lo1 e).

(** EntryHi of the probes *)
Definition put_hi (vaddr page_size asid raw : Z) : Z :=
  let asid := if truth (get_global raw) then 0 else asid in
  Z.lor (Z.lor (w64 (Z.shiftl (bf_get f_rid raw) 62)) asid)
        (Z.shiftl (Z.land (Z.shiftr vaddr (page_size + 1)) (Z.shiftl 1 27 - 1)) 13).
Definition purge_hi (vaddr page_size asid : Z) : Z :=
  Z.lor (Z.land vaddr (wnot (Z.shiftl 1 (page_size + 1) - 1))) asid.

Definition put_tc (vaddr page_size asid : Z) (probe : Z -> option tlb_entry) (raw : Z) : tlb_entry :=
  let hi := put_hi vaddr page_size asid raw in
  match probe hi with
  | Some e => with_half (is_odd vaddr page_size) raw e
  | None => with_half (is_odd vaddr page_size) raw (TlbEntry hi 1 1)
  end.

Definition purge_tc (vaddr page_size asid : Z) (probe : Z -> option tlb_entry) : option tlb_entry :=
  match probe (purge_hi vaddr page_size asid) with
  | Some e => Some (with_half (is_odd vaddr page_size) 0 e)
  | None => None
  end.

End Translation.

(** ** Page sizes *)

Abbreviation pgsize_e := Z (only parsing).
Definition size_4k : pgsize_e := 0.
Definition size_16k : pgsize_e := 1.
Definition size_64k : pgsize_e := 2.
Definition size_256k : pgsize_e := 3.
Definition size_1m : pgsize_e := 4.
Definition size_4m : pgsize_e := 5.
Definition size_16m : pgsize_e := 6.
Definition size_4g : pgsize_e := 7.
Definition size_4t : pgsize_e := 8.
Definition size_64m : pgsize_e := 9.
Definition size_256m : pgsize_e := 10.
Definition size_4p : pgsize_e := 11.
Definition size_max : pgsize_e := size_4g.

(** [hw_pgshifts[pgsize]] *)
Definition page_shift (pgsize : pgsize_e) : Z := nth (Z.to_nat pgsize) Layout.HW_PGSHIFTS 0.
Definition page_size (pgsize : pgsize_e) : Z := Z.shiftl 1 (page_shift pgsize).
Definition page_mask (pgsize : pgsize_e) : Z := Z.shiftl 1 (page_shift pgsize) - 1.
Definition page_table_size (pgsize : pgsize_e) : Z :=
  Z.shiftl 1 (page_shift (pgsize + 1) - page_shift pgsize).
Definition page_table_index (pgsize : pgsize_e) (vaddr : Z) : Z :=
  Z.land (Z.shiftr vaddr (page_shift pgsize)) (page_table_size pgsize - 1).

Definition HW_VALID_PGSIZES : Z :=
  foldr Z.lor 0 (map (Z.shiftl 1) [12; 14; 16; 18; 20; 22; 24]).
Definition is_page_size_valid (pgsize : pgsize_e) : bool :=
  truth (Z.land (Z.shiftl 1 (page_shift pgsize)) HW_VALID_PGSIZES).

(** ** [pgent_t] *)
Module Pgent.

Definition MIPS64_PTAB_SIZE : Z := Z.shiftl 1 10 * 8.

Definition tree : list Z := [56; 4; 1; 1; 2].
Definition map : list Z := [30; 26; 4; 1; 1; 2].
Definition tree_subtree := member tree 0.
Definition tree_pgsize := member tree 1.
Definition tree_is_subtree := member tree 2.
Definition tree_is_valid := member tree 3.
Definition map_pgsize := member map 2.
Definition map_is_subtree := member map 3.
Definition map_is_valid := member map 4.

(** the sizes whose entries point to a table of their own *)
Definition is_tree_size (pgsize : pgsize_e) : bool :=
  (pgsize =? size_4t) || (pgsize =? size_4g) || (pgsize =? size_4m).

(** *** Predicates and retrieval, on the entry's word *)

Definition is_valid (pgsize : pgsize_e) (raw : Z) : bool :=
  bf_flag map_is_valid raw || (bf_flag map_is_subtree raw && (bf_get map_pgsize raw <? pgsize)).
Definition is_subtree (pgsize : pgsize_e) (raw : Z) : bool :=
  if is_tree_size pgsize then bf_flag tree_is_subtree raw else bf_get map_pgsize raw <? pgsize.
Definition is_readable (pgsize : pgsize_e) (raw : Z) : bool := truth (Translation.get_valid raw).
Definition is_writable (pgsize : pgsize_e) (raw : Z) : bool :=
  truth (Translation.get_dirty raw) && truth (Translation.get_valid raw).
Definition is_executable (pgsize : pgsize_e) (raw : Z) : bool := truth (Translation.get_valid raw).
Definition is_kernel (pgsize : pgsize_e) (raw : Z) : bool := Translation.is_kernel raw.
Definition get_attributes (pgsize : pgsize_e) (raw : Z) : Z := Translation.memattrib raw.
Definition address (pgsize : pgsize_e) (raw : Z) : Z :=
  addr_mask (Translation.phys_addr raw) (wnot (page_mask pgsize)).
(** [this] is the address of the entry *)
Definition subtree (pgsize : pgsize_e) (this raw : Z) : Z :=
  if is_tree_size pgsize then tree_to_addr raw else this.
Definition reference_bits (pgsize : pgsize_e) (raw : Z) : Z :=
  if truth (Translation.get_dirty raw) then 6
  else if truth (Translation.get_valid raw) then 4 else 0.

(** *** Rights *)

Definition revoke_rights (pgsize : pgsize_e) (rwx raw : Z) : Z :=
  if truth (Z.land rwx 2) then Translation.set_dirty 0 raw else raw.
Definition update_rights (pgsize : pgsize_e) (rwx raw : Z) : Z :=
  if truth (Z.land rwx 2) then Translation.set_dirty 1 raw else raw.
Definition reset_reference_bits (pgsize : pgsize_e) (raw : Z) : Z :=
  Translation.reset_reference_bits raw.
(** not implemented in the source *)
Definition update_reference_bits (pgsize : pgsize_e) (rwx raw : Z) : Z := raw.

(** *** Modification *)

Definition mark_mapping (pgsize : pgsize_e) (raw : Z) : Z :=
  let raw := bf_set map_is_valid 1 raw in
  let raw := bf_set map_is_subtree 0 raw in
  bf_set map_pgsize pgsize raw.
Definition set_entry_attrib (pgsize : pgsize_e) (paddr : Z)
    (readable writable executable kernel : bool) (attrib : Z) : Z :=
  mark_mapping pgsize (Translation.get_raw (Translation.make attrib readable writable kernel paddr)).
Definition set_entry (pgsize : pgsize_e) (paddr : Z) (readable writable executable kernel : bool) : Z :=
  set_entry_attrib pgsize paddr readable writable executable kernel Translation.l4default.

(** the entry [num] places further at this size *)
Definition next (pgsize : pgsize_e) (num this : Z) : Z :=
  let step := if (pgsize =? size_16k) || (pgsize =? size_16m) then 4
              else if (pgsize =? size_64k) || (pgsize =? size_64m) then 16
              else if (pgsize =? size_256k) || (pgsize =? size_256m) then 64
              else if pgsize =? size_1m then 256 else 1 in
  w64 (this + 8 * (step * num)).

(** *** Entries in memory *)

Definition with_mem (f : gmap Z Z -> gmap Z Z) (k : kmem_t) : kmem_t :=
  Kmem (kmem_free_list k) (free_chunks k) (f (mem k)).
Definition raw_at (k : kmem_t) (this : Z) : Z := load (mem k) this.
Definition set_raw (this raw : Z) (k : kmem_t) : kmem_t := with_mem (store this raw) k.

Definition get_linknode (k : kmem_t) (this : Z) : Z := load (mem k) (w64 (this + MIPS64_PTAB_SIZE)).
Definition set_linknode_word (this val : Z) (k : kmem_t) : kmem_t :=
  with_mem (store (w64 (this + MIPS64_PTAB_SIZE)) val) k.
Definition set_linknode (this map vaddr : Z) (k : kmem_t) : kmem_t :=
  set_linknode_word this (Z.lxor map vaddr) k.
Definition mapnode (k : kmem_t) (this vaddr : Z) : Z := Z.lxor (get_linknode k this) vaddr.
Definition vaddr (k : kmem_t) (this map : Z) : Z := Z.lxor (get_linknode k this) map.

Definition clear (this : Z) (pgsize : pgsize_e) (kernel : bool) (k : kmem_t) : kmem_t :=
  let raw := raw_at k this in
  let raw := if is_tree_size pgsize || (pgsize =? size_4p) then 0
             else bf_set tree_is_subtree 1 (bf_set tree_is_valid 0 raw) in
  let k := set_raw this raw k in
  if kernel then k else set_linknode_word this 0 k.

(** user page tables are followed by the links *)
Definition ptab_bytes (kernel : bool) : Z := if kernel then MIPS64_PTAB_SIZE else MIPS64_PTAB_SIZE * 2.

Definition make_subtree (fuel : nat) (this : Z) (pgsize : pgsize_e) (kernel : bool) (k : kmem_t)
    : result kmem_t :=
  if is_tree_size pgsize then
    match alloc fuel (ptab_bytes kernel) k with
    | Ok (table, k) =>
        let raw := bf_set tree_subtree table (raw_at k this) in
        let raw := bf_set tree_is_subtree 1 (bf_set tree_is_valid 0 raw) in
        Ok (set_raw this (bf_set tree_pgsize (pgsize - 1) raw) k)
    | Hang => Hang
    | Crash => Crash
    end
  else
    let raw := bf_set map_is_subtree 1 (bf_set map_is_valid 0 (raw_at k this)) in
    Ok (set_raw this (bf_set map_pgsize (pgsize - 1) raw) k).

Definition remove_subtree (fuel : nat) (this : Z) (pgsize : pgsize_e) (kernel : bool) (k : kmem_t)
    : result kmem_t :=
  if is_tree_size pgsize || (pgsize =? size_4p) then
    let ptab := raw_at k this in
    free fuel (tree_to_addr ptab) (ptab_bytes kernel) (set_raw this 0 k)
  else
    let raw := bf_set map_is_valid 0 (bf_set map_is_subtree 1 (raw_at k this)) in
    Ok (set_raw this (bf_set map_pgsize (pgsize + 1) raw) k).

End Pgent.

(** ** Entries *)

Ltac entry_simpl :=
  unfold Pgent.set_entry, Pgent.set_entry_attrib, Pgent.mark_mapping, Translation.make,
    Translation.set, Translation.set_phys_addr, Translation.get_raw.

Lemma b2z_flag f b raw : bf_ok f -> bf_width f = 1 -> bf_flag f (bf_set f (Z.b2z b) raw) = b.
Proof.
  intros Hf Hw. unfold bf_flag. rewrite bf_get_set_eq, Hw by done. now destruct b.
Qed.

(** an aligned address loses nothing to the mask of its page size *)
Lemma page_mask_address pgsize paddr :
  0 <= pgsize <= size_max -> is_word paddr -> paddr mod page_size pgsize = 0 ->
  addr_mask paddr (wnot (page_mask pgsize)) = paddr.
Proof.
  intros Hs Hp Ha. unfold page_mask, page_size, addr_mask in *. rewrite Z.shiftl_1_l in *.
  rewrite land_wnot_mask, Ha; [lia|done|].
  assert (Forall (fun x => 0 <= x <= 64) Layout.HW_PGSHIFTS) as Hf by (repeat constructor; lia).
  rewrite (Forall_nth _ 0) in Hf. unfold page_shift. apply (Hf (Z.to_nat pgsize)).
  unfold size_max, size_4g in Hs. simpl. lia.
Qed.

(** What an entry is made of can be read back: its address (36 bits, aligned
    to its size), its rights, whether it is the kernel's and its memory
    attributes; it is a valid mapping of its size and no subtree. *)
Theorem set_entry_roundtrip pgsize paddr readable writable executable kernel attrib :
  0 <= pgsize <= size_max -> 0 <= paddr < 2 ^ 36 -> paddr mod page_size pgsize = 0 ->
  paddr mod 2 ^ 12 = 0 -> 0 <= attrib < 8 ->
  let e := Pgent.set_entry_attrib pgsize paddr readable writable executable kernel attrib in
  Pgent.is_valid pgsize e = true /\ Pgent.is_subtree pgsize e = false /\
  Pgent.address pgsize e = paddr /\
  Pgent.is_readable pgsize e = readable /\ Pgent.is_executable pgsize e = readable /\
  Pgent.is_writable pgsize e = readable && writable /\
  Pgent.is_kernel pgsize e = kernel /\ Pgent.get_attributes pgsize e = attrib.
Proof.
  intros Hs Hp Ha Ha12 Hat e.
  assert (Hv : bf_flag Pgent.map_is_valid e = true).
  { unfold bf_flag, e. entry_simpl. bf_simpl. reflexivity. }
  assert (Hst : bf_get Pgent.map_is_subtree e = 0) by (unfold e; entry_simpl; now bf_simpl).
  assert (Hsz : bf_get Pgent.map_pgsize e = pgsize).
  { unfold e. entry_simpl. bf_simpl. apply Z.mod_small. unfold size_max, size_4g in Hs. lia. }
  assert (Hr : bf_get Translation.f_valid e = Z.b2z readable).
  { unfold e. entry_simpl. bf_simpl. now destruct readable. }
  split_and!.
  - unfold Pgent.is_valid. now rewrite Hv.
  - unfold Pgent.is_subtree. rewrite Hsz. change Pgent.tree_is_subtree with Pgent.map_is_subtree.
    unfold bf_flag. rewrite Hst. destruct (Pgent.is_tree_size pgsize); [done|apply Z.ltb_irrefl].
  - unfold Pgent.address, Translation.phys_addr.
    assert (bf_get Translation.f_phys_addr e = paddr / 2 ^ 12) as ->.
    { unfold e. entry_simpl. bf_simpl. unfold Translation.CONFIG_MIPS64_VPN_SHIFT.
      rewrite Z.shiftr_div_pow2 by lia. apply Z.mod_small. zlia. }
    unfold Translation.CONFIG_MIPS64_VPN_SHIFT.
    rewrite Z.shiftl_mul_pow2, div_mul_pow2, Ha12, Z.sub_0_r by lia.
    apply page_mask_address; [done|zlia|done].
  - unfold Pgent.is_readable, Translation.get_valid. rewrite Hr. now destruct readable.
  - unfold Pgent.is_executable, Translation.get_valid. rewrite Hr. now destruct readable.
  - unfold Pgent.is_writable, Translation.get_valid, Translation.get_dirty. rewrite Hr.
    assert (bf_get Translation.f_dirty e = Z.b2z writable) as ->.
    { unfold e. entry_simpl. bf_simpl. now destruct writable. }
    now destruct readable, writable.
  - unfold Pgent.is_kernel, Translation.is_kernel.
    assert (bf_get Translation.f_rid e = if kernel then 1 else 0) as ->.
    { unfold e. entry_simpl. bf_simpl. now destruct kernel. }
    now destruct kernel.
  - unfold Pgent.get_attributes, Translation.memattrib, e. entry_simpl. bf_simpl.
    now apply Z.mod_small.
Qed.

Lemma set_entry_roundtrip_witness :
  let e := Pgent.set_entry_attrib size_64k 0x12340000 true true true false 3 in
  0x12340000 mod page_size size_64k = 0 /\ Pgent.address size_64k e = 0x12340000 /\
  Pgent.is_writable size_64k e = true.
Proof.
  destruct (set_entry_roundtrip size_64k 0x12340000 true true true false 3
    ltac:(vm_compute; intuition congruence) ltac:(lia) ltac:(reflexivity) ltac:(reflexivity) ltac:(lia))
    as (_ & _ & H1 & _ & _ & H2 & _).
  split; [reflexivity|]. split; [exact H1|exact H2].
Defined.

(** ** Indices *)

Lemma page_table_index_mod pgsize vaddr :
  0 <= pgsize <= size_max -> 0 <= vaddr ->
  page_table_index pgsize vaddr =
    (vaddr / 2 ^ page_shift pgsize) mod 2 ^ (page_shift (pgsize + 1) - page_shift pgsize).
Proof.
  intros Hs Hv. unfold page_table_index, page_table_size. rewrite Z.shiftl_1_l.
  assert (0 <= page_shift pgsize < page_shift (pgsize + 1)) as [H1 H2].
  { unfold size_max, size_4g in Hs.
    assert (pgsize = 0 \/ pgsize = 1 \/ pgsize = 2 \/ pgsize = 3 \/ pgsize = 4 \/ pgsize = 5 \/
            pgsize = 6 \/ pgsize = 7) as Hc by lia.
    repeat (destruct Hc as [->|Hc]; [vm_compute; intuition congruence|]). subst.
    vm_compute; intuition congruence. }
  rewrite Z.shiftr_div_pow2 by lia. rewrite aligned_land_mask by lia. done.
Qed.

Lemma mod_split a b x : 0 <= a <= b ->
  x mod 2 ^ b = x mod 2 ^ a + (x / 2 ^ a) mod 2 ^ (b - a) * 2 ^ a.
Proof.
  intros H. replace b with (a + (b - a)) at 1 by lia. rewrite Z.pow_add_r by lia.
  rewrite Z.rem_mul_r by lia. lia.
Qed.

(** the shifts of concrete sizes *)
Ltac shifts :=
  repeat match goal with
  | |- context [page_shift ?c] =>
      let v := eval vm_compute in (page_shift c) in is_z_lit v; change (page_shift c) with v
  end.

(** C38 The indices of an address at the eight sizes, each within its table,
    together with the offset in the page determine the address up to bit 40. *)
Theorem page_table_indices_decompose vaddr :
  0 <= vaddr ->
  (forall pgsize, 0 <= pgsize <= size_max ->
     0 <= page_table_index pgsize vaddr < page_table_size pgsize) /\
  vaddr mod 2 ^ 41 =
    Z.land vaddr (page_mask size_4k) +
    foldr Z.add 0 (map (fun pgsize => page_table_index pgsize vaddr * page_size pgsize)
                       [0; 1; 2; 3; 4; 5; 6; 7]).
Proof.
  intros Hv. split.
  - intros pgsize Hs. rewrite page_table_index_mod by done. unfold page_table_size.
    rewrite Z.shiftl_1_l. apply Z.mod_pos_bound. apply Z.pow_pos_nonneg; [lia|].
    unfold size_max, size_4g in Hs.
    assert (pgsize = 0 \/ pgsize = 1 \/ pgsize = 2 \/ pgsize = 3 \/ pgsize = 4 \/ pgsize = 5 \/
            pgsize = 6 \/ pgsize = 7) as Hc by lia.
    repeat (destruct Hc as [->|Hc]; [vm_compute; intuition congruence|]). subst.
    vm_compute; intuition congruence.
  - unfold page_mask, page_size. rewrite Z.shiftl_1_l, aligned_land_mask by (vm_compute; congruence).
    cbn [map foldr]. rewrite !page_table_index_mod by (done || (vm_compute; intuition congruence)).
    unfold size_4k. shifts. rewrite !Z.shiftl_1_l.
    rewrite (mod_split 32 41), (mod_split 24 32), (mod_split 22 24), (mod_split 20 22),
      (mod_split 18 20), (mod_split 16 18), (mod_split 14 16), (mod_split 12 14) by lia.
    shifts. lia.
Qed.

Lemma page_table_indices_decompose_witness :
  0x123456789a mod 2 ^ 41 =
    Z.land 0x123456789a (page_mask size_4k) +
    foldr Z.add 0 (map (fun pgsize => page_table_index pgsize 0x123456789a * page_size pgsize)
                       [0; 1; 2; 3; 4; 5; 6; 7]).
Proof. apply (page_table_indices_decompose 0x123456789a). lia. Defined.
