(* ===== verification/Cache.v ===== *)
(** * Cache instructions

    [platform/u4600/cache.h]: which cache instructions the kernel issues, in
    their order.  What an instruction does to a cache is not modelled. *)

From Stdlib Require Import ZArith Lia Bool List.
From stdpp Require Import base numbers list.
From S2P Require Import Prelude Types Monad Kmem Pgent.
Open Scope Z_scope.

Definition CACHE_LINE_SIZE : Z := 16.
Definition DCACHE_SIZE : Z := 16 * 1024.
Definition ICACHE_SIZE : Z := 16 * 1024.
Definition KSEG0 : Z := 0xffffffff80000000.

(** the operation [op] on the address [addr] *)
Record cache_op := CacheOp { cop_op : Z; cop_addr : Z }.
Definition Index_Invalidate_I : Z := 0x00.
Definition Index_Writeback_Inv_D : Z := 0x01.
Definition Index_Store_Tag_I : Z := 0x08.
Definition Index_Store_Tag_D : Z := 0x09.

(** ** Operations *)

Definition cache16_unroll32 (base op : Z) : list cache_op :=
  map (fun i => CacheOp op (w64 (base + CACHE_LINE_SIZE * i))) (seqZ 0 32).

(** [while (start < end) { body; start += step; }] *)
Fixpoint lines_loop (n : nat) (body : Z -> list cache_op) (step start fin : Z) : result (list cache_op) :=
  if start <? fin then
    match n with
    | O => Hang
    | S n =>
        match lines_loop n body step (w64 (start + step)) fin with
        | Ok l => Ok (body start ++ l)
        | e => e
        end
    end
  else Ok [].
(** no loop goes over more than a whole cache *)
Definition LINES_FUEL : nat := 1024.

Definition blast_dcache16 : result (list cache_op) :=
  lines_loop LINES_FUEL (fun a => cache16_unroll32 a Index_Writeback_Inv_D) 0x200 KSEG0 (KSEG0 + DCACHE_SIZE).
Definition blast_icache16 : result (list cache_op) :=
  lines_loop LINES_FUEL (fun a => cache16_unroll32 a Index_Invalidate_I) 0x200 KSEG0 (KSEG0 + ICACHE_SIZE).
Definition init_dcache : result (list cache_op) :=
  lines_loop LINES_FUEL (fun a => [CacheOp Index_Store_Tag_D a]) CACHE_LINE_SIZE KSEG0 (KSEG0 + DCACHE_SIZE).
Definition init_icache : result (list cache_op) :=
  lines_loop LINES_FUEL (fun a => [CacheOp Index_Store_Tag_I a]) CACHE_LINE_SIZE KSEG0 (KSEG0 + ICACHE_SIZE).

Definition both (a b : result (list cache_op)) : result (list cache_op) :=
  match a, b with
  | Ok a, Ok b => Ok (a ++ b)
  | Ok _, e => e
  | e, _ => e
  end.
Definition flush_cache_all : result (list cache_op) := both blast_dcache16 blast_icache16.
Definition flush_cache_l1 : result (list cache_op) := both blast_dcache16 blast_icache16.

(** [~CACHE_LINE_SIZE] has one bit clear, not the four below it *)
Definition range_start (start : Z) : Z := Z.land start (wnot CACHE_LINE_SIZE).
Definition range_end (fin : Z) : Z := Z.land (w64 (fin + (CACHE_LINE_SIZE - 1))) (wnot CACHE_LINE_SIZE).
Definition clip (start fin size : Z) : Z := if fin >? w64 (start + size) then w64 (start + size) else fin.

Definition flush_cache_range (start fin : Z) : result (list cache_op) :=
  let start := range_start start in
  lines_loop LINES_FUEL (fun a => [CacheOp Index_Store_Tag_D a]) CACHE_LINE_SIZE
    start (clip start (range_end fin) DCACHE_SIZE).
Definition flush_icache_range (start fin : Z) : result (list cache_op) :=
  let start := range_start start in
  lines_loop LINES_FUEL (fun a => [CacheOp Index_Store_Tag_I a]) CACHE_LINE_SIZE
    start (clip start (range_end fin) ICACHE_SIZE).

Definition flush_cache_page (page : Z) (pgsize : pgsize_e) : result (list cache_op) :=
  let start := Z.land page (page_mask pgsize) in
  lines_loop LINES_FUEL (fun a => cache16_unroll32 a Index_Writeback_Inv_D) 0x200
    start (clip start (w64 (start + page_size pgsize)) DCACHE_SIZE).
Definition flush_icache_page (page : Z) (pgsize : pgsize_e) : result (list cache_op) :=
  let start := Z.land page (page_mask pgsize) in
  lines_loop LINES_FUEL (fun a => cache16_unroll32 a Index_Invalidate_I) 0x200
    start (clip start (w64 (start + page_size pgsize)) ICACHE_SIZE).

(** [cache_t::init_cpu]: the attribute of kseg0 in the Config register, and the
    instructions *)
Definition CONFIG_CACHE_MASK : Z := 7.
Definition CONFIG_CACHABLE_NONCOHERENT : Z := 3.
Definition init_cpu_config (temp : Z) : Z :=
  Z.lor (Z.land temp (wnot CONFIG_CACHE_MASK)) CONFIG_CACHABLE_NONCOHERENT.
Definition init_cpu : result (list cache_op) := both init_dcache init_icache.

(** ** Loops *)

Lemma lines_loop_run n body step start fin :
  0 <= start -> 0 < step -> fin <= start + step * Z.of_nat n -> start + step * Z.of_nat n < 2 ^ 64 ->
  exists k, (k <= n)%nat /\ fin <= start + step * Z.of_nat k /\ (k = O \/ start + step * (Z.of_nat k - 1) < fin) /\
    lines_loop n body step start fin = Ok (concat (map (fun i => body (start + step * i)) (seqZ 0 (Z.of_nat k)))).
Proof.
  revert start. induction n as [|n IH]; intros start Hs Ht Hf Hw; cbn [lines_loop].
  - change (Z.of_nat 0) with 0 in *. rewrite Z.mul_0_r, Z.add_0_r in *. exists O. replace (start <? fin) with false by lia.
    change (Z.of_nat 0) with 0. rewrite Z.mul_0_r, Z.add_0_r. split_and!; [lia|lia|now left|reflexivity].
  - destruct (Z.ltb_spec start fin) as [Hlt|Hge].
    + rewrite Nat2Z.inj_succ in *.
      destruct (IH (start + step)) as (k & Hk & Hfk & Hlast & E); [nia..|].
      exists (S k). rewrite (wrap_small 64 (start + step)) by nia. rewrite E. split_and!; [lia|nia|right; destruct Hlast; nia|].
      rewrite Nat2Z.inj_succ, (seqZ_cons 0 (Z.succ _)) by lia. cbn [map concat]. rewrite Z.mul_0_r, Z.add_0_r. do 2 f_equal.
      rewrite Z.pred_succ. change (Z.succ 0) with (1 + 0). rewrite <- fmap_add_seqZ, map_map.
      f_equal. apply map_ext. intros i. f_equal. lia.
    + exists O. change (Z.of_nat 0) with 0. rewrite Z.mul_0_r, Z.add_0_r. split_and!; [lia|lia|now left|reflexivity].
Qed.

(** the operation [op] on every line from [start] up to [fin], in some order *)
Definition every_line (op start fin : Z) (l : list cache_op) : Prop :=
  forall x, x ∈ l <-> exists i, 0 <= i /\ start + CACHE_LINE_SIZE * i < fin /\ x = CacheOp op (start + CACHE_LINE_SIZE * i).

Lemma elem_of_concat_seqZ {A} (f : Z -> list A) n x :
  x ∈ concat (map f (seqZ 0 n)) <-> exists i, 0 <= i < n /\ x ∈ f i.
Proof.
  rewrite list_elem_of_In, in_concat. split.
  - intros (l & Hl & Hx). apply in_map_iff in Hl as (i & <- & Hi). exists i.
    rewrite <- list_elem_of_In, elem_of_seqZ in Hi. split; [lia|now rewrite list_elem_of_In].
  - intros (i & Hi & Hx). exists (f i). rewrite list_elem_of_In in Hx. split; [|exact Hx].
    apply in_map. rewrite <- list_elem_of_In, elem_of_seqZ. lia.
Qed.

(** the unrolled loops cover whole blocks of 32 lines *)
Lemma unrolled_lines op start m : 0 <= start -> (m <= 32)%nat -> start + 2 ^ 19 < 2 ^ 64 ->
  exists l, lines_loop LINES_FUEL (fun a => cache16_unroll32 a op) 0x200 start (start + 0x200 * Z.of_nat m) = Ok l /\
    every_line op start (start + 0x200 * Z.of_nat m) l.
Proof.
  intros Hs Hm Hw.
  destruct (lines_loop_run LINES_FUEL (fun a => cache16_unroll32 a op) 0x200 start (start + 0x200 * Z.of_nat m))
    as (k & _ & Hk & Hlast & E); [lia|lia|unfold LINES_FUEL; lia|unfold LINES_FUEL; lia|].
  assert (k = m) as -> by lia. eexists. split; [exact E|].
  intros x. rewrite elem_of_concat_seqZ. unfold CACHE_LINE_SIZE. split.
  - intros (i & Hi & Hx). unfold cache16_unroll32 in Hx. rewrite list_elem_of_In in Hx.
    apply in_map_iff in Hx as (j & <- & Hj). rewrite <- list_elem_of_In, elem_of_seqZ in Hj. unfold CACHE_LINE_SIZE.
    exists (32 * i + j). split_and!; [lia|lia|]. rewrite wrap_small by lia. f_equal. lia.
  - intros (i & Hi & Hlt & ->). exists (i / 32). split; [zlia|].
    unfold cache16_unroll32. rewrite list_elem_of_In. apply in_map_iff. exists (i mod 32). split.
    + unfold CACHE_LINE_SIZE. rewrite wrap_small by zlia. f_equal. zlia.
    + rewrite <- list_elem_of_In, elem_of_seqZ. zlia.
Qed.

(** Flushing everything writes back and invalidates every line of the data cache
    and invalidates every line of the instruction cache, the data cache first. *)
Theorem flush_cache_all_covers :
  exists d i, flush_cache_all = Ok (d ++ i) /\
    every_line Index_Writeback_Inv_D KSEG0 (KSEG0 + DCACHE_SIZE) d /\
    every_line Index_Invalidate_I KSEG0 (KSEG0 + ICACHE_SIZE) i.
Proof.
  destruct (unrolled_lines Index_Writeback_Inv_D KSEG0 32) as (d & Ed & Hd); [done|lia|done|].
  destruct (unrolled_lines Index_Invalidate_I KSEG0 32) as (i & Ei & Hi); [done|lia|done|].
  exists d, i. split; [|split; [exact Hd|exact Hi]].
  unfold flush_cache_all, blast_dcache16, blast_icache16, both.
  change (KSEG0 + DCACHE_SIZE) with (KSEG0 + 0x200 * Z.of_nat 32).
  change (KSEG0 + ICACHE_SIZE) with (KSEG0 + 0x200 * Z.of_nat 32). now rewrite Ed, Ei.
Qed.

(** the number of blocks in a page, as far as it is flushed *)
Definition page_blocks (pgsize : pgsize_e) : nat := Z.to_nat (Z.min (page_size pgsize) DCACHE_SIZE / 0x200).

Lemma page_flush_start page pgsize : 0 <= pgsize <= size_16m -> is_word page -> page mod page_size pgsize = 0 ->
  Z.land page (page_mask pgsize) = 0.
Proof.
  intros Hs Hp Ha. unfold page_mask, page_size in *. rewrite Z.shiftl_1_l in *.
  rewrite Z.sub_1_r, <- Z.ones_equiv, Z.land_ones; [exact Ha|].
  unfold page_shift. assert (Forall (fun x => 0 <= x) Layout.HW_PGSHIFTS) as Hf by (repeat constructor; lia).
  rewrite (Forall_nth _ 0) in Hf. apply (Hf (Z.to_nat pgsize)). unfold size_16m in Hs. simpl. lia.
Qed.

(** a page never takes more than a whole cache *)
Lemma flush_page_total page pgsize : 0 <= pgsize <= size_max ->
  exists d i, flush_cache_page page pgsize = Ok d /\ flush_icache_page page pgsize = Ok i.
Proof.
  intros Hs. assert (0 <= Z.land page (page_mask pgsize) < 2 ^ 32) as Hp.
  { assert (0 <= page_shift pgsize <= 32) as Hk.
    { assert (Forall (fun x => 0 <= x <= 32) (firstn 8 Layout.HW_PGSHIFTS)) as Hf by (repeat constructor; lia).
      rewrite (Forall_nth _ 0) in Hf. unfold size_max, size_4g in Hs. specialize (Hf (Z.to_nat pgsize) ltac:(simpl; lia)).
      unfold page_shift. rewrite <- (firstn_skipn 8 Layout.HW_PGSHIFTS), app_nth1 by (simpl; lia). exact Hf. }
    unfold page_mask. rewrite Z.shiftl_1_l, Z.sub_1_r, <- Z.ones_equiv, Z.land_ones by lia.
    pose proof (Z.mod_pos_bound page (2 ^ page_shift pgsize)).
    assert (2 ^ page_shift pgsize <= 2 ^ 32) by (apply Z.pow_le_mono_r; lia). lia. }
  assert (forall body fin, exists l, lines_loop LINES_FUEL body 0x200 (Z.land page (page_mask pgsize))
      (clip (Z.land page (page_mask pgsize)) fin DCACHE_SIZE) = Ok l) as H.
  { intros body fin. destruct (lines_loop_run LINES_FUEL body 0x200 (Z.land page (page_mask pgsize))
      (clip (Z.land page (page_mask pgsize)) fin DCACHE_SIZE)) as (k & _ & _ & _ & E); [lia|lia| |unfold LINES_FUEL; lia|eauto].
    unfold clip, DCACHE_SIZE, LINES_FUEL. rewrite wrap_small by lia. destruct (Z.gtb_spec fin (Z.land page (page_mask pgsize) + 16 * 1024)); lia. }
  destruct (H (fun a => cache16_unroll32 a Index_Writeback_Inv_D) (w64 (Z.land page (page_mask pgsize) + page_size pgsize))) as [d Ed].
  destruct (H (fun a => cache16_unroll32 a Index_Invalidate_I) (w64 (Z.land page (page_mask pgsize) + page_size pgsize))) as [i Ei].
  exists d, i. split; [exact Ed|exact Ei].
Qed.

(** Flushing a page flushes the lowest lines of the address space instead.  For
    every page, aligned to its size of 4 KB to 16 MB, the cache instructions of
    [flush_cache_page] and [flush_icache_page] go over the addresses from 0 up to the size of the page,
    at most the size of the cache: [page & page_mask] is the offset in the page, not
    the page.  The lines of a page that starts beyond are not flushed. *)
Theorem flush_page_misses_page page pgsize :
  0 <= pgsize <= size_16m -> is_word page -> page mod page_size pgsize = 0 ->
  let len := Z.min (page_size pgsize) DCACHE_SIZE in
  exists d i, flush_cache_page page pgsize = Ok d /\ flush_icache_page page pgsize = Ok i /\
    every_line Index_Writeback_Inv_D 0 len d /\ every_line Index_Invalidate_I 0 len i /\
    (len <= page -> forall x, x ∈ d \/ x ∈ i -> cop_addr x < page).
Proof.
  intros Hs Hp Ha len. pose proof (page_flush_start page pgsize Hs Hp Ha) as H0.
  assert (clip 0 (w64 (0 + page_size pgsize)) DCACHE_SIZE = 0 + 0x200 * Z.of_nat (page_blocks pgsize) /\
          len = 0x200 * Z.of_nat (page_blocks pgsize) /\ (page_blocks pgsize <= 32)%nat) as (Hc & Hlen & Hb).
  { unfold len. assert (pgsize = 0 \/ pgsize = 1 \/ pgsize = 2 \/ pgsize = 3 \/ pgsize = 4 \/ pgsize = 5 \/ pgsize = 6) as H
      by (unfold size_16m in Hs; lia).
    repeat destruct H as [->|H]; [split_and!; [reflexivity..|apply Nat.leb_le; reflexivity]..|].
    subst. split_and!; [reflexivity..|apply Nat.leb_le; reflexivity]. }
  destruct (unrolled_lines Index_Writeback_Inv_D 0 (page_blocks pgsize)) as (d & Ed & Hd); [lia|exact Hb|lia|].
  destruct (unrolled_lines Index_Invalidate_I 0 (page_blocks pgsize)) as (i & Ei & Hi); [lia|exact Hb|lia|].
  exists d, i. unfold flush_cache_page, flush_icache_page. rewrite H0. change ICACHE_SIZE with DCACHE_SIZE. rewrite Hc.
  rewrite Z.add_0_l in Hd, Hi. rewrite <- Hlen in Hd, Hi. split_and!; [exact Ed|exact Ei|exact Hd|exact Hi|].
  intros Hle x [Hx|Hx]; [apply Hd in Hx|apply Hi in Hx]; destruct Hx as (j & Hj & Hlt & ->); simpl; lia.
Qed.

Lemma flush_page_misses_page_witness :
  exists d, flush_cache_page 0x5000 size_4k = Ok d /\ forall x, x ∈ d -> cop_addr x < 0x5000.
Proof.
  destruct (flush_page_misses_page 0x5000 size_4k) as (d & i & Ed & _ & _ & _ & H);
    [vm_compute; split; discriminate|split; [discriminate|reflexivity]|reflexivity|].
  exists d. split; [exact Ed|]. intros x Hx. apply H; [vm_compute; discriminate|now left].
Defined.
