(* ===== verification/Ptab.v ===== *)
(** * Page tables of a space

    The page table part of [glue/v4-mips64/space.cc], and looking up mappings
    and reading memory in [generic/linear_ptab_walker.cc].  A space is the
    address of its page directory in the allocator's memory.  The insertion of
    a translation into the TLB is assembly and leaves memory alone. *)

From Stdlib Require Import ZArith Lia Bool List.
From stdpp Require Import base numbers list option gmap.
From S2P Require Import Prelude Types Monad Kmem Pgent.
Import Pgent.
Open Scope Z_scope.

(** ** Operations *)

Definition bind_result {A B} (m : result A) (f : A -> result B) : result B :=
  match m with Ok a => f a | Hang => Hang | Crash => Crash end.

(** [space_t::pgent] *)
Definition pgent (sp num : Z) : Z := next size_max num sp.
Definition pagedir_idx (addr : Z) : Z := page_table_index size_max addr.

(** the entry of the next smaller size for [vaddr] *)
Definition descend (pgsize vaddr pg raw : Z) : Z :=
  next (pgsize - 1) (page_table_index (pgsize - 1) vaddr) (subtree pgsize pg raw).

(** [space_t::lookup_mapping]: the entry and its page size *)
Fixpoint lookup_loop (n : nat) (vaddr pg : Z) (k : kmem_t) : option (Z * Z) :=
  let pgsize := Z.of_nat n in
  let raw := raw_at k pg in
  if is_valid pgsize raw then
    if is_subtree pgsize raw then
      match n with
      | O => None
      | S n => lookup_loop n vaddr (descend pgsize vaddr pg raw) k
      end
    else Some (pg, pgsize)
  else None.

Definition lookup_mapping (sp vaddr : Z) (k : kmem_t) : option (Z * Z) :=
  lookup_loop (Z.to_nat size_max) vaddr (pgent sp (page_table_index size_max vaddr)) k.

(** the loop of [add_mapping] down [n] sizes; a mapping in the way ends in
    [enter_kdebug] *)
Fixpoint add_loop (fuel n : nat) (pgsize vaddr pg : Z) (kernel : bool) (k : kmem_t)
    : result (Z * kmem_t) :=
  match n with
  | O => Ok (pg, k)
  | S n =>
      bind_result
        (if is_valid pgsize (raw_at k pg) then
           if negb (is_subtree pgsize (raw_at k pg)) then Hang else Ok k
         else make_subtree fuel pg pgsize kernel k)
        (fun k => add_loop fuel n (pgsize - 1) vaddr (descend pgsize vaddr pg (raw_at k pg)) kernel k)
  end.

Definition add_mapping (fuel : nat) (sp vaddr paddr size : Z) (writable kernel : bool) (k : kmem_t)
    : result kmem_t :=
  if negb (is_page_size_valid size) then Hang else
  bind_result
    (add_loop fuel (Z.to_nat (size_max - size)) size_max vaddr (pgent sp (pagedir_idx vaddr)) kernel k)
    (fun '(pg, k) =>
      let pgsize := Z.min size size_max in
      let raw := set_entry pgsize paddr true writable true kernel in
      Ok (set_raw pg (Translation.set Translation.l4default true writable kernel paddr raw) k)).

(** *** Reading memory of a space *)

Definition readmem_phys (paddr : Z) (k : kmem_t) : Z := load (mem k) (phys_to_virt paddr).

(** the physical address of [vaddr] in the mapping found *)
Definition paddr_of (k : kmem_t) (vaddr : Z) (e : Z * Z) : Z :=
  let '(pg, pgsize) := e in
  addr_offset (address pgsize (raw_at k pg)) (Z.land vaddr (page_mask pgsize)).

Definition readmem (sp vaddr : Z) (k : kmem_t) : option Z :=
  match lookup_mapping sp vaddr k with
  | None => None
  | Some (pg, pgsize) =>
      let paddr := paddr_of k vaddr (pg, pgsize) in
      let paddr1 := addr_mask paddr (wnot (8 - 1)) in
      if paddr1 =? paddr then Some (readmem_phys paddr k) else
      let paddr2 := addr_offset paddr1 8 in
      let mask := wnot (page_mask pgsize) in
      let idx := Z.land vaddr (8 - 1) in
      let combine paddr2 :=
        Z.lor (shl64 (readmem_phys paddr1 k) (idx * 8)) (shr64 (readmem_phys paddr2 k) ((8 - idx) * 8)) in
      if negb (addr_mask paddr1 mask =? addr_mask paddr2 mask) then
        match lookup_mapping sp (addr_offset vaddr 8) k with
        | None => None
        | Some e => Some (combine (addr_mask (paddr_of k (addr_offset vaddr 8) e) (wnot (8 - 1))))
        end
      else Some (combine paddr2)
  end.

(** the template [readmem] of [linear_ptab.h] on user memory, for a type of
    [size] bytes (big endian) *)
Definition readmem_T (sp vaddr size : Z) (k : kmem_t) : option Z :=
  match readmem sp vaddr k with
  | None => None
  | Some w => Some (wrap (8 * size) (shr64 w (8 - size)))
  end.

(** *** Mappings the kernel makes *)

(** bit 40 tells the TCB area's entries of the directory from the user's *)
Definition ktcb_idx : Z :=
  page_table_index size_max (Z.lor Layout.KTCB_AREA_START (Z.shiftl 1 (page_shift (size_max + 1) - 1))).
Definition init_kernel_mappings (fuel : nat) (sp : Z) (k : kmem_t) : result kmem_t :=
  make_subtree fuel (pgent sp ktcb_idx) size_max true k.

(** the page table part of [space_t::init]; [kip] is the address of the kernel
    interface page *)
Definition init_mappings (fuel : nat) (sp kernel_space kip kip_base : Z) (k : kmem_t) : result kmem_t :=
  let k := set_raw (pgent sp ktcb_idx) (raw_at k (pgent kernel_space ktcb_idx)) k in
  add_mapping fuel sp kip_base (virt_to_phys kip) size_4k false false k.

Definition map_sigma0 (fuel : nat) (sp addr : Z) (k : kmem_t) : result kmem_t :=
  add_mapping fuel sp addr addr size_4k true false k.
Definition sync_kernel_space (addr : Z) : bool := false.
Definition map_dummy_tcb (fuel : nat) (sp addr dummy_tcb : Z) (k : kmem_t) : result kmem_t :=
  add_mapping fuel sp addr (virt_to_phys dummy_tcb) size_4k false true k.
Definition allocate_tcb (fuel : nat) (kernel_space addr : Z) (k : kmem_t) : result kmem_t :=
  bind_result (alloc fuel 4096 k) (fun '(page, k) =>
    add_mapping fuel kernel_space addr (virt_to_phys page) size_4k true true k).

(** two ways of 16 KB in 4 KB pages *)
Definition MIPS64_ALIGN : Z := Z.shiftl (16 * 1024 / 4096 / 2 - 1) 12.
Definition allocate_utcb (fuel : nat) (sp utcb : Z) (k : kmem_t) : result (Z * kmem_t) :=
  match lookup_mapping sp utcb k with
  | Some (pg, pgsize) =>
      let kaddr := addr_mask (address pgsize (raw_at k pg)) (wnot (page_mask pgsize)) in
      Ok (phys_to_virt (addr_offset kaddr (Z.land utcb (page_mask pgsize))), k)
  | None =>
      bind_result (alloc_aligned fuel (page_size size_4k) utcb MIPS64_ALIGN k) (fun '(page, k) =>
        bind_result (add_mapping fuel sp utcb (virt_to_phys page) size_4k true false k) (fun k =>
          Ok (addr_offset page (addr_mask utcb (page_size size_4k - 1)), k)))
  end.
Definition utcb_to_kernel_space (sp utcb : Z) (k : kmem_t) : Z :=
  match lookup_mapping sp utcb k with
  | Some (pg, _) => phys_to_virt (Translation.phys_addr (raw_at k pg))
  | None => NULL
  end.
(** [space_t::release_kernel_mapping]; [in_utcb_area] is the area's test *)
Definition release_kernel_mapping (fuel : nat) (in_utcb_area : Z -> bool) (vaddr paddr log2size : Z)
    (k : kmem_t) : result kmem_t :=
  if in_utcb_area vaddr then free fuel (phys_to_virt paddr) (Z.shiftl 1 log2size) k else Ok k.
