(* ===== verification/Mapnode.v ===== *)
(** * Nodes of the mapping database

    [mapping.h]: mapping nodes and root nodes, which pack pointers, tags and
    attributes into words.  A pointer loses the low bits its field has no room
    for; the tags say what the pointer points to. *)

From Stdlib Require Import ZArith Lia Bool List.
From stdpp Require Import base numbers list gmap.
From S2P Require Import Prelude Types.
Open Scope Z_scope.

(** [dualnode_t], and the memory that holds these nodes *)
Record dualnode_t := Dual { dual_map : Z; dual_root : Z }.
Abbreviation dualmem := (Z -> dualnode_t).
Definition dual_at (m : dualmem) (p : Z) : dualnode_t := m p.
Definition no_duals : dualmem := fun _ => Dual NULL NULL.

Definition MDB_SPACE_BITS : Z := BITS_WORD - 11.
Definition PREV_BITS : Z := BITS_WORD - 1.
Definition NEXT_BITS : Z := BITS_WORD - 2.
Definition DEPTH_BITS : Z := BITS_WORD - MDB_SPACE_BITS - 3.

(** the pointer a next field holds, and what a pointer leaves in it *)
Definition next_addr (ptr : Z) : Z := w64 (Z.shiftl ptr 2).
Definition next_field (p : Z) : Z := wrap NEXT_BITS (Z.shiftr p 2).

(** ** [rootnode_t] *)
Module Rootnode.

Record rootnode_t := Root { is_next_root_bit : bool; is_next_map_bit : bool; next_ptr : Z }.

Definition get_map (m : dualmem) (r : rootnode_t) : Z :=
  if negb (is_next_map_bit r) then NULL
  else if is_next_root_bit r then dual_map (dual_at m (next_addr (next_ptr r)))
  else next_addr (next_ptr r).
Definition get_root (m : dualmem) (r : rootnode_t) : Z :=
  if negb (is_next_root_bit r) then NULL
  else if is_next_map_bit r then dual_root (dual_at m (next_addr (next_ptr r)))
  else next_addr (next_ptr r).
Definition get_dual (r : rootnode_t) : Z :=
  if is_next_root_bit r && is_next_map_bit r then next_addr (next_ptr r) else NULL.

Definition set_ptr_map (p : Z) : rootnode_t := Root false true (next_field p).
Definition set_ptr_root (p : Z) : rootnode_t := Root true false (next_field p).
Definition set_ptr_dual (p : Z) : rootnode_t := Root true true (next_field p).

Definition is_next_root (r : rootnode_t) : bool := is_next_root_bit r && negb (is_next_map_bit r).
Definition is_next_map (r : rootnode_t) : bool := is_next_map_bit r && negb (is_next_root_bit r).
Definition is_next_both (r : rootnode_t) : bool := is_next_root_bit r && is_next_map_bit r.

(** *** The word: the first member takes the high-order bits *)

Definition layout : list bitfield := alloc_msb BITS_WORD [1; 1; NEXT_BITS].
Definition f_is_next_root := nth 0 layout (BF 0 0).
Definition f_is_next_map := nth 1 layout (BF 0 0).
Definition f_next_ptr := nth 2 layout (BF 0 0).

Definition of_raw (raw : Z) : rootnode_t :=
  Root (bf_flag f_is_next_root raw) (bf_flag f_is_next_map raw) (bf_get f_next_ptr raw).
Definition to_raw (r : rootnode_t) : Z :=
  bf_set f_is_next_root (Z.b2z (is_next_root_bit r))
    (bf_set f_is_next_map (Z.b2z (is_next_map_bit r)) (bf_set f_next_ptr (next_ptr r) 0)).

End Rootnode.

(** ** [mapnode_t] *)
Module Mapnode.

Record mapnode_t := Node {
  x_is_prev_root : bool;
  x_prev_ptr : Z;
  x_tree_depth : Z;
  x_rwx : Z;
  x_space : Z;
  x_is_next_root : bool;
  x_is_next_map : bool;
  x_next_ptr : Z;
}.

(** *** Previous pointer and backing pointer: one field holds the exclusive or
    of the two *)

Definition prev_addr (n : mapnode_t) (other : Z) : Z :=
  Z.lxor (w64 (Z.shiftl (x_prev_ptr n) 1)) other.

(** overloaded for map and root nodes *)
Definition get_pgent (prev : Z) (n : mapnode_t) : Z := prev_addr n prev.
Definition get_prevmap (pg : Z) (n : mapnode_t) : Z :=
  if x_is_prev_root n then NULL else prev_addr n pg.
Definition get_prevroot (pg : Z) (n : mapnode_t) : Z :=
  if negb (x_is_prev_root n) then NULL else prev_addr n pg.
Definition set_backlink (root : bool) (prev pg : Z) (n : mapnode_t) : mapnode_t :=
  Node root (wrap PREV_BITS (Z.shiftr (Z.lxor prev pg) 1)) (x_tree_depth n) (x_rwx n) (x_space n)
       (x_is_next_root n) (x_is_next_map n) (x_next_ptr n).
Definition is_prev_root (n : mapnode_t) : bool := x_is_prev_root n.

(** *** Next pointer *)

Definition get_nextmap (m : dualmem) (n : mapnode_t) : Z :=
  if negb (x_is_next_map n) then NULL
  else if x_is_next_root n then dual_map (dual_at m (next_addr (x_next_ptr n)))
  else next_addr (x_next_ptr n).
Definition get_nextroot (m : dualmem) (n : mapnode_t) : Z :=
  if negb (x_is_next_root n) then NULL
  else if x_is_next_map n then dual_root (dual_at m (next_addr (x_next_ptr n)))
  else next_addr (x_next_ptr n).
Definition get_nextdual (n : mapnode_t) : Z :=
  if x_is_next_root n && x_is_next_map n then next_addr (x_next_ptr n) else NULL.

Definition set_next (root map : bool) (p : Z) (n : mapnode_t) : mapnode_t :=
  Node (x_is_prev_root n) (x_prev_ptr n) (x_tree_depth n) (x_rwx n) (x_space n)
       root map (next_field p).
Definition set_next_map (p : Z) (n : mapnode_t) : mapnode_t := set_next false true p n.
Definition set_next_root (p : Z) (n : mapnode_t) : mapnode_t := set_next true false p n.
Definition set_next_dual (p : Z) (n : mapnode_t) : mapnode_t := set_next true true p n.

Definition is_next_root (n : mapnode_t) : bool := x_is_next_root n && negb (x_is_next_map n).
Definition is_next_map (n : mapnode_t) : bool := x_is_next_map n && negb (x_is_next_root n).
Definition is_next_both (n : mapnode_t) : bool := x_is_next_root n && x_is_next_map n.

(** *** Address space, reference bits, depth *)

Definition with_attrs (depth rwx space : Z) (n : mapnode_t) : mapnode_t :=
  Node (x_is_prev_root n) (x_prev_ptr n) depth rwx space
       (x_is_next_root n) (x_is_next_map n) (x_next_ptr n).

Definition get_space (n : mapnode_t) : Z := w64 (Z.shiftl (x_space n) (BITS_WORD - MDB_SPACE_BITS)).
Definition set_space (space : Z) (n : mapnode_t) : mapnode_t :=
  with_attrs (x_tree_depth n) (x_rwx n)
    (wrap MDB_SPACE_BITS (Z.shiftr space (BITS_WORD - MDB_SPACE_BITS))) n.

Definition get_rwx (n : mapnode_t) : Z := x_rwx n.
Definition set_rwx (rwx : Z) (n : mapnode_t) : mapnode_t :=
  with_attrs (x_tree_depth n) (wrap 3 rwx) (x_space n) n.
Definition update_rwx (rwx : Z) (n : mapnode_t) : mapnode_t :=
  with_attrs (x_tree_depth n) (wrap 3 (Z.lor (x_rwx n) rwx)) (x_space n) n.

Definition get_depth (n : mapnode_t) : Z := x_tree_depth n.
Definition set_depth (depth : Z) (n : mapnode_t) : mapnode_t :=
  with_attrs (wrap DEPTH_BITS depth) (x_rwx n) (x_space n) n.

(** *** The three words [raw]: first members take high-order bits *)

Definition layout0 : list bitfield := alloc_msb BITS_WORD [1; PREV_BITS].
Definition f_is_prev_root := nth 0 layout0 (BF 0 0).
Definition f_prev_ptr := nth 1 layout0 (BF 0 0).
Definition layout1 : list bitfield := alloc_msb BITS_WORD [DEPTH_BITS; 3; MDB_SPACE_BITS].
Definition f_tree_depth := nth 0 layout1 (BF 0 0).
Definition f_rwx := nth 1 layout1 (BF 0 0).
Definition f_space := nth 2 layout1 (BF 0 0).

Definition of_raw (raw0 raw1 raw2 : Z) : mapnode_t :=
  let r := Rootnode.of_raw raw2 in
  Node (bf_flag f_is_prev_root raw0) (bf_get f_prev_ptr raw0)
       (bf_get f_tree_depth raw1) (bf_get f_rwx raw1) (bf_get f_space raw1)
       (Rootnode.is_next_root_bit r) (Rootnode.is_next_map_bit r) (Rootnode.next_ptr r).
Definition raw0 (n : mapnode_t) : Z :=
  bf_set f_is_prev_root (Z.b2z (x_is_prev_root n)) (bf_set f_prev_ptr (x_prev_ptr n) 0).
Definition raw1 (n : mapnode_t) : Z :=
  bf_set f_tree_depth (x_tree_depth n) (bf_set f_rwx (x_rwx n) (bf_set f_space (x_space n) 0)).
Definition raw2 (n : mapnode_t) : Z :=
  Rootnode.to_raw (Rootnode.Root (x_is_next_root n) (x_is_next_map n) (x_next_ptr n)).

(** the members are within their fields *)
Definition in_fields (n : mapnode_t) : Prop :=
  0 <= x_prev_ptr n < 2 ^ PREV_BITS /\ 0 <= x_tree_depth n < 2 ^ DEPTH_BITS /\
  0 <= x_rwx n < 2 ^ 3 /\ 0 <= x_space n < 2 ^ MDB_SPACE_BITS /\ 0 <= x_next_ptr n < 2 ^ NEXT_BITS.

(** ** Packed pointers *)

Lemma next_roundtrip p : is_word p -> p mod 4 = 0 -> next_addr (next_field p) = p.
Proof.
  intros Hp Ha. unfold next_addr, next_field, NEXT_BITS, BITS_WORD.
  rewrite Z.shiftl_mul_pow2, Z.shiftr_div_pow2 by lia. unfold wrap. zlia.
Qed.

Lemma xor_even a b : a mod 2 = b mod 2 -> Z.testbit (Z.lxor a b) 0 = false.
Proof.
  intros H. rewrite Z.lxor_spec, !Z.bit0_odd, !Zodd_mod. rewrite H. apply xorb_nilpotent.
Qed.

Lemma prev_roundtrip a b : is_word a -> is_word b -> a mod 2 = b mod 2 ->
  w64 (Z.shiftl (wrap PREV_BITS (Z.shiftr (Z.lxor a b) 1)) 1) = Z.lxor a b.
Proof.
  intros Ha Hb Hab. apply Z.bits_inj'. intros i Hi. unfold PREV_BITS, BITS_WORD.
  rewrite wrap_testbit, Z.shiftl_spec by lia.
  destruct (Z.eq_dec i 0) as [->|Hne].
  { rewrite xor_even by done. rewrite Z.testbit_neg_r by lia. apply andb_false_r. }
  rewrite wrap_testbit, Z.shiftr_spec by lia. replace (i - 1 + 1) with i by lia.
  destruct (Z.ltb_spec i 64).
  - replace (i - 1 <? 64 - 1) with true by lia. done.
  - rewrite Z.lxor_spec, !(testbit_above 64) by (unfold is_word in *; lia). done.
Qed.

(** ** The words of a node *)

Lemma rootnode_raw_roundtrip r :
  0 <= Rootnode.next_ptr r < 2 ^ NEXT_BITS -> Rootnode.of_raw (Rootnode.to_raw r) = r.
Proof.
  intros Hn. unfold Rootnode.of_raw, Rootnode.to_raw, bf_flag. bf_simpl.
  destruct r as [[] [] p]; simpl in *; f_equal; apply Z.mod_small; exact Hn.
Qed.

Lemma mapnode_raw_roundtrip n : in_fields n -> of_raw (raw0 n) (raw1 n) (raw2 n) = n.
Proof.
  intros (H1 & H2 & H3 & H4 & H5). unfold of_raw, raw2. rewrite rootnode_raw_roundtrip by done.
  unfold raw0, raw1, bf_flag. bf_simpl.
  destruct n as [[] ? ? ? ? ? ? ?]; simpl in *; f_equal; apply Z.mod_small; assumption.
Qed.

(** C39 A node's links survive the packing.  The backing entry is found from the
    predecessor and the predecessor from the backing entry, as long as both
    addresses have the same low bit; a next pointer to a mapping, to a root
    array or to both is read back as such and as nothing else, if it is a
    multiple of four; and neither link disturbs the other. *)
Theorem mapnode_links n prev pg p root map (m : dualmem) :
  is_word prev -> is_word pg -> prev mod 2 = pg mod 2 -> is_word p -> p mod 4 = 0 ->
  let n' := set_next root map p (set_backlink (is_prev_root n) prev pg n) in
  get_pgent prev n' = pg /\
  get_prevmap pg n' = (if is_prev_root n then NULL else prev) /\
  get_prevroot pg n' = (if is_prev_root n then prev else NULL) /\
  get_nextdual n' = (if root && map then p else NULL) /\
  get_nextmap m n' = (if map then if root then dual_map (dual_at m p) else p else NULL) /\
  get_nextroot m n' = (if root then if map then dual_root (dual_at m p) else p else NULL) /\
  get_space n' = get_space n /\ get_rwx n' = get_rwx n /\ get_depth n' = get_depth n.
Proof.
  intros Hv Hg Hvg Hp Ha n'.
  assert (Hpg : forall a b, Z.lxor (Z.lxor a b) a = b).
  { intros a b. now rewrite (Z.lxor_comm a b), Z.lxor_assoc, Z.lxor_nilpotent, Z.lxor_0_r. }
  assert (Hpv : forall a b, Z.lxor (Z.lxor a b) b = a).
  { intros a b. now rewrite Z.lxor_assoc, Z.lxor_nilpotent, Z.lxor_0_r. }
  unfold get_pgent, get_prevmap, get_prevroot, get_nextdual, get_nextmap, get_nextroot, prev_addr, n'.
  simpl. rewrite prev_roundtrip, next_roundtrip, Hpg, Hpv by done. unfold is_prev_root.
  split_and!; try done; try (now destruct (x_is_prev_root n)); now destruct root, map.
Qed.

Lemma mapnode_links_witness :
  let n' := set_next true false 4096 (set_backlink false 1024 2048 (Node false 0 0 0 0 false false 0)) in
  get_pgent 1024 n' = 2048 /\ get_prevmap 2048 n' = 1024.
Proof.
  destruct (mapnode_links (Node false 0 0 0 0 false false 0) 1024 2048 4096 true false no_duals) as (H1 & H2 & _);
    try (unfold is_word; lia); try reflexivity. split; [exact H1|exact H2].
Defined.

(** The attributes of a node: the space is read back if it is aligned to 2 KB,
    the depth up to 255, three reference bits, which accumulate; setting one
    attribute changes no other and no link. *)
Theorem mapnode_attributes n space depth rwx :
  is_word space -> space mod 2 ^ 11 = 0 ->
  let n' := set_rwx rwx (set_depth depth (set_space space n)) in
  get_space n' = space /\ get_depth n' = depth mod 256 /\ get_rwx n' = rwx mod 8 /\
  (forall r, get_rwx (update_rwx r n') = Z.lor (get_rwx n') (r mod 8)) /\
  (forall r, get_space (update_rwx r n') = space /\ get_depth (update_rwx r n') = depth mod 256) /\
  (forall other, get_pgent other n' = get_pgent other n) /\
  (forall m, get_nextmap m n' = get_nextmap m n /\ get_nextroot m n' = get_nextroot m n).
Proof.
  intros Hs Ha n'.
  assert (Hsp : get_space n' = space).
  { unfold get_space, n', set_rwx, set_depth, set_space, MDB_SPACE_BITS, BITS_WORD. simpl.
    rewrite Z.shiftl_mul_pow2, Z.shiftr_div_pow2 by lia. unfold wrap. zlia. }
  split_and!; try done.
  - intros r. unfold get_rwx, n'. simpl. apply Z.bits_inj'. intros i Hi.
    change (r mod 8) with (wrap 3 r). rewrite wrap_testbit, !Z.lor_spec, !wrap_testbit by lia.
    now destruct (i <? 3).
Qed.

Lemma mapnode_attributes_witness :
  get_space (set_rwx 5 (set_depth 3 (set_space 4096 (Node false 0 0 0 0 false false 0)))) = 4096.
Proof.
  apply (mapnode_attributes (Node false 0 0 0 0 false false 0) 4096 3 5); [unfold is_word; lia|reflexivity].
Defined.

End Mapnode.

(** A root node's pointer is read back as what it was set to: a mapping, a
    root array or a node with both. *)
Theorem rootnode_links (m : dualmem) p :
  is_word p -> p mod 4 = 0 -> 
  (Rootnode.get_map m (Rootnode.set_ptr_map p) = p /\ Rootnode.get_root m (Rootnode.set_ptr_map p) = NULL) /\
  (Rootnode.get_root m (Rootnode.set_ptr_root p) = p /\ Rootnode.get_map m (Rootnode.set_ptr_root p) = NULL) /\
  Rootnode.get_dual (Rootnode.set_ptr_dual p) = p /\
  Rootnode.get_map m (Rootnode.set_ptr_dual p) = dual_map (dual_at m p) /\
  Rootnode.get_root m (Rootnode.set_ptr_dual p) = dual_root (dual_at m p).
Proof.
  intros Hp Ha. unfold Rootnode.get_map, Rootnode.get_root, Rootnode.get_dual. simpl.
  now rewrite Mapnode.next_roundtrip.
Qed.

Lemma rootnode_links_witness :
  is_word 4096 /\ Rootnode.get_map no_duals (Rootnode.set_ptr_map 4096) = 4096.
Proof.
  split; [unfold is_word; lia|].
  apply (rootnode_links no_duals 4096); [unfold is_word; lia|reflexivity].
Defined.
