(* ===== verification/MdbAlloc.v ===== *)
(** * Memory of the mapping database

    [generic/mapping_alloc.cc]: buffers of a few sizes are cut out of 4 KB
    pages; the start of a page manages its free buffers, and the pages of one
    size that have free buffers are linked.  Free buffers and management
    structures live in the memory of the kernel allocator, word by word.  A
    pointer into the array [mdb_buflists] is the index of the element. *)

From Stdlib Require Import ZArith Lia Bool List.
From stdpp Require Import base numbers list option gmap.
From S2P Require Import Prelude Types Monad Kmem Pgent.
Open Scope Z_scope.

Definition MDB_ALLOC_CHUNKSZ : Z := 4096.
Definition MDB_NUM_PGSIZES : Z := 8.
Definition mdb_pgshifts : list Z := Layout.HW_PGSHIFTS.

Record mdb_buflist_t := BufList { size : Z; list_of_lists : Z; max_free : Z }.
Definition bl_with_size (v : Z) (b : mdb_buflist_t) : mdb_buflist_t :=
  BufList v (list_of_lists b) (max_free b).
Definition bl_with_list_of_lists (v : Z) (b : mdb_buflist_t) : mdb_buflist_t :=
  BufList (size b) v (max_free b).
Definition bl_with_max_free (v : Z) (b : mdb_buflist_t) : mdb_buflist_t :=
  BufList (size b) (list_of_lists b) v.

(** [space_t::flush_tlbent]: a translation purged from the translation cache *)
Record tlb_flush := TlbFlush { tf_space : Z; tf_vaddr : Z; tf_log2size : Z }.

(** the kernel's memory, the array, and the translations purged so far *)
Record mdb_t := Mdb { md_kmem : kmem_t; md_buflists : list mdb_buflist_t; md_flushes : list tlb_flush }.
Definition md_with_kmem (k : kmem_t) (s : mdb_t) : mdb_t := Mdb k (md_buflists s) (md_flushes s).
Definition md_with_buflists (l : list mdb_buflist_t) (s : mdb_t) : mdb_t :=
  Mdb (md_kmem s) l (md_flushes s).
Definition md_with_flushes (l : list tlb_flush) (s : mdb_t) : mdb_t :=
  Mdb (md_kmem s) (md_buflists s) l.

(** the state before initialisation: the array is zero *)
Definition mdb_boot (k : kmem_t) : mdb_t :=
  Mdb k (repeat (BufList 0 0 0) (Z.to_nat (MDB_NUM_PGSIZES + 3))) [].

Abbreviation MD := (M mdb_t).

(** *** Access to memory: [p->field], [off] bytes into the object *)

Definition rd (p off : Z) : MD Z :=
  if p =? NULL then crash else gets (fun s => load (mem (md_kmem s)) (w64 (p + off))).
Definition wr (p off v : Z) : MD unit :=
  if p =? NULL then crash
  else modify (fun s => md_with_kmem (Pgent.with_mem (store (w64 (p + off)) v) (md_kmem s)) s).

(** a call of the kernel's allocator *)
Definition on_kmem {A} (f : kmem_t -> result (A * kmem_t)) : MD A := fun s =>
  match f (md_kmem s) with
  | Ok (a, k) => Ok (a, md_with_kmem k s)
  | Hang => Hang
  | Crash => Crash
  end.

(** offsets in [mdb_link_t] and [mdb_mng_t] *)
Definition link_next : Z := 0.
Definition mng_freelist : Z := 0.
Definition mng_num_free : Z := 8.
Definition mng_next_freelist : Z := 16.
Definition mng_prev_freelist : Z := 24.
Definition mng_bl : Z := 32.
Definition sizeof_mdb_mng_t : Z := 40.
Definition sizeof_mapnode_t : Z := 24.
Definition sizeof_dualnode_t : Z := 16.
Definition sizeof_rootnode_t : Z := 8.

(** ** Initialisation *)

(** running off the array is a write past its end *)
Fixpoint mdb_add_size (sz : Z) (bls : list mdb_buflist_t) : option (list mdb_buflist_t) :=
  match bls with
  | [] => None
  | bl :: rest =>
      if size bl =? 0 then
        match rest with
        | [] => None
        | bl' :: rest => Some (bl_with_size sz bl :: bl_with_size 0 bl' :: rest)
        end
      else if size bl =? sz then Some bls
      else option_map (cons bl) (mdb_add_size sz rest)
  end.

(** the bytes of a root array for page size [i] *)
Definition root_array_size (i : nat) : Z :=
  Z.shiftl 1 (nth (S i) mdb_pgshifts 0 - nth i mdb_pgshifts 0) * sizeof_rootnode_t.

Definition add_sizes (szs : list Z) (bls : list mdb_buflist_t) : option (list mdb_buflist_t) :=
  foldl (fun acc sz => match acc with Some l => mdb_add_size sz l | None => None end) (Some bls) szs.

(** [for (max_free = 0, i = ...; i >= sizeof (mdb_mng_t); i -= size, max_free++)] *)
Fixpoint count_free (fuel : nat) (i sz n : Z) : Z :=
  match fuel with
  | O => n
  | S fuel => if i >=? sizeof_mdb_mng_t then count_free fuel (w64 (i - sz)) sz (n + 1) else n
  end.

(** the loop over the entries up to the one of size zero *)
Fixpoint init_fields (bls : list mdb_buflist_t) : list mdb_buflist_t :=
  match bls with
  | [] => []
  | bl :: rest =>
      if size bl =? 0 then bls else
      let bl := bl_with_list_of_lists NULL bl in
      (if size bl >=? MDB_ALLOC_CHUNKSZ then bl
       else bl_with_max_free (count_free (Z.to_nat MDB_ALLOC_CHUNKSZ)
                                (w64 (MDB_ALLOC_CHUNKSZ - size bl)) (size bl) 0) bl)
      :: init_fields rest
  end.

Definition mdb_buflist_init : MD unit := fun s =>
  match md_buflists s with
  | [] => Crash
  | bl :: rest =>
      match add_sizes (sizeof_mapnode_t :: sizeof_dualnode_t
                       :: map root_array_size (seq 0 (Z.to_nat MDB_NUM_PGSIZES)))
                      (bl_with_size 0 bl :: rest) with
      | Some l => Ok (tt, md_with_buflists (init_fields l) s)
      | None => Crash
      end
  end.

(** ** Allocation *)

(** the loop that finds the buffer list; an entry of size zero ends in [panic] *)
Fixpoint find_buflist (i : nat) (sz : Z) (bls : list mdb_buflist_t) : option nat :=
  match bls with
  | [] => None
  | bl :: rest =>
      if size bl =? sz then Some i
      else if size bl =? 0 then None else find_buflist (S i) sz rest
  end.

Definition buflist_at (i : nat) : MD mdb_buflist_t :=
  gets (fun s => nth i (md_buflists s) (BufList 0 0 0)).
Definition set_list_of_lists (i : nat) (v : Z) : MD unit :=
  modify (fun s => md_with_buflists (alter (bl_with_list_of_lists v) i (md_buflists s)) s).

(** the loop that links the buffers of a new page; it returns [b] past the last *)
Fixpoint link_buffers (fuel : nat) (b ed sz : Z) : MD Z :=
  if b <=? ed then
    match fuel with
    | O => hang
    | S fuel => wr b link_next (w64 (b + sz)) ;;; link_buffers fuel (w64 (b + sz)) ed sz
    end
  else ret b.

Section Alloc.
Variable fuel : nat.

(** a new page for the buffer list [i] *)
Definition new_page (i : nat) (sz : Z) : MD Z :=
  let* mng := on_kmem (Kmem.alloc fuel MDB_ALLOC_CHUNKSZ) in
  let* bl := buflist_at i in
  let first := w64 (mng + MDB_ALLOC_CHUNKSZ - max_free bl * sz) in
  wr mng mng_freelist first ;;;
  wr mng mng_num_free (max_free bl) ;;;
  wr mng mng_prev_freelist NULL ;;;
  wr mng mng_bl (Z.of_nat i) ;;;
  let* b := link_buffers (Z.to_nat MDB_ALLOC_CHUNKSZ) first (w64 (mng + MDB_ALLOC_CHUNKSZ - sz)) sz in
  wr (w64 (b - sz)) link_next NULL ;;;
  let* bl := buflist_at i in
  wr mng mng_next_freelist (list_of_lists bl) ;;;
  set_list_of_lists i mng ;;;
  let* next := rd mng mng_next_freelist in
  when (negb (next =? NULL)) (wr next mng_prev_freelist mng) ;;;
  ret mng.

(** the first free buffer of the first page *)
Definition take_buffer (i : nat) (mng : Z) : MD Z :=
  let* buf := rd mng mng_freelist in
  let* rest := rd buf link_next in
  wr mng mng_freelist rest ;;;
  let* n := rd mng mng_num_free in
  wr mng mng_num_free (w64 (n - 1)) ;;;
  when (w64 (n - 1) =? 0)
    (let* next := rd mng mng_next_freelist in
     set_list_of_lists i next ;;;
     when (negb (next =? NULL)) (wr next mng_prev_freelist NULL)) ;;;
  ret buf.

Definition mdb_alloc_buffer (sz : Z) : MD Z :=
  let* bls := gets md_buflists in
  match find_buflist 0 sz bls with
  | None => hang
  | Some i =>
      if sz >=? MDB_ALLOC_CHUNKSZ then on_kmem (Kmem.alloc fuel sz) else
      let* bl := buflist_at i in
      let* mng := (if list_of_lists bl =? NULL then new_page i sz else ret (list_of_lists bl)) in
      take_buffer i mng
  end.

(** ** Release *)

(** the page has free buffers again *)
Definition relist_page (i : nat) (mng : Z) : MD unit :=
  let* bl := buflist_at i in
  when (negb (list_of_lists bl =? NULL)) (wr (list_of_lists bl) mng_prev_freelist mng) ;;;
  wr mng mng_next_freelist (list_of_lists bl) ;;;
  wr mng mng_prev_freelist NULL ;;;
  set_list_of_lists i mng.

(** all buffers of the page are free: the page goes back *)
Definition return_page (i : nat) (mng : Z) : MD unit :=
  let* next := rd mng mng_next_freelist in
  let* prev := rd mng mng_prev_freelist in
  when (negb (next =? NULL)) (wr next mng_prev_freelist prev) ;;;
  let* bl := buflist_at i in
  (if list_of_lists bl =? mng then set_list_of_lists i next
   else when (negb (prev =? NULL)) (wr prev mng_next_freelist next)) ;;;
  on_kmem (fun k => match Kmem.free fuel mng MDB_ALLOC_CHUNKSZ k with
                    | Ok k => Ok (tt, k) | Hang => Hang | Crash => Crash end).

Definition mdb_free_buffer (addr sz : Z) : MD unit :=
  if sz >=? MDB_ALLOC_CHUNKSZ then
    on_kmem (fun k => match Kmem.free fuel addr sz k with
                      | Ok k => Ok (tt, k) | Hang => Hang | Crash => Crash end)
  else
    let mng := Z.land addr (wnot (MDB_ALLOC_CHUNKSZ - 1)) in
    let* i := rd mng mng_bl in
    let i := Z.to_nat i in
    let* first := rd mng mng_freelist in
    wr addr link_next first ;;;
    wr mng mng_freelist addr ;;;
    let* n := rd mng mng_num_free in
    wr mng mng_num_free (w64 (n + 1)) ;;;
    let* bl := buflist_at i in
    if w64 (n + 1) =? 1 then relist_page i mng
    else when (w64 (n + 1) =? max_free bl) (return_page i mng).

End Alloc.
