(* ===== verification/Mdbpools.v ===== *)
(** * The buffer pools of the mapping database are well-formed

    The pages of [generic/mapping_alloc.cc] as lists of free buffers.
    [pools_ok] ties the memory to these lists; allocation takes the first free
    buffer of the first page of its size, release gives a buffer back to its
    page.  Clients see the class [BufferHeap] only: which buffers are live, and
    which words belong to the allocator. *)

From Stdlib Require Import ZArith Lia Bool List.
From stdpp Require Import base numbers list option gmap.
From S2P Require Import Prelude Types Monad Kmem Pgent MdbAlloc.
Open Scope Z_scope.

(** ** Memory *)

Definition lds (s : mdb_t) (p : Z) : Z := load (mem (md_kmem s)) p.
Definition sto (p v : Z) (s : mdb_t) : mdb_t := md_with_kmem (Pgent.with_mem (store p v) (md_kmem s)) s.
Definition set_lol (i : nat) (v : Z) (s : mdb_t) : mdb_t :=
  md_with_buflists (alter (bl_with_list_of_lists v) i (md_buflists s)) s.

Lemma lds_sto p q v s : lds (sto p v s) q = if decide (p = q) then v else lds s q.
Proof. apply load_store. Qed.
Lemma lds_sto_eq p v s : lds (sto p v s) p = v.
Proof. apply load_store_eq. Qed.
Lemma lds_sto_ne p q v s : p <> q -> lds (sto p v s) q = lds s q.
Proof. apply load_store_ne. Qed.
Lemma lds_set_lol i v s q : lds (set_lol i v s) q = lds s q.
Proof. done. Qed.

Lemma bind_rd {B} p off (k : Z -> MD B) s : p <> NULL -> bind (rd p off) k s = k (lds s (w64 (p + off))) s.
Proof. intros Hp. unfold rd, bind. destruct (Z.eqb_spec p NULL); done. Qed.
Lemma bind_wr {B} p off v (k : unit -> MD B) s :
  p <> NULL -> bind (wr p off v) k s = k tt (sto (w64 (p + off)) v s).
Proof. intros Hp. unfold wr, bind. destruct (Z.eqb_spec p NULL); done. Qed.
Lemma wr_run p off v s : p <> NULL -> wr p off v s = Ok (tt, sto (w64 (p + off)) v s).
Proof. intros Hp. unfold wr. destruct (Z.eqb_spec p NULL); done. Qed.
Lemma bind_set_lol {B} i v (k : unit -> MD B) s : bind (set_list_of_lists i v) k s = k tt (set_lol i v s).
Proof. done. Qed.

(** ** Pages *)

(** a page with its buffer list and its free buffers, in the order of the list *)
Record page_t := Page { pa : Z; pl : nat; pf : list Z }.

(** what allocation and release use of a buffer list: buffer size and number *)
Definition geometry (bls : list mdb_buflist_t) (i : nat) : option (Z * Z) :=
  (fun bl => (size bl, max_free bl)) <$> bls !! i.

(** buffers of at least two words, behind the management structure *)
Definition fits (sz mx : Z) : Prop := 16 <= sz /\ 0 < mx /\ sz * mx + sizeof_mdb_mng_t <= MDB_ALLOC_CHUNKSZ.

Definition slot (a sz k : Z) : Z := a + MDB_ALLOC_CHUNKSZ - sz * (k + 1).
Definition is_slot (a sz mx b : Z) : Prop := exists k, 0 <= k < mx /\ b = slot a sz k.

Definition page_addr (a : Z) : Prop := 0 < a /\ (MDB_ALLOC_CHUNKSZ | a) /\ a + MDB_ALLOC_CHUNKSZ < 2 ^ 64.

Record page_ok (m : gmap Z Z) (bls : list mdb_buflist_t) (r : page_t) : Prop := {
  pg_addr : page_addr (pa r);
  pg_geom : exists sz mx, geometry bls (pl r) = Some (sz, mx) /\ fits sz mx /\ Forall (is_slot (pa r) sz mx) (pf r);
  pg_num : load m (pa r + mng_num_free) = Z.of_nat (length (pf r));
  pg_bl : load m (pa r + mng_bl) = Z.of_nat (pl r);
  pg_free : seg m (load m (pa r + mng_freelist)) (pf r) NULL;
  pg_nodup : NoDup (pf r);
}.

(** pages linked both ways *)
Fixpoint dll (m : gmap Z Z) (prev : Z) (l : list Z) : Prop :=
  match l with
  | [] => True
  | a :: l' =>
      load m (a + mng_prev_freelist) = prev /\ load m (a + mng_next_freelist) = hd NULL l' /\ dll m a l'
  end.

Definition listed (pages : list page_t) (i : nat) (a : Z) : Prop :=
  exists r, r ∈ pages /\ pa r = a /\ pl r = i /\ pf r <> [].

(** [order i] are the pages of buffer list [i] with free buffers, [l] the free
    chunks of the kernel's allocator *)
Record pools_ok (s : mdb_t) (pages : list page_t) (order : nat -> list Z) (l : list Z) : Prop := {
  po_kmem : kmem_ok (md_kmem s) l;
  po_nodup : NoDup (pa <$> pages);
  po_pages : Forall (page_ok (mem (md_kmem s)) (md_buflists s)) pages;
  po_heads : forall i bl, md_buflists s !! i = Some bl -> list_of_lists bl = hd NULL (order i);
  po_dll : forall i, dll (mem (md_kmem s)) NULL (order i);
  po_order : forall i a, a ∈ order i <-> listed pages i a;
  po_order_nodup : forall i, NoDup (order i);
  po_chunks : forall c r, c ∈ l -> r ∈ pages -> c + KMEM_CHUNKSIZE <= pa r \/ pa r + MDB_ALLOC_CHUNKSZ <= c;
}.

(** a buffer of [sz] bytes in use *)
Definition is_live (bls : list mdb_buflist_t) (pages : list page_t) (b sz : Z) : Prop :=
  exists r mx, r ∈ pages /\ geometry bls (pl r) = Some (sz, mx) /\ is_slot (pa r) sz mx b /\ b ∉ pf r.

(** a word of the allocator: in a free chunk, or in a page outside its live
    buffers *)
Definition owns (bls : list mdb_buflist_t) (pages : list page_t) (l : list Z) (p : Z) : Prop :=
  (exists c, c ∈ l /\ c <= p < c + KMEM_CHUNKSIZE) \/
  (exists r, r ∈ pages /\ pa r <= p < pa r + MDB_ALLOC_CHUNKSZ /\
     forall sz mx b, geometry bls (pl r) = Some (sz, mx) -> is_slot (pa r) sz mx b -> b ∉ pf r ->
       ~ b <= p < b + sz).

(** ** Lists of pages *)

Lemma dll_frame m m' prev l :
  (forall a, a ∈ l -> load m' (a + mng_prev_freelist) = load m (a + mng_prev_freelist) /\
                      load m' (a + mng_next_freelist) = load m (a + mng_next_freelist)) ->
  dll m prev l -> dll m' prev l.
Proof.
  revert prev. induction l as [|a l IH]; intros prev Hf; simpl; [done|].
  intros (H1 & H2 & H3). destruct (Hf a) as [-> ->]; [left|]. split_and!; [done..|].
  apply IH; [|done]. intros x Hx. apply Hf. now right.
Qed.

Lemma page_ok_frame m m' bls bls' r :
  geometry bls' (pl r) = geometry bls (pl r) ->
  load m' (pa r + mng_num_free) = load m (pa r + mng_num_free) ->
  load m' (pa r + mng_bl) = load m (pa r + mng_bl) ->
  load m' (pa r + mng_freelist) = load m (pa r + mng_freelist) ->
  (forall b, b ∈ pf r -> load m' b = load m b) ->
  page_ok m bls r -> page_ok m' bls' r.
Proof.
  intros Hg Hn Hb Hf Hs [H1 H2 H3 H4 H5 H6]. split; [done|now rewrite Hg|congruence|congruence| |done].
  rewrite Hf. now apply (seg_frame m).
Qed.

(** pages lie apart *)
Lemma pages_apart a b : page_addr a -> page_addr b -> a <> b ->
  a + MDB_ALLOC_CHUNKSZ <= b \/ b + MDB_ALLOC_CHUNKSZ <= a.
Proof. unfold page_addr, MDB_ALLOC_CHUNKSZ. intros (_ & [x ->] & _) (_ & [y ->] & _) Hne. lia. Qed.

Lemma slot_bounds a sz mx b : fits sz mx -> is_slot a sz mx b ->
  a + sizeof_mdb_mng_t <= b /\ b + sz <= a + MDB_ALLOC_CHUNKSZ.
Proof. unfold fits, is_slot, slot. intros (? & ? & ?) (k & ? & ->). nia. Qed.

Lemma slots_apart a sz mx b c : 0 < sz -> is_slot a sz mx b -> is_slot a sz mx c -> b <> c ->
  b + sz <= c \/ c + sz <= b.
Proof.
  unfold is_slot, slot. intros Hs (j & Hj & ->) (k & Hk & ->) Hne.
  assert (j <> k) by congruence. nia.
Qed.

(** there are no more free buffers than buffers *)
Lemma slots_number a sz mx l : 0 < sz -> 0 <= mx -> NoDup l -> Forall (is_slot a sz mx) l ->
  Z.of_nat (length l) <= mx.
Proof.
  intros Hs Hm Hnd Hl.
  assert (l ⊆+ map (fun k => slot a sz (Z.of_nat k)) (seq 0 (Z.to_nat mx))) as H%submseteq_length.
  { apply NoDup_submseteq; [done|]. intros b Hb. rewrite Forall_forall in Hl.
    destruct (Hl b Hb) as (k & Hk & ->). apply list_elem_of_fmap. exists (Z.to_nat k).
    split; [f_equal; lia|]. apply elem_of_seq. lia. }
  rewrite length_map, length_seq in H. lia.
Qed.

(** ** Writes *)

Section Writes.
Context (s : mdb_t) (pages : list page_t) (order : nat -> list Z) (l : list Z).
Hypothesis Hok : pools_ok s pages order l.

Lemma pools_addr r : r ∈ pages -> page_addr (pa r).
Proof. intros Hr. pose proof (po_pages _ _ _ _ Hok) as H. rewrite Forall_forall in H. apply (H r Hr). Qed.

Lemma pools_page r : r ∈ pages -> page_ok (mem (md_kmem s)) (md_buflists s) r.
Proof. intros Hr. pose proof (po_pages _ _ _ _ Hok) as H. rewrite Forall_forall in H. apply (H r Hr). Qed.

Lemma pools_same_page r r' : r ∈ pages -> r' ∈ pages -> pa r = pa r' -> r = r'.
Proof.
  intros Hr Hr' E.
  apply list_elem_of_lookup in Hr as (i & Hi). apply list_elem_of_lookup in Hr' as (j & Hj).
  pose proof (po_nodup _ _ _ _ Hok) as Hnd. rewrite NoDup_alt in Hnd.
  assert (i = j) as ->; [|congruence].
  apply (Hnd i j (pa r)); rewrite list_lookup_fmap; [now rewrite Hi|rewrite Hj; simpl; congruence].
Qed.

Lemma listed_page i a : a ∈ order i -> exists r, r ∈ pages /\ pa r = a /\ pl r = i /\ pf r <> [].
Proof. intros Ha. now apply (po_order _ _ _ _ Hok). Qed.

Lemma chunk_outside c r : c ∈ l -> r ∈ pages -> ~ pa r <= c < pa r + MDB_ALLOC_CHUNKSZ.
Proof.
  intros Hc Hr. destruct (po_chunks _ _ _ _ Hok c r Hc Hr); unfold KMEM_CHUNKSIZE in *; lia.
Qed.
End Writes.

(** a word of a page is no chunk: the free list does not notice *)
Lemma kmem_ok_with_mem k l q v : q ∉ l -> kmem_ok k l -> kmem_ok (Pgent.with_mem (store q v) k) l.
Proof.
  intros Hq (H1 & H2 & H3 & H4). split_and!; [|done..]. simpl.
  apply (seg_frame (mem k)); [|done]. intros x Hx. apply load_store_ne. congruence.
Qed.

Lemma dll_sto m prev l q v :
  (forall a, a ∈ l -> q <> a + mng_prev_freelist /\ q <> a + mng_next_freelist) ->
  dll m prev l -> dll (store q v m) prev l.
Proof.
  intros Hq. apply dll_frame. intros a Ha. destruct (Hq a Ha). split; now apply load_store_ne.
Qed.

(** a word outside the page, or a link of the page *)
Definition off_page (a q : Z) : Prop :=
  q < a \/ a + MDB_ALLOC_CHUNKSZ <= q \/ q = a + mng_next_freelist \/ q = a + mng_prev_freelist.

Lemma page_ok_sto m bls r q v : off_page (pa r) q -> page_ok m bls r -> page_ok (store q v m) bls r.
Proof.
  intros Hq Hr. pose proof (pg_geom _ _ _ Hr) as (sz & mx & _ & Hfit & Hsl).
  unfold off_page, MDB_ALLOC_CHUNKSZ, mng_next_freelist, mng_prev_freelist in Hq.
  apply (page_ok_frame m _ bls); try done.
  1-3: apply load_store_ne; unfold mng_num_free, mng_bl, mng_freelist in *; lia.
  intros b Hb. rewrite Forall_forall in Hsl. pose proof (slot_bounds _ _ _ _ Hfit (Hsl b Hb)) as Hbd.
  unfold fits, sizeof_mdb_mng_t, MDB_ALLOC_CHUNKSZ in *. apply load_store_ne. lia.
Qed.

Lemma page_ok_geometry m bls bls' r :
  geometry bls' (pl r) = geometry bls (pl r) -> page_ok m bls r -> page_ok m bls' r.
Proof. intros Hg Hr. now apply (page_ok_frame m m bls bls' r). Qed.

Lemma geometry_set_lol i v bls j : geometry (alter (bl_with_list_of_lists v) i bls) j = geometry bls j.
Proof.
  unfold geometry. rewrite list_lookup_alter. case_decide; [|done]. subst. now destruct (bls !! j).
Qed.

Lemma page_word a off : page_addr a -> 0 <= off < MDB_ALLOC_CHUNKSZ -> w64 (a + off) = a + off.
Proof. unfold page_addr. intros. apply wrap_small. lia. Qed.

Definition oset (order : nat -> list Z) (i : nat) (o : list Z) : nat -> list Z :=
  fun j => if decide (i = j) then o else order j.

(** the first page of a list changes its links *)
Lemma dll_set_head m a prev v l :
  page_addr a -> Forall page_addr l -> NoDup (a :: l) ->
  dll m prev (a :: l) -> dll (store (a + mng_prev_freelist) v m) v (a :: l).
Proof.
  intros Ha Hl Hnd (H1 & H2 & H3). simpl. split_and!.
  - apply load_store_eq.
  - rewrite load_store_ne; [done|]. unfold mng_prev_freelist, mng_next_freelist. lia.
  - apply dll_sto; [|done]. intros x Hx. rewrite Forall_forall in Hl. pose proof (Hl x Hx) as Hx'.
    assert (a <> x) as Hne by (intros ->; now apply NoDup_cons in Hnd as [? _]).
    pose proof (pages_apart _ _ Ha Hx' Hne).
    unfold MDB_ALLOC_CHUNKSZ, mng_prev_freelist, mng_next_freelist in *. lia.
Qed.

(** ** Allocation *)

(** what allocation and release do not change *)
Definition static (s s' : mdb_t) : Prop :=
  (forall i, geometry (md_buflists s') i = geometry (md_buflists s) i) /\ md_flushes s' = md_flushes s.

Lemma pools_set_lol s pages i v :
  Forall (page_ok (mem (md_kmem s)) (md_buflists s)) pages ->
  Forall (page_ok (mem (md_kmem s)) (alter (bl_with_list_of_lists v) i (md_buflists s))) pages.
Proof.
  intros H. eapply Forall_impl; [exact H|]. intros r. apply page_ok_geometry, geometry_set_lol.
Qed.

(** the page at the head of its list without its first free buffer *)
Lemma page_ok_take m bls a i b rest n :
  n = Z.of_nat (length rest) ->
  page_ok m bls (Page a i (b :: rest)) ->
  page_ok (store (a + mng_num_free) n (store (a + mng_freelist) (load m b) m)) bls (Page a i rest).
Proof.
  intros -> [H1 H2 H3 H4 H5 H6]. simpl in *. destruct H2 as (sz & mx & Hg & Hfit & Hsl).
  pose proof Hsl as Hsl0. apply Forall_cons in Hsl as [Hb Hsl].
  unfold mng_num_free, mng_freelist, mng_bl in *. apply NoDup_cons in H6 as [Hnb Hnd].
  split; simpl; unfold mng_num_free, mng_freelist, mng_bl.
  - done.
  - now exists sz, mx.
  - apply load_store_eq.
  - rewrite !load_store_ne by lia. done.
  - rewrite load_store_ne by lia. rewrite load_store_eq. destruct H5 as [_ H5].
    apply (seg_frame m); [|done]. intros x Hx. rewrite Forall_forall in Hsl.
    pose proof (slot_bounds _ _ _ _ Hfit (Hsl x Hx)). unfold sizeof_mdb_mng_t in *.
    now rewrite !load_store_ne by lia.
  - done.
Qed.

Lemma header_off_page a c off : page_addr a -> page_addr c -> a <> c -> 0 <= off < MDB_ALLOC_CHUNKSZ ->
  off_page c (a + off).
Proof.
  intros Ha Hc Hne Ho. destruct (pages_apart a c Ha Hc Hne); unfold off_page; lia.
Qed.

Lemma Forall_page_sto m bls a off v pages :
  page_addr a -> 0 <= off < MDB_ALLOC_CHUNKSZ ->
  (forall r, r ∈ pages -> page_addr (pa r) /\ (a <> pa r \/ off = mng_next_freelist \/ off = mng_prev_freelist)) ->
  Forall (page_ok m bls) pages -> Forall (page_ok (store (a + off) v m) bls) pages.
Proof.
  intros Ha Ho Hr. rewrite !Forall_forall. intros H r Hin. apply page_ok_sto; [|auto].
  destruct (Hr r Hin) as [Hra [Hne| [->| ->]]].
  - now apply header_off_page.
  - destruct (decide (a = pa r)) as [->|Hne]; [|now apply header_off_page].
    unfold off_page. tauto.
  - destruct (decide (a = pa r)) as [->|Hne]; [|now apply header_off_page].
    unfold off_page. tauto.
Qed.

(** words that are no links leave the lists of pages alone *)
Lemma dll_word m a off v prev l :
  page_addr a -> Forall page_addr l -> 0 <= off < MDB_ALLOC_CHUNKSZ ->
  off <> mng_next_freelist -> off <> mng_prev_freelist ->
  dll m prev l -> dll (store (a + off) v m) prev l.
Proof.
  intros Ha Hl Ho H1 H2. apply dll_sto. intros x Hx. rewrite Forall_forall in Hl. pose proof (Hl x Hx) as Hxa.
  unfold mng_prev_freelist, mng_next_freelist, MDB_ALLOC_CHUNKSZ in *.
  destruct (decide (a = x)) as [->|Hne]; [lia|].
  destruct (pages_apart _ _ Ha Hxa Hne); unfold MDB_ALLOC_CHUNKSZ in *; lia.
Qed.

Lemma order_pages s pages order l i : pools_ok s pages order l -> Forall page_addr (order i).
Proof.
  intros Hok. apply Forall_forall. intros a Ha.
  destruct (listed_page _ _ _ _ Hok i a Ha) as (r & Hr & <- & _). now apply (pools_addr s pages order l).
Qed.

Lemma page_not_chunk s pages order l r off : pools_ok s pages order l -> r ∈ pages ->
  0 <= off < MDB_ALLOC_CHUNKSZ -> pa r + off ∉ l.
Proof.
  intros Hok Hr Ho Hin. apply (chunk_outside _ _ _ _ Hok _ _ Hin Hr). unfold MDB_ALLOC_CHUNKSZ in *. lia.
Qed.

(** the two words of a page that allocation writes *)
Definition take_words (a b n : Z) (s : mdb_t) : mdb_t :=
  sto (a + mng_num_free) n (sto (a + mng_freelist) (lds s b) s).

Lemma take_words_ok s R order l a i b rest :
  pools_ok s (Page a i (b :: rest) :: R) order l ->
  let s' := take_words a b (Z.of_nat (length rest)) s in
  let m' := mem (md_kmem s') in
  kmem_ok (md_kmem s') l /\
  Forall (page_ok m' (md_buflists s)) (Page a i rest :: R) /\ (forall j, dll m' NULL (order j)).
Proof.
  intros Hok s' m'. set (r := Page a i (b :: rest)) in *.
  assert (Hr : r ∈ r :: R) by left. pose proof (pools_addr _ _ _ _ Hok r Hr) as Ha. simpl in Ha.
  split_and!.
  - do 2 (apply kmem_ok_with_mem; [apply (page_not_chunk _ _ _ _ r _ Hok Hr);
      unfold mng_num_free, mng_freelist, MDB_ALLOC_CHUNKSZ; lia|]).
    apply (po_kmem _ _ _ _ Hok).
  - apply Forall_cons. split.
    + apply page_ok_take; [done|]. now apply (pools_page _ _ _ _ Hok).
    + assert (HR : Forall (page_ok (mem (md_kmem s)) (md_buflists s)) R).
      { now pose proof (po_pages _ _ _ _ Hok) as [_ H]%Forall_cons. }
      assert (Hne : forall off x, x ∈ R ->
        page_addr (pa x) /\ (a <> pa x \/ off = mng_next_freelist \/ off = mng_prev_freelist)).
      { intros off x Hx. split; [apply (pools_addr _ _ _ _ Hok); now right|]. left. intros E.
        pose proof (po_nodup _ _ _ _ Hok) as [Hn _]%NoDup_cons. apply Hn.
        apply list_elem_of_fmap. exists x. done. }
      unfold m', s', take_words. simpl.
      do 2 (apply Forall_page_sto; [done|unfold mng_num_free, mng_freelist, MDB_ALLOC_CHUNKSZ; lia|apply Hne|]).
      done.
  - intros j. pose proof (order_pages _ _ _ _ j Hok) as Hl.
    do 2 (apply dll_word; [done|done|unfold mng_num_free, mng_freelist, MDB_ALLOC_CHUNKSZ; lia|done|done|]).
    apply (po_dll _ _ _ _ Hok).
Qed.

Lemma take_words_run s R order l a i b rest :
  pools_ok s (Page a i (b :: rest) :: R) order l ->
  let n := Z.of_nat (length rest) in
  (let* buf := rd a mng_freelist in
   let* nx := rd buf link_next in
   wr a mng_freelist nx ;;;
   let* n := rd a mng_num_free in
   wr a mng_num_free (w64 (n - 1)) ;;;
   when (w64 (n - 1) =? 0)
     (let* next := rd a mng_next_freelist in
      set_list_of_lists i next ;;;
      when (negb (next =? NULL)) (wr next mng_prev_freelist NULL)) ;;;
   ret buf) s
  = (when (n =? 0)
      (let* next := rd a mng_next_freelist in
       set_list_of_lists i next ;;;
       when (negb (next =? NULL)) (wr next mng_prev_freelist NULL)) ;;;
     ret b) (take_words a b n s).
Proof.
  intros Hok n. set (r := Page a i (b :: rest)) in *.
  assert (Hr : r ∈ r :: R) by left. pose proof (pools_page _ _ _ _ Hok r Hr) as Hp.
  pose proof (pg_addr _ _ _ Hp) as Ha. simpl in Ha. pose proof Ha as (Ha0 & _ & Ha2).
  destruct (pg_geom _ _ _ Hp) as (sz & mx & Hg & Hfit & Hsl). simpl in Hsl.
  pose proof (slots_number a sz mx _ ltac:(unfold fits in *; lia) ltac:(unfold fits in *; lia)
    (pg_nodup _ _ _ Hp) Hsl) as Hlen. simpl in Hlen.
  apply Forall_cons in Hsl as [Hb _]. pose proof (slot_bounds _ _ _ _ Hfit Hb) as Hbd.
  pose proof (pg_free _ _ _ Hp) as [Hf _]. simpl in Hf. pose proof (pg_num _ _ _ Hp) as Hn. simpl in Hn.
  unfold fits, sizeof_mdb_mng_t, MDB_ALLOC_CHUNKSZ in *.
  assert (Hw : forall off, 0 <= off < 4096 -> w64 (a + off) = a + off)
    by (intros; now apply page_word).
  assert (Hwb : w64 (b + link_next) = b) by (unfold link_next; rewrite Z.add_0_r; apply wrap_small; lia).
  assert (a <> NULL) as Hna by (unfold NULL; lia). assert (b <> NULL) as Hnb by (unfold NULL; lia).
  fold (lds s (a + mng_freelist)) in Hf. fold (lds s (a + mng_num_free)) in Hn.
  rewrite bind_rd, Hw, Hf by (done || (unfold mng_freelist; lia)).
  rewrite bind_rd, Hwb, bind_wr, Hw, bind_rd, Hw by (done || (unfold mng_freelist, mng_num_free; lia)).
  rewrite lds_sto_ne, Hn by (unfold mng_freelist, mng_num_free; lia).
  rewrite bind_wr, Hw by (done || (unfold mng_num_free; lia)).
  assert (mx <= 4096) by nia.
  assert (w64 (Z.of_nat (S (length rest)) - 1) = n) as ->.
  { unfold n. transitivity (Z.of_nat (S (length rest)) - 1); [apply wrap_small; lia|lia]. }
  reflexivity.
Qed.

Lemma listed_cons r R j x :
  listed (r :: R) j x <-> (pa r = x /\ pl r = j /\ pf r <> []) \/ listed R j x.
Proof.
  unfold listed. split.
  - intros (q & [->|Hq]%elem_of_cons & H); [now left|]. right. now exists q.
  - intros [H|(q & Hq & H)]; [exists r; split; [left|done]|]. exists q. split; [now right|done].
Qed.

Lemma not_owned_header s pages order l r off p :
  pools_ok s pages order l -> r ∈ pages -> 0 <= off < sizeof_mdb_mng_t ->
  ~ owns (md_buflists s) pages l p -> p <> pa r + off.
Proof.
  intros Hok Hr Ho Hn ->. apply Hn. right. exists r. split; [done|].
  unfold sizeof_mdb_mng_t, MDB_ALLOC_CHUNKSZ in *. split; [lia|].
  intros sz mx b Hg Hs _ Hb. destruct (pg_geom _ _ _ (pools_page _ _ _ _ Hok r Hr)) as (sz' & mx' & Hg' & Hfit & _).
  rewrite Hg in Hg'. injection Hg' as <- <-. pose proof (slot_bounds _ _ _ _ Hfit Hs).
  unfold sizeof_mdb_mng_t in *. lia.
Qed.

(** a page is in the list of its own size only *)
Lemma order_disjoint s pages order l i j a :
  pools_ok s pages order l -> a ∈ order i -> a ∈ order j -> i = j.
Proof.
  intros Hok Hi Hj. destruct (listed_page _ _ _ _ Hok i a Hi) as (r & Hr & <- & <- & _).
  destruct (listed_page _ _ _ _ Hok j _ Hj) as (q & Hq & E & <- & _).
  now rewrite (pools_same_page _ _ _ _ Hok q r Hq Hr E).
Qed.

(** the list of pages without its first page *)
Definition unlist (i : nat) (next : Z) : MD unit :=
  set_list_of_lists i next ;;; when (negb (next =? NULL)) (wr next mng_prev_freelist NULL).
Definition unlisted (i : nat) (next : Z) (s : mdb_t) : mdb_t :=
  if next =? NULL then set_lol i next s else sto (next + mng_prev_freelist) NULL (set_lol i next s).

Lemma unlist_run i next s : next = NULL \/ page_addr next -> unlist i next s = Ok (tt, unlisted i next s).
Proof.
  intros Hn. unfold unlist, unlisted. rewrite bind_set_lol. destruct (Z.eqb_spec next NULL) as [->|Hne]; [done|].
  destruct Hn as [->|Ha]; [done|]. cbn [negb when]. rewrite wr_run by done.
  rewrite page_word; [done..|unfold mng_prev_freelist, MDB_ALLOC_CHUNKSZ; lia].
Qed.

Lemma unlisted_dll m a o :
  Forall page_addr (a :: o) -> NoDup (a :: o) -> dll m NULL (a :: o) ->
  dll (if hd NULL o =? NULL then m else store (hd NULL o + mng_prev_freelist) NULL m) NULL o.
Proof.
  intros [_ Ho]%Forall_cons [_ Hnd]%NoDup_cons (_ & _ & H). destruct o as [|x o]; [done|]. cbn [hd].
  apply Forall_cons in Ho as [Hx Ho]. pose proof Hx as (Hx0 & _ & _).
  destruct (Z.eqb_spec x NULL); [unfold NULL in *; lia|]. now apply (dll_set_head _ _ a).
Qed.

Definition pools_frame s s' (pages : list page_t) (l : list Z) : Prop :=
  static s s' /\ forall p, ~ owns (md_buflists s) pages l p -> lds s' p = lds s p.

Lemma take_some s R order l a i b rest :
  rest <> [] -> pools_ok s (Page a i (b :: rest) :: R) order l ->
  exists s', take_buffer i a s = Ok (b, s') /\ pools_ok s' (Page a i rest :: R) order l /\
    pools_frame s s' (Page a i (b :: rest) :: R) l.
Proof.
  intros Hne Hok. set (n := Z.of_nat (length rest)). exists (take_words a b n s).
  destruct (take_words_ok _ _ _ _ _ _ _ _ Hok) as (Hk & Hp & Hd). fold n in Hk, Hp, Hd.
  assert (Hin : Page a i (b :: rest) ∈ Page a i (b :: rest) :: R) by left.
  split_and!.
  - unfold take_buffer. rewrite (take_words_run _ _ _ _ _ _ _ _ Hok). fold n.
    destruct (Z.eqb_spec n 0); [|done]. destruct rest; [done|]. unfold n in *. simpl in *. lia.
  - split; try done.
    + apply (po_nodup _ _ _ _ Hok).
    + apply (po_heads _ _ _ _ Hok).
    + intros j x. rewrite (po_order _ _ _ _ Hok), !listed_cons. simpl. naive_solver.
    + apply (po_order_nodup _ _ _ _ Hok).
    + intros c r Hc [->|Hr]%elem_of_cons.
      * apply (po_chunks _ _ _ _ Hok c _ Hc Hin).
      * apply (po_chunks _ _ _ _ Hok c); [done|now right].
  - split; [done|]. intros p Hn. unfold take_words.
    pose proof (not_owned_header _ _ _ _ _ mng_num_free _ Hok Hin ltac:(unfold mng_num_free, sizeof_mdb_mng_t; lia) Hn).
    pose proof (not_owned_header _ _ _ _ _ mng_freelist _ Hok Hin ltac:(unfold mng_freelist, sizeof_mdb_mng_t; lia) Hn).
    simpl in *. now rewrite !lds_sto_ne.
Qed.

Lemma unlisted_heads s order i bl a o next :
  (forall j bl, md_buflists s !! j = Some bl -> list_of_lists bl = hd NULL (order j)) ->
  order i = a :: o -> next = hd NULL o -> forall j,
  md_buflists (unlisted i next s) !! j = Some bl -> list_of_lists bl = hd NULL (oset order i o j).
Proof.
  intros Hh Ho -> j. assert (md_buflists (unlisted i (hd NULL o) s) =
    alter (bl_with_list_of_lists (hd NULL o)) i (md_buflists s)) as -> by (unfold unlisted; now case_match).
  rewrite list_lookup_alter. unfold oset. case_decide as E; [|apply Hh].
  intros (bl0 & _ & ->)%fmap_Some. done.
Qed.

Lemma unlisted_kmem i next s : md_kmem (unlisted i next s) =
  if next =? NULL then md_kmem s else Pgent.with_mem (store (next + mng_prev_freelist) NULL) (md_kmem s).
Proof. unfold unlisted. now case_match. Qed.
Lemma unlisted_buflists i next s :
  md_buflists (unlisted i next s) = alter (bl_with_list_of_lists next) i (md_buflists s).
Proof. unfold unlisted. now case_match. Qed.

(** the first page is not among the others *)
Lemma unlisted_only s r R order l :
  pools_ok s (r :: R) order l -> forall j, listed R j (pa r) -> False.
Proof.
  intros Hok j (q & Hq & E & _). pose proof (po_nodup _ _ _ _ Hok) as [Hn _]%NoDup_cons. apply Hn.
  apply list_elem_of_fmap. now exists q.
Qed.

Lemma take_last s R order l a i b o :
  order i = a :: o -> pools_ok s (Page a i [b] :: R) order l ->
  exists s', take_buffer i a s = Ok (b, s') /\ pools_ok s' (Page a i [] :: R) (oset order i o) l /\
    pools_frame s s' (Page a i [b] :: R) l.
Proof.
  intros Ho Hok. set (s2 := take_words a b 0 s). set (next := hd NULL o).
  destruct (take_words_ok _ _ _ _ _ _ _ _ Hok) as (Hk & Hp & Hd).
  change (take_words a b (Z.of_nat (length [])) s) with s2 in Hk, Hp, Hd.
  assert (Hin : Page a i [b] ∈ Page a i [b] :: R) by left.
  pose proof (order_pages _ _ _ _ i Hok) as Hoa. rewrite Ho in Hoa. pose proof (Forall_inv Hoa) as Ha.
  pose proof (po_order_nodup _ _ _ _ Hok i) as Hnd. rewrite Ho in Hnd.
  assert (Hnext : next = NULL \/ page_addr next /\ exists r, r ∈ Page a i [b] :: R /\ pa r = next).
  { unfold next. destruct o as [|x o]; [now left|right]. cbn [hd].
    destruct (listed_page _ _ _ _ Hok i x) as (r & Hr & <- & _); [rewrite Ho; right; left|].
    split; [now apply (pools_addr _ _ _ _ Hok)|now exists r]. }
  pose proof (Hd i) as Hdi. rewrite Ho in Hdi. pose proof Hdi as (_ & Hnx & _). fold next in Hnx.
  exists (unlisted i next s2). split_and!.
  - unfold take_buffer. rewrite (take_words_run _ _ _ _ _ _ _ _ Hok).
    change (Z.of_nat (length []) =? 0) with true. rewrite bind_when_true, bind_assoc.
    rewrite bind_rd by (unfold page_addr in Ha; unfold NULL; lia).
    rewrite page_word by (done || (unfold mng_next_freelist, MDB_ALLOC_CHUNKSZ; lia)).
    change (take_words a b (Z.of_nat (length [])) s) with s2.
    fold (lds s2 (a + mng_next_freelist)) in Hnx.
    rewrite Hnx. fold (unlist i next).
    now rewrite (bind_ok _ _ _ _ _ (unlist_run i next s2 ltac:(tauto))).
  - assert (Hin' : forall r, r ∈ Page a i [] :: R -> page_addr (pa r)).
    { intros r [->|Hr]%elem_of_cons; [done|]. apply (pools_addr _ _ _ _ Hok). now right. }
    split.
    + rewrite unlisted_kmem. destruct Hnext as [->|[Hna (r & Hr & <-)]]; [done|]. case_match; [done|].
      apply kmem_ok_with_mem; [|done]. apply (page_not_chunk _ _ _ _ _ _ Hok Hr).
      unfold mng_prev_freelist, MDB_ALLOC_CHUNKSZ. lia.
    + apply (po_nodup _ _ _ _ Hok).
    + rewrite unlisted_kmem, unlisted_buflists. apply (pools_set_lol s2 _ i next) in Hp. destruct Hnext as [->|[Hna _]]; [done|]. case_match; [done|]. simpl.
      apply Forall_page_sto; [done|unfold mng_prev_freelist, MDB_ALLOC_CHUNKSZ; lia| |done].
      intros r Hr. split; [now apply Hin'|]. right. now right.
    + intros j bl. now apply (unlisted_heads s2 order i bl a o next (po_heads _ _ _ _ Hok)).
    + intros j. rewrite unlisted_kmem. unfold oset. case_decide as Ej; [subst j|].
      * pose proof (unlisted_dll _ a o Hoa Hnd Hdi) as H. fold next in H. now case_match.
      * destruct Hnext as [->|[Hna _]]; [apply Hd|]. case_match; [apply Hd|]. simpl.
        apply dll_sto; [|apply Hd]. intros x Hx.
        assert (next <> x) as Hne.
        { intros <-. apply Ej. apply (order_disjoint _ _ _ _ i j next Hok); [|done].
          rewrite Ho. right. unfold next. destruct o; [done|left]. }
        pose proof (order_pages _ _ _ _ j Hok) as Hl. rewrite Forall_forall in Hl.
        destruct (pages_apart _ _ Hna (Hl x Hx) Hne);
          unfold MDB_ALLOC_CHUNKSZ, mng_prev_freelist, mng_next_freelist in *; lia.
    + intros j x. rewrite listed_cons. simpl. unfold oset. case_decide as Ej.
      * subst j. pose proof (po_order _ _ _ _ Hok i x) as H. rewrite Ho, listed_cons in H. simpl in H.
        apply NoDup_cons in Hnd as [Hna _]. rewrite elem_of_cons in H. split.
        -- intros Hx. right. destruct (proj1 H (or_intror Hx)) as [(<- & _)|Hl]; [done|done].
        -- intros [(_ & _ & Hf)|Hl]; [done|]. destruct (proj2 H (or_intror Hl)) as [->|Hx]; [|done].
           exfalso. apply (unlisted_only _ _ _ _ _ Hok i Hl).
      * rewrite (po_order _ _ _ _ Hok), listed_cons. simpl. naive_solver.
    + intros j. unfold oset. case_decide; [now apply NoDup_cons in Hnd as [_ ?]|apply (po_order_nodup _ _ _ _ Hok)].
    + intros c r Hc [->|Hr]%elem_of_cons.
      * apply (po_chunks _ _ _ _ Hok c _ Hc Hin).
      * apply (po_chunks _ _ _ _ Hok c); [done|now right].
  - split.
    + split; [|unfold unlisted; now case_match]. intros j. rewrite unlisted_buflists. apply geometry_set_lol.
    + intros p Hn. unfold lds. rewrite unlisted_kmem.
      pose proof (not_owned_header _ _ _ _ _ mng_num_free _ Hok Hin ltac:(unfold mng_num_free, sizeof_mdb_mng_t; lia) Hn).
      pose proof (not_owned_header _ _ _ _ _ mng_freelist _ Hok Hin ltac:(unfold mng_freelist, sizeof_mdb_mng_t; lia) Hn).
      simpl in *. assert (lds s2 p = lds s p) as E by (unfold s2, take_words; now rewrite !lds_sto_ne).
      destruct Hnext as [->|[Hna (r & Hr & Er)]]; [exact E|]. case_match; [exact E|]. simpl.
      rewrite load_store_ne; [exact E|]. rewrite <- Er.
      pose proof (not_owned_header _ _ _ _ _ mng_prev_freelist _ Hok Hr
        ltac:(unfold mng_prev_freelist, sizeof_mdb_mng_t; lia) Hn). congruence.
Qed.

(** ** Release *)

(** the three words that release writes first *)
Definition give_words (a b n : Z) (s : mdb_t) : mdb_t :=
  sto (a + mng_num_free) n (sto (a + mng_freelist) b (sto b (lds s (a + mng_freelist)) s)).

Lemma page_ok_give m bls a i b sz mx frees :
  geometry bls i = Some (sz, mx) -> is_slot a sz mx b -> b ∉ frees ->
  page_ok m bls (Page a i frees) ->
  page_ok (store (a + mng_num_free) (Z.of_nat (S (length frees)))
            (store (a + mng_freelist) b (store b (load m (a + mng_freelist)) m))) bls (Page a i (b :: frees)).
Proof.
  intros Hg Hb Hnb [H1 H2 H3 H4 H5 H6]. simpl in *. destruct H2 as (sz' & mx' & Hg' & Hfit & Hsl).
  rewrite Hg in Hg'. injection Hg' as <- <-. pose proof (slot_bounds _ _ _ _ Hfit Hb) as Hbd.
  unfold mng_num_free, mng_freelist, mng_bl, sizeof_mdb_mng_t in *.
  split; simpl; unfold mng_num_free, mng_freelist, mng_bl.
  - done.
  - exists sz, mx. split_and!; [done..|]. now apply Forall_cons.
  - apply load_store_eq.
  - rewrite !load_store_ne by lia. done.
  - rewrite load_store_ne, load_store_eq by lia. split; [done|].
    rewrite !load_store_ne, load_store_eq by lia. apply (seg_frame m); [|done]. intros x Hx.
    rewrite Forall_forall in Hsl. pose proof (slot_bounds _ _ _ _ Hfit (Hsl x Hx)). unfold sizeof_mdb_mng_t in *.
    rewrite !load_store_ne; [done|congruence|lia|lia].
  - now apply NoDup_cons.
Qed.

Lemma Forall_page_sto_other m bls a q v pages :
  page_addr a -> a <= q < a + MDB_ALLOC_CHUNKSZ -> (forall r, r ∈ pages -> page_addr (pa r) /\ a <> pa r) ->
  Forall (page_ok m bls) pages -> Forall (page_ok (store q v m) bls) pages.
Proof.
  intros Ha Hq Hr H. replace q with (a + (q - a)) by lia. apply Forall_page_sto; [done|lia| |done].
  intros r Hin. destruct (Hr r Hin) as [Hra Hne]. split; [done|now left].
Qed.

Lemma give_words_ok s R order l a i b frees sz mx :
  pools_ok s (Page a i frees :: R) order l ->
  geometry (md_buflists s) i = Some (sz, mx) -> is_slot a sz mx b -> b ∉ frees ->
  let s' := give_words a b (Z.of_nat (S (length frees))) s in
  let m' := mem (md_kmem s') in
  kmem_ok (md_kmem s') l /\
  Forall (page_ok m' (md_buflists s)) (Page a i (b :: frees) :: R) /\ (forall j, dll m' NULL (order j)).
Proof.
  intros Hok Hg Hb Hnb s' m'. set (r := Page a i frees) in *.
  assert (Hr : r ∈ r :: R) by left. pose proof (pools_page _ _ _ _ Hok r Hr) as Hp.
  pose proof (pg_addr _ _ _ Hp) as Ha. simpl in Ha.
  destruct (pg_geom _ _ _ Hp) as (sz' & mx' & Hg' & Hfit & _). simpl in Hg'. rewrite Hg in Hg'. injection Hg' as <- <-.
  pose proof (slot_bounds _ _ _ _ Hfit Hb) as Hbd.
  assert (Hbp : b = a + (b - a)) by lia.
  assert (Hbo : 0 <= b - a < MDB_ALLOC_CHUNKSZ /\ b - a <> mng_next_freelist /\ b - a <> mng_prev_freelist).
  { unfold fits, mng_next_freelist, mng_prev_freelist, sizeof_mdb_mng_t, MDB_ALLOC_CHUNKSZ in *. lia. }
  split_and!.
  - do 2 (apply kmem_ok_with_mem; [apply (page_not_chunk _ _ _ _ r _ Hok Hr);
      unfold mng_num_free, mng_freelist, MDB_ALLOC_CHUNKSZ; lia|]).
    apply kmem_ok_with_mem; [|apply (po_kmem _ _ _ _ Hok)].
    rewrite Hbp. apply (page_not_chunk _ _ _ _ r _ Hok Hr), Hbo.
  - apply Forall_cons. split; [now apply (page_ok_give _ _ _ _ _ sz mx)|].
    assert (HR : Forall (page_ok (mem (md_kmem s)) (md_buflists s)) R).
    { now pose proof (po_pages _ _ _ _ Hok) as [_ H]%Forall_cons. }
    assert (Hne : forall x, x ∈ R -> page_addr (pa x) /\ a <> pa x).
    { intros x Hx. split; [apply (pools_addr _ _ _ _ Hok); now right|]. intros E.
      pose proof (po_nodup _ _ _ _ Hok) as [Hn _]%NoDup_cons. apply Hn.
      apply list_elem_of_fmap. exists x. done. }
    unfold m', s', give_words. simpl.
    do 3 (apply (Forall_page_sto_other _ _ a); [done
      |unfold fits, mng_num_free, mng_freelist, sizeof_mdb_mng_t, MDB_ALLOC_CHUNKSZ in *; lia|done|]).
    done.
  - intros j. pose proof (order_pages _ _ _ _ j Hok) as Hl.
    do 2 (apply dll_word; [done|done|unfold mng_num_free, mng_freelist, MDB_ALLOC_CHUNKSZ; lia|done|done|]).
    rewrite Hbp. apply dll_word; [done|done|apply Hbo..|]. apply (po_dll _ _ _ _ Hok).
Qed.

Lemma page_base a b : page_addr a -> a <= b < a + MDB_ALLOC_CHUNKSZ ->
  Z.land b (wnot (MDB_ALLOC_CHUNKSZ - 1)) = a.
Proof.
  intros (Ha & [x ->] & Hb) Hab. unfold MDB_ALLOC_CHUNKSZ in *.
  change (4096 - 1) with (2 ^ 12 - 1). rewrite land_wnot_mask by (unfold is_word; lia).
  replace b with (b - x * 4096 + x * 2 ^ 12) at 2 by lia.
  rewrite Z.mod_add, Z.mod_small by lia. lia.
Qed.

Lemma give_words_run fuel s R order l a i b frees sz mx :
  pools_ok s (Page a i frees :: R) order l ->
  geometry (md_buflists s) i = Some (sz, mx) -> is_slot a sz mx b -> b ∉ frees ->
  let n := Z.of_nat (S (length frees)) in
  mdb_free_buffer fuel b sz s =
    (let* bl := buflist_at i in
     if n =? 1 then relist_page i a else when (n =? max_free bl) (return_page fuel i a))
    (give_words a b n s) /\ n <= mx.
Proof.
  intros Hok Hg Hb Hnb n. set (r := Page a i frees) in *.
  assert (Hr : r ∈ r :: R) by left. pose proof (pools_page _ _ _ _ Hok r Hr) as Hp.
  pose proof (pg_addr _ _ _ Hp) as Ha. simpl in Ha. pose proof Ha as (Ha0 & _ & Ha2).
  destruct (pg_geom _ _ _ Hp) as (sz' & mx' & Hg' & Hfit & Hsl). simpl in Hg', Hsl.
  rewrite Hg in Hg'. injection Hg' as <- <-.
  pose proof (slots_number a sz mx (b :: frees) ltac:(unfold fits in *; lia) ltac:(unfold fits in *; lia)
    ltac:(apply NoDup_cons; split; [done|apply (pg_nodup _ _ _ Hp)]) ltac:(now apply Forall_cons)) as Hlen.
  split; [|exact Hlen]. cbn [length] in Hlen. fold n in Hlen.
  pose proof (slot_bounds _ _ _ _ Hfit Hb) as Hbd.
  pose proof (pg_num _ _ _ Hp) as Hn. fold (lds s (pa r + mng_num_free)) in Hn. simpl in Hn.
  pose proof (pg_bl _ _ _ Hp) as Hbl. fold (lds s (pa r + mng_bl)) in Hbl. simpl in Hbl.
  unfold mdb_free_buffer. rewrite (page_base a b Ha) by (unfold sizeof_mdb_mng_t, fits in *; lia).
  unfold fits, sizeof_mdb_mng_t, MDB_ALLOC_CHUNKSZ in *. assert (mx <= 4096) by nia.
  destruct (Z.geb_spec sz 4096); [nia|].
  assert (Hw : forall off, 0 <= off < 4096 -> w64 (a + off) = a + off) by (intros; now apply page_word).
  assert (Hwb : w64 (b + link_next) = b) by (unfold link_next; rewrite Z.add_0_r; apply wrap_small; lia).
  assert (a <> NULL) as Hna by (unfold NULL; lia). assert (b <> NULL) as Hnn by (unfold NULL; lia).
  unfold mng_freelist, mng_num_free, mng_bl in *.
  rewrite bind_rd, Hw, Hbl by (done || lia). cbn zeta. rewrite Nat2Z.id.
  rewrite bind_rd, Hw, bind_wr, Hwb, bind_wr, Hw by (done || lia).
  rewrite bind_rd, Hw by (done || lia). rewrite !lds_sto_ne, Hn by lia.
  rewrite bind_wr, Hw by (done || lia).
  assert (w64 (Z.of_nat (length frees) + 1) = n) as ->.
  { unfold n. transitivity (Z.of_nat (length frees) + 1); [apply wrap_small; lia|lia]. }
  reflexivity.
Qed.

(** what release may write: words of the allocator and of the buffer *)
Definition release_frame s s' (pages : list page_t) (l : list Z) (b sz : Z) : Prop :=
  static s s' /\
  forall p, ~ owns (md_buflists s) pages l p -> ~ b <= p < b + sz -> lds s' p = lds s p.

Lemma give_words_frame s R order l a i b frees sz mx n p :
  pools_ok s (Page a i frees :: R) order l ->
  geometry (md_buflists s) i = Some (sz, mx) -> fits sz mx ->
  ~ owns (md_buflists s) (Page a i frees :: R) l p -> ~ b <= p < b + sz ->
  lds (give_words a b n s) p = lds s p.
Proof.
  intros Hok Hg Hfit Hn Hb. assert (Hin : Page a i frees ∈ Page a i frees :: R) by left.
  pose proof (not_owned_header _ _ _ _ _ mng_num_free _ Hok Hin ltac:(unfold mng_num_free, sizeof_mdb_mng_t; lia) Hn).
  pose proof (not_owned_header _ _ _ _ _ mng_freelist _ Hok Hin ltac:(unfold mng_freelist, sizeof_mdb_mng_t; lia) Hn).
  simpl in *. unfold fits in Hfit. unfold give_words. rewrite !lds_sto_ne; [done|lia|congruence..].
Qed.

(** the page had free buffers and has one more *)
Lemma give_some fuel s R order l a i b frees sz mx :
  pools_ok s (Page a i frees :: R) order l ->
  geometry (md_buflists s) i = Some (sz, mx) -> is_slot a sz mx b -> b ∉ frees ->
  frees <> [] -> Z.of_nat (S (length frees)) <> mx ->
  exists s', mdb_free_buffer fuel b sz s = Ok (tt, s') /\ pools_ok s' (Page a i (b :: frees) :: R) order l /\
    release_frame s s' (Page a i frees :: R) l b sz.
Proof.
  intros Hok Hg Hb Hnb Hne Hmx. exists (give_words a b (Z.of_nat (S (length frees))) s).
  destruct (give_words_run fuel _ _ _ _ _ _ _ _ _ _ Hok Hg Hb Hnb) as [E _].
  destruct (give_words_ok _ _ _ _ _ _ _ _ _ _ Hok Hg Hb Hnb) as (Hk & Hp & Hd).
  assert (Hin : Page a i frees ∈ Page a i frees :: R) by left.
  destruct (pg_geom _ _ _ (pools_page _ _ _ _ Hok _ Hin)) as (sz' & mx' & Hg' & Hfit & _). simpl in Hg'.
  rewrite Hg in Hg'. injection Hg' as <- <-. split_and!.
  - rewrite E. unfold geometry in Hg. destruct (md_buflists s !! i) as [bl|] eqn:Ei; [|done].
    injection Hg as _ Hm. unfold buflist_at. rewrite bind_gets.
    change (md_buflists (give_words _ _ _ s)) with (md_buflists s).
    rewrite (nth_lookup_Some _ _ _ _ Ei), Hm.
    assert (length frees <> 0%nat) by now destruct frees.
    assert (Z.of_nat (S (length frees)) =? 1 = false) as -> by (apply Z.eqb_neq; lia).
    apply Z.eqb_neq in Hmx. now rewrite Hmx.
  - split; try done.
    + apply (po_nodup _ _ _ _ Hok).
    + apply (po_heads _ _ _ _ Hok).
    + intros j x. rewrite (po_order _ _ _ _ Hok), !listed_cons. simpl.
      destruct frees; [done|]. naive_solver.
    + apply (po_order_nodup _ _ _ _ Hok).
    + intros c r Hc [->|Hr]%elem_of_cons.
      * apply (po_chunks _ _ _ _ Hok c _ Hc Hin).
      * apply (po_chunks _ _ _ _ Hok c); [done|now right].
  - split; [done|]. intros p Hn Hp0. now apply (give_words_frame s R order l a i b frees sz mx).
Qed.

(** *** A page whose first buffer comes back *)

Definition relisted (i : nat) (a head : Z) (s : mdb_t) : mdb_t :=
  let s := if head =? NULL then s else sto (head + mng_prev_freelist) a s in
  set_lol i a (sto (a + mng_prev_freelist) NULL (sto (a + mng_next_freelist) head s)).

Lemma relist_run i a s bl :
  md_buflists s !! i = Some bl -> page_addr a ->
  list_of_lists bl = NULL \/ page_addr (list_of_lists bl) ->
  relist_page i a s = Ok (tt, relisted i a (list_of_lists bl) s).
Proof.
  intros Hi Ha Hh. unfold relist_page, buflist_at. rewrite bind_gets, (nth_lookup_Some _ _ _ _ Hi).
  assert (a <> NULL) as Hna by (unfold page_addr in Ha; unfold NULL; lia).
  assert (Hw : forall x off, page_addr x -> 0 <= off < 40 -> w64 (x + off) = x + off)
    by (intros; apply page_word; [done|unfold MDB_ALLOC_CHUNKSZ; lia]).
  unfold relisted, mng_prev_freelist, mng_next_freelist.
  destruct (Z.eqb_spec (list_of_lists bl) NULL) as [E|Hne]; cbn [negb].
  - rewrite bind_when_false, !bind_wr, !Hw by (done || lia). done.
  - destruct Hh as [?|Hh]; [done|].
    rewrite bind_when_true, !bind_wr, !Hw by (done || lia). done.
Qed.

Lemma relisted_kmem i a h s : md_kmem (relisted i a h s) =
  Pgent.with_mem (store (a + mng_prev_freelist) NULL) (Pgent.with_mem (store (a + mng_next_freelist) h)
    (if h =? NULL then md_kmem s else Pgent.with_mem (store (h + mng_prev_freelist) a) (md_kmem s))).
Proof. unfold relisted. now case_match. Qed.
Lemma relisted_buflists i a h s :
  md_buflists (relisted i a h s) = alter (bl_with_list_of_lists a) i (md_buflists s).
Proof. unfold relisted. now case_match. Qed.

(** a page put in front of a list *)
Lemma relisted_dll m a o :
  Forall page_addr (a :: o) -> NoDup (a :: o) -> dll m NULL o ->
  let h := hd NULL o in
  dll (store (a + mng_prev_freelist) NULL (store (a + mng_next_freelist) h
         (if h =? NULL then m else store (h + mng_prev_freelist) a m))) NULL (a :: o).
Proof.
  intros Hall Hnd Hd h. pose proof Hall as [Ha Ho]%Forall_cons. pose proof Hnd as [Hna Hndo]%NoDup_cons.
  cbn [dll]. split_and!.
  - apply load_store_eq.
  - rewrite load_store_ne, load_store_eq; [done|]. unfold mng_prev_freelist, mng_next_freelist. lia.
  - assert (Hoff : forall x, x ∈ o -> forall off, off = mng_prev_freelist \/ off = mng_next_freelist ->
      a + off <> x + mng_prev_freelist /\ a + off <> x + mng_next_freelist).
    { intros x Hx off Hof. rewrite Forall_forall in Ho.
      assert (a <> x) as Hne by congruence.
      destruct (pages_apart _ _ Ha (Ho x Hx) Hne), Hof as [-> | ->];
        unfold MDB_ALLOC_CHUNKSZ, mng_prev_freelist, mng_next_freelist in *; lia. }
    do 2 (apply dll_sto; [intros x Hx; apply (Hoff x Hx); tauto|]).
    unfold h. destruct o as [|x o]; [done|]. cbn [hd]. apply Forall_cons in Ho as [Hx Ho].
    pose proof Hx as (Hx0 & _ & _). destruct (Z.eqb_spec x NULL); [unfold NULL in *; lia|].
    now apply (dll_set_head _ _ NULL).
Qed.

Lemma head_page s pages order l i bl :
  pools_ok s pages order l -> md_buflists s !! i = Some bl ->
  list_of_lists bl = hd NULL (order i) /\
  (hd NULL (order i) = NULL \/
   page_addr (hd NULL (order i)) /\ hd NULL (order i) ∈ order i /\
   exists r, r ∈ pages /\ pa r = hd NULL (order i)).
Proof.
  intros Hok Hi. split; [now apply (po_heads _ _ _ _ Hok)|].
  destruct (order i) as [|x o] eqn:E; [now left|right]. cbn [hd].
  destruct (listed_page _ _ _ _ Hok i x) as (r & Hr & <- & _); [rewrite E; left|].
  split_and!; [now apply (pools_addr _ _ _ _ Hok)|left|now exists r].
Qed.

Lemma give_first fuel s R order l a i b sz mx :
  pools_ok s (Page a i [] :: R) order l ->
  geometry (md_buflists s) i = Some (sz, mx) -> is_slot a sz mx b ->
  exists s', mdb_free_buffer fuel b sz s = Ok (tt, s') /\
    pools_ok s' (Page a i [b] :: R) (oset order i (a :: order i)) l /\
    release_frame s s' (Page a i [] :: R) l b sz.
Proof.
  intros Hok Hg Hb. pose proof (not_elem_of_nil b) as Hnb.
  destruct (give_words_run fuel _ _ _ _ _ _ _ _ _ _ Hok Hg Hb Hnb) as [E _].
  destruct (give_words_ok _ _ _ _ _ _ _ _ _ _ Hok Hg Hb Hnb) as (Hk & Hp & Hd).
  change (Z.of_nat (S (length []))) with 1 in *. set (s2 := give_words a b 1 s) in *.
  assert (Hin : Page a i [] ∈ Page a i [] :: R) by left.
  pose proof (pools_addr _ _ _ _ Hok _ Hin) as Ha. simpl in Ha.
  destruct (pg_geom _ _ _ (pools_page _ _ _ _ Hok _ Hin)) as (sz' & mx' & Hg' & Hfit & _). simpl in Hg'.
  rewrite Hg in Hg'. injection Hg' as <- <-.
  assert (exists bl, md_buflists s !! i = Some bl) as (bl & Hi).
  { unfold geometry in Hg. destruct (md_buflists s !! i); [eauto|done]. }
  destruct (head_page _ _ _ _ _ _ Hok Hi) as [Hh Hhd].
  remember (hd NULL (order i)) as h eqn:Eh.
  assert (Hna : a ∉ order i).
  { intros Hx. apply (po_order _ _ _ _ Hok), listed_cons in Hx as [(_ & _ & Hf)|Hl]; [done|].
    now apply (unlisted_only _ _ _ _ _ Hok i). }
  pose proof (order_pages _ _ _ _ i Hok) as Hoa. pose proof (po_order_nodup _ _ _ _ Hok i) as Hnd.
  exists (relisted i a h s2). split_and!.
  - rewrite E. change (1 =? 1) with true. unfold buflist_at at 1. rewrite bind_gets. cbn match.
    rewrite (relist_run i a s2 bl Hi Ha); [now rewrite Hh|rewrite Hh; tauto].
  - assert (Hin' : forall r, r ∈ Page a i [b] :: R -> page_addr (pa r)).
    { intros r [->|Hr]%elem_of_cons; [done|]. apply (pools_addr _ _ _ _ Hok). now right. }
    split.
    + rewrite relisted_kmem. do 2 (apply kmem_ok_with_mem; [apply (page_not_chunk _ _ _ _ _ _ Hok Hin);
        unfold mng_prev_freelist, mng_next_freelist, MDB_ALLOC_CHUNKSZ; lia|]).
      destruct Hhd as [Hh0|(Hha & _ & r & Hr & Er)]; [now rewrite Hh0|]. destruct (Z.eqb_spec h NULL); [done|].
      apply kmem_ok_with_mem; [|done]. rewrite <- Er. apply (page_not_chunk _ _ _ _ _ _ Hok Hr).
      unfold mng_prev_freelist, MDB_ALLOC_CHUNKSZ. lia.
    + apply (po_nodup _ _ _ _ Hok).
    + rewrite relisted_kmem, relisted_buflists. apply (pools_set_lol s2 _ i a) in Hp.
      cbn [mem Pgent.with_mem].
      do 2 (apply Forall_page_sto; [done|unfold mng_prev_freelist, mng_next_freelist, MDB_ALLOC_CHUNKSZ; lia
        |intros r Hr; split; [now apply Hin'|tauto]|]).
      destruct Hhd as [Hh0|[Hha _]]; [now rewrite Hh0|]. destruct (Z.eqb_spec h NULL); [done|]. simpl.
      apply Forall_page_sto; [done|unfold mng_prev_freelist, MDB_ALLOC_CHUNKSZ; lia| |done].
      intros r Hr. split; [now apply Hin'|tauto].
    + intros j bl'. rewrite relisted_buflists, list_lookup_alter. unfold oset.
      case_decide; [intros (bl0 & _ & ->)%fmap_Some; done|apply (po_heads _ _ _ _ Hok)].
    + intros j. rewrite relisted_kmem. unfold oset. case_decide as Ej; [subst j|].
      * pose proof (relisted_dll (mem (md_kmem s2)) a (order i)) as H. rewrite <- Eh in H. cbn [mem Pgent.with_mem].
        assert (mem (if h =? NULL then md_kmem s2 else Pgent.with_mem (store (h + mng_prev_freelist) a) (md_kmem s2))
          = if h =? NULL then mem (md_kmem s2) else store (h + mng_prev_freelist) a (mem (md_kmem s2)))
          as -> by now destruct (h =? NULL).
        apply H; [now constructor|now constructor|apply Hd].
      * cbn [mem Pgent.with_mem]. pose proof (order_pages _ _ _ _ j Hok) as Hl. rewrite Forall_forall in Hl.
        assert (Hoff : forall c, page_addr c -> c ∉ order j -> forall off,
          off = mng_next_freelist \/ off = mng_prev_freelist ->
          forall x, x ∈ order j -> c + off <> x + mng_prev_freelist /\ c + off <> x + mng_next_freelist).
        { intros c Hc Hcn off Hof x Hx. assert (c <> x) as Hne by congruence.
          destruct (pages_apart _ _ Hc (Hl x Hx) Hne), Hof as [-> | ->];
            unfold MDB_ALLOC_CHUNKSZ, mng_prev_freelist, mng_next_freelist in *; lia. }
        assert (a ∉ order j).
        { intros Hx. apply (po_order _ _ _ _ Hok), listed_cons in Hx as [(_ & _ & Hf)|Hx]; [done|].
          now apply (unlisted_only _ _ _ _ _ Hok j). }
        do 2 (apply dll_sto; [intros x Hx; apply Hoff; tauto|]).
        destruct Hhd as [Hh0|(Hha & Hhi & _)]; [rewrite Hh0; apply Hd|]. destruct (Z.eqb_spec h NULL); [apply Hd|]. simpl.
        apply dll_sto; [|apply Hd]. intros x Hx. apply Hoff; [done| |tauto|done].
        intros Hj. apply Ej. now apply (order_disjoint _ _ _ _ i j h Hok).
    + intros j x. rewrite listed_cons. simpl. unfold oset. pose proof (po_order _ _ _ _ Hok j x) as H.
      rewrite listed_cons in H. simpl in H. case_decide as Ej.
      * subst j. rewrite elem_of_cons. naive_solver.
      * naive_solver.
    + intros j. unfold oset. case_decide; [now constructor|apply (po_order_nodup _ _ _ _ Hok)].
    + intros c r Hc [->|Hr]%elem_of_cons.
      * apply (po_chunks _ _ _ _ Hok c _ Hc Hin).
      * apply (po_chunks _ _ _ _ Hok c); [done|now right].
  - split.
    + split; [|unfold relisted; now destruct (h =? NULL)]. intros j. rewrite relisted_buflists. apply geometry_set_lol.
    + intros p Hn Hpb.
      assert (Hh0 : forall off r, r ∈ Page a i [] :: R -> off = mng_next_freelist \/ off = mng_prev_freelist -> p <> pa r + off).
      { intros off r Hr Hof. apply (not_owned_header _ _ _ _ _ off _ Hok Hr); [|done].
        unfold mng_next_freelist, mng_prev_freelist, sizeof_mdb_mng_t in *. lia. }
      pose proof (Hh0 mng_next_freelist _ Hin ltac:(tauto)). pose proof (Hh0 mng_prev_freelist _ Hin ltac:(tauto)).
      simpl in *. unfold lds. rewrite relisted_kmem. cbn [mem Pgent.with_mem]. rewrite !load_store_ne by congruence.
      change (load (mem (md_kmem s)) p) with (lds s p).
      rewrite <- (give_words_frame s R order l a i b [] sz mx 1 p Hok Hg Hfit Hn Hpb). fold s2.
      destruct Hhd as [Hh0'|(Hha & _ & r & Hr & Er)]; [now rewrite Hh0'|]. destruct (Z.eqb_spec h NULL); [done|]. simpl.
      rewrite load_store_ne; [done|]. rewrite <- Er. intros <-. now apply (Hh0 mng_prev_freelist r Hr); [right|].
Qed.

(** *** A page whose last buffer comes back *)

(** memory after the links around a page skip it *)
Definition unlink_mem (prev next : Z) (m : gmap Z Z) : gmap Z Z :=
  let m := if next =? NULL then m else store (next + mng_prev_freelist) prev m in
  if prev =? NULL then m else store (prev + mng_next_freelist) next m.

Lemma page_nonnull a : page_addr a -> (a =? NULL) = false.
Proof. intros (Ha & _). apply Z.eqb_neq. unfold NULL. lia. Qed.

Lemma unlink_mem_other prev next m a off :
  page_addr a -> prev = NULL \/ page_addr prev -> next = NULL \/ page_addr next ->
  0 <= off < MDB_ALLOC_CHUNKSZ ->
  (a = next -> off <> mng_prev_freelist) -> (a = prev -> off <> mng_next_freelist) ->
  load (unlink_mem prev next m) (a + off) = load m (a + off).
Proof.
  intros Ha Hp Hn Ho H1 H2. unfold unlink_mem.
  assert (Hs : forall c o, page_addr c -> 0 <= o < MDB_ALLOC_CHUNKSZ -> (a = c -> off <> o) -> c + o <> a + off).
  { intros c o Hc Hoo Hne E. destruct (decide (a = c)) as [Eac|Hac]; [subst; specialize (Hne eq_refl); lia|].
    destruct (pages_apart _ _ Ha Hc Hac); lia. }
  unfold mng_prev_freelist, mng_next_freelist, MDB_ALLOC_CHUNKSZ in *.
  destruct (Z.eqb_spec prev NULL) as [|Hp'].
  - destruct (Z.eqb_spec next NULL) as [|Hn']; [done|]. destruct Hn as [|Hn]; [done|].
    rewrite load_store_ne; [done|]. apply Hs; [done|lia|done].
  - destruct Hp as [|Hp]; [done|]. rewrite load_store_ne by (apply Hs; [done|lia|done]).
    destruct (Z.eqb_spec next NULL) as [|Hn']; [done|]. destruct Hn as [|Hn]; [done|].
    rewrite load_store_ne; [done|]. apply Hs; [done|lia|done].
Qed.

Lemma dll_links m p A a B :
  dll m p (A ++ a :: B) ->
  load m (a + mng_prev_freelist) = default p (last A) /\ load m (a + mng_next_freelist) = hd NULL B.
Proof.
  revert p. induction A as [|x A IH]; intros p; simpl.
  - intros (H1 & H2 & _). done.
  - intros (_ & _ & H). destruct (IH x H) as [-> ->]. split; [|done]. destruct A; [done|].
    rewrite last_cons_cons. destruct (last (z :: A)) eqn:E; [done|]. now apply last_None in E.
Qed.

Lemma dll_suffix m m' x B :
  (forall y, y ∈ B -> load m' (y + mng_prev_freelist) = load m (y + mng_prev_freelist) /\
                      load m' (y + mng_next_freelist) = load m (y + mng_next_freelist)) ->
  dll m x B -> dll m' x B.
Proof. apply dll_frame. Qed.

Lemma dll_unlink m p A a B :
  NoDup (A ++ a :: B) -> Forall page_addr (A ++ a :: B) -> p = NULL \/ page_addr p -> p ∉ A ++ a :: B ->
  dll m p (A ++ a :: B) -> dll (unlink_mem (default p (last A)) (hd NULL B) m) p (A ++ B).
Proof.
  revert p. induction A as [|x A IH]; intros p Hnd Hall Hp Hpn.
  - simpl. intros (H1 & H2 & H3). simpl in Hnd, Hall. apply NoDup_cons in Hnd as [Ha Hnd].
    apply Forall_cons in Hall as [Haa Hall]. destruct B as [|y B]; [done|]. cbn [hd].
    apply Forall_cons in Hall as [Hy Hall]. apply NoDup_cons in Hnd as [Hyb Hnd].
    assert (p ∉ y :: B) as Hpn' by set_solver. destruct H3 as (H4 & H5 & H6).
    rewrite Forall_forall in Hall. cbn [dll]. split_and!.
    + unfold unlink_mem. rewrite (page_nonnull y Hy). destruct (Z.eqb_spec p NULL); [apply load_store_eq|].
      destruct Hp as [|Hp]; [done|]. rewrite load_store_ne; [apply load_store_eq|].
      assert (p <> y) as Hne by set_solver. destruct (pages_apart _ _ Hp Hy Hne);
        unfold MDB_ALLOC_CHUNKSZ, mng_prev_freelist, mng_next_freelist in *; lia.
    + rewrite unlink_mem_other; [done|done|done|now right|unfold mng_next_freelist, MDB_ALLOC_CHUNKSZ; lia| |].
      * intros _. unfold mng_next_freelist, mng_prev_freelist. lia.
      * intros ->. set_solver.
    + apply (dll_frame m); [|done]. intros z Hz. split;
        (rewrite unlink_mem_other; [done|now apply Hall|done|now right
          |unfold mng_next_freelist, mng_prev_freelist, MDB_ALLOC_CHUNKSZ; lia|..]);
        intros ->; set_solver.
  - cbn [app dll]. intros (H1 & H2 & H3). simpl in Hnd, Hall. apply NoDup_cons in Hnd as [Hx Hnd].
    apply Forall_cons in Hall as [Hxa Hall].
    assert (default p (last (x :: A)) = default x (last A)) as ->.
    { destruct A as [|y A]; [done|]. rewrite last_cons_cons.
      destruct (last (y :: A)) eqn:E; [done|]. now apply last_None in E. }
    pose proof (IH x Hnd Hall ltac:(now right) Hx H3) as Hrest.
    assert (Hnext : hd NULL B = NULL \/ page_addr (hd NULL B) /\ hd NULL B ∈ B).
    { destruct B as [|y B]; [now left|right]. cbn [hd]. split; [|left].
      rewrite Forall_forall in Hall. apply Hall. apply elem_of_app. right. right. left. }
    assert (Hprev : page_addr (default x (last A)) /\ (A <> [] -> default x (last A) ∈ A)).
    { destruct (last A) as [z|] eqn:E; simpl.
      - apply last_Some in E as [A' ->]. rewrite Forall_forall in Hall. split; [|intros _; set_solver].
        apply Hall. set_solver.
      - apply last_None in E as ->. done. }
    split_and!; [| |done].
    + rewrite unlink_mem_other; [done|done|right; apply Hprev|tauto|unfold mng_prev_freelist, MDB_ALLOC_CHUNKSZ; lia| |].
      * intros E. exfalso. destruct Hnext as [E'|[_ Hin]]; [unfold page_addr, NULL in *; lia|].
        rewrite <- E in Hin. apply Hx, elem_of_app. right. now right.
      * intros _. unfold mng_next_freelist, mng_prev_freelist. lia.
    + destruct A as [|y A]; simpl.
      * unfold unlink_mem. rewrite (page_nonnull x Hxa). apply load_store_eq.
      * rewrite unlink_mem_other; [done|done|right; apply Hprev|tauto|unfold mng_next_freelist, MDB_ALLOC_CHUNKSZ; lia| |].
        -- intros E _. destruct Hnext as [E'|[_ Hin]]; [unfold page_addr, NULL in *; lia|].
           rewrite <- E in Hin. apply Hx, elem_of_app. right. now right.
        -- intros E. exfalso. destruct Hprev as [_ Hin]. rewrite <- E in Hin. apply Hx, elem_of_app. left. now apply Hin.
Qed.

Definition unlinked (i : nat) (prev next : Z) (s : mdb_t) : mdb_t :=
  let s := md_with_kmem (Pgent.with_mem (unlink_mem prev next) (md_kmem s)) s in
  if prev =? NULL then set_lol i next s else s.

Definition kmem_free (fuel : nat) (a : Z) : MD unit :=
  on_kmem (fun k => match Kmem.free fuel a MDB_ALLOC_CHUNKSZ k with
                    | Ok k => Ok (tt, k) | Hang => Hang | Crash => Crash end).

Lemma return_run fuel i a s bl A B :
  md_buflists s !! i = Some bl -> list_of_lists bl = hd NULL (A ++ a :: B) ->
  NoDup (A ++ a :: B) -> Forall page_addr (A ++ a :: B) -> dll (mem (md_kmem s)) NULL (A ++ a :: B) ->
  return_page fuel i a s = kmem_free fuel a (unlinked i (default NULL (last A)) (hd NULL B) s).
Proof.
  intros Hi Hl Hnd Hall Hd. pose proof (dll_links _ _ _ _ _ Hd) as [Hpv Hnx].
  set (prev := default NULL (last A)) in *. set (next := hd NULL B) in *.
  assert (Ha : page_addr a) by (rewrite Forall_forall in Hall; apply Hall; set_solver).
  assert (Hn : next = NULL \/ page_addr next).
  { unfold next. destruct B as [|y B]; [now left|right]. rewrite Forall_forall in Hall. apply Hall. set_solver. }
  assert (Hp : if decide (A = []) then prev = NULL else page_addr prev /\ list_of_lists bl <> a).
  { unfold prev. destruct A as [|x A _] using rev_ind; [done|]. rewrite last_snoc.
    rewrite decide_False by now destruct A.
    split; [rewrite Forall_forall in Hall; apply Hall; set_solver|]. rewrite Hl. intros E.
    apply NoDup_app in Hnd as (_ & Hnd & _). apply (Hnd a); [|left]. rewrite <- E. destruct A; simpl; set_solver. }
  assert (Hw : forall x off, page_addr x -> 0 <= off < 40 -> w64 (x + off) = x + off)
    by (intros; apply page_word; [done|unfold MDB_ALLOC_CHUNKSZ; lia]).
  assert (Hnz : forall x, page_addr x -> x <> NULL) by (intros x (Hx & _) ->; unfold NULL in *; lia).
  unfold return_page, mng_next_freelist, mng_prev_freelist, unlinked, unlink_mem in *.
  rewrite !bind_rd, !Hw by (auto || lia).
  fold (lds s (a + 24)) in Hpv. fold (lds s (a + 16)) in Hnx. rewrite Hnx, Hpv.
  set (s1 := if next =? NULL then s else sto (next + 24) prev s).
  assert (forall Bt (k : unit -> MD Bt), bind (when (negb (next =? NULL)) (wr next 24 prev)) k s = k tt s1) as E1.
  { intros Bt k. unfold s1. destruct (Z.eqb_spec next NULL) as [_|Hne]; cbn [negb]; [now rewrite bind_when_false|].
    destruct Hn as [|Hn]; [done|]. now rewrite bind_when_true, bind_wr, Hw by (auto || lia). }
  rewrite E1. unfold buflist_at. rewrite bind_gets.
  assert (md_buflists s1 = md_buflists s) as Eb by (unfold s1; now destruct (next =? NULL)).
  rewrite Eb, (nth_lookup_Some _ _ _ _ Hi). fold (kmem_free fuel a).
  case_decide as EA.
  - assert (prev =? NULL = true) as -> by now rewrite Hp.
    assert (list_of_lists bl = a) as -> by now rewrite Hl, EA. rewrite Z.eqb_refl, bind_set_lol. f_equal.
    unfold s1, set_lol. clear. now destruct (next =? NULL), s as [[] ? ?].
  - destruct Hp as [Hp Hne]. apply Z.eqb_neq in Hne as ->. rewrite (page_nonnull prev Hp). cbn [negb].
    rewrite bind_when_true, bind_wr, Hw by (auto || lia). f_equal.
    unfold s1. clear. now destruct (next =? NULL), s as [[] ? ?].
Qed.

Lemma unlink_mem_outside prev next m q :
  (next = NULL \/ q <> next + mng_prev_freelist) -> (prev = NULL \/ q <> prev + mng_next_freelist) ->
  load (unlink_mem prev next m) q = load m q.
Proof.
  intros Hn Hp. unfold unlink_mem. destruct (Z.eqb_spec prev NULL), (Z.eqb_spec next NULL);
    rewrite ?load_store_ne; intuition congruence.
Qed.

Lemma unlinked_kmem i prev next s :
  md_kmem (unlinked i prev next s) = Pgent.with_mem (unlink_mem prev next) (md_kmem s).
Proof. unfold unlinked. now case_match. Qed.

(** the page's chunks are not free *)
Lemma page_free_pre s R order l r : pools_ok s (r :: R) order l -> free_pre (pa r) 3 l.
Proof.
  intros Hok. assert (Hin : r ∈ r :: R) by left. pose proof (pools_addr _ _ _ _ Hok r Hin) as (Ha & [x Hx] & Hb).
  unfold MDB_ALLOC_CHUNKSZ, KMEM_CHUNKSIZE in *. unfold free_pre, KMEM_CHUNKSIZE.
  split_and!; [done|exists (x * 4); lia|lia|].
  intros c (k & Hk & ->)%elem_of_block Hc. apply (chunk_outside _ _ _ _ Hok _ _ Hc Hin).
  unfold KMEM_CHUNKSIZE, MDB_ALLOC_CHUNKSZ in *. lia.
Qed.

Lemma free_spec_elem a n l c : c ∈ free_spec a n l <-> c ∈ l \/ c ∈ block a n.
Proof.
  unfold free_spec. rewrite !elem_of_app, !list_elem_of_filter.
  destruct (decide (c < a)); intuition lia.
Qed.

(** the neighbours of a page in its list *)
Lemma neighbours s pages order l i A a B :
  pools_ok s pages order l -> order i = A ++ a :: B ->
  let ok c := c = NULL \/ page_addr c /\ c ∈ order i /\ c <> a in
  ok (default NULL (last A)) /\ ok (hd NULL B).
Proof.
  intros Hok E ok. pose proof (order_pages _ _ _ _ i Hok) as Hall. pose proof (po_order_nodup _ _ _ _ Hok i) as Hnd.
  rewrite E in Hall, Hnd. rewrite Forall_forall in Hall. unfold ok. rewrite E.
  apply NoDup_app in Hnd as (_ & H1 & [H2 _]%NoDup_cons). split.
  - destruct A as [|x A _] using rev_ind; [now left|right]. rewrite last_snoc. simpl.
    assert (x ∈ (A ++ [x]) ++ a :: B) by (apply elem_of_app; left; apply elem_of_app; right; left).
    split_and!; [now apply Hall|done|]. intros ->. apply (H1 a); [apply elem_of_app; right; left|left].
  - destruct B as [|x B]; [now left|right]. cbn [hd].
    assert (x ∈ A ++ a :: x :: B) by (apply elem_of_app; right; right; left).
    split_and!; [now apply Hall|done|]. intros ->. apply H2. left.
Qed.

Lemma unlinked_geometry i prev next s j :
  geometry (md_buflists (unlinked i prev next s)) j = geometry (md_buflists s) j.
Proof. unfold unlinked. case_match; [apply geometry_set_lol|done]. Qed.

(** words of other pages survive the removal of a page *)
Lemma page_ok_words m m' bls bls' r :
  geometry bls' (pl r) = geometry bls (pl r) ->
  (forall off, 0 <= off < MDB_ALLOC_CHUNKSZ -> off <> mng_prev_freelist -> off <> mng_next_freelist ->
     load m' (pa r + off) = load m (pa r + off)) ->
  page_ok m bls r -> page_ok m' bls' r.
Proof.
  intros Hg Hw Hr. destruct (pg_geom _ _ _ Hr) as (sz & mx & _ & Hfit & Hsl).
  unfold mng_next_freelist, mng_prev_freelist, MDB_ALLOC_CHUNKSZ in *.
  apply (page_ok_frame m m' bls bls'); [done|..|done].
  1-3: apply Hw; unfold mng_num_free, mng_bl, mng_freelist; lia.
  intros b Hb. rewrite Forall_forall in Hsl. pose proof (slot_bounds _ _ _ _ Hfit (Hsl b Hb)) as Hbd.
  unfold fits, sizeof_mdb_mng_t, MDB_ALLOC_CHUNKSZ in *. replace b with (pa r + (b - pa r)) by lia. apply Hw; lia.
Qed.

Lemma unlinked_ok fuel s R order l i a b frees A B :
  let s2 := give_words a b (Z.of_nat (S (length frees))) s in
  let s3 := unlinked i (default NULL (last A)) (hd NULL B) s2 in
  pools_ok s (Page a i frees :: R) order l -> order i = A ++ a :: B ->
  kmem_ok (md_kmem s2) l ->
  Forall (page_ok (mem (md_kmem s2)) (md_buflists s)) R -> (forall j, dll (mem (md_kmem s2)) NULL (order j)) ->
  (length l <= fuel)%nat -> (3 <= fuel)%nat ->
  exists s', kmem_free fuel a s3 = Ok (tt, s') /\ pools_ok s' R (oset order i (A ++ B)) (free_spec a 4 l) /\
    md_buflists s' = md_buflists s3 /\ md_flushes s' = md_flushes s /\
    (forall y, y ∉ block a 4 -> y ∉ l -> lds s' y = lds s3 y).
Proof.
  intros s2 s3 Hok Eo Hk Hp Hd Hf1 Hf2. set (prev := default NULL (last A)) in *. set (next := hd NULL B) in *.
  assert (Hin : Page a i frees ∈ Page a i frees :: R) by left.
  pose proof (pools_addr _ _ _ _ Hok _ Hin) as Ha. simpl in Ha.
  destruct (neighbours _ _ _ _ _ _ _ _ Hok Eo) as [Hpv Hnx]. fold prev in Hpv. fold next in Hnx.
  assert (Hlnk : forall c, c = NULL \/ page_addr c /\ c ∈ order i /\ c <> a -> c = NULL \/
    exists r, r ∈ Page a i frees :: R /\ pa r = c).
  { intros c [->|(_ & Hc & _)]; [now left|right]. destruct (listed_page _ _ _ _ Hok i c Hc) as (r & Hr & E & _).
    now exists r. }
  assert (Hk3 : kmem_ok (md_kmem s3) l).
  { unfold s3. rewrite unlinked_kmem. destruct Hk as (H1 & H2 & H3 & H4). split_and!; [|done..]. simpl.
    apply (seg_frame (mem (md_kmem s2))); [|done]. intros c Hc. apply unlink_mem_outside.
    - destruct (Hlnk _ Hnx) as [->|(r & Hr & <-)]; [now left|right]. intros ->.
      apply (page_not_chunk _ _ _ _ r mng_prev_freelist Hok Hr); [|done]. unfold mng_prev_freelist, MDB_ALLOC_CHUNKSZ. lia.
    - destruct (Hlnk _ Hpv) as [->|(r & Hr & <-)]; [now left|right]. intros ->.
      apply (page_not_chunk _ _ _ _ r mng_next_freelist Hok Hr); [|done]. unfold mng_next_freelist, MDB_ALLOC_CHUNKSZ. lia. }
  destruct (free_refines fuel a 3 (md_kmem s3) l Hk3 (page_free_pre _ _ _ _ _ Hok) Hf1 Hf2) as (k' & Ek & Hk' & Hfr).
  change (KMEM_CHUNKSIZE * Z.of_nat 4) with MDB_ALLOC_CHUNKSZ in Ek.
  exists (md_with_kmem k' s3). split_and!; [unfold kmem_free, on_kmem; now rewrite Ek| |done|unfold s3, unlinked; now case_match|exact Hfr].
  assert (HR : forall x, x ∈ R -> page_addr (pa x) /\ pa x <> a).
  { intros x Hx. split; [apply (pools_addr _ _ _ _ Hok); now right|]. intros E.
    pose proof (po_nodup _ _ _ _ Hok) as [Hn _]%NoDup_cons. apply Hn. apply list_elem_of_fmap. now exists x. }
  assert (Hfree : forall x off, (exists r, r ∈ R /\ pa r = x) -> 0 <= off < MDB_ALLOC_CHUNKSZ ->
    load (mem k') (x + off) = load (unlink_mem prev next (mem (md_kmem s2))) (x + off)).
  { intros x off (r & Hr & <-) Ho. destruct (HR r Hr) as [Hra Hne]. rewrite Hfr.
    - unfold s3. now rewrite unlinked_kmem.
    - intros (k & Hk0 & E)%elem_of_block. destruct (pages_apart _ _ Hra Ha Hne);
        unfold MDB_ALLOC_CHUNKSZ, KMEM_CHUNKSIZE in *; lia.
    - apply (page_not_chunk _ _ _ _ _ _ Hok); [now right|done]. }
  assert (Hadr : forall c, c = NULL \/ page_addr c /\ c ∈ order i /\ c <> a -> c = NULL \/ page_addr c) by tauto.
  assert (Horder : forall j x, x ∈ order j -> x <> a -> exists r, r ∈ R /\ pa r = x).
  { intros j x Hx Hne. destruct (listed_page _ _ _ _ Hok j x Hx) as (r & [->|Hr]%elem_of_cons & E & _); [done|].
    now exists r. }
  pose proof (order_pages _ _ _ _ i Hok) as Hall. pose proof (po_order_nodup _ _ _ _ Hok i) as Hnd.
  assert (HpA : A <> [] -> page_addr prev).
  { intros HA. unfold prev. destruct A as [|x A' _] using rev_ind; [done|]. rewrite last_snoc.
    rewrite Forall_forall in Hall. apply Hall. rewrite Eo. set_solver. }
  split.
  - done.
  - now pose proof (po_nodup _ _ _ _ Hok) as [_ ?]%NoDup_cons.
  - rewrite Forall_forall in Hp |- *. intros r Hr. apply (page_ok_words (mem (md_kmem s2)) _ (md_buflists s)); [| |auto].
    { unfold s3. apply (unlinked_geometry i prev next s2). }
    intros off Ho H1 H2. simpl. rewrite Hfree by eauto. apply unlink_mem_other; [now apply HR|auto|auto|done|done|done].
  - intros j bl. simpl. unfold s3, unlinked. pose proof (po_heads _ _ _ _ Hok j) as Hh. unfold oset.
    destruct A as [|x A].
    + unfold prev. simpl. rewrite list_lookup_alter. case_decide; [intros (bl0 & _ & ->)%fmap_Some; done|apply Hh].
    + rewrite (page_nonnull prev) by now apply HpA.
      case_decide as Ej; [|apply Hh]. subst j. intros Hj. rewrite (Hh bl Hj), Eo. done.
  - intros j. cbn [md_kmem md_with_kmem]. unfold oset. case_decide as Ej.
    + subst j. rewrite Eo in Hnd, Hall.
      apply (dll_frame (unlink_mem prev next (mem (md_kmem s2)))).
      * intros x Hx. assert (exists r, r ∈ R /\ pa r = x) as Hxr.
        { apply (Horder i); [rewrite Eo; set_solver|]. intros ->.
          apply NoDup_app in Hnd as (_ & H1 & [H2 _]%NoDup_cons). set_solver. }
        split; apply Hfree; (done || unfold mng_prev_freelist, mng_next_freelist, MDB_ALLOC_CHUNKSZ; lia).
      * apply (dll_unlink _ NULL A a B); [done|done|now left| |rewrite <- Eo; apply Hd].
        rewrite Forall_forall in Hall. intros Hx%Hall. unfold page_addr, NULL in *. lia.
    + apply (dll_frame (mem (md_kmem s2))); [|apply Hd]. intros x Hx.
      assert (x <> a) as Hxa.
      { intros ->. apply Ej, (order_disjoint _ _ _ _ i j a Hok); [rewrite Eo; set_solver|done]. }
      assert (Hxp : page_addr x) by (pose proof (order_pages _ _ _ _ j Hok) as H; rewrite Forall_forall in H; auto).
      assert (Hne : forall c, c = NULL \/ page_addr c /\ c ∈ order i /\ c <> a -> x <> c).
      { intros c [->|(_ & Hc & _)] ->; [unfold page_addr, NULL in *; lia|].
        apply Ej, (order_disjoint _ _ _ _ i j c Hok Hc Hx). }
      pose proof (Hne _ Hpv) as N1. pose proof (Hne _ Hnx) as N2.
      split; (rewrite Hfree; [|eauto|unfold mng_prev_freelist, mng_next_freelist, MDB_ALLOC_CHUNKSZ; lia]);
        (apply unlink_mem_other; [done|auto|auto|unfold mng_prev_freelist, mng_next_freelist, MDB_ALLOC_CHUNKSZ; lia|done..]).
  - intros j x. pose proof (po_order _ _ _ _ Hok j x) as H. rewrite listed_cons in H. simpl in H.
    unfold oset. case_decide as Ej.
    + subst j. rewrite Eo in H, Hnd. apply NoDup_app in Hnd as (_ & H1 & [H2 _]%NoDup_cons). split.
      * intros Hx. destruct (proj1 H) as [(<- & _)|Hl]; [set_solver|set_solver|done].
      * intros Hl. assert (x <> a) by (intros ->; now apply (unlisted_only _ _ _ _ _ Hok i)). set_solver.
    + rewrite H. split; [|tauto]. intros [(<- & E & _)|Hl]; [done|done].
  - intros j. unfold oset. case_decide; [|apply (po_order_nodup _ _ _ _ Hok)]. rewrite Eo in Hnd.
    apply NoDup_app in Hnd as (H1 & H2 & [H3 H4]%NoDup_cons). apply NoDup_app.
    split_and!; [done| |done]. intros x Hx Hxb. apply (H2 x Hx). now right.
  - intros c r [Hc|(k & Hk0 & ->)%elem_of_block]%free_spec_elem Hr.
    + apply (po_chunks _ _ _ _ Hok c); [done|now right].
    + destruct (HR r Hr) as [Hra Hne]. destruct (pages_apart _ _ Hra Ha Hne);
        unfold MDB_ALLOC_CHUNKSZ, KMEM_CHUNKSIZE in *; lia.
Qed.

(** if as many buffers are free as there are, every buffer is free *)
Lemma all_free a sz mx l b :
  0 < sz -> 0 <= mx -> NoDup l -> Forall (is_slot a sz mx) l -> Z.of_nat (length l) = mx ->
  is_slot a sz mx b -> b ∈ l.
Proof.
  intros Hs Hm Hnd Hl Hlen Hb. destruct (decide (b ∈ l)) as [|Hn]; [done|].
  pose proof (slots_number a sz mx (b :: l) Hs Hm ltac:(now constructor) ltac:(now constructor)) as H.
  cbn [length] in H. lia.
Qed.

Lemma give_last fuel s R order l a i b frees sz mx :
  pools_ok s (Page a i frees :: R) order l ->
  geometry (md_buflists s) i = Some (sz, mx) -> is_slot a sz mx b -> b ∉ frees ->
  frees <> [] -> Z.of_nat (S (length frees)) = mx -> (length l <= fuel)%nat -> (3 <= fuel)%nat ->
  exists s' order', mdb_free_buffer fuel b sz s = Ok (tt, s') /\ pools_ok s' R order' (free_spec a 4 l) /\
    release_frame s s' (Page a i frees :: R) l b sz.
Proof.
  intros Hok Hg Hb Hnb Hne Hmx Hf1 Hf2.
  destruct (give_words_run fuel _ _ _ _ _ _ _ _ _ _ Hok Hg Hb Hnb) as [E _].
  destruct (give_words_ok _ _ _ _ _ _ _ _ _ _ Hok Hg Hb Hnb) as (Hk & [_ Hp]%Forall_cons & Hd).
  set (s2 := give_words a b (Z.of_nat (S (length frees))) s) in *.
  assert (Hin : Page a i frees ∈ Page a i frees :: R) by left.
  pose proof (pools_page _ _ _ _ Hok _ Hin) as Hpg.
  destruct (pg_geom _ _ _ Hpg) as (sz' & mx' & Hg' & Hfit & Hsl). simpl in Hg', Hsl.
  rewrite Hg in Hg'. injection Hg' as <- <-.
  assert (a ∈ order i) as (A & B & Eo)%list_elem_of_split.
  { apply (po_order _ _ _ _ Hok), listed_cons. left. done. }
  assert (exists bl, md_buflists s !! i = Some bl /\ max_free bl = mx) as (bl & Hi & Hm).
  { unfold geometry in Hg. destruct (md_buflists s !! i) as [bl|]; [|done]. injection Hg. eauto. }
  destruct (unlinked_ok fuel s R order l i a b frees A B Hok Eo Hk Hp Hd Hf1 Hf2) as (s' & Ef & Hok' & Hb' & Hfl & Hfr).
  exists s', (oset order i (A ++ B)). split_and!; [|done|].
  - rewrite E. unfold buflist_at. rewrite bind_gets. change (md_buflists s2) with (md_buflists s).
    rewrite (nth_lookup_Some _ _ _ _ Hi), Hm, Hmx, Z.eqb_refl.
    assert (mx =? 1 = false) as -> by (apply Z.eqb_neq; destruct frees; [done|cbn [length] in *; lia]).
    cbn [when]. rewrite <- Ef. apply (return_run fuel i a s2 bl A B); [done| | | |].
    + rewrite <- Eo. now apply (po_heads _ _ _ _ Hok).
    + rewrite <- Eo. apply (po_order_nodup _ _ _ _ Hok).
    + rewrite <- Eo. apply (order_pages _ _ _ _ _ Hok).
    + rewrite <- Eo. apply Hd.
  - split.
    + split; [|done]. intros j. rewrite Hb'. fold s2. apply (unlinked_geometry _ _ _ s2).
    + intros p Hn Hpb. rewrite Hfr.
      * rewrite <- (give_words_frame s R order l a i b frees sz mx (Z.of_nat (S (length frees))) p Hok Hg Hfit Hn Hpb). fold s2.
        unfold lds. rewrite unlinked_kmem. simpl.
        destruct (neighbours _ _ _ _ _ _ _ _ Hok Eo) as [Hpv Hnx].
        assert (Hlnk : forall c off, c = NULL \/ page_addr c /\ c ∈ order i /\ c <> a -> 0 <= off < sizeof_mdb_mng_t ->
          c = NULL \/ p <> c + off).
        { intros c off [->|(_ & Hc & _)] Ho; [now left|right].
          destruct (listed_page _ _ _ _ Hok i c Hc) as (r & Hr & <- & _).
          now apply (not_owned_header _ _ _ _ _ off p Hok Hr). }
        apply unlink_mem_outside; apply Hlnk; (done || unfold mng_prev_freelist, mng_next_freelist, sizeof_mdb_mng_t; lia).
      * intros (k & Hk0 & Ep)%elem_of_block. apply Hn. right. exists (Page a i frees). split; [done|].
        unfold KMEM_CHUNKSIZE, MDB_ALLOC_CHUNKSZ in *. simpl. split; [lia|]. intros sz0 mx0 c Hg0 Hc Hnc.
        rewrite Hg in Hg0. injection Hg0 as <- <-. assert (c ∈ b :: frees) as Hcf.
        { apply (all_free a sz mx); [unfold fits in Hfit; lia..| | | |done].
          - apply NoDup_cons. split; [done|apply (pg_nodup _ _ _ Hpg)].
          - now apply Forall_cons.
          - cbn [length]. lia. }
        apply elem_of_cons in Hcf as [->|?]; done.
      * intros Hl. apply Hn. left. exists p. split; [done|]. unfold KMEM_CHUNKSIZE. lia.
Qed.

(** ** Live buffers and the words of the allocator *)

Lemma pools_ok_perm s pages pages' order l :
  pages ≡ₚ pages' -> pools_ok s pages order l -> pools_ok s pages' order l.
Proof.
  intros Hp [H1 H2 H3 H4 H5 H6 H7 H8]. split; try done.
  - now rewrite <- Hp.
  - now rewrite <- Hp.
  - intros i a. rewrite H6. unfold listed. split; intros (r & Hr & H); exists r; (split; [|done]);
      [now rewrite <- Hp|now rewrite Hp].
  - intros c r Hc Hr. apply H8; [done|now rewrite Hp].
Qed.

Lemma is_live_perm bls pages pages' b sz : pages ≡ₚ pages' -> is_live bls pages b sz <-> is_live bls pages' b sz.
Proof.
  intros Hp. unfold is_live. split; intros (r & mx & Hr & H); exists r, mx; (split; [|done]);
    [now rewrite <- Hp|now rewrite Hp].
Qed.

Lemma owns_perm bls pages pages' l p : pages ≡ₚ pages' -> owns bls pages l p <-> owns bls pages' l p.
Proof.
  intros Hp. unfold owns. split; (intros [H|(r & Hr & H)]; [now left|right; exists r; split; [|done]]);
    [now rewrite <- Hp|now rewrite Hp].
Qed.

Lemma is_live_static s s' pages b sz :
  static s s' -> is_live (md_buflists s') pages b sz <-> is_live (md_buflists s) pages b sz.
Proof.
  intros [Hg _]. unfold is_live. split; intros (r & mx & Hr & H); exists r, mx; (split; [done|]);
    [now rewrite <- Hg|now rewrite Hg].
Qed.

Lemma owns_static s s' pages l p :
  static s s' -> owns (md_buflists s') pages l p <-> owns (md_buflists s) pages l p.
Proof.
  intros [Hg _]. unfold owns. split; (intros [H|(r & Hr & Hp & H)]; [now left|right; exists r; split; [done|split; [done|]]]);
    intros sz mx b; [rewrite <- Hg|rewrite Hg]; apply H.
Qed.

Section Live.
Context (s : mdb_t) (pages : list page_t) (order : nat -> list Z) (l : list Z).
Hypothesis Hok : pools_ok s pages order l.

Lemma live_slot b sz : is_live (md_buflists s) pages b sz ->
  exists r mx, r ∈ pages /\ page_addr (pa r) /\ geometry (md_buflists s) (pl r) = Some (sz, mx) /\
    fits sz mx /\ is_slot (pa r) sz mx b /\ b ∉ pf r.
Proof.
  intros (r & mx & Hr & Hg & Hs & Hn). exists r, mx.
  pose proof (pools_page _ _ _ _ Hok r Hr) as Hp. destruct (pg_geom _ _ _ Hp) as (sz' & mx' & Hg' & Hfit & _).
  rewrite Hg in Hg'. injection Hg' as <- <-. split_and!; try done. apply (pg_addr _ _ _ Hp).
Qed.

Lemma live_private b sz p :
  is_live (md_buflists s) pages b sz -> b <= p < b + sz -> ~ owns (md_buflists s) pages l p.
Proof.
  intros Hl Hp. destruct (live_slot b sz Hl) as (r & mx & Hr & Ha & Hg & Hfit & Hs & Hn).
  pose proof (slot_bounds _ _ _ _ Hfit Hs) as Hb. unfold sizeof_mdb_mng_t in Hb.
  intros [(c & Hc & Hcp)|(q & Hq & Hqp & H)].
  - destruct (po_chunks _ _ _ _ Hok c r Hc Hr); lia.
  - destruct (decide (pa q = pa r)) as [E|Hne].
    + rewrite (pools_same_page _ _ _ _ Hok q r Hq Hr E) in H. now apply (H sz mx b).
    + destruct (pages_apart _ _ (pools_addr _ _ _ _ Hok q Hq) Ha Hne); lia.
Qed.

Lemma live_apart b sz c sz' :
  is_live (md_buflists s) pages b sz -> is_live (md_buflists s) pages c sz' -> b <> c ->
  b + sz <= c \/ c + sz' <= b.
Proof.
  intros Hb Hc Hne. destruct (live_slot b sz Hb) as (r & mx & Hr & Ha & Hg & Hfit & Hs & _).
  destruct (live_slot c sz' Hc) as (q & mx' & Hq & Ha' & Hg' & Hfit' & Hs' & _).
  destruct (decide (pa r = pa q)) as [E|Hn].
  - rewrite (pools_same_page _ _ _ _ Hok r q Hr Hq E) in *. rewrite Hg in Hg'. injection Hg' as <- <-.
    apply (slots_apart (pa q) sz mx); [unfold fits in *; lia|done..].
  - pose proof (slot_bounds _ _ _ _ Hfit Hs). pose proof (slot_bounds _ _ _ _ Hfit' Hs').
    unfold sizeof_mdb_mng_t in *. destruct (pages_apart _ _ Ha Ha' Hn); lia.
Qed.

Lemma live_size b sz sz' :
  is_live (md_buflists s) pages b sz -> is_live (md_buflists s) pages b sz' -> sz = sz'.
Proof.
  intros Hb Hc. destruct (live_slot b sz Hb) as (r & mx & Hr & Ha & Hg & Hfit & Hs & _).
  destruct (live_slot b sz' Hc) as (q & mx' & Hq & Ha' & Hg' & Hfit' & Hs' & _).
  assert (pa r = pa q) as E.
  { destruct (decide (pa r = pa q)) as [|Hn]; [done|].
    pose proof (slot_bounds _ _ _ _ Hfit Hs). pose proof (slot_bounds _ _ _ _ Hfit' Hs').
    unfold fits, sizeof_mdb_mng_t in *. destruct (pages_apart _ _ Ha Ha' Hn); lia. }
  rewrite (pools_same_page _ _ _ _ Hok r q Hr Hq E), Hg' in Hg. now injection Hg.
Qed.

(** the allocator does not notice writes elsewhere *)
Lemma client_write p v : ~ owns (md_buflists s) pages l p -> pools_ok (sto p v s) pages order l.
Proof.
  intros Hn. assert (Hw : forall r off, r ∈ pages -> 0 <= off < sizeof_mdb_mng_t -> p <> pa r + off)
    by (intros; now apply (not_owned_header s pages order l)).
  assert (Hwo : forall j off a, a ∈ order j -> 0 <= off < sizeof_mdb_mng_t -> p <> a + off).
  { intros j off a Ha Ho. destruct (listed_page _ _ _ _ Hok j a Ha) as (r & Hr & <- & _). auto. }
  destruct Hok as [H1 H2 H3 H4 H5 H6 H7 H8]. split; try done.
  - apply kmem_ok_with_mem; [|done]. intros Hp. apply Hn. left. exists p. unfold KMEM_CHUNKSIZE. split; [done|lia].
  - rewrite Forall_forall in H3 |- *. intros r Hr. pose proof (H3 r Hr) as Hpr.
    apply (page_ok_frame (mem (md_kmem s)) _ (md_buflists s)); [done|..|done].
    1-3: apply load_store_ne, Hw; [done|unfold mng_num_free, mng_bl, mng_freelist, sizeof_mdb_mng_t; lia].
    intros b Hb. apply load_store_ne. intros ->. apply Hn. right. exists r. split; [done|].
    destruct (pg_geom _ _ _ Hpr) as (sz & mx & Hg & Hfit & Hsl). rewrite Forall_forall in Hsl.
    pose proof (slot_bounds _ _ _ _ Hfit (Hsl b Hb)). unfold fits, sizeof_mdb_mng_t in *. split; [lia|].
    intros sz' mx' c Hg' Hc Hcn Hbc. rewrite Hg in Hg'. injection Hg' as <- <-.
    assert (b <> c) as Hbc' by congruence.
    destruct (slots_apart (pa r) sz mx b c ltac:(lia) (Hsl b Hb) Hc Hbc'); lia.
  - intros j. apply dll_sto; [|done]. intros a Ha.
    split; apply (Hwo j); (done || unfold mng_prev_freelist, mng_next_freelist, sizeof_mdb_mng_t; lia).
Qed.
End Live.

(** a buffer of a page moves between live and free *)
Section Move.
Context (s : mdb_t) (R : list page_t) (order : nat -> list Z) (l : list Z) (a : Z) (i : nat) (b sz mx : Z).
Context (frees : list Z).
Abbreviation bls := (md_buflists s).
Hypothesis Hok : pools_ok s (Page a i frees :: R) order l.
Hypothesis Hg : geometry bls i = Some (sz, mx).
Hypothesis Hb : is_slot a sz mx b.
Hypothesis Hnb : b ∉ frees.

Lemma move_live : is_live bls (Page a i frees :: R) b sz.
Proof. exists (Page a i frees), mx. split_and!; [left|done..]. Qed.

Lemma rest_live c z : is_live bls R c z -> is_live bls (Page a i frees :: R) c z /\ c <> b.
Proof.
  intros (r & m & Hr & H). assert (Hc : is_live bls (Page a i frees :: R) c z) by (exists r, m; split; [now right|done]).
  split; [done|]. intros ->. destruct H as (Hgr & Hs & Hn).
  assert (Hin : Page a i frees ∈ Page a i frees :: R) by left.
  destruct (live_slot _ _ _ _ Hok _ _ move_live) as (q & m' & Hq & Haq & Hgq & Hfq & Hsq & _).
  pose proof (pools_addr _ _ _ _ Hok _ Hin) as Ha. simpl in Ha.
  assert (Hrp : page_addr (pa r)) by (apply (pools_addr _ _ _ _ Hok); now right).
  pose proof (pools_page _ _ _ _ Hok r ltac:(now right)) as Hpr.
  destruct (pg_geom _ _ _ Hpr) as (z' & m2 & Hg2 & Hf2 & _). rewrite Hgr in Hg2. injection Hg2 as <- <-.
  pose proof (pools_page _ _ _ _ Hok _ Hin) as Hpa. destruct (pg_geom _ _ _ Hpa) as (z3 & m3 & Hg3 & Hf3 & _).
  simpl in Hg3. rewrite Hg in Hg3. injection Hg3 as <- <-.
  pose proof (slot_bounds _ _ _ _ Hf2 Hs). pose proof (slot_bounds _ _ _ _ Hf3 Hb).
  assert (pa r <> a) as Hne.
  { intros E. pose proof (po_nodup _ _ _ _ Hok) as [Hn' _]%NoDup_cons. apply Hn'. apply list_elem_of_fmap. now exists r. }
  unfold fits, sizeof_mdb_mng_t in *. destruct (pages_apart _ _ Hrp Ha Hne); lia.
Qed.

Lemma live_move c z :
  is_live bls (Page a i (b :: frees) :: R) c z <-> is_live bls (Page a i frees :: R) c z /\ c <> b.
Proof.
  split.
  - intros (r & m & [->|Hr]%elem_of_cons & Hgr & Hs & Hn); simpl in *.
    + rewrite elem_of_cons in Hn. split; [|tauto]. exists (Page a i frees), m.
      split_and!; [left|done|done|simpl; tauto].
    + apply rest_live. now exists r, m.
  - intros [(r & m & [->|Hr]%elem_of_cons & Hgr & Hs & Hn) Hne]; simpl in *.
    + exists (Page a i (b :: frees)), m. split_and!; [left|done|done|]. simpl. rewrite elem_of_cons. tauto.
    + exists r, m. split_and!; [now right|done..].
Qed.

Lemma move_bounds : fits sz mx /\ a <= b /\ b + sz <= a + MDB_ALLOC_CHUNKSZ.
Proof.
  assert (Hin : Page a i frees ∈ Page a i frees :: R) by left.
  pose proof (pools_page _ _ _ _ Hok _ Hin) as Hpa. destruct (pg_geom _ _ _ Hpa) as (z3 & m3 & Hg3 & Hf3 & _).
  simpl in Hg3. rewrite Hg in Hg3. injection Hg3 as <- <-. pose proof (slot_bounds _ _ _ _ Hf3 Hb).
  unfold sizeof_mdb_mng_t in *. split; [done|lia].
Qed.

Lemma owns_move p :
  owns bls (Page a i (b :: frees) :: R) l p <-> owns bls (Page a i frees :: R) l p \/ b <= p < b + sz.
Proof.
  destruct move_bounds as (Hfit & Hb1 & Hb2). split.
  - intros [Hc|(r & [->|Hr]%elem_of_cons & Hp & H)]; [left; now left| |].
    + simpl in *. destruct (decide (b <= p < b + sz)) as [|Hnp]; [now right|left]. right.
      exists (Page a i frees). simpl. split_and!; [left|lia..|]. intros sz' mx' c Hg' Hc Hcn.
      destruct (decide (c = b)) as [->|Hne].
      * rewrite Hg in Hg'. now injection Hg' as <- <-.
      * apply (H sz' mx' c Hg' Hc). rewrite elem_of_cons. tauto.
    + left. right. exists r. split; [now right|done].
  - intros [[Hc|(r & [->|Hr]%elem_of_cons & Hp & H)]|Hp]; [now left| | |].
    + right. exists (Page a i (b :: frees)). simpl in *. split_and!; [left|lia..|].
      intros sz' mx' c Hg' Hc Hcn. rewrite elem_of_cons in Hcn. apply (H sz' mx' c Hg' Hc). tauto.
    + right. exists r. split; [now right|done].
    + right. exists (Page a i (b :: frees)). simpl. split_and!; [left|lia..|]. intros sz' mx' c Hg' Hc Hcn Hpc.
      rewrite Hg in Hg'. injection Hg' as <- <-. rewrite elem_of_cons in Hcn.
      unfold fits in Hfit. destruct (slots_apart a sz mx b c ltac:(lia) Hb Hc ltac:(intros ->; tauto)); lia.
Qed.

(** the page itself goes *)
Hypothesis Hfull : Z.of_nat (S (length frees)) = mx.

Lemma move_all c : is_slot a sz mx c -> c ∉ frees -> c = b.
Proof.
  intros Hc Hn. destruct move_bounds as (Hfit & _ & _). unfold fits in Hfit.
  assert (Hin : Page a i frees ∈ Page a i frees :: R) by left.
  pose proof (pools_page _ _ _ _ Hok _ Hin) as Hpa.
  destruct (pg_geom _ _ _ Hpa) as (z3 & m3 & Hg3 & Hf3 & Hsl). simpl in Hg3, Hsl.
  rewrite Hg in Hg3. injection Hg3 as <- <-.
  assert (c ∈ b :: frees) as Hcf.
  { apply (all_free a sz mx); [lia..| | | |done].
    - apply NoDup_cons. split; [done|apply (pg_nodup _ _ _ Hpa)].
    - now apply Forall_cons.
    - cbn [length]. lia. }
  apply elem_of_cons in Hcf as [->|?]; done.
Qed.

Lemma live_drop c z : is_live bls R c z <-> is_live bls (Page a i frees :: R) c z /\ c <> b.
Proof.
  split; [apply rest_live|].
  intros [(r & m & [->|Hr]%elem_of_cons & Hgr & Hs & Hn) Hne]; simpl in *.
  - rewrite Hg in Hgr. injection Hgr as <- <-. exfalso. apply Hne. now apply move_all.
  - now exists r, m.
Qed.

Lemma owns_drop p :
  owns bls R (free_spec a 4 l) p <-> owns bls (Page a i frees :: R) l p \/ b <= p < b + sz.
Proof.
  destruct move_bounds as (Hfit & Hb1 & Hb2). unfold KMEM_CHUNKSIZE, MDB_ALLOC_CHUNKSZ in *. split.
  - intros [(c & [Hc|(k & Hk & ->)%elem_of_block]%free_spec_elem & Hp)|(r & Hr & Hp & H)].
    + left. left. eauto.
    + destruct (decide (b <= p < b + sz)) as [|Hnp]; [now right|left]. right. exists (Page a i frees).
      unfold KMEM_CHUNKSIZE, MDB_ALLOC_CHUNKSZ in *. simpl. split_and!; [left|lia..|].
      intros sz' mx' c Hg' Hc Hcn. rewrite Hg in Hg'. injection Hg' as <- <-. now rewrite (move_all c Hc Hcn).
    + left. right. exists r. split; [now right|done].
  - assert (Hpage : forall q, a <= q < a + 4096 -> owns bls R (free_spec a 4 l) q).
    { intros q Hq. left. exists (a + 1024 * ((q - a) / 1024)). split.
      - apply free_spec_elem. right. apply elem_of_block. exists ((q - a) / 1024). unfold KMEM_CHUNKSIZE.
        split; [zlia|lia].
      - unfold KMEM_CHUNKSIZE. zlia. }
    intros [[(c & Hc & Hp)|(r & [->|Hr]%elem_of_cons & Hp & H)]|Hp].
    + left. exists c. split; [apply free_spec_elem; now left|done].
    + apply Hpage. simpl in Hp. unfold MDB_ALLOC_CHUNKSZ in Hp. lia.
    + right. exists r. split; [done|]. unfold MDB_ALLOC_CHUNKSZ in *. done.
    + apply Hpage. lia.
Qed.
End Move.

(** ** The interface *)

(** a page of the size's list has a free buffer *)
Definition has_buffer (sz : Z) (s : mdb_t) : Prop :=
  sz < MDB_ALLOC_CHUNKSZ /\
  exists i bl, find_buflist 0 sz (md_buflists s) = Some i /\ md_buflists s !! i = Some bl /\
    list_of_lists bl <> NULL.

(** What the allocator promises.  [inv s live owned] says that in state [s] the
    buffers [live] are in use, [live b sz] for [sz] bytes at [b], and the words
    [owned] are the allocator's own.  Clients may write every word it does not
    own. *)
Class BufferHeap (fuel : nat) (inv : mdb_t -> (Z -> Z -> Prop) -> (Z -> Prop) -> Prop) : Prop := {
  bh_range s live owned b sz : inv s live owned -> live b sz -> 0 < b /\ b + sz < 2 ^ 64 /\ 16 <= sz;
  bh_align s live owned b sz : inv s live owned -> live b sz -> (8 | sz) -> (8 | b);
  bh_apart s live owned b sz c sz' :
    inv s live owned -> live b sz -> live c sz' -> b <> c -> b + sz <= c \/ c + sz' <= b;
  bh_private s live owned b sz p :
    inv s live owned -> live b sz -> b <= p < b + sz -> ~ owned p;
  bh_write s live owned p v : inv s live owned -> ~ owned p -> inv (sto p v s) live owned;
  bh_flush s live owned f : inv s live owned -> inv (md_with_flushes f s) live owned;
  bh_alloc s live owned sz :
    inv s live owned -> has_buffer sz s ->
    exists b s', mdb_alloc_buffer fuel sz s = Ok (b, s') /\
      inv s' (fun c z => live c z \/ c = b /\ z = sz) (fun p => owned p /\ ~ b <= p < b + sz) /\
      (forall z, ~ live b z) /\ (forall p, b <= p < b + sz -> owned p) /\
      (forall p, ~ owned p -> lds s' p = lds s p) /\ md_flushes s' = md_flushes s;
  bh_free s live owned b sz :
    inv s live owned -> live b sz ->
    exists s', mdb_free_buffer fuel b sz s = Ok (tt, s') /\
      inv s' (fun c z => live c z /\ c <> b) (fun p => owned p \/ b <= p < b + sz) /\
      (forall p, ~ owned p -> ~ b <= p < b + sz -> lds s' p = lds s p) /\ md_flushes s' = md_flushes s;
}.

(** The invariant of the implementation; the fuel covers every list of chunks
    that can come about. *)
Definition pools_inv (fuel : nat) (s : mdb_t) (live : Z -> Z -> Prop) (owned : Z -> Prop) : Prop :=
  exists pages order l, pools_ok s pages order l /\
    (forall b sz, live b sz <-> is_live (md_buflists s) pages b sz) /\
    (forall p, owned p <-> owns (md_buflists s) pages l p) /\
    (length l + 4 * length pages <= fuel)%nat /\ (3 <= fuel)%nat.

Lemma find_buflist_spec sz bls k i :
  find_buflist k sz bls = Some i -> exists bl, bls !! (i - k)%nat = Some bl /\ size bl = sz /\ (k <= i)%nat.
Proof.
  revert k. induction bls as [|bl bls IH]; intros k; simpl; [done|].
  destruct (Z.eqb_spec (size bl) sz) as [E|_].
  - intros [= ->]. exists bl. rewrite Nat.sub_diag. done.
  - destruct (size bl =? 0); [done|]. intros (bl' & H1 & H2 & H3)%IH. exists bl'. split_and!; [|done|lia].
    replace (i - k)%nat with (S (i - S k))%nat by lia. done.
Qed.

(** the page that allocation takes from *)
Lemma has_buffer_page s pages order l sz :
  pools_ok s pages order l -> has_buffer sz s ->
  exists i a b rest o mx R, find_buflist 0 sz (md_buflists s) = Some i /\ order i = a :: o /\
    pages ≡ₚ Page a i (b :: rest) :: R /\ geometry (md_buflists s) i = Some (sz, mx) /\
    (exists bl, md_buflists s !! i = Some bl /\ list_of_lists bl = a).
Proof.
  intros Hok (_ & i & bl & Hf & Hi & Hl). destruct (find_buflist_spec _ _ _ _ Hf) as (bl' & Hi' & Hsz & _).
  rewrite Nat.sub_0_r, Hi in Hi'. injection Hi' as <-.
  pose proof (po_heads _ _ _ _ Hok i bl Hi) as Hh.
  destruct (order i) as [|a o] eqn:Eo; [simpl in Hh; congruence|].
  destruct (listed_page _ _ _ _ Hok i a) as ([a' i' frees] & Hr & Ea & Ei & Hne); [rewrite Eo; left|].
  simpl in *. subst a' i'. destruct frees as [|b rest]; [done|].
  apply elem_of_Permutation in Hr as (R & HR).
  exists i, a, b, rest, o, (max_free bl), R. split_and!; [done..| |now exists bl].
  unfold geometry. rewrite Hi. simpl. now rewrite Hsz.
Qed.

Lemma pools_alloc fuel s live owned sz :
  pools_inv fuel s live owned -> has_buffer sz s ->
  exists b s', mdb_alloc_buffer fuel sz s = Ok (b, s') /\
    pools_inv fuel s' (fun c z => live c z \/ c = b /\ z = sz) (fun p => owned p /\ ~ b <= p < b + sz) /\
    (forall z, ~ live b z) /\ (forall p, b <= p < b + sz -> owned p) /\
    (forall p, ~ owned p -> lds s' p = lds s p) /\ md_flushes s' = md_flushes s.
Proof.
  intros (pages & order & l & Hok & Hlive & Hown & Hfuel & H3) Hhas.
  destruct (has_buffer_page _ _ _ _ _ Hok Hhas) as (i & a & b & rest & o & mx & R & Hf & Ho & Hp & Hg & bl & Hi & Hl).
  pose proof (pools_ok_perm _ _ _ _ _ Hp Hok) as Hok1.
  assert (exists s' order', take_buffer i a s = Ok (b, s') /\ pools_ok s' (Page a i rest :: R) order' l /\
    pools_frame s s' (Page a i (b :: rest) :: R) l) as (s' & order' & E & Hok' & Hst & Hfr).
  { destruct rest as [|c rest].
    - destruct (take_last s R order l a i b o Ho Hok1) as (s' & H). exists s', (oset order i o). exact H.
    - destruct (take_some s R order l a i b (c :: rest) ltac:(done) Hok1) as (s' & H). now exists s', order. }
  exists b, s'.
  assert (Hin : Page a i (b :: rest) ∈ Page a i (b :: rest) :: R) by left.
  pose proof (pools_page _ _ _ _ Hok1 _ Hin) as Hpg. destruct (pg_geom _ _ _ Hpg) as (sz' & mx' & Hg' & Hfit & Hsl).
  simpl in Hg', Hsl. rewrite Hg in Hg'. injection Hg' as <- <-. apply Forall_cons in Hsl as [Hb _].
  pose proof (pg_nodup _ _ _ Hpg) as [Hnb _]%NoDup_cons.
  pose proof Hst as [Hgeo Hfl]. assert (Hg2 : geometry (md_buflists s') i = Some (sz, mx)) by now rewrite Hgeo.
  assert (Hlm : forall c z, live c z <-> is_live (md_buflists s') (Page a i rest :: R) c z /\ c <> b).
  { intros c z. rewrite Hlive, (is_live_perm _ _ _ _ _ Hp), <- (is_live_static _ _ _ _ _ Hst).
    now apply (live_move s' R order' l a i b sz mx rest Hok' Hg2). }
  assert (Hom : forall p, owned p <-> owns (md_buflists s') (Page a i rest :: R) l p \/ b <= p < b + sz).
  { intros p. rewrite Hown, (owns_perm _ _ _ _ _ Hp), <- (owns_static _ _ _ _ _ Hst).
    now apply (owns_move s' R order' l a i b sz mx rest Hok' Hg2). }
  pose proof (move_live s' R a i b sz mx rest Hg2 Hb Hnb) as Hbl.
  split_and!.
  - unfold mdb_alloc_buffer. rewrite bind_gets, Hf. destruct Hhas as (Hsz & _).
    destruct (Z.geb_spec sz MDB_ALLOC_CHUNKSZ); [lia|]. unfold buflist_at. rewrite bind_gets.
    rewrite (nth_lookup_Some _ _ _ _ Hi), Hl, (page_nonnull a) by apply (pg_addr _ _ _ Hpg). exact E.
  - exists (Page a i rest :: R), order', l. split_and!; [done| | | |done].
    + intros c z. rewrite Hlm. destruct (decide (c = b)) as [->|Hne]; [|tauto]. split.
      * intros [[_ H]|[_ ->]]; [done|exact Hbl].
      * intros H. right. split; [done|]. now apply (live_size _ _ _ _ Hok' b).
    + intros p. rewrite Hom. pose proof (live_private _ _ _ _ Hok' b sz p Hbl). tauto.
    + rewrite (Permutation_length Hp) in Hfuel. exact Hfuel.
  - intros z Hz. apply Hlm in Hz. tauto.
  - intros p Hpb. apply Hom. now right.
  - intros p Hnp. apply Hfr. rewrite <- (owns_perm _ _ _ _ _ Hp), <- Hown. done.
  - done.
Qed.

(** the outcomes of a release: the page keeps free buffers in use, or goes *)
Lemma give_outcome fuel s R order l a i b frees sz mx :
  pools_ok s (Page a i frees :: R) order l ->
  geometry (md_buflists s) i = Some (sz, mx) -> is_slot a sz mx b -> b ∉ frees ->
  (length l <= fuel)%nat -> (3 <= fuel)%nat ->
  exists s' order', mdb_free_buffer fuel b sz s = Ok (tt, s') /\
    release_frame s s' (Page a i frees :: R) l b sz /\
    (pools_ok s' (Page a i (b :: frees) :: R) order' l \/
     Z.of_nat (S (length frees)) = mx /\ pools_ok s' R order' (free_spec a 4 l)).
Proof.
  intros Hok Hg Hb Hnb Hf1 Hf2. destruct frees as [|f frees].
  - destruct (give_first fuel _ _ _ _ _ _ _ _ _ Hok Hg Hb) as (s' & E & Hok' & Hfr).
    exists s', (oset order i (a :: order i)). split_and!; [done..|now left].
  - destruct (Z.eq_dec (Z.of_nat (S (length (f :: frees)))) mx) as [Hmx|Hmx].
    + destruct (give_last fuel _ _ _ _ _ _ _ _ _ _ Hok Hg Hb Hnb ltac:(done) Hmx Hf1 Hf2)
        as (s' & order' & E & Hok' & Hfr). exists s', order'. split_and!; [done..|now right].
    + destruct (give_some fuel _ _ _ _ _ _ _ _ _ _ Hok Hg Hb Hnb ltac:(done) Hmx) as (s' & E & Hok' & Hfr).
      exists s', order. split_and!; [done..|now left].
Qed.

Lemma free_spec_length a n l : length (free_spec a n l) = (n + length l)%nat.
Proof.
  unfold free_spec. rewrite !length_app, length_block.
  assert (length (filter (fun x => (x < a)%Z) l) + length (filter (fun x => ~ (x < a)%Z) l) = length l)%nat.
  { induction l as [|x l IH]; [done|]. rewrite !filter_cons. repeat case_decide; simpl; lia. }
  lia.
Qed.

Lemma pools_free fuel s live owned b sz :
  pools_inv fuel s live owned -> live b sz ->
  exists s', mdb_free_buffer fuel b sz s = Ok (tt, s') /\
    pools_inv fuel s' (fun c z => live c z /\ c <> b) (fun p => owned p \/ b <= p < b + sz) /\
    (forall p, ~ owned p -> ~ b <= p < b + sz -> lds s' p = lds s p) /\ md_flushes s' = md_flushes s.
Proof.
  intros (pages & order & l & Hok & Hlive & Hown & Hfuel & H3) Hl.
  apply Hlive in Hl as ([a i frees] & mx & Hr & Hg & Hb & Hnb). simpl in *.
  apply elem_of_Permutation in Hr as (R & Hp). pose proof (pools_ok_perm _ _ _ _ _ Hp Hok) as Hok1.
  rewrite (Permutation_length Hp) in Hfuel. cbn [length] in Hfuel.
  destruct (give_outcome fuel _ _ _ _ _ _ _ _ _ _ Hok1 Hg Hb Hnb ltac:(lia) H3) as (s' & order' & E & [Hst Hfr] & Hcase).
  exists s'. split; [exact E|].
  assert (Hl2 : forall c z, live c z <-> is_live (md_buflists s) (Page a i frees :: R) c z)
    by (intros; rewrite Hlive; now apply is_live_perm).
  assert (Ho2 : forall p, owned p <-> owns (md_buflists s) (Page a i frees :: R) l p)
    by (intros; rewrite Hown; now apply owns_perm).
  split_and!; [| |apply Hst].
  - destruct Hcase as [Hok'|[Hmx Hok']].
    + exists (Page a i (b :: frees) :: R), order', l. split_and!; [done| | |cbn [length]; lia|done].
      * intros c z. rewrite Hl2, (is_live_static _ _ _ _ _ Hst). symmetry.
        now apply (live_move s R order l a i b sz mx frees).
      * intros p. rewrite Ho2, (owns_static _ _ _ _ _ Hst). symmetry.
        now apply (owns_move s R order l a i b sz mx frees).
    + exists R, order', (free_spec a 4 l). split_and!; [done| | |rewrite free_spec_length; lia|done].
      * intros c z. rewrite Hl2, (is_live_static _ _ _ _ _ Hst). symmetry.
        now apply (live_drop s R order l a i b sz mx frees).
      * intros p. rewrite Ho2, (owns_static _ _ _ _ _ Hst). symmetry.
        now apply (owns_drop s R order l a i b sz mx frees).
  - intros p Hn Hpb. apply Hfr; [|done]. now rewrite <- Ho2.
Qed.

#[export] Instance pools_heap fuel : BufferHeap fuel (pools_inv fuel).
Proof.
  split.
  - intros s live owned b sz (pages & order & l & Hok & Hlive & _) Hl. apply Hlive in Hl.
    destruct (live_slot _ _ _ _ Hok _ _ Hl) as (r & mx & _ & (Ha & _ & Ha') & _ & Hfit & Hs & _).
    pose proof (slot_bounds _ _ _ _ Hfit Hs). unfold fits, sizeof_mdb_mng_t in *. lia.
  - intros s live owned b sz (pages & order & l & Hok & Hlive & _) Hl [z ->]. apply Hlive in Hl.
    destruct (live_slot _ _ _ _ Hok _ _ Hl) as (r & mx & _ & (_ & [x Hx] & _) & _ & _ & (k & _ & ->) & _).
    unfold slot. rewrite Hx. unfold MDB_ALLOC_CHUNKSZ. exists (x * 512 + 512 - z * (k + 1)). lia.
  - intros s live owned b sz c sz' (pages & order & l & Hok & Hlive & _) Hb Hc Hne. apply Hlive in Hb, Hc.
    now apply (live_apart _ _ _ _ Hok).
  - intros s live owned b sz p (pages & order & l & Hok & Hlive & Hown & _) Hb Hp. apply Hlive in Hb.
    rewrite Hown. now apply (live_private _ _ _ _ Hok b sz).
  - intros s live owned p v (pages & order & l & Hok & Hlive & Hown & H) Hp. exists pages, order, l.
    split_and!; [|done..|apply H|apply H]. apply client_write; [done|]. now rewrite <- Hown.
  - intros s live owned f (pages & order & l & [] & H). exists pages, order, l. split; [|exact H]. now split.
  - apply pools_alloc.
  - apply pools_free.
Qed.

(** C15 The buffers of the mapping database come and go without touching each
    other.  In a state with well-formed pools an allocation, if a page of the
    size has a free buffer, returns a buffer that was not in use and of which
    the allocator keeps no word; a release of any buffer in use succeeds, also
    when its page was full or becomes empty and goes back to the kernel's
    allocator.  Either leaves well-formed pools, the other buffers in use and
    every word that is not the allocator's as they were; and releasing what was
    just allocated restores the set of buffers in use. *)
Theorem mdb_buffers_are_disjoint fuel s live owned sz :
  pools_inv fuel s live owned ->
  (forall b, live b sz -> exists s', mdb_free_buffer fuel b sz s = Ok (tt, s') /\
     pools_inv fuel s' (fun c z => live c z /\ c <> b) (fun p => owned p \/ b <= p < b + sz) /\
     forall p, ~ owned p -> ~ b <= p < b + sz -> lds s' p = lds s p) /\
  (has_buffer sz s -> exists b s', mdb_alloc_buffer fuel sz s = Ok (b, s') /\
     (forall z, ~ live b z) /\
     (forall c z, live c z -> b + sz <= c \/ c + z <= b) /\
     pools_inv fuel s' (fun c z => live c z \/ c = b /\ z = sz) (fun p => owned p /\ ~ b <= p < b + sz) /\
     (forall p, ~ owned p -> lds s' p = lds s p) /\
     exists s'', mdb_free_buffer fuel b sz s' = Ok (tt, s'') /\
       pools_inv fuel s'' (fun c z => live c z) owned).
Proof.
  intros Hinv. split.
  - intros b Hb. destruct (pools_free _ _ _ _ _ _ Hinv Hb) as (s' & E & Hi & Hf & _). now exists s'.
  - intros Hh. destruct (pools_alloc _ _ _ _ _ Hinv Hh) as (b & s' & E & Hi & Hn & Ho & Hf & _).
    exists b, s'. split_and!; [done..| |done|done|].
    + intros c z Hc. apply (bh_apart (fuel := fuel) s' _ _ b sz c z Hi); [now right|now left|].
      intros <-. now apply (Hn z).
    + destruct (pools_free _ _ _ _ b sz Hi ltac:(now right)) as (s'' & E2 & (pages & order & l & H1 & H2 & H3 & H4) & _).
      exists s''. split; [exact E2|]. exists pages, order, l. split_and!; [done| | |apply H4..].
      * intros c z. rewrite <- H2. split; [|tauto]. intros Hc. split; [now left|]. intros ->. now apply (Hn z).
      * intros p. rewrite <- H3. split; [|intros [[? _]|Hp]; auto].
        intros Hp. destruct (decide (b <= p < b + sz)); [now right|left; done].
Qed.

(** a page of 24-byte buffers with two free ones, and empty lists of the other
    sizes *)
Definition example_pools : mdb_t :=
  Mdb (Kmem 0 0 (<[4096 := 8168]> (<[4104 := 2]> (<[8168 := 8144]> ∅))))
      [BufList 24 4096 169; BufList 16 0 253; BufList 32 0 126; BufList 0 0 0] [].
Definition example_pages : list page_t := [Page 4096 0 [8168; 8144]].
Definition example_order (i : nat) : list Z := if decide (i = 0%nat) then [4096] else [].

Lemma example_pools_ok : pools_ok example_pools example_pages example_order [].
Proof.
  split.
  - split_and!; [done|constructor|constructor|done].
  - apply NoDup_singleton.
  - apply Forall_singleton. split; simpl.
    + split_and!; [lia|now exists 1|unfold MDB_ALLOC_CHUNKSZ; lia].
    + exists 24, 169. split_and!; [done|unfold fits, sizeof_mdb_mng_t, MDB_ALLOC_CHUNKSZ; lia|].
      apply Forall_cons. split; [exists 0; split; [lia|done]|].
      apply Forall_singleton. exists 1. split; [lia|done].
    + vm_compute. reflexivity.
    + vm_compute. reflexivity.
    + vm_compute. tauto.
    + apply NoDup_cons. split; [|apply NoDup_singleton]. intros [=]%list_elem_of_singleton.
  - intros [|[|[|[|i]]]] bl; simpl; try (intros [= <-]; done).
  - intros [|i]; vm_compute; tauto.
  - intros i a. unfold example_order, listed, example_pages. split.
    + case_decide as E; [subst|set_solver]. intros ->%list_elem_of_singleton.
      exists (Page 4096 0 [8168; 8144]). split_and!; [left|done..].
    + intros (r & ->%list_elem_of_singleton & <- & <- & _). simpl. left.
  - intros i. unfold example_order. case_decide; [apply NoDup_singleton|constructor].
  - intros c r Hc. now apply elem_of_nil in Hc.
Qed.

Lemma mdb_buffers_are_disjoint_witness :
  let live := is_live (md_buflists example_pools) example_pages in
  exists b s', mdb_alloc_buffer 10 24 example_pools = Ok (b, s') /\ ~ live b 24.
Proof.
  intros live.
  destruct (mdb_buffers_are_disjoint 10 example_pools live
    (owns (md_buflists example_pools) example_pages []) 24) as [_ H].
  - exists example_pages, example_order, []. split_and!; [apply example_pools_ok|done|done|simpl; lia|lia].
  - destruct H as (b & s' & E & Hn & _); [|now exists b, s'].
    split; [unfold MDB_ALLOC_CHUNKSZ; lia|]. exists 0%nat, (BufList 24 4096 169). done.
Defined.
