(* ===== verification/Mdb.v ===== *)
(** * The mapping database

    [generic/mapping.cc]: a mapping node per mapped page, linked in depth-first
    order of the mapping tree below it, and arrays of root nodes for the smaller
    pages of a larger one.  Nodes are words of the kernel's memory; their
    encodings are those of file Mapnode, their buffers come from file MdbAlloc. *)

From Stdlib Require Import ZArith Lia Bool List.
From stdpp Require Import base numbers list option gmap.
From S2P Require Import Prelude Types Fpage Monad Kmem Pgent Mapnode MdbAlloc.
Open Scope Z_scope.

(** ** Access to the nodes *)

Definition duals (s : mdb_t) : dualmem := fun p =>
  Dual (load (mem (md_kmem s)) p) (load (mem (md_kmem s)) (w64 (p + 8))).

Definition node (p : Z) : MD Mapnode.mapnode_t :=
  let* r0 := rd p 0 in let* r1 := rd p 8 in let* r2 := rd p 16 in
  ret (Mapnode.of_raw r0 r1 r2).
Definition node_set (p : Z) (n : Mapnode.mapnode_t) : MD unit :=
  wr p 0 (Mapnode.raw0 n) ;;; wr p 8 (Mapnode.raw1 n) ;;; wr p 16 (Mapnode.raw2 n).
Definition node_upd (p : Z) (f : Mapnode.mapnode_t -> Mapnode.mapnode_t) : MD unit :=
  let* n := node p in node_set p (f n).
Definition node_get {A} (p : Z) (f : Mapnode.mapnode_t -> A) : MD A :=
  let* n := node p in ret (f n).

Definition rootnode (p : Z) : MD Rootnode.rootnode_t :=
  let* r := rd p 0 in ret (Rootnode.of_raw r).
Definition root_set (p : Z) (r : Rootnode.rootnode_t) : MD unit := wr p 0 (Rootnode.to_raw r).

(** a dual node is read through a pointer that is not [NULL] *)
Definition through_dual {A} (both : bool) (dual : Z) (f : dualmem -> A) : MD A :=
  if both && (dual =? NULL) then crash else gets (fun s => f (duals s)).

Definition get_nextmap (p : Z) : MD Z :=
  let* n := node p in
  through_dual (Mapnode.is_next_both n) (Mapnode.get_nextdual n) (fun m => Mapnode.get_nextmap m n).
Definition get_nextroot (p : Z) : MD Z :=
  let* n := node p in
  through_dual (Mapnode.is_next_both n) (Mapnode.get_nextdual n) (fun m => Mapnode.get_nextroot m n).
Definition get_nextdual (p : Z) : MD Z := node_get p Mapnode.get_nextdual.

Definition root_get_map (p : Z) : MD Z :=
  let* r := rootnode p in
  through_dual (Rootnode.is_next_both r) (Rootnode.get_dual r) (fun m => Rootnode.get_map m r).
Definition root_get_root (p : Z) : MD Z :=
  let* r := rootnode p in
  through_dual (Rootnode.is_next_both r) (Rootnode.get_dual r) (fun m => Rootnode.get_root m r).
Definition root_get_dual (p : Z) : MD Z := let* r := rootnode p in ret (Rootnode.get_dual r).

(** [dual->map = map] and [dual->root] *)
Definition dual_set_map (dual map : Z) : MD unit := wr dual 0 map.
Definition dual_get_root (dual : Z) : MD Z := rd dual 8.

(** operations on a page table entry in memory *)
Definition pg_get {A} (pg : Z) (f : kmem_t -> A) : MD A :=
  if pg =? NULL then crash else gets (fun s => f (md_kmem s)).
Definition pg_do (pg : Z) (f : kmem_t -> kmem_t) : MD unit :=
  if pg =? NULL then crash else modify (fun s => md_with_kmem (f (md_kmem s)) s).
Definition pg_upd (pg : Z) (f : Z -> Z) : MD unit :=
  pg_do pg (fun k => Pgent.set_raw pg (f (Pgent.raw_at k pg)) k).
Definition flush_tlbent (space vaddr log2size : Z) : MD unit :=
  modify (fun s => md_with_flushes (md_flushes s ++ [TlbFlush space vaddr log2size]) s).

(** ** Page sizes *)

Definition mdb_pgshift (i : Z) : Z := nth (Z.to_nat i) mdb_pgshifts 0.
Definition mdb_arraysize (pgsize : Z) : Z := Z.shiftl 1 (mdb_pgshift (pgsize + 1) - mdb_pgshift pgsize).
Definition mdb_get_index (size addr : Z) : Z :=
  Z.land (Z.shiftr addr (mdb_pgshift size)) (mdb_arraysize size - 1).
Definition mdb_index_root (size r addr : Z) : Z := w64 (r + sizeof_rootnode_t * mdb_get_index size addr).

(** [while (shifts[s] < shift) s++] *)
Fixpoint first_shift (shift : Z) (s : Z) (shifts : list Z) : Z :=
  match shifts with
  | [] => s
  | x :: shifts => if x <? shift then first_shift shift (s + 1) shifts else s
  end.
Definition mdb_pgsize (hw_pgsize : Z) : Z := first_shift (page_shift hw_pgsize) 0 mdb_pgshifts.
Definition hw_pgsize (mdb_pgsize : Z) : Z := first_shift (mdb_pgshift mdb_pgsize) 0 Layout.HW_PGSHIFTS.

(** ** Construction *)

Section Operations.
Variable fuel : nat.

(** [for (n = newnodes; num--; n++) n->set_ptr ((mapnode_t * ) NULL)] *)
Fixpoint clear_roots (num : nat) (n : Z) : MD unit :=
  match num with
  | O => ret tt
  | S num => root_set n (Rootnode.set_ptr_map NULL) ;;; clear_roots num (w64 (n + sizeof_rootnode_t))
  end.
Definition mdb_create_roots (size : Z) : MD Z :=
  let num := mdb_arraysize size in
  let* newnodes := mdb_alloc_buffer fuel (sizeof_rootnode_t * num) in
  clear_roots (Z.to_nat num) newnodes ;;;
  ret newnodes.

Definition mdb_create_dual (map root : Z) : MD Z :=
  let* dual := mdb_alloc_buffer fuel sizeof_dualnode_t in
  wr dual 0 map ;;; wr dual 8 root ;;;
  ret dual.

(** the two sanity loops of [init_mdb] find nothing to complain about, since the
    two arrays are the same, and are left out *)
Definition init_mdb (sigma0_mapnode : Z) : MD unit :=
  mdb_buflist_init ;;;
  let* roots := mdb_create_roots (MDB_NUM_PGSIZES - 1) in
  let* dual := mdb_create_dual NULL roots in
  node_upd sigma0_mapnode (Mapnode.set_backlink false NULL NULL) ;;;
  node_upd sigma0_mapnode (Mapnode.set_space 0) ;;;
  node_upd sigma0_mapnode (Mapnode.set_depth 0) ;;;
  node_upd sigma0_mapnode (Mapnode.set_next_dual dual).

(** ** Removal of a node *)

(** [nmap->set_backlink (prev, nmap->get_pgent (cmap))] *)
Definition relink (is_root : bool) (nmap prev cmap : Z) : MD unit :=
  let* pg := node_get nmap (Mapnode.get_pgent cmap) in
  node_upd nmap (Mapnode.set_backlink is_root prev pg).

(** [remove_map], overloaded for the previous node *)
Definition remove_map (pmap cmap : Z) : MD unit :=
  let* nmap := get_nextmap cmap in
  let* single := node_get pmap Mapnode.is_next_map in
  (if single then node_upd pmap (Mapnode.set_next_map nmap)
   else
     let* dual := get_nextdual pmap in
     if negb (nmap =? NULL) then dual_set_map dual nmap
     else
       let* root := dual_get_root dual in
       node_upd pmap (Mapnode.set_next_root root) ;;;
       mdb_free_buffer fuel dual sizeof_dualnode_t) ;;;
  mdb_free_buffer fuel cmap sizeof_mapnode_t ;;;
  when (negb (nmap =? NULL)) (relink false nmap pmap cmap).

Definition remove_map_root (proot cmap : Z) : MD unit :=
  let* nmap := get_nextmap cmap in
  let* r := rootnode proot in
  (if Rootnode.is_next_map r then root_set proot (Rootnode.set_ptr_map nmap)
   else
     let dual := Rootnode.get_dual r in
     if negb (nmap =? NULL) then dual_set_map dual nmap
     else
       let* root := dual_get_root dual in
       root_set proot (Rootnode.set_ptr_root root) ;;;
       mdb_free_buffer fuel dual sizeof_dualnode_t) ;;;
  mdb_free_buffer fuel cmap sizeof_mapnode_t ;;;
  when (negb (nmap =? NULL)) (relink true nmap proot cmap).

(** ** [mdb_map] *)

(** a grant reuses the node *)
Definition grant_node (f_map f_pg t_pg t_space : Z) : MD unit :=
  let* n := node f_map in
  (if Mapnode.is_prev_root n
   then node_upd f_map (Mapnode.set_backlink true (Mapnode.get_prevroot f_pg n) t_pg)
   else node_upd f_map (Mapnode.set_backlink false (Mapnode.get_prevmap f_pg n) t_pg)) ;;;
  node_upd f_map (Mapnode.set_space t_space).

(** the members of a new node; the reference bits are left as they are *)
Definition init_node (newmap : Z) (is_root : bool) (prev t_pg t_space depth nmap : Z) : MD unit :=
  node_upd newmap (Mapnode.set_backlink is_root prev t_pg) ;;;
  node_upd newmap (Mapnode.set_space t_space) ;;;
  node_upd newmap (Mapnode.set_depth depth) ;;;
  node_upd newmap (Mapnode.set_next_map nmap).

(** equal page sizes: directly below the node *)
Definition insert_below (f_map newmap t_pg t_space : Z) : MD unit :=
  let* nmap := get_nextmap f_map in
  let* depth := node_get f_map Mapnode.get_depth in
  init_node newmap false f_map t_pg t_space (depth + 1) nmap ;;;
  let* n := node f_map in
  (if Mapnode.is_next_root n then
     let* root := get_nextroot f_map in
     let* dual := mdb_create_dual newmap root in
     node_upd f_map (Mapnode.set_next_dual dual)
   else if Mapnode.is_next_both n then dual_set_map (Mapnode.get_nextdual n) newmap
   else node_upd f_map (Mapnode.set_next_map newmap)) ;;;
  when (negb (nmap =? NULL)) (relink false nmap newmap f_map).

(** below a root node *)
Definition insert_root (root newmap t_pg t_space depth : Z) : MD unit :=
  let* nmap := root_get_map root in
  init_node newmap true root t_pg t_space depth nmap ;;;
  let* r := rootnode root in
  (if Rootnode.is_next_root r then
     let* sub := root_get_root root in
     let* dual := mdb_create_dual newmap sub in
     root_set root (Rootnode.set_ptr_dual dual)
   else if Rootnode.is_next_both r then dual_set_map (Rootnode.get_dual r) newmap
   else root_set root (Rootnode.set_ptr_map newmap)) ;;;
  when (negb (nmap =? NULL)) (relink false nmap newmap root).

(** one size down from [root], or from [f_map] at first ([root] is [NULL]) *)
Definition find_root (f_map root f_pgsize f_addr : Z) : MD Z :=
  let* nmap := (if negb (root =? NULL) then root_get_map root else get_nextmap f_map) in
  let* sub := (if negb (root =? NULL) then root_get_root root else get_nextroot f_map) in
  let* sub :=
    (if sub =? NULL then
       let* sub := mdb_create_roots f_pgsize in
       (if negb (root =? NULL) then
          if negb (nmap =? NULL) then
            let* dual := mdb_create_dual nmap sub in root_set root (Rootnode.set_ptr_dual dual)
          else root_set root (Rootnode.set_ptr_root sub)
        else
          if negb (nmap =? NULL) then
            let* dual := mdb_create_dual nmap sub in node_upd f_map (Mapnode.set_next_dual dual)
          else node_upd f_map (Mapnode.set_next_root sub)) ;;;
       ret sub
     else ret sub) in
  ret (mdb_index_root f_pgsize sub f_addr).

(** [n] sizes down *)
Fixpoint find_roots (n : nat) (f_map root f_pgsize f_addr : Z) : MD Z :=
  match n with
  | O => ret root
  | S n =>
      let* root := find_root f_map root (f_pgsize - 1) f_addr in
      find_roots n f_map root (f_pgsize - 1) f_addr
  end.

Definition mdb_map (f_map f_pg f_hwpgsize f_addr t_pg t_hwpgsize t_space : Z) (grant : bool) : MD Z :=
  if grant then grant_node f_map f_pg t_pg t_space ;;; ret f_map else
  let f_pgsize := mdb_pgsize f_hwpgsize in
  let t_pgsize := mdb_pgsize t_hwpgsize in
  let* newmap := mdb_alloc_buffer fuel sizeof_mapnode_t in
  if f_pgsize =? t_pgsize then insert_below f_map newmap t_pg t_space ;;; ret newmap
  else
    let* root := find_roots (Z.to_nat (f_pgsize - t_pgsize)) f_map NULL f_pgsize f_addr in
    let* depth := node_get f_map Mapnode.get_depth in
    insert_root root newmap t_pg t_space (depth + 1) ;;;
    ret newmap.

End Operations.
