(* ===== verification/Mdbflush.v ===== *)
(** * Flushing the mapping database

    [mdb_flush] of [generic/mapping.cc]: the walk over the mappings below a node
    with its explicit stack, which revokes rights or removes the mappings and
    gathers their reference bits. *)

From Stdlib Require Import ZArith Lia Bool List.
From stdpp Require Import base numbers list option gmap.
From S2P Require Import Prelude Types Fpage Monad Kmem Pgent Mapnode MdbAlloc Mdb.
Open Scope Z_scope.

(** an entry of the arrays [r_prev], [r_nmap], [r_root] and [r_rcnt]; bit 0 of
    [r_prev] tells a mapping from a root *)
Record saved_t := Saved { r_prev : Z; r_nmap : Z; r_root : Z; r_rcnt : Z }.

(** the local variables that survive a round of the loop *)
Record flush_t := Flush {
  fl_map : Z;
  fl_pg : Z;
  fl_pgsize : Z;
  fl_root : Z;
  fl_rcnt : Z;
  fl_pmap : Z;
  fl_proot : Z;
  fl_unmap_self : bool;
  fl_rwx : Z;
  fl_saved : gmap Z saved_t;
}.

Definition saved_at (pgsize : Z) (v : flush_t) : saved_t :=
  default (Saved 0 0 0 0) (fl_saved v !! pgsize).
Definition save (pgsize : Z) (x : saved_t) (v : flush_t) : gmap Z saved_t := <[pgsize := x]> (fl_saved v).

Section Flush.
Variable fuel : nat.
(** the arguments the loop does not change *)
Variable f_addr t_pgsize : Z.
Variable fp : fpage_t.

(** the part of a round on the mapping itself: it gives [pmap], [proot] and the
    new [rwx] *)
Definition flush_self (v : flush_t) (pmap proot : Z) : MD (Z * Z * Z) :=
  let f_map := fl_map v in
  let f_pg := fl_pg v in
  let size := hw_pgsize (fl_pgsize v) in
  let* space := node_get f_map Mapnode.get_space in
  let* vaddr := pg_get f_pg (fun k => Pgent.vaddr k f_pg f_map) in
  if fl_unmap_self v then
    let* bits := pg_get f_pg (fun k => Pgent.reference_bits size (Pgent.raw_at k f_pg)) in
    node_upd f_map (Mapnode.update_rwx bits) ;;;
    let rwx := Z.lor (fl_rwx v) bits in
    let* next :=
      (if is_rwx fp then
         (if negb (pmap =? NULL) then remove_map fuel pmap f_map else remove_map_root fuel proot f_map) ;;;
         pg_do f_pg (Pgent.clear f_pg size false) ;;;
         ret (pmap, proot)
       else
         pg_upd f_pg (Pgent.revoke_rights size (get_rwx fp)) ;;;
         pg_upd f_pg (Pgent.reset_reference_bits size) ;;;
         ret (f_map, NULL)) in
    flush_tlbent space vaddr (page_shift size) ;;;
    ret (fst next, snd next, rwx)
  else
    pg_upd f_pg (Pgent.reset_reference_bits size) ;;;
    ret (f_map, NULL, fl_rwx v).

(** [pmap ? (word_t) pmap | 1 : (word_t) proot] *)
Definition pack_prev (pmap proot : Z) : Z := if negb (pmap =? NULL) then Z.lor pmap 1 else proot.

(** up from a subarray *)
Definition recurse_up (v : flush_t) : MD flush_t :=
  let size := fl_pgsize v in
  when (is_rwx fp)
    (mdb_free_buffer fuel (w64 (fl_root v - sizeof_rootnode_t * (mdb_arraysize size - 1)))
       (mdb_arraysize size * sizeof_rootnode_t)) ;;;
  let x := saved_at size v in
  let f_map := r_nmap x in
  let is_map := truth (Z.land (r_prev x) 1) in
  let prev := if is_map then Z.land (r_prev x) (wnot 1) else r_prev x in
  let* f_pg := (if negb (f_map =? NULL) then node_get f_map (Mapnode.get_pgent prev) else ret (fl_pg v)) in
  ret (Flush f_map f_pg (size + 1) (r_root x) (r_rcnt x)
         (if is_map then prev else NULL) (if is_map then NULL else prev)
         (fl_unmap_self v) (fl_rwx v) (fl_saved v)).

(** the choice of the next mapping after the one just treated, whose successors
    are [nroot], [nmap] and [dual] *)
Definition flush_next (v : flush_t) (dual nroot nmap pmap proot rwx : Z) : MD flush_t :=
  let v := Flush NULL (fl_pg v) (fl_pgsize v) (fl_root v) (fl_rcnt v) pmap proot (fl_unmap_self v)
             rwx (fl_saved v) in
  if negb (nroot =? NULL) then
    let size := fl_pgsize v - 1 in
    if size <? t_pgsize then
      when (negb (dual =? NULL) && is_rwx fp && fl_unmap_self v)
        (mdb_free_buffer fuel dual sizeof_dualnode_t) ;;;
      ret (Flush NULL (fl_pg v) size (w64 (nroot - sizeof_rootnode_t)) (mdb_arraysize size) pmap proot
             (fl_unmap_self v) rwx
             (save size (Saved (pack_prev pmap proot) nmap (fl_root v) (fl_rcnt v)) v))
    else
      ret (Flush NULL (fl_pg v) size (w64 (mdb_index_root size nroot f_addr - sizeof_rootnode_t)) 1
             pmap proot (fl_unmap_self v) rwx (fl_saved v))
  else if negb (nmap =? NULL) then
    let* f_pg := node_get nmap (Mapnode.get_pgent (if negb (pmap =? NULL) then pmap else proot)) in
    ret (Flush nmap f_pg (fl_pgsize v) (fl_root v) (fl_rcnt v) pmap proot (fl_unmap_self v) rwx (fl_saved v))
  else if (fl_pgsize v <? t_pgsize) && negb (fl_root v =? NULL) then recurse_up v
  else ret v.

(** a round of the inner loop, which looks for a mapping in the root arrays *)
Definition scan_step (v : flush_t) : MD flush_t :=
  let rcnt := w64 (fl_rcnt v - 1) in
  let root := w64 (fl_root v + sizeof_rootnode_t) in
  let* dual := root_get_dual root in
  let* nroot := root_get_root root in
  let* f_map := root_get_map root in
  if negb (nroot =? NULL) then
    let size := fl_pgsize v - 1 in
    when (is_rwx fp) (root_set root (Rootnode.set_ptr_map f_map)) ;;;
    let* sub := dual_get_root dual in
    when (negb (dual =? NULL) && is_rwx fp) (mdb_free_buffer fuel dual sizeof_dualnode_t) ;;;
    ret (Flush NULL (fl_pg v) size (w64 (sub - sizeof_rootnode_t)) (mdb_arraysize size)
           (fl_pmap v) (fl_proot v) (fl_unmap_self v) (fl_rwx v)
           (save size (Saved root f_map root rcnt) v))
  else if negb (f_map =? NULL) then
    let* f_pg := node_get f_map (Mapnode.get_pgent root) in
    ret (Flush f_map f_pg (fl_pgsize v) root rcnt NULL root (fl_unmap_self v) (fl_rwx v) (fl_saved v))
  else
    ret (Flush NULL (fl_pg v) (fl_pgsize v) root rcnt (fl_pmap v) (fl_proot v) (fl_unmap_self v)
           (fl_rwx v) (fl_saved v)).

Fixpoint scan_roots (n : nat) (v : flush_t) : MD flush_t :=
  if (fl_map v =? NULL) && (0 <? fl_rcnt v) then
    match n with
    | O => hang
    | S n => let* v := scan_step v in scan_roots n v
    end
  else ret v.

(** a round of the outer loop *)
Definition flush_round (v : flush_t) : MD flush_t :=
  let* dual := get_nextdual (fl_map v) in
  let* nroot := get_nextroot (fl_map v) in
  let* nmap := get_nextmap (fl_map v) in
  let* pmap := node_get (fl_map v) (Mapnode.get_prevmap (fl_pg v)) in
  let* proot := node_get (fl_map v) (Mapnode.get_prevroot (fl_pg v)) in
  let* self := flush_self v pmap proot in
  let '(pmap, proot, rwx) := self in
  let* v := flush_next v dual nroot nmap pmap proot rwx in
  let* v := scan_roots fuel v in
  ret (if fl_pgsize v <=? t_pgsize
       then Flush (fl_map v) (fl_pg v) (fl_pgsize v) (fl_root v) (fl_rcnt v) (fl_pmap v) (fl_proot v)
              true (fl_rwx v) (fl_saved v)
       else v).

(** the [do ... while] loop *)
Fixpoint flush_loop (n : nat) (startdepth : Z) (v : flush_t) : MD flush_t :=
  match n with
  | O => hang
  | S n =>
      let* v := flush_round v in
      if fl_map v =? NULL then ret v else
      let* depth := node_get (fl_map v) Mapnode.get_depth in
      if depth >? startdepth then flush_loop n startdepth v else ret v
  end.

End Flush.

Definition mdb_flush (fuel : nat) (f_map f_pg f_hwpgsize f_addr t_hwpgsize : Z) (fp : fpage_t)
    (unmap_self : bool) : MD Z :=
  let* startdepth := node_get f_map Mapnode.get_depth in
  let* rwx :=
    (if unmap_self then
       let* bits := pg_get f_pg (fun k => Pgent.reference_bits f_hwpgsize (Pgent.raw_at k f_pg)) in
       let* old := node_get f_map Mapnode.get_rwx in
       node_upd f_map (Mapnode.set_rwx 0) ;;;
       pg_upd f_pg (Pgent.reset_reference_bits f_hwpgsize) ;;;
       ret (Z.lor old bits)
     else ret 0) in
  let f_pgsize := mdb_pgsize f_hwpgsize in
  let t_pgsize := mdb_pgsize t_hwpgsize in
  let* v := flush_loop fuel f_addr t_pgsize fp fuel startdepth
              (Flush f_map f_pg f_pgsize NULL 0 NULL NULL unmap_self rwx ∅) in
  when (negb unmap_self) (pg_upd f_pg (Pgent.update_reference_bits f_hwpgsize (fl_rwx v))) ;;;
  ret (fl_rwx v).
