(* ===== verification/Mdbtree.v ===== *)
(** * The mapping database holds trees

    Mappings of one page size below a node form a list in depth-first order,
    linked through the exclusive or of predecessor and page table entry.
    [mdb_map] puts a new mapping in front of the children of its source;
    [mdb_flush] with all rights removes exactly the subtree of a mapping and
    invalidates every page table entry in it.  The theorems rest on the
    interface [BufferHeap] of the allocator. *)

From Stdlib Require Import ZArith Lia Bool List.
From stdpp Require Import base numbers list option gmap.
From S2P Require Import Prelude Types Fpage Monad Kmem Pgent Mapnode MdbAlloc Mdbpools Mdb Mdbflush.
Open Scope Z_scope.

(** ** Nodes in memory *)

Definition nd (s : mdb_t) (p : Z) : Mapnode.mapnode_t :=
  Mapnode.of_raw (lds s p) (lds s (p + 8)) (lds s (p + 16)).
Definition nset (p : Z) (n : Mapnode.mapnode_t) (s : mdb_t) : mdb_t :=
  sto (p + 16) (Mapnode.raw2 n) (sto (p + 8) (Mapnode.raw1 n) (sto p (Mapnode.raw0 n) s)).

#[global] Arguments nd : simpl never.
#[global] Arguments nset : simpl never.

(** room for a node *)
Definition node_at (p : Z) : Prop := 0 < p /\ p + sizeof_mapnode_t < 2 ^ 64.

Lemma node_offsets p : node_at p -> p <> NULL /\ w64 (p + 0) = p /\ w64 (p + 8) = p + 8 /\ w64 (p + 16) = p + 16.
Proof.
  unfold node_at, sizeof_mapnode_t, NULL. intros []. rewrite Z.add_0_r.
  split_and!; [lia|apply wrap_small; lia..].
Qed.

Lemma bind_node {B} p (k : Mapnode.mapnode_t -> MD B) s : node_at p -> bind (node p) k s = k (nd s p) s.
Proof.
  intros Hp. destruct (node_offsets p Hp) as (Hn & E0 & E8 & E16). unfold node.
  rewrite bind_assoc, bind_rd, bind_assoc, bind_rd, bind_assoc, bind_rd by done. now rewrite E0, E8, E16.
Qed.

Lemma bind_node_upd {B} p f (k : unit -> MD B) s :
  node_at p -> bind (node_upd p f) k s = k tt (nset p (f (nd s p)) s).
Proof.
  intros Hp. destruct (node_offsets p Hp) as (Hn & E0 & E8 & E16). unfold node_upd.
  rewrite bind_assoc, bind_node by done. unfold node_set.
  rewrite bind_assoc, bind_wr, bind_assoc, bind_wr, bind_wr by done. now rewrite E0, E8, E16.
Qed.

Lemma node_upd_run p f s : node_at p -> node_upd p f s = Ok (tt, nset p (f (nd s p)) s).
Proof.
  intros Hp. pose proof (bind_node_upd p f (fun u => ret u) s Hp) as H. unfold bind in H.
  now destruct (node_upd p f s) as [[[] ?]| |].
Qed.

Lemma bind_node_get {A B} p (f : Mapnode.mapnode_t -> A) (k : A -> MD B) s :
  node_at p -> bind (node_get p f) k s = k (f (nd s p)) s.
Proof. intros Hp. unfold node_get. now rewrite bind_assoc, bind_node. Qed.

Lemma of_raw_in_fields a b c : Mapnode.in_fields (Mapnode.of_raw a b c).
Proof.
  unfold Mapnode.in_fields, Mapnode.of_raw, Rootnode.of_raw. simpl.
  split; [exact (bf_get_bounds Mapnode.f_prev_ptr a ltac:(bf_side))|].
  split; [exact (bf_get_bounds Mapnode.f_tree_depth b ltac:(bf_side))|].
  split; [exact (bf_get_bounds Mapnode.f_rwx b ltac:(bf_side))|].
  split; [exact (bf_get_bounds Mapnode.f_space b ltac:(bf_side))|].
  exact (bf_get_bounds Rootnode.f_next_ptr c ltac:(bf_side)).
Qed.

Lemma nd_in_fields s p : Mapnode.in_fields (nd s p).
Proof. unfold nd. apply of_raw_in_fields. Qed.

(** the modifications of a node keep its members within their fields *)
Class Setter (f : Mapnode.mapnode_t -> Mapnode.mapnode_t) : Prop :=
  set_in_fields n : Mapnode.in_fields n -> Mapnode.in_fields (f n).

Lemma node_fields_intro a b c d e f g h :
  0 <= b < 2 ^ PREV_BITS -> 0 <= c < 2 ^ DEPTH_BITS -> 0 <= d < 2 ^ 3 ->
  0 <= e < 2 ^ MDB_SPACE_BITS -> 0 <= h < 2 ^ NEXT_BITS ->
  Mapnode.in_fields (Mapnode.Node a b c d e f g h).
Proof. unfold Mapnode.in_fields. simpl. tauto. Qed.

Ltac solve_setter :=
  intros n (H1 & H2 & H3 & H4 & H5); apply node_fields_intro; unfold next_field;
  match goal with
  | |- context [wrap _ _] => apply wrap_bounds; vm_compute; congruence
  | _ => assumption
  end.

#[export] Instance set_backlink_fields r p q : Setter (Mapnode.set_backlink r p q).
Proof. solve_setter. Qed.
#[export] Instance set_next_fields r m p : Setter (Mapnode.set_next r m p).
Proof. solve_setter. Qed.
#[export] Instance set_next_map_fields p : Setter (Mapnode.set_next_map p).
Proof. apply set_next_fields. Qed.
#[export] Instance set_space_fields p : Setter (Mapnode.set_space p).
Proof. solve_setter. Qed.
#[export] Instance set_depth_fields d : Setter (Mapnode.set_depth d).
Proof. solve_setter. Qed.
#[export] Instance set_rwx_fields d : Setter (Mapnode.set_rwx d).
Proof. solve_setter. Qed.
#[export] Instance update_rwx_fields d : Setter (Mapnode.update_rwx d).
Proof. solve_setter. Qed.

Lemma lds_nset p n q s : ~ p <= q < p + sizeof_mapnode_t -> lds (nset p n s) q = lds s q.
Proof. unfold sizeof_mapnode_t. intros H. unfold nset. now rewrite !lds_sto_ne by lia. Qed.

Lemma nd_nset_eq p n s : Mapnode.in_fields n -> nd (nset p n s) p = n.
Proof.
  intros Hn. unfold nd, nset. rewrite (lds_sto_ne _ p), (lds_sto_ne _ p), lds_sto_eq by lia.
  rewrite (lds_sto_ne _ (p + 8)), lds_sto_eq, lds_sto_eq by lia. now apply Mapnode.mapnode_raw_roundtrip.
Qed.

Lemma nd_words s s' p : (forall q, p <= q < p + sizeof_mapnode_t -> lds s' q = lds s q) -> nd s' p = nd s p.
Proof. intros H. unfold nd, sizeof_mapnode_t in *. now rewrite !H by lia. Qed.

Lemma nd_with_flushes f s p : nd (md_with_flushes f s) p = nd s p.
Proof. done. Qed.

(** from here on a node is what was written to it *)
#[global] Opaque nd.

(** ** Links *)

(** the only successor of a node is the mapping [p] *)
Definition next_map_is (n : Mapnode.mapnode_t) (p : Z) : Prop :=
  Mapnode.x_is_next_root n = false /\ Mapnode.x_is_next_map n = true /\
  next_addr (Mapnode.x_next_ptr n) = p.

(** a node with the mapping [prev] in front and the page table entry [pg] *)
Definition prev_map_is (n : Mapnode.mapnode_t) (prev pg : Z) : Prop :=
  Mapnode.x_is_prev_root n = false /\ Mapnode.get_pgent prev n = pg.

(** mappings of one size in depth-first order, each with its page table entry;
    [prev] precedes the first of them *)
Fixpoint chain (s : mdb_t) (prev : Z) (l : list (Z * Z)) : Prop :=
  match l with
  | [] => True
  | (a, pg) :: l =>
      prev_map_is (nd s a) prev pg /\
      next_map_is (nd s a) (hd NULL l.*1) /\ chain s a l
  end.

Lemma nodes_frame s s' prev l :
  (forall a, a ∈ l.*1 -> nd s' a = nd s a) -> chain s prev l -> chain s' prev l.
Proof.
  revert prev. induction l as [|[a pg] l IH]; intros prev Hf; simpl; [done|].
  rewrite (Hf a) by (simpl; left). intros (H1 & H2 & H3). split_and!; [done..|].
  apply IH; [|done]. intros x Hx. apply Hf. simpl. now right.
Qed.

Lemma lxor_cancel a b : Z.lxor (Z.lxor a b) b = a.
Proof. now rewrite Z.lxor_assoc, Z.lxor_nilpotent, Z.lxor_0_r. Qed.
Lemma lxor_cancel_l a b : Z.lxor (Z.lxor a b) a = b.
Proof. now rewrite (Z.lxor_comm a b), lxor_cancel. Qed.

Lemma get_prevmap_of n prev pg :
  prev_map_is n prev pg -> Mapnode.get_prevmap pg n = prev /\ Mapnode.get_prevroot pg n = NULL.
Proof.
  intros [Hr <-]. unfold Mapnode.get_prevmap, Mapnode.get_prevroot, Mapnode.get_pgent, Mapnode.prev_addr.
  rewrite Hr. simpl. now rewrite <- Z.lxor_assoc, Z.lxor_nilpotent, Z.lxor_0_l.
Qed.

(** ** Writing a node *)

(** [s'] is [s] with node [p] set to [n] *)
Record wrote (s s' : mdb_t) (p : Z) (n : Mapnode.mapnode_t) : Prop := {
  w_node : nd s' p = n;
  w_else q : ~ p <= q < p + sizeof_mapnode_t -> lds s' q = lds s q;
  w_flushes : md_flushes s' = md_flushes s;
  w_inv fuel inv live owned : BufferHeap fuel inv -> inv s live owned ->
    live p sizeof_mapnode_t -> inv s' live owned;
}.

Lemma wrote_trans s s' s'' p n n' : wrote s s' p n -> wrote s' s'' p n' -> wrote s s'' p n'.
Proof.
  intros [H1 H2 H3 H4] [K1 K2 K3 K4]. split; [done|..].
  - intros q Hq. now rewrite K2, H2.
  - congruence.
  - intros fuel inv live owned HB Hi Hl. exact (K4 fuel inv live owned HB (H4 fuel inv live owned HB Hi Hl) Hl).
Qed.

Lemma wrote_else_node s s' p n q :
  wrote s s' p n -> p + sizeof_mapnode_t <= q \/ q + sizeof_mapnode_t <= p -> nd s' q = nd s q.
Proof. intros H Hq. apply nd_words. intros x Hx. apply (w_else _ _ _ _ H). lia. Qed.

Lemma wrote_nset s p n : Mapnode.in_fields n -> wrote s (nset p n s) p n.
Proof.
  intros Hn. split; [now apply nd_nset_eq| |done|].
  - intros q Hq. now apply lds_nset.
  - intros fuel inv live owned HB Hi Hl. unfold nset.
    assert (forall q, p <= q < p + sizeof_mapnode_t -> ~ owned q) as Hp
      by (intros q Hq; exact (bh_private s live owned p _ q Hi Hl Hq)).
    unfold sizeof_mapnode_t in Hp. repeat (apply bh_write; [|apply Hp; lia]). done.
Qed.

(** a modification of a node, in continuation-passing form *)
Lemma node_upd_wrote p f `{!Setter f} s : node_at p ->
  exists s', (forall B (k : unit -> MD B), bind (node_upd p f) k s = k tt s') /\
    node_upd p f s = Ok (tt, s') /\ wrote s s' p (f (nd s p)).
Proof.
  intros Hp. eexists. split_and!.
  - intros B k. now apply bind_node_upd.
  - now apply node_upd_run.
  - apply wrote_nset, set_in_fields, nd_in_fields.
Qed.

Lemma bind_get_nextmap {B} p q (k : Z -> MD B) s :
  node_at p -> next_map_is (nd s p) q -> bind (get_nextmap p) k s = k q s.
Proof.
  intros Hp (H1 & H2 & H3). unfold get_nextmap. rewrite bind_assoc, bind_node by done.
  unfold through_dual, Mapnode.is_next_both, Mapnode.get_nextmap. rewrite H1, H2. cbn [andb negb].
  rewrite bind_gets. now rewrite H3.
Qed.
Lemma bind_get_nextroot {B} p q (k : Z -> MD B) s :
  node_at p -> next_map_is (nd s p) q -> bind (get_nextroot p) k s = k NULL s.
Proof.
  intros Hp (H1 & H2 & _). unfold get_nextroot. rewrite bind_assoc, bind_node by done.
  unfold through_dual, Mapnode.is_next_both, Mapnode.get_nextroot. now rewrite H1.
Qed.
Lemma bind_get_nextdual {B} p q (k : Z -> MD B) s :
  node_at p -> next_map_is (nd s p) q -> bind (get_nextdual p) k s = k NULL s.
Proof.
  intros Hp (H1 & _). unfold get_nextdual. rewrite bind_node_get by done.
  unfold Mapnode.get_nextdual. now rewrite H1.
Qed.

Lemma next_map_is_set p n : is_word p -> p mod 4 = 0 -> next_map_is (Mapnode.set_next_map p n) p.
Proof. intros. split_and!; [done..|]. now apply Mapnode.next_roundtrip. Qed.

Lemma space_roundtrip space : is_word space -> space mod 2 ^ 11 = 0 ->
  w64 (Z.shiftl (wrap MDB_SPACE_BITS (Z.shiftr space (BITS_WORD - MDB_SPACE_BITS))) (BITS_WORD - MDB_SPACE_BITS))
  = space.
Proof.
  intros Hs Ha. unfold MDB_SPACE_BITS, BITS_WORD.
  rewrite Z.shiftl_mul_pow2, Z.shiftr_div_pow2 by lia. unfold is_word, wrap in *. zlia.
Qed.

Lemma set_backlink_get prev pg n :
  is_word prev -> is_word pg -> prev mod 2 = pg mod 2 ->
  Mapnode.get_pgent prev (Mapnode.set_backlink false prev pg n) = pg.
Proof.
  intros. unfold Mapnode.get_pgent, Mapnode.prev_addr. simpl.
  rewrite Mapnode.prev_roundtrip by done. apply lxor_cancel_l.
Qed.

Lemma lxor_word a b : is_word a -> is_word b -> is_word (Z.lxor a b).
Proof.
  intros Ha Hb. replace (Z.lxor a b) with (w64 (Z.lxor a b)); [apply w64_is_word|].
  apply Z.bits_inj'. intros i Hi. rewrite wrap_testbit by lia. destruct (Z.ltb_spec i 64); [done|].
  rewrite Z.lxor_spec, !(testbit_above 64) by (unfold is_word in *; lia). done.
Qed.

Lemma pgent_word_even prev n : is_word prev -> prev mod 2 = 0 ->
  is_word (Mapnode.get_pgent prev n) /\ (Mapnode.get_pgent prev n) mod 2 = 0.
Proof.
  intros Hw He. unfold Mapnode.get_pgent, Mapnode.prev_addr. split.
  - apply lxor_word; [apply w64_is_word|done].
  - rewrite <- Z.bit0_mod in *. rewrite Z.lxor_spec, wrap_testbit, Z.shiftl_spec by lia.
    rewrite (Z.testbit_neg_r (Mapnode.x_prev_ptr n) (0 - 1)) by lia. now destruct (Z.testbit prev 0).
Qed.

Section Heap.
Context {fuel : nat} {inv : mdb_t -> (Z -> Z -> Prop) -> (Z -> Prop) -> Prop} `{HB : !BufferHeap fuel inv}.

Lemma live_node_at s live owned p : inv s live owned -> live p sizeof_mapnode_t -> node_at p.
Proof. intros Hi Hl. pose proof (bh_range s live owned p _ Hi Hl). unfold node_at. lia. Qed.

Lemma live_node_word s live owned p : inv s live owned -> live p sizeof_mapnode_t ->
  is_word p /\ p mod 4 = 0 /\ p mod 2 = 0.
Proof.
  intros Hi Hl. pose proof (bh_range s live owned p _ Hi Hl) as Hr. unfold sizeof_mapnode_t in *.
  destruct (bh_align s live owned p _ Hi Hl) as [k ->]; [now exists 3|]. unfold is_word.
  split_and!; [lia..| |]; zlia.
Qed.

Lemma live_words s s' live owned p : inv s live owned -> live p sizeof_mapnode_t ->
  (forall q, ~ owned q -> lds s' q = lds s q) -> nd s' p = nd s p.
Proof.
  intros Hi Hl Hf. apply nd_words. intros q Hq. apply Hf. exact (bh_private s live owned p _ q Hi Hl Hq).
Qed.

Lemma live_wrote s s' live owned p q n : inv s live owned ->
  live p sizeof_mapnode_t -> live q sizeof_mapnode_t -> p <> q -> wrote s s' p n -> nd s' q = nd s q.
Proof.
  intros Hi Hp Hq Hne H. apply (wrote_else_node _ _ _ _ _ H).
  exact (bh_apart s live owned p _ q _ Hi Hp Hq Hne).
Qed.

End Heap.

(** the successor's back link names its new predecessor *)
Lemma relink_wrote s n p c pg :
  node_at n -> prev_map_is (nd s n) c pg -> is_word p -> p mod 2 = 0 -> is_word c -> c mod 2 = 0 ->
  exists s', (forall B (k : unit -> MD B), bind (relink false n p c) k s = k tt s') /\
    relink false n p c s = Ok (tt, s') /\ wrote s s' n (Mapnode.set_backlink false p pg (nd s n)) /\
    prev_map_is (nd s' n) p pg.
Proof.
  intros Hn [_ Hpg] Hp Hp2 Hc Hc2. destruct (pgent_word_even c (nd s n) Hc Hc2) as [Hw H2].
  rewrite Hpg in Hw, H2. unfold relink.
  destruct (node_upd_wrote n (Mapnode.set_backlink false p pg) s Hn) as (s' & Hk & Hr & Hwr).
  exists s'. split_and!; [| |exact Hwr|].
  - intros B k. rewrite bind_assoc, bind_node_get by done. now rewrite Hpg.
  - rewrite bind_node_get by done. now rewrite Hpg.
  - rewrite (w_node _ _ _ _ Hwr). split; [done|]. apply set_backlink_get; [done..|congruence].
Qed.

(** what links do not say *)
Definition same_attributes (n n' : Mapnode.mapnode_t) : Prop :=
  Mapnode.x_tree_depth n = Mapnode.x_tree_depth n' /\ Mapnode.x_rwx n = Mapnode.x_rwx n' /\
  Mapnode.x_space n = Mapnode.x_space n'.

Lemma same_attributes_refl n : same_attributes n n.
Proof. done. Qed.

Section Relink.
Context {fuel : nat} {inv : mdb_t -> (Z -> Z -> Prop) -> (Z -> Prop) -> Prop} `{HB : !BufferHeap fuel inv}.

(** a list of mappings changes its predecessor from [c] to [p] *)
Lemma relink_head s live owned p c l :
  inv s live owned -> (forall a, a ∈ l.*1 -> live a sizeof_mapnode_t) -> NoDup l.*1 -> chain s c l ->
  is_word p -> p mod 2 = 0 -> is_word c -> c mod 2 = 0 ->
  let n := hd NULL l.*1 in
  exists s', (forall B (k : unit -> MD B), bind (when (negb (n =? NULL)) (relink false n p c)) k s = k tt s') /\
    when (negb (n =? NULL)) (relink false n p c) s = Ok (tt, s') /\
    inv s' live owned /\ chain s' p l /\ md_flushes s' = md_flushes s /\
    (forall q, (forall a, hd_error l.*1 = Some a -> ~ a <= q < a + sizeof_mapnode_t) -> lds s' q = lds s q) /\
    (forall a, live a sizeof_mapnode_t -> same_attributes (nd s' a) (nd s a)) /\
    (forall a, live a sizeof_mapnode_t -> hd_error l.*1 <> Some a -> nd s' a = nd s a).
Proof.
  intros Hi Hl Hnd Hch Hp Hp2 Hc Hc2. destruct l as [|[a pg] l].
  { exists s. split_and!; try done. }
  simpl in *. destruct Hch as (Hpv & Hnx & Hch).
  pose proof (Hl a ltac:(left)) as Ha. pose proof (live_node_at _ _ _ _ Hi Ha) as Hna.
  destruct (relink_wrote s a p c pg Hna Hpv Hp Hp2 Hc Hc2) as (s' & Hk & Hr & Hw & Hpv').
  destruct (Z.eqb_spec a NULL) as [->|_]; [destruct Hna; unfold NULL in *; lia|]. cbn [negb].
  assert (forall x, live x sizeof_mapnode_t -> a <> x -> nd s' x = nd s x) as Hoth
    by (intros x Hx Hne; exact (live_wrote s s' live owned a x _ Hi Ha Hx Hne Hw)).
  exists s'. split_and!.
  - intros B k. now rewrite bind_when_true.
  - done.
  - exact (w_inv _ _ _ _ Hw fuel inv live owned HB Hi Ha).
  - done.
  - rewrite (w_node _ _ _ _ Hw). exact Hnx.
  - apply (nodes_frame s); [|done]. intros x Hx. apply Hoth; [apply Hl; now right|].
    intros ->. now apply NoDup_cons in Hnd as [? _].
  - apply (w_flushes _ _ _ _ Hw).
  - intros q Hq. apply (w_else _ _ _ _ Hw). now apply Hq.
  - intros x Hx. destruct (decide (a = x)) as [<-|Hne].
    + rewrite (w_node _ _ _ _ Hw). now repeat split.
    + rewrite Hoth by done. apply same_attributes_refl.
  - intros x Hx Hne. apply Hoth; congruence.
Qed.
End Relink.

(** ** A new mapping *)

Lemma init_node_wrote s b prev pg space depth next :
  node_at b ->
  exists s', (forall B (k : unit -> MD B), bind (init_node b false prev pg space depth next) k s = k tt s') /\
    wrote s s' b (Mapnode.set_next_map next (Mapnode.set_depth depth (Mapnode.set_space space
                    (Mapnode.set_backlink false prev pg (nd s b))))).
Proof.
  intros Hb.
  destruct (node_upd_wrote b (Mapnode.set_backlink false prev pg) s Hb) as (s1 & E1 & _ & W1).
  destruct (node_upd_wrote b (Mapnode.set_space space) s1 Hb) as (s2 & E2 & _ & W2).
  destruct (node_upd_wrote b (Mapnode.set_depth depth) s2 Hb) as (s3 & E3 & _ & W3).
  destruct (node_upd_wrote b (Mapnode.set_next_map next) s3 Hb) as (s4 & E4 & _ & W4).
  exists s4. split.
  - intros B k. unfold init_node. now rewrite !bind_assoc, E1, !bind_assoc, E2, !bind_assoc, E3, E4.
  - rewrite (w_node _ _ _ _ W3), (w_node _ _ _ _ W2), (w_node _ _ _ _ W1) in W4.
    exact (wrote_trans _ _ _ _ _ _ (wrote_trans _ _ _ _ _ _ (wrote_trans _ _ _ _ _ _ W1 W2) W3) W4).
Qed.

(** [b] is the new first child of [f], whose successors were [l] *)
Record child_inserted {inv : mdb_t -> (Z -> Z -> Prop) -> (Z -> Prop) -> Prop}
    (s s' : mdb_t) (live : Z -> Z -> Prop) (owned : Z -> Prop)
    (f : Z) (l : list (Z * Z)) (pg space b : Z) : Prop := {
  ci_fresh z : ~ live b z;
  ci_inv : inv s' (fun c z => live c z \/ c = b /\ z = sizeof_mapnode_t)
             (fun p => owned p /\ ~ b <= p < b + sizeof_mapnode_t);
  ci_next : next_map_is (nd s' f) b;
  ci_chain : chain s' f ((b, pg) :: l);
  ci_space : Mapnode.get_space (nd s' b) = space;
  ci_depth : Mapnode.get_depth (nd s' b) = (Mapnode.get_depth (nd s f) + 1) mod 256;
  ci_attributes a : live a sizeof_mapnode_t -> same_attributes (nd s' a) (nd s a);
  ci_nodes a : live a sizeof_mapnode_t -> a <> f -> hd_error l.*1 <> Some a -> nd s' a = nd s a;
  ci_words q : ~ owned q -> (forall a, live a sizeof_mapnode_t -> ~ a <= q < a + sizeof_mapnode_t) ->
    lds s' q = lds s q;
  ci_flushes : md_flushes s' = md_flushes s;
}.
#[global] Arguments child_inserted inv s s' live owned f l pg space b : clear implicits.

Section Insert.
Context {fuel : nat} {inv : mdb_t -> (Z -> Z -> Prop) -> (Z -> Prop) -> Prop} `{HB : !BufferHeap fuel inv}.

Lemma insert_below_spec s live owned f b l t_pg t_space :
  inv s live owned -> live f sizeof_mapnode_t -> live b sizeof_mapnode_t ->
  (forall a, a ∈ l.*1 -> live a sizeof_mapnode_t) -> NoDup (b :: f :: l.*1) ->
  next_map_is (nd s f) (hd NULL l.*1) -> chain s f l ->
  is_word t_pg -> t_pg mod 2 = 0 -> is_word t_space -> t_space mod 2 ^ 11 = 0 ->
  exists s', (forall B (k : unit -> MD B), bind (insert_below fuel f b t_pg t_space) k s = k tt s') /\
    inv s' live owned /\ next_map_is (nd s' f) b /\ chain s' f ((b, t_pg) :: l) /\
    Mapnode.get_space (nd s' b) = t_space /\
    Mapnode.get_depth (nd s' b) = (Mapnode.get_depth (nd s f) + 1) mod 256 /\
    (forall a, live a sizeof_mapnode_t -> a <> b -> same_attributes (nd s' a) (nd s a)) /\
    (forall a, live a sizeof_mapnode_t -> a <> b -> a <> f -> hd_error l.*1 <> Some a -> nd s' a = nd s a) /\
    (forall q, (forall a, live a sizeof_mapnode_t -> ~ a <= q < a + sizeof_mapnode_t) -> lds s' q = lds s q) /\
    md_flushes s' = md_flushes s.
Proof.
  intros Hi Hf Hb Hl Hnd Hn Hch Hpg Hpg2 Hsp Hsp2.
  apply NoDup_cons in Hnd as [Hnb Hnd]. apply NoDup_cons in Hnd as [Hnf Hnd].
  pose proof (live_node_at _ _ _ _ Hi Hf) as Hnaf. pose proof (live_node_at _ _ _ _ Hi Hb) as Hnab.
  destruct (live_node_word _ _ _ _ Hi Hf) as (Hwf & _ & Hf2).
  destruct (live_node_word _ _ _ _ Hi Hb) as (Hwb & Hb4 & Hb2).
  destruct (init_node_wrote s b f t_pg t_space (Mapnode.get_depth (nd s f) + 1) (hd NULL l.*1) Hnab)
    as (s1 & K1 & W1).
  pose proof (w_inv _ _ _ _ W1 fuel inv live owned HB Hi Hb) as Hi1.
  assert (forall x, live x sizeof_mapnode_t -> x <> b -> nd s1 x = nd s x) as O1
    by (intros x Hx Hne; refine (live_wrote s s1 live owned b x _ Hi Hb Hx _ W1); congruence).
  assert (f <> b) as Hfb by (intros ->; apply Hnb; left).
  destruct (node_upd_wrote f (Mapnode.set_next_map b) s1 Hnaf) as (s2 & K2 & _ & W2).
  pose proof (w_inv _ _ _ _ W2 fuel inv live owned HB Hi1 Hf) as Hi2.
  assert (forall x, live x sizeof_mapnode_t -> x <> f -> nd s2 x = nd s1 x) as O2
    by (intros x Hx Hne; refine (live_wrote s1 s2 live owned f x _ Hi1 Hf Hx _ W2); congruence).
  destruct (relink_head s2 live owned b f l Hi2 Hl Hnd) as (s3 & K3 & _ & Hi3 & Hch3 & Hfl3 & Hw3 & Hat3 & O3);
    [|done..|].
  { apply (nodes_frame s); [|done]. intros x Hx. rewrite O2, O1; [done|auto..| |]; set_solver. }
  assert (hd_error l.*1 <> Some f /\ hd_error l.*1 <> Some b) as [Hhf Hhb].
  { destruct l as [|[a pg] l]; [done|]. set_solver. }
  assert (is_word (hd NULL l.*1) /\ (hd NULL l.*1) mod 4 = 0) as [Hwn Hn4].
  { destruct l as [|[a pg] l]; [done|]. now destruct (live_node_word _ _ _ a Hi (Hl a ltac:(left))). }
  pose proof (O1 f Hf Hfb) as Ef. destruct Hn as (Hn1 & Hn2 & Hn3).
  exists s3. split_and!.
  - intros B k. unfold insert_below. rewrite bind_assoc, (bind_get_nextmap f (hd NULL l.*1)) by done.
    rewrite bind_assoc, bind_node_get, bind_assoc, K1, bind_assoc, bind_node, bind_assoc, Ef by done.
    unfold Mapnode.is_next_root, Mapnode.is_next_both. rewrite Hn1, Hn2. cbn [andb negb].
    now rewrite K2, K3.
  - done.
  - rewrite O3, (w_node _ _ _ _ W2) by done. now apply next_map_is_set.
  - cbn [chain]. rewrite O3, O2, (w_node _ _ _ _ W1) by done. split_and!; [| |done].
    + split; [done|]. exact (set_backlink_get f t_pg (nd s b) Hwf Hpg ltac:(congruence)).
    + now apply next_map_is_set.
  - rewrite O3, O2, (w_node _ _ _ _ W1) by done. unfold Mapnode.get_space. cbn.
    now apply space_roundtrip.
  - rewrite O3, O2, (w_node _ _ _ _ W1) by done. done.
  - intros a Ha Hne. destruct (Hat3 a Ha) as (A1 & A2 & A3). unfold same_attributes. rewrite A1, A2, A3.
    destruct (decide (a = f)) as [->|Hnf'].
    + rewrite (w_node _ _ _ _ W2), Ef. now repeat split.
    + rewrite O2, O1 by done. now repeat split.
  - intros a Ha H1 H2 H3. now rewrite O3, O2, O1.
  - intros q Hq. rewrite Hw3, (w_else _ _ _ _ W2), (w_else _ _ _ _ W1); [done|now apply Hq..|].
    intros a Ha. apply Hq, Hl. destruct l as [|[a' pg] l]; simpl in *; [done|]. injection Ha as ->. left.
  - now rewrite Hfl3, (w_flushes _ _ _ _ W2), (w_flushes _ _ _ _ W1).
Qed.

(** A mapping of the same page size becomes the first child of its source.
    [f] is a mapping whose successors in depth-first order are [l].  Then
    [mdb_map] returns a node [b] that was not in use; [f] is followed by [b], with
    the new page table entry, and [b] by [l]; [b] has the receiver's space and a
    depth one larger, in eight bits; every other mapping keeps its space, rights
    and depth, and no word outside the allocator and the mappings changes. *)
Theorem mdb_map_inserts_child s live owned f l f_pg size f_addr t_pg t_space :
  inv s live owned -> live f sizeof_mapnode_t ->
  (forall a, a ∈ l.*1 -> live a sizeof_mapnode_t) -> NoDup (f :: l.*1) ->
  next_map_is (nd s f) (hd NULL l.*1) -> chain s f l ->
  has_buffer sizeof_mapnode_t s ->
  is_word t_pg -> t_pg mod 2 = 0 -> is_word t_space -> t_space mod 2 ^ 11 = 0 ->
  exists b s', mdb_map fuel f f_pg size f_addr t_pg size t_space false s = Ok (b, s') /\
    child_inserted inv s s' live owned f l t_pg t_space b.
Proof.
  intros Hi Hf Hl Hnd Hn Hch Hbuf Hpg Hpg2 Hsp Hsp2.
  destruct (bh_alloc s live owned _ Hi Hbuf) as (b & s1 & E1 & Hi1 & Hnew & Hown & Hfr & Hfl).
  assert (forall a, live a sizeof_mapnode_t -> nd s1 a = nd s a) as O1
    by (intros a Ha; exact (live_words s s1 live owned a Hi Ha Hfr)).
  assert (b ∉ f :: l.*1) as Hnb.
  { intros [->|Hb]%elem_of_cons; [exact (Hnew _ Hf)|exact (Hnew _ (Hl _ Hb))]. }
  destruct (insert_below_spec s1 (fun c z => live c z \/ c = b /\ z = sizeof_mapnode_t)
              (fun p => owned p /\ ~ b <= p < b + sizeof_mapnode_t) f b l t_pg t_space)
    as (s2 & K & Hi2 & Hn2 & Hc2 & Hs2 & Hd2 & Hat & Hoth & Hwo & Hfl2); try done; [auto..| |].
  { now apply NoDup_cons. }
  { rewrite O1 by done. done. }
  { apply (nodes_frame s); [auto|done]. }
  exists b, s2. rewrite O1 in Hd2 by done. split.
  { unfold mdb_map. rewrite (bind_ok _ _ _ _ _ E1), Z.eqb_refl. now rewrite K. }
  split; try done.
  - intros a Ha. rewrite <- (O1 a Ha). apply Hat; [now left|]. intros ->. exact (Hnew _ Ha).
  - intros a Ha H1 H2. rewrite <- (O1 a Ha). apply Hoth; [now left| |done..]. intros ->. exact (Hnew _ Ha).
  - intros q Hno Hq. rewrite Hwo; [now apply Hfr|]. intros a [Ha|[-> _]]; [now apply Hq|].
    intros Hin. apply Hno. now apply Hown.
  - congruence.
Qed.
End Insert.

(** ** Page table entries *)

Definition link_word (pg : Z) : Z := w64 (pg + Pgent.MIPS64_PTAB_SIZE).
Definition entry_word (pg q : Z) : Prop := q = pg \/ q = link_word pg.

(** a word of neither the allocator nor a buffer in use *)
Definition foreign (live : Z -> Z -> Prop) (owned : Z -> Prop) (q : Z) : Prop :=
  ~ owned q /\ forall b z, live b z -> ~ b <= q < b + z.

(** an entry of a page table, which is neither the allocator's nor a buffer in
    use *)
Definition entry_ok (live : Z -> Z -> Prop) (owned : Z -> Prop) (pg : Z) : Prop :=
  pg <> NULL /\ link_word pg <> pg /\
  forall q, entry_word pg q -> foreign live owned q.

(** the entries of a list share no words *)
Fixpoint entries_apart (l : list Z) : Prop :=
  match l with
  | [] => True
  | pg :: l => (forall pg' q, pg' ∈ l -> entry_word pg q -> ~ entry_word pg' q) /\ entries_apart l
  end.

(** the entry [pg] of [s] names no page and no mapping in [s'] *)
Definition cleared_word (size raw : Z) : Z :=
  if Pgent.is_tree_size size || (size =? size_4p) then 0
  else bf_set Pgent.tree_is_subtree 1 (bf_set Pgent.tree_is_valid 0 raw).
Definition cleared (s s' : mdb_t) (size pg : Z) : Prop :=
  lds s' pg = cleared_word size (lds s pg) /\ lds s' (link_word pg) = 0.

Definition clear_entry (pg size : Z) (s : mdb_t) : mdb_t :=
  md_with_kmem (Pgent.clear pg size false (md_kmem s)) s.

Lemma clear_entry_sto pg size s :
  clear_entry pg size s = sto (link_word pg) 0 (sto pg (cleared_word size (lds s pg)) s).
Proof. done. Qed.

Lemma clear_entry_words pg size s q : ~ entry_word pg q -> lds (clear_entry pg size s) q = lds s q.
Proof.
  intros Hq. unfold entry_word in Hq. rewrite clear_entry_sto, !lds_sto_ne; [done|naive_solver..].
Qed.

Lemma clear_entry_cleared pg size s : link_word pg <> pg -> cleared s (clear_entry pg size s) size pg.
Proof. intros Hne. rewrite clear_entry_sto. split; [now rewrite lds_sto_ne, lds_sto_eq|apply lds_sto_eq]. Qed.

(** the record of the purge of a translation *)
Definition purge (s : mdb_t) (log2size : Z) (e : Z * Z) : tlb_flush :=
  TlbFlush (Mapnode.get_space (nd s e.1)) (Z.lxor (lds s (link_word e.2)) e.1) log2size.

Section Flush.
Context {fuel : nat} {inv : mdb_t -> (Z -> Z -> Prop) -> (Z -> Prop) -> Prop} `{HB : !BufferHeap fuel inv}.

Lemma clear_entry_inv s live owned pg size :
  inv s live owned -> entry_ok live owned pg -> inv (clear_entry pg size s) live owned.
Proof.
  intros Hi (_ & _ & Hq). rewrite clear_entry_sto.
  do 2 (apply bh_write; [|apply Hq; unfold entry_word; tauto]). done.
Qed.

(** [remove_map]: the node leaves the list and its buffer is free *)
Lemma remove_map_spec s live owned p c pg l :
  inv s live owned -> live p sizeof_mapnode_t -> live c sizeof_mapnode_t ->
  (forall a, a ∈ l.*1 -> live a sizeof_mapnode_t) -> NoDup (p :: c :: l.*1) ->
  next_map_is (nd s p) c -> chain s p ((c, pg) :: l) ->
  exists s', (forall B (k : unit -> MD B), bind (remove_map fuel p c) k s = k tt s') /\
    inv s' (fun b z => live b z /\ b <> c) (fun q => owned q \/ c <= q < c + sizeof_mapnode_t) /\
    next_map_is (nd s' p) (hd NULL l.*1) /\ chain s' p l /\ md_flushes s' = md_flushes s /\
    (forall q, ~ owned q -> (forall a, live a sizeof_mapnode_t -> ~ a <= q < a + sizeof_mapnode_t) ->
       lds s' q = lds s q) /\
    (forall a, live a sizeof_mapnode_t -> a <> c -> same_attributes (nd s' a) (nd s a)).
Proof.
  intros Hi Hp Hc Hl Hnd Hn (Hpv & Hnx & Hch).
  apply NoDup_cons in Hnd as [Hnp Hnd]. apply NoDup_cons in Hnd as [Hnc Hnd].
  pose proof (live_node_at _ _ _ _ Hi Hp) as Hnap. pose proof (live_node_at _ _ _ _ Hi Hc) as Hnac.
  destruct (live_node_word _ _ _ _ Hi Hp) as (Hwp & _ & Hp2).
  destruct (live_node_word _ _ _ _ Hi Hc) as (Hwc & _ & Hc2).
  assert (p <> c) as Hpc by (intros ->; apply Hnp; left).
  destruct (node_upd_wrote p (Mapnode.set_next_map (hd NULL l.*1)) s Hnap) as (s1 & K1 & _ & W1).
  pose proof (w_inv _ _ _ _ W1 fuel inv live owned HB Hi Hp) as Hi1.
  assert (forall x, live x sizeof_mapnode_t -> x <> p -> nd s1 x = nd s x) as O1
    by (intros x Hx Hne; refine (live_wrote s s1 live owned p x _ Hi Hp Hx _ W1); congruence).
  destruct (bh_free s1 live owned c _ Hi1 Hc) as (s2 & E2 & Hi2 & Hfr2 & Hfl2).
  assert (forall x, live x sizeof_mapnode_t -> x <> c -> nd s2 x = nd s1 x) as O2.
  { intros x Hx Hne. apply nd_words. intros q Hq. apply Hfr2.
    - exact (bh_private s1 live owned x _ q Hi1 Hx Hq).
    - pose proof (bh_apart s1 live owned x _ c _ Hi1 Hx Hc Hne). lia. }
  destruct (relink_head s2 _ _ p c l Hi2) as (s3 & K3 & _ & Hi3 & Hch3 & Hfl3 & Hfr3 & Hat3 & O3); try done.
  { intros a Ha. split; [auto|]. intros ->. contradiction. }
  { apply (nodes_frame s); [|done]. intros a Ha. rewrite O2, O1; [done|auto..|set_solver|auto|set_solver]. }
  assert (hd_error l.*1 <> Some p) as Hhp by (destruct l as [|[a pa] l]; [done|]; set_solver).
  exists s3. split_and!; try done.
  - intros B k. unfold remove_map. rewrite bind_assoc, (bind_get_nextmap c (hd NULL l.*1)) by done.
    rewrite bind_assoc, bind_node_get, bind_assoc by done. destruct Hn as (Hn1 & Hn2 & _).
    unfold Mapnode.is_next_map. rewrite Hn1, Hn2. cbn [andb negb].
    now rewrite K1, bind_assoc, (bind_ok _ _ _ _ _ E2), K3.
  - rewrite O3, O2, (w_node _ _ _ _ W1) by done. apply next_map_is_set.
    + destruct l as [|[a pa] l]; [done|]. now destruct (live_node_word _ _ _ a Hi (Hl a ltac:(left))).
    + destruct l as [|[a pa] l]; [done|]. now destruct (live_node_word _ _ _ a Hi (Hl a ltac:(left))) as (_ & ? & _).
  - now rewrite Hfl3, Hfl2, (w_flushes _ _ _ _ W1).
  - intros q Ho Hq. rewrite Hfr3, Hfr2, (w_else _ _ _ _ W1); [done|auto..|].
    intros a Ha. apply Hq, Hl. destruct l as [|[a' pa] l]; simpl in *; [done|]. injection Ha as ->. left.
  - intros a Ha Hne. destruct (Hat3 a (conj Ha Hne)) as (A1 & A2 & A3). unfold same_attributes.
    rewrite A1, A2, A3, O2 by done. destruct (decide (a = p)) as [->|Hap].
    + rewrite (w_node _ _ _ _ W1). now repeat split.
    + rewrite O1 by done. now repeat split.
Qed.
(** one mapping and its page table entry are gone *)
Record removed (s s' : mdb_t) (live : Z -> Z -> Prop) (owned : Z -> Prop) (size : Z)
    (p : Z) (e : Z * Z) (l : list (Z * Z)) : Prop := {
  rm_inv : inv s' (fun b z => live b z /\ b <> e.1) (fun q => owned q \/ e.1 <= q < e.1 + sizeof_mapnode_t);
  rm_next : next_map_is (nd s' p) (hd NULL l.*1);
  rm_chain : chain s' p l;
  rm_cleared : cleared s s' size e.2;
  rm_flushes : md_flushes s' = md_flushes s ++ [purge s (page_shift size) e];
  rm_words q : ~ owned q -> (forall a, live a sizeof_mapnode_t -> ~ a <= q < a + sizeof_mapnode_t) ->
    ~ entry_word e.2 q -> lds s' q = lds s q;
  rm_attributes a : live a sizeof_mapnode_t -> a <> e.1 -> same_attributes (nd s' a) (nd s a);
}.

Lemma bind_pg_get {A B} pg (f : kmem_t -> A) (k : A -> MD B) s :
  pg <> NULL -> bind (pg_get pg f) k s = k (f (md_kmem s)) s.
Proof. intros Hp. unfold pg_get. destruct (Z.eqb_spec pg NULL); done. Qed.
Lemma bind_pg_do {B} pg f (k : unit -> MD B) s :
  pg <> NULL -> bind (pg_do pg f) k s = k tt (md_with_kmem (f (md_kmem s)) s).
Proof. intros Hp. unfold pg_do. destruct (Z.eqb_spec pg NULL); done. Qed.

(** what a round does to a mapping that is revoked completely *)
Lemma flush_self_removes fp s live owned p f pg l size root rcnt pm pr rwx saved :
  inv s live owned -> live p sizeof_mapnode_t -> live f sizeof_mapnode_t ->
  (forall a, a ∈ l.*1 -> live a sizeof_mapnode_t) -> NoDup (p :: f :: l.*1) ->
  next_map_is (nd s p) f -> chain s p ((f, pg) :: l) -> entry_ok live owned pg -> is_rwx fp = true ->
  let bits := Pgent.reference_bits (hw_pgsize size) (lds s pg) in
  exists s',
    (forall B (k : Z * Z * Z -> MD B),
       bind (flush_self fuel fp (Flush f pg size root rcnt pm pr true rwx saved) p NULL) k s
       = k (p, NULL, Z.lor rwx bits) s') /\
    removed s s' live owned (hw_pgsize size) p (f, pg) l.
Proof.
  intros Hi Hp Hf Hl Hnd Hn Hch Hpg Hrwx bits.
  pose proof (live_node_at _ _ _ _ Hi Hp) as Hnap. pose proof (live_node_at _ _ _ _ Hi Hf) as Hnaf.
  pose proof Hpg as (Hpg0 & Hlw & Hpgw).
  assert (p <> f) as Hpf by (intros ->; apply NoDup_cons in Hnd as [Hnd _]; apply Hnd; left).
  destruct (node_upd_wrote f (Mapnode.update_rwx bits) s Hnaf) as (s1 & K1 & _ & W1).
  pose proof (w_inv _ _ _ _ W1 fuel inv live owned HB Hi Hf) as Hi1.
  assert (forall x, live x sizeof_mapnode_t -> x <> f -> nd s1 x = nd s x) as O1
    by (intros x Hx Hne; refine (live_wrote s s1 live owned f x _ Hi Hf Hx _ W1); congruence).
  assert (chain s1 p ((f, pg) :: l)) as Hch1.
  { destruct Hch as (Hpv & Hnx & Hch). cbn [chain]. rewrite (w_node _ _ _ _ W1). split_and!; [done..|].
    apply (nodes_frame s); [|done]. intros x Hx. apply O1; [auto|]. apply NoDup_cons in Hnd as [_ Hnd].
    apply NoDup_cons in Hnd as [Hnd _]. congruence. }
  destruct (remove_map_spec s1 live owned p f pg l Hi1 Hp Hf Hl Hnd) as
    (s2 & K2 & Hi2 & Hn2 & Hc2 & Hfl2 & Hfr2 & Hat2); [now rewrite O1|done|].
  set (s3 := clear_entry pg (hw_pgsize size) s2).
  assert (forall a, live a sizeof_mapnode_t -> nd s3 a = nd s2 a) as O3.
  { intros a Ha. apply nd_words. intros q Hq. apply clear_entry_words. intros He.
    exact (proj2 (Hpgw q He) _ _ Ha Hq). }
  exists (md_with_flushes (md_flushes s3 ++ [purge s (page_shift (hw_pgsize size)) (f, pg)]) s3). split.
  - intros B k. unfold flush_self. cbn [fl_map fl_pg fl_pgsize fl_unmap_self fl_rwx].
    rewrite bind_assoc, bind_node_get, bind_assoc, bind_pg_get, bind_assoc, bind_pg_get by done.
    rewrite bind_assoc. change (Pgent.raw_at (md_kmem s) pg) with (lds s pg). fold bits. rewrite K1.
    rewrite Hrwx, bind_assoc, bind_assoc. destruct (Z.eqb_spec p NULL) as [->|_]; [now destruct Hnap|].
    cbn [negb]. now rewrite K2, bind_assoc, bind_pg_do.
  - split; cbn [fst snd].
    + apply bh_flush, clear_entry_inv; [done|]. split_and!; [done..|]. intros q Hq.
      destruct (Hpgw q Hq) as [Ho Hb]. split.
      * intros [?|?]; [done|]. now apply (Hb _ _ Hf).
      * intros b z [Hz _]. now apply Hb.
    + rewrite nd_with_flushes. now rewrite O3.
    + apply (nodes_frame s2); [|done]. intros a Ha. rewrite nd_with_flushes. now apply O3, Hl.
    + assert (lds s2 pg = lds s pg) as Epg.
      { destruct (Hpgw pg ltac:(now left)) as [Ho Hb].
        rewrite Hfr2, (w_else _ _ _ _ W1); [done|now apply Hb|done|intros a Ha; now apply Hb]. }
      destruct (clear_entry_cleared pg (hw_pgsize size) s2 Hlw) as [C1 C2]. rewrite Epg in C1. now split.
    + change (md_flushes s3) with (md_flushes s2). now rewrite Hfl2, (w_flushes _ _ _ _ W1).
    + intros q Ho Hb He. change (lds s3 q = lds s q). unfold s3.
      rewrite clear_entry_words, Hfr2, (w_else _ _ _ _ W1); [done|now apply Hb|done..].
    + intros a Ha Hne. rewrite nd_with_flushes, O3, <- (O1 a Ha Hne) by done.
      now apply Hat2.
Qed.

Lemma scan_roots_none fp n v s : fl_rcnt v = 0 -> scan_roots fuel fp n v s = Ok (v, s).
Proof. intros E. destruct n; simpl; now rewrite E, andb_false_r. Qed.

(** a round on a mapping without smaller pages that is revoked completely *)
Lemma flush_round_removes f_addr t_pgsize fp s live owned p f pg l size pm pr rwx saved :
  inv s live owned -> live p sizeof_mapnode_t -> live f sizeof_mapnode_t ->
  (forall a, a ∈ l.*1 -> live a sizeof_mapnode_t) -> NoDup (p :: f :: l.*1) ->
  next_map_is (nd s p) f -> chain s p ((f, pg) :: l) -> entry_ok live owned pg -> is_rwx fp = true ->
  size <= t_pgsize ->
  let bits := Pgent.reference_bits (hw_pgsize size) (lds s pg) in
  exists s',
    (forall B (k : flush_t -> MD B),
       bind (flush_round fuel f_addr t_pgsize fp (Flush f pg size NULL 0 pm pr true rwx saved)) k s
       = k (Flush (hd NULL l.*1) (default pg (hd_error l.*2)) size NULL 0 p NULL true (Z.lor rwx bits) saved) s') /\
    removed s s' live owned (hw_pgsize size) p (f, pg) l.
Proof.
  intros Hi Hp Hf Hl Hnd Hn Hch Hpg Hrwx Hsz bits.
  destruct (flush_self_removes fp s live owned p f pg l size NULL 0 pm pr rwx saved) as (s' & K & Hrm); try done.
  exists s'. split; [|done]. intros B k. destruct Hch as (Hpv & Hnx & _).
  pose proof (live_node_at _ _ _ _ Hi Hf) as Hnaf. pose proof (live_node_at _ _ _ _ Hi Hp) as Hnap.
  destruct (get_prevmap_of _ _ _ Hpv) as [Hpm Hpr]. unfold flush_round. cbn [fl_map fl_pg].
  rewrite bind_assoc, (bind_get_nextdual f (hd NULL l.*1)), bind_assoc,
    (bind_get_nextroot f (hd NULL l.*1)), bind_assoc, (bind_get_nextmap f (hd NULL l.*1)), bind_assoc,
    bind_node_get, bind_assoc, bind_node_get, bind_assoc, Hpm, Hpr, K by done.
  assert (forall B' (k' : flush_t -> MD B'),
    bind (flush_next fuel f_addr t_pgsize fp (Flush f pg size NULL 0 pm pr true rwx saved)
            NULL NULL (hd NULL l.*1) p NULL (Z.lor rwx bits)) k' s'
    = k' (Flush (hd NULL l.*1) (default pg (hd_error l.*2)) size NULL 0 p NULL true (Z.lor rwx bits) saved) s')
    as Hnext.
  { intros B' k'. unfold flush_next. cbn [fl_pg fl_pgsize fl_root fl_rcnt fl_unmap_self fl_saved fl_rwx].
    change (NULL =? NULL) with true. cbn [negb]. rewrite andb_false_r.
    destruct l as [|[a pa] l]; simpl; [done|].
    pose proof (live_node_at _ _ _ _ Hi (Hl a ltac:(left))) as Hna.
    destruct (rm_chain _ _ _ _ _ _ _ _ Hrm) as ([_ Hpa] & _).
    destruct (Z.eqb_spec a NULL) as [->|_]; [now destruct Hna|].
    destruct (Z.eqb_spec p NULL) as [->|_]; [now destruct Hnap|]. cbn [negb].
    rewrite bind_assoc, bind_node_get by done. now rewrite Hpa. }
  rewrite bind_assoc, Hnext, bind_assoc. erewrite bind_ok; [|now apply scan_roots_none].
  cbn [fl_pgsize fl_map fl_pg fl_root fl_rcnt fl_pmap fl_proot fl_rwx fl_saved].
  now replace (size <=? t_pgsize) with true by (symmetry; now apply Z.leb_le).
Qed.

(** the mappings [all] and their page table entries are gone *)
Record all_removed (s s' : mdb_t) (live : Z -> Z -> Prop) (owned : Z -> Prop) (size : Z)
    (p : Z) (all l : list (Z * Z)) : Prop := {
  ar_inv : exists live' owned', inv s' live' owned' /\
    (forall b z, live' b z <-> live b z /\ b ∉ all.*1) /\
    (forall q, owned' q <-> owned q \/ exists a, a ∈ all.*1 /\ a <= q < a + sizeof_mapnode_t);
  ar_next : next_map_is (nd s' p) (hd NULL l.*1);
  ar_chain : chain s' p l;
  ar_cleared pg : pg ∈ all.*2 -> cleared s s' size pg;
  ar_flushes : md_flushes s' = md_flushes s ++ map (purge s (page_shift size)) all;
  ar_words q : ~ owned q -> (forall a, live a sizeof_mapnode_t -> ~ a <= q < a + sizeof_mapnode_t) ->
    (forall pg, pg ∈ all.*2 -> ~ entry_word pg q) -> lds s' q = lds s q;
  ar_attributes a : live a sizeof_mapnode_t -> a ∉ all.*1 -> same_attributes (nd s' a) (nd s a);
}.

Lemma all_removed_one s s' live owned lg p e l :
  removed s s' live owned lg p e l -> all_removed s s' live owned lg p [e] l.
Proof.
  intros [H1 H2 H3 H4 H5 H6 H7]. destruct e as [f pg]; simpl in *. split; simpl; try done.
  - eexists _, _. split; [exact H1|]. split; [set_solver|]. intros q. set_solver.
  - intros pg' ->%list_elem_of_singleton. done.
  - intros q Ho Hb He. apply H6; [done..|]. apply He. left.
  - intros a Ha Hne. apply H7; [done|]. set_solver.
Qed.

(** after the first mapping the others *)
Lemma all_removed_cons s s1 s' live owned live1 owned1 lg p f pg sub l :
  removed s s1 live owned lg p (f, pg) (sub ++ l) ->
  (forall b z, live1 b z <-> live b z /\ b <> f) ->
  (forall q, owned1 q <-> owned q \/ f <= q < f + sizeof_mapnode_t) ->
  all_removed s1 s' live1 owned1 lg p sub l ->
  (forall a, a ∈ sub.*1 -> live a sizeof_mapnode_t /\ a <> f) -> live f sizeof_mapnode_t ->
  (forall e, e ∈ ((f, pg) :: sub).*2 -> entry_ok live owned e) -> entries_apart ((f, pg) :: sub).*2 ->
  all_removed s s' live owned lg p ((f, pg) :: sub) l.
Proof.
  intros Hrm Hl1 Ho1 [(live' & owned' & Hi' & Hl' & Ho') K2 K3 K4 K5 K6 K7] Hsub Hf Hok [Hap _].
  assert (Hlater : forall q, entry_word pg q -> lds s' q = lds s1 q).
  { intros q Hq. destruct (Hok pg ltac:(left)) as (_ & _ & Hw). destruct (Hw q Hq) as [Hno Hnl].
    apply K6.
    - intros [?|?]%Ho1; [done|]. now apply (Hnl _ _ Hf).
    - intros a [Ha _]%Hl1. now apply Hnl.
    - intros pg' Hpg'. now apply Hap. }
  assert (Hearly : forall pa q, pa ∈ sub.*2 -> entry_word pa q -> lds s1 q = lds s q).
  { intros pa q Hpa Hq. destruct (Hok pa ltac:(right; exact Hpa)) as (_ & _ & Hw).
    destruct (Hw q Hq) as [Hno Hnl]. apply (rm_words _ _ _ _ _ _ _ _ Hrm); [done|intros; now apply Hnl|].
    simpl. intros He. now apply (Hap pa q Hpa He). }
  split; simpl; try done.
  - exists live', owned'. split; [done|]. split.
    + intros b z. rewrite Hl', Hl1. set_solver.
    + intros q. rewrite Ho', Ho1. set_solver.
  - intros pg' [->|Hpg']%elem_of_cons.
    + destruct (rm_cleared _ _ _ _ _ _ _ _ Hrm) as [C1 C2]. simpl in *.
      split; rewrite Hlater; unfold entry_word; auto.
    + destruct (K4 pg' Hpg') as [C1 C2]. rewrite (Hearly pg' pg') in C1 by (done || now left). now split.
  - rewrite K5, (rm_flushes _ _ _ _ _ _ _ _ Hrm), <- app_assoc. simpl. do 2 f_equal.
    apply map_ext_in. intros [a pa] Ha%list_elem_of_In. unfold purge. simpl.
    destruct (Hsub a) as [Hla Hne]; [apply list_elem_of_fmap; now exists (a, pa)|].
    destruct (rm_attributes _ _ _ _ _ _ _ _ Hrm a Hla Hne) as (_ & _ & Es).
    unfold Mapnode.get_space. rewrite Es. do 2 f_equal.
    apply (Hearly pa); [apply list_elem_of_fmap; now exists (a, pa)|now right].
  - intros q Hno Hnl He. rewrite K6.
    + apply (rm_words _ _ _ _ _ _ _ _ Hrm); [done..|]. apply He. left.
    + intros [?|?]%Ho1; [done|]. now apply (Hnl _ Hf).
    + intros a [Ha _]%Hl1. now apply Hnl.
    + intros pg' Hpg'. apply He. now right.
  - intros a Ha Hne. apply not_elem_of_cons in Hne as [Hne1 Hne2].
    destruct (K7 a) as (A1 & A2 & A3); [now apply Hl1|done|]. unfold same_attributes. rewrite A1, A2, A3.
    now apply (rm_attributes _ _ _ _ _ _ _ _ Hrm).
Qed.

(** the reference bits of the entries *)
Definition all_bits (s : mdb_t) (size : Z) (rwx : Z) (pgs : list Z) : Z :=
  foldl (fun r pg => Z.lor r (Pgent.reference_bits size (lds s pg))) rwx pgs.

Lemma all_bits_frame s s' size rwx pgs :
  (forall pg, pg ∈ pgs -> lds s' pg = lds s pg) -> all_bits s' size rwx pgs = all_bits s size rwx pgs.
Proof.
  unfold all_bits. revert rwx. induction pgs as [|pg pgs IH]; intros rwx Hf; simpl; [done|].
  rewrite Hf by left. apply IH. intros x Hx. apply Hf. now right.
Qed.

Lemma nodes_l (sub rest : list (Z * Z)) a : a ∈ sub.*1 -> a ∈ (sub ++ rest).*1.
Proof. rewrite fmap_app. intros H. apply elem_of_app. now left. Qed.
Lemma nodes_r (sub rest : list (Z * Z)) a : a ∈ rest.*1 -> a ∈ (sub ++ rest).*1.
Proof. rewrite fmap_app. intros H. apply elem_of_app. now right. Qed.
Lemma hd_error_in (l : list Z) a : hd_error l = Some a -> a ∈ l.
Proof. destruct l; simpl; [done|]. intros [= ->]. left. Qed.

Lemma flush_loop_removes f_addr t_pgsize fp p startdepth size saved rest n sub s live owned f pg rwx pm pr :
  (length sub < n)%nat ->
  inv s live owned -> live p sizeof_mapnode_t ->
  (forall a, a ∈ f :: (sub ++ rest).*1 -> live a sizeof_mapnode_t) -> NoDup (p :: f :: (sub ++ rest).*1) ->
  next_map_is (nd s p) f -> chain s p ((f, pg) :: sub ++ rest) ->
  (forall e, e ∈ ((f, pg) :: sub).*2 -> entry_ok live owned e) -> entries_apart ((f, pg) :: sub).*2 ->
  (forall a, a ∈ sub.*1 -> startdepth < Mapnode.get_depth (nd s a)) ->
  (forall a, hd_error rest.*1 = Some a -> Mapnode.get_depth (nd s a) <= startdepth) ->
  is_rwx fp = true -> size <= t_pgsize ->
  exists s' v',
    (forall B (k : flush_t -> MD B),
       bind (flush_loop fuel f_addr t_pgsize fp n startdepth (Flush f pg size NULL 0 pm pr true rwx saved)) k s
       = k v' s') /\
    fl_rwx v' = all_bits s (hw_pgsize size) rwx ((f, pg) :: sub).*2 /\
    all_removed s s' live owned (hw_pgsize size) p ((f, pg) :: sub) rest.
Proof.
  revert sub s live owned f pg rwx pm pr.
  induction n as [|n IH]; intros sub s live owned f pg rwx pm pr Hn Hi Hp Hl Hnd Hnx Hch Hok Hap Hdeep Hend
    Hrwx Hsz; [lia|].
  assert (Hf : live f sizeof_mapnode_t) by (apply Hl; left).
  destruct (flush_round_removes f_addr t_pgsize fp s live owned p f pg (sub ++ rest) size pm pr rwx saved)
    as (s1 & K1 & Hrm); try done; [intros a Ha; apply Hl; now right|apply Hok; left|].
  pose proof Hnd as [Hnp [Hnf Hnd']%NoDup_cons]%NoDup_cons.
  destruct sub as [|[g gp] sub].
  { simpl in *. exists s1.
    exists (Flush (hd NULL rest.*1) (default pg (hd_error rest.*2)) size NULL 0 p NULL true
              (Z.lor rwx (Pgent.reference_bits (hw_pgsize size) (lds s pg))) saved).
    split; [|split; [|now apply all_removed_one]].
    - intros B k. cbn [flush_loop]. rewrite bind_assoc, K1. cbn [fl_map].
      destruct rest as [|[a pa] rest]; simpl; [done|].
      pose proof (live_node_at _ _ _ _ Hi (Hl a ltac:(right; left))) as Hna.
      destruct (Z.eqb_spec a NULL) as [->|_]; [now destruct Hna|].
      rewrite bind_assoc, bind_node_get by done.
      destruct (rm_attributes _ _ _ _ _ _ _ _ Hrm a) as (Ed & _); [apply Hl; right; left|set_solver|].
      unfold Mapnode.get_depth in *. rewrite Ed. specialize (Hend a eq_refl).
      now replace (_ >? _) with false by (symmetry; rewrite Z.gtb_ltb; apply Z.ltb_ge; lia).
    - done. }
  assert (forall a, a ∈ g :: (sub ++ rest).*1 -> live a sizeof_mapnode_t /\ a <> f) as Hl'.
  { intros a Ha. split; [apply Hl; now right|]. intros ->. contradiction. }
  assert (forall a, a ∈ g :: (sub ++ rest).*1 -> Mapnode.get_depth (nd s1 a) = Mapnode.get_depth (nd s a)) as Hd.
  { intros a Ha. destruct (Hl' a Ha) as [Hla Hne].
    destruct (rm_attributes _ _ _ _ _ _ _ _ Hrm a Hla Hne) as (Ed & _). exact Ed. }
  destruct (IH sub s1 (fun b z => live b z /\ b <> f) (fun q => owned q \/ f <= q < f + sizeof_mapnode_t)
              g gp (Z.lor rwx (Pgent.reference_bits (hw_pgsize size) (lds s pg))) p NULL)
    as (s' & v' & K & Hv & Har); try exact (rm_inv _ _ _ _ _ _ _ _ Hrm); try done.
  - simpl in Hn. lia.
  - split; [done|]. intros ->. apply Hnp. left.
  - apply NoDup_cons. split; [|done]. intros Hin. apply Hnp. now right.
  - exact (rm_next _ _ _ _ _ _ _ _ Hrm).
  - exact (rm_chain _ _ _ _ _ _ _ _ Hrm).
  - intros e He. destruct (Hok e) as (? & ? & Hw); [now right|]. split_and!; [done..|].
    intros q Hq. destruct (Hw q Hq) as [Hno Hnl]. split.
    + intros [?|?]; [done|]. now apply (Hnl _ _ Hf).
    + intros b z [Hb _]. now apply Hnl.
  - apply Hap.
  - intros a Ha. rewrite Hd; [apply Hdeep; now right|]. right. now apply nodes_l.
  - intros a Ha. rewrite Hd; [now apply Hend|]. right. apply nodes_r. now apply hd_error_in.
  - exists s', v'. split; [|split].
    + intros B k. cbn [flush_loop]. rewrite bind_assoc, K1. cbn [fl_map]. simpl hd.
      pose proof (live_node_at _ _ _ _ Hi (Hl g ltac:(right; left))) as Hna.
      destruct (Z.eqb_spec g NULL) as [->|_]; [now destruct Hna|].
      rewrite bind_assoc, bind_node_get by (try done).
      rewrite Hd by left. specialize (Hdeep g ltac:(left)).
      replace (_ >? _) with true by (symmetry; rewrite Z.gtb_ltb; apply Z.ltb_lt; lia).
      apply K.
    + rewrite Hv. etransitivity; [apply (all_bits_frame s s1)|reflexivity]. intros e He.
      destruct (Hok e) as (_ & _ & Hw); [now right|]. destruct (Hw e ltac:(now left)) as [Hno Hnl].
      apply (rm_words _ _ _ _ _ _ _ _ Hrm); [done|intros; now apply Hnl|]. intros Hpe.
      destruct Hap as [Hap _]. apply (Hap e e He Hpe). now left.
    + eapply all_removed_cons; [exact Hrm| | |exact Har| |done..]; [done..|].
      intros a Ha. apply Hl'. change (a ∈ ((g, gp) :: sub ++ rest).*1). now apply (nodes_l ((g, gp) :: sub)).
Qed.

(** an earlier state that the mappings and entries cannot be told from *)
Lemma all_removed_from s0 s s' live owned lg p all l :
  (forall q, ~ owned q -> (forall a, live a sizeof_mapnode_t -> ~ a <= q < a + sizeof_mapnode_t) ->
     lds s q = lds s0 q) ->
  md_flushes s = md_flushes s0 ->
  (forall a, live a sizeof_mapnode_t -> Mapnode.get_space (nd s a) = Mapnode.get_space (nd s0 a)) ->
  (forall a, live a sizeof_mapnode_t -> a ∉ all.*1 -> nd s a = nd s0 a) ->
  (forall a, a ∈ all.*1 -> live a sizeof_mapnode_t) -> (forall e, e ∈ all.*2 -> entry_ok live owned e) ->
  all_removed s s' live owned lg p all l -> all_removed s0 s' live owned lg p all l.
Proof.
  intros Hw Hfl Hs Hnd Hl Hok [H1 H2 H3 H4 H5 H6 H7].
  assert (He : forall e q, e ∈ all.*2 -> entry_word e q -> lds s q = lds s0 q).
  { intros e q He Hq. destruct (Hok e He) as (_ & _ & Hf). destruct (Hf q Hq) as [Hno Hnl].
    apply Hw; [done|]. intros x Hx. now apply Hnl. }
  split; try done.
  - intros e Hin. destruct (H4 e Hin) as [C1 C2]. rewrite (He e e) in C1 by (done || now left). now split.
  - rewrite H5, Hfl. f_equal. apply map_ext_in. intros [a pa] Ha%list_elem_of_In. unfold purge. simpl.
    rewrite Hs by (apply Hl, list_elem_of_fmap; now exists (a, pa)). do 2 f_equal.
    apply (He pa); [apply list_elem_of_fmap; now exists (a, pa)|now right].
  - intros q Hno Hnl Hne. rewrite H6, Hw by done. done.
  - intros a Ha Hne. rewrite <- Hnd by done. now apply H7.
Qed.

(** A flush with all rights removes exactly the subtree of a mapping.  [f] is
    a mapping behind [p], followed in depth-first order by the deeper mappings
    [sub] and then by [rest], whose first is not deeper; none of them has smaller
    pages.  With enough fuel [mdb_flush] returns the reference bits of [f] and of
    all the page table entries; [f] and [sub] are released, each of their entries
    names no page and no mapping any more, and its translation is purged, in
    order; [rest] follows [p]; every other mapping keeps space, rights and depth,
    and no other word outside the allocator and the mappings changes. *)
Theorem mdb_flush_removes_subtree s live owned p f pg sub rest hwsize f_addr fp :
  inv s live owned -> live p sizeof_mapnode_t ->
  (forall a, a ∈ f :: (sub ++ rest).*1 -> live a sizeof_mapnode_t) -> NoDup (p :: f :: (sub ++ rest).*1) ->
  next_map_is (nd s p) f -> chain s p ((f, pg) :: sub ++ rest) ->
  (forall e, e ∈ ((f, pg) :: sub).*2 -> entry_ok live owned e) -> entries_apart ((f, pg) :: sub).*2 ->
  (forall a, a ∈ sub.*1 -> Mapnode.get_depth (nd s f) < Mapnode.get_depth (nd s a)) ->
  (forall a, hd_error rest.*1 = Some a -> Mapnode.get_depth (nd s a) <= Mapnode.get_depth (nd s f)) ->
  is_rwx fp = true -> (length sub < fuel)%nat ->
  let size := hw_pgsize (mdb_pgsize hwsize) in
  let rwx := Z.lor (Mapnode.get_rwx (nd s f)) (Pgent.reference_bits hwsize (lds s pg)) in
  exists s',
    mdb_flush fuel f pg hwsize f_addr hwsize fp true s
    = Ok (all_bits s size rwx ((f, pg) :: sub).*2, s') /\
    all_removed s s' live owned size p ((f, pg) :: sub) rest.
Proof.
  intros Hi Hp Hl Hnd Hn Hch Hok Hap Hdeep Hend Hrwx Hfuel size rwx.
  assert (Hf : live f sizeof_mapnode_t) by (apply Hl; left).
  pose proof (live_node_at _ _ _ _ Hi Hf) as Hnaf.
  destruct (Hok pg ltac:(left)) as (Hpg & Hlw & Hw).
  destruct (node_upd_wrote f (Mapnode.set_rwx 0) s Hnaf) as (s1 & K1 & _ & W1).
  pose proof (w_inv _ _ _ _ W1 fuel inv live owned HB Hi Hf) as Hi1.
  set (s2 := sto pg (lds s1 pg) s1).
  assert (E2 : forall q, lds s2 q = lds s1 q).
  { intros q. unfold s2. rewrite lds_sto. now case_decide as E; [rewrite E|]. }
  assert (Hi2 : inv s2 live owned) by (apply bh_write; [done|]; now apply (Hw pg ltac:(now left))).
  assert (N2 : forall a, nd s2 a = nd s1 a) by (intros a; now apply nd_words).
  assert (Nf : nd s2 f = Mapnode.set_rwx 0 (nd s f)) by (rewrite N2; apply (w_node _ _ _ _ W1)).
  assert (No : forall a, live a sizeof_mapnode_t -> a <> f -> nd s2 a = nd s a).
  { intros a Ha Hne. rewrite N2. refine (live_wrote s s1 live owned f a _ Hi Hf Ha _ W1). congruence. }
  assert (Es : forall q, ~ owned q -> (forall a, live a sizeof_mapnode_t -> ~ a <= q < a + sizeof_mapnode_t) ->
                lds s2 q = lds s q).
  { intros q _ Hq. rewrite E2. apply (w_else _ _ _ _ W1). now apply Hq. }
  assert (Hd : forall a, live a sizeof_mapnode_t -> Mapnode.get_depth (nd s2 a) = Mapnode.get_depth (nd s a)).
  { intros a Ha. destruct (decide (a = f)) as [->|Hne]; [now rewrite Nf|now rewrite No]. }
  assert (Hpf : p <> f) by (intros ->; apply NoDup_cons in Hnd as [Hnd _]; apply Hnd; left).
  destruct (flush_loop_removes f_addr (mdb_pgsize hwsize) fp p (Mapnode.get_depth (nd s f)) (mdb_pgsize hwsize) ∅
              rest fuel sub s2 live owned f pg rwx NULL NULL) as (s' & v' & K & Hv & Har); try done.
  - now rewrite No.
  - destruct Hch as (Hpv & Hnx & Hch). cbn [chain]. rewrite Nf. split_and!; [done..|].
    apply (nodes_frame s); [|done]. intros a Ha. apply No; [apply Hl; now right|]. intros ->.
    apply NoDup_cons in Hnd as [_ Hnd]. now apply NoDup_cons in Hnd as [? _].
  - intros a Ha. rewrite Hd; [now apply Hdeep|]. apply Hl. right. now apply nodes_l.
  - intros a Ha. rewrite Hd; [now apply Hend|]. apply Hl. right. now apply nodes_r, hd_error_in.
  - exists s'. split.
    + unfold mdb_flush. rewrite bind_node_get, bind_assoc, bind_pg_get, bind_assoc, bind_node_get, bind_assoc by done.
      rewrite K1, bind_assoc. unfold pg_upd. rewrite bind_pg_do by done. rewrite bind_ret_l.
      change (md_with_kmem _ s1) with s2. rewrite K. cbn [negb]. rewrite bind_when_false, Hv.
      unfold ret. do 2 f_equal. apply all_bits_frame. intros e He.
      destruct (Hok e He) as (_ & _ & Hwe). destruct (Hwe e ltac:(now left)) as [Hno Hnl].
      apply Es; [done|]. intros a Ha. now apply Hnl.
    + apply (all_removed_from s s2); try done.
      * apply (w_flushes _ _ _ _ W1).
      * intros a Ha. destruct (decide (a = f)) as [->|Hne]; [now rewrite Nf|now rewrite No].
      * intros a Ha Hne. apply No; [done|]. intros ->. apply Hne. left.
      * intros a Ha. apply Hl. change (a ∈ ((f, pg) :: sub ++ rest).*1). now apply (nodes_l ((f, pg) :: sub)).
Qed.

End Flush.

(** ** Examples *)

(** nodes in use in the page of [example_pools] *)
Definition example_live := is_live (md_buflists example_pools) example_pages.
Definition example_owned := owns (md_buflists example_pools) example_pages [].

Lemma example_inv : pools_inv 10 example_pools example_live example_owned.
Proof.
  exists example_pages, example_order, []. split_and!; [apply example_pools_ok|done|done|simpl; lia|lia].
Qed.

Lemma example_live_at k : 2 <= k < 169 -> example_live (8192 - 24 * (k + 1)) sizeof_mapnode_t.
Proof.
  intros Hk. exists (Page 4096 0 [8168; 8144]), 169. split_and!; [left|done| |].
  - exists k. split; [lia|]. unfold slot, MDB_ALLOC_CHUNKSZ, sizeof_mapnode_t. simpl. lia.
  - simpl. intros [?|[?|[]%elem_of_nil]%elem_of_cons]%elem_of_cons; lia.
Qed.

Lemma example_foreign q : 8192 <= q -> foreign example_live example_owned q.
Proof.
  intros Hq. split.
  - intros [(c & Hc & _)|(r & ->%list_elem_of_singleton & Hr & _)]; [now apply elem_of_nil in Hc|].
    unfold MDB_ALLOC_CHUNKSZ in Hr. simpl in Hr. lia.
  - intros b z (r & mx & ->%list_elem_of_singleton & Hg & Hs & _) Hbq. simpl in Hg. injection Hg as <- <-.
    assert (fits 24 169) as Hf by (unfold fits, sizeof_mdb_mng_t, MDB_ALLOC_CHUNKSZ; lia).
    pose proof (slot_bounds _ _ _ _ Hf Hs). unfold MDB_ALLOC_CHUNKSZ in *. simpl in *. lia.
Qed.

Lemma example_entry_ok pg : 8192 <= pg -> pg + 16384 < 2 ^ 64 -> entry_ok example_live example_owned pg.
Proof.
  intros Hpg Hb. assert (link_word pg = pg + 8192) as E by (apply wrap_small; unfold Pgent.MIPS64_PTAB_SIZE; lia).
  split_and!; [unfold NULL; lia|lia|].
  intros q Hq. apply example_foreign. destruct Hq as [->| ->]; lia.
Qed.

(** a mapping at 8120 without successor *)
Definition leaf : Mapnode.mapnode_t := Mapnode.set_next_map NULL (Mapnode.Node false 0 0 0 0 false false 0).
Definition example_leaf : mdb_t := nset 8120 leaf example_pools.

Lemma leaf_fields : Mapnode.in_fields leaf.
Proof. unfold leaf. apply set_in_fields. repeat split; (discriminate || reflexivity). Qed.

Lemma example_leaf_inv : pools_inv 10 example_leaf example_live example_owned.
Proof.
  refine (w_inv _ _ _ _ (wrote_nset example_pools 8120 leaf leaf_fields) 10 _ _ _ _ example_inv _).
  apply (example_live_at 2). lia.
Qed.

Lemma mdb_map_inserts_child_witness :
  exists b s', mdb_map 10 8120 0 0 0 0x200000 0 0x1000 false example_leaf = Ok (b, s') /\
    ~ example_live b 24 /\ Mapnode.get_space (nd s' b) = 0x1000.
Proof.
  assert (nd example_leaf 8120 = leaf) as E by (apply nd_nset_eq, leaf_fields).
  destruct (mdb_map_inserts_child (inv := pools_inv 10) example_leaf example_live example_owned 8120 [] 0 0 0
              0x200000 0x1000) as (b & s' & Em & [Hn _ _ _ Hs _ _ _ _ _]).
  - exact example_leaf_inv.
  - apply (example_live_at 2). lia.
  - intros a Ha. now apply elem_of_nil in Ha.
  - apply NoDup_singleton.
  - rewrite E. repeat split.
  - exact I.
  - split; [reflexivity|]. exists 0%nat, (BufList 24 4096 169). repeat split. discriminate.
  - unfold is_word. lia.
  - reflexivity.
  - unfold is_word. lia.
  - reflexivity.
  - exists b, s'. split_and!; [exact Em|apply Hn|exact Hs].
Defined.

(** a mapping at 8120 with a child at 8096, which has a child at 8072 *)
Definition example_node (depth : Z) (prev pg next : Z) : Mapnode.mapnode_t :=
  Mapnode.set_next_map next (Mapnode.set_backlink false prev pg (Mapnode.set_depth depth leaf)).
Definition example_tree : mdb_t :=
  nset 8072 (example_node 2 8096 0x200000 NULL)
    (nset 8096 (example_node 1 8120 0x100000 8072) (nset 8120 (example_node 0 NULL NULL 8096) example_pools)).

Lemma example_node_fields d p q n : Mapnode.in_fields (example_node d p q n).
Proof. unfold example_node. repeat apply set_in_fields. apply leaf_fields. Qed.

Lemma example_tree_inv : pools_inv 10 example_tree example_live example_owned.
Proof.
  assert (forall k s n, 2 <= k < 169 -> Mapnode.in_fields n -> pools_inv 10 s example_live example_owned ->
    pools_inv 10 (nset (8192 - 24 * (k + 1)) n s) example_live example_owned) as H.
  { intros k s n Hk Hn Hi. refine (w_inv _ _ _ _ (wrote_nset s _ n Hn) 10 _ _ _ _ Hi _). now apply example_live_at. }
  apply (H 4); [lia|apply example_node_fields|]. apply (H 3); [lia|apply example_node_fields|].
  apply (H 2); [lia|apply example_node_fields|]. exact example_inv.
Qed.

Lemma example_tree_nodes :
  nd example_tree 8120 = example_node 0 NULL NULL 8096 /\
  nd example_tree 8096 = example_node 1 8120 0x100000 8072 /\
  nd example_tree 8072 = example_node 2 8096 0x200000 NULL.
Proof.
  assert (forall p n q s, p + 24 <= q \/ q + 24 <= p -> nd (nset p n s) q = nd s q) as H.
  { intros p n q s Hpq. apply nd_words. intros x Hx. apply lds_nset. unfold sizeof_mapnode_t in *. lia. }
  unfold example_tree. split_and!.
  - rewrite !H by lia. apply nd_nset_eq, example_node_fields.
  - rewrite H by lia. apply nd_nset_eq, example_node_fields.
  - apply nd_nset_eq, example_node_fields.
Qed.

Lemma mdb_flush_removes_subtree_witness :
  exists r s', mdb_flush 10 8096 0x100000 0 0 0 (fpage_set 0 12 true true true) true example_tree = Ok (r, s') /\
    cleared example_tree s' 0 0x100000 /\ cleared example_tree s' 0 0x200000 /\ length (md_flushes s') = 2%nat /\
    next_map_is (nd s' 8120) NULL.
Proof.
  destruct example_tree_nodes as (N0 & N1 & N2).
  destruct (mdb_flush_removes_subtree (inv := pools_inv 10) example_tree example_live example_owned 8120 8096 0x100000
              [(8072, 0x200000)] [] 0 0 (fpage_set 0 12 true true true)) as (s' & E & [_ Hn _ Hc Hf _ _]).
  - exact example_tree_inv.
  - apply (example_live_at 2). lia.
  - simpl. intros a [->|[->|[]%elem_of_nil]%elem_of_cons]%elem_of_cons.
    + apply (example_live_at 3). lia.
    + apply (example_live_at 4). lia.
  - repeat (apply NoDup_cons; split; [set_solver|]). apply NoDup_nil_2.
  - rewrite N0. repeat split.
  - cbn [chain app]. rewrite N1, N2. repeat split.
  - simpl. intros e [->|[->|[]%elem_of_nil]%elem_of_cons]%elem_of_cons; apply example_entry_ok; lia.
  - cbn [entries_apart fmap list_fmap snd]. split; [|split; [|exact I]].
    + intros pg q ->%list_elem_of_singleton. unfold entry_word. vm_compute link_word. lia.
    + intros pg q []%elem_of_nil.
  - simpl. intros a ->%list_elem_of_singleton. rewrite N1, N2. reflexivity.
  - simpl. intros a [=].
  - reflexivity.
  - simpl. lia.
  - eexists _, s'. split_and!; [exact E|apply Hc; left|apply Hc; right; left| |exact Hn].
    rewrite Hf, length_app. reflexivity.
Defined.

(** ** Mappings of smaller pages *)

(** sigma0 maps a 16 KB page at 0x40000 to a space [a], which maps two of its
    4 KB pages on; the page table entries are the words 0x100000, 0x200000 and
    0x300000 *)
Definition boot_kmem : kmem_t :=
  match Kmem.kmem_init 100 0x10000 0x20000 (Kmem 0 0 ∅) with Ok k => k | _ => Kmem 0 0 ∅ end.
Definition enter_page (pg size paddr map vaddr : Z) : MD unit :=
  pg_do pg (fun k => Pgent.set_linknode pg map vaddr
                       (Pgent.set_raw pg (Pgent.set_entry size paddr true true true false) k)).
Definition two_small_pages : MD Z :=
  init_mdb 5000 0x8000 ;;;
  let* a := mdb_map 5000 0x8000 0 8 0x40000 0x100000 1 0x1000 false in
  enter_page 0x100000 1 0x40000 a 0x7000000 ;;;
  let* b := mdb_map 5000 a 0x100000 1 0x41000 0x200000 0 0x2000 false in
  enter_page 0x200000 0 0x41000 b 0x5001000 ;;;
  let* c := mdb_map 5000 a 0x100000 1 0x42000 0x300000 0 0x3000 false in
  enter_page 0x300000 0 0x42000 c 0x5002000 ;;;
  ret a.
Definition entry_valid (size pg : Z) (s : mdb_t) : bool :=
  Pgent.is_valid size (Pgent.raw_at (md_kmem s) pg).

(** Revoking a page completely does not revoke all mappings of its parts.  Of
    the two small pages that were mapped on from a larger one, the flush of the
    larger page reaches the first only: the way up from an array of root nodes
    does not look at how many entries of the array are left.  The entry of the
    second stays valid. *)
Example mdb_flush_misses_mappings :
  match two_small_pages (mdb_boot boot_kmem) with
  | Ok (a, s) =>
      entry_valid 1 0x100000 s = true /\ entry_valid 0 0x200000 s = true /\ entry_valid 0 0x300000 s = true /\
      match mdb_flush 5000 a 0x100000 1 0x40000 1 (fpage_set 0x40000 14 true true true) true s with
      | Ok (_, s') =>
          entry_valid 1 0x100000 s' = false /\ entry_valid 0 0x200000 s' = false /\
          entry_valid 0 0x300000 s' = true /\ length (md_flushes s') = 2%nat
      | _ => False
      end
  | _ => False
  end.
Proof. vm_compute. repeat split. Qed.
