(* ===== verification/Walker.v ===== *)
(** * Mapping and unmapping fpages

    [space_t::map_fpage] and [space_t::unmap_fpage] of
    [generic/linear_ptab_walker.cc], with the tests of [api/v4/space.h] and
    [glue/v4-mips64/space.h] they use.  A space is the address of its page
    directory; the areas of kernel interface page and UTCBs are words of it.
    Both functions keep explicit stacks of page table positions; a round of the
    loop of [map_fpage] is cut at its labels [Next_receiver_entry] and
    [Next_sender_entry]. *)

From Stdlib Require Import ZArith Lia Bool List.
From stdpp Require Import base numbers list option gmap.
From S2P Require Import Prelude Types Fpage Monad Kmem Pgent Ptab Mapnode MdbAlloc Mdb Mdbflush.
Open Scope Z_scope.

(** ** Spaces *)

(** the members behind the 1020 entries [maps] *)
Definition kip_area_word : Z := 8 * (Z.shiftl 1 10 - 4).
Definition utcb_area_word : Z := 8 * (Z.shiftl 1 10 - 3).
Definition get_kip_page_area (sp : Z) : MD fpage_t := rd sp kip_area_word.
Definition get_utcb_page_area (sp : Z) : MD fpage_t := rd sp utcb_area_word.

Definition is_user_area (addr : Z) : bool :=
  (Layout.USER_AREA_START <=? addr) && (addr <=? Layout.USER_AREA_END).
Definition is_user_fpage (f : fpage_t) : bool :=
  is_user_area (get_address f) && is_user_area (addr_offset (get_address f) (w64 (get_size f - 1))).

Definition is_mappable (sp addr : Z) : MD bool :=
  if negb (is_user_area addr) then ret false else
  let* kip := get_kip_page_area sp in
  if is_addr_in_fpage kip addr then ret false else
  let* utcb := get_utcb_page_area sp in
  ret (negb (is_addr_in_fpage utcb addr)).
Definition is_mappable_fpage (sp : Z) (f : fpage_t) : MD bool :=
  if negb (is_user_fpage f) then ret false else
  let* kip := get_kip_page_area sp in
  if is_overlapping kip f then ret false else
  let* utcb := get_utcb_page_area sp in
  ret (negb (is_overlapping utcb f)).

Definition does_tlbflush_pay (log2size : Z) : bool := false.

(** ** Helpers of the walker *)

(** shift counts are taken modulo 64, as the machine does for the 64 of the
    complete fpage *)
Definition base_mask (fp : fpage_t) (size : Z) : Z :=
  Z.land (shr64 (w64 (-1)) (64 - get_size_log2 fp)) (wnot (shr64 (w64 (-1)) (64 - size))).
Definition address (fp : fpage_t) (size : Z) : Z := Z.land fp (wnot (w64 (shl64 1 size - 1))).

(** [for (pgsize = size_max; hw_pgshifts[pgsize] > num; pgsize--)] *)
Fixpoint fitting_size (n : nat) (num : Z) : Z :=
  match n with
  | O => 0
  | S n' => if page_shift (Z.of_nat n) >? num then fitting_size n' num else Z.of_nat n
  end.
Definition fpage_pgsize (num : Z) : Z := fitting_size (Z.to_nat size_max) num.

(** the word of an entry, and operations on page tables *)
Definition entry (pg : Z) : MD Z := pg_get pg (fun k => Pgent.raw_at k pg).
Definition kmem_do (f : kmem_t -> result kmem_t) : MD unit :=
  on_kmem (fun k => match f k with Ok k => Ok (tt, k) | Hang => Hang | Crash => Crash end).
Definition through (pg : Z) (m : MD unit) : MD unit := if pg =? NULL then crash else m.

(** the entry for [vaddr] in the table of the next smaller size *)
Definition subtree_entry (pg size vaddr : Z) : MD Z :=
  let* raw := entry pg in
  ret (Pgent.next (size - 1) (page_table_index (size - 1) vaddr) (Pgent.subtree size pg raw)).
Definition subtree_table (pg size : Z) : MD Z :=
  let* raw := entry pg in ret (Pgent.subtree size pg raw).

(** a position put on a stack: [r_fpg] and [r_fnum], or [r_tpg] and [r_tnum] *)
Record place_t := Place { pl_pg : Z; pl_num : Z }.
Abbreviation stack_t := (gmap Z place_t).
Definition place_at (size : Z) (r : stack_t) : place_t := default (Place 0 0) (r !! size).

(** ** [map_fpage] *)

(** the variables of a round *)
Record map_t := Map {
  mp_f_addr : Z; mp_t_addr : Z;
  mp_f_num : Z; mp_t_num : Z; mp_f_off : Z;
  mp_fpg : Z; mp_tpg : Z;
  mp_f_size : Z; mp_t_size : Z;
  mp_f_stack : stack_t; mp_t_stack : stack_t;
}.

Definition mp_with_f_addr (x : Z) (v : map_t) : map_t :=
  Map x (mp_t_addr v) (mp_f_num v) (mp_t_num v) (mp_f_off v) (mp_fpg v) (mp_tpg v) (mp_f_size v)
      (mp_t_size v) (mp_f_stack v) (mp_t_stack v).
Definition mp_with_t_addr (x : Z) (v : map_t) : map_t :=
  Map (mp_f_addr v) x (mp_f_num v) (mp_t_num v) (mp_f_off v) (mp_fpg v) (mp_tpg v) (mp_f_size v)
      (mp_t_size v) (mp_f_stack v) (mp_t_stack v).
Definition mp_with_f_num (x : Z) (v : map_t) : map_t :=
  Map (mp_f_addr v) (mp_t_addr v) x (mp_t_num v) (mp_f_off v) (mp_fpg v) (mp_tpg v) (mp_f_size v)
      (mp_t_size v) (mp_f_stack v) (mp_t_stack v).
Definition mp_with_t_num (x : Z) (v : map_t) : map_t :=
  Map (mp_f_addr v) (mp_t_addr v) (mp_f_num v) x (mp_f_off v) (mp_fpg v) (mp_tpg v) (mp_f_size v)
      (mp_t_size v) (mp_f_stack v) (mp_t_stack v).
Definition mp_with_f_off (x : Z) (v : map_t) : map_t :=
  Map (mp_f_addr v) (mp_t_addr v) (mp_f_num v) (mp_t_num v) x (mp_fpg v) (mp_tpg v) (mp_f_size v)
      (mp_t_size v) (mp_f_stack v) (mp_t_stack v).
(** entry, size and number of entries left, on either side *)
Definition mp_with_from (pg size num : Z) (v : map_t) : map_t :=
  Map (mp_f_addr v) (mp_t_addr v) num (mp_t_num v) (mp_f_off v) pg (mp_tpg v) size
      (mp_t_size v) (mp_f_stack v) (mp_t_stack v).
Definition mp_with_to (pg size num : Z) (v : map_t) : map_t :=
  Map (mp_f_addr v) (mp_t_addr v) (mp_f_num v) num (mp_f_off v) (mp_fpg v) pg (mp_f_size v)
      size (mp_f_stack v) (mp_t_stack v).
Definition mp_push_from (size : Z) (p : place_t) (v : map_t) : map_t :=
  Map (mp_f_addr v) (mp_t_addr v) (mp_f_num v) (mp_t_num v) (mp_f_off v) (mp_fpg v) (mp_tpg v)
      (mp_f_size v) (mp_t_size v) (<[size := p]> (mp_f_stack v)) (mp_t_stack v).
Definition mp_push_to (size : Z) (p : place_t) (v : map_t) : map_t :=
  Map (mp_f_addr v) (mp_t_addr v) (mp_f_num v) (mp_t_num v) (mp_f_off v) (mp_fpg v) (mp_tpg v)
      (mp_f_size v) (mp_t_size v) (mp_f_stack v) (<[size := p]> (mp_t_stack v)).

(** where a part of a round goes on *)
Inductive jump_t :=
| Continue (v : map_t)
| Break
| Next_receiver_entry (v : map_t)
| Next_sender_entry (v : map_t)
| Fall_through (v : map_t).

(** up to the position saved for the next larger size, on the receiver's side *)
Definition up_to (v : map_t) : map_t :=
  let p := place_at (mp_t_size v) (mp_t_stack v) in
  mp_with_to (pl_pg p) (mp_t_size v + 1) (pl_num p) v.
Definition up_from (v : map_t) : map_t :=
  let p := place_at (mp_f_size v) (mp_f_stack v) in
  mp_with_from (pl_pg p) (mp_f_size v + 1) (pl_num p) v.
Definition skip_off (v : map_t) : map_t := mp_with_f_off (w64 (mp_f_off v + page_size (mp_t_size v))) v.

(** [while (t_size < f_size)] *)
Fixpoint up_while_smaller (n : nat) (v : map_t) : map_t :=
  match n with
  | O => v
  | S n => if mp_t_size v <? mp_f_size v then up_while_smaller n (up_to (skip_off v)) else v
  end.
(** [do ... while (t_num == 0 && t_size < pgsize)]; the sizes bound the number
    of rounds *)
Fixpoint up_do_to (n : nat) (pgsize : Z) (step : map_t -> map_t) (v : map_t) : map_t :=
  let v := step v in
  match n with
  | O => v
  | S n => if (mp_t_num v =? 0) && (mp_t_size v <? pgsize) then up_do_to n pgsize step v else v
  end.
(** [do ... while (f_size < pgsize && f_num == 0)] *)
Fixpoint up_do_from (n : nat) (pgsize : Z) (v : map_t) : map_t :=
  let v := up_from v in
  match n with
  | O => v
  | S n => if (mp_f_size v <? pgsize) && (mp_f_num v =? 0) then up_do_from n pgsize v else v
  end.
Definition sizes : nat := Z.to_nat size_max.

Section Walker.
Variable fuel : nat.
(** the global variables [sigma0_space] and [sigma0_mapnode] *)
Variable sigma0_space sigma0_mapnode : Z.
Definition is_sigma0_space (sp : Z) : bool := sp =? sigma0_space.

Section Map.
Variable this : Z.
Variable snd_fp : fpage_t.
Variable t_space : Z.
Variable grant : bool.
Variable pgsize : Z.

(** the sender's side, for a space with page tables *)
Definition map_sender (v : map_t) : MD jump_t :=
  let f_size := mp_f_size v in
  let* raw := entry (mp_fpg v) in
  if negb (Pgent.is_valid f_size raw) then
    let v := up_while_smaller sizes v in
    if mp_t_size v =? f_size then ret (Next_receiver_entry v) else ret (Next_sender_entry v)
  else if (f_size >? pgsize) && Pgent.is_subtree f_size raw then
    let* pg := subtree_entry (mp_fpg v) f_size (mp_f_addr v) in
    ret (Continue (mp_with_from pg (f_size - 1) (mp_f_num v) v))
  else if Pgent.is_subtree f_size raw then
    let v := mp_push_from (f_size - 1)
               (Place (Pgent.next f_size 1 (mp_fpg v)) (w64 (mp_f_num v - 1))) v in
    let* pg := subtree_table (mp_fpg v) f_size in
    ret (Continue (mp_with_from pg (f_size - 1) (page_table_size (f_size - 1)) v))
  else if f_size >? pgsize then ret (Fall_through (mp_with_f_num 1 v))
  else ret (Fall_through v).

(** the receive pages are too large; a larger mapping ends in [enter_kdebug] *)
Definition map_descend (v : map_t) : MD jump_t :=
  let size := mp_t_size v in
  let v := mp_push_to (size - 1) (Place (Pgent.next size 1 (mp_tpg v)) (w64 (mp_t_num v - 1))) v in
  let* raw := entry (mp_tpg v) in
  (if negb (Pgent.is_valid size raw) then kmem_do (Pgent.make_subtree fuel (mp_tpg v) size false)
   else if negb (Pgent.is_subtree size raw) then hang else ret tt) ;;;
  let t_size := size - 1 in
  if t_size >=? pgsize then
    let* pg := subtree_entry (mp_tpg v) size (mp_t_addr v) in
    ret (Continue (mp_with_to pg t_size (mp_t_num v) v))
  else
    let* table := subtree_table (mp_tpg v) size in
    let idx := page_table_index t_size (mp_f_addr v) in
    let v := mp_with_to (Pgent.next t_size idx table) t_size (w64 (page_table_size t_size - idx)) v in
    ret (Continue (mp_with_t_addr
           (addr_offset (mp_t_addr v) (w64 (Z.shiftl idx (page_shift t_size)))) v)).

(** the loop that removes the mappings the new one replaces *)
Record overmap_t := Over { ov_pg : Z; ov_size : Z; ov_num : Z; ov_vaddr : Z; ov_stack : stack_t }.

(** [do ... while (num == 0 && t_size < f_size)] *)
Fixpoint overmap_up (n : nat) (f_size : Z) (o : overmap_t) : MD overmap_t :=
  let p := place_at (ov_size o) (ov_stack o) in
  let size := ov_size o + 1 in
  through (pl_pg p) (kmem_do (Pgent.remove_subtree fuel (pl_pg p) size false)) ;;;
  let pg := if size <? f_size then Pgent.next size 1 (pl_pg p) else pl_pg p in
  let o := Over pg size (pl_num p) (ov_vaddr o) (ov_stack o) in
  match n with
  | O => ret o
  | S n => if (ov_num o =? 0) && (size <? f_size) then overmap_up n f_size o else ret o
  end.

Definition overmap_step (f_size : Z) (rcv_fp : fpage_t) (o : overmap_t) : MD overmap_t :=
  let pg := ov_pg o in
  let size := ov_size o in
  let* raw := entry pg in
  if Pgent.is_valid size raw && Pgent.is_subtree size raw then
    let* table := subtree_table pg size in
    ret (Over table (size - 1) (page_table_size (size - 1)) (ov_vaddr o)
           (<[size - 1 := Place pg (w64 (ov_num o - 1))]> (ov_stack o)))
  else
    (if Pgent.is_valid size raw then
       let* ok := is_mappable t_space (ov_vaddr o) in
       when ok
         (let* map := pg_get pg (fun k =>
                        Pgent.mapnode k pg (addr_mask (ov_vaddr o) (wnot (page_mask size)))) in
          mdb_flush fuel map pg size (ov_vaddr o) pgsize rcv_fp true ;;; ret tt)
     else ret tt) ;;;
    let o := if size <? f_size
             then Over (Pgent.next size 1 pg) size (ov_num o)
                    (addr_offset (ov_vaddr o) (page_size size)) (ov_stack o)
             else o in
    let o := Over (ov_pg o) (ov_size o) (w64 (ov_num o - 1)) (ov_vaddr o) (ov_stack o) in
    if (ov_num o =? 0) && (ov_size o <? f_size) then overmap_up sizes f_size o else ret o.

Fixpoint overmap_loop (n : nat) (f_size : Z) (rcv_fp : fpage_t) (o : overmap_t) : MD overmap_t :=
  if ov_num o =? 0 then ret o else
  match n with
  | O => hang
  | S n => let* o := overmap_step f_size rcv_fp o in overmap_loop n f_size rcv_fp o
  end.

Definition overmap (v : map_t) : MD map_t :=
  let rcv_fp := fpage_set (mp_t_addr v) (page_shift (mp_t_size v)) true true true in
  let* o := overmap_loop fuel (mp_f_size v) rcv_fp
              (Over (mp_tpg v) (mp_t_size v) 1 (mp_t_addr v) (mp_t_stack v)) in
  ret (Map (mp_f_addr v) (mp_t_addr v) (mp_f_num v) (mp_t_num v) (mp_f_off v) (mp_fpg v) (ov_pg o)
           (mp_f_size v) (ov_size o) (mp_f_stack v) (ov_stack o)).

(** the address the sender's entry maps, as far as it is compared *)
Definition from_address (v : map_t) (offset : Z) : MD Z :=
  if is_sigma0_space this then ret (mp_f_addr v) else
  let* raw := entry (mp_fpg v) in
  ret (addr_offset (Pgent.address (mp_f_size v) raw) offset).

(** is there an existing mapping to be replaced? *)
Definition overmaps (v : map_t) : MD bool :=
  let size := mp_t_size v in
  let fin := addr_offset (mp_t_addr v) (page_size size) in
  let* raw := entry (mp_tpg v) in
  if negb (Pgent.is_valid size raw && (size =? mp_f_size v) && (mp_f_size v <=? pgsize)) then ret false else
  let* kip := get_kip_page_area t_space in
  if is_range_in_fpage kip (mp_t_addr v) fin then ret false else
  let* utcb := get_utcb_page_area t_space in
  if is_range_in_fpage utcb (mp_t_addr v) fin then ret false else
  if Pgent.is_subtree size raw then ret true else
  let* paddr :=
    (if is_sigma0_space this then ret (mp_f_addr v)
     else let* raw := entry (mp_fpg v) in ret (Pgent.address (mp_f_size v) raw)) in
  ret (negb (Pgent.address size raw =? paddr)).

(** the receiver's side at the right size, before anything is mapped *)
Definition map_receiver (v : map_t) : MD jump_t :=
  let size := mp_t_size v in
  let* over := overmaps v in
  if over then let* v := overmap v in ret (Fall_through v) else
  let* raw := entry (mp_tpg v) in
  let down :=
    mp_push_to (size - 1) (Place (Pgent.next size 1 (mp_tpg v)) (w64 (mp_t_num v - 1))) v in
  if Pgent.is_valid size raw && Pgent.is_subtree size raw then
    let* table := subtree_table (mp_tpg v) size in
    ret (Fall_through (mp_with_to table (size - 1) (page_table_size (size - 1)) down))
  else if negb (is_page_size_valid size) then
    kmem_do (Pgent.make_subtree fuel (mp_tpg v) size false) ;;;
    let* table := subtree_table (mp_tpg v) size in
    ret (Continue (mp_with_to table (size - 1) (page_table_size (size - 1)) down))
  else ret (Fall_through v).

(** an existing mapping of the same page gets more rights; of another page it
    ends in [enter_kdebug] *)
Definition extend_rights (v : map_t) (offset : Z) : MD unit :=
  let size := mp_t_size v in
  let* raw := entry (mp_tpg v) in
  let* paddr := from_address v offset in
  if negb (Pgent.address size raw =? paddr) then hang else
  let granted (ok : bool) (f : Z -> bool) (bit : Z) : MD Z :=
    if ok then let* raw := entry (mp_fpg v) in ret (if f raw then bit else 0) else ret 0 in
  let* x := granted (is_execute snd_fp) (Pgent.is_executable (mp_f_size v)) 1 in
  let* w := granted (is_write snd_fp) (Pgent.is_writable (mp_f_size v)) 2 in
  let* r := granted (is_read snd_fp) (Pgent.is_readable (mp_f_size v)) 4 in
  pg_upd (mp_tpg v) (Pgent.update_rights size (x + w + r)).

(** a mapping out of sigma0's memory; the attributes are those of its own
    mapping of the page, if there is one *)
Definition map_from_sigma0 (v : map_t) (offset : Z) : MD map_t :=
  let addr := addr_offset (mp_f_addr v) (w64 (offset + mp_f_off v)) in
  let size := mp_t_size v in
  let* newmap := mdb_map fuel sigma0_mapnode (mp_fpg v) (size_max + 1) addr (mp_tpg v) size t_space grant in
  let* found := gets (fun s => lookup_mapping this (mp_f_addr v) (md_kmem s)) in
  let* v :=
    match found with
    | Some (fpg, f_size) =>
        let v := mp_with_from fpg f_size (mp_f_num v) v in
        let* raw := entry fpg in
        pg_upd (mp_tpg v) (fun _ => Pgent.set_entry_attrib size addr (is_read snd_fp) (is_write snd_fp)
                                      (is_execute snd_fp) false (Pgent.get_attributes f_size raw)) ;;;
        ret v
    | None =>
        pg_upd (mp_tpg v) (fun _ => Pgent.set_entry size addr (is_read snd_fp) (is_write snd_fp)
                                      (is_execute snd_fp) false) ;;;
        ret v
    end in
  pg_do (mp_tpg v) (Pgent.set_linknode (mp_tpg v) newmap (mp_t_addr v)) ;;;
  ret v.

(** a mapping out of another space's *)
Definition map_from_space (v : map_t) (offset : Z) : MD unit :=
  let fpg := mp_fpg v in
  let f_size := mp_f_size v in
  let size := mp_t_size v in
  let* map := pg_get fpg (fun k =>
                Pgent.mapnode k fpg (addr_mask (mp_f_addr v) (wnot (page_mask f_size)))) in
  let* newmap := mdb_map fuel map fpg f_size (mp_f_addr v) (mp_tpg v) size t_space grant in
  let* raw := entry fpg in
  pg_upd (mp_tpg v) (fun _ =>
    Pgent.set_entry_attrib size
      (addr_offset (Pgent.address f_size raw) (w64 (offset + mp_f_off v)))
      (Pgent.is_readable f_size raw && is_read snd_fp)
      (Pgent.is_writable f_size raw && is_write snd_fp)
      (Pgent.is_executable f_size raw && is_execute snd_fp)
      false (Pgent.get_attributes f_size raw)) ;;;
  pg_do (mp_tpg v) (Pgent.set_linknode (mp_tpg v) newmap (mp_t_addr v)) ;;;
  when grant
    (pg_do fpg (Pgent.clear fpg f_size false) ;;;
     flush_tlbent this (mp_f_addr v) (page_shift f_size)).

(** the mapping of one page *)
Definition map_page (v : map_t) : MD map_t :=
  let offset := Z.land (Z.land (mp_f_addr v) (page_mask (mp_f_size v)))
                       (wnot (page_mask (mp_t_size v))) in
  let* raw := entry (mp_tpg v) in
  if Pgent.is_valid (mp_t_size v) raw then extend_rights v offset ;;; ret v
  else if is_sigma0_space this then map_from_sigma0 v offset
  else map_from_space v offset ;;; ret v.

(** *** The ends of a round *)

Definition next_receiver_entry (v : map_t) : jump_t :=
  let v := mp_with_t_addr (addr_offset (mp_t_addr v) (page_size (mp_t_size v))) v in
  let v := mp_with_t_num (w64 (mp_t_num v - 1)) v in
  if 0 <? mp_t_num v then
    let v := mp_with_to (Pgent.next (mp_t_size v) 1 (mp_tpg v)) (mp_t_size v) (mp_t_num v) v in
    if mp_t_size v <? mp_f_size v then Continue (skip_off v) else Next_sender_entry v
  else if (mp_t_size v <? mp_f_size v) && (mp_f_size v <=? pgsize) then
    let v := up_do_to sizes pgsize (fun v => up_to (skip_off v)) v in
    if mp_t_size v <? mp_f_size v then Continue v else Next_sender_entry v
  else if mp_t_size v >? mp_f_size v then
    let v := mp_with_f_addr
               (addr_offset (mp_f_addr v) (w64 (page_size (mp_t_size v) - page_size (mp_f_size v)))) v in
    Next_sender_entry (mp_with_f_num 1 v)
  else Next_sender_entry v.

Definition next_sender_entry (v : map_t) : map_t :=
  let v := mp_with_f_addr (addr_offset (mp_f_addr v) (page_size (mp_f_size v))) v in
  let v := mp_with_f_off 0 v in
  let v := mp_with_f_num (w64 (mp_f_num v - 1)) v in
  if 0 <? mp_f_num v then
    if is_sigma0_space this then v
    else mp_with_from (Pgent.next (mp_f_size v) 1 (mp_fpg v)) (mp_f_size v) (mp_f_num v) v
  else if mp_f_size v <? pgsize then
    let v := up_do_from sizes pgsize v in
    if (mp_t_size v <? mp_f_size v) && (mp_t_num v =? 0) then up_do_to sizes pgsize up_to v else v
  else mp_with_t_num 0 v.

Definition map_round (v : map_t) : MD jump_t :=
  if (negb (is_user_area (mp_f_addr v)) && negb (is_sigma0_space this)) ||
     negb (is_user_area (mp_t_addr v)) then ret Break else
  let* j :=
    (if is_sigma0_space this then ret (Fall_through (mp_with_from (mp_fpg v) pgsize (mp_f_num v) v))
     else map_sender v) in
  let* j :=
    match j with
    | Fall_through v =>
        if (mp_t_size v >? mp_f_size v) || (mp_t_size v >? pgsize) then map_descend v
        else map_receiver v
    | _ => ret j
    end in
  let* j :=
    match j with
    | Fall_through v =>
        let* f_ok := is_mappable this (mp_f_addr v) in
        let* t_ok := (if negb f_ok && negb (is_sigma0_space this) then ret false
                      else is_mappable t_space (mp_t_addr v)) in
        if t_ok then let* v := map_page v in ret (Next_receiver_entry v)
        else ret (Next_receiver_entry v)
    | _ => ret j
    end in
  ret (match match j with Next_receiver_entry v => next_receiver_entry v | _ => j end with
       | Next_sender_entry v => Continue (next_sender_entry v)
       | j => j
       end).

(** [while (f_num > 0 || t_num > 0)] *)
Fixpoint map_loop (n : nat) (v : map_t) : MD unit :=
  if negb ((0 <? mp_f_num v) || (0 <? mp_t_num v)) then ret tt else
  match n with
  | O => hang
  | S n =>
      let* j := map_round v in
      match j with
      | Continue v => map_loop n v
      | _ => ret tt
      end
  end.

End Map.

(** the addresses to map from and to, and the logarithm of the number of bytes *)
Definition map_range (snd_fp : fpage_t) (base : Z) (rcv_fp : fpage_t) : Z * Z * Z :=
  if get_size_log2 snd_fp <=? get_size_log2 rcv_fp then
    let num := get_size_log2 snd_fp in
    let base := Z.land base (base_mask rcv_fp num) in
    (address snd_fp num,
     addr_offset (addr_mask (address rcv_fp num) (wnot (base_mask rcv_fp num))) base, num)
  else
    let num := get_size_log2 rcv_fp in
    let base := Z.land base (base_mask snd_fp num) in
    (addr_offset (addr_mask (address snd_fp num) (wnot (base_mask snd_fp num))) base,
     address rcv_fp num, num).

Definition map_fpage (this : Z) (snd_fp : fpage_t) (base t_space : Z) (rcv_fp : fpage_t)
    (grant : bool) : MD unit :=
  let '(f_addr, t_addr, num) := map_range snd_fp base rcv_fp in
  if num <? page_shift 0 then (if negb (num =? 0) then hang else ret tt) else
  let pgsize := fpage_pgsize num in
  let num := shl64 1 (num - page_shift pgsize) in
  map_loop this snd_fp t_space grant pgsize fuel
    (Map f_addr t_addr num num 0
         (pgent this (page_table_index size_max f_addr))
         (pgent t_space (page_table_index size_max t_addr))
         size_max size_max ∅ ∅).

(** ** [unmap_fpage] *)

Record unmap_t := Unmap {
  um_pg : Z; um_size : Z; um_num : Z; um_vaddr : Z; um_rwx : Z; um_stack : stack_t;
}.

Section Unmap.
Variable this : Z.
Variable fpage : fpage_t.
Variable flush unmap_all : bool.
Variable pgsize : Z.

(** the entry of a page is revoked; the kernel's own mappings only on demand *)
Definition unmap_page (v : unmap_t) : MD Z :=
  let pg := um_pg v in
  let size := um_size v in
  let vaddr := um_vaddr v in
  let* ok := is_mappable this vaddr in
  if ok then
    let* map := pg_get pg (fun k => Pgent.mapnode k pg (addr_mask vaddr (wnot (page_mask size)))) in
    let* bits := mdb_flush fuel map pg size vaddr pgsize fpage flush in
    ret (Z.lor (um_rwx v) bits)
  else
    when unmap_all
      (let* raw := entry pg in
       let* utcb := get_utcb_page_area this in
       kmem_do (release_kernel_mapping fuel (is_addr_in_fpage utcb) vaddr (Pgent.address size raw)
                  (page_shift size)) ;;;
       pg_do pg (Pgent.clear pg size true) ;;;
       when (negb (does_tlbflush_pay (get_size_log2 fpage)))
         (flush_tlbent this vaddr (page_shift size))) ;;;
    ret (um_rwx v).

(** [while (num == 0 && size < pgsize)]: up, removing the tables left empty; the
    test is made for an fpage of size [page_size (size)], as in the source *)
Fixpoint unmap_up (n : nat) (v : unmap_t) : MD unmap_t :=
  if (um_num v =? 0) && (um_size v <? pgsize) then
    match n with
    | O => hang
    | S n =>
        let p := place_at (um_size v) (um_stack v) in
        let size := um_size v + 1 in
        let* ok := (if unmap_all then ret true
                    else is_mappable_fpage this
                           (fpage_set (um_vaddr v) (page_size size) false false false)) in
        when (flush && is_rwx fpage && ok)
          (through (pl_pg p) (kmem_do (Pgent.remove_subtree fuel (pl_pg p) size false))) ;;;
        unmap_up n (Unmap (Pgent.next size 1 (pl_pg p)) size (pl_num p) (um_vaddr v) (um_rwx v) (um_stack v))
    end
  else ret v.

Definition next_entry (v : unmap_t) : MD unmap_t :=
  unmap_up (S sizes)
    (Unmap (Pgent.next (um_size v) 1 (um_pg v)) (um_size v) (w64 (um_num v - 1))
       (addr_offset (um_vaddr v) (page_size (um_size v))) (um_rwx v) (um_stack v)).

(** a round of the loop; [None] leaves it *)
Definition unmap_round (v : unmap_t) : MD (option unmap_t) :=
  if negb (is_user_area (um_vaddr v)) then ret None else
  let pg := um_pg v in
  let size := um_size v in
  let* raw := entry pg in
  let valid := Pgent.is_valid size raw in
  let subtree := Pgent.is_subtree size raw in
  if (size >? pgsize) && negb valid then ret None
  else if (size >? pgsize) && subtree then
    let* pg := subtree_entry pg size (um_vaddr v) in
    ret (Some (Unmap pg (size - 1) (um_num v) (um_vaddr v) (um_rwx v) (um_stack v)))
  else if (size >? pgsize) && is_rwx fpage && flush then hang
  else if negb valid then let* v := next_entry v in ret (Some v)
  else if subtree then
    let* table := subtree_table pg size in
    ret (Some (Unmap table (size - 1) (page_table_size (size - 1)) (um_vaddr v) (um_rwx v)
                 (<[size - 1 := Place pg (w64 (um_num v - 1))]> (um_stack v))))
  else
    let* rwx := unmap_page v in
    let* v := next_entry (Unmap pg size (um_num v) (um_vaddr v) rwx (um_stack v)) in
    ret (Some v).

Fixpoint unmap_loop (n : nat) (v : unmap_t) : MD Z :=
  if um_num v =? 0 then ret (um_rwx v) else
  match n with
  | O => hang
  | S n =>
      let* next := unmap_round v in
      match next with
      | Some v => unmap_loop n v
      | None => ret (um_rwx v)
      end
  end.

End Unmap.

Definition unmap_fpage (this : Z) (fpage : fpage_t) (flush unmap_all : bool) : MD fpage_t :=
  let num := get_size_log2 fpage in
  let vaddr := address fpage num in
  if num <? page_shift 0 then hang else
  let num := if num >? page_shift (size_max + 1) then page_shift (size_max + 1) else num in
  let pgsize := fpage_pgsize num in
  let* rwx := unmap_loop this fpage flush unmap_all pgsize fuel
                (Unmap (pgent this (page_table_index size_max vaddr)) size_max
                   (shl64 1 (num - page_shift pgsize)) vaddr 0 ∅) in
  ret (set_rwx rwx fpage).

End Walker.
