(* ===== verification/Walkrange.v ===== *)
(** * The windows of a mapping

    The addresses [map_fpage] starts from: whatever the send base, they stay
    within the send fpage and within the receive window. *)

From Stdlib Require Import ZArith Lia Bool List.
From stdpp Require Import base numbers list option gmap.
From S2P Require Import Prelude Types Fpage Monad Kmem Pgent Ptab Mapnode MdbAlloc Mdb Walker.
Open Scope Z_scope.

(** the addresses of an fpage, the complete one included *)
Definition in_window (f : fpage_t) (a : Z) : Prop := is_complete_fpage f = true \/ in_fpage f a.

Lemma ones_shr64_full s : 0 < s <= 64 -> shr64 (w64 (-1)) (64 - s) = 2 ^ s - 1.
Proof. intros Hs. destruct (decide (s = 64)) as [->|]; [done|]. apply ones_shr64. lia. Qed.

Lemma base_mask_eq fp num : 0 < num <= get_size_log2 fp -> get_size_log2 fp <= 64 ->
  base_mask fp num = Z.land (2 ^ get_size_log2 fp - 1) (wnot (2 ^ num - 1)).
Proof. intros H1 H2. unfold base_mask. now rewrite !ones_shr64_full by lia. Qed.

Lemma address_eq fp num : is_word fp -> 0 <= num < 64 -> address fp num = fp - fp mod 2 ^ num.
Proof.
  intros Hf Hn. unfold address, shl64. rewrite Z.mod_small, Z.shiftl_1_l by lia.
  assert (2 ^ num < 2 ^ 64) by (apply Z.pow_lt_mono_r; lia). assert (0 < 2 ^ num) by (apply Z.pow_pos_nonneg; lia).
  rewrite (wrap_small 64 (2 ^ num)), (wrap_small 64 (2 ^ num - 1)) by lia. now apply land_wnot_mask; [|lia].
Qed.

Lemma wnot_testbit x i : 0 <= i -> Z.testbit (wnot x) i = negb (Z.testbit x i) && (i <? 64).
Proof. intros Hi. unfold wnot. rewrite wrap_testbit, Z.lnot_spec by lia. apply andb_comm. Qed.

Lemma mask_testbit k i : 0 <= k -> 0 <= i -> Z.testbit (2 ^ k - 1) i = (i <? k).
Proof. intros Hk Hi. replace (2 ^ k - 1) with (Z.ones k) by (rewrite Z.ones_equiv; lia). now apply ones_testbit. Qed.

(** masking the bits between [num] and [l] away from an aligned word *)
Lemma land_window a num l : is_word a -> 0 <= num <= l -> l <= 64 -> a mod 2 ^ num = 0 ->
  Z.land a (wnot (Z.land (2 ^ l - 1) (wnot (2 ^ num - 1)))) = a - a mod 2 ^ l.
Proof.
  intros Ha Hn Hl Hal. rewrite <- land_wnot_mask by (done || lia).
  apply Z.bits_inj'. intros i Hi. rewrite !Z.land_spec, !wnot_testbit, Z.land_spec, wnot_testbit, !mask_testbit by lia.
  destruct (Z.ltb_spec i num).
  - replace (Z.testbit a i) with false; [done|]. rewrite <- (Z.mod_pow2_bits_low a num) by lia. now rewrite Hal, Z.bits_0.
  - destruct (i <? l), (i <? 64); cbn [andb negb]; now rewrite ?andb_true_r, ?andb_false_r.
Qed.

Lemma land_base b num l : is_word b -> 0 <= num <= l -> l <= 64 ->
  Z.land b (Z.land (2 ^ l - 1) (wnot (2 ^ num - 1))) = b mod 2 ^ l - b mod 2 ^ num.
Proof.
  intros Hb Hn Hl. rewrite Z.land_assoc, aligned_land_mask by lia.
  assert (0 < 2 ^ num) by (apply Z.pow_pos_nonneg; lia). assert (0 < 2 ^ l) by (apply Z.pow_pos_nonneg; lia).
  pose proof (Z.mod_pos_bound b (2 ^ l) ltac:(lia)). pose proof (Z.mod_le b (2 ^ l)). unfold is_word in Hb.
  rewrite land_wnot_mask by (unfold is_word; lia). f_equal.
  apply Z.mod_mod_divide. exists (2 ^ (l - num)). rewrite <- Z.pow_add_r by lia. f_equal. lia.
Qed.

Section Window.
Variable fp base num : Z.
Hypothesis Hfp : is_word fp.
Hypothesis Hbase : is_word base.
Hypothesis Hnum : 10 <= num < 64.
Hypothesis Hle : num <= get_size_log2 fp.

Lemma size_log2_bound : get_size_log2 fp <= 64.
Proof. unfold get_size_log2. pose proof (fp_size_bounds fp). destruct (is_complete_fpage fp); lia. Qed.

(** the address of the part of [fp] that the send base selects *)
Definition window_part : Z :=
  addr_offset (addr_mask (address fp num) (wnot (base_mask fp num))) (Z.land base (base_mask fp num)).

Let l := get_size_log2 fp.

Lemma window_powers :
  exists c d, 2 ^ l = 2 ^ num * d /\ 2 ^ 64 = c * 2 ^ l /\ 0 < 2 ^ num /\ 0 < c /\ 0 < d.
Proof.
  pose proof size_log2_bound as Hl. fold l in Hl, Hle. exists (2 ^ (64 - l)), (2 ^ (l - num)).
  rewrite <- !Z.pow_add_r by lia. split_and!; [f_equal; lia|f_equal; lia|apply Z.pow_pos_nonneg; lia..].
Qed.

Lemma window_part_value :
  window_part = fp / 2 ^ l * 2 ^ l + base mod 2 ^ l / 2 ^ num * 2 ^ num /\
  0 <= fp / 2 ^ l * 2 ^ l /\ (fp / 2 ^ l + 1) * 2 ^ l <= 2 ^ 64 /\
  0 <= base mod 2 ^ l / 2 ^ num * 2 ^ num <= 2 ^ l - 2 ^ num.
Proof.
  pose proof size_log2_bound as Hl. fold l in Hl, Hle.
  destruct window_powers as (c & d & El & E64 & P1 & Pc & Pd). assert (0 < 2 ^ l) as P2 by nia.
  pose proof (Z.mod_pos_bound base (2 ^ l) P2) as Hb. unfold is_word in Hfp.
  assert (Hq : 0 <= fp / 2 ^ l < c) by (split; [apply Z.div_pos; lia|apply Z.div_lt_upper_bound; lia]).
  assert (Hk : 0 <= base mod 2 ^ l / 2 ^ num < d) by (split; [apply Z.div_pos; lia|apply Z.div_lt_upper_bound; lia]).
  set (k := base mod 2 ^ l / 2 ^ num) in *. set (q := fp / 2 ^ l) in *.
  assert (B1 : 0 <= q * 2 ^ l) by nia. assert (B2 : (q + 1) * 2 ^ l <= 2 ^ 64) by (rewrite E64; nia).
  assert (B3 : 0 <= k * 2 ^ num <= 2 ^ l - 2 ^ num) by (rewrite El; nia).
  split_and!; try lia.
  unfold window_part. rewrite base_mask_eq, address_eq by (fold l; done || lia). fold l.
  pose proof (Z.mod_pos_bound fp (2 ^ num) P1). pose proof (Z.mod_le fp (2 ^ num) ltac:(lia) P1).
  assert (Ediv : Z.divide (2 ^ num) (2 ^ l)) by (exists d; lia).
  unfold addr_mask. rewrite land_base, land_window; [|unfold is_word; lia|lia|lia| |done|lia|lia].
  2: { rewrite <- div_mul_pow2, Z.mul_comm by lia. rewrite Z.mul_comm. apply Z.mod_mul. lia. }
  assert ((fp - fp mod 2 ^ num) - (fp - fp mod 2 ^ num) mod 2 ^ l = q * 2 ^ l) as ->.
  { rewrite <- (div_mul_pow2 l (fp - fp mod 2 ^ num)), <- div_mul_pow2 by lia. unfold q. f_equal.
    rewrite El, <- !Z.div_div by lia. now rewrite Z.div_mul by lia. }
  assert (base mod 2 ^ l - base mod 2 ^ num = k * 2 ^ num) as ->.
  { unfold k. rewrite div_mul_pow2 by lia. f_equal. symmetry. now apply Z.mod_mod_divide. }
  unfold addr_offset. apply wrap_small. lia.
Qed.

Lemma window_part_aligned : window_part mod 2 ^ num = 0.
Proof.
  destruct window_part_value as [-> _]. destruct window_powers as (c & d & El & _ & P1 & _).
  rewrite El. replace (fp / (2 ^ num * d) * (2 ^ num * d)) with (fp / (2 ^ num * d) * d * 2 ^ num) by lia.
  rewrite <- Z.mul_add_distr_r. apply Z.mod_mul. lia.
Qed.

(** all of the part lies within the fpage *)
Lemma window_part_inside a : 0 <= a < 2 ^ num -> in_window fp (window_part + a) /\ window_part + a < 2 ^ 64.
Proof.
  intros Ha. destruct window_part_value as (-> & H1 & H2 & H3). split; [|lia].
  unfold in_window. destruct (is_complete_fpage fp) eqn:Ec; [now left|right].
  assert (bf_get fp_size fp = l) as El by (unfold l, get_size_log2; now rewrite Ec).
  unfold in_fpage, fp_start, fp_end. rewrite get_address_eq, get_size_eq, El by (rewrite El; fold l in Hle; lia).
  assert (get_base fp - get_base fp mod 2 ^ l = fp / 2 ^ l * 2 ^ l) as ->; [|lia].
  fold l in Hle. rewrite <- div_mul_pow2 by lia. f_equal.
  assert (get_base fp = fp / 2 ^ 10 * 2 ^ 10) as ->.
  { rewrite get_base_eq. f_equal. unfold bf_get. change (bf_off fp_base) with 10. change (bf_width fp_base) with 54.
    rewrite Z.shiftr_div_pow2, Z.land_ones by lia. apply Z.mod_small. zlia. }
  assert (2 ^ l = 2 ^ 10 * 2 ^ (l - 10)) as -> by (rewrite <- Z.pow_add_r by lia; f_equal; lia).
  assert (0 < 2 ^ (l - 10)) by (apply Z.pow_pos_nonneg; lia).
  rewrite <- !Z.div_div by lia. now rewrite Z.div_mul by lia.
Qed.
End Window.

(** the address of the fpage itself is its part for any send base of its size *)
Lemma address_window_part fp num : is_word fp -> 10 <= num < 64 -> get_size_log2 fp = num ->
  address fp num = window_part fp 0 num.
Proof.
  intros Hf Hn El. unfold window_part. rewrite base_mask_eq, El by lia.
  rewrite Z.land_0_l. unfold addr_offset, addr_mask.
  assert (0 < 2 ^ num) by (apply Z.pow_pos_nonneg; lia).
  pose proof (Z.mod_pos_bound fp (2 ^ num)). pose proof (Z.mod_le fp (2 ^ num)). unfold is_word in Hf.
  assert ((fp - fp mod 2 ^ num) mod 2 ^ num = 0) as Hz.
  { rewrite <- div_mul_pow2 by lia. apply Z.mod_mul. lia. }
  rewrite land_window; rewrite ?address_eq, ?Hz; unfold is_word; try lia.
  rewrite Z.sub_0_r, Z.add_0_r. symmetry. apply wrap_small. lia.
Qed.

(** C19 Where a mapping takes place.  The smaller of the two fpages decides how many
    bytes are mapped; the send base selects a part of the larger one.  Whatever the
    base, the bytes read lie within the send fpage and the bytes mapped within the
    receive window, both from an address aligned to their number: a sender cannot
    map outside the window its partner has opened. *)
Theorem map_range_in_windows snd_fp base rcv_fp f_addr t_addr num :
  is_word snd_fp -> is_word base -> is_word rcv_fp ->
  map_range snd_fp base rcv_fp = (f_addr, t_addr, num) -> 10 <= num < 64 ->
  num = Z.min (get_size_log2 snd_fp) (get_size_log2 rcv_fp) /\
  f_addr mod 2 ^ num = 0 /\ t_addr mod 2 ^ num = 0 /\
  forall a, 0 <= a < 2 ^ num ->
    (in_window snd_fp (f_addr + a) /\ f_addr + a < 2 ^ 64) /\ (in_window rcv_fp (t_addr + a) /\ t_addr + a < 2 ^ 64).
Proof.
  intros Hs Hb Hr E Hn. assert (is_word 0) as H0 by (unfold is_word; lia).
  unfold map_range in E. destruct (Z.leb_spec (get_size_log2 snd_fp) (get_size_log2 rcv_fp)).
  - injection E as <- <- <-. split; [lia|]. rewrite address_window_part by done.
    change (addr_offset (addr_mask (address rcv_fp _) _) _) with (window_part rcv_fp base (get_size_log2 snd_fp)).
    split_and!; [apply window_part_aligned; done || lia..|].
    intros a Ha. split; apply window_part_inside; done || lia.
  - injection E as <- <- <-. split; [lia|]. rewrite (address_window_part rcv_fp) by done.
    change (addr_offset (addr_mask (address snd_fp _) _) _) with (window_part snd_fp base (get_size_log2 rcv_fp)).
    split_and!; [apply window_part_aligned; done || lia..|].
    intros a Ha. split; apply window_part_inside; done || lia.
Qed.

Lemma map_range_in_windows_witness :
  map_range (fpage_set 0x100000000 12 true true true) 0x123456789 (fpage_set 0x200000000 16 true true true)
  = (0x100000000, 0x200006000, 12) /\
  in_window (fpage_set 0x200000000 16 true true true) (0x200006000 + 0xfff).
Proof.
  split; [reflexivity|].
  destruct (map_range_in_windows (fpage_set 0x100000000 12 true true true) 0x123456789
              (fpage_set 0x200000000 16 true true true) 0x100000000 0x200006000 12) as (_ & _ & _ & H).
  - vm_compute. split; [discriminate|reflexivity].
  - unfold is_word. lia.
  - vm_compute. split; [discriminate|reflexivity].
  - reflexivity.
  - lia.
  - apply H. lia.
Defined.
