(* ===== verification/Walkmap.v ===== *)
(** * Mapping and unmapping one page

    [map_fpage] and [unmap_fpage] on a single page, composed with the mapping
    database: the walk down two page tables, the new child of the source's
    mapping, and the removal of a mapping with everything mapped on from it.
    The theorems rest on the interface [BufferHeap] of the allocator. *)

From Stdlib Require Import ZArith Lia Bool List.
From stdpp Require Import base numbers list option gmap.
From S2P Require Import Prelude Types Fpage Monad Kmem Pgent Ptab Mapnode MdbAlloc Mdbpools Mdb Mdbflush Mdbtree Walker.
Open Scope Z_scope.

(** ** The way down a page table *)

(** [pg] is the entry of size [size] for [vaddr]: all entries above it lead to
    tables *)
Inductive reaches (k : kmem_t) (sp vaddr : Z) : Z -> Z -> Prop :=
| reaches_top : reaches k sp vaddr (pgent sp (page_table_index size_max vaddr)) size_max
| reaches_down pg size :
    reaches k sp vaddr pg size -> 0 < size ->
    Pgent.is_valid size (Pgent.raw_at k pg) = true -> Pgent.is_subtree size (Pgent.raw_at k pg) = true ->
    reaches k sp vaddr (descend size vaddr pg (Pgent.raw_at k pg)) (size - 1).

Lemma reaches_size k sp vaddr pg size : reaches k sp vaddr pg size -> 0 <= size <= size_max.
Proof. induction 1; unfold size_max, size_4g in *; lia. Qed.

(** there is one entry of each size *)
Lemma reaches_unique k sp vaddr pg pg' size :
  reaches k sp vaddr pg size -> reaches k sp vaddr pg' size -> pg = pg'.
Proof.
  intros H. revert pg'. induction H as [|pg size H IH Hpos Hv Hs]; intros pg' H'.
  - inversion H' as [|pg2 size2 H2 _ _ _ E1 E2]; [done|]. apply reaches_size in H2. lia.
  - inversion H' as [E1 E2|pg2 size2 H2 _ _ _ E1 E2].
    + apply reaches_size in H. unfold size_max, size_4g in *. lia.
    + assert (size2 = size) as -> by lia. now rewrite (IH pg2).
Qed.

(** a size above one that is reached is reached, by an entry that leads on *)
Lemma reaches_above k sp vaddr pg size n :
  reaches k sp vaddr pg size -> size <= n <= size_max ->
  exists pg', reaches k sp vaddr pg' n /\
    (size < n -> Pgent.is_valid n (Pgent.raw_at k pg') = true /\ Pgent.is_subtree n (Pgent.raw_at k pg') = true /\
                 reaches k sp vaddr (descend n vaddr pg' (Pgent.raw_at k pg')) (n - 1)).
Proof.
  intros H. induction H as [|pg size H IH Hpos Hv Hs]; intros Hn.
  - exists (pgent sp (page_table_index size_max vaddr)). assert (n = size_max) as -> by lia.
    split; [constructor|lia].
  - destruct (decide (n = size - 1)) as [->|Hne].
    { exists (descend size vaddr pg (Pgent.raw_at k pg)). split; [now constructor|lia]. }
    destruct (decide (n = size)) as [->|Hne'].
    { exists pg. split; [done|]. intros _. split_and!; [done..|]. now constructor. }
    destruct IH as (pg' & H1 & H2); [lia|]. exists pg'. split; [done|]. intros _. apply H2. lia.
Qed.

Lemma lookup_reaches k sp vaddr pg size :
  reaches k sp vaddr pg size -> lookup_mapping sp vaddr k = lookup_loop (Z.to_nat size) vaddr pg k.
Proof.
  induction 1 as [|pg size H IH Hpos Hv Hs]; [done|]. rewrite IH.
  replace (Z.to_nat size) with (S (Z.to_nat (size - 1))) by lia. cbn [lookup_loop].
  rewrite Nat2Z.inj_succ, Z2Nat.id by lia. replace (Z.succ (size - 1)) with size by lia.
  now rewrite Hv, Hs.
Qed.

Lemma reaches_lookup k sp vaddr pg size :
  reaches k sp vaddr pg size -> Pgent.is_valid size (Pgent.raw_at k pg) = true ->
  Pgent.is_subtree size (Pgent.raw_at k pg) = false -> lookup_mapping sp vaddr k = Some (pg, size).
Proof.
  intros H Hv Hs. rewrite (lookup_reaches _ _ _ _ _ H). pose proof (reaches_size _ _ _ _ _ H).
  destruct (Z.to_nat size) eqn:E; cbn [lookup_loop]; rewrite <- E, Z2Nat.id by lia; now rewrite Hv, Hs.
Qed.

(** the way down stays if its entries still lead on *)
Lemma reaches_frame k k' sp vaddr pg size :
  reaches k sp vaddr pg size ->
  (forall pg' n, reaches k sp vaddr pg' n -> size < n ->
     Pgent.is_valid n (Pgent.raw_at k' pg') = true /\ Pgent.is_subtree n (Pgent.raw_at k' pg') = true /\
     Pgent.subtree n pg' (Pgent.raw_at k' pg') = Pgent.subtree n pg' (Pgent.raw_at k pg')) ->
  reaches k' sp vaddr pg size.
Proof.
  induction 1 as [|pg size H IH Hpos Hv Hs]; intros Hf; [constructor|].
  destruct (Hf pg size H) as (Hv' & Hs' & Es); [lia|].
  assert (descend size vaddr pg (Pgent.raw_at k pg) = descend size vaddr pg (Pgent.raw_at k' pg)) as ->
    by (unfold descend; now rewrite Es).
  constructor; [|done..]. apply IH. intros pg' n Hr Hn. apply (Hf pg' n Hr). lia.
Qed.

(** an entry on the way leads on *)
Lemma reaches_leads k sp vaddr pg size pg' n :
  reaches k sp vaddr pg size -> reaches k sp vaddr pg' n -> size < n ->
  Pgent.is_valid n (Pgent.raw_at k pg') = true /\ Pgent.is_subtree n (Pgent.raw_at k pg') = true.
Proof.
  intros Hr Hr' Hn. pose proof (reaches_size _ _ _ _ _ Hr'). destruct (reaches_above _ _ _ _ _ n Hr) as (pg2 & H1 & H2); [lia|].
  rewrite (reaches_unique _ _ _ _ _ _ Hr' H1). destruct (H2 Hn) as (Hv & Hs & _). done.
Qed.

(** a mapping leads on from the larger sizes that share its word *)
Lemma set_entry_larger size n paddr r w x kernel attrib :
  0 <= size < n -> size <= size_max -> Pgent.is_tree_size n = false ->
  let e := Pgent.set_entry_attrib size paddr r w x kernel attrib in
  Pgent.is_valid n e = true /\ Pgent.is_subtree n e = true.
Proof.
  intros Hn Hs Ht e.
  assert (bf_flag Pgent.map_is_valid e = true) as Hv.
  { unfold bf_flag, e. entry_simpl. bf_simpl. reflexivity. }
  assert (bf_get Pgent.map_pgsize e = size) as Hsz.
  { unfold e. entry_simpl. bf_simpl. apply Z.mod_small. unfold size_max, size_4g in Hs. lia. }
  unfold Pgent.is_valid, Pgent.is_subtree. rewrite Hv, Ht, Hsz. split; [done|]. apply Z.ltb_lt. lia.
Qed.

(** the entries of a way are dereferenced *)
Definition way_ok (k : kmem_t) (sp vaddr : Z) : Prop :=
  forall pg size, reaches k sp vaddr pg size -> pg <> NULL.

Lemma bind_entry {B} pg (f : Z -> MD B) s : pg <> NULL -> bind (entry pg) f s = f (lds s pg) s.
Proof. intros Hp. unfold entry. now rewrite bind_pg_get. Qed.
Lemma bind_subtree_entry {B} pg size vaddr (f : Z -> MD B) s : pg <> NULL ->
  bind (subtree_entry pg size vaddr) f s = f (descend size vaddr pg (lds s pg)) s.
Proof. intros Hp. unfold subtree_entry. now rewrite bind_assoc, bind_entry. Qed.

Section Rounds.
Variable fuel : nat.
Variable sigma0_space sigma0_mapnode this : Z.
Variable snd_fp : fpage_t.
Variable t_space : Z.
Variable grant : bool.
Variable pgsize : Z.
Variable s : mdb_t.
Variable f_addr t_addr fpg tpg : Z.

Abbreviation LOOP := (map_loop fuel sigma0_space sigma0_mapnode this snd_fp t_space grant pgsize).
Abbreviation ROUND := (map_round fuel sigma0_space sigma0_mapnode this snd_fp t_space grant pgsize).

Hypothesis Huf : is_user_area f_addr = true.
Hypothesis Hut : is_user_area t_addr = true.
Hypothesis Hns : is_sigma0_space sigma0_space this = false.
Hypothesis Hfw : way_ok (md_kmem s) this f_addr.
Hypothesis Htw : way_ok (md_kmem s) t_space t_addr.
Hypothesis Hf : reaches (md_kmem s) this f_addr fpg pgsize.
Hypothesis Ht : reaches (md_kmem s) t_space t_addr tpg pgsize.
Hypothesis Hfv : Pgent.is_valid pgsize (lds s fpg) = true.
Hypothesis Hfs : Pgent.is_subtree pgsize (lds s fpg) = false.

Lemma map_loop_step n v v' : 0 < mp_f_num v -> ROUND v s = Ok (Continue v', s) -> LOOP (S n) v s = LOOP n v' s.
Proof.
  intros Hn E. cbn [map_loop]. apply Z.ltb_lt in Hn. rewrite Hn. simpl. unfold bind. now rewrite E.
Qed.

(** the rounds that go down on the sender's side *)
Lemma sender_walk d : forall n v size pg,
  Z.to_nat (size - pgsize) = d -> pgsize <= size <= size_max -> mp_f_num v = 1 ->
  mp_f_addr v = f_addr -> mp_t_addr v = t_addr -> mp_fpg v = pg -> mp_f_size v = size ->
  reaches (md_kmem s) this f_addr pg size ->
  LOOP (d + n)%nat v s = LOOP n (mp_with_from fpg pgsize 1 v) s.
Proof.
  induction d as [|d IH]; intros n v size pg Hd Hsz Hn Hfa Hta Hpg Hfsz Hr.
  - assert (size = pgsize) as -> by lia. pose proof (reaches_unique _ _ _ _ _ _ Hr Hf) as ->.
    destruct v; simpl in *; subst. done.
  - destruct (reaches_above _ _ _ _ _ size Hf Hsz) as (pg' & Hr' & Hgo).
    pose proof (reaches_unique _ _ _ _ _ _ Hr Hr') as <-. destruct Hgo as (Hv & Hs & Hdn); [lia|].
    change (S d + n)%nat with (S (d + n)). erewrite map_loop_step; [|lia|].
    + rewrite (IH n (mp_with_from (descend size f_addr pg (lds s pg)) (size - 1) 1 v) (size - 1)
                 (descend size f_addr pg (lds s pg))); [done|lia|lia|done..].
    + unfold map_round. rewrite Hfa, Hta, Huf, Hut, Hns. cbn [negb andb orb].
      unfold map_sender. rewrite Hpg, Hfsz, !bind_assoc, bind_entry by (now apply (Hfw _ _ Hr)).
      change (lds s pg) with (Pgent.raw_at (md_kmem s) pg). rewrite Hv, Hs. cbn [negb].
      replace (size >? pgsize) with true by (symmetry; rewrite Z.gtb_ltb; apply Z.ltb_lt; lia).
      cbn [andb]. rewrite bind_assoc, bind_subtree_entry by (now apply (Hfw _ _ Hr)).
      rewrite Hfa, Hn. rewrite bind_ret_l. done.
Qed.

(** the sender's side has arrived *)
Lemma sender_arrived v : mp_fpg v = fpg -> mp_f_size v = pgsize ->
  map_sender pgsize v s = Ok (Fall_through v, s).
Proof.
  intros Hpg Hsz. unfold map_sender. rewrite Hpg, Hsz, bind_entry by (now apply (Hfw _ _ Hf)).
  rewrite Hfv, Hfs, andb_false_r. cbn [negb].
  now replace (pgsize >? pgsize) with false by (symmetry; rewrite Z.gtb_ltb; apply Z.ltb_ge; lia).
Qed.

(** a round that goes down on the receiver's side *)
Lemma receiver_descend v : mp_tpg v <> NULL ->
  Pgent.is_valid (mp_t_size v) (lds s (mp_tpg v)) = true ->
  Pgent.is_subtree (mp_t_size v) (lds s (mp_tpg v)) = true -> pgsize < mp_t_size v ->
  map_descend fuel pgsize v s
  = Ok (Continue (mp_with_to (descend (mp_t_size v) (mp_t_addr v) (mp_tpg v) (lds s (mp_tpg v)))
                    (mp_t_size v - 1) (mp_t_num v)
                    (mp_push_to (mp_t_size v - 1)
                       (Place (Pgent.next (mp_t_size v) 1 (mp_tpg v)) (w64 (mp_t_num v - 1))) v)), s).
Proof.
  intros Hp Hv Hs Hsz. unfold map_descend. rewrite bind_entry by done. cbn [mp_tpg mp_push_to].
  rewrite Hv, Hs. cbn [negb]. rewrite bind_ret_l.
  replace (mp_t_size v - 1 >=? pgsize) with true by (symmetry; rewrite Z.geb_leb; apply Z.leb_le; lia).
  now rewrite bind_subtree_entry.
Qed.

(** the rounds that go down on the receiver's side *)
Lemma receiver_walk d : forall n v size pg,
  Z.to_nat (size - pgsize) = d -> pgsize <= size <= size_max -> mp_f_num v = 1 ->
  mp_f_addr v = f_addr -> mp_t_addr v = t_addr -> mp_fpg v = fpg -> mp_f_size v = pgsize ->
  mp_tpg v = pg -> mp_t_size v = size -> reaches (md_kmem s) t_space t_addr pg size ->
  exists stack,
    LOOP (d + n)%nat v s
    = LOOP n (Map f_addr t_addr 1 (mp_t_num v) (mp_f_off v) fpg tpg pgsize pgsize (mp_f_stack v) stack) s.
Proof.
  induction d as [|d IH]; intros n v size pg Hd Hsz Hn Hfa Hta Hfpg Hfsz Hpg Htsz Hr.
  - assert (size = pgsize) as -> by lia. pose proof (reaches_unique _ _ _ _ _ _ Hr Ht) as ->.
    exists (mp_t_stack v). destruct v; simpl in *; subst. done.
  - destruct (reaches_above _ _ _ _ _ size Ht Hsz) as (pg' & Hr' & Hgo).
    pose proof (reaches_unique _ _ _ _ _ _ Hr Hr') as <-. destruct Hgo as (Hv & Hs & Hdn); [lia|].
    change (S d + n)%nat with (S (d + n)).
    set (w := mp_push_to (size - 1) (Place (Pgent.next size 1 pg) (w64 (mp_t_num v - 1))) v).
    destruct (IH n (mp_with_to (descend size t_addr pg (lds s pg)) (size - 1) (mp_t_num v) w) (size - 1)
                (descend size t_addr pg (lds s pg))) as (stack & E); [lia|lia|done..|].
    exists stack. erewrite map_loop_step; [exact E|lia|].
    unfold map_round. rewrite Hfa, Hta, Huf, Hut, Hns. cbn [negb andb orb].
    rewrite (bind_ok _ _ _ _ _ (sender_arrived v Hfpg Hfsz)), Htsz, Hfsz.
    replace (size >? pgsize) with true by (symmetry; rewrite Z.gtb_ltb; apply Z.ltb_lt; lia).
    cbn [orb].
    assert (map_descend fuel pgsize v s = Ok (Continue (mp_with_to (descend size t_addr pg (lds s pg)) (size - 1)
              (mp_t_num v) w), s)) as Ed.
    { unfold w. rewrite <- Hta, <- Htsz, <- Hpg in *. apply receiver_descend; [now apply (Htw _ _ Hr)|done..|lia]. }
    now rewrite (bind_ok _ _ _ _ _ Ed).
Qed.

Hypothesis Hti : Pgent.is_valid pgsize (lds s tpg) = false.
Hypothesis Hhw : is_page_size_valid pgsize = true.
Hypothesis Hfm : is_mappable this f_addr s = Ok (true, s).
Hypothesis Htm : is_mappable t_space t_addr s = Ok (true, s).

Lemma receiver_arrived v : mp_tpg v = tpg -> mp_t_size v = pgsize -> mp_f_size v = pgsize ->
  map_receiver fuel sigma0_space this t_space pgsize v s = Ok (Fall_through v, s).
Proof.
  intros Hpg Hsz Hfsz. pose proof (Htw _ _ Ht) as Hnn. unfold map_receiver, overmaps.
  rewrite Hpg, Hsz, bind_assoc, bind_entry by done. rewrite Hti. cbn [andb negb].
  rewrite bind_ret_l. cbn beta iota. rewrite bind_entry by done. rewrite Hti, Hhw. done.
Qed.

Lemma same_size_offset size addr : Z.land (Z.land addr (page_mask size)) (wnot (page_mask size)) = 0.
Proof.
  apply Z.bits_inj'. intros i Hi. unfold wnot. rewrite Z.bits_0, !Z.land_spec, wrap_testbit, Z.lnot_spec by lia.
  now destruct (Z.testbit addr i), (Z.testbit (page_mask size) i), (i <? 64).
Qed.

Definition last_place (f_stack t_stack : stack_t) : map_t :=
  Map f_addr t_addr 1 1 0 fpg tpg pgsize pgsize f_stack t_stack.

Lemma gtb_same x : (x >? x) = false.
Proof. rewrite Z.gtb_ltb. apply Z.ltb_irrefl. Qed.

Lemma last_receiver fs ts :
  next_receiver_entry pgsize (last_place fs ts)
  = Next_sender_entry (mp_with_t_num 0 (mp_with_t_addr (addr_offset t_addr (page_size pgsize)) (last_place fs ts))).
Proof.
  unfold next_receiver_entry, last_place, mp_with_t_addr, mp_with_t_num, mp_with_f_num. cbn.
  change (w64 (1 - 1)) with 0. cbn. now rewrite gtb_same, Z.ltb_irrefl.
Qed.

Lemma last_sender fs ts :
  next_sender_entry sigma0_space this pgsize
    (mp_with_t_num 0 (mp_with_t_addr (addr_offset t_addr (page_size pgsize)) (last_place fs ts)))
  = mp_with_t_num 0 (mp_with_f_num 0 (mp_with_f_addr (addr_offset f_addr (page_size pgsize))
      (mp_with_t_addr (addr_offset t_addr (page_size pgsize)) (last_place fs ts)))).
Proof.
  unfold next_sender_entry, last_place, mp_with_f_addr, mp_with_f_off, mp_with_f_num, mp_with_t_num. cbn.
  change (w64 (1 - 1)) with 0. cbn. now rewrite Z.ltb_irrefl.
Qed.

(** the round that maps *)
Lemma map_last n fs ts s' :
  map_from_space fuel this snd_fp t_space grant (last_place fs ts) 0 s = Ok (tt, s') ->
  LOOP (S (S n)) (last_place fs ts) s = Ok (tt, s').
Proof.
  intros Hm. cbn [map_loop]. change (negb ((0 <? mp_f_num (last_place fs ts)) || _)) with false. cbn iota.
  assert (map_page fuel sigma0_space sigma0_mapnode this snd_fp t_space grant (last_place fs ts) s
          = Ok (last_place fs ts, s')) as Hp.
  { unfold map_page. cbn [last_place mp_tpg mp_t_size mp_f_addr mp_f_size].
    rewrite bind_entry by (now apply (Htw _ _ Ht)). rewrite Hti, Hns, same_size_offset.
    unfold bind. now rewrite Hm. }
  assert (ROUND (last_place fs ts) s
          = Ok (Continue (mp_with_t_num 0 (mp_with_f_num 0 (mp_with_f_addr (addr_offset f_addr (page_size pgsize))
                  (mp_with_t_addr (addr_offset t_addr (page_size pgsize)) (last_place fs ts))))), s')) as Hr.
  { unfold map_round. cbn [last_place mp_f_addr mp_t_addr mp_t_size mp_f_size mp_fpg mp_f_num].
    rewrite Huf, Hut, Hns. cbn [negb andb orb]. fold (last_place fs ts).
    rewrite (bind_ok _ _ _ _ _ (sender_arrived (last_place fs ts) eq_refl eq_refl)).
    cbn [last_place mp_f_addr mp_t_addr mp_t_size mp_f_size mp_fpg mp_f_num].
    replace (pgsize >? pgsize) with false by (symmetry; rewrite Z.gtb_ltb; apply Z.ltb_ge; lia).
    cbn [orb]. fold (last_place fs ts).
    rewrite (bind_ok _ _ _ _ _ (receiver_arrived (last_place fs ts) eq_refl eq_refl eq_refl)).
    cbn [last_place mp_f_addr mp_t_addr]. fold (last_place fs ts).
    rewrite bind_assoc, (bind_ok _ _ _ _ _ Hfm), bind_assoc. cbn [negb andb].
    rewrite (bind_ok _ _ _ _ _ Htm), bind_assoc, (bind_ok _ _ _ _ _ Hp), bind_ret_l.
    now rewrite last_receiver, last_sender. }
  unfold bind. rewrite Hr. done.
Qed.

Lemma valid_size : 0 <= pgsize <= 6.
Proof.
  pose proof (reaches_size _ _ _ _ _ Hf) as Hsz. unfold size_max, size_4g in Hsz.
  destruct (decide (pgsize = 7)) as [E|]; [|lia]. rewrite E in Hhw. discriminate.
Qed.

Lemma fpage_pgsize_shift : fpage_pgsize (page_shift pgsize) = pgsize /\ page_shift 0 <= page_shift pgsize.
Proof.
  pose proof valid_size as Hsz. clear - Hsz.
  assert (pgsize = 0 \/ pgsize = 1 \/ pgsize = 2 \/ pgsize = 3 \/ pgsize = 4 \/ pgsize = 5 \/ pgsize = 6) as H by lia.
  destruct H as [->|[->|[->|[->|[->|[->| ->]]]]]]; vm_compute; split; congruence.
Qed.

(** a send window of one page is mapped by one round *)
Lemma map_fpage_run base rcv_fp s' :
  map_range snd_fp base rcv_fp = (f_addr, t_addr, page_shift pgsize) -> (16 <= fuel)%nat ->
  map_from_space fuel this snd_fp t_space grant (last_place ∅ ∅) 0 s = Ok (tt, s') ->
  map_fpage fuel sigma0_space sigma0_mapnode this snd_fp base t_space rcv_fp grant s = Ok (tt, s').
Proof.
  intros Hr Hfuel Hm. unfold map_fpage. rewrite Hr. destruct fpage_pgsize_shift as [E12 Hle]. rewrite E12.
  replace (page_shift pgsize <? page_shift 0) with false by (symmetry; apply Z.ltb_ge; lia).
  rewrite Z.sub_diag. change (shl64 1 0) with 1.
  pose proof (reaches_size _ _ _ _ _ Hf) as Hsz. set (d := Z.to_nat (size_max - pgsize)).
  assert (fuel = (d + (d + S (S (fuel - 2 - d - d))))%nat) as Ef.
  { unfold d, size_max, size_4g in *. lia. }
  rewrite Ef at 2. rewrite (sender_walk d _ _ size_max (pgent this (page_table_index size_max f_addr)));
    [|done|lia|done..|constructor].
  match goal with |- map_loop _ _ _ _ _ _ _ _ (d + ?n)%nat ?v s = _ =>
    destruct (receiver_walk d n v size_max (pgent t_space (page_table_index size_max t_addr))) as (stack & E);
      [done|lia|done..|constructor|rewrite E]
  end.
  now apply map_last.
Qed.
End Rounds.

(** ** One page is mapped *)

(** the table entries on the way down to [size] are foreign; a larger size that
    shares the word of one of the page entries [pgs] has no table of its own *)
Definition way_apart (s : mdb_t) (live : Z -> Z -> Prop) (owned : Z -> Prop) (sp vaddr size : Z)
    (pgs : list Z) : Prop :=
  forall pg' n, reaches (md_kmem s) sp vaddr pg' n -> size < n ->
    foreign live owned pg' /\
    forall pg, pg ∈ pgs -> pg' <> link_word pg /\ (pg' = pg -> Pgent.is_tree_size n = false).

(** [pg] translates [vaddr] of space [sp] to the page of node [map] *)
Record translates (k : kmem_t) (sp vaddr size pg map : Z) : Prop := {
  tr_lookup : lookup_mapping sp vaddr k = Some (pg, size);
  tr_map : Pgent.mapnode k pg (addr_mask vaddr (wnot (page_mask size))) = map;
}.

Lemma address_bounds size raw : 0 <= size <= size_max ->
  0 <= Pgent.address size raw < 2 ^ 36 /\ (Pgent.address size raw) mod page_size size = 0 /\
  (Pgent.address size raw) mod 2 ^ 12 = 0.
Proof.
  intros Hs. unfold Pgent.address, Translation.phys_addr, Translation.CONFIG_MIPS64_VPN_SHIFT, addr_mask, page_mask, page_size.
  pose proof (bf_get_bounds Translation.f_phys_addr raw ltac:(bf_side)) as Hb.
  change (2 ^ bf_width Translation.f_phys_addr) with (2 ^ 24) in Hb.
  assert (exists k, 12 <= k <= 32 /\ page_shift size = k) as (k & Hk & ->).
  { unfold size_max, size_4g in Hs. exists (page_shift size). split; [|done].
    assert (size = 0 \/ size = 1 \/ size = 2 \/ size = 3 \/ size = 4 \/ size = 5 \/ size = 6 \/ size = 7) as H by lia.
    destruct H as [->|[->|[->|[->|[->|[->|[->| ->]]]]]]]; vm_compute; split; discriminate. }
  rewrite Z.shiftl_mul_pow2 by lia. rewrite !Z.shiftl_1_l, land_wnot_mask; [|unfold is_word; lia|lia].
  set (x := bf_get _ _ * 2 ^ 12) in *.
  assert (2 ^ k = 2 ^ (k - 12) * 2 ^ 12) as Ek by (rewrite <- Z.pow_add_r by lia; f_equal; lia).
  assert (0 < 2 ^ (k - 12)) by (apply Z.pow_pos_nonneg; lia).
  pose proof (Z.mod_pos_bound x (2 ^ k) ltac:(lia)). pose proof (Z.mod_le x (2 ^ k) ltac:(lia) ltac:(lia)).
  assert (x - x mod 2 ^ k = 2 ^ k * (x / 2 ^ k)) as E by (pose proof (Z.div_mod x (2 ^ k)); lia).
  split_and!; [lia|unfold x in *; lia| |].
  - rewrite E, Z.mul_comm. apply Z.mod_mul. lia.
  - rewrite E, Ek. replace (2 ^ (k - 12) * 2 ^ 12 * (x / (2 ^ (k - 12) * 2 ^ 12)))
      with (2 ^ (k - 12) * (x / (2 ^ (k - 12) * 2 ^ 12)) * 2 ^ 12) by lia. apply Z.mod_mul. lia.
Qed.

Section Share.
Context {fuel : nat} {inv : mdb_t -> (Z -> Z -> Prop) -> (Z -> Prop) -> Prop} `{HB : !BufferHeap fuel inv}.

(** C3 Mapping a page.  [this] has the page [fpg] of size [size] at [f_addr] and
    [t_space] has tables but no page at [t_addr]; [f] is the mapping database's
    node of the sender's page, with successors [l].  Then [map_fpage], without
    grant, puts a new node [b] in front of [l] as the first child of [f], and makes
    [t_addr] translate to the sender's page, with those rights that both the
    sender's entry and the send fpage allow.  The sender's entry stays as it is,
    and no word outside the allocator, the mappings and the new entry changes. *)
Theorem map_fpage_shares_page s live owned sigma0_space sigma0_mapnode this snd_fp base t_space rcv_fp size
    f_addr t_addr fpg tpg f l :
  map_range snd_fp base rcv_fp = (f_addr, t_addr, page_shift size) -> is_page_size_valid size = true ->
  is_sigma0_space sigma0_space this = false -> is_word t_addr -> t_addr mod page_size size = 0 ->
  is_user_area f_addr = true -> is_mappable this f_addr s = Ok (true, s) ->
  is_user_area t_addr = true -> is_mappable t_space t_addr s = Ok (true, s) ->
  way_ok (md_kmem s) this f_addr -> reaches (md_kmem s) this f_addr fpg size ->
  Pgent.is_valid size (lds s fpg) = true -> Pgent.is_subtree size (lds s fpg) = false ->
  way_ok (md_kmem s) t_space t_addr -> reaches (md_kmem s) t_space t_addr tpg size ->
  Pgent.is_valid size (lds s tpg) = false ->
  Pgent.mapnode (md_kmem s) fpg (addr_mask f_addr (wnot (page_mask size))) = f ->
  inv s live owned -> live f sizeof_mapnode_t ->
  (forall a, a ∈ l.*1 -> live a sizeof_mapnode_t) -> NoDup (f :: l.*1) ->
  next_map_is (nd s f) (hd NULL l.*1) -> chain s f l -> has_buffer sizeof_mapnode_t s ->
  is_word tpg -> tpg mod 2 = 0 -> is_word t_space -> t_space mod 2 ^ 11 = 0 ->
  entry_ok live owned fpg -> entry_ok live owned tpg ->
  (forall q, entry_word fpg q -> ~ entry_word tpg q) -> way_apart s live owned t_space t_addr size [tpg] ->
  (16 <= fuel)%nat ->
  exists b s1 s',
    map_fpage fuel sigma0_space sigma0_mapnode this snd_fp base t_space rcv_fp false s = Ok (tt, s') /\
    child_inserted inv s s1 live owned f l tpg t_space b /\
    (forall q, ~ entry_word tpg q -> lds s' q = lds s1 q) /\
    inv s' (fun c z => live c z \/ c = b /\ z = sizeof_mapnode_t)
      (fun p => owned p /\ ~ b <= p < b + sizeof_mapnode_t) /\
    translates (md_kmem s') t_space t_addr size tpg b /\
    Pgent.address size (lds s' tpg) = Pgent.address size (lds s fpg) /\
    Pgent.is_writable size (lds s' tpg)
      = (Pgent.is_readable size (lds s fpg) && is_read snd_fp) &&
        (Pgent.is_writable size (lds s fpg) && is_write snd_fp) /\
    Pgent.is_readable size (lds s' tpg) = Pgent.is_readable size (lds s fpg) && is_read snd_fp /\
    lds s' fpg = lds s fpg.
Proof.
  intros Hr Hhw Hns Hwt Hat Huf Hfm Hut Htm Hfw Hf Hfv Hfs Htw Ht Hti Hmap Hi Hlf Hl Hnd Hn Hch Hbuf
    Htp Htp2 Htsp Htsp2 Hfe Hte Hap Hway Hfuel.
  pose proof (reaches_size _ _ _ _ _ Hf) as Hsz.
  destruct (mdb_map_inserts_child s live owned f l fpg size f_addr tpg t_space) as (b & s1 & Em & Hc);
    [done..|].
  assert (forall q, foreign live owned q -> lds s1 q = lds s q) as Hw1.
  { intros q [Hno Hnl]. apply (ci_words _ _ _ _ _ _ _ _ _ Hc); [done|]. intros a Ha. now apply Hnl. }
  pose proof Hfe as (Hfn & _ & Hfw'). pose proof Hte as (Htn & Htl & Htw').
  set (raw := lds s fpg) in *.
  set (e := Pgent.set_entry_attrib size (Pgent.address size raw)
              (Pgent.is_readable size raw && is_read snd_fp) (Pgent.is_writable size raw && is_write snd_fp)
              (Pgent.is_executable size raw && is_execute snd_fp) false (Pgent.get_attributes size raw)).
  set (s' := sto (link_word tpg) (Z.lxor b t_addr) (sto tpg e s1)).
  destruct (address_bounds size raw Hsz) as (Hb & Hb1 & Hb2).
  assert (Hms : map_from_space fuel this snd_fp t_space false (last_place size f_addr t_addr fpg tpg ∅ ∅) 0 s
                = Ok (tt, s')).
  { unfold map_from_space, last_place. cbn [mp_fpg mp_f_size mp_t_size mp_f_addr mp_tpg mp_f_off mp_t_addr].
    rewrite bind_pg_get by done. rewrite Hmap, (bind_ok _ _ _ _ _ Em), bind_entry by done.
    unfold pg_upd. rewrite Hw1 by (split; [apply (Hfw' fpg)|apply (Hfw' fpg)]; now left). fold raw.
    assert (addr_offset (Pgent.address size raw) (w64 (0 + 0)) = Pgent.address size raw) as ->.
    { unfold addr_offset. change (w64 (0 + 0)) with 0. rewrite Z.add_0_r. apply wrap_small. lia. }
    fold e. rewrite bind_pg_do, bind_pg_do by done. done. }
  assert (Hs' : forall q, ~ entry_word tpg q -> lds s' q = lds s1 q).
  { intros q Hq. unfold entry_word in Hq. unfold s'. rewrite !lds_sto_ne; [done|naive_solver..]. }
  assert (He : lds s' tpg = e) by (unfold s'; now rewrite lds_sto_ne, lds_sto_eq).
  destruct (set_entry_roundtrip size (Pgent.address size raw) (Pgent.is_readable size raw && is_read snd_fp)
              (Pgent.is_writable size raw && is_write snd_fp) (Pgent.is_executable size raw && is_execute snd_fp)
              false (Pgent.get_attributes size raw)) as (E1 & E2 & E3 & E4 & _ & E6 & _);
    [done..|exact (bf_get_bounds Translation.f_memory_attrib raw ltac:(bf_side))|]. fold e in E1, E2, E3, E4, E6.
  exists b, s1, s'. rewrite He. split_and!; [ |exact Hc|exact Hs'| | |exact E3|exact E6|exact E4|].
  - now apply (map_fpage_run fuel sigma0_space sigma0_mapnode this snd_fp t_space false size s f_addr t_addr fpg tpg).
  - apply bh_write; [apply bh_write; [exact (ci_inv _ _ _ _ _ _ _ _ _ Hc)|]|]; intros [Ho _].
    + now apply (Htw' tpg ltac:(now left)).
    + now apply (Htw' (link_word tpg) ltac:(now right)).
  - split.
    + apply reaches_lookup; [|exact (eq_trans (f_equal _ He) E1)|exact (eq_trans (f_equal _ He) E2)].
      apply (reaches_frame (md_kmem s)); [done|]. intros pg' n Hr' Hn'.
      destruct (Hway pg' n Hr' Hn') as (Hfo & Hpgs).
      destruct (Hpgs tpg ltac:(left)) as [Hnl Htree].
      change (Pgent.raw_at (md_kmem s') pg') with (lds s' pg').
      destruct (decide (pg' = tpg)) as [->|Hne].
      * specialize (Htree eq_refl). rewrite He. unfold Pgent.subtree. rewrite Htree.
        destruct (set_entry_larger size n (Pgent.address size raw) (Pgent.is_readable size raw && is_read snd_fp)
          (Pgent.is_writable size raw && is_write snd_fp) (Pgent.is_executable size raw && is_execute snd_fp) false
          (Pgent.get_attributes size raw)) as [G1 G2]; [lia|lia|done|]. split_and!; done.
      * rewrite Hs', Hw1 by (done || (intros [?|?]; done)).
        destruct (reaches_leads _ _ _ _ _ _ _ Ht Hr' Hn'). done.
    + unfold Pgent.mapnode, Pgent.get_linknode. change (load (mem (md_kmem s')) _) with (lds s' (link_word tpg)).
      unfold s'. rewrite lds_sto_eq, page_mask_address by done. apply lxor_cancel.
  - rewrite Hs'; [|apply Hap; now left]. apply Hw1. split; [apply (Hfw' fpg)|apply (Hfw' fpg)]; now left.
Qed.
End Share.

(** ** One page is unmapped *)

Section UnmapRounds.
Variable fuel : nat.
Variable this : Z.
Variable fpage : fpage_t.
Variable unmap_all : bool.
Variable pgsize : Z.
Variable s : mdb_t.
Variable vaddr pg : Z.

Abbreviation LOOP := (unmap_loop fuel this fpage true unmap_all pgsize).

Hypothesis Hu : is_user_area vaddr = true.
Hypothesis Hw : way_ok (md_kmem s) this vaddr.
Hypothesis Hr : reaches (md_kmem s) this vaddr pg pgsize.
Hypothesis Hv : Pgent.is_valid pgsize (lds s pg) = true.
Hypothesis Hs : Pgent.is_subtree pgsize (lds s pg) = false.

Lemma unmap_walk d : forall n rwx stack size pg',
  Z.to_nat (size - pgsize) = d -> pgsize <= size <= size_max ->
  reaches (md_kmem s) this vaddr pg' size ->
  LOOP (d + n)%nat (Unmap pg' size 1 vaddr rwx stack) s = LOOP n (Unmap pg pgsize 1 vaddr rwx stack) s.
Proof.
  induction d as [|d IH]; intros n rwx stack size pg' Hd Hsz Hr'.
  - assert (size = pgsize) as -> by lia. now rewrite (reaches_unique _ _ _ _ _ _ Hr' Hr).
  - destruct (reaches_above _ _ _ _ _ size Hr Hsz) as (pg2 & Hr2 & Hgo).
    pose proof (reaches_unique _ _ _ _ _ _ Hr' Hr2) as <-. destruct Hgo as (Hv' & Hs' & Hdn); [lia|].
    change (S d + n)%nat with (S (d + n)). cbn [unmap_loop um_num]. change (1 =? 0) with false. cbn iota.
    assert (unmap_round fuel this fpage true unmap_all pgsize (Unmap pg' size 1 vaddr rwx stack) s
      = Ok (Some (Unmap (descend size vaddr pg' (lds s pg')) (size - 1) 1 vaddr rwx stack), s)) as Er.
    { unfold unmap_round. cbn [um_vaddr um_pg um_size um_num um_rwx um_stack]. rewrite Hu. cbn [negb].
      rewrite bind_entry by (now apply (Hw _ _ Hr')). change (lds s pg') with (Pgent.raw_at (md_kmem s) pg').
      rewrite Hv', Hs'. replace (size >? pgsize) with true by (symmetry; rewrite Z.gtb_ltb; apply Z.ltb_lt; lia).
      cbn [andb negb]. now rewrite bind_subtree_entry by (now apply (Hw _ _ Hr')). }
    rewrite (bind_ok _ _ _ _ _ Er). apply IH; [lia|lia|exact Hdn].
Qed.

Hypothesis Hm : is_mappable this vaddr s = Ok (true, s).

Lemma unmap_last n rwx stack bits s' :
  mdb_flush fuel (Pgent.mapnode (md_kmem s) pg (addr_mask vaddr (wnot (page_mask pgsize)))) pg pgsize vaddr pgsize
    fpage true s = Ok (bits, s') ->
  LOOP (S (S n)) (Unmap pg pgsize 1 vaddr rwx stack) s = Ok (Z.lor rwx bits, s').
Proof.
  intros Hfl. cbn [unmap_loop um_num]. change (1 =? 0) with false. cbn iota.
  pose proof (Hw _ _ Hr) as Hpg.
  assert (unmap_page fuel this fpage true unmap_all pgsize (Unmap pg pgsize 1 vaddr rwx stack) s
          = Ok (Z.lor rwx bits, s')) as Hp.
  { unfold unmap_page. cbn [um_vaddr um_pg um_size um_rwx].
    rewrite (bind_ok _ _ _ _ _ Hm), bind_pg_get by done. now rewrite (bind_ok _ _ _ _ _ Hfl). }
  assert (unmap_round fuel this fpage true unmap_all pgsize (Unmap pg pgsize 1 vaddr rwx stack) s
    = Ok (Some (Unmap (Pgent.next pgsize 1 pg) pgsize 0 (addr_offset vaddr (page_size pgsize)) (Z.lor rwx bits)
                  stack), s')) as Er.
  { unfold unmap_round. cbn [um_vaddr um_pg um_size um_num um_rwx um_stack]. rewrite Hu. cbn [negb].
    rewrite bind_entry by done. rewrite Hv, Hs, gtb_same. cbn [andb negb].
    rewrite (bind_ok _ _ _ _ _ Hp). unfold next_entry. cbn [unmap_up um_num um_size um_pg um_vaddr um_rwx um_stack].
    rewrite Z.ltb_irrefl, andb_false_r. done. }
  rewrite (bind_ok _ _ _ _ _ Er). done.
Qed.
End UnmapRounds.

Lemma valid_fpage size : is_page_size_valid size = true -> 0 <= size <= size_max ->
  fpage_pgsize (page_shift size) = size /\ page_shift 0 <= page_shift size <= page_shift (size_max + 1) /\
  hw_pgsize (mdb_pgsize size) = size.
Proof.
  intros Hv Hs. unfold size_max, size_4g in Hs.
  assert (size = 0 \/ size = 1 \/ size = 2 \/ size = 3 \/ size = 4 \/ size = 5 \/ size = 6 \/ size = 7) as H by lia.
  destruct H as [->|[->|[->|[->|[->|[->|[->| ->]]]]]]]; [..|discriminate];
    split; try reflexivity; split; try reflexivity; vm_compute; split; discriminate.
Qed.

(** a page is unmapped by one round *)
Lemma unmap_fpage_run fuel this fpage unmap_all size s vaddr pg bits s' :
  get_size_log2 fpage = page_shift size -> is_page_size_valid size = true -> address fpage (page_shift size) = vaddr ->
  is_user_area vaddr = true -> way_ok (md_kmem s) this vaddr -> reaches (md_kmem s) this vaddr pg size ->
  Pgent.is_valid size (lds s pg) = true -> Pgent.is_subtree size (lds s pg) = false ->
  is_mappable this vaddr s = Ok (true, s) -> (9 <= fuel)%nat ->
  mdb_flush fuel (Pgent.mapnode (md_kmem s) pg (addr_mask vaddr (wnot (page_mask size)))) pg size vaddr size
    fpage true s = Ok (bits, s') ->
  unmap_fpage fuel this fpage true unmap_all s = Ok (set_rwx bits fpage, s').
Proof.
  intros Hn Hhw <- Hu Hw Hr Hv Hs Hm Hfuel Hfl. pose proof (reaches_size _ _ _ _ _ Hr) as Hsz.
  destruct (valid_fpage size Hhw Hsz) as (Epg & Hle & _). unfold unmap_fpage. rewrite Hn.
  replace (page_shift size <? page_shift 0) with false by (symmetry; apply Z.ltb_ge; lia).
  replace (page_shift size >? page_shift (size_max + 1)) with false
    by (symmetry; rewrite Z.gtb_ltb; apply Z.ltb_ge; lia).
  rewrite Epg, Z.sub_diag. change (shl64 1 0) with 1.
  set (d := Z.to_nat (size_max - size)).
  assert (fuel = (d + S (S (fuel - 2 - d)))%nat) as Ef by (unfold d, size_max, size_4g in *; lia).
  rewrite Ef at 2. set (vaddr := address fpage (page_shift size)) in *. unfold bind.
  erewrite (unmap_walk fuel this fpage unmap_all size s vaddr pg Hu Hw Hr d); [|done|lia|constructor].
  now erewrite (unmap_last fuel this fpage unmap_all size s vaddr pg Hu Hw Hr Hv Hs Hm).
Qed.

(** *** Cleared entries *)

Lemma cleared_invalid size raw :
  Pgent.is_subtree size raw = false -> Pgent.is_valid size (cleared_word size raw) = false.
Proof.
  unfold Pgent.is_valid, Pgent.is_subtree, cleared_word. destruct (Pgent.is_tree_size size); [done|].
  intros Hs. cbn [orb]. destruct (size =? size_4p); [done|].
  assert (bf_get Pgent.map_pgsize (bf_set Pgent.tree_is_subtree 1 (bf_set Pgent.tree_is_valid 0 raw))
          = bf_get Pgent.map_pgsize raw) as -> by now bf_simpl.
  rewrite Hs, andb_false_r, orb_false_r. unfold bf_flag. now bf_simpl.
Qed.

(** from a larger size that shares its word, a cleared entry leads on or is
    no entry *)
Lemma cleared_leads size n raw : Pgent.is_tree_size n = false ->
  Pgent.is_valid n (cleared_word size raw) = true -> Pgent.is_subtree n (cleared_word size raw) = true.
Proof.
  intros Hn. unfold Pgent.is_valid, Pgent.is_subtree. rewrite Hn.
  assert (bf_flag Pgent.map_is_valid (cleared_word size raw) = false) as ->.
  { unfold cleared_word. destruct (_ || _); [done|]. unfold bf_flag. now bf_simpl. }
  cbn [orb]. intros H. now apply andb_prop in H as [_ ?].
Qed.

(** an entry that was cleared translates nothing any more *)
Lemma lookup_cleared s s' live owned size sp vaddr pg pgs :
  reaches (md_kmem s) sp vaddr pg size -> pg ∈ pgs -> Pgent.is_subtree size (lds s pg) = false ->
  (forall e, e ∈ pgs -> lds s' e = cleared_word size (lds s e)) ->
  (forall q, ~ owned q -> (forall a, live a sizeof_mapnode_t -> ~ a <= q < a + sizeof_mapnode_t) ->
     (forall e, e ∈ pgs -> ~ entry_word e q) -> lds s' q = lds s q) ->
  way_apart s live owned sp vaddr size pgs -> lookup_mapping sp vaddr (md_kmem s') = None.
Proof.
  intros Hr Hpg Hst Hcl Hw Hway. pose proof (reaches_size _ _ _ _ _ Hr) as Hsz.
  assert (forall d pg' n, Z.to_nat (n - size) = d -> size <= n -> reaches (md_kmem s) sp vaddr pg' n ->
    lookup_loop (Z.to_nat n) vaddr pg' (md_kmem s') = None) as H.
  2: { apply (H (Z.to_nat (size_max - size))); [done|lia|constructor]. }
  induction d as [|d IH]; intros pg' n Hd Hn Hr'.
  - assert (n = size) as -> by lia. rewrite (reaches_unique _ _ _ _ _ _ Hr' Hr).
    assert (Pgent.is_valid size (Pgent.raw_at (md_kmem s') pg) = false) as Hv.
    { change (Pgent.raw_at (md_kmem s') pg) with (lds s' pg). rewrite Hcl by done. now apply cleared_invalid. }
    destruct (Z.to_nat size) eqn:E; cbn [lookup_loop]; rewrite <- E, Z2Nat.id by lia; now rewrite Hv.
  - pose proof (reaches_size _ _ _ _ _ Hr') as Hn'.
    destruct (reaches_leads _ _ _ _ _ _ _ Hr Hr') as [Hv Hs]; [lia|].
    destruct (Hway pg' n Hr') as ([Hno Hnl] & Hpgs); [lia|].
    replace (Z.to_nat n) with (S (Z.to_nat (n - 1))) by lia. cbn [lookup_loop].
    rewrite Nat2Z.inj_succ, Z2Nat.id by lia. replace (Z.succ (n - 1)) with n by lia.
    change (Pgent.raw_at (md_kmem s') pg') with (lds s' pg').
    change (Pgent.raw_at (md_kmem s) pg') with (lds s pg') in Hv, Hs.
    assert (reaches (md_kmem s) sp vaddr (descend n vaddr pg' (lds s pg')) (n - 1)) as Hdn by (constructor; [done|lia|done..]).
    destruct (decide (pg' ∈ pgs)) as [Hin|Hout].
    + destruct (Hpgs pg' Hin) as [_ Htree]. specialize (Htree eq_refl). rewrite (Hcl pg' Hin).
      destruct (Pgent.is_valid n (cleared_word size (lds s pg'))) eqn:E; [|done].
      rewrite (cleared_leads _ _ _ Htree E).
      replace (descend n vaddr pg' (cleared_word size (lds s pg'))) with (descend n vaddr pg' (lds s pg'))
        by (unfold descend, Pgent.subtree; now rewrite Htree).
      apply IH; [lia|lia|done].
    + rewrite Hw, Hv, Hs; [apply IH; [lia|lia|done]|done|intros a Ha; now apply Hnl|].
      intros e He [->| ->]; [done|]. now destruct (Hpgs e He).
Qed.

(** what is looked up is reached *)
Lemma lookup_loop_inv k sp vaddr n pg' pg size :
  reaches k sp vaddr pg' (Z.of_nat n) -> lookup_loop n vaddr pg' k = Some (pg, size) ->
  reaches k sp vaddr pg size /\ Pgent.is_valid size (Pgent.raw_at k pg) = true /\
  Pgent.is_subtree size (Pgent.raw_at k pg) = false.
Proof.
  revert pg'. induction n as [|n IH]; intros pg' Hr H; cbn [lookup_loop] in H;
    (destruct (Pgent.is_valid (Z.of_nat _) _) eqn:Ev in H; [|discriminate H]);
    destruct (Pgent.is_subtree (Z.of_nat _) _) eqn:Es in H;
    try discriminate H; try (injection H as <- <-; split_and!; [exact Hr|exact Ev|exact Es]).
  apply (IH _ ltac:(replace (Z.of_nat n) with (Z.of_nat (S n) - 1) by lia; exact (reaches_down _ _ _ _ _ Hr ltac:(lia) Ev Es)) H).
Qed.

Lemma lookup_inv k sp vaddr pg size : lookup_mapping sp vaddr k = Some (pg, size) ->
  reaches k sp vaddr pg size /\ Pgent.is_valid size (Pgent.raw_at k pg) = true /\
  Pgent.is_subtree size (Pgent.raw_at k pg) = false.
Proof. apply (lookup_loop_inv _ _ _ (Z.to_nat size_max)). constructor. Qed.

(** from a larger size a cleared 4 KB entry leads on where it did *)
Lemma cleared_keeps_leading n raw : Pgent.is_tree_size n = false -> Pgent.is_subtree n raw = true ->
  Pgent.is_valid n (cleared_word size_4k raw) = true /\ Pgent.is_subtree n (cleared_word size_4k raw) = true.
Proof.
  intros Hn. unfold Pgent.is_valid, Pgent.is_subtree. rewrite Hn. intros Hs.
  unfold cleared_word. change (Pgent.is_tree_size size_4k || (size_4k =? size_4p)) with false. cbv iota.
  assert (bf_get Pgent.map_pgsize (bf_set Pgent.tree_is_subtree 1 (bf_set Pgent.tree_is_valid 0 raw))
          = bf_get Pgent.map_pgsize raw) as -> by now bf_simpl.
  rewrite Hs. split; [|done]. rewrite andb_true_r.
  assert (bf_flag Pgent.map_is_subtree (bf_set Pgent.tree_is_subtree 1 (bf_set Pgent.tree_is_valid 0 raw)) = true) as ->.
  { unfold bf_flag. change Pgent.map_is_subtree with Pgent.tree_is_subtree. now bf_simpl. }
  apply orb_true_r.
Qed.

(** the removal of 4 KB entries keeps the others *)
Lemma lookup_survives s s' live owned sp vaddr pg pgs :
  lookup_mapping sp vaddr (md_kmem s) = Some (pg, size_4k) -> pg ∉ pgs ->
  (forall e, e ∈ pgs -> lds s' e = cleared_word size_4k (lds s e)) ->
  (forall q, ~ owned q -> (forall a, live a sizeof_mapnode_t -> ~ a <= q < a + sizeof_mapnode_t) ->
     (forall e, e ∈ pgs -> ~ entry_word e q) -> lds s' q = lds s q) ->
  way_apart s live owned sp vaddr (-1) pgs ->
  lookup_mapping sp vaddr (md_kmem s') = Some (pg, size_4k) /\ lds s' pg = lds s pg.
Proof.
  intros Hl Hpg Hcl Hw Hway. apply lookup_inv in Hl as (Hr & Hv & Hs).
  assert (forall pg' n, reaches (md_kmem s) sp vaddr pg' n -> pg' ∉ pgs -> lds s' pg' = lds s pg') as Hsame.
  { intros pg' n Hr' Hin. pose proof (reaches_size _ _ _ _ _ Hr').
    destruct (Hway pg' n Hr') as ([Hno Hnl] & Hpgs); [lia|].
    apply Hw; [done|intros a Ha; now apply Hnl|]. intros e He [->| ->]; [done|]. now destruct (Hpgs e He). }
  pose proof (Hsame _ _ Hr Hpg) as E. split; [|exact E].
  change (Pgent.raw_at (md_kmem s) pg) with (lds s pg) in Hv, Hs. rewrite <- E in Hv, Hs.
  apply reaches_lookup; [|exact Hv|exact Hs].
  apply (reaches_frame (md_kmem s)); [exact Hr|]. intros pg' n Hr' Hn.
  destruct (reaches_leads _ _ _ _ _ _ _ Hr Hr' Hn) as [Hv' Hs'].
  change (Pgent.raw_at (md_kmem s') pg') with (lds s' pg').
  change (Pgent.raw_at (md_kmem s) pg') with (lds s pg') in *.
  destruct (decide (pg' ∈ pgs)) as [Hin|Hout]; [|rewrite (Hsame _ _ Hr' Hout); done].
  destruct (Hway pg' n Hr') as [_ Hpgs]; [unfold size_4k in Hn; lia|]. destruct (Hpgs pg' Hin) as [_ Ht].
  specialize (Ht eq_refl). rewrite (Hcl _ Hin).
  destruct (cleared_keeps_leading n (lds s pg') Ht Hs') as [-> ->]. split_and!; [done..|].
  unfold Pgent.subtree. now rewrite Ht.
Qed.

Section Revoke.
Context {fuel : nat} {inv : mdb_t -> (Z -> Z -> Prop) -> (Z -> Prop) -> Prop} `{HB : !BufferHeap fuel inv}.

(** Unmapping a page with all rights.  [this] has the page [pg] of size [size] at
    the fpage's address; its node [f] in the mapping database is followed, in
    depth-first order, by the deeper mappings [sub] and by [rest], and no mapping of
    [sub] has smaller pages.  Then [unmap_fpage] with flush removes exactly [f] and
    [sub] from the database, and afterwards no address that one of their page table
    entries translated, in whichever space, is translated any more.  The fpage is
    returned with the reference bits of all of them added. *)
Theorem unmap_fpage_revokes_page s live owned this fpage unmap_all size vaddr p f pg sub rest :
  get_size_log2 fpage = page_shift size -> is_page_size_valid size = true -> address fpage (page_shift size) = vaddr ->
  is_rwx fpage = true -> is_user_area vaddr = true -> is_mappable this vaddr s = Ok (true, s) ->
  way_ok (md_kmem s) this vaddr -> reaches (md_kmem s) this vaddr pg size ->
  Pgent.is_valid size (lds s pg) = true -> Pgent.is_subtree size (lds s pg) = false ->
  Pgent.mapnode (md_kmem s) pg (addr_mask vaddr (wnot (page_mask size))) = f ->
  inv s live owned -> live p sizeof_mapnode_t ->
  (forall a, a ∈ f :: (sub ++ rest).*1 -> live a sizeof_mapnode_t) -> NoDup (p :: f :: (sub ++ rest).*1) ->
  next_map_is (nd s p) f -> chain s p ((f, pg) :: sub ++ rest) ->
  (forall e, e ∈ ((f, pg) :: sub).*2 -> entry_ok live owned e) -> entries_apart ((f, pg) :: sub).*2 ->
  (forall a, a ∈ sub.*1 -> Mapnode.get_depth (nd s f) < Mapnode.get_depth (nd s a)) ->
  (forall a, hd_error rest.*1 = Some a -> Mapnode.get_depth (nd s a) <= Mapnode.get_depth (nd s f)) ->
  (9 <= fuel)%nat -> (length sub < fuel)%nat ->
  let rwx := Z.lor (Mapnode.get_rwx (nd s f)) (Pgent.reference_bits size (lds s pg)) in
  exists s',
    unmap_fpage fuel this fpage true unmap_all s
    = Ok (set_rwx (all_bits s size rwx ((f, pg) :: sub).*2) fpage, s') /\
    all_removed (inv := inv) s s' live owned size p ((f, pg) :: sub) rest /\
    forall sp va e, e ∈ ((f, pg) :: sub).*2 -> reaches (md_kmem s) sp va e size ->
      Pgent.is_subtree size (lds s e) = false ->
      way_apart s live owned sp va size ((f, pg) :: sub).*2 ->
      lookup_mapping sp va (md_kmem s') = None.
Proof.
  intros Hn Hhw Hva Hrwx Hu Hm Hw Hr Hv Hs Hmap Hi Hp Hl Hnd Hnx Hch Hok Hap Hdeep Hend Hfuel Hfuel' rwx.
  pose proof (reaches_size _ _ _ _ _ Hr) as Hsz. destruct (valid_fpage size Hhw Hsz) as (_ & _ & Ehw).
  destruct (mdb_flush_removes_subtree s live owned p f pg sub rest size vaddr fpage) as (s' & E & Har); [done..|].
  rewrite Ehw in E, Har. exists s'. split_and!; [|exact Har|].
  - apply (unmap_fpage_run _ _ _ _ size s vaddr pg); [done..|]. rewrite Hmap. exact E.
  - intros sp va e He Hre Hse Hway. apply (lookup_cleared s s' live owned size sp va e ((f, pg) :: sub).*2); [done..| | |done].
    + intros e' He'. now destruct (ar_cleared _ _ _ _ _ _ _ _ Har e' He').
    + exact (ar_words _ _ _ _ _ _ _ _ Har).
Qed.
End Revoke.

(** ** An example *)

(** the entries of a way, from the top *)
Fixpoint way (k : kmem_t) (sp vaddr : Z) (d : nat) : Z :=
  match d with
  | O => pgent sp (page_table_index size_max vaddr)
  | S d => let pg := way k sp vaddr d in descend (size_max - Z.of_nat d) vaddr pg (Pgent.raw_at k pg)
  end.

Lemma reaches_way k sp vaddr pg size :
  reaches k sp vaddr pg size -> pg = way k sp vaddr (Z.to_nat (size_max - size)).
Proof.
  induction 1 as [|pg size H IH Hpos Hv Hs]; [done|]. pose proof (reaches_size _ _ _ _ _ H).
  replace (Z.to_nat (size_max - (size - 1))) with (S (Z.to_nat (size_max - size))) by lia. cbn [way].
  rewrite <- IH, Z2Nat.id by lia. f_equal. lia.
Qed.

(** two spaces with tables for the address 2^32; the first has a page there,
    whose node is the leaf at 8120 *)
Definition tree_entry (table size : Z) : Z :=
  bf_set Pgent.tree_pgsize (size - 1) (bf_set Pgent.tree_is_subtree 1 (bf_set Pgent.tree_subtree table 0)).
Definition kseg (p : Z) : Z := Layout.AS_KSEG_START + p.
Definition example_tables (sp a b : Z) (s : mdb_t) : mdb_t :=
  sto (sp + 8) (tree_entry (kseg a) 7) (sto (kseg a) (tree_entry (kseg b) 5) s).
Definition two_spaces : mdb_t :=
  sto (kseg 0x60000) (bf_set Pgent.map_is_subtree 1 0)
    (example_tables 0x20000 0x50000 0x60000
      (sto (link_word (kseg 0x40000)) (Z.lxor 8120 (2 ^ 32))
        (sto (kseg 0x40000) (Pgent.set_entry 0 0x7000 true true true false)
          (example_tables 0x10000 0x30000 0x40000 example_leaf)))).

Lemma pools_inv_fuel n m s live owned : (n <= m)%nat -> pools_inv n s live owned -> pools_inv m s live owned.
Proof.
  intros Hnm (pages & order & l & H1 & H2 & H3 & H4 & H5). exists pages, order, l. split_and!; [done..|lia|lia].
Qed.

Lemma two_spaces_inv : pools_inv 20 two_spaces example_live example_owned.
Proof.
  apply (pools_inv_fuel 10); [lia|]. unfold two_spaces, example_tables.
  repeat (apply bh_write; [|apply example_foreign; vm_compute; discriminate]).
  exact example_leaf_inv.
Qed.

Lemma two_spaces_leaf : nd two_spaces 8120 = leaf.
Proof.
  transitivity (nd example_leaf 8120); [|apply nd_nset_eq, leaf_fields].
  apply nd_words. intros q Hq. unfold sizeof_mapnode_t in Hq. unfold two_spaces, example_tables.
  rewrite !lds_sto_ne; [done|intros E; rewrite <- E in Hq; vm_compute in Hq; destruct Hq as [_ H]; discriminate..].
Qed.

Lemma way_reaches k sp vaddr n : (n <= 7)%nat ->
  forallb (fun d => let raw := Pgent.raw_at k (way k sp vaddr d) in
                    Pgent.is_valid (size_max - Z.of_nat d) raw && Pgent.is_subtree (size_max - Z.of_nat d) raw)
    (seq 0 n) = true ->
  reaches k sp vaddr (way k sp vaddr n) (size_max - Z.of_nat n).
Proof.
  induction n as [|n IH]; intros Hn Hall; [rewrite Z.sub_0_r; constructor|].
  rewrite seq_S, forallb_app in Hall. apply andb_prop in Hall as [H1 H2].
  rewrite Nat.add_0_l in H2. cbn [forallb] in H2.
  apply andb_prop in H2 as [H2 _]. apply andb_prop in H2 as [Hv Hs].
  replace (size_max - Z.of_nat (S n)) with (size_max - Z.of_nat n - 1) by lia.
  cbn [way]. constructor; [apply IH; [lia|done]|unfold size_max, size_4g; lia|done|done].
Qed.

Lemma two_spaces_reach :
  reaches (md_kmem two_spaces) 0x10000 (2 ^ 32) (kseg 0x40000) 0 /\
  reaches (md_kmem two_spaces) 0x20000 (2 ^ 32) (kseg 0x60000) 0.
Proof.
  split.
  - replace (kseg 0x40000) with (way (md_kmem two_spaces) 0x10000 (2 ^ 32) 7) by (vm_compute; reflexivity).
    apply (way_reaches _ _ _ 7); [lia|vm_compute; reflexivity].
  - replace (kseg 0x60000) with (way (md_kmem two_spaces) 0x20000 (2 ^ 32) 7) by (vm_compute; reflexivity).
    apply (way_reaches _ _ _ 7); [lia|vm_compute; reflexivity].
Qed.

(** the conditions on the entries of a way, computed *)
Definition way_check (k : kmem_t) (sp vaddr : Z) (pgs : list Z) : bool :=
  forallb (fun d =>
    let pg' := way k sp vaddr d in
    (8192 <=? pg') &&
    forallb (fun pg => negb (pg' =? link_word pg) && (negb (pg' =? pg) || (size_max - Z.of_nat d <? 5))) pgs)
    (seq 0 8).

Lemma way_check_ok k sp vaddr pgs pg' n : way_check k sp vaddr pgs = true -> reaches k sp vaddr pg' n ->
  8192 <= pg' /\ forall pg, pg ∈ pgs -> pg' <> link_word pg /\ (pg' = pg -> n < 5).
Proof.
  intros Hc Hr. pose proof (reaches_size _ _ _ _ _ Hr) as Hn. unfold size_max, size_4g in Hn.
  unfold way_check in Hc. rewrite forallb_forall in Hc. specialize (Hc (Z.to_nat (size_max - n))).
  rewrite <- (reaches_way _ _ _ _ _ Hr), Z2Nat.id in Hc by (unfold size_max, size_4g; lia).
  cbv zeta in Hc. replace (size_max - (size_max - n)) with n in Hc by lia.
  apply andb_prop in Hc as [H1 H2]; [|apply in_seq; unfold size_max, size_4g; lia].
  apply Z.leb_le in H1. split; [done|]. intros pg Hpg. rewrite forallb_forall in H2.
  apply list_elem_of_In in Hpg. apply H2 in Hpg as [H3 H4]%andb_prop. apply negb_true_iff, Z.eqb_neq in H3.
  split; [done|]. intros ->. rewrite Z.eqb_refl in H4. now apply Z.ltb_lt.
Qed.

Lemma way_check_way_ok k sp vaddr pgs : way_check k sp vaddr pgs = true -> way_ok k sp vaddr.
Proof. intros Hc pg n Hr. destruct (way_check_ok _ _ _ _ _ _ Hc Hr). unfold NULL. lia. Qed.

Lemma way_check_apart s sp vaddr pgs : way_check (md_kmem s) sp vaddr pgs = true ->
  way_apart s example_live example_owned sp vaddr 0 pgs.
Proof.
  intros Hc pg' n Hr Hn. destruct (way_check_ok _ _ _ _ _ _ Hc Hr) as [H1 H2].
  split; [now apply example_foreign|]. intros pg Hpg. destruct (H2 pg Hpg) as [H3 H4]. split; [done|].
  intros E. specialize (H4 E). assert (n = 1 \/ n = 2 \/ n = 3 \/ n = 4) as [->|[->|[->| ->]]] by lia; reflexivity.
Qed.

Lemma map_fpage_shares_page_witness :
  exists b s', map_fpage 20 0x8000 0x9000 0x10000 (fpage_set (2 ^ 32) 12 true false false) 0 0x20000
                 (fpage_set (2 ^ 32) 12 true true true) false two_spaces = Ok (tt, s') /\
    translates (md_kmem s') 0x20000 (2 ^ 32) 0 (kseg 0x60000) b /\
    Pgent.address 0 (lds s' (kseg 0x60000)) = 0x7000 /\ Pgent.is_writable 0 (lds s' (kseg 0x60000)) = false.
Proof.
  destruct (map_fpage_shares_page (fuel := 20) (inv := pools_inv 20) two_spaces example_live example_owned
    0x8000 0x9000 0x10000 (fpage_set (2 ^ 32) 12 true false false) 0 0x20000 (fpage_set (2 ^ 32) 12 true true true) 0
    (2 ^ 32) (2 ^ 32) (kseg 0x40000) (kseg 0x60000) 8120 []) as (b & s1 & s' & E & _ & _ & _ & Ht & Ha & Hw & _).
  - vm_compute. reflexivity.
  - reflexivity.
  - reflexivity.
  - unfold is_word. lia.
  - reflexivity.
  - reflexivity.
  - vm_compute. reflexivity.
  - reflexivity.
  - vm_compute. reflexivity.
  - apply (way_check_way_ok _ _ _ []). vm_compute. reflexivity.
  - apply two_spaces_reach.
  - vm_compute. reflexivity.
  - vm_compute. reflexivity.
  - apply (way_check_way_ok _ _ _ []). vm_compute. reflexivity.
  - apply two_spaces_reach.
  - vm_compute. reflexivity.
  - vm_compute. reflexivity.
  - exact two_spaces_inv.
  - apply (example_live_at 2). lia.
  - intros a Ha. now apply elem_of_nil in Ha.
  - apply NoDup_singleton.
  - rewrite two_spaces_leaf. repeat split.
  - exact I.
  - split; [reflexivity|]. exists 0%nat, (BufList 24 4096 169). repeat split. discriminate.
  - vm_compute. split; [discriminate|reflexivity].
  - reflexivity.
  - unfold is_word. lia.
  - reflexivity.
  - apply example_entry_ok; [discriminate|reflexivity].
  - apply example_entry_ok; [discriminate|reflexivity].
  - intros q [->| ->] [E|E]; vm_compute in E; discriminate.
  - apply way_check_apart. vm_compute. reflexivity.
  - lia.
  - exists b, s'. split_and!; [exact E|exact Ht|exact (eq_trans Ha ltac:(vm_compute; reflexivity))|].
    rewrite Hw. vm_compute. reflexivity.
Defined.

(** the page at 2^32 of the first space, mapped on to the second: the nodes at
    8096 and 8072, behind the node at 8120 *)
Definition page_node (sp depth prev pg next : Z) : Mapnode.mapnode_t :=
  Mapnode.set_space sp (example_node depth prev pg next).
Definition shared_nodes : mdb_t :=
  nset 8072 (page_node 0x20000 2 8096 (kseg 0x60000) NULL)
    (nset 8096 (page_node 0x10000 1 8120 (kseg 0x40000) 8072) (nset 8120 (example_node 0 NULL NULL 8096) example_pools)).
Definition with_page (pg map : Z) (s : mdb_t) : mdb_t :=
  sto (link_word pg) (Z.lxor map (2 ^ 32)) (sto pg (Pgent.set_entry 0 0x7000 true true true false) s).
Definition shared_page : mdb_t :=
  with_page (kseg 0x60000) 8072 (with_page (kseg 0x40000) 8096
    (example_tables 0x20000 0x50000 0x60000 (example_tables 0x10000 0x30000 0x40000 shared_nodes))).

Lemma page_node_fields sp d p q n : Mapnode.in_fields (page_node sp d p q n).
Proof. unfold page_node. apply set_in_fields, example_node_fields. Qed.

Lemma shared_page_inv : pools_inv 20 shared_page example_live example_owned.
Proof.
  apply (pools_inv_fuel 10); [lia|]. unfold shared_page, with_page, example_tables.
  repeat (apply bh_write; [|apply example_foreign; vm_compute; discriminate]).
  assert (forall k s n, 2 <= k < 169 -> Mapnode.in_fields n -> pools_inv 10 s example_live example_owned ->
    pools_inv 10 (nset (8192 - 24 * (k + 1)) n s) example_live example_owned) as H.
  { intros k s n Hk Hn Hi. refine (w_inv _ _ _ _ (wrote_nset s _ n Hn) 10 _ _ _ _ Hi _). now apply example_live_at. }
  apply (H 4); [lia|apply page_node_fields|]. apply (H 3); [lia|apply page_node_fields|].
  apply (H 2); [lia|apply example_node_fields|]. exact example_inv.
Qed.

Lemma shared_page_nodes :
  nd shared_page 8120 = example_node 0 NULL NULL 8096 /\
  nd shared_page 8096 = page_node 0x10000 1 8120 (kseg 0x40000) 8072 /\
  nd shared_page 8072 = page_node 0x20000 2 8096 (kseg 0x60000) NULL.
Proof.
  assert (forall q, q < 8192 - 24 -> nd shared_page q = nd shared_nodes q) as H0.
  { intros q Hq. apply nd_words. intros x Hx. unfold sizeof_mapnode_t in Hx.
    unfold shared_page, with_page, example_tables.
    rewrite !lds_sto_ne; [done|intros E; assert (8192 <= x) by (rewrite <- E; vm_compute; discriminate); lia..]. }
  assert (forall p n q s, p + 24 <= q \/ q + 24 <= p -> nd (nset p n s) q = nd s q) as H.
  { intros p n q s Hpq. apply nd_words. intros x Hx. apply lds_nset. unfold sizeof_mapnode_t in *. lia. }
  rewrite !H0 by lia. unfold shared_nodes. split_and!.
  - rewrite !H by lia. apply nd_nset_eq, example_node_fields.
  - rewrite H by lia. apply nd_nset_eq, page_node_fields.
  - apply nd_nset_eq, page_node_fields.
Qed.

Lemma shared_page_reach :
  reaches (md_kmem shared_page) 0x10000 (2 ^ 32) (kseg 0x40000) 0 /\
  reaches (md_kmem shared_page) 0x20000 (2 ^ 32) (kseg 0x60000) 0.
Proof.
  split.
  - replace (kseg 0x40000) with (way (md_kmem shared_page) 0x10000 (2 ^ 32) 7) by (vm_compute; reflexivity).
    apply (way_reaches _ _ _ 7); [lia|vm_compute; reflexivity].
  - replace (kseg 0x60000) with (way (md_kmem shared_page) 0x20000 (2 ^ 32) 7) by (vm_compute; reflexivity).
    apply (way_reaches _ _ _ 7); [lia|vm_compute; reflexivity].
Qed.

Lemma unmap_fpage_revokes_page_witness :
  lookup_mapping 0x20000 (2 ^ 32) (md_kmem shared_page) = Some (kseg 0x60000, 0) /\
  exists f s', unmap_fpage 20 0x10000 (fpage_set (2 ^ 32) 12 true true true) true false shared_page = Ok (f, s') /\
    lookup_mapping 0x10000 (2 ^ 32) (md_kmem s') = None /\ lookup_mapping 0x20000 (2 ^ 32) (md_kmem s') = None /\
    length (md_flushes s') = 2%nat.
Proof.
  split; [vm_compute; reflexivity|].
  destruct shared_page_nodes as (N0 & N1 & N2). destruct shared_page_reach as [R1 R2].
  destruct (unmap_fpage_revokes_page (fuel := 20) (inv := pools_inv 20) shared_page example_live example_owned
    0x10000 (fpage_set (2 ^ 32) 12 true true true) false 0 (2 ^ 32) 8120 8096 (kseg 0x40000)
    [(8072, kseg 0x60000)] []) as (s' & E & Har & Hnone).
  - vm_compute. reflexivity.
  - reflexivity.
  - vm_compute. reflexivity.
  - reflexivity.
  - reflexivity.
  - vm_compute. reflexivity.
  - apply (way_check_way_ok _ _ _ []). vm_compute. reflexivity.
  - exact R1.
  - vm_compute. reflexivity.
  - vm_compute. reflexivity.
  - vm_compute. reflexivity.
  - exact shared_page_inv.
  - apply (example_live_at 2). lia.
  - simpl. intros a [->|[->|[]%elem_of_nil]%elem_of_cons]%elem_of_cons.
    + apply (example_live_at 3). lia.
    + apply (example_live_at 4). lia.
  - apply (bool_decide_unpack _). vm_compute. exact I.
  - rewrite N0. repeat split.
  - cbn [chain app]. rewrite N1, N2. repeat split.
  - simpl. intros e [->|[->|[]%elem_of_nil]%elem_of_cons]%elem_of_cons; apply example_entry_ok; vm_compute; congruence.
  - cbn [entries_apart fmap list_fmap snd]. split; [|split; [|exact I]].
    + intros pg q ->%list_elem_of_singleton [->| ->] [E|E]; vm_compute in E; discriminate.
    + intros pg q []%elem_of_nil.
  - simpl. intros a ->%list_elem_of_singleton. rewrite N1, N2. reflexivity.
  - simpl. intros a [=].
  - lia.
  - simpl. lia.
  - eexists _, s'. split_and!; [exact E| | |].
    + apply (Hnone _ _ (kseg 0x40000)); [left|exact R1|vm_compute; reflexivity|].
      apply way_check_apart. vm_compute. reflexivity.
    + apply (Hnone _ _ (kseg 0x60000)); [right; left|exact R2|vm_compute; reflexivity|].
      apply way_check_apart. vm_compute. reflexivity.
    + rewrite (ar_flushes _ _ _ _ _ _ _ _ Har). reflexivity.
Defined.
