(* ===== verification/Asid.v ===== *)
(** * Address space identifiers

    [asid.h]: the cache of hardware address space ids, without the LRU list
    ([CONFIG_PREEMPT_ASIDS] is off, so [move_asid] is empty).  An [asid_t] is
    known by its address; the cache hands out numbers from a free list that is
    threaded through the array of slots. *)

From Stdlib Require Import ZArith Lia Bool List.
From stdpp Require Import base numbers list option gmap.
From S2P Require Import Prelude Types Monad.
Open Scope Z_scope.

(** ** Operations *)

Definition CONFIG_MAX_NUM_ASIDS : Z := 256.
Definition invalid : Z := -1.

(** [asid_link_t]: the owner ([UNUSABLE], [NULL] or the address of an
    [asid_t]) and the links *)
Record asid_link := AsidLink { al_asid : Z; al_prev : Z; al_next : Z }.
Definition UNUSABLE : Z := w64 (-1).

(** [asid_cache_t], and the [asid_t] objects by address *)
Record asid_cache := AsidCache {
  ac_asids : gmap Z asid_link; ac_first_free : Z; ac_lru_head : Z; ac_objects : gmap Z Z
}.

Definition slot (c : asid_cache) (i : Z) : asid_link :=
  default (AsidLink UNUSABLE (-1) (-1)) (ac_asids c !! i).
(** [asids[i]] with [i] outside the array is outside the model *)
Definition in_range (i : Z) : bool := (0 <=? i) && (i <? CONFIG_MAX_NUM_ASIDS).
Definition set_slot (i : Z) (l : asid_link) (c : asid_cache) : asid_cache :=
  AsidCache (<[i := l]> (ac_asids c)) (ac_first_free c) (ac_lru_head c) (ac_objects c).
Definition set_first_free (i : Z) (c : asid_cache) : asid_cache :=
  AsidCache (ac_asids c) i (ac_lru_head c) (ac_objects c).

(** [asid_t::asid] *)
Definition value (a : Z) (c : asid_cache) : Z := default invalid (ac_objects c !! a).
Definition set_value (a v : Z) (c : asid_cache) : asid_cache :=
  AsidCache (ac_asids c) (ac_first_free c) (ac_lru_head c) (<[a := v]> (ac_objects c)).
Definition is_valid (a : Z) (c : asid_cache) : bool := negb (value a c =? invalid).
Definition asid_init (a : Z) (c : asid_cache) : asid_cache := set_value a invalid c.

Definition cache_init (c : asid_cache) : asid_cache :=
  foldr (fun i c => set_slot (Z.of_nat i) (AsidLink UNUSABLE (-1) (-1)) c)
    (AsidCache (ac_asids c) (-1) (-1) (ac_objects c))
    (seq 0 (Z.to_nat CONFIG_MAX_NUM_ASIDS)).

(** [hw_asid_t * prev]: the address of [first_free] or of a slot's [next] *)
Inductive link := Free_head | Next_of (i : Z).
Definition store_link (l : link) (v : Z) (c : asid_cache) : asid_cache :=
  match l with
  | Free_head => set_first_free v c
  | Next_of i => set_slot i (AsidLink (al_asid (slot c i)) (al_prev (slot c i)) v) c
  end.

(** the loop of [set_valid] over [n] slots from [idx]; it returns [prev] *)
Fixpoint set_valid_loop (n : nat) (idx : Z) (prev : link) (c : asid_cache)
    : result (link * asid_cache) :=
  match n with
  | O => Ok (prev, c)
  | S n =>
      if negb (in_range idx) then Crash else
      if negb (al_asid (slot c idx) =? UNUSABLE) then set_valid_loop n (idx + 1) prev c
      else
        let c := store_link prev idx c in
        let c := set_slot idx (AsidLink NULL (al_prev (slot c idx)) (al_next (slot c idx))) c in
        set_valid_loop n (idx + 1) (Next_of idx) c
  end.

Definition set_valid (start fin : Z) (c : asid_cache) : result asid_cache :=
  match set_valid_loop (Z.to_nat (fin - start + 1)) start Free_head c with
  | Ok (prev, c') => Ok (store_link prev (ac_first_free c) c')
  | Hang => Hang
  | Crash => Crash
  end.

(** [move_asid] is empty *)
Definition move_asid (idx : Z) (remove insert : bool) (c : asid_cache) : asid_cache := c.

Definition allocate (a : Z) (c : asid_cache) : result (Z * asid_cache) :=
  if ac_first_free c =? -1 then Hang else
  let idx := ac_first_free c in
  if negb (in_range idx) then Crash else
  let c := set_first_free (al_next (slot c idx)) c in
  let c := move_asid idx false true c in
  let c := set_slot idx (AsidLink a (al_prev (slot c idx)) (al_next (slot c idx))) c in
  Ok (idx, c).

Definition cache_release (a : Z) (c : asid_cache) : result asid_cache :=
  if negb (is_valid a c) then Ok c else
  let idx := value a c in
  if negb (in_range idx) then Crash else
  let c := move_asid idx true false c in
  let c := set_slot idx (AsidLink NULL (al_prev (slot c idx)) (ac_first_free c)) c in
  Ok (set_first_free idx c).

Definition reference (a : Z) (c : asid_cache) : asid_cache := move_asid (value a c) true true c.

(** [asid_t::get] and [asid_t::release] *)
Definition get (a : Z) (c : asid_cache) : result (Z * asid_cache) :=
  if negb (is_valid a c) then
    match allocate a c with
    | Ok (v, c) => Ok (v, set_value a v c)
    | Hang => Hang
    | Crash => Crash
    end
  else
    let c := reference a c in Ok (value a c, c).

Definition release (a : Z) (c : asid_cache) : result asid_cache :=
  match cache_release a c with
  | Ok c => Ok (set_value a invalid c)
  | Hang => Hang
  | Crash => Crash
  end.

(** ** The invariant *)

(** the free list from [h] is [l] *)
Fixpoint chain (c : asid_cache) (h : Z) (l : list Z) : Prop :=
  match l with
  | [] => h = -1
  | x :: l => h = x /\ in_range x = true /\ chain c (al_next (slot c x)) l
  end.

(** [l] is the free list; the number of every valid [asid_t] is a slot that
    names it as its owner *)
Definition asid_ok (c : asid_cache) (l : list Z) : Prop :=
  chain c (ac_first_free c) l /\ NoDup l /\
  (forall x, x ∈ l -> al_asid (slot c x) = NULL) /\
  (forall a, is_valid a c = true ->
     a <> NULL /\ in_range (value a c) = true /\ al_asid (slot c (value a c)) = a).

Lemma slot_set_slot i j l c : slot (set_slot i l c) j = if decide (i = j) then l else slot c j.
Proof. unfold slot, set_slot. simpl. rewrite lookup_insert. now case_decide. Qed.

Lemma slot_set_slot_eq i l c : slot (set_slot i l c) i = l.
Proof. rewrite slot_set_slot. now case_decide. Qed.

Lemma slot_set_slot_ne i j l c : i <> j -> slot (set_slot i l c) j = slot c j.
Proof. intros. rewrite slot_set_slot. now case_decide. Qed.

Lemma value_set_value a b v c : value a (set_value b v c) = if decide (b = a) then v else value a c.
Proof. unfold value, set_value. simpl. rewrite lookup_insert. now case_decide. Qed.

Lemma value_set_value_eq a v c : value a (set_value a v c) = v.
Proof. rewrite value_set_value. now case_decide. Qed.

Lemma value_set_value_ne a b v c : b <> a -> value a (set_value b v c) = value a c.
Proof. intros. rewrite value_set_value. now case_decide. Qed.

Lemma chain_frame c c' h l :
  (forall x, x ∈ l -> al_next (slot c' x) = al_next (slot c x)) -> chain c h l -> chain c' h l.
Proof.
  revert h. induction l as [|x l IH]; intros h Hf; simpl; [done|].
  intros (-> & Hr & Hc). split_and!; [done|done|]. rewrite Hf by left. apply IH; [|done].
  intros y Hy. apply Hf. now right.
Qed.

Lemma in_range_valid x : in_range x = true -> x <> invalid.
Proof. unfold in_range, invalid. lia. Qed.

Lemma is_valid_value a c : is_valid a c = true <-> value a c <> invalid.
Proof. unfold is_valid. rewrite negb_true_iff. apply Z.eqb_neq. Qed.

(** two valid objects never share a number *)
Lemma asid_ok_injective c l a b :
  asid_ok c l -> is_valid a c = true -> value a c = value b c -> a = b.
Proof.
  intros (_ & _ & _ & Ho) Ha E.
  assert (is_valid b c = true) as Hb by (unfold is_valid in *; now rewrite <- E).
  destruct (Ho a Ha) as (_ & _ & H1). destruct (Ho b Hb) as (_ & _ & H2). congruence.
Qed.

(** a free slot is nobody's number *)
Lemma asid_ok_free c l a x : asid_ok c l -> x ∈ l -> is_valid a c = true -> value a c <> x.
Proof.
  intros (_ & _ & Hf & Ho) Hx Ha E. destruct (Ho a Ha) as (Hn & _ & H). rewrite E, Hf in H; done.
Qed.

(** ** The properties *)

(** a valid object keeps its number *)
Lemma get_valid a c : is_valid a c = true -> get a c = Ok (value a c, c).
Proof. intros Ev. unfold get. now rewrite Ev. Qed.

(** an object without number gets the first free one *)
Lemma get_fresh a c v l :
  asid_ok c (v :: l) -> a <> NULL -> is_valid a c = false ->
  exists c', get a c = Ok (v, c') /\ asid_ok c' l /\ value a c' = v /\
    (forall b, b <> a -> value b c' = value b c /\ value b c' <> v).
Proof.
  intros Hok Ha Ev. unfold get. rewrite Ev. cbn [negb].
  pose proof Hok as (Hc & Hnd & Hf & Ho). unfold allocate. simpl in Hc.
  destruct Hc as (Hv & Hr & Hc). rewrite Hv.
  pose proof (in_range_valid v Hr) as Hne. unfold invalid in Hne.
  destruct (Z.eqb_spec v (-1)); [done|]. rewrite Hr. simpl.
  change (slot (set_first_free _ c)) with (slot c). unfold move_asid.
  apply NoDup_cons in Hnd as [Hvl Hnd].
  eexists. split; [reflexivity|].
  set (c' := set_value a v _).
  assert (Hslot : forall x, slot c' x = if decide (v = x) then AsidLink a (al_prev (slot c v)) (al_next (slot c v)) else slot c x).
  { intros x. etransitivity; [apply slot_set_slot|done]. }
  assert (Hval : forall b, b <> a -> value b c' = value b c).
  { intros b Hb. unfold c'. rewrite value_set_value_ne by congruence. done. }
  assert (Hva : value a c' = v) by apply value_set_value_eq.
  assert (Hother : forall b, b <> a -> is_valid b c = true -> value b c <> v).
  { intros b _ Hb. apply (asid_ok_free c (v :: l)); [done|left|done]. }
  split_and!; [split_and!| |].
  - apply (chain_frame c); [|done]. intros x Hx. rewrite Hslot. case_decide; [now subst|done].
  - done.
  - intros x Hx. rewrite Hslot. case_decide; [now subst|]. apply Hf. now right.
  - intros b Hb. destruct (decide (b = a)) as [->|Hba].
    + rewrite Hva. split_and!; [done|done|].
      rewrite Hslot. now case_decide.
    + assert (is_valid b c = true) as Hb'.
      { apply is_valid_value. rewrite <- (Hval b Hba). now apply is_valid_value. }
      rewrite Hval by done. destruct (Ho b Hb') as (H1 & H2 & H3). split_and!; [done|done|].
      rewrite Hslot. case_decide; [|done]. now destruct (Hother b Hba Hb').
  - apply value_set_value_eq.
  - intros b Hb. split; [auto|]. rewrite Hval by done.
    destruct (is_valid b c) eqn:Eb; [now apply Hother|].
    intros E. unfold is_valid in Eb. rewrite E in Eb. apply negb_false_iff, Z.eqb_eq in Eb.
    now apply (in_range_valid v).
Qed.

(** C20 Unique address space numbers: [get] on a valid object returns its number
    and changes nothing; on an object without one it takes the first free
    number, which belongs to no other object, and records it; other objects
    keep theirs.  Only an empty free list stops the kernel.  The cache stays
    well-formed. *)
Theorem asid_get_spec a c l :
  asid_ok c l -> a <> NULL ->
  if is_valid a c then get a c = Ok (value a c, c)
  else
    match l with
    | [] => get a c = Hang
    | v :: l' => exists c', get a c = Ok (v, c') /\ asid_ok c' l' /\ value a c' = v /\
        (forall b, b <> a -> value b c' = value b c /\ value b c' <> v)
    end.
Proof.
  intros Hok Ha. destruct (is_valid a c) eqn:Ev; [now apply get_valid|].
  destruct l as [|v l]; [|now apply get_fresh].
  unfold get, allocate. rewrite Ev. destruct Hok as [Hc _]. simpl in Hc. now rewrite Hc.
Qed.

(** the cache after [init] and [set_valid 1 3] *)
Definition example_cache : asid_cache :=
  match set_valid 1 3 (AsidCache ∅ (-1) (-1) ∅) with Ok c => c | _ => AsidCache ∅ 0 0 ∅ end.

Lemma example_cache_ok : asid_ok example_cache [1; 2; 3].
Proof.
  split_and!.
  - vm_compute. tauto.
  - apply (bool_decide_unpack _). vm_compute. done.
  - intros x. rewrite !elem_of_cons. intros [->|[->|[->|H]]]; [done..|now apply elem_of_nil in H].
  - intros a Ha. exfalso. revert Ha. unfold is_valid, value.
    assert (ac_objects example_cache = ∅) as -> by (vm_compute; reflexivity).
    now rewrite lookup_empty.
Qed.

Lemma asid_get_spec_witness :
  exists c', get 77 example_cache = Ok (1, c') /\ asid_ok c' [2; 3] /\ value 77 c' = 1.
Proof.
  destruct (asid_get_spec 77 example_cache [1; 2; 3] example_cache_ok ltac:(discriminate))
    as (c' & E & Hok & Hv & _).
  exists c'. split_and!; [exact E|exact Hok|exact Hv].
Defined.

(** Release of address space numbers: a released object has no number, its
    slot is the next one to be handed out, no other object changes, and the
    cache stays well-formed; releasing an object without a number changes
    nothing but its (already invalid) number. *)
Theorem asid_release_spec a c l :
  asid_ok c l ->
  exists c', release a c = Ok c' /\ is_valid a c' = false /\
    (forall b, b <> a -> value b c' = value b c) /\
    asid_ok c' (if is_valid a c then value a c :: l else l).
Proof.
  intros Hok. pose proof Hok as (Hc & Hnd & Hf & Ho). unfold release, cache_release.
  assert (Hinv : forall c, is_valid a (set_value a invalid c) = false).
  { intros c0. unfold is_valid. now rewrite value_set_value_eq. }
  destruct (is_valid a c) eqn:Ev; simpl.
  - destruct (Ho a Ev) as (Ha & Hr & Hs). rewrite Hr. simpl. unfold move_asid.
    eexists. split; [reflexivity|]. split; [apply Hinv|].
    set (v := value a c) in *. set (c' := set_value a invalid _).
    assert (Hslot : forall x, slot c' x = if decide (v = x) then AsidLink NULL (al_prev (slot c v)) (ac_first_free c) else slot c x).
    { intros x. etransitivity; [apply slot_set_slot|done]. }
    assert (Hval : forall b, b <> a -> value b c' = value b c).
    { intros b Hb. unfold c'. rewrite value_set_value_ne by congruence. done. }
    assert (Hvl : v ∉ l).
    { intros Hv. now apply (asid_ok_free c l a v). }
    split; [exact Hval|]. split_and!.
    + cbn [chain]. split_and!; [done|done|]. rewrite Hslot. case_decide; [|done]. simpl.
      apply (chain_frame c); [|done]. intros x Hx. rewrite Hslot.
      rewrite decide_False; [done|]. intros E. apply Hvl. now rewrite E.
    + now constructor.
    + intros x Hx. rewrite Hslot. case_decide; [done|]. apply Hf.
      apply elem_of_cons in Hx as [->|Hx]; [done|done].
    + intros b Hb. destruct (decide (b = a)) as [->|Hba]; [exfalso; subst c'; congruence|].
      assert (is_valid b c = true) as Hb'.
      { apply is_valid_value. rewrite <- (Hval b Hba). now apply is_valid_value. }
      rewrite Hval by done. destruct (Ho b Hb') as (H1 & H2 & H3). split_and!; [done|done|].
      rewrite Hslot. case_decide as E; [|done]. exfalso. apply Hba. symmetry.
      now apply (asid_ok_injective c l).
  - eexists. split; [reflexivity|]. split; [apply Hinv|]. split.
    + intros b Hb. now apply value_set_value_ne.
    + split_and!; [now apply (chain_frame c)|done|exact Hf|]. intros b Hb.
      destruct (decide (b = a)) as [->|Hba]; [rewrite Hinv in Hb; done|].
      assert (value b (set_value a invalid c) = value b c) as E by now apply value_set_value_ne.
      rewrite is_valid_value, E in Hb. rewrite E. apply Ho. now apply is_valid_value.
Qed.

Lemma asid_release_spec_witness :
  exists c', release 77 example_cache = Ok c' /\ asid_ok c' [1; 2; 3].
Proof.
  destruct (asid_release_spec 77 example_cache [1; 2; 3] example_cache_ok) as (c' & E & _ & _ & Hok).
  exists c'. split; [exact E|exact Hok].
Defined.
