(* ===== verification/Tcb.v ===== *)
(** * The kernel's state and its thread control blocks

    The control blocks of [api/v4/tcb.h] and [glue/v4-mips64/tcb.h], the UTCBs
    of [glue/v4-mips64/utcb.h], the kernel's global variables, and the accessor
    methods of [tcb_t], each a computation in the state-and-outcome monad. *)

From Stdlib Require Import ZArith Lia Bool List.
From stdpp Require Import base numbers list option gmap.
From S2P Require Import Pgent Cache.
From S2P Require Import Prelude Types Time Kip ThreadId Fpage State Msg Ring Monad.
Open Scope Z_scope.

(** ** The data *)

(** the functions a stack frame can return into *)
Inductive kfunc :=
| mips64_restore_user | thread_return | thread_startup | handle_ipc_error_fn
| handle_ipc_timeout_fn | irq_thread_fn | idle_thread | init_all_threads | finalize_cpu_init_fn | tunnel_pagefault_fn.

#[export] Instance kfunc_eq_dec : EqDecision kfunc.
Proof. solve_decision. Defined.

(** A frame pushed by [notify]: [s8] holds the function, [s0] and [s1] its
    arguments, [ra] the stub for that number of arguments. *)
Record frame := Frame { fr_func : kfunc; fr_args : list Z }.


(** [mips64_irq_context_t], the user registers saved at the top of the kernel
    stack, in the order of the structure. *)
Record irq_context := IrqContext {
  ic_epc : Z; ic_sp : Z; ic_status : Z; ic_ra : Z; ic_v0 : Z; ic_v1 : Z; ic_a1 : Z; ic_cause : Z;
  ic_a2 : Z; ic_a3 : Z; ic_t9 : Z; ic_a0 : Z; ic_gp : Z; ic_at : Z; ic_t0 : Z; ic_t1 : Z; ic_hi : Z;
  ic_t2 : Z; ic_t3 : Z; ic_lo : Z; ic_t4 : Z; ic_t5 : Z; ic_t6 : Z; ic_t7 : Z; ic_t8 : Z; ic_s0 : Z;
  ic_s1 : Z; ic_s2 : Z; ic_s3 : Z; ic_s4 : Z; ic_s5 : Z; ic_s6 : Z; ic_s7 : Z; ic_s8 : Z; ic_x1 : Z;
  ic_x2 : Z;
}.

Definition irq_context_eta (r : irq_context) : irq_context :=
  IrqContext (ic_epc r) (ic_sp r) (ic_status r) (ic_ra r) (ic_v0 r) (ic_v1 r) (ic_a1 r) (ic_cause r) (ic_a2 r)
    (ic_a3 r) (ic_t9 r) (ic_a0 r) (ic_gp r) (ic_at r) (ic_t0 r) (ic_t1 r) (ic_hi r) (ic_t2 r) (ic_t3 r)
    (ic_lo r) (ic_t4 r) (ic_t5 r) (ic_t6 r) (ic_t7 r) (ic_t8 r) (ic_s0 r) (ic_s1 r) (ic_s2 r) (ic_s3 r)
    (ic_s4 r) (ic_s5 r) (ic_s6 r) (ic_s7 r) (ic_s8 r) (ic_x1 r) (ic_x2 r).

Definition ic_with_epc (v : Z) (r : irq_context) : irq_context := ltac:(with_field ic_epc v r irq_context_eta).
Definition ic_with_sp (v : Z) (r : irq_context) : irq_context := ltac:(with_field ic_sp v r irq_context_eta).
Definition ic_with_status (v : Z) (r : irq_context) : irq_context := ltac:(with_field ic_status v r irq_context_eta).
Definition ic_with_ra (v : Z) (r : irq_context) : irq_context := ltac:(with_field ic_ra v r irq_context_eta).
Definition ic_with_v0 (v : Z) (r : irq_context) : irq_context := ltac:(with_field ic_v0 v r irq_context_eta).
Definition ic_with_v1 (v : Z) (r : irq_context) : irq_context := ltac:(with_field ic_v1 v r irq_context_eta).
Definition ic_with_a1 (v : Z) (r : irq_context) : irq_context := ltac:(with_field ic_a1 v r irq_context_eta).
Definition ic_with_cause (v : Z) (r : irq_context) : irq_context := ltac:(with_field ic_cause v r irq_context_eta).
Definition ic_with_a2 (v : Z) (r : irq_context) : irq_context := ltac:(with_field ic_a2 v r irq_context_eta).
Definition ic_with_a3 (v : Z) (r : irq_context) : irq_context := ltac:(with_field ic_a3 v r irq_context_eta).
Definition ic_with_t9 (v : Z) (r : irq_context) : irq_context := ltac:(with_field ic_t9 v r irq_context_eta).
Definition ic_with_a0 (v : Z) (r : irq_context) : irq_context := ltac:(with_field ic_a0 v r irq_context_eta).
Definition ic_with_gp (v : Z) (r : irq_context) : irq_context := ltac:(with_field ic_gp v r irq_context_eta).
Definition ic_with_at (v : Z) (r : irq_context) : irq_context := ltac:(with_field ic_at v r irq_context_eta).
Definition ic_with_t0 (v : Z) (r : irq_context) : irq_context := ltac:(with_field ic_t0 v r irq_context_eta).
Definition ic_with_t1 (v : Z) (r : irq_context) : irq_context := ltac:(with_field ic_t1 v r irq_context_eta).
Definition ic_with_hi (v : Z) (r : irq_context) : irq_context := ltac:(with_field ic_hi v r irq_context_eta).
Definition ic_with_t2 (v : Z) (r : irq_context) : irq_context := ltac:(with_field ic_t2 v r irq_context_eta).
Definition ic_with_t3 (v : Z) (r : irq_context) : irq_context := ltac:(with_field ic_t3 v r irq_context_eta).
Definition ic_with_lo (v : Z) (r : irq_context) : irq_context := ltac:(with_field ic_lo v r irq_context_eta).
Definition ic_with_t4 (v : Z) (r : irq_context) : irq_context := ltac:(with_field ic_t4 v r irq_context_eta).
Definition ic_with_t5 (v : Z) (r : irq_context) : irq_context := ltac:(with_field ic_t5 v r irq_context_eta).
Definition ic_with_t6 (v : Z) (r : irq_context) : irq_context := ltac:(with_field ic_t6 v r irq_context_eta).
Definition ic_with_t7 (v : Z) (r : irq_context) : irq_context := ltac:(with_field ic_t7 v r irq_context_eta).
Definition ic_with_t8 (v : Z) (r : irq_context) : irq_context := ltac:(with_field ic_t8 v r irq_context_eta).
Definition ic_with_s0 (v : Z) (r : irq_context) : irq_context := ltac:(with_field ic_s0 v r irq_context_eta).
Definition ic_with_s1 (v : Z) (r : irq_context) : irq_context := ltac:(with_field ic_s1 v r irq_context_eta).
Definition ic_with_s2 (v : Z) (r : irq_context) : irq_context := ltac:(with_field ic_s2 v r irq_context_eta).
Definition ic_with_s3 (v : Z) (r : irq_context) : irq_context := ltac:(with_field ic_s3 v r irq_context_eta).
Definition ic_with_s4 (v : Z) (r : irq_context) : irq_context := ltac:(with_field ic_s4 v r irq_context_eta).
Definition ic_with_s5 (v : Z) (r : irq_context) : irq_context := ltac:(with_field ic_s5 v r irq_context_eta).
Definition ic_with_s6 (v : Z) (r : irq_context) : irq_context := ltac:(with_field ic_s6 v r irq_context_eta).
Definition ic_with_s7 (v : Z) (r : irq_context) : irq_context := ltac:(with_field ic_s7 v r irq_context_eta).
Definition ic_with_s8 (v : Z) (r : irq_context) : irq_context := ltac:(with_field ic_s8 v r irq_context_eta).
Definition ic_with_x1 (v : Z) (r : irq_context) : irq_context := ltac:(with_field ic_x1 v r irq_context_eta).
Definition ic_with_x2 (v : Z) (r : irq_context) : irq_context := ltac:(with_field ic_x2 v r irq_context_eta).

(** [misc_tcb_t], nine words shared by the two views of the union *)
Record misc_tcb := MiscTcb {
  misc_w0 : Z;
  misc_w1 : Z;
  misc_w2 : Z;
  misc_w3 : Z;
  misc_w4 : Z;
  misc_w5 : Z;
  misc_w6 : Z;
  misc_w7 : Z;
  misc_w8 : Z;
}.

Definition misc_tcb_eta (r : misc_tcb) : misc_tcb :=
  MiscTcb (misc_w0 r) (misc_w1 r) (misc_w2 r) (misc_w3 r) (misc_w4 r) (misc_w5 r) (misc_w6 r) (misc_w7 r) (misc_w8 r).

Definition misc_with_w0 (v : Z) (r : misc_tcb) : misc_tcb := ltac:(with_field misc_w0 v r misc_tcb_eta).
Definition misc_with_w1 (v : Z) (r : misc_tcb) : misc_tcb := ltac:(with_field misc_w1 v r misc_tcb_eta).
Definition misc_with_w2 (v : Z) (r : misc_tcb) : misc_tcb := ltac:(with_field misc_w2 v r misc_tcb_eta).
Definition misc_with_w3 (v : Z) (r : misc_tcb) : misc_tcb := ltac:(with_field misc_w3 v r misc_tcb_eta).
Definition misc_with_w4 (v : Z) (r : misc_tcb) : misc_tcb := ltac:(with_field misc_w4 v r misc_tcb_eta).
Definition misc_with_w5 (v : Z) (r : misc_tcb) : misc_tcb := ltac:(with_field misc_w5 v r misc_tcb_eta).
Definition misc_with_w6 (v : Z) (r : misc_tcb) : misc_tcb := ltac:(with_field misc_w6 v r misc_tcb_eta).
Definition misc_with_w7 (v : Z) (r : misc_tcb) : misc_tcb := ltac:(with_field misc_w7 v r misc_tcb_eta).
Definition misc_with_w8 (v : Z) (r : misc_tcb) : misc_tcb := ltac:(with_field misc_w8 v r misc_tcb_eta).

(** [utcb_t] of [glue/v4-mips64/utcb.h] *)
Record utcb := Utcb {
  utcb_my_global_id : Z;
  utcb_processor_no : Z;
  utcb_user_defined_handle : Z;
  utcb_pager : Z;
  utcb_exception_handler : Z;
  utcb_preempt_flags : Z;
  utcb_cop_flags : Z;
  utcb_xfer_timeout : Z;
  utcb_error_code : Z;
  utcb_intended_receiver : Z;
  utcb_virtual_sender : Z;
  utcb_words : gmap Z Z;  (** the words from offset 128 on: [mr], then [br], then padding *)
}.

Definition utcb_eta (r : utcb) : utcb :=
  Utcb (utcb_my_global_id r) (utcb_processor_no r) (utcb_user_defined_handle r) (utcb_pager r) (utcb_exception_handler r) (utcb_preempt_flags r) (utcb_cop_flags r) (utcb_xfer_timeout r) (utcb_error_code r) (utcb_intended_receiver r) (utcb_virtual_sender r) (utcb_words r).

Definition utcb_with_my_global_id (v : Z) (r : utcb) : utcb := ltac:(with_field utcb_my_global_id v r utcb_eta).
Definition utcb_with_processor_no (v : Z) (r : utcb) : utcb := ltac:(with_field utcb_processor_no v r utcb_eta).
Definition utcb_with_user_defined_handle (v : Z) (r : utcb) : utcb := ltac:(with_field utcb_user_defined_handle v r utcb_eta).
Definition utcb_with_pager (v : Z) (r : utcb) : utcb := ltac:(with_field utcb_pager v r utcb_eta).
Definition utcb_with_exception_handler (v : Z) (r : utcb) : utcb := ltac:(with_field utcb_exception_handler v r utcb_eta).
Definition utcb_with_preempt_flags (v : Z) (r : utcb) : utcb := ltac:(with_field utcb_preempt_flags v r utcb_eta).
Definition utcb_with_cop_flags (v : Z) (r : utcb) : utcb := ltac:(with_field utcb_cop_flags v r utcb_eta).
Definition utcb_with_xfer_timeout (v : Z) (r : utcb) : utcb := ltac:(with_field utcb_xfer_timeout v r utcb_eta).
Definition utcb_with_error_code (v : Z) (r : utcb) : utcb := ltac:(with_field utcb_error_code v r utcb_eta).
Definition utcb_with_intended_receiver (v : Z) (r : utcb) : utcb := ltac:(with_field utcb_intended_receiver v r utcb_eta).
Definition utcb_with_virtual_sender (v : Z) (r : utcb) : utcb := ltac:(with_field utcb_virtual_sender v r utcb_eta).
Definition utcb_with_words (v : gmap Z Z) (r : utcb) : utcb := ltac:(with_field utcb_words v r utcb_eta).

(** [tcb_t] of [api/v4/tcb.h] *)
Record tcb := Tcb {
  tcb_myself_global : Z;
  tcb_myself_local : Z;
  tcb_cpu : Z;
  tcb_utcb : Z;  (** kernel address, or [NULL] *)
  tcb_thread_state : Z;
  tcb_partner : Z;
  tcb_resource_bits : Z;
  tcb_stack : list frame;  (** frames above the exception context *)
  tcb_context : irq_context;  (** the exception context at the top of the stack *)
  tcb_queue_state : Z;
  tcb_ready_list : ringlist;
  tcb_wait_list : ringlist;
  tcb_send_list : ringlist;
  tcb_send_head : Z;
  tcb_total_quantum : Z;
  tcb_timeslice_length : Z;
  tcb_current_timeslice : Z;  (** [s64_t] *)
  tcb_absolute_timeout : Z;
  tcb_priority : Z;  (** [prio_t], an [int] *)
  tcb_sensitive_prio : Z;
  tcb_current_max_delay : Z;  (** [u16_t] *)
  tcb_max_delay : Z;  (** [u16_t] *)
  tcb_scheduler : Z;
  tcb_space : Z;  (** address of the space, or [NULL] *)
  tcb_flags : Z;
  tcb_int_mask : Z;  (** [arch.int_mask] *)
  tcb_misc : misc_tcb;
  tcb_saved_partner : Z;
  tcb_saved_state : Z;
  tcb_fpu_fpcsr : Z;  (** [resources.fpu_fpcsr] *)
  tcb_fpu_gprs : list Z;  (** [resources.fpu_gprs] *)
}.

Definition tcb_eta (r : tcb) : tcb :=
  Tcb (tcb_myself_global r) (tcb_myself_local r) (tcb_cpu r) (tcb_utcb r) (tcb_thread_state r) (tcb_partner r) (tcb_resource_bits r) (tcb_stack r) (tcb_context r) (tcb_queue_state r) (tcb_ready_list r) (tcb_wait_list r) (tcb_send_list r) (tcb_send_head r) (tcb_total_quantum r) (tcb_timeslice_length r) (tcb_current_timeslice r) (tcb_absolute_timeout r) (tcb_priority r) (tcb_sensitive_prio r) (tcb_current_max_delay r) (tcb_max_delay r) (tcb_scheduler r) (tcb_space r) (tcb_flags r) (tcb_int_mask r) (tcb_misc r) (tcb_saved_partner r) (tcb_saved_state r) (tcb_fpu_fpcsr r) (tcb_fpu_gprs r).

Definition tcb_with_myself_global (v : Z) (r : tcb) : tcb := ltac:(with_field tcb_myself_global v r tcb_eta).
Definition tcb_with_myself_local (v : Z) (r : tcb) : tcb := ltac:(with_field tcb_myself_local v r tcb_eta).
Definition tcb_with_cpu (v : Z) (r : tcb) : tcb := ltac:(with_field tcb_cpu v r tcb_eta).
Definition tcb_with_utcb (v : Z) (r : tcb) : tcb := ltac:(with_field tcb_utcb v r tcb_eta).
Definition tcb_with_thread_state (v : Z) (r : tcb) : tcb := ltac:(with_field tcb_thread_state v r tcb_eta).
Definition tcb_with_partner (v : Z) (r : tcb) : tcb := ltac:(with_field tcb_partner v r tcb_eta).
Definition tcb_with_resource_bits (v : Z) (r : tcb) : tcb := ltac:(with_field tcb_resource_bits v r tcb_eta).
Definition tcb_with_stack (v : list frame) (r : tcb) : tcb := ltac:(with_field tcb_stack v r tcb_eta).
Definition tcb_with_context (v : irq_context) (r : tcb) : tcb := ltac:(with_field tcb_context v r tcb_eta).
Definition tcb_with_queue_state (v : Z) (r : tcb) : tcb := ltac:(with_field tcb_queue_state v r tcb_eta).
Definition tcb_with_ready_list (v : ringlist) (r : tcb) : tcb := ltac:(with_field tcb_ready_list v r tcb_eta).
Definition tcb_with_wait_list (v : ringlist) (r : tcb) : tcb := ltac:(with_field tcb_wait_list v r tcb_eta).
Definition tcb_with_send_list (v : ringlist) (r : tcb) : tcb := ltac:(with_field tcb_send_list v r tcb_eta).
Definition tcb_with_send_head (v : Z) (r : tcb) : tcb := ltac:(with_field tcb_send_head v r tcb_eta).
Definition tcb_with_total_quantum (v : Z) (r : tcb) : tcb := ltac:(with_field tcb_total_quantum v r tcb_eta).
Definition tcb_with_timeslice_length (v : Z) (r : tcb) : tcb := ltac:(with_field tcb_timeslice_length v r tcb_eta).
Definition tcb_with_current_timeslice (v : Z) (r : tcb) : tcb := ltac:(with_field tcb_current_timeslice v r tcb_eta).
Definition tcb_with_absolute_timeout (v : Z) (r : tcb) : tcb := ltac:(with_field tcb_absolute_timeout v r tcb_eta).
Definition tcb_with_priority (v : Z) (r : tcb) : tcb := ltac:(with_field tcb_priority v r tcb_eta).
Definition tcb_with_sensitive_prio (v : Z) (r : tcb) : tcb := ltac:(with_field tcb_sensitive_prio v r tcb_eta).
Definition tcb_with_current_max_delay (v : Z) (r : tcb) : tcb := ltac:(with_field tcb_current_max_delay v r tcb_eta).
Definition tcb_with_max_delay (v : Z) (r : tcb) : tcb := ltac:(with_field tcb_max_delay v r tcb_eta).
Definition tcb_with_scheduler (v : Z) (r : tcb) : tcb := ltac:(with_field tcb_scheduler v r tcb_eta).
Definition tcb_with_space (v : Z) (r : tcb) : tcb := ltac:(with_field tcb_space v r tcb_eta).
Definition tcb_with_flags (v : Z) (r : tcb) : tcb := ltac:(with_field tcb_flags v r tcb_eta).
Definition tcb_with_int_mask (v : Z) (r : tcb) : tcb := ltac:(with_field tcb_int_mask v r tcb_eta).
Definition tcb_with_misc (v : misc_tcb) (r : tcb) : tcb := ltac:(with_field tcb_misc v r tcb_eta).
Definition tcb_with_saved_partner (v : Z) (r : tcb) : tcb := ltac:(with_field tcb_saved_partner v r tcb_eta).
Definition tcb_with_saved_state (v : Z) (r : tcb) : tcb := ltac:(with_field tcb_saved_state v r tcb_eta).
Definition tcb_with_fpu_fpcsr (v : Z) (r : tcb) : tcb := ltac:(with_field tcb_fpu_fpcsr v r tcb_eta).
Definition tcb_with_fpu_gprs (v : list Z) (r : tcb) : tcb := ltac:(with_field tcb_fpu_gprs v r tcb_eta).

(** the members of [space_t] that follow its page directory *)
Record space := Space {
  sp_kip_area : Z;
  sp_utcb_area : Z;
  sp_thread_count : Z;
  sp_asid : Z;
}.

Definition space_eta (r : space) : space :=
  Space (sp_kip_area r) (sp_utcb_area r) (sp_thread_count r) (sp_asid r).

Definition sp_with_kip_area (v : Z) (r : space) : space := ltac:(with_field sp_kip_area v r space_eta).
Definition sp_with_utcb_area (v : Z) (r : space) : space := ltac:(with_field sp_utcb_area v r space_eta).
Definition sp_with_thread_count (v : Z) (r : space) : space := ltac:(with_field sp_thread_count v r space_eta).
Definition sp_with_asid (v : Z) (r : space) : space := ltac:(with_field sp_asid v r space_eta).

(** [prio_queue_t] of [api/v4/schedule.h] *)
Record prio_queue := PrioQueue {
  pq_max_prio : Z;
  pq_queue : gmap Z Z;  (** [prio_queue[MAX_PRIO + 1]] *)
  pq_current_timeslice : Z;  (** [s64_t] *)
}.

Definition prio_queue_eta (r : prio_queue) : prio_queue :=
  PrioQueue (pq_max_prio r) (pq_queue r) (pq_current_timeslice r).

Definition pq_with_max_prio (v : Z) (r : prio_queue) : prio_queue := ltac:(with_field pq_max_prio v r prio_queue_eta).
Definition pq_with_queue (v : gmap Z Z) (r : prio_queue) : prio_queue := ltac:(with_field pq_queue v r prio_queue_eta).
Definition pq_with_current_timeslice (v : Z) (r : prio_queue) : prio_queue := ltac:(with_field pq_current_timeslice v r prio_queue_eta).

(** what the entries of the tables of [glue/v4-mips64/intctrl.cc] point to:
    the entries of [traps.S], and the interrupt handlers *)
Inductive exception_vector :=
| ev_none | ev_exception | ev_interrupt | ev_tlb_mod | ev_stlb_miss | ev_l4syscall.
Inductive interrupt_vector := iv_none | iv_spurious | iv_handle_irq | iv_timer.

(** Registers of the processor, and the variables of its drivers. *)
Record cpu_t := Cpu {
  cpu_fpr : list Z;  (** the floating-point registers *)
  cpu_fcr31 : Z;  (** the floating-point control and status register *)
  cpu_tlb : gmap Z Translation.tlb_entry;  (** the translation buffer *)
  cpu_entryhi : Z;  (** coprocessor 0: EntryHi *)
  cpu_random : Z;  (** Random: the slot the next [tlbwr] takes *)
  cpu_badvaddr : Z;  (** BadVAddr *)
  cpu_count : Z;  (** Count *)
  cpu_compare : Z;  (** Compare *)
  cpu_timer_compare : Z;  (** [timer.compare] *)
  cpu_llval_address : Z;  (** [llval.address] of [exception.cc] *)
  cpu_llval_space : Z;  (** [llval.space] *)
  cpu_cache_ops : list cache_op;  (** the cache instructions done so far *)
  cpu_exception_handlers : list exception_vector;  (** [exception_handlers] of [intctrl.cc] *)
  cpu_interrupt_handlers : list interrupt_vector;  (** [interrupt_handlers] *)
}.

Definition cpu_eta (r : cpu_t) : cpu_t :=
  Cpu (cpu_fpr r) (cpu_fcr31 r) (cpu_tlb r) (cpu_entryhi r) (cpu_random r) (cpu_badvaddr r) (cpu_count r)
      (cpu_compare r) (cpu_timer_compare r) (cpu_llval_address r) (cpu_llval_space r) (cpu_cache_ops r)
      (cpu_exception_handlers r) (cpu_interrupt_handlers r).

Definition cpu_with_fpr (v : list Z) (r : cpu_t) : cpu_t := ltac:(with_field cpu_fpr v r cpu_eta).
Definition cpu_with_fcr31 (v : Z) (r : cpu_t) : cpu_t := ltac:(with_field cpu_fcr31 v r cpu_eta).
Definition cpu_with_tlb (v : gmap Z Translation.tlb_entry) (r : cpu_t) : cpu_t := ltac:(with_field cpu_tlb v r cpu_eta).
Definition cpu_with_entryhi (v : Z) (r : cpu_t) : cpu_t := ltac:(with_field cpu_entryhi v r cpu_eta).
Definition cpu_with_random (v : Z) (r : cpu_t) : cpu_t := ltac:(with_field cpu_random v r cpu_eta).
Definition cpu_with_badvaddr (v : Z) (r : cpu_t) : cpu_t := ltac:(with_field cpu_badvaddr v r cpu_eta).
Definition cpu_with_count (v : Z) (r : cpu_t) : cpu_t := ltac:(with_field cpu_count v r cpu_eta).
Definition cpu_with_compare (v : Z) (r : cpu_t) : cpu_t := ltac:(with_field cpu_compare v r cpu_eta).
Definition cpu_with_timer_compare (v : Z) (r : cpu_t) : cpu_t := ltac:(with_field cpu_timer_compare v r cpu_eta).
Definition cpu_with_llval_address (v : Z) (r : cpu_t) : cpu_t := ltac:(with_field cpu_llval_address v r cpu_eta).
Definition cpu_with_llval_space (v : Z) (r : cpu_t) : cpu_t := ltac:(with_field cpu_llval_space v r cpu_eta).
Definition cpu_with_cache_ops (v : list cache_op) (r : cpu_t) : cpu_t := ltac:(with_field cpu_cache_ops v r cpu_eta).
Definition cpu_with_exception_handlers (v : list exception_vector) (r : cpu_t) : cpu_t :=
  ltac:(with_field cpu_exception_handlers v r cpu_eta).
Definition cpu_with_interrupt_handlers (v : list interrupt_vector) (r : cpu_t) : cpu_t :=
  ltac:(with_field cpu_interrupt_handlers v r cpu_eta).

(** Everything the kernel operations read or write. *)
Record kstate (V : Type) := Kstate {
  ks_tcbs : gmap Z tcb;  (** the control blocks *)
  ks_utcbs : gmap Z utcb;
  ks_spaces : gmap Z space;
  ks_vm : V;  (** page tables and kernel memory *)
  ks_current_tcb : Z;
  ks_wakeup_list : Z;  (** [scheduler.wakeup_list] *)
  ks_root_prio_queue : prio_queue;  (** [scheduler.root_prio_queue] *)
  ks_current_time : Z;  (** [scheduler_t::current_time] *)
  ks_sigma0_space : Z;
  ks_sigma1_space : Z;
  ks_roottask_space : Z;
  ks_kernel_space : Z;
  ks_fp_lazy_tcb : Z;  (** [processor_resources] *)
  ks_cp0_status : Z;  (** coprocessor 0 status register *)
  ks_kip : kip_t;  (** the kernel interface page *)
  ks_cpu : cpu_t;  (** registers of the processor *)
}.
Arguments Kstate {V}.
Arguments ks_tcbs {V}.
Arguments ks_utcbs {V}.
Arguments ks_spaces {V}.
Arguments ks_vm {V}.
Arguments ks_current_tcb {V}.
Arguments ks_wakeup_list {V}.
Arguments ks_root_prio_queue {V}.
Arguments ks_current_time {V}.
Arguments ks_sigma0_space {V}.
Arguments ks_sigma1_space {V}.
Arguments ks_roottask_space {V}.
Arguments ks_kernel_space {V}.
Arguments ks_fp_lazy_tcb {V}.
Arguments ks_cp0_status {V}.
Arguments ks_kip {V}.
Arguments ks_cpu {V}.

Definition kstate_eta {V : Type} (r : kstate V) : kstate V :=
  Kstate (ks_tcbs r) (ks_utcbs r) (ks_spaces r) (ks_vm r) (ks_current_tcb r) (ks_wakeup_list r) (ks_root_prio_queue r) (ks_current_time r) (ks_sigma0_space r) (ks_sigma1_space r) (ks_roottask_space r) (ks_kernel_space r) (ks_fp_lazy_tcb r) (ks_cp0_status r) (ks_kip r) (ks_cpu r).

Ltac with_ks f v r :=
  let t := eval cbv beta delta [kstate_eta] in (kstate_eta r) in
  let t := eval pattern (f r) in t in
  match t with ?g _ => let u := eval cbv beta in (g v) in exact u end.

Definition ks_with_tcbs {V : Type} (v : gmap Z tcb) (r : kstate V) : kstate V := ltac:(with_ks (@ks_tcbs V) v r).
Definition ks_with_utcbs {V : Type} (v : gmap Z utcb) (r : kstate V) : kstate V := ltac:(with_ks (@ks_utcbs V) v r).
Definition ks_with_spaces {V : Type} (v : gmap Z space) (r : kstate V) : kstate V := ltac:(with_ks (@ks_spaces V) v r).
Definition ks_with_vm {V : Type} (v : V) (r : kstate V) : kstate V := ltac:(with_ks (@ks_vm V) v r).
Definition ks_with_current_tcb {V : Type} (v : Z) (r : kstate V) : kstate V := ltac:(with_ks (@ks_current_tcb V) v r).
Definition ks_with_wakeup_list {V : Type} (v : Z) (r : kstate V) : kstate V := ltac:(with_ks (@ks_wakeup_list V) v r).
Definition ks_with_root_prio_queue {V : Type} (v : prio_queue) (r : kstate V) : kstate V := ltac:(with_ks (@ks_root_prio_queue V) v r).
Definition ks_with_current_time {V : Type} (v : Z) (r : kstate V) : kstate V := ltac:(with_ks (@ks_current_time V) v r).
Definition ks_with_sigma0_space {V : Type} (v : Z) (r : kstate V) : kstate V := ltac:(with_ks (@ks_sigma0_space V) v r).
Definition ks_with_sigma1_space {V : Type} (v : Z) (r : kstate V) : kstate V := ltac:(with_ks (@ks_sigma1_space V) v r).
Definition ks_with_roottask_space {V : Type} (v : Z) (r : kstate V) : kstate V := ltac:(with_ks (@ks_roottask_space V) v r).
Definition ks_with_kernel_space {V : Type} (v : Z) (r : kstate V) : kstate V := ltac:(with_ks (@ks_kernel_space V) v r).
Definition ks_with_fp_lazy_tcb {V : Type} (v : Z) (r : kstate V) : kstate V := ltac:(with_ks (@ks_fp_lazy_tcb V) v r).
Definition ks_with_cp0_status {V : Type} (v : Z) (r : kstate V) : kstate V := ltac:(with_ks (@ks_cp0_status V) v r).
Definition ks_with_kip {V : Type} (v : kip_t) (r : kstate V) : kstate V := ltac:(with_ks (@ks_kip V) v r).
Definition ks_with_cpu {V : Type} (v : cpu_t) (r : kstate V) : kstate V := ltac:(with_ks (@ks_cpu V) v r).


(** ** Reading and writing control blocks

    A pointer to a control block is a [Z]: 0 is [NULL], [i + 1] is [&t[i]], and
    [idle_tcb] is the idle thread's block.  Blocks and UTCBs never written
    hold zeros (they are static or freshly cleared storage). *)

Definition idle_tcb : Z := -1.
(** [&__idle_utcb], [&kernel_utcb], [&irq_utcb]: static objects *)
Definition idle_utcb : Z := -1.
Definition kernel_utcb : Z := -2.
Definition irq_utcb : Z := -3.

Definition null_ring : ringlist := Ring NULL NULL.
Definition zero_context : irq_context :=
  IrqContext 0 0 0 0 0 0 0 0 0 0 0 0 0 0 0 0 0 0 0 0 0 0 0 0 0 0 0 0 0 0 0 0 0 0 0 0.
Definition zero_misc : misc_tcb := MiscTcb 0 0 0 0 0 0 0 0 0.
Definition zero_tcb : tcb :=
  Tcb 0 0 0 NULL 0 0 0 [] zero_context 0 null_ring null_ring null_ring NULL 0 0 0 0 0 0 0 0 0
      NULL 0 0 zero_misc 0 0 0 (replicate 32 0).
Definition zero_utcb : utcb := Utcb 0 0 0 0 0 0 0 0 0 0 0 ∅.
Definition zero_space : space := Space 0 0 0 0.
Definition zero_cpu : cpu_t :=
  Cpu (replicate 32 0) 0 ∅ 0 0 0 0 0 0 0 0 [] (replicate 32 ev_none) (replicate 8 iv_none).

Section Accessors.
Context {V : Type}.
Abbreviation S := (kstate V).
Abbreviation K := (M (kstate V)).

Definition tcb_of (s : S) (p : Z) : tcb := default zero_tcb (ks_tcbs s !! p).
Definition utcb_of (s : S) (u : Z) : utcb := default zero_utcb (ks_utcbs s !! u).
Definition space_of (s : S) (sp : Z) : space := default zero_space (ks_spaces s !! sp).

Definition upd_tcb (p : Z) (f : tcb -> tcb) (s : S) : S :=
  ks_with_tcbs (<[p := f (tcb_of s p)]> (ks_tcbs s)) s.
Definition upd_utcb (u : Z) (f : utcb -> utcb) (s : S) : S :=
  ks_with_utcbs (<[u := f (utcb_of s u)]> (ks_utcbs s)) s.
Definition upd_space (sp : Z) (f : space -> space) (s : S) : S :=
  ks_with_spaces (<[sp := f (space_of s sp)]> (ks_spaces s)) s.

(** [p->...] *)
Definition tcb_get {A} (p : Z) (f : tcb -> A) : K A :=
  fun s => if p =? NULL then Crash else Ok (f (tcb_of s p), s).
Definition tcb_set (p : Z) (f : tcb -> tcb) : K unit :=
  fun s => if p =? NULL then Crash else Ok (tt, upd_tcb p f s).

(** [p->get_utcb()->...]: the UTCB of [p] *)
Definition utcb_get {A} (p : Z) (f : utcb -> A) : K A :=
  fun s => if (p =? NULL) || (tcb_utcb (tcb_of s p) =? NULL) then Crash
           else Ok (f (utcb_of s (tcb_utcb (tcb_of s p))), s).
Definition utcb_set (p : Z) (f : utcb -> utcb) : K unit :=
  fun s => if (p =? NULL) || (tcb_utcb (tcb_of s p) =? NULL) then Crash
           else Ok (tt, upd_utcb (tcb_utcb (tcb_of s p)) f s).

(** [sp->...] *)
Definition space_get {A} (sp : Z) (f : space -> A) : K A :=
  fun s => if sp =? NULL then Crash else Ok (f (space_of s sp), s).
Definition space_set (sp : Z) (f : space -> space) : K unit :=
  fun s => if sp =? NULL then Crash else Ok (tt, upd_space sp f s).

(** *** Thread ids and settings *)

Definition get_idle_tcb : Z := idle_tcb.
Definition get_current_tcb : K Z := gets ks_current_tcb.
Definition get_space (p : Z) : K Z := tcb_get p tcb_space.
Definition set_space (p sp : Z) : K unit := tcb_set p (tcb_with_space sp).
Definition get_current_space : K Z := let* c := get_current_tcb in get_space c.

(** [space_t::get_tcb]: [&t[tid.get_threadno() & ((1 << VALID_THREADNO_BITS) - 1)]]
    (the space is not dereferenced) *)
Definition tcb_index (tid : Z) : Z :=
  Z.land (get_threadno tid) (2 ^ Layout.VALID_THREADNO_BITS - 1).
Definition get_tcb (tid : Z) : Z := tcb_index tid + 1.

Definition exists_ (p : Z) : K bool := tcb_get p (fun t => negb (tcb_space t =? NULL)).
Definition is_activated (p : Z) : K bool := tcb_get p (fun t => negb (tcb_utcb t =? NULL)).
Definition get_utcb (p : Z) : K Z := tcb_get p tcb_utcb.

Definition get_global_id (p : Z) : K Z := tcb_get p tcb_myself_global.
Definition get_local_id (p : Z) : K Z := tcb_get p tcb_myself_local.
Definition tcb_set_global_id (p tid : Z) : K unit :=
  tcb_set p (tcb_with_myself_global tid) ;;; utcb_set p (utcb_with_my_global_id tid).
Definition get_utcb_location (p : Z) : K Z := tcb_get p tcb_myself_local.
Definition set_utcb_location (p loc : Z) : K unit := tcb_set p (tcb_with_myself_local loc).

Definition set_scheduler (p tid : Z) : K unit := tcb_set p (tcb_with_scheduler tid).
Definition get_scheduler (p : Z) : K Z := tcb_get p tcb_scheduler.
Definition set_irq_handler (p tid : Z) : K unit := set_scheduler p tid.
Definition get_irq_handler (p : Z) : K Z := get_scheduler p.

Definition set_state (p st : Z) : K unit := tcb_set p (tcb_with_thread_state st).
Definition get_state (p : Z) : K Z := tcb_get p tcb_thread_state.
Definition set_partner (p tid : Z) : K unit := tcb_set p (tcb_with_partner tid).
Definition get_partner (p : Z) : K Z := tcb_get p tcb_partner.
Definition get_partner_tcb (p : Z) : K Z := tcb_get p (fun t => get_tcb (tcb_partner t)).
Definition get_saved_partner (p : Z) : K Z := tcb_get p tcb_saved_partner.
Definition set_saved_partner (p tid : Z) : K unit := tcb_set p (tcb_with_saved_partner tid).
Definition get_saved_state (p : Z) : K Z := tcb_get p tcb_saved_state.
Definition set_saved_state (p st : Z) : K unit := tcb_set p (tcb_with_saved_state st).

(** no SMP: [get_cpu] is the constant 0, [migrate_to_processor] a comparison *)
Definition get_cpu (p : Z) : Z := 0.
Definition get_current_cpu : Z := 0.
Definition is_local_cpu (p : Z) : bool := get_current_cpu =? get_cpu p.
Definition migrate_to_processor (p processor : Z) : bool := processor =? 0.
Definition set_cpu (p cpu : Z) : K unit :=
  tcb_set p (tcb_with_cpu cpu) ;;; utcb_set p (utcb_with_processor_no cpu).

(** *** UTCB members *)

Definition get_pager (p : Z) : K Z := utcb_get p utcb_pager.
Definition set_pager (p tid : Z) : K unit := utcb_set p (utcb_with_pager tid).
Definition get_exception_handler (p : Z) : K Z := utcb_get p utcb_exception_handler.
Definition set_exception_handler (p tid : Z) : K unit :=
  utcb_set p (utcb_with_exception_handler tid).
Definition get_user_handle (p : Z) : K Z := utcb_get p utcb_user_defined_handle.
Definition set_user_handle (p h : Z) : K unit := utcb_set p (utcb_with_user_defined_handle h).
Definition set_actual_sender (p tid : Z) : K unit := utcb_set p (utcb_with_virtual_sender tid).
Definition get_virtual_sender (p : Z) : K Z := utcb_get p utcb_virtual_sender.
Definition get_intended_receiver (p : Z) : K Z := utcb_get p utcb_intended_receiver.
Definition set_error_code (p err : Z) : K unit := utcb_set p (utcb_with_error_code err).
Definition get_error_code (p : Z) : K Z := utcb_get p utcb_error_code.
Definition get_preempt_flags (p : Z) : K Z := utcb_get p utcb_preempt_flags.
Definition set_preempt_flags (p f : Z) : K unit := utcb_set p (utcb_with_preempt_flags f).
Definition get_cop_flags (p : Z) : K Z := utcb_get p utcb_cop_flags.
Definition get_xfer_timeout_snd (p : Z) : K Z := utcb_get p (fun u => get_snd (utcb_xfer_timeout u)).
Definition get_xfer_timeout_rcv (p : Z) : K Z := utcb_get p (fun u => get_rcv (utcb_xfer_timeout u)).

(** [mr] and [br] are adjacent arrays of 64 and 33 words, followed by 15 words
    of padding: an index past the end of [mr] reaches [br].  An index past the
    whole object is outside the model and ends in [Crash]. *)
Definition UTCB_WORDS : Z := 112.
Definition word_at (u : utcb) (i : Z) : Z := default 0 (utcb_words u !! i).
Definition utcb_with_word (i v : Z) (u : utcb) : utcb :=
  utcb_with_words (<[i := v]> (utcb_words u)) u.
Definition get_word (p i : Z) : K Z :=
  if (0 <=? i) && (i <? UTCB_WORDS) then utcb_get p (fun u => word_at u i) else crash.
Definition set_word (p i v : Z) : K unit :=
  if (0 <=? i) && (i <? UTCB_WORDS) then utcb_set p (utcb_with_word i v) else crash.

Definition get_mr (p index : Z) : K Z := get_word p index.
Definition set_mr (p index v : Z) : K unit := set_word p index v.
Definition get_br (p index : Z) : K Z := get_word p (Config.IPC_NUM_MR + index).
Definition set_br (p index v : Z) : K unit := set_word p (Config.IPC_NUM_MR + index) v.
Definition get_tag (p : Z) : K Z := get_mr p 0.
Definition set_tag (p tag : Z) : K unit := set_mr p 0 tag.

(** [copy_mrs]: the copy loop is an assembly block that is commented out, so
    the method has no effect *)
Definition copy_mrs (p dest start count : Z) : K unit := ret tt.

(** *** Kernel stack and user registers *)

Definition allocate (p : Z) : K unit := tcb_set p (fun t => t).
Definition init_stack (p : Z) : K unit :=
  tcb_set p (fun t => tcb_with_stack [] (tcb_with_context zero_context t)).
Definition notify (p : Z) (f : kfunc) (args : list Z) : K unit :=
  tcb_set p (fun t => tcb_with_stack (Frame f args :: tcb_stack t) t).

Definition get_user_ip (p : Z) : K Z := tcb_get p (fun t => ic_epc (tcb_context t)).
Definition get_user_sp (p : Z) : K Z := tcb_get p (fun t => ic_sp (tcb_context t)).
Definition get_user_flags (p : Z) : K Z := tcb_get p (fun t => ic_status (tcb_context t)).
Definition set_user_ip (p ip : Z) : K unit :=
  tcb_set p (fun t => tcb_with_context (ic_with_epc ip (tcb_context t)) t).
Definition set_user_sp (p sp : Z) : K unit :=
  tcb_set p (fun t => tcb_with_context (ic_with_sp sp (tcb_context t)) t).
Definition set_user_flags (p flags : Z) : K unit := ret tt.

(** [ST_FR | ST_KX | ST_SX | ST_UX | ST_U | ST_EXL | ST_IE] *)
Definition USER_STATUS : Z :=
  Z.lor 0x04000000 (Z.lor 0x80 (Z.lor 0x40 (Z.lor 0x20 (Z.lor 0x10 (Z.lor 2 1))))).
Definition create_startup_stack (p : Z) (func : kfunc) : K unit :=
  init_stack p ;;;
  notify p mips64_restore_user [] ;;;
  notify p func [] ;;;
  tcb_set p (fun t => tcb_with_context (ic_with_status USER_STATUS (tcb_context t)) t).

(** *** Switching: the assembly is commented out, what is left is the
    assignment of [current_tcb] *)
Definition switch_to (p dest : Z) : K unit := modify (ks_with_current_tcb dest).
Definition switch_to_idle (p : Z) : K unit := switch_to p get_idle_tcb.

(** *** Spaces *)

Definition get_kip_page_area (sp : Z) : K Z := space_get sp sp_kip_area.
Definition get_utcb_page_area (sp : Z) : K Z := space_get sp sp_utcb_area.
Definition is_initialized (sp : Z) : K bool :=
  space_get sp (fun x => negb (is_nil_fpage (sp_kip_area x))).
(** [thread_count] is a word *)
Definition add_tcb (sp tcb : Z) : K unit :=
  space_set sp (fun x => sp_with_thread_count (w64 (sp_thread_count x + 1)) x).
Definition remove_tcb (sp tcb : Z) : K bool :=
  space_set sp (fun x => sp_with_thread_count (w64 (sp_thread_count x - 1)) x) ;;;
  space_get sp (fun x => sp_thread_count x =? 0).

Definition is_sigma0_space (s : S) (sp : Z) : bool := sp =? ks_sigma0_space s.
Definition is_sigma1_space (s : S) (sp : Z) : bool := sp =? ks_sigma0_space s.
Definition is_roottask_space (s : S) (sp : Z) : bool := sp =? ks_roottask_space s.
Definition is_privileged_space (s : S) (sp : Z) : bool :=
  is_roottask_space s sp || is_sigma0_space s sp || is_sigma1_space s sp.

(** *** IPC queues *)

Definition send_ring : RingHeap S.
Proof.
  refine {| rget s p := tcb_send_list (tcb_of s p);
            rput p r s := upd_tcb p (tcb_with_send_list r) s |}.
  intros p q r s. unfold tcb_of at 1. unfold upd_tcb. simpl. rewrite lookup_insert.
  now case_decide.
Defined.

End Accessors.

(** ** Frame facts

    What an update leaves alone, as rewrite rules of the database [ks]. *)

Section Frames.
Context {V : Type}.
Implicit Types s : kstate V.

Lemma tcb_of_upd_tcb p q f s :
  tcb_of (upd_tcb p f s) q = if decide (p = q) then f (tcb_of s q) else tcb_of s q.
Proof.
  unfold tcb_of at 1, upd_tcb. simpl. rewrite lookup_insert.
  now case_decide; subst.
Qed.

Lemma tcb_of_upd_tcb_eq p f s : tcb_of (upd_tcb p f s) p = f (tcb_of s p).
Proof. rewrite tcb_of_upd_tcb. now case_decide. Qed.

Lemma tcb_of_upd_tcb_ne p q f s : p <> q -> tcb_of (upd_tcb p f s) q = tcb_of s q.
Proof. intros. rewrite tcb_of_upd_tcb. now case_decide. Qed.

Lemma utcb_of_upd_utcb p q f s :
  utcb_of (upd_utcb p f s) q = if decide (p = q) then f (utcb_of s q) else utcb_of s q.
Proof.
  unfold utcb_of at 1, upd_utcb. simpl. rewrite lookup_insert.
  now case_decide; subst.
Qed.

Lemma utcb_of_upd_utcb_eq p f s : utcb_of (upd_utcb p f s) p = f (utcb_of s p).
Proof. rewrite utcb_of_upd_utcb. now case_decide. Qed.

Lemma utcb_of_upd_utcb_ne p q f s : p <> q -> utcb_of (upd_utcb p f s) q = utcb_of s q.
Proof. intros. rewrite utcb_of_upd_utcb. now case_decide. Qed.

Lemma space_of_upd_space p q f s :
  space_of (upd_space p f s) q = if decide (p = q) then f (space_of s q) else space_of s q.
Proof.
  unfold space_of at 1, upd_space. simpl. rewrite lookup_insert.
  now case_decide; subst.
Qed.

Lemma space_of_upd_space_eq p f s : space_of (upd_space p f s) p = f (space_of s p).
Proof. rewrite space_of_upd_space. now case_decide. Qed.

Lemma space_of_upd_space_ne p q f s : p <> q -> space_of (upd_space p f s) q = space_of s q.
Proof. intros. rewrite space_of_upd_space. now case_decide. Qed.

(** A member an update of a control block does not touch keeps its value. *)
Lemma tcb_field_frame {A} (g : tcb -> A) p q f s :
  (forall t, g (f t) = g t) -> g (tcb_of (upd_tcb p f s) q) = g (tcb_of s q).
Proof. intros Hg. rewrite tcb_of_upd_tcb. case_decide; auto. Qed.

Lemma utcb_field_frame {A} (g : utcb -> A) p q f s :
  (forall u, g (f u) = g u) -> g (utcb_of (upd_utcb p f s) q) = g (utcb_of s q).
Proof. intros Hg. rewrite utcb_of_upd_utcb. case_decide; auto. Qed.

Lemma tcb_of_upd_utcb p q f s : tcb_of (upd_utcb p f s) q = tcb_of s q.
Proof. done. Qed.

Lemma tcb_of_upd_space p q f s : tcb_of (upd_space p f s) q = tcb_of s q.
Proof. done. Qed.

Lemma tcb_of_with_utcbs q v s : tcb_of (ks_with_utcbs v s) q = tcb_of s q.
Proof. done. Qed.

Lemma tcb_of_with_spaces q v s : tcb_of (ks_with_spaces v s) q = tcb_of s q.
Proof. done. Qed.

Lemma tcb_of_with_vm q v s : tcb_of (ks_with_vm v s) q = tcb_of s q.
Proof. done. Qed.

Lemma tcb_of_with_current_tcb q v s : tcb_of (ks_with_current_tcb v s) q = tcb_of s q.
Proof. done. Qed.

Lemma tcb_of_with_wakeup_list q v s : tcb_of (ks_with_wakeup_list v s) q = tcb_of s q.
Proof. done. Qed.

Lemma tcb_of_with_root_prio_queue q v s : tcb_of (ks_with_root_prio_queue v s) q = tcb_of s q.
Proof. done. Qed.

Lemma tcb_of_with_current_time q v s : tcb_of (ks_with_current_time v s) q = tcb_of s q.
Proof. done. Qed.

Lemma tcb_of_with_sigma0_space q v s : tcb_of (ks_with_sigma0_space v s) q = tcb_of s q.
Proof. done. Qed.

Lemma tcb_of_with_sigma1_space q v s : tcb_of (ks_with_sigma1_space v s) q = tcb_of s q.
Proof. done. Qed.

Lemma tcb_of_with_roottask_space q v s : tcb_of (ks_with_roottask_space v s) q = tcb_of s q.
Proof. done. Qed.

Lemma tcb_of_with_kernel_space q v s : tcb_of (ks_with_kernel_space v s) q = tcb_of s q.
Proof. done. Qed.

Lemma tcb_of_with_fp_lazy_tcb q v s : tcb_of (ks_with_fp_lazy_tcb v s) q = tcb_of s q.
Proof. done. Qed.

Lemma tcb_of_with_cp0_status q v s : tcb_of (ks_with_cp0_status v s) q = tcb_of s q.
Proof. done. Qed.

Lemma tcb_of_with_kip q v s : tcb_of (ks_with_kip v s) q = tcb_of s q.
Proof. done. Qed.

Lemma tcb_of_with_cpu q v s : tcb_of (ks_with_cpu v s) q = tcb_of s q.
Proof. done. Qed.

Lemma utcb_of_upd_tcb p q f s : utcb_of (upd_tcb p f s) q = utcb_of s q.
Proof. done. Qed.

Lemma utcb_of_upd_space p q f s : utcb_of (upd_space p f s) q = utcb_of s q.
Proof. done. Qed.

Lemma utcb_of_with_tcbs q v s : utcb_of (ks_with_tcbs v s) q = utcb_of s q.
Proof. done. Qed.

Lemma utcb_of_with_spaces q v s : utcb_of (ks_with_spaces v s) q = utcb_of s q.
Proof. done. Qed.

Lemma utcb_of_with_vm q v s : utcb_of (ks_with_vm v s) q = utcb_of s q.
Proof. done. Qed.

Lemma utcb_of_with_current_tcb q v s : utcb_of (ks_with_current_tcb v s) q = utcb_of s q.
Proof. done. Qed.

Lemma utcb_of_with_wakeup_list q v s : utcb_of (ks_with_wakeup_list v s) q = utcb_of s q.
Proof. done. Qed.

Lemma utcb_of_with_root_prio_queue q v s : utcb_of (ks_with_root_prio_queue v s) q = utcb_of s q.
Proof. done. Qed.

Lemma utcb_of_with_current_time q v s : utcb_of (ks_with_current_time v s) q = utcb_of s q.
Proof. done. Qed.

Lemma utcb_of_with_sigma0_space q v s : utcb_of (ks_with_sigma0_space v s) q = utcb_of s q.
Proof. done. Qed.

Lemma utcb_of_with_sigma1_space q v s : utcb_of (ks_with_sigma1_space v s) q = utcb_of s q.
Proof. done. Qed.

Lemma utcb_of_with_roottask_space q v s : utcb_of (ks_with_roottask_space v s) q = utcb_of s q.
Proof. done. Qed.

Lemma utcb_of_with_kernel_space q v s : utcb_of (ks_with_kernel_space v s) q = utcb_of s q.
Proof. done. Qed.

Lemma utcb_of_with_fp_lazy_tcb q v s : utcb_of (ks_with_fp_lazy_tcb v s) q = utcb_of s q.
Proof. done. Qed.

Lemma utcb_of_with_cp0_status q v s : utcb_of (ks_with_cp0_status v s) q = utcb_of s q.
Proof. done. Qed.

Lemma utcb_of_with_kip q v s : utcb_of (ks_with_kip v s) q = utcb_of s q.
Proof. done. Qed.

Lemma utcb_of_with_cpu q v s : utcb_of (ks_with_cpu v s) q = utcb_of s q.
Proof. done. Qed.

Lemma space_of_upd_tcb p q f s : space_of (upd_tcb p f s) q = space_of s q.
Proof. done. Qed.

Lemma space_of_upd_utcb p q f s : space_of (upd_utcb p f s) q = space_of s q.
Proof. done. Qed.

Lemma space_of_with_tcbs q v s : space_of (ks_with_tcbs v s) q = space_of s q.
Proof. done. Qed.

Lemma space_of_with_utcbs q v s : space_of (ks_with_utcbs v s) q = space_of s q.
Proof. done. Qed.

Lemma space_of_with_vm q v s : space_of (ks_with_vm v s) q = space_of s q.
Proof. done. Qed.

Lemma space_of_with_current_tcb q v s : space_of (ks_with_current_tcb v s) q = space_of s q.
Proof. done. Qed.

Lemma space_of_with_wakeup_list q v s : space_of (ks_with_wakeup_list v s) q = space_of s q.
Proof. done. Qed.

Lemma space_of_with_root_prio_queue q v s : space_of (ks_with_root_prio_queue v s) q = space_of s q.
Proof. done. Qed.

Lemma space_of_with_current_time q v s : space_of (ks_with_current_time v s) q = space_of s q.
Proof. done. Qed.

Lemma space_of_with_sigma0_space q v s : space_of (ks_with_sigma0_space v s) q = space_of s q.
Proof. done. Qed.

Lemma space_of_with_sigma1_space q v s : space_of (ks_with_sigma1_space v s) q = space_of s q.
Proof. done. Qed.

Lemma space_of_with_roottask_space q v s : space_of (ks_with_roottask_space v s) q = space_of s q.
Proof. done. Qed.

Lemma space_of_with_kernel_space q v s : space_of (ks_with_kernel_space v s) q = space_of s q.
Proof. done. Qed.

Lemma space_of_with_fp_lazy_tcb q v s : space_of (ks_with_fp_lazy_tcb v s) q = space_of s q.
Proof. done. Qed.

Lemma space_of_with_cp0_status q v s : space_of (ks_with_cp0_status v s) q = space_of s q.
Proof. done. Qed.

Lemma space_of_with_kip q v s : space_of (ks_with_kip v s) q = space_of s q.
Proof. done. Qed.

Lemma space_of_with_cpu q v s : space_of (ks_with_cpu v s) q = space_of s q.
Proof. done. Qed.

Lemma ks_utcbs_upd_tcb p f s : ks_utcbs (upd_tcb p f s) = ks_utcbs s.
Proof. done. Qed.

Lemma ks_spaces_upd_tcb p f s : ks_spaces (upd_tcb p f s) = ks_spaces s.
Proof. done. Qed.

Lemma ks_vm_upd_tcb p f s : ks_vm (upd_tcb p f s) = ks_vm s.
Proof. done. Qed.

Lemma ks_current_tcb_upd_tcb p f s : ks_current_tcb (upd_tcb p f s) = ks_current_tcb s.
Proof. done. Qed.

Lemma ks_wakeup_list_upd_tcb p f s : ks_wakeup_list (upd_tcb p f s) = ks_wakeup_list s.
Proof. done. Qed.

Lemma ks_root_prio_queue_upd_tcb p f s : ks_root_prio_queue (upd_tcb p f s) = ks_root_prio_queue s.
Proof. done. Qed.

Lemma ks_current_time_upd_tcb p f s : ks_current_time (upd_tcb p f s) = ks_current_time s.
Proof. done. Qed.

Lemma ks_sigma0_space_upd_tcb p f s : ks_sigma0_space (upd_tcb p f s) = ks_sigma0_space s.
Proof. done. Qed.

Lemma ks_sigma1_space_upd_tcb p f s : ks_sigma1_space (upd_tcb p f s) = ks_sigma1_space s.
Proof. done. Qed.

Lemma ks_roottask_space_upd_tcb p f s : ks_roottask_space (upd_tcb p f s) = ks_roottask_space s.
Proof. done. Qed.

Lemma ks_kernel_space_upd_tcb p f s : ks_kernel_space (upd_tcb p f s) = ks_kernel_space s.
Proof. done. Qed.

Lemma ks_fp_lazy_tcb_upd_tcb p f s : ks_fp_lazy_tcb (upd_tcb p f s) = ks_fp_lazy_tcb s.
Proof. done. Qed.

Lemma ks_cp0_status_upd_tcb p f s : ks_cp0_status (upd_tcb p f s) = ks_cp0_status s.
Proof. done. Qed.

Lemma ks_kip_upd_tcb p f s : ks_kip (upd_tcb p f s) = ks_kip s.
Proof. done. Qed.

Lemma ks_cpu_upd_tcb p f s : ks_cpu (upd_tcb p f s) = ks_cpu s.
Proof. done. Qed.

Lemma ks_tcbs_upd_utcb p f s : ks_tcbs (upd_utcb p f s) = ks_tcbs s.
Proof. done. Qed.

Lemma ks_spaces_upd_utcb p f s : ks_spaces (upd_utcb p f s) = ks_spaces s.
Proof. done. Qed.

Lemma ks_vm_upd_utcb p f s : ks_vm (upd_utcb p f s) = ks_vm s.
Proof. done. Qed.

Lemma ks_current_tcb_upd_utcb p f s : ks_current_tcb (upd_utcb p f s) = ks_current_tcb s.
Proof. done. Qed.

Lemma ks_wakeup_list_upd_utcb p f s : ks_wakeup_list (upd_utcb p f s) = ks_wakeup_list s.
Proof. done. Qed.

Lemma ks_root_prio_queue_upd_utcb p f s : ks_root_prio_queue (upd_utcb p f s) = ks_root_prio_queue s.
Proof. done. Qed.

Lemma ks_current_time_upd_utcb p f s : ks_current_time (upd_utcb p f s) = ks_current_time s.
Proof. done. Qed.

Lemma ks_sigma0_space_upd_utcb p f s : ks_sigma0_space (upd_utcb p f s) = ks_sigma0_space s.
Proof. done. Qed.

Lemma ks_sigma1_space_upd_utcb p f s : ks_sigma1_space (upd_utcb p f s) = ks_sigma1_space s.
Proof. done. Qed.

Lemma ks_roottask_space_upd_utcb p f s : ks_roottask_space (upd_utcb p f s) = ks_roottask_space s.
Proof. done. Qed.

Lemma ks_kernel_space_upd_utcb p f s : ks_kernel_space (upd_utcb p f s) = ks_kernel_space s.
Proof. done. Qed.

Lemma ks_fp_lazy_tcb_upd_utcb p f s : ks_fp_lazy_tcb (upd_utcb p f s) = ks_fp_lazy_tcb s.
Proof. done. Qed.

Lemma ks_cp0_status_upd_utcb p f s : ks_cp0_status (upd_utcb p f s) = ks_cp0_status s.
Proof. done. Qed.

Lemma ks_kip_upd_utcb p f s : ks_kip (upd_utcb p f s) = ks_kip s.
Proof. done. Qed.

Lemma ks_cpu_upd_utcb p f s : ks_cpu (upd_utcb p f s) = ks_cpu s.
Proof. done. Qed.

Lemma ks_tcbs_upd_space p f s : ks_tcbs (upd_space p f s) = ks_tcbs s.
Proof. done. Qed.

Lemma ks_utcbs_upd_space p f s : ks_utcbs (upd_space p f s) = ks_utcbs s.
Proof. done. Qed.

Lemma ks_vm_upd_space p f s : ks_vm (upd_space p f s) = ks_vm s.
Proof. done. Qed.

Lemma ks_current_tcb_upd_space p f s : ks_current_tcb (upd_space p f s) = ks_current_tcb s.
Proof. done. Qed.

Lemma ks_wakeup_list_upd_space p f s : ks_wakeup_list (upd_space p f s) = ks_wakeup_list s.
Proof. done. Qed.

Lemma ks_root_prio_queue_upd_space p f s : ks_root_prio_queue (upd_space p f s) = ks_root_prio_queue s.
Proof. done. Qed.

Lemma ks_current_time_upd_space p f s : ks_current_time (upd_space p f s) = ks_current_time s.
Proof. done. Qed.

Lemma ks_sigma0_space_upd_space p f s : ks_sigma0_space (upd_space p f s) = ks_sigma0_space s.
Proof. done. Qed.

Lemma ks_sigma1_space_upd_space p f s : ks_sigma1_space (upd_space p f s) = ks_sigma1_space s.
Proof. done. Qed.

Lemma ks_roottask_space_upd_space p f s : ks_roottask_space (upd_space p f s) = ks_roottask_space s.
Proof. done. Qed.

Lemma ks_kernel_space_upd_space p f s : ks_kernel_space (upd_space p f s) = ks_kernel_space s.
Proof. done. Qed.

Lemma ks_fp_lazy_tcb_upd_space p f s : ks_fp_lazy_tcb (upd_space p f s) = ks_fp_lazy_tcb s.
Proof. done. Qed.

Lemma ks_cp0_status_upd_space p f s : ks_cp0_status (upd_space p f s) = ks_cp0_status s.
Proof. done. Qed.

Lemma ks_kip_upd_space p f s : ks_kip (upd_space p f s) = ks_kip s.
Proof. done. Qed.

Lemma ks_cpu_upd_space p f s : ks_cpu (upd_space p f s) = ks_cpu s.
Proof. done. Qed.

(** *** Running the primitives *)

Lemma tcb_get_run {A} p (f : tcb -> A) s : p <> NULL -> tcb_get p f s = Ok (f (tcb_of s p), s).
Proof. intros ?%Z.eqb_neq. unfold tcb_get. now rewrite H. Qed.

Lemma tcb_set_run p f s : p <> NULL -> tcb_set p f s = Ok (tt, upd_tcb p f s).
Proof. intros ?%Z.eqb_neq. unfold tcb_set. now rewrite H. Qed.

Lemma utcb_get_run {A} p (f : utcb -> A) s :
  p <> NULL -> tcb_utcb (tcb_of s p) <> NULL ->
  utcb_get p f s = Ok (f (utcb_of s (tcb_utcb (tcb_of s p))), s).
Proof. intros H1%Z.eqb_neq H2%Z.eqb_neq. unfold utcb_get. now rewrite H1, H2. Qed.

Lemma utcb_set_run p f s :
  p <> NULL -> tcb_utcb (tcb_of s p) <> NULL ->
  utcb_set p f s = Ok (tt, upd_utcb (tcb_utcb (tcb_of s p)) f s).
Proof. intros H1%Z.eqb_neq H2%Z.eqb_neq. unfold utcb_set. now rewrite H1, H2. Qed.

Lemma space_get_run {A} p (f : space -> A) s :
  p <> NULL -> space_get p f s = Ok (f (space_of s p), s).
Proof. intros ?%Z.eqb_neq. unfold space_get. now rewrite H. Qed.

Lemma space_set_run p f s : p <> NULL -> space_set p f s = Ok (tt, upd_space p f s).
Proof. intros ?%Z.eqb_neq. unfold space_set. now rewrite H. Qed.

Lemma bind_tcb_get {A B} p (f : tcb -> A) (k : A -> M (kstate V) B) s :
  p <> NULL -> bind (tcb_get p f) k s = k (f (tcb_of s p)) s.
Proof. intros. now rewrite (bind_ok _ _ _ _ _ (tcb_get_run _ _ _ H)). Qed.

Lemma bind_tcb_set {B} p f (k : unit -> M (kstate V) B) s :
  p <> NULL -> bind (tcb_set p f) k s = k tt (upd_tcb p f s).
Proof. intros. now rewrite (bind_ok _ _ _ _ _ (tcb_set_run _ _ _ H)). Qed.

Lemma bind_utcb_get {A B} p (f : utcb -> A) (k : A -> M (kstate V) B) s :
  p <> NULL -> tcb_utcb (tcb_of s p) <> NULL ->
  bind (utcb_get p f) k s = k (f (utcb_of s (tcb_utcb (tcb_of s p)))) s.
Proof. intros H1 H2. now rewrite (bind_ok _ _ _ _ _ (utcb_get_run _ _ _ H1 H2)). Qed.

Lemma bind_utcb_set {B} p f (k : unit -> M (kstate V) B) s :
  p <> NULL -> tcb_utcb (tcb_of s p) <> NULL ->
  bind (utcb_set p f) k s = k tt (upd_utcb (tcb_utcb (tcb_of s p)) f s).
Proof. intros H1 H2. now rewrite (bind_ok _ _ _ _ _ (utcb_set_run _ _ _ H1 H2)). Qed.

Lemma bind_space_get {A B} p (f : space -> A) (k : A -> M (kstate V) B) s :
  p <> NULL -> bind (space_get p f) k s = k (f (space_of s p)) s.
Proof. intros. now rewrite (bind_ok _ _ _ _ _ (space_get_run _ _ _ H)). Qed.

Lemma bind_space_set {B} p f (k : unit -> M (kstate V) B) s :
  p <> NULL -> bind (space_set p f) k s = k tt (upd_space p f s).
Proof. intros. now rewrite (bind_ok _ _ _ _ _ (space_set_run _ _ _ H)). Qed.

(** the pointers that index the array of control blocks are not [NULL] *)
Lemma get_tcb_nonnull tid : get_tcb tid <> NULL.
Proof.
  unfold get_tcb, tcb_index, NULL.
  change (2 ^ Layout.VALID_THREADNO_BITS - 1) with (Z.ones 27).
  rewrite Z.land_ones by lia. zlia.
Qed.

Lemma get_tcb_not_idle tid : get_tcb tid <> idle_tcb.
Proof.
  unfold get_tcb, tcb_index, idle_tcb.
  change (2 ^ Layout.VALID_THREADNO_BITS - 1) with (Z.ones 27).
  rewrite Z.land_ones by lia. zlia.
Qed.

End Frames.

#[export] Hint Rewrite
  @tcb_of_upd_tcb_eq
  @utcb_of_upd_utcb_eq
  @space_of_upd_space_eq
  @tcb_of_upd_utcb
  @tcb_of_upd_space
  @tcb_of_with_utcbs
  @tcb_of_with_spaces
  @tcb_of_with_vm
  @tcb_of_with_current_tcb
  @tcb_of_with_wakeup_list
  @tcb_of_with_root_prio_queue
  @tcb_of_with_current_time
  @tcb_of_with_sigma0_space
  @tcb_of_with_sigma1_space
  @tcb_of_with_roottask_space
  @tcb_of_with_kernel_space
  @tcb_of_with_fp_lazy_tcb
  @tcb_of_with_cp0_status
  @tcb_of_with_kip
  @tcb_of_with_cpu
  @utcb_of_upd_tcb
  @utcb_of_upd_space
  @utcb_of_with_tcbs
  @utcb_of_with_spaces
  @utcb_of_with_vm
  @utcb_of_with_current_tcb
  @utcb_of_with_wakeup_list
  @utcb_of_with_root_prio_queue
  @utcb_of_with_current_time
  @utcb_of_with_sigma0_space
  @utcb_of_with_sigma1_space
  @utcb_of_with_roottask_space
  @utcb_of_with_kernel_space
  @utcb_of_with_fp_lazy_tcb
  @utcb_of_with_cp0_status
  @utcb_of_with_kip
  @utcb_of_with_cpu
  @space_of_upd_tcb
  @space_of_upd_utcb
  @space_of_with_tcbs
  @space_of_with_utcbs
  @space_of_with_vm
  @space_of_with_current_tcb
  @space_of_with_wakeup_list
  @space_of_with_root_prio_queue
  @space_of_with_current_time
  @space_of_with_sigma0_space
  @space_of_with_sigma1_space
  @space_of_with_roottask_space
  @space_of_with_kernel_space
  @space_of_with_fp_lazy_tcb
  @space_of_with_cp0_status
  @space_of_with_kip
  @space_of_with_cpu
  @ks_utcbs_upd_tcb
  @ks_spaces_upd_tcb
  @ks_vm_upd_tcb
  @ks_current_tcb_upd_tcb
  @ks_wakeup_list_upd_tcb
  @ks_root_prio_queue_upd_tcb
  @ks_current_time_upd_tcb
  @ks_sigma0_space_upd_tcb
  @ks_sigma1_space_upd_tcb
  @ks_roottask_space_upd_tcb
  @ks_kernel_space_upd_tcb
  @ks_fp_lazy_tcb_upd_tcb
  @ks_cp0_status_upd_tcb
  @ks_kip_upd_tcb
  @ks_cpu_upd_tcb
  @ks_tcbs_upd_utcb
  @ks_spaces_upd_utcb
  @ks_vm_upd_utcb
  @ks_current_tcb_upd_utcb
  @ks_wakeup_list_upd_utcb
  @ks_root_prio_queue_upd_utcb
  @ks_current_time_upd_utcb
  @ks_sigma0_space_upd_utcb
  @ks_sigma1_space_upd_utcb
  @ks_roottask_space_upd_utcb
  @ks_kernel_space_upd_utcb
  @ks_fp_lazy_tcb_upd_utcb
  @ks_cp0_status_upd_utcb
  @ks_kip_upd_utcb
  @ks_cpu_upd_utcb
  @ks_tcbs_upd_space
  @ks_utcbs_upd_space
  @ks_vm_upd_space
  @ks_current_tcb_upd_space
  @ks_wakeup_list_upd_space
  @ks_root_prio_queue_upd_space
  @ks_current_time_upd_space
  @ks_sigma0_space_upd_space
  @ks_sigma1_space_upd_space
  @ks_roottask_space_upd_space
  @ks_kernel_space_upd_space
  @ks_fp_lazy_tcb_upd_space
  @ks_cp0_status_upd_space
  @ks_kip_upd_space
  @ks_cpu_upd_space : ks.
#[export] Hint Rewrite @tcb_of_upd_tcb_ne @utcb_of_upd_utcb_ne @space_of_upd_space_ne using congruence : ks.
#[export] Hint Resolve get_tcb_nonnull get_tcb_not_idle : l4.

(** Simplify observations of an updated state. *)
Ltac ksimp := repeat (progress (autorewrite with ks in *; simpl in *)).

(** ** Control-block members an operation keeps *)

Section Keeps.
Context {V A : Type} (g : tcb -> A).
Implicit Types s : kstate V.

(** the part [g] of every control block is unchanged *)
Definition keeps s s' : Prop := forall q, g (tcb_of s' q) = g (tcb_of s q).

#[export] Instance keeps_preorder : PreOrder keeps.
Proof. split; [done|]. intros s1 s2 s3 H1 H2 q. now rewrite H2, H1. Qed.

Lemma keeps_upd_tcb p f s : (forall t, g (f t) = g t) -> keeps s (upd_tcb p f s).
Proof. intros Hf q. now apply tcb_field_frame. Qed.

Lemma keeps_tcb_get {B} p (f : tcb -> B) : preserves keeps (tcb_get p f).
Proof. intros s a s'. unfold tcb_get. case_match; [done|]. now intros [= _ <-]. Qed.

Lemma keeps_tcb_set p f : (forall t, g (f t) = g t) -> preserves keeps (tcb_set p f).
Proof.
  intros Hf s a s'. unfold tcb_set. case_match; [done|]. intros [= _ <-]. now apply keeps_upd_tcb.
Qed.

Lemma keeps_utcb_get {B} p (f : utcb -> B) : preserves keeps (utcb_get p f).
Proof. intros s a s'. unfold utcb_get. case_match; [done|]. now intros [= _ <-]. Qed.

Lemma keeps_utcb_set p f : preserves keeps (utcb_set p f).
Proof. intros s a s'. unfold utcb_set. case_match; [done|]. now intros [= _ <-]. Qed.

Lemma keeps_space_get {B} p (f : space -> B) : preserves keeps (space_get p f).
Proof. intros s a s'. unfold space_get. case_match; [done|]. now intros [= _ <-]. Qed.

Lemma keeps_space_set p f : preserves keeps (space_set p f).
Proof. intros s a s'. unfold space_set. case_match; [done|]. now intros [= _ <-]. Qed.

End Keeps.

Section NoHang.
Context {V : Type}.
Implicit Types p : Z.

Lemma tcb_get_never_hangs {A} p (f : tcb -> A) : never_hangs (tcb_get (V := V) p f).
Proof. intros s. unfold tcb_get. now case_match. Qed.

Lemma tcb_set_never_hangs p f : never_hangs (tcb_set (V := V) p f).
Proof. intros s. unfold tcb_set. now case_match. Qed.

Lemma utcb_get_never_hangs {A} p (f : utcb -> A) : never_hangs (utcb_get (V := V) p f).
Proof. intros s. unfold utcb_get. now case_match. Qed.

Lemma utcb_set_never_hangs p f : never_hangs (utcb_set (V := V) p f).
Proof. intros s. unfold utcb_set. now case_match. Qed.

Lemma space_get_never_hangs {A} p (f : space -> A) : never_hangs (space_get (V := V) p f).
Proof. intros s. unfold space_get. now case_match. Qed.

Lemma space_set_never_hangs p f : never_hangs (space_set (V := V) p f).
Proof. intros s. unfold space_set. now case_match. Qed.

End NoHang.

Create HintDb hangs discriminated.
#[export] Hint Resolve tcb_get_never_hangs tcb_set_never_hangs utcb_get_never_hangs
  utcb_set_never_hangs space_get_never_hangs space_set_never_hangs : hangs.

(** the operation never hangs, by walking through its text *)
Ltac no_hang := walk_hang ltac:(fun _ => solve [auto with hangs]).

Section KeepsQueues.
Context {V A : Type} (g : tcb -> A) (H : RingHeap (kstate V)).
Hypothesis put_keeps : forall p r s, keeps g s (rput (RingHeap := H) p r s).

Lemma keeps_enqueue_tail h t : preserves (keeps g) (of_option (ENQUEUE_LIST_TAIL (RingHeap0 := H) h t)).
Proof.
  apply preserves_of_option. intros s a s'. apply (ENQUEUE_LIST_TAIL_frame (RingHeap0 := H) (keeps g) put_keeps).
Qed.

Lemma keeps_enqueue_head h t : preserves (keeps g) (of_option (ENQUEUE_LIST_HEAD (RingHeap0 := H) h t)).
Proof.
  apply preserves_of_option. intros s a s'. apply (ENQUEUE_LIST_HEAD_frame (RingHeap0 := H) (keeps g) put_keeps).
Qed.

Lemma keeps_dequeue h t : preserves (keeps g) (of_option (DEQUEUE_LIST (RingHeap0 := H) h t)).
Proof.
  apply preserves_of_option. intros s a s'. apply (DEQUEUE_LIST_frame (RingHeap0 := H) (keeps g) put_keeps).
Qed.

End KeepsQueues.

Create HintDb keeps discriminated.

(** the operation keeps the part in question of all control blocks, by walking
    through its text *)
Ltac keep := walk_pres ltac:(fun _ => first
  [ apply keeps_tcb_get | apply keeps_tcb_set; solve [intros ?; reflexivity | auto]
  | apply keeps_utcb_get | apply keeps_utcb_set | apply keeps_space_get | apply keeps_space_set
  | apply preserves_modify; intros ? ?; reflexivity
  | apply keeps_enqueue_tail; intros ? ? ?; apply keeps_upd_tcb; intros ?; reflexivity
  | apply keeps_enqueue_head; intros ? ? ?; apply keeps_upd_tcb; intros ?; reflexivity
  | apply keeps_dequeue; intros ? ? ?; apply keeps_upd_tcb; intros ?; reflexivity
  | solve [auto with keeps] ]).

(** ** Observational equality

    A block that was never written and one that holds zeros look the same, so
    states are compared by what can be read from them. *)

Section Observation.
Context {V : Type}.
Implicit Types s : kstate V.

Definition mask_objects s : kstate V := ks_with_tcbs ∅ (ks_with_utcbs ∅ (ks_with_spaces ∅ s)).

Record kstate_eq s s' : Prop := {
  keq_tcb : forall p, tcb_of s p = tcb_of s' p;
  keq_utcb : forall u, utcb_of s u = utcb_of s' u;
  keq_space : forall sp, space_of s sp = space_of s' sp;
  keq_rest : mask_objects s = mask_objects s';
}.

#[export] Instance kstate_equiv : Equiv (kstate V) := kstate_eq.

#[export] Instance kstate_equivalence : Equivalence (≡@{kstate V}).
Proof.
  split.
  - intros s. now split.
  - intros s s' []. now split.
  - intros s1 s2 s3 [A1 A2 A3 A4] [B1 B2 B3 B4]. split; intros; congruence.
Qed.

#[export] Instance tcb_of_proper : Proper ((≡@{kstate V}) ==> eq ==> eq) (tcb_of (V := V)).
Proof. intros s s' H p p' ->. apply H. Qed.

#[export] Instance upd_tcb_proper p f : Proper ((≡@{kstate V}) ==> (≡@{kstate V})) (upd_tcb (V := V) p f).
Proof.
  intros s s' [H1 H2 H3 H4]. split; [|exact H2|exact H3|exact H4].
  intros q. rewrite !tcb_of_upd_tcb. now rewrite H1.
Qed.

#[export] Instance upd_utcb_proper u f : Proper ((≡@{kstate V}) ==> (≡@{kstate V})) (upd_utcb (V := V) u f).
Proof.
  intros s s' [H1 H2 H3 H4]. split; [exact H1| |exact H3|exact H4].
  intros q. rewrite !utcb_of_upd_utcb. now rewrite H2.
Qed.

#[export] Instance upd_space_proper sp f : Proper ((≡@{kstate V}) ==> (≡@{kstate V})) (upd_space (V := V) sp f).
Proof.
  intros s s' [H1 H2 H3 H4]. split; [exact H1|exact H2| |exact H4].
  intros q. rewrite !space_of_upd_space. now rewrite H3.
Qed.

#[export] Instance with_current_proper c : Proper ((≡@{kstate V}) ==> (≡@{kstate V})) (ks_with_current_tcb (V := V) c).
Proof.
  intros s s' [H1 H2 H3 H4]. split; [exact H1|exact H2|exact H3|].
  apply (f_equal (ks_with_current_tcb c)) in H4. exact H4.
Qed.

(** an update that changes nothing *)
Lemma upd_tcb_same p f s : f (tcb_of s p) = tcb_of s p -> upd_tcb p f s ≡ s.
Proof.
  intros Hf. split; try done. intros q. rewrite tcb_of_upd_tcb. case_decide; [now subst|done].
Qed.

Lemma upd_utcb_same u f s : f (utcb_of s u) = utcb_of s u -> upd_utcb u f s ≡ s.
Proof.
  intros Hf. split; try done. intros q. rewrite utcb_of_upd_utcb. case_decide; [now subst|done].
Qed.

(** updates of the same objects with the same effect *)
Lemma upd_both_equiv p f f' u g g' s :
  f (tcb_of s p) = f' (tcb_of s p) -> g (utcb_of s u) = g' (utcb_of s u) ->
  upd_tcb p f (upd_utcb u g s) ≡ upd_tcb p f' (upd_utcb u g' s).
Proof.
  intros Hf Hg. split; try done; intros q.
  - rewrite !tcb_of_upd_tcb, !tcb_of_upd_utcb. case_decide; [now subst|done].
  - rewrite !utcb_of_upd_tcb, !utcb_of_upd_utcb. case_decide; [now subst|done].
Qed.

End Observation.

(** two updates of a state have the same effect, object by object *)
Ltac same_object :=
  repeat case_decide; subst; try reflexivity;
  match goal with
  | |- context [tcb_of ?s ?p] => destruct (tcb_of s p); reflexivity
  | |- context [utcb_of ?s ?p] => destruct (utcb_of s p); reflexivity
  | |- context [space_of ?s ?p] => destruct (space_of s p); reflexivity
  end.
Ltac kobserve := repeat first
  [ rewrite tcb_of_upd_tcb | rewrite utcb_of_upd_utcb | rewrite space_of_upd_space
  | rewrite tcb_of_upd_utcb | rewrite tcb_of_upd_space | rewrite utcb_of_upd_tcb | rewrite utcb_of_upd_space
  | rewrite space_of_upd_tcb | rewrite space_of_upd_utcb
  | rewrite tcb_of_with_current_tcb | rewrite tcb_of_with_fp_lazy_tcb | rewrite tcb_of_with_cp0_status ].
Ltac kequiv := split;
  [ intros ?; kobserve; same_object | intros ?; kobserve; same_object
  | intros ?; kobserve; same_object | reflexivity ].

(** ** Symbolic execution

    [krun] executes the leading accesses to control blocks, UTCBs and spaces of
    the goal's computation; the pointers must be known not to be [NULL]. *)

Create HintDb kacc discriminated.
#[export] Hint Unfold get_current_tcb get_space set_space exists_ is_activated get_utcb
  get_global_id get_local_id tcb_set_global_id get_utcb_location set_utcb_location
  set_scheduler get_scheduler set_irq_handler get_irq_handler set_state get_state
  set_partner get_partner get_partner_tcb get_saved_partner set_saved_partner
  get_saved_state set_saved_state set_cpu get_pager set_pager get_exception_handler
  set_exception_handler get_user_handle set_user_handle set_actual_sender
  get_virtual_sender get_intended_receiver set_error_code get_error_code
  get_preempt_flags set_preempt_flags get_cop_flags get_xfer_timeout_snd
  get_xfer_timeout_rcv get_mr set_mr get_br set_br get_tag set_tag allocate init_stack
  notify get_user_ip get_user_sp get_user_flags set_user_ip set_user_sp set_user_flags
  switch_to switch_to_idle get_kip_page_area get_utcb_page_area is_initialized
  add_tcb copy_mrs : kacc.

Lemma get_word_eq {V} p i :
  0 <= i < UTCB_WORDS -> get_word (V := V) p i = utcb_get p (fun u => word_at u i).
Proof. intros H. unfold get_word. replace ((0 <=? i) && (i <? UTCB_WORDS)) with true by lia. done. Qed.

Lemma set_word_eq {V} p i v :
  0 <= i < UTCB_WORDS -> set_word (V := V) p i v = utcb_set p (utcb_with_word i v).
Proof. intros H. unfold set_word. replace ((0 <=? i) && (i <? UTCB_WORDS)) with true by lia. done. Qed.

(** updates of one object fuse; UTCB updates move below control-block updates *)
Lemma upd_tcb_fuse {V} p f g (s : kstate V) :
  upd_tcb p f (upd_tcb p g s) = upd_tcb p (fun t => f (g t)) s.
Proof. unfold upd_tcb at 1. rewrite tcb_of_upd_tcb_eq. unfold upd_tcb, ks_with_tcbs. simpl. now rewrite insert_insert_eq. Qed.

Lemma upd_utcb_fuse {V} p f g (s : kstate V) :
  upd_utcb p f (upd_utcb p g s) = upd_utcb p (fun t => f (g t)) s.
Proof. unfold upd_utcb at 1. rewrite utcb_of_upd_utcb_eq. unfold upd_utcb, ks_with_utcbs. simpl. now rewrite insert_insert_eq. Qed.

Lemma upd_utcb_upd_tcb {V} u f p g (s : kstate V) :
  upd_utcb u f (upd_tcb p g s) = upd_tcb p g (upd_utcb u f s).
Proof. done. Qed.

(** an update only depends on what it does to the block as it is *)
Lemma upd_tcb_ext {V} p f g (s : kstate V) :
  f (tcb_of s p) = g (tcb_of s p) -> upd_tcb p f s = upd_tcb p g s.
Proof. unfold upd_tcb. now intros ->. Qed.

Ltac kfuse := rewrite ?upd_utcb_upd_tcb, ?upd_utcb_fuse, ?upd_tcb_fuse.
Ltac kobs := rewrite ?tcb_of_upd_tcb_eq, ?tcb_of_upd_utcb, ?utcb_of_upd_tcb, ?utcb_of_upd_utcb_eq;
  cbn [tcb_utcb].
Ltac kside := first [done | assumption | lia | solve [kobs; simpl; done] | solve [kobs; simpl; assumption]
  | solve [ksimp; done] | solve [ksimp; assumption]].
Ltac kindex := unfold UTCB_WORDS, Config.IPC_NUM_MR; lia.
Ltac krun1 := first
  [ rewrite get_word_eq by kindex | rewrite set_word_eq by kindex
  | rewrite bind_gets | rewrite bind_modify | rewrite bind_ret_l | rewrite bind_when_false | rewrite bind_when_true | rewrite bind_pure | rewrite bind_assoc
  | rewrite bind_tcb_get by kside | rewrite bind_tcb_set by kside
  | rewrite bind_utcb_get by kside | rewrite bind_utcb_set by kside
  | rewrite bind_space_get by kside | rewrite bind_space_set by kside
  | rewrite tcb_get_run by kside | rewrite tcb_set_run by kside
  | rewrite utcb_get_run by kside | rewrite utcb_set_run by kside ].
Ltac krun := autounfold with kacc; repeat (krun1; cbv beta; kobs; simpl; kfuse).
