(* ===== verification/Sched.v ===== *)
(** * The scheduler

    [api/v4/schedule.h] and the scheduling part of [api/backup/schedule.cc]:
    the ready queues of [prio_queue_t], timeouts, the choice of the next
    thread, the end of a timeslice, delayed preemption and the parsing of the
    wakeup queue.  Code that only exists in SMP kernels is left out. *)

From Stdlib Require Import ZArith Lia Bool List.
From stdpp Require Import base numbers list option gmap.
From S2P Require Import Prelude Types Time Kip ThreadId Fpage State Msg Ring Monad Tcb.
Open Scope Z_scope.

(** ** Operations *)

Section Operations.
Context {V : Type}.
Abbreviation S := (kstate V).
Abbreviation K := (M (kstate V)).

Definition ready_ring : RingHeap S.
Proof.
  refine {| rget s p := tcb_ready_list (tcb_of s p);
            rput p r s := upd_tcb p (tcb_with_ready_list r) s |}.
  intros p q r s. rewrite tcb_of_upd_tcb. now case_decide.
Defined.

Definition wait_ring : RingHeap S.
Proof.
  refine {| rget s p := tcb_wait_list (tcb_of s p);
            rput p r s := upd_tcb p (tcb_with_wait_list r) s |}.
  intros p q r s. rewrite tcb_of_upd_tcb. now case_decide.
Defined.

(** *** [prio_queue_t] *)

(** [prio_queue[prio]]; an index outside the array is outside the model *)
Definition prio_ok (prio : Z) : bool := (0 <=? prio) && (prio <=? Config.MAX_PRIO).
Definition pq_head (s : S) (prio : Z) : Z :=
  default NULL (pq_queue (ks_root_prio_queue s) !! prio).
Definition upd_pq (f : prio_queue -> prio_queue) (s : S) : S :=
  ks_with_root_prio_queue (f (ks_root_prio_queue s)) s.
Definition pq_with_head (prio tcb : Z) (q : prio_queue) : prio_queue :=
  pq_with_queue (<[prio := tcb]> (pq_queue q)) q.

Definition pq_get (prio : Z) : K Z :=
  if prio_ok prio then gets (fun s => pq_head s prio) else crash.
Definition pq_set (prio tcb : Z) : K unit :=
  if prio_ok prio then modify (upd_pq (pq_with_head prio tcb)) else crash.

Definition set_queue_state (p : Z) (q : QueueState.state_e) : K unit :=
  tcb_set p (fun t => tcb_with_queue_state (QueueState.set q (tcb_queue_state t)) t).
Definition clear_queue_state (p : Z) (q : QueueState.state_e) : K unit :=
  tcb_set p (fun t => tcb_with_queue_state (QueueState.clear q (tcb_queue_state t)) t).
Definition queue_state_is_set (p : Z) (q : QueueState.state_e) : K bool :=
  tcb_get p (fun t => QueueState.is_set q (tcb_queue_state t)).

Definition get_priority (p : Z) : K Z := tcb_get p tcb_priority.

Definition pq_enqueue (tcb : Z) (head : bool) : K unit :=
  let* queued := queue_state_is_set tcb QueueState.ready in
  if queued then ret tt else
  let* prio := get_priority tcb in
  let* hd := pq_get prio in
  let* hd := of_option (if head then ENQUEUE_LIST_HEAD (RingHeap0 := ready_ring) hd tcb
                        else ENQUEUE_LIST_TAIL (RingHeap0 := ready_ring) hd tcb) in
  pq_set prio hd ;;;
  set_queue_state tcb QueueState.ready ;;;
  modify (upd_pq (fun q => pq_with_max_prio (max prio (pq_max_prio q)) q)).

Definition pq_dequeue (tcb : Z) : K unit :=
  let* queued := queue_state_is_set tcb QueueState.ready in
  if negb queued then ret tt else
  let* prio := get_priority tcb in
  let* hd := pq_get prio in
  let* hd := of_option (DEQUEUE_LIST (RingHeap0 := ready_ring) hd tcb) in
  pq_set prio hd ;;;
  clear_queue_state tcb QueueState.ready.

(** [for (int i = 0; i < MAX_PRIO; i++) prio_queue[i] = NULL] *)
Definition pq_init : K unit :=
  modify (upd_pq (fun q =>
    foldr (fun i q => pq_with_head (Z.of_nat i) NULL q) (pq_with_max_prio (-1) q)
          (seq 0 (Z.to_nat Config.MAX_PRIO)))).

(** *** [scheduler_t] *)

Definition enqueue_ready (tcb : Z) (head : bool) : K unit := pq_enqueue tcb head.
Definition dequeue_ready (tcb : Z) : K unit := pq_dequeue tcb.

Definition pq_timeslice (s : S) : Z := pq_current_timeslice (ks_root_prio_queue s).
Definition set_pq_timeslice (v : Z) : K unit := modify (upd_pq (pq_with_current_timeslice v)).

Definition set_sensitive_prio (tcb prio : Z) : K unit := tcb_set tcb (tcb_with_sensitive_prio prio).
Definition get_sensitive_prio (tcb : Z) : K Z := tcb_get tcb tcb_sensitive_prio.

Definition set_priority (tcb prio : Z) : K unit :=
  tcb_set tcb (tcb_with_priority prio) ;;;
  let* sens := get_sensitive_prio tcb in
  when (sens <? prio) (set_sensitive_prio tcb prio).

Definition set_maximum_delay (tcb usec : Z) : K unit :=
  tcb_set tcb (fun t => tcb_with_current_max_delay (w16 usec) (tcb_with_max_delay (w16 usec) t)).

(** assigning a [u64_t] to an [s64_t] *)
Definition set_total_quantum (tcb quantum : Z) : K unit :=
  tcb_set tcb (tcb_with_total_quantum
    (if time_is_never quantum then 0 else get_microseconds quantum)) ;;;
  tcb_set tcb (fun t => tcb_with_current_timeslice (swrap 64 (tcb_timeslice_length t)) t).

Definition set_timeslice_length (tcb timeslice : Z) : K unit :=
  tcb_set tcb (fun t =>
    tcb_with_current_timeslice (swrap 64 (get_microseconds timeslice))
      (tcb_with_timeslice_length (get_microseconds timeslice) t)).

Definition init_tcb (tcb prio total_quantum timeslice_length : Z) : K unit :=
  set_timeslice_length tcb timeslice_length ;;;
  set_total_quantum tcb total_quantum ;;;
  set_priority tcb prio ;;;
  set_sensitive_prio tcb prio ;;;
  set_maximum_delay tcb 0.

Definition get_current_time : K Z := gets ks_current_time.

Definition set_timeout_abs (tcb absolute_time : Z) : K unit :=
  tcb_set tcb (tcb_with_absolute_timeout absolute_time) ;;;
  let* hd := gets ks_wakeup_list in
  let* hd := of_option (ENQUEUE_LIST_TAIL (RingHeap0 := wait_ring) hd tcb) in
  modify (ks_with_wakeup_list hd) ;;;
  set_queue_state tcb QueueState.wakeup.

Definition set_timeout (tcb time : Z) : K unit :=
  if time_is_point time then hang else
  let* now := get_current_time in
  set_timeout_abs tcb (w64 (now + get_microseconds time)).

Definition cancel_timeout (tcb : Z) : K unit :=
  let* queued := queue_state_is_set tcb QueueState.wakeup in
  if negb queued then ret tt else
  let* hd := gets ks_wakeup_list in
  let* hd := of_option (DEQUEUE_LIST (RingHeap0 := wait_ring) hd tcb) in
  modify (ks_with_wakeup_list hd) ;;;
  clear_queue_state tcb QueueState.wakeup.

Definition has_timeout_expired (tcb time : Z) : K bool :=
  tcb_get tcb (fun t => tcb_absolute_timeout t <=? time).

(** [time_t::operator<] *)
Definition time_lt (l r : Z) : K bool :=
  let* curtime := get_current_time in
  if time_is_point l then hang else
  let l_to := if time_is_never l then w64 (-1) else w64 (curtime + get_microseconds l) in
  if time_is_point r then hang else
  let r_to := if time_is_never r then w64 (-1) else w64 (curtime + get_microseconds r) in
  ret (l_to <? r_to).

(** *** Delayed preemption and dispatching *)

Definition delay_preemption (current tcb : Z) : K bool :=
  if current =? tcb then ret true else
  let* sens := get_sensitive_prio current in
  let* prio := get_priority tcb in
  if sens <? prio then ret false else
  tcb_get current (fun t => 0 <? tcb_current_max_delay t).

Definition check_dispatch_thread (current tcb : Z) : K bool :=
  let* flags := get_preempt_flags current in
  let* delay := (if PreemptFlags.is_delayed flags
                 then tcb_get current (fun t => truth (tcb_current_max_delay t))
                 else ret false) in
  if delay then let* d := delay_preemption current tcb in ret (negb d)
  else
    let* p1 := get_priority current in
    let* p2 := get_priority tcb in
    ret (p1 <? p2).

Definition preempt_thread (current dest : Z) : K unit :=
  let* slice := gets pq_timeslice in
  tcb_set current (tcb_with_current_timeslice slice) ;;;
  enqueue_ready current true ;;;
  let* slice := tcb_get dest tcb_current_timeslice in
  set_pq_timeslice slice.

(** *** [find_next_thread]

    The outer loop runs over priorities, the inner one over the head of one
    queue; [queue_fuel] bounds the number of dequeues of the inner loop. *)

Fixpoint find_in_queue (fuel : nat) (prio tcb : Z) : K (option Z) :=
  if tcb =? NULL then ret None else
  match fuel with
  | O => hang
  | Datatypes.S fuel =>
      let* st := get_state tcb in
      if ThreadState.is_runnable st then
        pq_set prio tcb ;;;
        modify (upd_pq (pq_with_max_prio prio)) ;;;
        ret (Some tcb)
      else
        pq_dequeue tcb ;;;
        let* tcb := pq_get prio in
        find_in_queue fuel prio tcb
  end.

(** [n] priorities are left: the loop variable [prio] is [n - 1] *)
Fixpoint find_from (fuel n : nat) : K Z :=
  match n with
  | O =>
      modify (upd_pq (pq_with_max_prio (-1))) ;;;
      ret get_idle_tcb
  | Datatypes.S n =>
      let* tcb := pq_get (Z.of_nat n) in
      let* r := find_in_queue fuel (Z.of_nat n) tcb in
      match r with
      | Some tcb => ret tcb
      | None => find_from fuel n
      end
  end.

Definition find_next_thread (fuel : nat) : K Z :=
  let* m := gets (fun s => pq_max_prio (ks_root_prio_queue s)) in
  find_from fuel (Z.to_nat (m + 1)).

Definition schedule (fuel : nat) (current : Z) : K bool :=
  let* tcb := find_next_thread fuel in
  if tcb =? current then ret false else
  when (negb (current =? get_idle_tcb)) (enqueue_ready current false) ;;;
  switch_to current tcb ;;;
  ret true.

Definition end_of_timeslice (tcb : Z) : K unit :=
  enqueue_ready tcb true ;;;
  let* prio := get_priority tcb in
  let* nxt := tcb_get tcb (fun t => next (tcb_ready_list t)) in
  pq_set prio nxt ;;;
  let* slice := gets pq_timeslice in
  tcb_set tcb (fun t => tcb_with_current_timeslice
                          (swrap 64 (slice + tcb_timeslice_length t)) t) ;;;
  let* hd := pq_get prio in
  let* slice := tcb_get hd tcb_current_timeslice in
  set_pq_timeslice slice.

(** *** The wakeup queue *)

Definition HAS_XFER_TIMEOUT : Z := 0.

(** what happens to a thread whose timeout triggers *)
Definition wake_up (tcb : Z) : K unit :=
  cancel_timeout tcb ;;;
  tcb_set tcb (fun t => tcb_with_flags (Bitmask.sub (tcb_flags t) HAS_XFER_TIMEOUT) t) ;;;
  let* st := get_state tcb in
  when (ThreadState.is_sending st || ThreadState.is_receiving st)
    (notify tcb handle_ipc_timeout_fn [st]) ;;;
  set_state tcb ThreadState.running ;;;
  enqueue_ready tcb false.

(** one pass of the [do] loop: the next block to look at, the thread with the
    highest priority so far and [list_head_changed] *)
Definition wakeup_step (highest tcb : Z) : K (Z * Z * bool) :=
  let* now := get_current_time in
  let* expired := has_timeout_expired tcb now in
  if expired then
    let* st := get_state tcb in
    let* xfer := tcb_get tcb (fun t => Bitmask.is_set (tcb_flags t) HAS_XFER_TIMEOUT) in
    if ThreadState.is_waiting_forever st && negb xfer then
      let* tmp := tcb_get tcb (fun t => next (tcb_wait_list t)) in
      cancel_timeout tcb ;;;
      ret (tmp, highest, true)
    else
      let* up := check_dispatch_thread highest tcb in
      let* tmp := tcb_get tcb (fun t => next (tcb_wait_list t)) in
      wake_up tcb ;;;
      ret (tmp, if up then tcb else highest, true)
  else
    let* tmp := tcb_get tcb (fun t => next (tcb_wait_list t)) in
    ret (tmp, highest, false).

Fixpoint wakeup_loop (fuel : nat) (highest tcb : Z) : K Z :=
  match fuel with
  | O => hang
  | Datatypes.S fuel =>
      let* r := wakeup_step highest tcb in
      let '(tcb, highest, list_head_changed) := r in
      let* wl := gets ks_wakeup_list in
      if negb (wl =? NULL) && (negb (tcb =? wl) || list_head_changed)
      then wakeup_loop fuel highest tcb
      else ret highest
  end.

Definition parse_wakeup_queues (fuel : nat) (current : Z) : K Z :=
  let* wl := gets ks_wakeup_list in
  if wl =? NULL then ret current else wakeup_loop fuel current wl.

(** *** IPC send queues ([tcb_t::enqueue_send], [tcb_t::dequeue_send]) *)

Definition enqueue_send (this tcb : Z) : K unit :=
  let* hd := tcb_get tcb tcb_send_head in
  let* hd := of_option (ENQUEUE_LIST_TAIL (RingHeap0 := send_ring) hd this) in
  tcb_set tcb (tcb_with_send_head hd) ;;;
  set_queue_state this QueueState.send.

Definition dequeue_send (this tcb : Z) : K unit :=
  let* hd := tcb_get tcb tcb_send_head in
  let* hd := of_option (DEQUEUE_LIST (RingHeap0 := send_ring) hd this) in
  tcb_set tcb (tcb_with_send_head hd) ;;;
  clear_queue_state this QueueState.send.

End Operations.

(** ** What the queue operations leave alone *)

Section Frames.
Context {V : Type}.
Abbreviation S := (kstate V).
Implicit Types s : kstate V.

(** a control block without its membership in the ready queues *)
Definition mask_ready (t : tcb) : tcb :=
  tcb_with_ready_list null_ring
    (tcb_with_queue_state (QueueState.clear QueueState.ready (tcb_queue_state t)) t).

(** the state without control blocks and ready queues *)
Definition mask_queues (s : S) : S :=
  ks_with_tcbs ∅
    (ks_with_root_prio_queue (PrioQueue 0 ∅ (pq_current_timeslice (ks_root_prio_queue s))) s).

(** [s'] differs from [s] in ready queues and membership in them only *)
Record ready_frame s s' : Prop := {
  rf_rest : mask_queues s' = mask_queues s;
  rf_tcb : forall q, mask_ready (tcb_of s' q) = mask_ready (tcb_of s q);
}.

#[export] Instance ready_frame_preorder : PreOrder ready_frame.
Proof.
  split.
  - intros s. done.
  - intros s1 s2 s3 [H1 H2] [H3 H4]. split; [congruence|]. intros q. now rewrite H4, H2.
Qed.

Lemma rf_field {A} (g : tcb -> A) s s' q :
  ready_frame s s' -> (forall t, g (mask_ready t) = g t) -> g (tcb_of s' q) = g (tcb_of s q).
Proof. intros [_ H] Hg. rewrite <- (Hg (tcb_of s' q)), H. apply Hg. Qed.

Lemma rf_global {A} (g : S -> A) s s' :
  ready_frame s s' -> (forall s, g (mask_queues s) = g s) -> g s' = g s.
Proof. intros [H _] Hg. rewrite <- (Hg s'), H. apply Hg. Qed.

Lemma clear_set q e : QueueState.clear e (QueueState.set e q) = QueueState.clear e q.
Proof.
  unfold QueueState.clear, QueueState.set. apply Z.bits_inj'. intros i Hi.
  rewrite !Z.land_spec, Z.lor_spec. unfold wnot. rewrite wrap_testbit, Z.lnot_spec by lia.
  destruct (Z.testbit (QueueState.val e) i); simpl; now rewrite ?andb_false_r, ?orb_false_r.
Qed.

Lemma clear_clear q e : QueueState.clear e (QueueState.clear e q) = QueueState.clear e q.
Proof.
  unfold QueueState.clear. rewrite <- Z.land_assoc. f_equal. apply Z.land_diag.
Qed.

Lemma ready_frame_upd_tcb p f s :
  (forall t, mask_ready (f t) = mask_ready t) -> ready_frame s (upd_tcb p f s).
Proof.
  intros Hf. split; [done|]. intros q. rewrite tcb_of_upd_tcb. case_decide; auto.
Qed.

Lemma ready_frame_upd_pq f s :
  (forall q, pq_current_timeslice (f q) = pq_current_timeslice q) -> ready_frame s (upd_pq f s).
Proof.
  intros Hf. split; [|done]. unfold mask_queues, upd_pq. simpl. now rewrite Hf.
Qed.

(** whether a thread is in a ready queue *)
Definition queued s (t : Z) : bool := QueueState.is_set QueueState.ready (tcb_queue_state (tcb_of s t)).
Definition prio_of s (t : Z) : Z := tcb_priority (tcb_of s t).
Definition max_prio s : Z := pq_max_prio (ks_root_prio_queue s).
Definition runnable s (t : Z) : bool := ThreadState.is_runnable (tcb_thread_state (tcb_of s t)).

Lemma rf_prio s s' t : ready_frame s s' -> prio_of s' t = prio_of s t.
Proof. intros H. now apply (rf_field tcb_priority). Qed.

Lemma rf_runnable s s' t : ready_frame s s' -> runnable s' t = runnable s t.
Proof. intros H. unfold runnable. f_equal. now apply (rf_field tcb_thread_state). Qed.

(** the macros write ready links only *)
Definition link_frame s s' : Prop :=
  ks_with_tcbs ∅ s' = ks_with_tcbs ∅ s /\
  forall q, tcb_with_ready_list null_ring (tcb_of s' q) = tcb_with_ready_list null_ring (tcb_of s q).

#[export] Instance link_frame_preorder : PreOrder link_frame.
Proof.
  split.
  - intros s. done.
  - intros s1 s2 s3 [H1 H2] [H3 H4]. split; [congruence|]. intros q. now rewrite H4, H2.
Qed.

Lemma link_frame_put p r s : link_frame s (rput (RingHeap := ready_ring) p r s).
Proof.
  split; [done|]. intros q. simpl. rewrite tcb_of_upd_tcb. now case_decide.
Qed.

Lemma link_frame_ready s s' : link_frame s s' -> ready_frame s s'.
Proof.
  intros [H1 H2]. split.
  - unfold mask_queues. change (ks_root_prio_queue s') with (ks_root_prio_queue (ks_with_tcbs ∅ s')).
    change (ks_with_tcbs ∅ (ks_with_root_prio_queue ?q s')) with
      (ks_with_root_prio_queue q (ks_with_tcbs ∅ s')). now rewrite H1.
  - intros q. specialize (H2 q). apply (f_equal mask_ready) in H2. exact H2.
Qed.

Lemma link_queued s s' t : link_frame s s' -> queued s' t = queued s t.
Proof.
  intros [_ H]. unfold queued. specialize (H t). apply (f_equal tcb_queue_state) in H.
  simpl in H. now rewrite H.
Qed.

Lemma link_root s s' : link_frame s s' -> ks_root_prio_queue s' = ks_root_prio_queue s.
Proof. intros [H _]. now apply (f_equal ks_root_prio_queue) in H. Qed.

End Frames.

(** ** The ready queues as lists *)

Section ReadyQueues.
Context {V : Type}.
Abbreviation S := (kstate V).
Implicit Types s : kstate V.

(** the members of the ready queue of each priority *)
Abbreviation queues := (Z -> list Z).

Definition qset (Q : queues) (prio : Z) (l : list Z) : queues :=
  fun p => if decide (prio = p) then l else Q p.

Abbreviation ready_list s h l := (is_ring (RingHeap0 := ready_ring) s h l).

(** The invariant of the scheduler's queues: each array element heads a
    well-formed ring of the threads of its priority, a thread is marked queued
    exactly if it is in the queue of its priority, and [max_prio] bounds the
    priorities of the queued threads. *)
Record ready_ok s (Q : queues) : Prop := {
  ro_ring : forall p, prio_ok p = true -> ready_list s (pq_head s p) (Q p);
  ro_mem : forall p t, prio_ok p = true -> t ∈ Q p -> prio_of s t = p /\ queued s t = true;
  ro_all : forall t, queued s t = true -> prio_ok (prio_of s t) = true /\ t ∈ Q (prio_of s t);
  ro_max : forall p t, prio_ok p = true -> t ∈ Q p -> p <= max_prio s;
  ro_bound : -1 <= max_prio s <= Config.MAX_PRIO;
}.

Lemma qset_eq Q p l : qset Q p l p = l.
Proof. unfold qset. now case_decide. Qed.

Lemma qset_ne Q p p' l : p <> p' -> qset Q p l p' = Q p'.
Proof. intros. unfold qset. now case_decide. Qed.

Lemma pq_head_upd s prio h p :
  pq_head (upd_pq (pq_with_head prio h) s) p = if decide (prio = p) then h else pq_head s p.
Proof. unfold pq_head, upd_pq. simpl. rewrite lookup_insert. now case_decide. Qed.

(** rings only depend on the ready links *)
Lemma ready_list_ext s s' h l :
  (forall q, tcb_ready_list (tcb_of s' q) = tcb_ready_list (tcb_of s q)) ->
  ready_list s h l -> ready_list s' h l.
Proof.
  intros Hq Hr. apply (is_ring_same_but (RingHeap0 := ready_ring) s s' h l []); [done| |].
  - intros p _. apply Hq.
  - intros x _. apply not_elem_of_nil.
Qed.

Lemma queued_upd s t q b :
  queued (upd_tcb t (fun x => tcb_with_queue_state
            ((if b : bool then QueueState.set else QueueState.clear) QueueState.ready (tcb_queue_state x)) x) s) q
  = if decide (t = q) then b else queued s q.
Proof.
  unfold queued. rewrite tcb_of_upd_tcb. case_decide; [|done]. destruct b; simpl; autorewrite with bf.
  - now rewrite bool_decide_eq_true_2.
  - rewrite bool_decide_eq_true_2 by done. done.
Qed.

(** The part of the invariant about one changed queue: [t] of priority [prio]
    entered or left it. *)
Lemma ready_ok_change s s1 s' Q prio t l' hd' (b : bool) :
  ready_ok s Q -> prio_ok prio = true -> prio_of s t = prio -> queued s t = negb b ->
  (forall x, x ∈ l' <-> if b then x = t \/ x ∈ Q prio else x <> t /\ x ∈ Q prio) ->
  link_frame s s1 ->
  same_but (RingHeap0 := ready_ring) s s1 (t :: Q prio) ->
  ready_list s1 hd' l' ->
  ready_frame s s' ->
  (forall q, tcb_ready_list (tcb_of s' q) = tcb_ready_list (tcb_of s1 q)) ->
  (forall p, pq_head s' p = if decide (prio = p) then hd' else pq_head s p) ->
  (forall q, queued s' q = if decide (t = q) then b else queued s q) ->
  max_prio s' = (if b then max prio (max_prio s) else max_prio s) ->
  ready_ok s' (qset Q prio l').
Proof.
  intros Hok Hp Hpt Hqt Hl' Hlink Hsame Hring Hframe Hlists Hhead Hqueued Hmax.
  assert (Hprio : forall q, prio_of s' q = prio_of s q) by (intros q; now apply rf_prio).
  assert (Hm : max_prio s <= max_prio s').
  { rewrite Hmax. destruct b; [rewrite max_Zmax|]; lia. }
  split.
  - intros p Hpp. apply (ready_list_ext s1); [done|]. rewrite Hhead. unfold qset.
    case_decide as E; [done|].
    apply (is_ring_same_but (RingHeap0 := ready_ring) s s1 _ _ (t :: Q prio)); [|done|].
    + now apply ro_ring.
    + intros x Hx. destruct (ro_mem _ _ Hok p x Hpp Hx) as [Hx1 Hx2].
      rewrite not_elem_of_cons. split; [congruence|]. intros Hx3.
      destruct (ro_mem _ _ Hok prio x Hp Hx3). congruence.
  - intros p x Hpp Hx. rewrite Hprio, Hqueued. unfold qset in Hx. case_decide as E.
    + subst p. apply Hl' in Hx. destruct b.
      * destruct Hx as [->|Hx]; [now case_decide|].
        destruct (ro_mem _ _ Hok prio x Hp Hx). split; [done|]. now case_decide.
      * destruct Hx as [Hne Hx]. destruct (ro_mem _ _ Hok prio x Hp Hx).
        split; [done|]. case_decide; congruence.
    + destruct (ro_mem _ _ Hok p x Hpp Hx) as [H1 H2]. split; [done|].
      case_decide; [congruence|done].
  - intros x. rewrite Hprio, Hqueued. case_decide as E.
    + intros ->. subst x. rewrite Hpt. split; [done|]. rewrite qset_eq. apply Hl'. now left.
    + intros Hx. destruct (ro_all _ _ Hok x Hx) as [H1 H2]. split; [done|].
      unfold qset. case_decide as E'; [|done]. apply Hl'. rewrite E'.
      destruct b; [now right|]. split; [congruence|done].
  - intros p x Hpp Hx. unfold qset in Hx. case_decide as E.
    + subst p. apply Hl' in Hx. rewrite Hmax. destruct b.
      * rewrite max_Zmax. lia.
      * destruct Hx as [_ Hx]. now apply (ro_max _ _ Hok prio x).
    + etransitivity; [|exact Hm]. now apply (ro_max _ _ Hok p x).
  - destruct (ro_bound _ _ Hok). rewrite Hmax. unfold prio_ok in Hp.
    destruct b; [rewrite max_Zmax|]; lia.
Qed.

(** [prio_queue_t::enqueue] *)
Lemma pq_enqueue_spec s Q t head :
  ready_ok s Q -> t <> NULL -> prio_ok (prio_of s t) = true ->
  exists s', pq_enqueue t head s = Ok (tt, s') /\ ready_frame s s' /\
    max_prio s <= max_prio s' /\ queued s' t = true /\
    ready_ok s' (if queued s t then Q else
      qset Q (prio_of s t) (if head then t :: Q (prio_of s t) else Q (prio_of s t) ++ [t])).
Proof.
  intros Hok Ht Hp. unfold pq_enqueue, queue_state_is_set. rewrite bind_tcb_get by done.
  fold (queued s t). destruct (queued s t) eqn:Eq.
  { exists s. split_and!; [done..|lia|done|done]. }
  unfold get_priority. rewrite bind_tcb_get by done. fold (prio_of s t).
  set (prio := prio_of s t) in *. unfold pq_get. rewrite Hp, bind_gets.
  pose proof (ro_ring _ _ Hok prio Hp) as Hr.
  assert (Hni : t ∉ Q prio).
  { intros Hin. destruct (ro_mem _ _ Hok prio t Hp Hin). congruence. }
  assert (exists hd' s1, (if head then ENQUEUE_LIST_HEAD (RingHeap0 := ready_ring) (pq_head s prio) t
     else ENQUEUE_LIST_TAIL (RingHeap0 := ready_ring) (pq_head s prio) t) s = Some (hd', s1) /\
     ready_list s1 hd' (if head then t :: Q prio else Q prio ++ [t]) /\
     same_but (RingHeap0 := ready_ring) s s1 (t :: Q prio) /\ link_frame s s1)
    as (hd' & s1 & E & Hr1 & Hs1 & Hl1).
  { destruct head.
    - destruct (enqueue_head_ring (RingHeap0 := ready_ring) _ _ _ _ Hr Ht Hni) as (s1 & E & H1 & H2).
      exists t, s1. split_and!; [done..|].
      now apply (ENQUEUE_LIST_HEAD_frame (RingHeap0 := ready_ring) link_frame link_frame_put) in E.
    - destruct (enqueue_tail_ring (RingHeap0 := ready_ring) _ _ _ _ Hr Ht Hni) as (hd' & s1 & E & H1 & H2).
      exists hd', s1. split_and!; [done..|].
      now apply (ENQUEUE_LIST_TAIL_frame (RingHeap0 := ready_ring) link_frame link_frame_put) in E. }
  unfold bind at 1, of_option. rewrite E. unfold pq_set. rewrite Hp, bind_modify.
  unfold set_queue_state. rewrite bind_tcb_set by done. unfold modify.
  eexists. split; [reflexivity|].
  match goal with |- ready_frame s ?x /\ _ => set (s' := x) end.
  assert (Hfr : ready_frame s s').
  { transitivity s1; [now apply link_frame_ready|].
    transitivity (upd_pq (pq_with_head prio hd') s1); [now apply ready_frame_upd_pq|].
    etransitivity; [apply ready_frame_upd_tcb|now apply ready_frame_upd_pq].
    intros x. unfold mask_ready. simpl. now rewrite clear_set. }
  assert (Hqd : forall q, queued s' q = if decide (t = q) then true else queued s q).
  { intros q. etransitivity; [apply (queued_upd (upd_pq (pq_with_head prio hd') s1) t q true)|].
    case_decide; [done|]. exact (link_queued s s1 q Hl1). }
  assert (Hmx : max_prio s' = max prio (max_prio s)).
  { unfold max_prio, s', upd_pq. simpl. f_equal. now rewrite (link_root _ _ Hl1). }
  split_and!; [done|rewrite Hmx, max_Zmax; lia|rewrite Hqd; now case_decide|].
  eapply (ready_ok_change s s1 s' Q prio t _ hd' true); try done.
  - intros x. destruct head; rewrite ?elem_of_cons, ?elem_of_app, ?list_elem_of_singleton; tauto.
  - intros q. now apply (tcb_field_frame tcb_ready_list t q _ (upd_pq (pq_with_head prio hd') s1)).
  - intros p. etransitivity; [apply (pq_head_upd s1)|]. case_decide; [done|].
    unfold pq_head. now rewrite (link_root _ _ Hl1).
Qed.

(** enqueueing a thread changes the membership of no other *)
Lemma pq_enqueue_queued s t head s' q :
  pq_enqueue t head s = Ok (tt, s') -> q <> t -> queued s' q = queued s q.
Proof.
  intros E Hq. assert (Ht : t <> NULL) by (intros ->; done).
  unfold pq_enqueue, queue_state_is_set in E. rewrite bind_tcb_get in E by done.
  fold (queued s t) in E. destruct (queued s t); [now injection E as <-|].
  unfold get_priority in E. rewrite bind_tcb_get in E by done. fold (prio_of s t) in E.
  unfold pq_get in E. destruct (prio_ok (prio_of s t)) eqn:Hp; [|done]. rewrite bind_gets in E.
  kinv E.
  assert (Hl : link_frame s s0).
  { revert E0. apply (preserves_of_option link_frame). intros x r x'. destruct head.
    - apply (ENQUEUE_LIST_HEAD_frame (RingHeap0 := ready_ring) link_frame link_frame_put).
    - apply (ENQUEUE_LIST_TAIL_frame (RingHeap0 := ready_ring) link_frame link_frame_put). }
  rewrite <- (link_queued s s0 q Hl). unfold pq_set in E. rewrite Hp, bind_modify in E.
  unfold set_queue_state in E. rewrite bind_tcb_set in E by done.
  injection E as <-. etransitivity; [apply (queued_upd (upd_pq (pq_with_head (prio_of s t) a) s0) t q true)|].
  case_decide; [congruence|done].
Qed.

(** [prio_queue_t::dequeue] *)
Lemma pq_dequeue_spec s Q t :
  ready_ok s Q -> t <> NULL ->
  exists s', pq_dequeue t s = Ok (tt, s') /\ ready_frame s s' /\
    max_prio s' = max_prio s /\ queued s' t = false /\
    (forall q, q <> t -> queued s' q = queued s q) /\
    ready_ok s' (if queued s t then qset Q (prio_of s t) (remove_member t (Q (prio_of s t)))
                 else Q).
Proof.
  intros Hok Ht. unfold pq_dequeue, queue_state_is_set. rewrite bind_tcb_get by done.
  fold (queued s t). destruct (queued s t) eqn:Eq; simpl.
  2: { exists s. split_and!; done. }
  destruct (ro_all _ _ Hok t Eq) as [Hp Hin].
  unfold get_priority. rewrite bind_tcb_get by done. fold (prio_of s t).
  set (prio := prio_of s t) in *. unfold pq_get. rewrite Hp, bind_gets.
  pose proof (ro_ring _ _ Hok prio Hp) as Hr.
  destruct (dequeue_ring (RingHeap0 := ready_ring) _ _ _ _ Hr Hin) as (hd' & s1 & E & Hr1 & Hs1).
  assert (Hl1 : link_frame s s1).
  { now apply (DEQUEUE_LIST_frame (RingHeap0 := ready_ring) link_frame link_frame_put) in E. }
  unfold bind at 1, of_option. rewrite E. unfold pq_set. rewrite Hp, bind_modify.
  unfold clear_queue_state. rewrite tcb_set_run by done.
  eexists. split; [reflexivity|].
  match goal with |- ready_frame s ?x /\ _ => set (s' := x) end.
  assert (Hfr : ready_frame s s').
  { transitivity s1; [now apply link_frame_ready|].
    transitivity (upd_pq (pq_with_head prio hd') s1); [now apply ready_frame_upd_pq|].
    apply ready_frame_upd_tcb. intros x. unfold mask_ready. simpl. now rewrite clear_clear. }
  assert (Hqd : forall q, queued s' q = if decide (t = q) then false else queued s q).
  { intros q. etransitivity; [apply (queued_upd (upd_pq (pq_with_head prio hd') s1) t q false)|].
    case_decide; [done|]. exact (link_queued s s1 q Hl1). }
  assert (Hmx : max_prio s' = max_prio s).
  { unfold max_prio, s', upd_pq. simpl. now rewrite (link_root _ _ Hl1). }
  split_and!; [done|done|rewrite Hqd; now case_decide|
    intros q Hq; rewrite Hqd; case_decide; congruence|].
  eapply (ready_ok_change s s1 s' Q prio t _ hd' false); try done.
  - intros x. unfold remove_member. rewrite list_elem_of_filter. tauto.
  - intros p Hpn. apply Hs1. intros Hin'. apply Hpn. now right.
  - intros q. now apply (tcb_field_frame tcb_ready_list t q _ (upd_pq (pq_with_head prio hd') s1)).
  - intros p. etransitivity; [apply (pq_head_upd s1)|]. case_decide; [done|].
    unfold pq_head. now rewrite (link_root _ _ Hl1).
Qed.

(** ** The choice of the next thread *)

(** what the inner loop leaves of a queue *)
Fixpoint drop_blocked s (l : list Z) : list Z :=
  match l with
  | [] => []
  | t :: l => if runnable s t then t :: l else drop_blocked s l
  end.

Lemma drop_blocked_split s l :
  exists d, l = d ++ drop_blocked s l /\ (forall t, t ∈ d -> runnable s t = false).
Proof.
  induction l as [|t l (d & E & Hd)]; simpl.
  - exists []. split; [done|]. intros t Ht. now apply elem_of_nil in Ht.
  - destruct (runnable s t) eqn:Er.
    + exists []. split; [done|]. intros x Hx. now apply elem_of_nil in Hx.
    + exists (t :: d). split; [cbn [app]; now rewrite <- E|].
      intros x [->|Hx]%elem_of_cons; auto.
Qed.

Lemma drop_blocked_head s l t l' : drop_blocked s l = t :: l' -> runnable s t = true.
Proof.
  induction l as [|x l IH]; simpl; [done|]. destruct (runnable s x) eqn:Er; [|done].
  intros [= <- _]. done.
Qed.

Lemma drop_blocked_frame s s' l : ready_frame s s' -> drop_blocked s' l = drop_blocked s l.
Proof.
  intros Hf. induction l as [|t l IH]; simpl; [done|]. now rewrite (rf_runnable _ _ _ Hf), IH.
Qed.

(** what the invariant says of a control block *)
Definition ready_view (t : tcb) : ringlist * bool * Z :=
  (tcb_ready_list t, QueueState.is_set QueueState.ready (tcb_queue_state t), tcb_priority t).

Lemma ready_ok_ext s s' Q Q' :
  ready_ok s Q ->
  (forall q, ready_view (tcb_of s' q) = ready_view (tcb_of s q)) ->
  (forall p, prio_ok p = true -> pq_head s' p = pq_head s p) ->
  (forall p, prio_ok p = true -> Q' p = Q p) ->
  (forall p t, prio_ok p = true -> t ∈ Q p -> p <= max_prio s') ->
  -1 <= max_prio s' <= Config.MAX_PRIO -> ready_ok s' Q'.
Proof.
  intros Hok Ht Hh HQ Hm Hb.
  assert (Hq : forall t, queued s' t = queued s t) by (intros t; now injection (Ht t)).
  assert (Hp : forall t, prio_of s' t = prio_of s t) by (intros t; now injection (Ht t)).
  split.
  - intros p Hpp. rewrite Hh, HQ by done.
    apply (ready_list_ext s); [intros q; now injection (Ht q)|]. now apply ro_ring.
  - intros p t Hpp. rewrite HQ, Hq, Hp by done. now apply ro_mem.
  - intros t. rewrite Hq, Hp. intros Hqt. destruct (ro_all _ _ Hok t Hqt) as [H1 H2].
    split; [done|]. now rewrite HQ.
  - intros p t Hpp. rewrite HQ by done. now apply Hm.
  - done.
Qed.

(** members of a queue: the head and the rest *)
Lemma ready_cons s Q p t l :
  ready_ok s Q -> prio_ok p = true -> Q p = t :: l ->
  pq_head s p = t /\ t <> NULL /\ prio_of s t = p /\ queued s t = true /\ remove_member t (t :: l) = l.
Proof.
  intros Hok Hp HQ. pose proof (ro_ring _ _ Hok p Hp) as (Hnd & Hnull & Hh). rewrite HQ in *.
  destruct (ro_mem _ _ Hok p t Hp) as [H1 H2]; [rewrite HQ; left|].
  split_and!; [tauto| |done|done|].
  - apply (not_null_member (t :: l)); [done|left].
  - apply (remove_member_split t [] l). done.
Qed.

Lemma ready_nil s Q p : ready_ok s Q -> prio_ok p = true -> Q p = [] -> pq_head s p = NULL.
Proof. intros Hok Hp HQ. pose proof (ro_ring _ _ Hok p Hp) as (_ & _ & Hh). now rewrite HQ in Hh. Qed.

Lemma find_in_queue_spec fuel s Q prio :
  ready_ok s Q -> prio_ok prio = true -> (length (Q prio) <= fuel)%nat ->
  (forall p, prio_ok p = true -> prio < p -> Q p = []) ->
  exists r s', find_in_queue fuel prio (pq_head s prio) s = Ok (r, s') /\ ready_frame s s' /\
    ready_ok s' (qset Q prio (drop_blocked s (Q prio))) /\
    match drop_blocked s (Q prio) with
    | [] => r = None /\ max_prio s' = max_prio s
    | t :: _ => r = Some t /\ max_prio s' = prio
    end.
Proof.
  revert s Q. induction fuel as [|fuel IH]; intros s Q Hok Hp Hlen Hhigh.
  all: destruct (Q prio) as [|t l] eqn:HQ; [|try (simpl in Hlen; lia)].
  1,2: cbn [find_in_queue]; rewrite (ready_nil s Q) by done; simpl;
       eexists _, s; split_and!; [reflexivity|done| |done|done];
       apply (ready_ok_ext s s Q); try done;
         [intros p _; unfold qset; case_decide; congruence|exact (ro_max _ _ Hok)|exact (ro_bound _ _ Hok)].
  destruct (ready_cons s Q prio t l Hok Hp HQ) as (Hh & Ht & Hpt & Hqt & Hrm).
  rewrite Hh. cbn [find_in_queue]. apply Z.eqb_neq in Ht as Et. rewrite Et.
  unfold get_state. rewrite bind_tcb_get by done. fold (runnable s t). cbn [drop_blocked].
  destruct (runnable s t) eqn:Er.
  - unfold pq_set. rewrite Hp, !bind_modify. unfold ret. eexists _, _.
    split_and!; [reflexivity| | |done|done].
    + etransitivity; now apply ready_frame_upd_pq.
    + apply (ready_ok_ext s _ Q); try done.
      * intros p Hpp. etransitivity; [apply pq_head_upd|]. case_decide; congruence.
      * intros p Hpp. unfold qset. case_decide; congruence.
      * intros p x Hpp Hx. unfold max_prio, upd_pq. simpl.
        destruct (Z.le_gt_cases p prio); [done|]. rewrite Hhigh in Hx by (done || lia).
        now apply elem_of_nil in Hx.
      * unfold max_prio, upd_pq. simpl. unfold prio_ok in Hp. lia.
  - destruct (pq_dequeue_spec s Q t Hok Ht) as (s1 & E & Hf & Hm & _ & _ & Hok1).
    rewrite Hqt, Hpt, HQ, Hrm in Hok1. rewrite (bind_ok _ _ _ _ _ E). unfold pq_get.
    rewrite Hp, bind_gets.
    destruct (IH s1 _ Hok1 Hp) as (r & s' & E' & Hf' & Hok' & Hr).
    + rewrite qset_eq. simpl in Hlen. lia.
    + intros p Hpp Hlt. rewrite qset_ne by lia. auto.
    + rewrite qset_eq, (drop_blocked_frame _ _ _ Hf) in *. eexists r, s'.
      split_and!; [exact E'|now transitivity s1| |].
      * apply (ready_ok_ext s' _ _ _ Hok'); try done;
          [|exact (ro_max _ _ Hok')|exact (ro_bound _ _ Hok')].
        intros p _. unfold qset. now case_decide.
      * destruct (drop_blocked s l); [|done]. now rewrite <- Hm.
Qed.

(** What [find_next_thread] returns, [r], and what it leaves queued, [Q']: the
    first runnable thread of the highest priority that has one, blocked
    threads in front of it being dropped; or the idle thread if no queued
    thread is runnable. *)
Definition picks s (Q : queues) (r : Z) (Q' : queues) : Prop :=
  (r = idle_tcb /\
   (forall p t, prio_ok p = true -> t ∈ Q p -> runnable s t = false) /\
   (forall p, prio_ok p = true -> Q' p = []))
  \/
  (exists p dropped rest, prio_ok p = true /\ Q p = dropped ++ r :: rest /\
     runnable s r = true /\ (forall t, t ∈ dropped -> runnable s t = false) /\
     (forall p' t, prio_ok p' = true -> p < p' -> t ∈ Q p' -> runnable s t = false) /\
     Q' p = r :: rest /\
     (forall p', prio_ok p' = true -> p < p' -> Q' p' = []) /\
     (forall p', p' < p -> Q' p' = Q p')).

Lemma picks_frame s s' Q r Q' : ready_frame s s' -> picks s' Q r Q' -> picks s Q r Q'.
Proof.
  intros Hf. assert (Hr : forall t, runnable s' t = runnable s t) by (intros; now apply rf_runnable).
  intros [(H1 & H2 & H3)|(p & d & l & H1 & H2 & H3 & H4 & H5 & H6)].
  - left. split_and!; [done| |done]. intros p t Hp Ht. rewrite <- Hr. eauto.
  - right. exists p, d, l. rewrite Hr in H3. split_and!; try tauto.
    + intros t Ht. rewrite <- Hr. auto.
    + intros p' t Hp Hlt Ht. rewrite <- Hr. eauto.
Qed.

(** every queue is no longer than the fuel *)
Definition fits (Q : queues) (fuel : nat) : Prop :=
  forall p, prio_ok p = true -> (length (Q p) <= fuel)%nat.

Lemma find_from_spec fuel n s Q :
  ready_ok s Q -> fits Q fuel -> (n <= 256)%nat ->
  (forall p, prio_ok p = true -> Z.of_nat n <= p -> Q p = []) ->
  exists r s' Q', find_from fuel n s = Ok (r, s') /\ ready_frame s s' /\ ready_ok s' Q' /\
    picks s Q r Q'.
Proof.
  revert s Q. induction n as [|n IH]; intros s Q Hok Hfit Hn Hhigh; cbn [find_from].
  - rewrite bind_modify. unfold ret. eexists _, _, Q. split_and!; [reflexivity| | |].
    + now apply ready_frame_upd_pq.
    + apply (ready_ok_ext s _ Q); try done.
      * intros p t Hp Ht. rewrite Hhigh in Ht by (done || (unfold prio_ok in Hp; lia)).
        now apply elem_of_nil in Ht.
    + left. split_and!; [done| |].
      * intros p t Hp Ht. rewrite Hhigh in Ht by (done || (unfold prio_ok in Hp; lia)).
        now apply elem_of_nil in Ht.
      * intros p Hp. apply Hhigh; [done|]. unfold prio_ok in Hp. lia.
  - set (prio := Z.of_nat n). assert (Hp : prio_ok prio = true).
    { unfold prio_ok, Config.MAX_PRIO. lia. }
    unfold pq_get at 1. rewrite Hp, bind_gets.
    destruct (find_in_queue_spec fuel s Q prio Hok Hp (Hfit _ Hp)) as (r & s1 & E & Hf & Hok1 & Hr).
    { intros p Hpp Hlt. apply Hhigh; [done|lia]. }
    rewrite (bind_ok _ _ _ _ _ E).
    destruct (drop_blocked_split s (Q prio)) as (d & Hd & Hblocked).
    destruct (drop_blocked s (Q prio)) as [|t l] eqn:Edrop; destruct Hr as [-> Hm].
    + destruct (IH s1 _ Hok1) as (r & s' & Q' & E' & Hf' & Hok' & Hpick).
      * intros p Hpp. unfold qset. case_decide; [simpl; lia|auto].
      * lia.
      * intros p Hpp Hle. unfold qset. case_decide; [done|]. apply Hhigh; [done|lia].
      * exists r, s', Q'. split_and!; [done|now transitivity s1|done|].
        apply (picks_frame _ _ _ _ _ Hf) in Hpick. rewrite app_nil_r in Hd.
        destruct Hpick as [(H1 & H2 & H3)|(p & d' & rest & H1 & H2 & H3 & H4 & H5 & H6 & H7 & H8)].
        -- left. split_and!; [done| |done]. intros p t Hpp Ht.
           destruct (decide (prio = p)) as [<-|Hne]; [apply Hblocked; now rewrite <- Hd|].
           apply (H2 p t Hpp). now rewrite qset_ne.
        -- right. assert (prio <> p) as Hne.
           { intros <-. rewrite qset_eq in H2. now destruct d'. }
           exists p, d', rest. rewrite qset_ne in H2 by done. split_and!; try done.
           ++ intros p' t Hpp Hlt Ht. destruct (decide (prio = p')) as [<-|Hne'].
              ** apply Hblocked. now rewrite <- Hd.
              ** apply (H5 p' t Hpp Hlt). now rewrite qset_ne.
           ++ intros p' Hlt. rewrite H8 by done. destruct (decide (prio = p')) as [<-|Hne'].
              ** exfalso. assert (Q p <> []) as Hnil by (rewrite H2; now destruct d').
                 apply Hnil, Hhigh; [done|]. lia.
              ** now rewrite qset_ne.
    + exists t, s1, (qset Q prio (t :: l)). split_and!; [done|done|done|].
      right. exists prio, d, l. split_and!; try done.
      * now apply drop_blocked_head in Edrop.
      * intros p' t' Hpp Hlt Ht. rewrite Hhigh in Ht by (done || lia). now apply elem_of_nil in Ht.
      * apply qset_eq.
      * intros p' Hpp Hlt. rewrite qset_ne by lia. apply Hhigh; [done|lia].
      * intros p' Hlt. apply qset_ne. lia.
Qed.

Lemma find_next_thread_picks fuel s Q :
  ready_ok s Q -> fits Q fuel ->
  exists r s' Q', find_next_thread fuel s = Ok (r, s') /\ ready_frame s s' /\ ready_ok s' Q' /\
    picks s Q r Q'.
Proof.
  intros Hok Hfit. unfold find_next_thread. rewrite bind_gets. fold (max_prio s).
  destruct (ro_bound _ _ Hok). apply find_from_spec; [done|done| |].
  - unfold Config.MAX_PRIO in *. lia.
  - intros p Hp Hle. destruct (Q p) as [|t l] eqn:HQ; [done|].
    pose proof (ro_max _ _ Hok p t Hp) as Hm. rewrite HQ in Hm. specialize (Hm ltac:(left)). lia.
Qed.

(** C4 The scheduler's choice: from well-formed queues, [find_next_thread]
    terminates, keeps them well-formed, changes nothing but the queues, and
    returns the first runnable thread of the highest priority that has a
    runnable thread, or the idle thread if there is none. *)
Theorem find_next_thread_spec fuel s Q :
  ready_ok s Q -> fits Q fuel ->
  exists r s' Q', find_next_thread fuel s = Ok (r, s') /\ ready_frame s s' /\ ready_ok s' Q' /\
    picks s Q r Q'.
Proof. apply find_next_thread_picks. Qed.

(** ** The end of a timeslice *)

(** an operation that touches neither the queues nor the blocks' view of them *)
Lemma ready_ok_other s s' Q :
  ready_ok s Q ->
  (forall q, ready_view (tcb_of s' q) = ready_view (tcb_of s q)) ->
  (forall p, pq_head s' p = pq_head s p) -> max_prio s' = max_prio s -> ready_ok s' Q.
Proof.
  intros Hok Ht Hh Hm. apply (ready_ok_ext s s' Q); try done.
  - rewrite Hm. exact (ro_max _ _ Hok).
  - rewrite Hm. exact (ro_bound _ _ Hok).
Qed.

Lemma ready_ok_upd_tcb s Q p f :
  (forall t, ready_view (f t) = ready_view t) -> ready_ok s Q -> ready_ok (upd_tcb p f s) Q.
Proof.
  intros Hf Hok. apply (ready_ok_other s); [done| |done|done].
  intros q. rewrite tcb_of_upd_tcb. case_decide; [apply Hf|done].
Qed.

Lemma ready_ok_rotate s Q p h l :
  ready_ok s Q -> prio_ok p = true -> (forall x, x ∈ l <-> x ∈ Q p) -> ready_list s h l ->
  ready_ok (upd_pq (pq_with_head p h) s) (qset Q p l).
Proof.
  intros Hok Hp Hl Hr. split.
  - intros p' Hp'. apply (ready_list_ext s); [done|]. rewrite pq_head_upd. unfold qset.
    case_decide; [done|]. now apply ro_ring.
  - intros p' t Hp' Ht. apply (ro_mem _ _ Hok p' t Hp'). unfold qset in Ht.
    case_decide; [subst; now apply Hl|done].
  - intros t Ht. destruct (ro_all _ _ Hok t Ht) as [H1 H2]. split; [done|].
    unfold qset. case_decide as E; [|done]. apply Hl. rewrite E. exact H2.
  - intros p' t Hp' Ht. apply (ro_max _ _ Hok p' t Hp'). unfold qset in Ht.
    case_decide; [subst; now apply Hl|done].
  - exact (ro_bound _ _ Hok).
Qed.

(** moving a member behind all others *)
Definition rotate_past (t : Z) (l : list Z) : list Z :=
  match list_find (fun x => x = t) l with
  | Some (i, _) => drop (Datatypes.S i) l ++ take i l ++ [t]
  | None => l ++ [t]
  end.

Lemma rotate_past_split t l1 l2 :
  t ∉ l1 -> rotate_past t (l1 ++ t :: l2) = l2 ++ l1 ++ [t].
Proof.
  intros Ht. unfold rotate_past.
  assert (list_find (fun x => x = t) (l1 ++ t :: l2) = Some (length l1, t)) as ->.
  { apply list_find_Some. split_and!; [|done|].
    - rewrite lookup_app_r, Nat.sub_diag by lia. done.
    - intros j y Hy Hj. rewrite lookup_app_l in Hy by done. intros ->.
      apply Ht. now apply list_elem_of_lookup_2 in Hy. }
  rewrite drop_app_ge by lia. rewrite take_app_length.
  replace (Datatypes.S (length l1) - length l1)%nat with 1%nat by lia. done.
Qed.

(** C24 Round robin: at the end of its timeslice a thread is the last of its
    priority's queue (it is enqueued if it was not), every other thread of the
    priority keeps its place relative to the others and all other queues are
    unchanged.  The thread is credited its remaining time and a fresh
    timeslice, and the processor's timeslice becomes that of the thread that
    is now first. *)
Theorem end_of_timeslice_spec s Q t :
  ready_ok s Q -> t <> NULL -> prio_ok (prio_of s t) = true ->
  let prio := prio_of s t in
  let l := rotate_past t (if queued s t then Q prio else t :: Q prio) in
  exists s', end_of_timeslice t s = Ok (tt, s') /\ ready_ok s' (qset Q prio l) /\
    last l = Some t /\
    tcb_current_timeslice (tcb_of s' t) =
      swrap 64 (pq_timeslice s + tcb_timeslice_length (tcb_of s t)) /\
    (forall u, u <> t -> tcb_current_timeslice (tcb_of s' u) = tcb_current_timeslice (tcb_of s u)) /\
    pq_timeslice s' = tcb_current_timeslice (tcb_of s' (hd NULL l)) /\
    ks_current_tcb s' = ks_current_tcb s.
Proof.
  intros Hok Ht Hp prio l. unfold end_of_timeslice, enqueue_ready.
  destruct (pq_enqueue_spec s Q t true Hok Ht Hp) as (s1 & E & Hf & _ & Hq1 & Hok1).
  fold prio in Hok1, Hp. rewrite (bind_ok _ _ _ _ _ E). unfold get_priority.
  rewrite bind_tcb_get by done. fold (prio_of s1 t). rewrite (rf_prio _ _ _ Hf). fold prio.
  rewrite bind_tcb_get by done. unfold pq_set. rewrite Hp, bind_modify, bind_gets.
  rewrite bind_tcb_set by done. unfold pq_get. rewrite Hp, bind_gets.
  set (Q1 := if queued s t then Q else qset Q prio (t :: Q prio)) in *.
  assert (HQ1 : Q1 prio = if queued s t then Q prio else t :: Q prio).
  { unfold Q1. destruct (queued s t); [done|apply qset_eq]. }
  assert (t ∈ Q1 prio) as Hin.
  { destruct (ro_all _ _ Hok1 t Hq1) as [_ H]. now rewrite (rf_prio _ _ _ Hf) in H. }
  pose proof (ro_ring _ _ Hok1 prio Hp) as Hring. pose proof Hring as (Hnd & Hnull & _).
  apply list_elem_of_split in Hin as (l1 & l2 & Hsp).
  assert (Hl : l = l2 ++ l1 ++ [t]).
  { unfold l. rewrite <- HQ1, Hsp. apply rotate_past_split. rewrite Hsp in Hnd.
    apply NoDup_app in Hnd as (_ & Hd & _). intros H. apply (Hd t H). left. }
  rewrite Hsp in Hring. apply is_ring_after in Hring. rewrite <- Hl in Hring.
  set (nxt := next (tcb_ready_list (tcb_of s1 t))).
  change (nexts s1 t) with nxt in Hring.
  pose proof (ready_ok_rotate s1 Q1 prio nxt l Hok1 Hp) as Hok2.
  specialize (Hok2 ltac:(intros x; rewrite Hl, Hsp, !elem_of_app, !elem_of_cons, elem_of_nil; tauto) Hring).
  set (s2 := upd_pq (pq_with_head prio nxt) s1) in *.
  assert (Hhd : pq_head s2 prio = hd NULL l).
  { unfold s2. rewrite pq_head_upd. case_decide; [|done]. destruct Hring as (_ & _ & Hm).
    destruct l; simpl in *; tauto. }
  set (s3 := upd_tcb t _ s2). change (pq_head s3 prio) with (pq_head s2 prio). rewrite Hhd.
  assert (hd NULL l <> NULL) as Hh.
  { rewrite <- Hhd. unfold s2. rewrite pq_head_upd. case_decide; [|done].
    destruct Hring as (_ & Hnl & Hm). destruct l as [|a l']; [now destruct l2, l1|].
    destruct Hm as [-> _]. apply (not_null_member (a :: l')); [done|left]. }
  rewrite bind_tcb_get by done. unfold set_pq_timeslice, modify.
  assert (Hslice : forall u, tcb_current_timeslice (tcb_of s1 u) = tcb_current_timeslice (tcb_of s u))
    by (intros u; now apply (rf_field tcb_current_timeslice)).
  assert (Hlen : tcb_timeslice_length (tcb_of s1 t) = tcb_timeslice_length (tcb_of s t))
    by now apply (rf_field tcb_timeslice_length).
  assert (Hpqs : pq_timeslice s2 = pq_timeslice s).
  { unfold s2, pq_timeslice, upd_pq. simpl.
    now apply (rf_global (fun s => pq_current_timeslice (ks_root_prio_queue s))). }
  eexists. split; [reflexivity|]. split_and!.
  - apply (ready_ok_ext s3 _ (qset Q1 prio l)); try done.
    + apply ready_ok_upd_tcb; done.
    + intros p Hpp. unfold qset, Q1. case_decide; [done|]. destruct (queued s t); [done|].
      now rewrite qset_ne.
    + exact (ro_max _ _ Hok2).
    + exact (ro_bound _ _ Hok2).
  - rewrite Hl, app_assoc. apply last_snoc.
  - change (tcb_current_timeslice (tcb_of s3 t) = swrap 64 (pq_timeslice s + tcb_timeslice_length (tcb_of s t))).
    unfold s3. rewrite tcb_of_upd_tcb_eq. simpl. now rewrite Hpqs, <- Hlen.
  - intros u Hu. change (tcb_current_timeslice (tcb_of s3 u) = tcb_current_timeslice (tcb_of s u)).
    unfold s3. rewrite tcb_of_upd_tcb_ne by congruence. exact (Hslice u).
  - done.
  - change (ks_current_tcb s1 = ks_current_tcb s). now apply (rf_global ks_current_tcb).
Qed.

(** C6 Dispatching: [schedule] terminates with well-formed queues.  It switches
    exactly if the scheduler's choice is not the current thread, and then the
    chosen thread is current and the old one is queued (unless it is the idle
    thread), so that no runnable thread is lost; otherwise the current thread
    stays. *)
Theorem schedule_spec fuel s Q current :
  ready_ok s Q -> fits Q fuel -> current <> NULL ->
  (current = idle_tcb \/ prio_ok (prio_of s current) = true) ->
  exists b s' Q' r Q1, schedule fuel current s = Ok (b, s') /\ ready_ok s' Q' /\
    picks s Q r Q1 /\ b = negb (r =? current) /\
    ks_current_tcb s' = (if b then r else ks_current_tcb s) /\
    (b = true -> current <> idle_tcb -> queued s' current = true) /\
    (forall t, t <> current -> queued s' t = true <-> exists p, prio_ok p = true /\ t ∈ Q1 p).
Proof.
  intros Hok Hfit Hc Hidle. unfold schedule.
  destruct (find_next_thread_picks fuel s Q Hok Hfit) as (r & s1 & Q1 & E & Hf & Hok1 & Hpick).
  rewrite (bind_ok _ _ _ _ _ E).
  assert (Hq1 : forall t, queued s1 t = true <-> exists p, prio_ok p = true /\ t ∈ Q1 p).
  { intros t. split; [intros Hq; exists (prio_of s1 t); now apply (ro_all _ _ Hok1)|].
    intros (p & Hp & Hin). now apply (ro_mem _ _ Hok1 p t). }
  destruct (Z.eqb_spec r current) as [->|Hne].
  { exists false, s1, Q1, current, Q1. rewrite Z.eqb_refl. split_and!; try done.
    now apply (rf_global ks_current_tcb). }
  assert (Hb : negb (r =? current) = true) by now rewrite (proj2 (Z.eqb_neq _ _) Hne).
  unfold when, get_idle_tcb, enqueue_ready, switch_to.
  destruct (Z.eqb_spec current idle_tcb) as [->|Hni]; simpl.
  - exists true. eexists _, Q1, r, Q1. split_and!; [reflexivity|now apply (ready_ok_other s1)| | | | |];
      try done; try congruence.
    intros t _. apply Hq1.
  - destruct Hidle as [|Hp]; [done|].
    destruct (pq_enqueue_spec s1 Q1 current false Hok1 Hc) as (s2 & E2 & Hf2 & _ & Hq2 & Hok2).
    { now rewrite (rf_prio _ _ _ Hf). }
    rewrite (bind_ok _ _ _ _ _ E2). exists true. eexists _, _, r, Q1.
    split_and!; [reflexivity|now apply (ready_ok_other s2 _ _ Hok2)| | | | |]; try done.
    intros t Ht. change (queued (ks_with_current_tcb r s2) t) with (queued s2 t).
    rewrite <- Hq1. destruct (queued s1 current) eqn:Eqc.
    { unfold pq_enqueue, queue_state_is_set in E2. rewrite bind_tcb_get in E2 by done.
      fold (queued s1 current) in E2. rewrite Eqc in E2. injection E2 as ->. done. }
    split; intros Hqt.
    + destruct (ro_all _ _ Hok2 t Hqt) as [Hpt Hin]. rewrite (rf_prio _ _ _ Hf2) in Hpt, Hin.
      unfold qset in Hin. case_decide as Ep.
      * rewrite elem_of_app, list_elem_of_singleton in Hin. destruct Hin as [Hin|]; [|done].
        now apply (ro_mem _ _ Hok1 (prio_of s1 current)); [rewrite Ep|].
      * now apply (ro_mem _ _ Hok1 (prio_of s1 t)).
    + destruct (ro_all _ _ Hok1 t Hqt) as [Hpt Hin].
      apply (ro_mem _ _ Hok2 (prio_of s1 t)); [done|]. unfold qset. case_decide as Ep; [|done].
      apply elem_of_app. left. now rewrite Ep.
Qed.

End ReadyQueues.

(** ** A small example state *)

(** no thread exists yet, the queues are empty *)
Definition boot_state {V} (v : V) : kstate V :=
  Kstate ∅ ∅ ∅ v idle_tcb NULL (PrioQueue (-1) ∅ 0) 0 NULL NULL NULL NULL NULL 0 zero_kip zero_cpu.

Lemma ready_ok_empty {V} (s : kstate V) :
  (forall t, queued s t = false) -> (forall p, pq_head s p = NULL) ->
  -1 <= max_prio s <= Config.MAX_PRIO -> ready_ok s (fun _ => []).
Proof.
  intros Hq Hh Hm. split.
  - intros p _. rewrite Hh. split_and!; [constructor|apply not_elem_of_nil|done].
  - intros p t _ Ht. now apply elem_of_nil in Ht.
  - intros t Ht. now rewrite Hq in Ht.
  - intros p t _ Ht. now apply elem_of_nil in Ht.
  - done.
Qed.

Lemma boot_state_ok {V} (v : V) : ready_ok (boot_state v) (fun _ => []).
Proof.
  apply ready_ok_empty.
  - intros t. unfold queued, tcb_of, boot_state. simpl. now rewrite lookup_empty.
  - intros p. unfold pq_head, boot_state. simpl. now rewrite lookup_empty.
  - unfold max_prio, Config.MAX_PRIO. simpl. lia.
Qed.

(** the first two threads, which have priority 0, are queued; 2 polls, 3 is runnable *)
Definition two_ready : kstate unit :=
  match (set_state 2 ThreadState.polling ;;; enqueue_ready 2 false ;;; enqueue_ready 3 false)
          (boot_state tt) with
  | Ok (_, s) => s
  | _ => boot_state tt
  end.
Definition two_queues : Z -> list Z := qset (qset (fun _ => []) 0 [2]) 0 [2; 3].

Lemma two_ready_ok : ready_ok two_ready two_queues.
Proof.
  unfold two_ready, set_state. rewrite bind_tcb_set by done.
  set (s0 := upd_tcb 2 _ _). assert (Hok0 : ready_ok s0 (fun _ => [])).
  { apply ready_ok_upd_tcb; [done|apply boot_state_ok]. }
  destruct (pq_enqueue_spec s0 _ 2 false Hok0) as (s1 & E1 & Hf1 & _ & Hq1 & Hok1); [done|done|].
  unfold enqueue_ready. rewrite (bind_ok _ _ _ _ _ E1).
  change (queued s0 2) with false in Hok1. change (prio_of s0 2) with 0 in Hok1.
  cbn [app] in Hok1.
  assert (prio_of s1 3 = 0) as Hp3 by (rewrite (rf_prio _ _ _ Hf1); done).
  destruct (pq_enqueue_spec s1 _ 3 false Hok1) as (s2 & E2 & _ & _ & _ & Hok2);
    [done|now rewrite Hp3|].
  rewrite E2. rewrite Hp3 in Hok2.
  assert (queued s1 3 = false) as Hq3.
  { destruct (queued s1 3) eqn:Eq; [|done]. destruct (ro_all _ _ Hok1 3 Eq) as [_ Hin].
    rewrite Hp3, qset_eq, list_elem_of_singleton in Hin. done. }
  rewrite Hq3, qset_eq in Hok2. exact Hok2.
Qed.

Lemma two_fits : fits two_queues 4.
Proof. intros p _. unfold two_queues, qset. repeat case_decide; simpl; lia. Qed.

Lemma find_next_thread_spec_witness :
  exists s' Q', find_next_thread 4 two_ready = Ok (3, s') /\ picks two_ready two_queues 3 Q'.
Proof.
  destruct (find_next_thread_spec 4 two_ready two_queues two_ready_ok two_fits)
    as (r & s' & Q' & E & _ & _ & Hp).
  assert (r = 3) as ->.
  { assert (match find_next_thread 4 two_ready with Ok (r, _) => r | _ => 0 end = 3) as H
      by (vm_compute; reflexivity). rewrite E in H. exact H. }
  exists s', Q'. split; [exact E|exact Hp].
Defined.

Lemma end_of_timeslice_spec_witness :
  exists s', end_of_timeslice 2 two_ready = Ok (tt, s') /\
    ready_ok s' (qset two_queues 0 [3; 2]).
Proof.
  destruct (end_of_timeslice_spec two_ready two_queues 2 two_ready_ok ltac:(done)
              ltac:(vm_compute; reflexivity)) as (s' & E & Hok & _).
  exists s'. split; [exact E|].
  replace (qset two_queues 0 [3; 2]) with
    (qset two_queues (prio_of two_ready 2)
       (rotate_past 2 (if queued two_ready 2 then two_queues (prio_of two_ready 2)
                       else 2 :: two_queues (prio_of two_ready 2)))); [exact Hok|].
  vm_compute (prio_of two_ready 2). vm_compute (queued two_ready 2). reflexivity.
Defined.

Lemma schedule_spec_witness :
  exists s', schedule 4 idle_tcb two_ready = Ok (true, s') /\ ks_current_tcb s' = 3.
Proof.
  destruct (schedule_spec 4 two_ready two_queues idle_tcb two_ready_ok two_fits ltac:(done)
              (or_introl eq_refl)) as (b & s' & Q' & r & Q1 & E & _ & _ & Hb & Hc & _).
  assert (match schedule 4 idle_tcb two_ready with Ok (b, s) => (b, ks_current_tcb s) | _ => (false, 0) end
          = (true, 3)) as H by (vm_compute; reflexivity).
  rewrite E in H. injection H as -> H. exists s'. split; [exact E|exact H].
Defined.
