(* ===== verification/Wakeup.v ===== *)
(** * The wakeup queue

    Theory of the timeout operations of [Sched]: the wakeup queue as a list,
    setting and cancelling a timeout, and the walk of [parse_wakeup_queues]
    over the queue, which terminates, removes exactly the threads whose timeout
    has expired and makes them run. *)

From Stdlib Require Import ZArith Lia Bool List.
From stdpp Require Import base numbers list option gmap.
From S2P Require Import Prelude Types Time Kip ThreadId Fpage State Msg Ring Monad Tcb Sched.
Open Scope Z_scope.

(** ** The queue as a list *)

Lemma remove_member_absent t l : t ∉ l -> remove_member t l = l.
Proof.
  unfold remove_member. induction l as [|x l IH]; [done|]. rewrite not_elem_of_cons.
  intros [Hx Hl]. rewrite filter_cons_True by congruence. f_equal. now apply IH.
Qed.

Section WakeupQueue.
Context {V : Type}.
Abbreviation S := (kstate V).
Implicit Types s : kstate V.

Definition waits s (t : Z) : bool := QueueState.is_set QueueState.wakeup (tcb_queue_state (tcb_of s t)).
Abbreviation wait_list s h l := (is_ring (RingHeap0 := wait_ring) s h l).

(** the wakeup list is the ring of the threads that are marked *)
Record wait_ok s (W : list Z) : Prop := {
  wo_ring : wait_list s (ks_wakeup_list s) W;
  wo_mem : forall t, waits s t = true <-> t ∈ W;
}.

(** a control block without its membership in the wakeup queue *)
Definition mask_wait (t : tcb) : tcb :=
  tcb_with_wait_list null_ring
    (tcb_with_queue_state (QueueState.clear QueueState.wakeup (tcb_queue_state t)) t).

(** [s'] differs from [s] in the wakeup queue and membership in it only *)
Record wait_frame s s' : Prop := {
  wf_rest : ks_with_wakeup_list NULL (ks_with_tcbs ∅ s') = ks_with_wakeup_list NULL (ks_with_tcbs ∅ s);
  wf_tcb : forall q, mask_wait (tcb_of s' q) = mask_wait (tcb_of s q);
}.

#[export] Instance wait_frame_preorder : PreOrder wait_frame.
Proof.
  split.
  - intros s. done.
  - intros s1 s2 s3 [H1 H2] [H3 H4]. split; [congruence|]. intros q. now rewrite H4, H2.
Qed.

Lemma wf_field {A} (g : tcb -> A) s s' q :
  wait_frame s s' -> (forall t, g (mask_wait t) = g t) -> g (tcb_of s' q) = g (tcb_of s q).
Proof. intros [_ H] Hg. rewrite <- (Hg (tcb_of s' q)), H. apply Hg. Qed.

Lemma wf_global {A} (g : S -> A) s s' :
  wait_frame s s' -> (forall s, g (ks_with_wakeup_list NULL (ks_with_tcbs ∅ s)) = g s) -> g s' = g s.
Proof. intros [H _] Hg. rewrite <- (Hg s'), H. apply Hg. Qed.

Lemma ready_view_mask t : ready_view (mask_wait t) = ready_view t.
Proof.
  unfold ready_view, mask_wait. simpl. f_equal. f_equal. rewrite QueueState.is_set_clear.
  now rewrite bool_decide_eq_false_2.
Qed.

(** the ready queues do not notice changes of the wakeup queue *)
Lemma wait_frame_ready_ok s s' Q : wait_frame s s' -> ready_ok s Q -> ready_ok s' Q.
Proof.
  intros Hf Hok. apply (ready_ok_other s); [done| | |].
  - intros q. apply (wf_field ready_view _ _ _ Hf). apply ready_view_mask.
  - intros p. now apply (wf_global (fun s => pq_head s p)).
  - now apply (wf_global max_prio).
Qed.

Lemma wait_frame_queued s s' q : wait_frame s s' -> queued s' q = queued s q.
Proof. intros Hf. pose proof (wf_field ready_view _ _ q Hf ready_view_mask) as H. now injection H. Qed.

Lemma wait_list_ext s s' h l :
  (forall q, tcb_wait_list (tcb_of s' q) = tcb_wait_list (tcb_of s q)) ->
  wait_list s h l -> wait_list s' h l.
Proof.
  intros Hq Hr. apply (is_ring_same_but (RingHeap0 := wait_ring) s s' h l []); [done| |].
  - intros p _. apply Hq.
  - intros x _. apply not_elem_of_nil.
Qed.

(** what the invariant says of a control block *)
Definition wait_view (t : tcb) : ringlist * bool :=
  (tcb_wait_list t, QueueState.is_set QueueState.wakeup (tcb_queue_state t)).

Lemma wait_ok_other s s' W :
  wait_ok s W -> keeps wait_view s s' -> ks_wakeup_list s' = ks_wakeup_list s -> wait_ok s' W.
Proof.
  intros [Hr Hm] Hk Hh. split.
  - rewrite Hh. apply (wait_list_ext s); [|done]. intros q. now injection (Hk q).
  - intros t. rewrite <- Hm. unfold waits. injection (Hk t) as _ ->. done.
Qed.

Lemma waits_upd s t q b :
  waits (upd_tcb t (fun x => tcb_with_queue_state
            ((if b : bool then QueueState.set else QueueState.clear) QueueState.wakeup (tcb_queue_state x)) x) s) q
  = if decide (t = q) then b else waits s q.
Proof.
  unfold waits. rewrite tcb_of_upd_tcb. case_decide; [|done]. destruct b; simpl; autorewrite with bf.
  - now rewrite bool_decide_eq_true_2.
  - rewrite bool_decide_eq_true_2 by done. done.
Qed.

(** the queueing macros write wait links only *)
Definition wlink_frame s s' : Prop :=
  ks_with_tcbs ∅ s' = ks_with_tcbs ∅ s /\
  forall q, tcb_with_wait_list null_ring (tcb_of s' q) = tcb_with_wait_list null_ring (tcb_of s q).

#[export] Instance wlink_frame_preorder : PreOrder wlink_frame.
Proof.
  split.
  - intros s. done.
  - intros s1 s2 s3 [H1 H2] [H3 H4]. split; [congruence|]. intros q. now rewrite H4, H2.
Qed.

Lemma wlink_frame_put p r s : wlink_frame s (rput (RingHeap := wait_ring) p r s).
Proof. split; [done|]. intros q. simpl. rewrite tcb_of_upd_tcb. now case_decide. Qed.

Lemma wlink_waits s s' t : wlink_frame s s' -> waits s' t = waits s t.
Proof.
  intros [_ H]. unfold waits. specialize (H t). apply (f_equal tcb_queue_state) in H.
  simpl in H. now rewrite H.
Qed.

(** entering or leaving the queue after the macro has changed the ring *)
Lemma wait_change s s1 hd' t (b : bool) W :
  wlink_frame s s1 -> wait_list s1 hd' W ->
  (forall q, (if decide (t = q) then b else waits s q) = true <-> q ∈ W) ->
  let s' := upd_tcb t (fun x => tcb_with_queue_state
      ((if b then QueueState.set else QueueState.clear) QueueState.wakeup (tcb_queue_state x)) x)
    (ks_with_wakeup_list hd' s1) in
  wait_frame s s' /\ wait_ok s' W.
Proof.
  intros [Hl1 Hl2] Hr Hm s'. split.
  - split.
    + apply (f_equal (ks_with_wakeup_list NULL)) in Hl1. exact Hl1.
    + intros q. unfold s'. rewrite tcb_of_upd_tcb. rewrite tcb_of_with_wakeup_list.
      specialize (Hl2 q). apply (f_equal mask_wait) in Hl2. case_decide; [|exact Hl2].
      transitivity (mask_wait (tcb_of s1 q)); [|exact Hl2].
      destruct b; unfold mask_wait; simpl; now rewrite ?clear_set, ?clear_clear.
  - split.
    + apply (wait_list_ext s1); [|done]. intros q.
      unfold s'. rewrite (tcb_field_frame tcb_wait_list) by (intros ?; reflexivity). done.
    + intros q. unfold s'. rewrite waits_upd, <- Hm. case_decide; [done|].
      pose proof (wlink_waits s s1 q (conj Hl1 Hl2)) as Hq. unfold waits in *.
      rewrite tcb_of_with_wakeup_list. now rewrite Hq.
Qed.

Lemma cancel_timeout_spec s W t :
  wait_ok s W -> t <> NULL ->
  exists s', cancel_timeout t s = Ok (tt, s') /\ wait_frame s s' /\ wait_ok s' (remove_member t W).
Proof.
  intros [Hr Hm] Ht. unfold cancel_timeout, queue_state_is_set. rewrite bind_tcb_get by done.
  fold (waits s t). destruct (waits s t) eqn:Ew; cbn [negb].
  2: { exists s. split; [done|]. split; [done|].
       rewrite remove_member_absent; [done|]. rewrite <- Hm. congruence. }
  apply Hm in Ew. rewrite bind_gets.
  destruct (dequeue_ring (RingHeap0 := wait_ring) _ _ _ _ Hr Ew) as (hd' & s1 & E & Hr1 & _).
  assert (Hl1 : wlink_frame s s1).
  { now apply (DEQUEUE_LIST_frame (RingHeap0 := wait_ring) wlink_frame wlink_frame_put) in E. }
  unfold bind at 1, of_option. rewrite E, bind_modify. unfold clear_queue_state.
  rewrite tcb_set_run by done. eexists. split; [reflexivity|].
  apply (wait_change s s1 hd' t false); [done|done|]. intros q. unfold remove_member.
  rewrite list_elem_of_filter, <- Hm. case_decide; [subst; now split; [|intros []]|].
  split; [|tauto]. intros Hq. split; [congruence|done].
Qed.

Lemma set_timeout_abs_spec s W t time :
  wait_ok s W -> t <> NULL -> waits s t = false ->
  exists s', set_timeout_abs t time s = Ok (tt, s') /\
    wait_frame (upd_tcb t (tcb_with_absolute_timeout time) s) s' /\ wait_ok s' (W ++ [t]).
Proof.
  intros Hok Ht Hw. unfold set_timeout_abs. rewrite bind_tcb_set by done.
  set (s0 := upd_tcb t _ s).
  assert (Hok0 : wait_ok s0 W).
  { apply (wait_ok_other s); [done| |done]. apply keeps_upd_tcb. intros x. done. }
  assert (Hw0 : waits s0 t = false).
  { unfold waits, s0. rewrite tcb_of_upd_tcb_eq. exact Hw. }
  clearbody s0. destruct Hok0 as [Hr Hm]. rewrite bind_gets.
  assert (t ∉ W) as Hni by (rewrite <- Hm; congruence).
  destruct (enqueue_tail_ring (RingHeap0 := wait_ring) _ _ _ _ Hr Ht Hni) as (hd' & s1 & E & Hr1 & _).
  assert (Hl1 : wlink_frame s0 s1).
  { now apply (ENQUEUE_LIST_TAIL_frame (RingHeap0 := wait_ring) wlink_frame wlink_frame_put) in E. }
  unfold bind at 1, of_option. rewrite E, bind_modify. unfold set_queue_state.
  rewrite tcb_set_run by done. eexists. split; [reflexivity|].
  apply (wait_change s0 s1 hd' t true); [done|done|]. intros q.
  rewrite elem_of_app, list_elem_of_singleton, <- Hm. case_decide; [subst; tauto|].
  split; [tauto|]. intros [|]; [done|congruence].
Qed.

End WakeupQueue.

(** ** Waking one thread *)

Section WakeUp.
Context {V : Type}.
Abbreviation S := (kstate V).
Implicit Types s : kstate V.

(** a control block and a state without what the queues change *)
Definition mask2 (t : tcb) : tcb := mask_wait (mask_ready t).
Definition mask_all s : S := ks_with_wakeup_list NULL (mask_queues s).

Definition expired s (t : Z) : bool := tcb_absolute_timeout (tcb_of s t) <=? ks_current_time s.
(** waiting without timeout now: the entry of the queue is stale *)
Definition stale s (t : Z) : bool :=
  ThreadState.is_waiting_forever (tcb_thread_state (tcb_of s t)) &&
  negb (Bitmask.is_set (tcb_flags (tcb_of s t)) HAS_XFER_TIMEOUT).
(** the timeout of [t] triggers *)
Definition triggers s (t : Z) : bool := expired s t && negb (stale s t).

(** the control block of a thread whose timeout has triggered *)
Definition woken (t : tcb) : tcb :=
  let st := tcb_thread_state t in
  tcb_with_thread_state ThreadState.running
    (tcb_with_stack (if ThreadState.is_sending st || ThreadState.is_receiving st
                     then Frame handle_ipc_timeout_fn [st] :: tcb_stack t else tcb_stack t)
      (tcb_with_flags (Bitmask.sub (tcb_flags t) HAS_XFER_TIMEOUT) t)).

Definition delays s (t : Z) : bool :=
  PreemptFlags.is_delayed (utcb_preempt_flags (utcb_of s (tcb_utcb (tcb_of s t)))) &&
  truth (tcb_current_max_delay (tcb_of s t)).

Lemma mask2_field {A} (g : tcb -> A) t u :
  (forall x, g (mask2 x) = g x) -> mask2 t = mask2 u -> g t = g u.
Proof. intros Hg H. now rewrite <- (Hg t), <- (Hg u), H. Qed.

Lemma wait_frame_mask s s' :
  wait_frame s s' -> mask_all s' = mask_all s /\ forall q, mask2 (tcb_of s' q) = mask2 (tcb_of s q).
Proof.
  intros [H1 H2]. split.
  - apply (f_equal mask_queues) in H1. exact H1.
  - intros q. specialize (H2 q). apply (f_equal mask_ready) in H2. revert H2.
    unfold mask2, mask_wait, mask_ready. simpl. intros H.
    assert (Hc : forall x, QueueState.clear QueueState.wakeup (QueueState.clear QueueState.ready x) =
                           QueueState.clear QueueState.ready (QueueState.clear QueueState.wakeup x)).
    { intros x. unfold QueueState.clear. rewrite <- !Z.land_assoc, (Z.land_comm (wnot _)). done. }
    rewrite !Hc. exact H.
Qed.

Lemma ready_frame_mask s s' :
  ready_frame s s' -> ks_wakeup_list s' = ks_wakeup_list s /\
  mask_all s' = mask_all s /\ (forall q, mask2 (tcb_of s' q) = mask2 (tcb_of s q)) /\
  keeps wait_view s s'.
Proof.
  intros Hf. split_and!.
  - now apply (rf_global ks_wakeup_list).
  - destruct Hf as [H _]. unfold mask_all. now rewrite H.
  - intros q. destruct Hf as [_ H]. unfold mask2. now rewrite H.
  - intros q. apply (rf_field wait_view _ _ _ Hf). intros t. unfold wait_view, mask_ready. simpl.
    rewrite QueueState.is_set_clear. now rewrite bool_decide_eq_false_2.
Qed.

(** the changes to the thread itself *)
Definition wake_up_rest (tcb : Z) : M (kstate V) unit :=
  tcb_set tcb (fun t => tcb_with_flags (Bitmask.sub (tcb_flags t) HAS_XFER_TIMEOUT) t) ;;;
  let* st := get_state tcb in
  when (ThreadState.is_sending st || ThreadState.is_receiving st)
    (notify tcb handle_ipc_timeout_fn [st]) ;;;
  set_state tcb ThreadState.running.

Lemma wake_up_rest_run t s : t <> NULL -> wake_up_rest t s = Ok (tt, upd_tcb t woken s).
Proof.
  intros Ht. unfold wake_up_rest. krun.
  destruct (ThreadState.is_sending _ || _) eqn:E; krun.
  all: do 2 f_equal; apply upd_tcb_ext; unfold woken; rewrite E; now destruct (tcb_of s t).
Qed.

Lemma wake_up_split t s :
  wake_up t s = (cancel_timeout t ;;; wake_up_rest t ;;; enqueue_ready t false) s.
Proof.
  unfold wake_up, wake_up_rest, bind. destruct (cancel_timeout t s) as [[? s1]| |]; [|done..].
  destruct (tcb_set t _ s1) as [[? s2]| |]; [|done..].
  destruct (get_state t s2) as [[st s3]| |]; [|done..].
  now destruct (when _ _ s3) as [[? s4]| |].
Qed.

(** ready queues are as before but for [t], which is queued *)
Lemma wake_up_spec s Q W t :
  ready_ok s Q -> wait_ok s W -> t <> NULL -> prio_ok (prio_of s t) = true ->
  exists s' Q', wake_up t s = Ok (tt, s') /\ ready_ok s' Q' /\ wait_ok s' (remove_member t W) /\
    mask_all s' = mask_all s /\
    (forall q, mask2 (tcb_of s' q) =
       if decide (q = t) then woken (mask2 (tcb_of s q)) else mask2 (tcb_of s q)) /\
    (forall q, queued s' q = if decide (q = t) then true else queued s q).
Proof.
  intros Hok Hw Ht Hp. rewrite wake_up_split.
  destruct (cancel_timeout_spec s W t Hw Ht) as (s1 & E1 & Hf1 & Hw1).
  rewrite (bind_ok _ _ _ _ _ E1). destruct (wait_frame_mask _ _ Hf1) as [Hg1 Hm1].
  pose proof (wait_frame_ready_ok _ _ _ Hf1 Hok) as Hok1.
  assert (Hq1 : forall q, queued s1 q = queued s q).
  { intros q. specialize (Hm1 q). pose proof (wf_field ready_view _ _ q Hf1 ready_view_mask) as Hv.
    now injection Hv. }
  assert (wake_up_rest t s1 = Ok (tt, upd_tcb t woken s1)) as E2 by now apply wake_up_rest_run.
  rewrite (bind_ok _ _ _ _ _ E2). set (s3 := upd_tcb t woken s1).
  assert (Hv3 : forall q, ready_view (tcb_of s3 q) = ready_view (tcb_of s1 q)).
  { intros q. now apply (tcb_field_frame ready_view). }
  assert (Hok3 : ready_ok s3 Q) by now apply (ready_ok_other s1).
  assert (Hp3 : prio_of s3 t = prio_of s t).
  { specialize (Hv3 t). pose proof (wf_field ready_view _ _ t Hf1 ready_view_mask) as Hv.
    rewrite Hv in Hv3. now injection Hv3. }
  destruct (pq_enqueue_spec s3 Q t false Hok3 Ht) as (s4 & E4 & Hf4 & _ & Hq4 & Hok4);
    [now rewrite Hp3|].
  destruct (ready_frame_mask _ _ Hf4) as (Hwl4 & Hg4 & Hm4 & Hv4).
  exists s4. eexists. split; [exact E4|]. split; [exact Hok4|]. split_and!.
  - apply (wait_ok_other s1); [done| |done]. intros q. rewrite Hv4.
    now apply (tcb_field_frame wait_view).
  - rewrite Hg4. exact Hg1.
  - intros q. rewrite Hm4. unfold s3. rewrite tcb_of_upd_tcb, <- Hm1.
    case_decide; case_decide; congruence || done.
  - intros q. case_decide as Eq; [now subst|].
    rewrite (pq_enqueue_queued _ _ _ _ _ E4 Eq), <- Hq1. unfold queued. f_equal.
    now apply (tcb_field_frame tcb_queue_state).
Qed.

(** ** The walk over the queue *)

(** whether [check_dispatch_thread] lets [t] preempt [h] *)
Definition preempts s (h t : Z) : bool :=
  if delays s h then
    negb (bool_decide (h = t) ||
          (prio_of s t <=? tcb_sensitive_prio (tcb_of s h)) && (0 <? tcb_current_max_delay (tcb_of s h)))
  else prio_of s h <? prio_of s t.

Lemma check_dispatch_run s h t :
  h <> NULL -> tcb_utcb (tcb_of s h) <> NULL -> t <> NULL ->
  check_dispatch_thread h t s = Ok (preempts s h t, s).
Proof.
  intros Hh Hu Ht. unfold check_dispatch_thread, get_preempt_flags. rewrite bind_utcb_get by done.
  unfold preempts, delays. destruct (PreemptFlags.is_delayed _); cbn [andb].
  - rewrite bind_tcb_get by done. destruct (truth _).
    + unfold delay_preemption. destruct (Z.eqb_spec h t) as [->|Hne].
      { now rewrite bool_decide_eq_true_2. }
      rewrite bool_decide_eq_false_2 by done. cbn [orb].
      unfold get_sensitive_prio, get_priority. rewrite bind_assoc, bind_tcb_get by done.
      rewrite bind_assoc, bind_tcb_get by done. fold (prio_of s t).
      rewrite Z.ltb_antisym. destruct (prio_of s t <=? _); cbn [negb]; [|done].
      now rewrite bind_tcb_get.
    + unfold get_priority. now rewrite !bind_tcb_get.
  - rewrite bind_ret_l. unfold get_priority. now rewrite !bind_tcb_get.
Qed.

(** the thread to run so far, after looking at [t] *)
Definition dispatch s (h t : Z) : Z := if triggers s t && preempts s h t then t else h.

(** what parsing leaves of thread [q] when it has looked at the threads [D] *)
Definition looked_at s (D : list Z) (q : Z) : bool := bool_decide (q ∈ D) && triggers s q.

(** [s] is [s0] after the threads [D] have been looked at *)
Record woke s0 (D : list Z) s : Prop := {
  wk_rest : mask_all s = mask_all s0;
  wk_tcb : forall q, mask2 (tcb_of s q) =
    if looked_at s0 D q then woken (mask2 (tcb_of s0 q)) else mask2 (tcb_of s0 q);
  wk_queued : forall q, queued s q = looked_at s0 D q || queued s0 q;
}.

Lemma woke_refl s : woke s [] s.
Proof. split; [done| |]; intros q; unfold looked_at; now rewrite bool_decide_eq_false_2 by apply not_elem_of_nil. Qed.

Lemma wk_global {A} (g : S -> A) s0 D s :
  woke s0 D s -> (forall s, g (mask_all s) = g s) -> g s = g s0.
Proof. intros [H _ _] Hg. rewrite <- (Hg s), H. apply Hg. Qed.

Lemma wk_field {A} (g : tcb -> A) s0 D s q :
  woke s0 D s -> (forall t, g (mask2 t) = g t) -> (forall t, g (woken t) = g t) ->
  g (tcb_of s q) = g (tcb_of s0 q).
Proof.
  intros [_ H _] Hm Hw. rewrite <- Hm, H. destruct (looked_at _ _ _); now rewrite ?Hw, Hm.
Qed.

Lemma wk_prio s0 D s q : woke s0 D s -> prio_of s q = prio_of s0 q.
Proof. intros H. now apply (wk_field tcb_priority _ _ _ _ H). Qed.

Lemma wk_utcb s0 D s q : woke s0 D s -> tcb_utcb (tcb_of s q) = tcb_utcb (tcb_of s0 q).
Proof. intros H. now apply (wk_field tcb_utcb _ _ _ _ H). Qed.

Lemma wk_expired s0 D s q : woke s0 D s -> expired s q = expired s0 q.
Proof.
  intros H. unfold expired. rewrite (wk_field tcb_absolute_timeout _ _ _ _ H) by done.
  now rewrite (wk_global ks_current_time _ _ _ H) by done.
Qed.

Lemma wk_preempts s0 D s h t : woke s0 D s -> preempts s h t = preempts s0 h t.
Proof.
  intros H. unfold preempts, delays. rewrite !(wk_prio _ _ _ _ H), (wk_utcb _ _ _ _ H).
  rewrite !(wk_field tcb_sensitive_prio _ _ _ _ H), !(wk_field tcb_current_max_delay _ _ _ _ H) by done.
  unfold utcb_of. now rewrite (wk_global ks_utcbs _ _ _ H) by done.
Qed.

(** a thread that has not been looked at is as it was *)
Lemma wk_untouched s0 D s t : woke s0 D s -> t ∉ D -> mask2 (tcb_of s t) = mask2 (tcb_of s0 t).
Proof. intros [_ H _] Ht. rewrite H. unfold looked_at. now rewrite bool_decide_eq_false_2. Qed.

Lemma wk_stale s0 D s t : woke s0 D s -> t ∉ D -> stale s t = stale s0 t.
Proof.
  intros H Ht. pose proof (wk_untouched _ _ _ _ H Ht) as Hm. unfold stale.
  rewrite (mask2_field tcb_thread_state _ (tcb_of s0 t)) by done.
  now rewrite (mask2_field tcb_flags _ (tcb_of s0 t)) by done.
Qed.


(** the neighbour of [t] in the queue, and the head of the queue *)
Lemma wait_next s W1 t W2 :
  wait_ok s (W1 ++ t :: W2) -> next (tcb_wait_list (tcb_of s t)) = hd t (W2 ++ W1).
Proof.
  intros [Hr _]. apply (is_ring_after (RingHeap0 := wait_ring)) in Hr as (_ & _ & Hh).
  rewrite app_assoc in Hh. destruct (W2 ++ W1) as [|x l]; exact (proj1 Hh).
Qed.

Lemma wait_head s W : wait_ok s W -> ks_wakeup_list s = hd NULL W.
Proof. intros [(_ & _ & Hh) _]. destruct W; [done|exact (proj1 Hh)]. Qed.

Lemma wait_nonnull s W t : wait_ok s W -> t ∈ W -> t <> NULL.
Proof. intros [(_ & Hn & _) _]. now apply not_null_member. Qed.

Lemma wait_nodup s W : wait_ok s W -> NoDup W.
Proof. now intros [(H & _) _]. Qed.

(** what is needed to let a thread compete for the processor *)
Definition competes s (t : Z) : Prop := t <> NULL /\ tcb_utcb (tcb_of s t) <> NULL.

(** the state and its queues during the walk *)
Record parsing s0 (D : list Z) s (W : list Z) : Prop := {
  pw_woke : woke s0 D s;
  pw_ready : exists Q, ready_ok s Q;
  pw_wait : wait_ok s W;
}.

Lemma looked_at_cons s0 t D q :
  looked_at s0 (t :: D) q = if bool_decide (q = t) then triggers s0 t else looked_at s0 D q.
Proof.
  unfold looked_at. destruct (bool_decide_reflect (q = t)) as [->|Hne].
  - rewrite bool_decide_eq_true_2 by left. done.
  - f_equal. apply bool_decide_ext. rewrite elem_of_cons. tauto.
Qed.

(** looking at a thread without waking it *)
Lemma woke_skip s0 D s s' t :
  woke s0 D s -> t ∉ D -> triggers s0 t = false -> mask_all s' = mask_all s ->
  (forall q, mask2 (tcb_of s' q) = mask2 (tcb_of s q)) -> (forall q, queued s' q = queued s q) ->
  woke s0 (t :: D) s'.
Proof.
  intros [H1 H2 H3] Ht Htr Hm Hf Hq.
  assert (forall q, looked_at s0 (t :: D) q = looked_at s0 D q) as Hl.
  { intros q. rewrite looked_at_cons. destruct (bool_decide_reflect (q = t)) as [->|]; [|done].
    unfold looked_at. now rewrite bool_decide_eq_false_2. }
  split; [congruence| |]; intros q; rewrite Hl; [now rewrite Hf|now rewrite Hq].
Qed.

(** looking at a thread whose timeout triggers *)
Lemma woke_wake s0 D s s' t :
  woke s0 D s -> t ∉ D -> triggers s0 t = true -> mask_all s' = mask_all s ->
  (forall q, mask2 (tcb_of s' q) =
     if decide (q = t) then woken (mask2 (tcb_of s q)) else mask2 (tcb_of s q)) ->
  (forall q, queued s' q = if decide (q = t) then true else queued s q) ->
  woke s0 (t :: D) s'.
Proof.
  intros Hw Ht Htr Hm Hf Hq. pose proof (wk_untouched _ _ _ _ Hw Ht) as Hu.
  destruct Hw as [H1 H2 H3].
  split; [congruence| |]; intros q; rewrite looked_at_cons; [rewrite Hf|rewrite Hq];
    case_decide as E; (rewrite ?bool_decide_eq_true_2 by done); (rewrite ?bool_decide_eq_false_2 by done).
  - subst q. now rewrite Htr, Hu.
  - apply H2.
  - now rewrite Htr.
  - apply H3.
Qed.

(** one pass of the loop *)
Lemma wakeup_step_run s0 D s W1 t W2 h :
  parsing s0 D s (W1 ++ t :: W2) -> t ∉ D -> prio_ok (prio_of s0 t) = true -> competes s0 h ->
  exists s', wakeup_step h t s = Ok ((hd t (W2 ++ W1), dispatch s0 h t, expired s0 t), s') /\
    parsing s0 (t :: D) s' (if expired s0 t then W1 ++ W2 else W1 ++ t :: W2).
Proof.
  intros [Hw (Q & HQ) Hwait] HtD Hp [Hh Hu].
  assert (Ht : t <> NULL) by (apply (wait_nonnull _ _ _ Hwait), elem_of_app; right; left).
  pose proof (wait_next _ _ _ _ Hwait) as Hnx.
  pose proof (remove_member_split t W1 W2 (wait_nodup _ _ Hwait)) as Hrm.
  unfold wakeup_step, get_current_time, has_timeout_expired. rewrite bind_gets, bind_tcb_get by done.
  fold (expired s t). rewrite (wk_expired _ _ _ t Hw). unfold dispatch.
  destruct (expired s0 t) eqn:Ex.
  2: { rewrite bind_tcb_get by done. unfold triggers. rewrite Ex, Hnx. cbn [andb].
       exists s. split; [done|]. split; [|now exists Q|done].
       apply (woke_skip s0 D s s); try done. unfold triggers. now rewrite Ex. }
  unfold get_state. rewrite !bind_tcb_get by done. fold (stale s t).
  rewrite (wk_stale _ _ _ _ Hw HtD). unfold triggers. rewrite Ex.
  destruct (stale s0 t) eqn:Est; cbn [negb andb].
  - rewrite bind_tcb_get, Hnx by done.
    destruct (cancel_timeout_spec s _ t Hwait Ht) as (s1 & E1 & Hf1 & Hw1).
    rewrite (bind_ok _ _ _ _ _ E1). exists s1. split; [done|]. rewrite Hrm in Hw1.
    destruct (wait_frame_mask _ _ Hf1) as [Hg1 Hm1].
    split; [|exists Q; now apply (wait_frame_ready_ok s)|done].
    apply (woke_skip s0 D s s1); try done.
    + unfold triggers. now rewrite Ex, Est.
    + intros q. pose proof (wf_field ready_view _ _ q Hf1 ready_view_mask) as Hv. now injection Hv.
  - rewrite (bind_ok _ _ _ _ _ (check_dispatch_run s h t Hh
      ltac:(now rewrite (wk_utcb _ _ _ _ Hw)) Ht)).
    rewrite (wk_preempts _ _ _ _ _ Hw), bind_tcb_get, Hnx by done.
    destruct (wake_up_spec s Q _ t HQ Hwait Ht) as (s1 & Q' & E1 & Hok1 & Hw1 & Hg1 & Hm1 & Hq1).
    { now rewrite (wk_prio _ _ _ _ Hw). }
    rewrite (bind_ok _ _ _ _ _ E1). exists s1. split; [done|]. rewrite Hrm in Hw1.
    split; [|now exists Q'|done].
    apply (woke_wake s0 D s s1); try done. unfold triggers. now rewrite Ex, Est.
Qed.

(** a pass over the rest of a queue without expired timeouts *)
Lemma wakeup_loop_clean fuel s W1 t W2 h :
  wait_ok s (W1 ++ t :: W2) -> (forall q, q ∈ t :: W2 -> expired s q = false) ->
  (length W2 < fuel)%nat -> wakeup_loop fuel h t s = Ok (h, s).
Proof.
  revert W1 t W2. induction fuel as [|fuel IH]; intros W1 t W2 Hw He Hl; [lia|].
  cbn [wakeup_loop].
  assert (Ht : t <> NULL) by (apply (wait_nonnull _ _ _ Hw), elem_of_app; right; left).
  assert (wakeup_step h t s = Ok ((hd t (W2 ++ W1), h, false), s)) as E.
  { unfold wakeup_step, get_current_time, has_timeout_expired.
    rewrite bind_gets, bind_tcb_get by done. fold (expired s t). rewrite He by left.
    rewrite bind_tcb_get by done. now rewrite (wait_next _ _ _ _ Hw). }
  rewrite (bind_ok _ _ _ _ _ E), bind_gets, (wait_head _ _ Hw), orb_false_r.
  destruct W2 as [|u W2]; cbn [app hd].
  - assert (hd t W1 = hd NULL (W1 ++ [t])) as <- by now destruct W1.
    rewrite Z.eqb_refl. cbn [negb]. now rewrite andb_false_r.
  - assert (u <> hd NULL (W1 ++ t :: u :: W2)) as Hne.
    { pose proof (wait_nodup _ _ Hw) as Hnd. intros Heq.
      destruct W1 as [|x W1]; cbn [app hd] in *; subst.
      - apply NoDup_cons in Hnd as [Hnd _]. apply Hnd. left.
      - apply NoDup_cons in Hnd as [Hnd _]. apply Hnd, elem_of_app. right. right. left. }
    apply Z.eqb_neq in Hne. rewrite Hne. rewrite andb_true_r.
    assert (hd NULL (W1 ++ t :: u :: W2) =? NULL = false) as ->.
    { apply Z.eqb_neq. rewrite <- (wait_head _ _ Hw). apply (wait_nonnull _ _ _ Hw).
      rewrite (wait_head _ _ Hw). destruct W1; left. }
    cbn [negb]. apply (IH (W1 ++ [t]) u W2).
    + now rewrite <- app_assoc.
    + intros q Hq. apply He. now right.
    + simpl in Hl. lia.
Qed.


(** the threads whose timeout has not expired stay *)
Definition remaining s (W : list Z) : list Z := filter (fun t => expired s t = false) W.

Lemma remaining_cons s t W :
  remaining s (t :: W) = if expired s t then remaining s W else t :: remaining s W.
Proof.
  unfold remaining. destruct (expired s t) eqn:E.
  - apply filter_cons_False. congruence.
  - now apply filter_cons_True.
Qed.

Lemma dispatch_competes s h t : competes s h -> competes s t -> competes s (dispatch s h t).
Proof. intros. unfold dispatch. now case_match. Qed.

Lemma wait_head_nonnull s W : wait_ok s W -> W <> [] -> (ks_wakeup_list s =? NULL) = false.
Proof.
  intros Hw Hne. apply Z.eqb_neq. rewrite (wait_head _ _ Hw). destruct W as [|x W]; [done|].
  apply (wait_nonnull _ _ _ Hw). left.
Qed.

Lemma wait_head_ne s W1 t u W2 :
  wait_ok s (W1 ++ t :: u :: W2) -> (u =? ks_wakeup_list s) = false.
Proof.
  intros Hw. apply Z.eqb_neq. rewrite (wait_head _ _ Hw). pose proof (wait_nodup _ _ Hw) as Hnd.
  intros Heq. destruct W1 as [|x W1]; cbn [app hd] in *; subst.
  - apply NoDup_cons in Hnd as [Hnd _]. apply Hnd. left.
  - apply NoDup_cons in Hnd as [Hnd _]. apply Hnd, elem_of_app. right. right. left.
Qed.

Lemma wakeup_loop_run W2 : forall fuel s0 D s W1 t h,
  parsing s0 D s (W1 ++ t :: W2) -> (forall q, q ∈ W1 -> expired s0 q = false) ->
  (forall q, q ∈ t :: W2 -> q ∉ D /\ prio_ok (prio_of s0 q) = true /\ competes s0 q) ->
  competes s0 h -> (2 * length (t :: W2) + length W1 <= fuel)%nat ->
  exists s', wakeup_loop fuel h t s = Ok (foldl (dispatch s0) h (t :: W2), s') /\
    parsing s0 (rev (t :: W2) ++ D) s' (W1 ++ remaining s0 (t :: W2)).
Proof.
  induction W2 as [|u W2 IH]; intros fuel s0 D s W1 t h Hpw Hpre Hall Hh Hfuel;
    (destruct fuel as [|fuel]; [simpl in Hfuel; lia|]); cbn [wakeup_loop].
  all: destruct (Hall t ltac:(left)) as (HtD & Hp & Hc);
       destruct (wakeup_step_run _ _ _ _ _ _ _ Hpw HtD Hp Hh) as (s1 & E & Hpw1);
       rewrite (bind_ok _ _ _ _ _ E), bind_gets; rewrite remaining_cons; cbn [foldl rev app hd].
  - destruct (expired s0 t) eqn:Ex; rewrite ?orb_true_r, ?orb_false_r.
    + change (remaining s0 []) with (@nil Z). rewrite app_nil_r in *.
      destruct W1 as [|x W1].
      * rewrite (wait_head _ _ (pw_wait _ _ _ _ Hpw1)). cbn. now exists s1.
      * rewrite (wait_head_nonnull _ _ (pw_wait _ _ _ _ Hpw1)) by done. cbn [negb andb hd].
        rewrite (wakeup_loop_clean fuel s1 [] x W1); [now exists s1|exact (pw_wait _ _ _ _ Hpw1)| |].
        -- intros q Hq. rewrite (wk_expired _ _ _ _ (pw_woke _ _ _ _ Hpw1)). now apply Hpre.
        -- simpl in Hfuel. lia.
    + assert (hd t W1 = ks_wakeup_list s1) as ->.
      { rewrite (wait_head _ _ (pw_wait _ _ _ _ Hpw1)). now destruct W1. }
      rewrite Z.eqb_refl. cbn [negb]. rewrite andb_false_r. now exists s1.
  - assert (Hr : exists s', wakeup_loop fuel (dispatch s0 h t) u s1 =
        Ok (foldl (dispatch s0) (dispatch s0 h t) (u :: W2), s') /\
        parsing s0 (rev (u :: W2) ++ t :: D) s'
          ((if expired s0 t then W1 else W1 ++ [t]) ++ remaining s0 (u :: W2))).
    { apply IH.
      - destruct (expired s0 t); [exact Hpw1|now rewrite <- app_assoc].
      - intros q. destruct (expired s0 t) eqn:Ex; [apply Hpre|].
        rewrite elem_of_app, list_elem_of_singleton. intros [Hq| ->]; [now apply Hpre|done].
      - intros q Hq. destruct (Hall q ltac:(now right)) as (Hq1 & Hq2). split; [|done].
        rewrite not_elem_of_cons. split; [|done]. intros ->.
        pose proof (wait_nodup _ _ (pw_wait _ _ _ _ Hpw)) as Hnd.
        apply NoDup_app in Hnd as (_ & _ & Hnd). now apply NoDup_cons in Hnd as [Hnd _].
      - now apply dispatch_competes.
      - destruct (expired s0 t); rewrite ?length_app; simpl in *; lia. }
    assert (negb (ks_wakeup_list s1 =? NULL) &&
      (negb (u =? ks_wakeup_list s1) || expired s0 t) = true) as ->.
    { destruct (expired s0 t).
      - rewrite orb_true_r, (wait_head_nonnull _ _ (pw_wait _ _ _ _ Hpw1)); [done|now destruct W1].
      - rewrite (wait_head_nonnull _ _ (pw_wait _ _ _ _ Hpw1)) by (now destruct W1).
        now rewrite (wait_head_ne _ _ _ _ _ (pw_wait _ _ _ _ Hpw1)). }
    destruct Hr as (s' & E' & Hp'). exists s'. split; [exact E'|]. cbn [rev] in *.
    destruct (expired s0 t); rewrite <- !app_assoc in *; exact Hp'.
Qed.

(** the scan as a whole *)
Lemma parse_wakeup_queues_run fuel s W Q current :
  ready_ok s Q -> wait_ok s W -> competes s current ->
  (forall t, t ∈ W -> prio_ok (prio_of s t) = true /\ competes s t) ->
  (2 * length W <= fuel)%nat ->
  exists s', parse_wakeup_queues fuel current s = Ok (foldl (dispatch s) current W, s') /\
    parsing s (rev W) s' (remaining s W).
Proof.
  intros HQ Hw Hc Hall Hfuel. unfold parse_wakeup_queues. rewrite bind_gets.
  assert (Hp0 : parsing s [] s W) by (split; [apply woke_refl|now exists Q|done]).
  destruct W as [|t W].
  { rewrite (wait_head _ _ Hw). now exists s. }
  rewrite (wait_head_nonnull _ _ Hw), (wait_head _ _ Hw) by done. cbn [hd].
  destruct (wakeup_loop_run W fuel s [] s [] t current Hp0) as (s' & E & Hp); try done.
  - intros q Hq. now apply elem_of_nil in Hq.
  - intros q Hq. split; [apply not_elem_of_nil|now apply Hall].
  - simpl in *. lia.
  - exists s'. split; [exact E|]. rewrite app_nil_r in Hp. exact Hp.
Qed.

(** without delayed preemption the choice is by priority *)
Lemma dispatch_highest s W h :
  (forall t, t ∈ h :: W -> delays s t = false) ->
  foldl (dispatch s) h W ∈ h :: W /\
  (forall t, t = h \/ t ∈ W /\ triggers s t = true -> prio_of s t <= prio_of s (foldl (dispatch s) h W)).
Proof.
  revert h. induction W as [|u W IH]; intros h Hd; cbn [foldl].
  - split; [left|]. intros t [->|[Ht _]]; [done|]. now apply elem_of_nil in Ht.
  - assert (Hu : prio_of s h <= prio_of s (dispatch s h u) /\
                 (triggers s u = true -> prio_of s u <= prio_of s (dispatch s h u)) /\
                 (dispatch s h u = h \/ dispatch s h u = u)).
    { unfold dispatch, preempts. rewrite (Hd h) by left.
      destruct (triggers s u); cbn [andb]; [|split_and!; [lia|done|now left]].
      destruct (Z.ltb_spec (prio_of s h) (prio_of s u)); split_and!; try lia; tauto. }
    destruct Hu as (Hu1 & Hu2 & Hu3).
    destruct (IH (dispatch s h u)) as [IH1 IH2].
    { intros t [->|Ht]%elem_of_cons; apply Hd.
      - destruct Hu3 as [->| ->]; [left|right; left].
      - now do 2 right. }
    pose proof (IH2 _ (or_introl eq_refl)) as Hle. split.
    + apply elem_of_cons in IH1 as [->|H]; [|now do 2 right].
      destruct Hu3 as [->| ->]; [left|right; left].
    + intros t [->|[[->|Ht]%elem_of_cons Htr]]; [lia|specialize (Hu2 Htr); lia|].
      apply IH2. now right.
Qed.


End WakeUp.

(** ** Two sleeping threads *)

(** 2 waits since before its deadline 10, 3 until 30; it is 20 now; 4 runs *)
Definition sleepers_base : kstate unit :=
  ks_with_current_time 20
    (upd_tcb 2 (fun t => tcb_with_priority 5 (tcb_with_thread_state ThreadState.waiting_timeout (tcb_with_utcb 100 t)))
      (upd_tcb 3 (fun t => tcb_with_priority 7 (tcb_with_thread_state ThreadState.waiting_timeout (tcb_with_utcb 101 t)))
        (upd_tcb 4 (tcb_with_utcb 102) (boot_state tt)))).
Definition sleepers : kstate unit :=
  match (set_timeout_abs 2 10 ;;; set_timeout_abs 3 30) sleepers_base with
  | Ok (_, s) => s
  | _ => sleepers_base
  end.

Lemma sleepers_base_ok : wait_ok sleepers_base [] /\ ready_ok sleepers_base (fun _ => []).
Proof.
  split.
  - split; [split_and!; [constructor|apply not_elem_of_nil|done]|]. intros t.
    split; [|now intros Ht%elem_of_nil]. unfold waits, sleepers_base.
    rewrite tcb_of_with_current_time, !tcb_of_upd_tcb. now repeat case_decide.
  - apply ready_ok_empty; [|done|split; vm_compute; done]. intros t.
    unfold queued, sleepers_base. rewrite tcb_of_with_current_time, !tcb_of_upd_tcb.
    now repeat case_decide.
Qed.

Lemma sleepers_ok : wait_ok sleepers [2; 3] /\ ready_ok sleepers (fun _ => []).
Proof.
  destruct sleepers_base_ok as [Hw Hr]. unfold sleepers.
  destruct (set_timeout_abs_spec _ _ 2 10 Hw) as (s1 & E1 & Hf1 & Hw1); [done|done|].
  rewrite (bind_ok _ _ _ _ _ E1).
  destruct (set_timeout_abs_spec _ _ 3 30 Hw1) as (s2 & E2 & Hf2 & Hw2); [done| |].
  { destruct (waits s1 3) eqn:Ew; [|done]. apply (wo_mem _ _ Hw1) in Ew. set_solver. }
  rewrite E2. split; [exact Hw2|].
  eapply wait_frame_ready_ok; [exact Hf2|]. apply ready_ok_upd_tcb; [done|].
  eapply wait_frame_ready_ok; [exact Hf1|]. now apply ready_ok_upd_tcb.
Qed.

