(* ===== verification/Sendq.v ===== *)
(** * Send queues

    Theory of [tcb_t::enqueue_send] and [tcb_t::dequeue_send]: the threads that
    poll on a receiver as a list.  The head of the list is in the receiver's
    control block, the links are in the senders'. *)

From Stdlib Require Import ZArith Lia Bool List.
From stdpp Require Import base numbers list option gmap.
From S2P Require Import Prelude Types Time Kip ThreadId Fpage State Msg Ring Monad Tcb Sched.
Open Scope Z_scope.

Section SendQueue.
Context {V : Type}.
Abbreviation S := (kstate V).
Implicit Types s : kstate V.

Abbreviation send_list s h l := (is_ring (RingHeap0 := send_ring) s h l).

(** whether a thread is marked as queued to send *)
Definition sends s (t : Z) : bool := QueueState.is_set QueueState.send (tcb_queue_state (tcb_of s t)).

(** the send queue of [p] *)
Record send_ok s (p : Z) (L : list Z) : Prop := {
  so_ring : send_list s (tcb_send_head (tcb_of s p)) L;
  so_mem : forall t, t ∈ L -> sends s t = true;
}.

(** a control block without its links and marks of send queues; [b] tells
    whether the head of its own queue is left out, too *)
Definition mask_send (b : bool) (t : tcb) : tcb :=
  let t := tcb_with_send_list null_ring
    (tcb_with_queue_state (QueueState.clear QueueState.send (tcb_queue_state t)) t) in
  if b then tcb_with_send_head NULL t else t.

(** [s'] differs from [s] in the send queue of [p] only *)
Record send_frame (p : Z) s s' : Prop := {
  sf_rest : ks_with_tcbs ∅ s' = ks_with_tcbs ∅ s;
  sf_tcb : forall q, mask_send (bool_decide (q = p)) (tcb_of s' q) = mask_send (bool_decide (q = p)) (tcb_of s q);
}.

#[export] Instance send_frame_preorder p : PreOrder (send_frame p).
Proof.
  split.
  - intros s. done.
  - intros s1 s2 s3 [H1 H2] [H3 H4]. split; [congruence|]. intros q. now rewrite H4, H2.
Qed.

Lemma sf_field {A} (g : tcb -> A) p s s' q :
  send_frame p s s' -> (forall b t, g (mask_send b t) = g t) -> g (tcb_of s' q) = g (tcb_of s q).
Proof. intros [_ H] Hg. rewrite <- (Hg (bool_decide (q = p)) (tcb_of s' q)), H. apply Hg. Qed.

Lemma sf_global {A} (g : S -> A) p s s' :
  send_frame p s s' -> (forall s, g (ks_with_tcbs ∅ s) = g s) -> g s' = g s.
Proof. intros [H _] Hg. rewrite <- (Hg s'), H. apply Hg. Qed.

Lemma ready_view_send b t : ready_view (mask_send b t) = ready_view t.
Proof.
  unfold ready_view, mask_send. destruct b; simpl; f_equal; f_equal; rewrite QueueState.is_set_clear;
    now rewrite bool_decide_eq_false_2.
Qed.

(** the ready queues do not notice *)
Lemma send_frame_ready_ok p s s' Q : send_frame p s s' -> ready_ok s Q -> ready_ok s' Q.
Proof.
  intros Hf Hok. apply (ready_ok_other s); [done| | |].
  - intros q. apply (sf_field ready_view _ _ _ _ Hf). apply ready_view_send.
  - intros q. now apply (sf_global (fun s => pq_head s q) _ _ _ Hf).
  - now apply (sf_global max_prio _ _ _ Hf).
Qed.

(** the macros write send links only *)
Definition slink_frame s s' : Prop :=
  ks_with_tcbs ∅ s' = ks_with_tcbs ∅ s /\
  forall q, tcb_with_send_list null_ring (tcb_of s' q) = tcb_with_send_list null_ring (tcb_of s q).

#[export] Instance slink_frame_preorder : PreOrder slink_frame.
Proof.
  split.
  - intros s. done.
  - intros s1 s2 s3 [H1 H2] [H3 H4]. split; [congruence|]. intros q. now rewrite H4, H2.
Qed.

Lemma slink_frame_put p r s : slink_frame s (rput (RingHeap := send_ring) p r s).
Proof. split; [done|]. intros q. simpl. rewrite tcb_of_upd_tcb. now case_decide. Qed.

Lemma slink_field {A} (g : tcb -> A) s s' q :
  slink_frame s s' -> (forall t, g (tcb_with_send_list null_ring t) = g t) -> g (tcb_of s' q) = g (tcb_of s q).
Proof. intros [_ H] Hg. rewrite <- (Hg (tcb_of s' q)), H. apply Hg. Qed.

Lemma send_list_ext s s' h l :
  (forall q, tcb_send_list (tcb_of s' q) = tcb_send_list (tcb_of s q)) ->
  send_list s h l -> send_list s' h l.
Proof.
  intros Hq Hr. apply (is_ring_same_but (RingHeap0 := send_ring) s s' h l []); [done| |].
  - intros p _. apply Hq.
  - intros x _. apply not_elem_of_nil.
Qed.

(** entering ([b]) or leaving the queue after the macro has changed the ring *)
Definition send_change (p t hd : Z) (b : bool) s : S :=
  upd_tcb t (fun x => tcb_with_queue_state
      ((if b then QueueState.set else QueueState.clear) QueueState.send (tcb_queue_state x)) x)
    (upd_tcb p (tcb_with_send_head hd) s).

Lemma sends_change p t hd b s q :
  sends (send_change p t hd b s) q = if decide (t = q) then b else sends s q.
Proof.
  unfold sends, send_change. rewrite tcb_of_upd_tcb, tcb_of_upd_tcb.
  repeat case_decide; simpl; try done; destruct b; autorewrite with bf;
    rewrite ?bool_decide_eq_true_2 by done; done.
Qed.

Lemma send_change_frame p t hd b s : send_frame p s (send_change p t hd b s).
Proof.
  split; [done|]. intros q. unfold send_change. rewrite tcb_of_upd_tcb, tcb_of_upd_tcb.
  destruct (bool_decide_reflect (q = p)), b; repeat case_decide; subst; try congruence;
    unfold mask_send; simpl; now rewrite ?clear_set, ?clear_clear.
Qed.

Lemma slink_send_frame p s s' : slink_frame s s' -> send_frame p s s'.
Proof.
  intros [H1 H2]. split; [done|]. intros q. specialize (H2 q).
  apply (f_equal (mask_send (bool_decide (q = p)))) in H2. destruct (bool_decide (q = p)); exact H2.
Qed.

Lemma send_change_ok p t hd (b : bool) s s1 L :
  slink_frame s s1 -> send_list s1 hd L ->
  (forall q, q ∈ L -> (if decide (t = q) then b else sends s q) = true) ->
  send_ok (send_change p t hd b s1) p L.
Proof.
  intros Hl Hr Hm. split.
  - assert (tcb_send_head (tcb_of (send_change p t hd b s1) p) = hd) as ->.
    { unfold send_change. rewrite tcb_of_upd_tcb, tcb_of_upd_tcb_eq. now case_decide. }
    apply (send_list_ext s1); [|done]. intros q. unfold send_change.
    rewrite !(tcb_field_frame tcb_send_list) by (intros ?; reflexivity). done.
  - intros q Hq. rewrite sends_change. specialize (Hm q Hq). case_decide; [done|].
    unfold sends. now rewrite (slink_field tcb_queue_state s s1) by done.
Qed.

(** [tcb_t::enqueue_send] *)
Lemma enqueue_send_spec s p t L :
  send_ok s p L -> p <> NULL -> t <> NULL -> sends s t = false ->
  exists s', enqueue_send t p s = Ok (tt, s') /\ send_frame p s s' /\ send_ok s' p (L ++ [t]) /\
    sends s' t = true /\ (forall q, q <> t -> sends s' q = sends s q).
Proof.
  intros [Hr Hm] Hp Ht Hs. unfold enqueue_send. rewrite bind_tcb_get by done.
  assert (t ∉ L) as Hni by (intros Hin; rewrite (Hm t Hin) in Hs; done).
  destruct (enqueue_tail_ring (RingHeap0 := send_ring) _ _ _ _ Hr Ht Hni) as (hd' & s1 & E & Hr1 & _).
  assert (Hl1 : slink_frame s s1).
  { now apply (ENQUEUE_LIST_TAIL_frame (RingHeap0 := send_ring) slink_frame slink_frame_put) in E. }
  unfold bind at 1, of_option. rewrite E, bind_tcb_set by done. unfold set_queue_state.
  rewrite tcb_set_run by done. fold (send_change p t hd' true s1). eexists. split; [reflexivity|].
  split_and!.
  - transitivity s1; [now apply slink_send_frame|apply send_change_frame].
  - apply (send_change_ok p t hd' true s); [done|done|].
    intros q. rewrite elem_of_app, list_elem_of_singleton. intros [Hq| ->]; [|now case_decide].
    rewrite (Hm q Hq). now case_decide.
  - change (sends (send_change p t hd' true s1) t = true). rewrite sends_change. now case_decide.
  - intros q Hq. change (sends (send_change p t hd' true s1) q = sends s q). rewrite sends_change.
    case_decide; [congruence|]. unfold sends. now rewrite (slink_field tcb_queue_state s s1) by done.
Qed.

(** [tcb_t::dequeue_send] *)
Lemma dequeue_send_spec s p t L :
  send_ok s p L -> p <> NULL -> t ∈ L ->
  exists s', dequeue_send t p s = Ok (tt, s') /\ send_frame p s s' /\ send_ok s' p (remove_member t L) /\
    sends s' t = false /\ (forall q, q <> t -> sends s' q = sends s q).
Proof.
  intros [Hr Hm] Hp Hin. assert (Ht : t <> NULL) by (apply (not_null_member L); [apply Hr|done]).
  unfold dequeue_send. rewrite bind_tcb_get by done.
  destruct (dequeue_ring (RingHeap0 := send_ring) _ _ _ _ Hr Hin) as (hd' & s1 & E & Hr1 & _).
  assert (Hl1 : slink_frame s s1).
  { now apply (DEQUEUE_LIST_frame (RingHeap0 := send_ring) slink_frame slink_frame_put) in E. }
  unfold bind at 1, of_option. rewrite E, bind_tcb_set by done. unfold clear_queue_state.
  rewrite tcb_set_run by done. fold (send_change p t hd' false s1). eexists. split; [reflexivity|].
  split_and!.
  - transitivity s1; [now apply slink_send_frame|apply send_change_frame].
  - apply (send_change_ok p t hd' false s); [done|done|].
    intros q. unfold remove_member. rewrite list_elem_of_filter. intros [Hne Hq].
    case_decide; [congruence|now apply Hm].
  - change (sends (send_change p t hd' false s1) t = false). rewrite sends_change. now case_decide.
  - intros q Hq. change (sends (send_change p t hd' false s1) q = sends s q). rewrite sends_change.
    case_decide; [congruence|]. unfold sends. now rewrite (slink_field tcb_queue_state s s1) by done.
Qed.

End SendQueue.
