(* ===== verification/Vspace.v ===== *)
(** * Address spaces: the interface to virtual memory

    What the thread, IPC and space operations need of page tables and of the
    kernel memory allocator is the class [VirtualMemory]; the space operations
    of [glue/v4-mips64/space.h] that only use it are defined against it. *)

From Stdlib Require Import ZArith Lia Bool List.
From stdpp Require Import base numbers list option gmap.
From S2P Require Import Pgent.
From S2P Require Import Prelude Types Time Kip ThreadId Fpage State Msg Ring Monad Tcb.
Open Scope Z_scope.

(** what [lookup_mapping] finds: the entry's page size, [is_readable],
    [is_writable], [address], and the word of its translation *)
Record mapping_t := Mapping {
  mapped_size : Z;
  mapped_readable : bool;
  mapped_writable : bool;
  mapped_address : Z;
  mapped_raw : Z;
}.

(** A virtual memory over a state [V]: page tables and kernel memory. *)
Class VirtualMemory (V : Type) := {
  (** [kmem.alloc(kmem_space, sizeof(space_t))] *)
  vm_allocate_space : M V Z;
  (** [kmem.free(kmem_space, space, sizeof(space_t))] *)
  vm_free_space : Z -> M V unit;
  (** what [space_t::init] stores in the space itself: its page table and areas;
      space, UTCB area, KIP area *)
  vm_init_mappings : Z -> Z -> Z -> M V unit;
  (** [space_t::allocate_utcb]: space, UTCB location; a kernel address *)
  vm_allocate_utcb : Z -> Z -> M V Z;
  (** [space_t::map_fpage]: source, sender fpage, base, destination, receive
      window, grant *)
  vm_map_fpage : Z -> Z -> Z -> Z -> Z -> bool -> M V unit;
  (** [space_t::unmap_fpage]: space, fpage, flush, unmap_all; the status bits *)
  vm_unmap_fpage : Z -> Z -> bool -> bool -> M V Z;
  (** [space_t::map_sigma0]: space, fault address *)
  vm_map_sigma0 : Z -> Z -> M V unit;
  (** [space_t::allocate_tcb] and [space_t::map_dummy_tcb] *)
  vm_allocate_tcb : Z -> M V unit;
  vm_map_dummy_tcb : Z -> Z -> M V unit;
  (** [memcpy] on user memory of a space: destination, source, length *)
  vm_memcpy : Z -> Z -> Z -> Z -> M V unit;
  (** [space_t::lookup_mapping]: space, address *)
  vm_lookup_mapping : Z -> Z -> M V (option mapping_t);
  (** load and store of user memory: space, address, number of bytes *)
  vm_load : Z -> Z -> Z -> M V Z;
  vm_store : Z -> Z -> Z -> Z -> M V unit;
}.

Section Operations.
Context {V : Type} `{!VirtualMemory V}.
Abbreviation S := (kstate V).
Abbreviation K := (M (kstate V)).

(** run an operation of the virtual memory inside the kernel *)
Definition lift {A} (m : M V A) : K A := fun s =>
  match m (ks_vm s) with
  | Ok (a, v) => Ok (a, ks_with_vm v s)
  | Hang => Hang
  | Crash => Crash
  end.

(** *** Address ranges *)

Definition is_user_area (addr : Z) : bool :=
  (Layout.USER_AREA_START <=? addr) && (addr <=? Layout.USER_AREA_END).
Definition is_user_fpage (f : Z) : bool :=
  is_user_area (get_address f) &&
  is_user_area (addr_offset (get_address f) (w64 (get_size f - 1))).
(** the bit below the last page size of the top-level table *)
Definition is_tcb_area (addr : Z) : bool :=
  let a := Z.land addr (wnot (2 ^ (nth 8 Layout.HW_PGSHIFTS 0 - 1))) in
  (Layout.KTCB_AREA_START <=? a) && (a <=? Layout.KTCB_AREA_END).
Definition is_mappable_addr (sp addr : Z) : K bool :=
  if negb (is_user_area addr) then ret false else
  let* kip := get_kip_page_area sp in
  if is_addr_in_fpage kip addr then ret false else
  let* utcb := get_utcb_page_area sp in
  ret (negb (is_addr_in_fpage utcb addr)).
Definition is_mappable_fpage (sp f : Z) : K bool :=
  if negb (is_user_fpage f) then ret false else
  let* kip := get_kip_page_area sp in
  if is_overlapping kip f then ret false else
  let* utcb := get_utcb_page_area sp in
  ret (negb (is_overlapping utcb f)).

Definition get_copy_limit (addr limit : Z) : Z :=
  let fin := w64 (addr + limit) in
  if is_user_area addr then
    if fin >=? Layout.USER_AREA_END then w64 (Layout.USER_AREA_END - addr) else limit
  else
    if negb (addr_align addr Layout.COPY_AREA_SIZE =? addr_align fin Layout.COPY_AREA_SIZE)
    then w64 (addr_align_up addr Layout.COPY_AREA_SIZE - addr)
    else limit.

(** *** Life of a space *)

(** [allocate_space]: the memory comes cleared from the allocator *)
Definition allocate_space : K Z :=
  let* sp := lift vm_allocate_space in
  modify (fun s => ks_with_spaces (<[sp := zero_space]> (ks_spaces s)) s) ;;;
  ret sp.
(** [free_space]: the object ceases to exist *)
Definition free_space (sp : Z) : K unit :=
  lift (vm_free_space sp) ;;;
  modify (fun s => ks_with_spaces (delete sp (ks_spaces s)) s).

(** [space_t::free]: unmap everything *)
Definition space_free (sp : Z) : K unit :=
  let fp := set_rwx_all fpage_complete in
  if sp =? NULL then crash else
  lift (vm_unmap_fpage sp fp true true) ;;; ret tt.

(** [asid_t::init] stores the invalid number -1 *)
Definition space_init (sp utcb_area kip_area : Z) : K unit :=
  space_set sp (sp_with_utcb_area utcb_area) ;;;
  space_set sp (sp_with_kip_area kip_area) ;;;
  space_set sp (sp_with_asid (-1)) ;;;
  lift (vm_init_mappings sp utcb_area kip_area).

Definition space_control (sp ctrl : Z) : Z := 0.

(** [space_t::allocate_utcb] reads the location from the control block *)
Definition allocate_utcb (sp tcb : Z) : K Z :=
  let* utcb := get_utcb_location tcb in
  if sp =? NULL then crash else lift (vm_allocate_utcb sp utcb).

End Operations.

(** the translation of a page to itself, readable and writable *)
Definition identity_mapping (addr : Z) : mapping_t :=
  let page := addr_align addr 4096 in
  Mapping 0 true true page (Translation.make Translation.l4default true true false page).

(** ** A virtual memory for examples

    One space can be had, at address 4096; mapping and copying do nothing and
    user memory is where the kernel can access it. *)
#[export] Instance flat_vm : VirtualMemory unit := {
  vm_allocate_space := ret 4096;
  vm_free_space _ := ret tt;
  vm_init_mappings _ _ _ := ret tt;
  vm_allocate_utcb _ location := ret location;
  vm_map_fpage _ _ _ _ _ _ := ret tt;
  vm_unmap_fpage _ _ _ _ := ret 0;
  vm_map_sigma0 _ _ := ret tt;
  vm_allocate_tcb _ := ret tt;
  vm_map_dummy_tcb _ _ := ret tt;
  vm_memcpy _ _ _ _ := ret tt;
  vm_lookup_mapping _ addr := ret (Some (identity_mapping addr));
  vm_load _ _ _ := ret 0;
  vm_store _ _ _ _ := ret tt;
}.

(** A memory of words at addresses, mapped identically and writable in every
    space. *)
#[export] Instance ram_vm : VirtualMemory (gmap Z Z) := {
  vm_allocate_space := ret 4096;
  vm_free_space _ := ret tt;
  vm_init_mappings _ _ _ := ret tt;
  vm_allocate_utcb _ location := ret location;
  vm_map_fpage _ _ _ _ _ _ := ret tt;
  vm_unmap_fpage _ _ _ _ := ret 0;
  vm_map_sigma0 _ _ := ret tt;
  vm_allocate_tcb _ := ret tt;
  vm_map_dummy_tcb _ _ := ret tt;
  vm_memcpy _ _ _ _ := ret tt;
  vm_lookup_mapping _ addr := ret (Some (identity_mapping addr));
  vm_load _ addr _ := gets (fun m => default 0 (m !! addr));
  vm_store _ addr _ v := modify (<[addr := v]>);
}.
