(* ===== verification/Unwind.v ===== *)
(** * Aborting IPC operations

    The part of [api/v4/thread.cc] that saves and restores the state of a
    thread around a kernel-generated IPC, and that unwinds an ongoing IPC after
    an abort or a timeout. *)

From Stdlib Require Import ZArith Lia Bool List.
From stdpp Require Import base numbers list option gmap.
From S2P Require Import Prelude Types Time Kip ThreadId Fpage State Msg Ring Monad Tcb Sched.
Open Scope Z_scope.

(** ** Operations *)

Section Operations.
Context {V : Type}.
Abbreviation S := (kstate V).
Abbreviation K := (M (kstate V)).

(** *** [misc.ipc_copy]: the members of the union's first view *)

Definition saved_mr (i : nat) (m : misc_tcb) : Z :=
  match i with O => misc_w0 m | 1%nat => misc_w1 m | _ => misc_w2 m end.
Definition saved_br0 : misc_tcb -> Z := misc_w3.
Definition saved_error : misc_tcb -> Z := misc_w4.
Definition copy_length : misc_tcb -> Z := misc_w5.
Definition copy_start_src : misc_tcb -> Z := misc_w6.
Definition copy_start_dst : misc_tcb -> Z := misc_w7.
Definition copy_fault : misc_tcb -> Z := misc_w8.
Definition set_misc (p : Z) (f : misc_tcb -> misc_tcb) : K unit :=
  tcb_set p (fun t => tcb_with_misc (f (tcb_misc t)) t).

(** *** [save_state], [restore_state] *)

Definition save_state (p : Z) : K unit :=
  let* m0 := get_mr p 0 in set_misc p (misc_with_w0 m0) ;;;
  let* m1 := get_mr p 1 in set_misc p (misc_with_w1 m1) ;;;
  let* m2 := get_mr p 2 in set_misc p (misc_with_w2 m2) ;;;
  let* b0 := get_br p 0 in set_misc p (misc_with_w3 b0) ;;;
  let* e := get_error_code p in set_misc p (misc_with_w4 e) ;;;
  let* partner := get_partner p in set_saved_partner p partner ;;;
  let* st := get_state p in set_saved_state p st.

Definition restore_mrs (p : Z) : K unit :=
  let* m := tcb_get p tcb_misc in set_mr p 0 (saved_mr 0 m) ;;;
  let* m := tcb_get p tcb_misc in set_mr p 1 (saved_mr 1 m) ;;;
  let* m := tcb_get p tcb_misc in set_mr p 2 (saved_mr 2 m) ;;;
  let* m := tcb_get p tcb_misc in set_br p 0 (saved_br0 m).

Definition restore_state (p : Z) : K unit :=
  restore_mrs p ;;;
  let* partner := get_saved_partner p in set_partner p partner ;;;
  let* st := get_saved_state p in set_state p st ;;;
  let* m := tcb_get p tcb_misc in set_error_code p (saved_error m) ;;;
  set_saved_partner p nilthread ;;;
  set_saved_state p ThreadState.aborted.

(** *** Error codes *)

Inductive unwind_reason_e := abort | timeout.

#[export] Instance unwind_reason_e_eq_dec : EqDecision unwind_reason_e.
Proof. solve_decision. Defined.

Definition is_copy_area (addr : Z) : bool :=
  (Layout.COPY_AREA_START <=? addr) && (addr <? Layout.COPY_AREA_END).

Definition copy_offset (m : misc_tcb) : Z :=
  if is_copy_area (copy_fault m)
  then w64 (copy_length m + w64 (copy_fault m - copy_start_dst m))
  else w64 (copy_length m + w64 (copy_fault m - copy_start_src m)).

(** the two error codes, the sender's first *)
Definition calculate_errorcodes (reason : unwind_reason_e) (snd rcv : Z) : K (Z * Z) :=
  let* m := tcb_get snd tcb_misc in
  let offset := copy_offset m in
  match reason with
  | timeout =>
      let* snd_to := get_xfer_timeout_snd snd in
      let* rcv_to := get_xfer_timeout_rcv rcv in
      let* lt := time_lt rcv_to snd_to in
      if lt then
        ret (IPC_SND_ERROR (ERR_IPC_XFER_TIMEOUT_PARTNER offset),
             IPC_RCV_ERROR (ERR_IPC_XFER_TIMEOUT_CURRENT offset))
      else
        ret (IPC_SND_ERROR (ERR_IPC_XFER_TIMEOUT_CURRENT offset),
             IPC_RCV_ERROR (ERR_IPC_XFER_TIMEOUT_PARTNER offset))
  | abort =>
      ret (IPC_SND_ERROR (ERR_IPC_ABORTED offset), IPC_RCV_ERROR (ERR_IPC_ABORTED offset))
  end.

(** *** [unwind] *)

(** the partner of an aborted transfer is told and made to run again *)
Definition reactivate (partner err tag : Z) : K unit :=
  set_error_code partner err ;;;
  set_tag partner tag ;;;
  set_state partner ThreadState.running ;;;
  notify partner handle_ipc_error_fn [] ;;;
  enqueue_ready partner false.

(** how one pass of [redo_unwind] ends: by returning, or by [goto redo_unwind]
    with this value of the local [tag] *)
Inductive unwind_next := Return | Redo (tag : Z).

Definition report (p tag err : Z) : K unwind_next :=
  set_tag p tag ;;; set_error_code p err ;;; ret Return.

(** a nested IPC is unwound again in the restored state *)
Definition redo_if_nested (p tag : Z) (otherwise : K unwind_next) : K unwind_next :=
  let* sp := get_saved_partner p in
  if negb (is_nilthread sp) then restore_state p ;;; ret (Redo tag) else otherwise.

Definition unwind_not_started (p : Z) (reason : unwind_reason_e) (cstate partner tag : Z)
    : K unwind_next :=
  cancel_timeout p ;;;
  let polling := ThreadState.is_polling cstate in
  let tag := if polling then tag else MsgTag.error_tag in
  when polling (dequeue_send p partner) ;;;
  redo_if_nested p tag (
    let tag := MsgTag.set_error tag in
    let err := match reason with timeout => ERR_IPC_TIMEOUT | abort => ERR_IPC_CANCELED end in
    report p tag (if polling then IPC_SND_ERROR err else IPC_RCV_ERROR err)).

Definition unwind_tunneled_pf (p : Z) (reason : unwind_reason_e) (partner tag : Z)
    : K unwind_next :=
  let* errs := calculate_errorcodes reason p partner in
  let '(err_s, err_r) := errs in
  let tag := MsgTag.set_error tag in
  reactivate partner err_r tag ;;;
  report p tag err_s.

Definition unwind_locked_running (p : Z) (reason : unwind_reason_e) (partner tag : Z)
    : K unwind_next :=
  let* errs := calculate_errorcodes reason p partner in
  let '(err_s, err_r) := errs in
  let tag := MsgTag.set_error tag in
  let* pst := get_state partner in
  let* pp := get_partner partner in
  let* me := get_global_id p in
  when ((pst =? ThreadState.locked_waiting) && (pp =? me)) (reactivate partner err_r tag) ;;;
  redo_if_nested p tag (report p tag err_s).

Definition unwind_locked_running_nested (p : Z) (reason : unwind_reason_e) (partner tag : Z)
    : K unwind_next :=
  let* errs := calculate_errorcodes reason partner p in
  let '(err_s, err_r) := errs in
  let tag := MsgTag.set_error tag in
  let* pst := get_state partner in
  when (pst =? ThreadState.waiting_tunneled_pf) (reactivate partner err_s tag) ;;;
  report p tag err_r.

Definition unwind_locked_waiting (p : Z) (reason : unwind_reason_e) (partner tag : Z)
    : K unwind_next :=
  let* errs := calculate_errorcodes reason partner p in
  let '(err_s, err_r) := errs in
  let tag := MsgTag.set_error tag in
  let* pst := get_state partner in
  when (pst =? ThreadState.locked_running) (reactivate partner err_s tag) ;;;
  redo_if_nested p tag (report p tag err_r).

Definition unwind_pass (p : Z) (reason : unwind_reason_e) (tag : Z) : K unwind_next :=
  let* cstate := get_state p in
  set_state p ThreadState.running ;;;
  let* partner := get_partner_tcb p in
  if ThreadState.is_polling cstate || ThreadState.is_waiting cstate then
    unwind_not_started p reason cstate partner tag
  else if cstate =? ThreadState.waiting_tunneled_pf then
    unwind_tunneled_pf p reason partner tag
  else if cstate =? ThreadState.locked_running_ipc_done then
    restore_state p ;;; ret (Redo tag)
  else if cstate =? ThreadState.locked_running then
    unwind_locked_running p reason partner tag
  else if cstate =? ThreadState.locked_running_nested then
    unwind_locked_running_nested p reason partner tag
  else if cstate =? ThreadState.locked_waiting then
    unwind_locked_waiting p reason partner tag
  else if ThreadState.is_xcpu_waiting cstate then ret Return
  else if ThreadState.is_running cstate then ret Return
  else ret Return.

Fixpoint unwind_loop (fuel : nat) (p : Z) (reason : unwind_reason_e) (tag : Z) : K unit :=
  match fuel with
  | O => hang
  | Datatypes.S fuel =>
      let* r := unwind_pass p reason tag in
      match r with
      | Return => ret tt
      | Redo tag => unwind_loop fuel p reason tag
      end
  end.

(** three passes are enough, as [unwind_terminates] shows *)
Definition unwind (p : Z) (reason : unwind_reason_e) : K unit :=
  let* tag := get_tag p in
  unwind_loop 3 p reason tag.

(** *** The handlers a thread runs after an abort *)

(** [return_from_ipc] and [return_from_user_interruption] consist of an
    assembly block that is commented out *)
Definition return_from_ipc (p : Z) : K unit := tcb_get p (fun _ => tt).
Definition return_from_user_interruption (p : Z) : K unit := tcb_get p (fun _ => tt).

Definition handle_ipc_error : K unit :=
  let* current := get_current_tcb in
  tcb_set current (fun t => tcb_with_flags (Bitmask.sub (tcb_flags t) HAS_XFER_TIMEOUT) t) ;;;
  let* sst := get_saved_state current in
  if ThreadState.is_running sst then
    restore_mrs current ;;;
    let* sp := get_saved_partner current in set_partner current sp ;;;
    let* sst := get_saved_state current in set_state current sst ;;;
    set_saved_partner current nilthread ;;;
    set_saved_state current ThreadState.aborted ;;;
    return_from_user_interruption current
  else
    set_saved_state current ThreadState.aborted ;;;
    return_from_ipc current.

Definition handle_ipc_timeout (state : Z) : K unit :=
  let* current := get_current_tcb in
  set_state current state ;;;
  unwind current timeout ;;;
  set_state current ThreadState.running ;;;
  handle_ipc_error.

End Operations.

(** ** Termination *)

Section Termination.
Context {V : Type}.
Abbreviation S := (kstate V).
Implicit Types s : kstate V.

(** what decides whether another pass follows *)
Definition saved (t : tcb) : Z * Z := (tcb_saved_partner t, tcb_saved_state t).

(** a state whose saved part is that of a thread without nested IPC *)
Definition not_nested s p : Prop :=
  saved (tcb_of s p) = (nilthread, ThreadState.val ThreadState.aborted).

Lemma tcb_get_ok {A} p (f : tcb -> A) s a s' :
  tcb_get p f s = Ok (a, s') -> s' = s /\ a = f (tcb_of s p).
Proof. unfold tcb_get. case_match; [done|]. now intros [= <- <-]. Qed.

Lemma tcb_set_ok p f s a s' : tcb_set p f s = Ok (a, s') -> s' = upd_tcb p f s.
Proof. unfold tcb_set. case_match; [done|]. now intros [= _ <-]. Qed.

(** [restore_state] leaves no nested IPC and installs the saved state *)
Lemma restore_state_saved p s u s' :
  restore_state p s = Ok (u, s') ->
  not_nested s' p /\ tcb_thread_state (tcb_of s' p) = tcb_saved_state (tcb_of s p).
Proof.
  unfold restore_state. intros E. kinv E.
  assert (Hs : preserves (keeps (V := V) saved) (restore_mrs p)) by keep.
  specialize (Hs s a s0 E0 p). injection Hs as Hsp Hss.
  kinv E. apply tcb_get_ok in E1 as [-> ->]. kinv E. apply tcb_set_ok in E1 as ->.
  kinv E. apply tcb_get_ok in E1 as [-> ->]. kinv E. apply tcb_set_ok in E1 as ->.
  kinv E. apply tcb_get_ok in E1 as [-> ->]. kinv E.
  assert (Hk : preserves (keeps (V := V) tcb_thread_state) (set_error_code p (saved_error
    (tcb_misc (tcb_of (upd_tcb p (tcb_with_thread_state (tcb_saved_state
      (tcb_of (upd_tcb p (tcb_with_partner (tcb_saved_partner (tcb_of s0 p))) s0) p)))
      (upd_tcb p (tcb_with_partner (tcb_saved_partner (tcb_of s0 p))) s0)) p))))) by keep.
  specialize (Hk _ _ _ E1 p). kinv E. apply tcb_set_ok in E2 as ->. apply tcb_set_ok in E as ->.
  unfold not_nested, saved. rewrite !tcb_of_upd_tcb_eq. split; [done|]. simpl.
  rewrite Hk, !tcb_of_upd_tcb_eq. simpl. now rewrite <- Hss.
Qed.

(** [restore_state] is only reached again from [locked_running_ipc_done] once
    nothing is nested *)
Lemma redo_if_nested_redo p tag m s tag' s' :
  redo_if_nested p tag m s = Ok (Redo tag', s') ->
  (forall s tag' s', m s <> Ok (Redo tag', s')) ->
  not_nested s' p /\ is_nilthread (tcb_saved_partner (tcb_of s p)) = false.
Proof.
  unfold redo_if_nested. intros E Hm. kinv E. apply tcb_get_ok in E0 as [-> ->].
  destruct (is_nilthread _) eqn:En; simpl in E; [now destruct (Hm s tag' s')|].
  kinv E. destruct (restore_state_saved _ _ _ _ E0). injection E as <- <-. done.
Qed.

Lemma report_returns p tag err s tag' s' : report p tag err s <> Ok (Redo tag', s').
Proof. unfold report. intros E. kinv E. kinv E. done. Qed.

(** the part of a pass before the test for a nested IPC keeps what is saved *)
Lemma before_nested {A} (m : M S A) (k : A -> M S unwind_next) p s r s' :
  preserves (keeps saved) m -> bind m k s = Ok (r, s') ->
  exists a s1, k a s1 = Ok (r, s') /\ saved (tcb_of s1 p) = saved (tcb_of s p).
Proof. intros Hm E. kinv E. exists a, s0. split; [done|]. exact (Hm _ _ _ E0 p). Qed.

Definition redo_spec s s' p : Prop :=
  not_nested s' p /\ is_nilthread (tcb_saved_partner (tcb_of s p)) = false.

Lemma redo_after {A} (m : M S A) (k : A -> M S unwind_next) p s tag s' :
  preserves (keeps saved) m -> bind m k s = Ok (Redo tag, s') ->
  (forall a s1, k a s1 = Ok (Redo tag, s') -> redo_spec s1 s' p) -> redo_spec s s' p.
Proof.
  intros Hm E Hk. destruct (before_nested m k p s _ s' Hm E) as (a & s1 & E1 & Hs).
  destruct (Hk a s1 E1) as [H1 H2]. split; [done|]. injection Hs as Hp _. now rewrite <- Hp.
Qed.

Lemma redo_nested p tag0 tag1 err s tag s' :
  redo_if_nested p tag0 (report p tag1 err) s = Ok (Redo tag, s') -> redo_spec s s' p.
Proof.
  intros E. apply (redo_if_nested_redo _ _ _ _ _ _ E). intros ? ? ?. apply report_returns.
Qed.

Lemma no_redo {A} (m : M S A) (k : A -> M S unwind_next) s tag s' :
  (forall a s1, k a s1 <> Ok (Redo tag, s')) -> bind m k s <> Ok (Redo tag, s').
Proof. intros Hk E. kinv E. now apply Hk in E. Qed.

Lemma calculate_errorcodes_saved reason snd rcv :
  preserves (keeps (V := V) saved) (calculate_errorcodes reason snd rcv).
Proof. keep. Qed.

Lemma unwind_pass_redo p reason tag s tag' s' :
  unwind_pass p reason tag s = Ok (Redo tag', s') ->
  not_nested s' p /\
  (is_nilthread (tcb_saved_partner (tcb_of s p)) = false \/
   tcb_thread_state (tcb_of s' p) = tcb_saved_state (tcb_of s p)).
Proof.
  unfold unwind_pass. intros E. kinv E. apply tcb_get_ok in E0 as [-> ->].
  set (cstate := tcb_thread_state _) in E. kinv E. apply tcb_set_ok in E0 as ->.
  kinv E. apply tcb_get_ok in E0 as [-> ->]. set (partner := get_tcb _) in E.
  set (s1 := upd_tcb p _ s) in E.
  assert (Hs : saved (tcb_of s1 p) = saved (tcb_of s p)) by (apply (keeps_upd_tcb saved); intros ?; reflexivity).
  injection Hs as Hsp Hss.
  assert (redo_spec s1 s' p \/ restore_state p s1 = Ok (tt, s') /\ True -> 
    not_nested s' p /\ (is_nilthread (tcb_saved_partner (tcb_of s p)) = false \/
      tcb_thread_state (tcb_of s' p) = tcb_saved_state (tcb_of s p))) as Hgoal.
  { intros [[H1 H2]|[H _]]; [rewrite Hsp in H2; tauto|].
    destruct (restore_state_saved _ _ _ _ H) as [H1 H2]. rewrite Hss in H2. tauto. }
  apply Hgoal. clear Hgoal. clearbody s1 cstate partner. clear Hsp Hss.
  repeat case_match; try discriminate E.
  - left. eapply redo_after; [|exact E|]; [keep|]. intros [] s2 E2.
    eapply redo_after; [|exact E2|]; [keep|]. intros [] s3 E3. now apply redo_nested in E3.
  - exfalso. revert E. apply no_redo. intros [] s2. apply no_redo. intros [] s3. apply report_returns.
  - right. kinv E. injection E as <- <-. split; [|done].
    match type of E0 with _ = Ok (?u, _) => now destruct u end.
  - left. eapply redo_after; [|exact E|]; [apply calculate_errorcodes_saved|]. intros [] s2 E2.
    eapply redo_after; [|exact E2|]; [keep|]. intros ? s3 E3.
    eapply redo_after; [|exact E3|]; [keep|]. intros ? s4 E4.
    eapply redo_after; [|exact E4|]; [keep|]. intros ? s5 E5.
    eapply redo_after; [|exact E5|]; [keep|]. intros [] s6 E6. now apply redo_nested in E6.
  - exfalso. revert E. apply no_redo. intros [] s2. apply no_redo. intros ? s3. apply no_redo.
    intros [] s4. apply report_returns.
  - left. eapply redo_after; [|exact E|]; [apply calculate_errorcodes_saved|]. intros [] s2 E2.
    eapply redo_after; [|exact E2|]; [keep|]. intros ? s3 E3.
    eapply redo_after; [|exact E3|]; [keep|]. intros [] s6 E6. now apply redo_nested in E6.
Qed.

(** an aborted thread is left alone *)
Lemma unwind_pass_aborted p reason tag s :
  p <> NULL -> tcb_thread_state (tcb_of s p) = ThreadState.aborted ->
  unwind_pass p reason tag s = Ok (Return, upd_tcb p (tcb_with_thread_state ThreadState.running) s).
Proof.
  intros Hp Ht. unfold unwind_pass, get_state, set_state, get_partner_tcb.
  rewrite bind_tcb_get, Ht, bind_tcb_set, bind_tcb_get by done. reflexivity.
Qed.

Lemma unwind_loop_S fuel p reason tag s :
  unwind_loop (Datatypes.S fuel) p reason tag s =
  bind (unwind_pass p reason tag) (fun r => match r with
    | Return => ret tt | Redo tag => unwind_loop fuel p reason tag end) s.
Proof. reflexivity. Qed.

(** the third of three passes finds an aborted thread *)
Lemma third_pass_returns p reason tag0 tag1 tag2 s s1 s2 :
  unwind_pass p reason tag0 s = Ok (Redo tag1, s1) ->
  unwind_pass p reason tag1 s1 = Ok (Redo tag2, s2) ->
  unwind_pass p reason tag2 s2 = Ok (Return, upd_tcb p (tcb_with_thread_state ThreadState.running) s2).
Proof.
  intros E1 E2. apply unwind_pass_redo in E1 as [Hn1 _]. injection Hn1 as Hsp1 Hss1.
  assert (p <> NULL) as Hp.
  { intros ->. unfold unwind_pass, get_state, bind, tcb_get in E2. done. }
  apply unwind_pass_redo in E2 as [_ Hst]. rewrite Hsp1, Hss1 in Hst.
  destruct Hst as [Hst|Hst]; [done|]. now apply unwind_pass_aborted.
Qed.

(** if no pass hangs in the states of [P], unwinding does not hang *)
Lemma unwind_ends (P : kstate V -> Prop) p reason s :
  (forall tag s, P s -> ends (unwind_pass p reason tag) s (fun _ s' => P s')) -> P s ->
  unwind p reason s <> Hang.
Proof.
  intros Hpass HP. unfold unwind. assert (never_hangs (S := kstate V) (get_tag p)) as Hg by no_hang.
  assert (forall tag s', get_tag p s = Ok (tag, s') -> s' = s) as Hs.
  { unfold get_tag, get_mr. rewrite get_word_eq by kindex. intros tag s'.
    unfold utcb_get, bind, tcb_get. repeat case_match; try done; simplify_eq/=; congruence. }
  specialize (Hg s). unfold bind at 1. destruct (get_tag p s) as [[tag s']| |] eqn:E0; [|done|done].
  rewrite (Hs tag s' eq_refl), unwind_loop_S. unfold bind.
  pose proof (Hpass tag s HP) as H1. unfold ends in H1.
  destruct (unwind_pass p reason tag s) as [[[|tag1] s1]| |] eqn:E1; [done| |done|done].
  rewrite unwind_loop_S. unfold bind. pose proof (Hpass tag1 s1 H1) as H2. unfold ends in H2.
  destruct (unwind_pass p reason tag1 s1) as [[[|tag2] s2]| |] eqn:E2; [done| |done|done].
  rewrite unwind_loop_S. unfold bind. now rewrite (third_pass_returns _ _ _ _ _ _ _ _ E1 E2).
Qed.

Lemma unwind_pass_never_hangs p tag : never_hangs (unwind_pass (V := V) p abort tag).
Proof. no_hang. Qed.

(** *** Time points

    [time_t::operator<] is not implemented for time points and stops the kernel. *)

(** no transfer timeout in a UTCB is a time point *)
Definition periods_only s : Prop := forall u,
  time_is_point (get_snd (utcb_xfer_timeout (utcb_of s u))) = false /\
  time_is_point (get_rcv (utcb_xfer_timeout (utcb_of s u))) = false.

(** the operation keeps the transfer timeouts of all UTCBs *)
Definition keeps_xfer s s' : Prop := forall u,
  utcb_xfer_timeout (utcb_of s' u) = utcb_xfer_timeout (utcb_of s u).

#[local] Instance keeps_xfer_preorder : PreOrder keeps_xfer.
Proof. split; [done|]. intros s1 s2 s3 H1 H2 u. now rewrite H2, H1. Qed.

Lemma keeps_xfer_periods s s' : keeps_xfer s s' -> periods_only s -> periods_only s'.
Proof. intros H Hp u. rewrite H. apply Hp. Qed.

Lemma xfer_tcb_get {A} p (f : tcb -> A) : preserves keeps_xfer (tcb_get p f).
Proof. intros s a s'. unfold tcb_get. case_match; [done|]. now intros [= _ <-]. Qed.
Lemma xfer_tcb_set p f : preserves keeps_xfer (tcb_set p f).
Proof. intros s a s'. unfold tcb_set. case_match; [done|]. now intros [= _ <-]. Qed.
Lemma xfer_utcb_get {A} p (f : utcb -> A) : preserves keeps_xfer (utcb_get p f).
Proof. intros s a s'. unfold utcb_get. case_match; [done|]. now intros [= _ <-]. Qed.
Lemma xfer_utcb_set p f : (forall u, utcb_xfer_timeout (f u) = utcb_xfer_timeout u) ->
  preserves keeps_xfer (utcb_set p f).
Proof.
  intros Hf s a s'. unfold utcb_set. case_match; [done|]. intros [= _ <-] u.
  rewrite utcb_of_upd_utcb. case_decide; [subst; apply Hf|done].
Qed.

Lemma xfer_enqueue_tail (H : RingHeap (kstate V)) h t :
  (forall p r s, keeps_xfer s (rput (RingHeap := H) p r s)) ->
  preserves keeps_xfer (of_option (ENQUEUE_LIST_TAIL (RingHeap0 := H) h t)).
Proof. intros Hp. apply preserves_of_option. intros s a s'. now apply (ENQUEUE_LIST_TAIL_frame (RingHeap0 := H) keeps_xfer). Qed.
Lemma xfer_enqueue_head (H : RingHeap (kstate V)) h t :
  (forall p r s, keeps_xfer s (rput (RingHeap := H) p r s)) ->
  preserves keeps_xfer (of_option (ENQUEUE_LIST_HEAD (RingHeap0 := H) h t)).
Proof. intros Hp. apply preserves_of_option. intros s a s'. now apply (ENQUEUE_LIST_HEAD_frame (RingHeap0 := H) keeps_xfer). Qed.
Lemma xfer_dequeue (H : RingHeap (kstate V)) h t :
  (forall p r s, keeps_xfer s (rput (RingHeap := H) p r s)) ->
  preserves keeps_xfer (of_option (DEQUEUE_LIST (RingHeap0 := H) h t)).
Proof. intros Hp. apply preserves_of_option. intros s a s'. now apply (DEQUEUE_LIST_frame (RingHeap0 := H) keeps_xfer). Qed.

Ltac keep_xfer := walk_pres ltac:(fun _ => first
  [ apply xfer_tcb_get | apply xfer_tcb_set | apply xfer_utcb_get
  | apply xfer_utcb_set; solve [intros ?; reflexivity]
  | apply preserves_modify; intros ? ?; reflexivity
  | apply xfer_enqueue_tail; intros ? ? ? ?; reflexivity
  | apply xfer_enqueue_head; intros ? ? ? ?; reflexivity
  | apply xfer_dequeue; intros ? ? ? ?; reflexivity ]).

(** the operation does not hang if the transfer timeouts are periods, and keeps them *)
Definition settles {A} (m : M S A) : Prop :=
  forall s, periods_only s -> ends m s (fun _ s' => periods_only s').

Lemma settles_bind {A B} (m : M S A) (k : A -> M S B) :
  settles m -> (forall a, settles (k a)) -> settles (bind m k).
Proof.
  intros Hm Hk s Hp. eapply ends_bind; [apply Hm, Hp|]. intros a s' Hp'. now apply Hk.
Qed.

Lemma settles_plain {A} (m : M S A) : never_hangs m -> preserves keeps_xfer m -> settles m.
Proof.
  intros Hn Hk s Hp. eapply ends_weaken; [now apply (ends_never_hangs m keeps_xfer)|].
  intros a s' H. now apply (keeps_xfer_periods s).
Qed.

(** the comparison in the unwinding of a transfer stops at the sender's time point *)
Lemma errorcodes_point_hangs p q s :
  p <> NULL -> q <> NULL -> tcb_utcb (tcb_of s p) <> NULL -> tcb_utcb (tcb_of s q) <> NULL ->
  time_is_point (get_snd (utcb_xfer_timeout (utcb_of s (tcb_utcb (tcb_of s p))))) = true ->
  calculate_errorcodes timeout p q s = Hang.
Proof.
  intros Hp Hq Hu Hv Hpt. unfold calculate_errorcodes, get_xfer_timeout_snd, get_xfer_timeout_rcv.
  rewrite bind_tcb_get, !bind_utcb_get by done. unfold time_lt, get_current_time.
  rewrite bind_assoc, bind_gets, Hpt. now destruct (time_is_point (get_rcv _)).
Qed.

Lemma unwind_point_hangs p s :
  let q := get_tcb (tcb_partner (tcb_of s p)) in
  p <> NULL -> tcb_utcb (tcb_of s p) <> NULL -> tcb_utcb (tcb_of s q) <> NULL ->
  tcb_thread_state (tcb_of s p) = ThreadState.locked_running ->
  time_is_point (get_snd (utcb_xfer_timeout (utcb_of s (tcb_utcb (tcb_of s p))))) = true ->
  unwind p timeout s = Hang.
Proof.
  intros q Hp Hu Hv Hst Hpt. unfold unwind, get_tag, get_mr. rewrite get_word_eq, bind_utcb_get by (done || kindex).
  set (tag := word_at _ 0). rewrite unwind_loop_S.
  assert (unwind_pass p timeout tag s = Hang) as H; [|unfold bind; now rewrite H].
  unfold unwind_pass, get_state, set_state, get_partner_tcb. rewrite bind_tcb_get, Hst, bind_tcb_set, bind_tcb_get by done.
  set (s1 := upd_tcb p _ s).
  assert (forall x, tcb_utcb (tcb_of s1 x) = tcb_utcb (tcb_of s x)) as Hf by (intros x; now apply (tcb_field_frame tcb_utcb)).
  assert (tcb_partner (tcb_of s1 p) = tcb_partner (tcb_of s p)) as -> by now apply (tcb_field_frame tcb_partner).
  fold q. change (unwind_locked_running p timeout q tag s1 = Hang). unfold unwind_locked_running, bind at 1.
  rewrite errorcodes_point_hangs; [done|done|apply get_tcb_nonnull|now rewrite Hf..|now rewrite Hf].
Qed.

Lemma ends_utcb_get {A B} p (f : utcb -> A) (k : A -> M S B) s Q :
  (forall u, ends (k (f (utcb_of s u))) s Q) -> ends (bind (utcb_get p f) k) s Q.
Proof. intros Hk. unfold ends, bind, utcb_get. destruct ((p =? NULL) || _); [exact I|exact (Hk _)]. Qed.

Lemma calculate_errorcodes_settles reason snd rcv : settles (calculate_errorcodes reason snd rcv).
Proof.
  unfold calculate_errorcodes. apply settles_bind; [apply settles_plain; [no_hang|keep_xfer]|intros m].
  destruct reason; [apply settles_plain; [no_hang|keep_xfer]|].
  intros s Hp. unfold get_xfer_timeout_snd, get_xfer_timeout_rcv.
  do 2 (apply ends_utcb_get; intros ?). unfold time_lt, get_current_time.
  unfold ends. rewrite bind_assoc, bind_gets, (proj2 (Hp _)), (proj1 (Hp _)). unfold bind, ret.
  destruct (_ <? _); exact Hp.
Qed.

Lemma unwind_pass_settles p reason tag : settles (unwind_pass p reason tag).
Proof.
  unfold unwind_pass. apply settles_bind; [apply settles_plain; [no_hang|keep_xfer]|intros cstate].
  apply settles_bind; [apply settles_plain; [no_hang|keep_xfer]|intros _].
  apply settles_bind; [apply settles_plain; [no_hang|keep_xfer]|intros partner].
  unfold unwind_tunneled_pf, unwind_locked_running, unwind_locked_running_nested, unwind_locked_waiting.
  repeat case_match; first [apply settles_plain; [no_hang|keep_xfer]|
    apply settles_bind; [apply calculate_errorcodes_settles|intros []; apply settles_plain; [no_hang|keep_xfer]]].
Qed.

(** C26 [tcb_t::unwind] terminates.  The jump back to [redo_unwind] is taken at most
    twice: after two passes that ended in it the third returns, whatever the state.
    Aborting an IPC never ends in a panic loop.  A timeout does not either if no
    transfer timeout in a UTCB is a time point; the comparison of time points is not
    implemented, and if the transfer timeout of the sender is one, the kernel stops
    in the unwinding of the sender's transfer. *)
Theorem unwind_terminates p s :
  (forall reason tag0 tag1 tag2 s1 s2,
     unwind_pass p reason tag0 s = Ok (Redo tag1, s1) ->
     unwind_pass p reason tag1 s1 = Ok (Redo tag2, s2) ->
     exists s3, unwind_pass p reason tag2 s2 = Ok (Return, s3)) /\
  unwind p abort s <> Hang /\
  (periods_only s -> unwind p timeout s <> Hang) /\
  (let q := get_tcb (tcb_partner (tcb_of s p)) in
   p <> NULL -> tcb_utcb (tcb_of s p) <> NULL -> tcb_utcb (tcb_of s q) <> NULL ->
   tcb_thread_state (tcb_of s p) = ThreadState.locked_running ->
   time_is_point (get_snd (utcb_xfer_timeout (utcb_of s (tcb_utcb (tcb_of s p))))) = true ->
   unwind p timeout s = Hang).
Proof.
  split_and!.
  - intros reason tag0 tag1 tag2 s1 s2 E1 E2. eexists. exact (third_pass_returns _ _ _ _ _ _ _ _ E1 E2).
  - apply (unwind_ends (fun _ => True)); [|done]. intros tag s' _. unfold ends.
    pose proof (unwind_pass_never_hangs p tag s') as H. now destruct (unwind_pass p abort tag s') as [[]| |].
  - apply (unwind_ends periods_only). intros tag s'. apply unwind_pass_settles.
  - intros q Hp Hu Hv Hst Hpt. now apply unwind_point_hangs.
Qed.

End Termination.

(** ** The round trip of save and restore *)

Section RoundTrip.
Context {V : Type}.
Abbreviation S := (kstate V).
Implicit Types s : kstate V.

(** what a kernel-generated IPC overwrites in a thread *)
Definition ipc_view s p : list Z * Z * Z * Z :=
  let u := utcb_of s (tcb_utcb (tcb_of s p)) in
  ([word_at u 0; word_at u 1; word_at u 2; word_at u 64], utcb_error_code u,
   tcb_partner (tcb_of s p), tcb_thread_state (tcb_of s p)).

(** the save area of a thread *)
Definition save_area (t : tcb) : misc_tcb * (Z * Z) * Z := (tcb_misc t, saved t, tcb_utcb t).

Lemma word_at_with i j v u : word_at (utcb_with_word i v u) j = if decide (i = j) then v else word_at u j.
Proof. unfold word_at. simpl. rewrite lookup_insert. now case_decide. Qed.

Lemma word_at_error_code e u i : word_at (utcb_with_error_code e u) i = word_at u i.
Proof. done. Qed.

(** C37 Saving the state of a thread and restoring it are inverse: whatever a
    kernel-generated IPC does in between, as long as it leaves the save area
    alone, [restore_state] gives back the three message registers, the buffer
    register, the error code, the partner and the thread state, forgets the
    nesting, and touches no other thread. *)
Theorem save_restore_roundtrip p s :
  p <> NULL -> tcb_utcb (tcb_of s p) <> NULL ->
  exists s1, save_state p s = Ok (tt, s1) /\
  forall s2, save_area (tcb_of s2 p) = save_area (tcb_of s1 p) ->
  exists s3, restore_state p s2 = Ok (tt, s3) /\ ipc_view s3 p = ipc_view s p /\ not_nested s3 p /\
    (forall q, q <> p -> tcb_of s3 q = tcb_of s2 q) /\
    (forall u, u <> tcb_utcb (tcb_of s p) -> utcb_of s3 u = utcb_of s2 u).
Proof.
  intros Hp Hu. unfold save_state, set_misc. krun. eexists. split; [reflexivity|].
  intros s2. unfold save_area. kobs. simpl. set (u := utcb_of s (tcb_utcb (tcb_of s p))).
  intros [= Hm Hsp Hss Hu2]. rewrite <- Hu2 in Hu.
  unfold restore_state, restore_mrs.
  krun. eexists. split; [reflexivity|].
  unfold ipc_view, not_nested, saved. kobs. simpl. kobs. simpl.
  rewrite Hm, Hsp, Hss, !word_at_error_code, !word_at_with. split_and!.
  - repeat case_decide; try done.
  - done.
  - intros q Hq. rewrite tcb_of_upd_tcb_ne by done. done.
  - intros q Hq. rewrite utcb_of_upd_tcb, utcb_of_upd_utcb_ne by congruence. done.
Qed.
End RoundTrip.

(** thread 1, waiting with two message registers set *)
Definition saved_example : kstate unit :=
  match (tcb_set 2 (tcb_with_utcb 4096) ;;; set_mr 2 0 7 ;;; set_mr 2 1 8 ;;; set_error_code 2 3 ;;;
         set_partner 2 (threadid 5 1) ;;; set_state 2 ThreadState.waiting_forever) (boot_state tt) with
  | Ok (_, s) => s
  | _ => boot_state tt
  end.

Lemma save_restore_roundtrip_witness :
  exists s1 s3, save_state 2 saved_example = Ok (tt, s1) /\ restore_state 2 s1 = Ok (tt, s3) /\
    ipc_view s3 2 = ipc_view saved_example 2.
Proof.
  destruct (save_restore_roundtrip 2 saved_example ltac:(done) ltac:(vm_compute; discriminate))
    as (s1 & E1 & H).
  destruct (H s1 eq_refl) as (s3 & E3 & Hv & _). exists s1, s3. done.
Defined.

(** thread 2 in the middle of a transfer to thread 3, with the given transfer timeouts *)
Definition transferring (xfer : Z) : kstate unit :=
  upd_utcb 100 (utcb_with_xfer_timeout xfer)
    (upd_tcb 2 (fun t => tcb_with_thread_state ThreadState.locked_running
        (tcb_with_partner (threadid 3 1) (tcb_with_utcb 100 t)))
      (upd_tcb (get_tcb (threadid 3 1)) (tcb_with_utcb 101) (boot_state tt))).

(** a timeout ends, unless the sender's transfer timeout is a time point *)
Lemma unwind_terminates_witness :
  unwind 2 timeout (transferring 0) <> Hang /\ unwind 2 timeout (transferring (2 ^ 32 - 1)) = Hang.
Proof.
  split.
  - apply (unwind_terminates 2 (transferring 0)). intros u. unfold transferring.
    rewrite utcb_of_upd_utcb. case_decide; [now vm_compute|].
    rewrite !utcb_of_upd_tcb. unfold utcb_of, boot_state. simpl. now rewrite lookup_empty.
  - apply (unwind_terminates 2 (transferring (2 ^ 32 - 1))); vm_compute; congruence.
Defined.
