(* ===== verification/Ipcx.v ===== *)
(** * Extended IPC transfers

    [api/backup/ipcx.cc]: the transfer of typed items (mapped and granted
    fpages, strings) from the sender's message registers. *)

From Stdlib Require Import ZArith Lia Bool List.
From stdpp Require Import base numbers list option gmap.
From S2P Require Import Prelude Types Time Kip ThreadId Fpage State Msg Ring Monad Tcb Sched.
From S2P Require Import Vspace Unwind.
Open Scope Z_scope.

Section Operations.
Context {V : Type} `{!VirtualMemory V}.
Abbreviation S := (kstate V).
Abbreviation K := (M (kstate V)).

(** [tcb_t::adjust_for_copy_area] is [UNIMPLEMENTED] on this architecture,
    [release_copy_area] is empty *)
Definition adjust_for_copy_area (src dst src_addr dst_addr : Z) : K (Z * Z) := hang.
Definition release_copy_area (p : Z) : K unit := ret tt.

Definition ipc_copy (src src_addr dst dst_addr len : Z) : K Z :=
  let* src_space := get_space src in
  let* dst_space := get_space dst in
  let src_len := get_copy_limit src_addr len in
  let dst_len := get_copy_limit dst_addr len in
  let len := if src_len <? len then src_len else len in
  let len := if dst_len <? len then dst_len else len in
  let* addrs := (if negb (src_space =? dst_space)
                 then adjust_for_copy_area src dst src_addr dst_addr
                 else ret (src_addr, dst_addr)) in
  let '(src_addr, dst_addr) := addrs in
  set_misc src (misc_with_w8 src_addr) ;;;
  set_misc src (misc_with_w6 src_addr) ;;;
  set_misc src (misc_with_w7 dst_addr) ;;;
  lift (vm_memcpy src_space dst_addr src_addr len) ;;;
  set_misc src (fun m => misc_with_w5 (w64 (copy_length m + len)) m) ;;;
  ret len.

Definition copy_mr (dst src index : Z) : K unit :=
  let* v := get_mr src index in set_mr dst index v.

(** *** The transfer loop

    The locals of [extended_transfer] that survive an iteration. *)
Record xfer := Xfer { x_src_idx : Z; x_br_idx : Z; x_total_len : Z; x_accept_strings : bool }.

(** the locals of the string loop *)
Record strs := Strs {
  st_src_idx : Z; st_src_item : Z; st_src_addr : Z; st_src_len : Z; st_src_ptridx : Z;
  st_br_idx : Z; st_dst_item : Z; st_dst_addr : Z; st_dst_len : Z; st_dst_ptridx : Z;
  st_total_len : Z; st_accept_strings : bool;
}.

(** [goto message_overflow] carries the total length *)
Inductive xfer_result (A : Type) := Continue (a : A) | Overflow (total_len : Z).
Arguments Continue {A} a.
Arguments Overflow {A} total_len.

Definition CHECK_BR_IDX (idx : Z) : bool := idx >? Config.IPC_NUM_BR.
Definition CHECK_MR_IDX (idx total : Z) : bool := idx >? total.

(** the [do ... while (compound)] loop that skips a receive buffer: the new
    [br_idx] and [accept_strings] *)
Fixpoint skip_buffer (fuel : nat) (dst br_idx dst_item : Z) (accept : bool) : K (Z * bool) :=
  match fuel with
  | O => hang
  | Datatypes.S fuel =>
      let compound := MsgItem.is_string_compound dst_item in
      let br_idx := br_idx + MsgItem.get_string_ptr_count dst_item + 1 in
      if br_idx >=? Config.IPC_NUM_BR then ret (br_idx, false) else
      let* dst_item := get_br dst br_idx in
      if compound then skip_buffer fuel dst br_idx dst_item accept else ret (br_idx, accept)
  end.

(** what the sender's side does when the current part is exhausted: [Continue
    None] at the end of the send string *)
Definition next_source (src total_mrs : Z) (x : strs) : K (xfer_result (option strs * Z)) :=
  if st_src_ptridx x <? MsgItem.get_string_ptr_count (st_src_item x) then
    let ptr := st_src_ptridx x + 1 in
    let* a := get_mr src (st_src_idx x + ptr) in
    ret (Continue (Some
      (Strs (st_src_idx x) (st_src_item x) a (MsgItem.get_string_length (st_src_item x)) ptr
            (st_br_idx x) (st_dst_item x) (st_dst_addr x) (st_dst_len x) (st_dst_ptridx x)
            (st_total_len x) (st_accept_strings x)), st_src_idx x))
  else if MsgItem.is_string_compound (st_src_item x) then
    let idx := st_src_idx x + st_src_ptridx x + 1 in
    if CHECK_MR_IDX (idx + 1) total_mrs then ret (Overflow (st_total_len x)) else
    let* item := get_mr src idx in
    let* a := get_mr src (idx + 1) in
    if CHECK_MR_IDX (idx + MsgItem.get_string_ptr_count item) total_mrs
    then ret (Overflow (st_total_len x)) else
    ret (Continue (Some
      (Strs idx item a (MsgItem.get_string_length item) 1
            (st_br_idx x) (st_dst_item x) (st_dst_addr x) (st_dst_len x) (st_dst_ptridx x)
            (st_total_len x) (st_accept_strings x)), idx))
  else
    ret (Continue (None, st_src_idx x + st_src_ptridx x + 1)).

(** what the receiver's side does when its current buffer is full *)
Definition next_buffer (dst : Z) (x : strs) : K (xfer_result strs) :=
  if negb (st_dst_len x =? 0) then ret (Continue x) else
  if st_dst_ptridx x <? MsgItem.get_string_ptr_count (st_dst_item x) then
    let ptr := st_dst_ptridx x + 1 in
    let* a := get_br dst (st_br_idx x + ptr) in
    ret (Continue
      (Strs (st_src_idx x) (st_src_item x) (st_src_addr x) (st_src_len x) (st_src_ptridx x)
            (st_br_idx x) (st_dst_item x) a (MsgItem.get_string_length (st_dst_item x)) ptr
            (st_total_len x) (st_accept_strings x)))
  else if MsgItem.is_string_compound (st_dst_item x) then
    let idx := st_br_idx x + st_dst_ptridx x + 1 in
    if CHECK_BR_IDX (idx + 1) then ret (Overflow (st_total_len x)) else
    let* item := get_br dst idx in
    let* a := get_br dst (idx + 1) in
    if CHECK_BR_IDX (idx + MsgItem.get_string_ptr_count item)
    then ret (Overflow (st_total_len x)) else
    ret (Continue
      (Strs (st_src_idx x) (st_src_item x) (st_src_addr x) (st_src_len x) (st_src_ptridx x)
            idx item a (MsgItem.get_string_length item) 1
            (st_total_len x) (st_accept_strings x)))
  else ret (Overflow (st_total_len x)).

(** [while (! end_of_send_string)] *)
Fixpoint string_loop (fuel : nat) (src dst total_mrs : Z) (x : strs) : K (xfer_result xfer) :=
  match fuel with
  | O => hang
  | Datatypes.S fuel =>
      copy_mr dst src (st_src_idx x + st_src_ptridx x) ;;;
      let copy_length := if st_dst_len x <? st_src_len x then st_dst_len x else st_src_len x in
      let* cpy_len := ipc_copy src (st_src_addr x) dst (st_dst_addr x) copy_length in
      let total_len := w64 (st_total_len x + cpy_len) in
      if cpy_len <? copy_length then ret (Overflow total_len) else
      let x := Strs (st_src_idx x) (st_src_item x)
                 (w64 (st_src_addr x + cpy_len)) (w64 (st_src_len x - cpy_len)) (st_src_ptridx x)
                 (st_br_idx x) (st_dst_item x)
                 (w64 (st_dst_addr x + cpy_len)) (w64 (st_dst_len x - cpy_len)) (st_dst_ptridx x)
                 total_len (st_accept_strings x) in
      let* r := (if st_src_len x =? 0 then next_source src total_mrs x
                 else ret (Continue (Some x, st_src_idx x))) in
      match r with
      | Overflow l => ret (Overflow l)
      | Continue (None, src_idx) =>
          let* r := skip_buffer fuel dst (st_br_idx x) (st_dst_item x) (st_accept_strings x) in
          let '(br_idx, accept) := r in
          ret (Continue (Xfer src_idx br_idx (st_total_len x) accept))
      | Continue (Some x, _) =>
          let* r := next_buffer dst x in
          match r with
          | Overflow l => ret (Overflow l)
          | Continue x => string_loop fuel src dst total_mrs x
          end
      end
  end.

Definition transfer_mapping (src dst acceptor total_mrs : Z) (x : xfer) (src_item : Z)
    : K (xfer_result xfer) :=
  let i := x_src_idx x in
  if CHECK_MR_IDX (i + 1) total_mrs then ret (Overflow (x_total_len x)) else
  let rcv_fpage := Acceptor.get_rcv_window acceptor in
  let* snd_fpage := get_mr src (i + 1) in
  if is_nil_fpage rcv_fpage then ret (Overflow (x_total_len x)) else
  copy_mr dst src i ;;;
  copy_mr dst src (i + 1) ;;;
  let* src_space := get_space src in
  let* dst_space := get_space dst in
  lift (vm_map_fpage src_space snd_fpage (MsgItem.get_snd_base src_item) dst_space rcv_fpage
          (MsgItem.is_grant_item src_item)) ;;;
  ret (Continue (Xfer (i + 2) (x_br_idx x) (x_total_len x) (x_accept_strings x))).

Definition transfer_string (fuel : nat) (src dst total_mrs : Z) (x : xfer) (src_item : Z)
    : K (xfer_result xfer) :=
  let i := x_src_idx x in
  copy_mr dst src i ;;;
  if negb (x_accept_strings x) then ret (Overflow (x_total_len x)) else
  if CHECK_MR_IDX (i + MsgItem.get_string_ptr_count src_item) total_mrs
  then ret (Overflow (x_total_len x)) else
  let* src_addr := get_mr src (i + 1) in
  let* dst_item := get_br dst (x_br_idx x) in
  if CHECK_BR_IDX (x_br_idx x + MsgItem.get_string_ptr_count dst_item)
  then ret (Overflow (x_total_len x)) else
  let* dst_addr := get_br dst (x_br_idx x + 1) in
  if negb (MsgItem.is_string_item dst_item) then ret (Overflow (x_total_len x)) else
  string_loop fuel src dst total_mrs
    (Strs i src_item src_addr (MsgItem.get_string_length src_item) 1
          (x_br_idx x) dst_item dst_addr (MsgItem.get_string_length dst_item) 1
          (x_total_len x) (MsgItem.more_strings dst_item)).

(** the [for] loop over the typed items *)
Fixpoint item_loop (fuel sfuel : nat) (src dst acceptor total_mrs : Z) (x : xfer)
    : K (xfer_result xfer) :=
  if negb (x_src_idx x <? total_mrs) then ret (Continue x) else
  match fuel with
  | O => hang
  | Datatypes.S fuel =>
      let* src_item := get_mr src (x_src_idx x) in
      let* r := (if MsgItem.is_map_item src_item || MsgItem.is_grant_item src_item
                 then transfer_mapping src dst acceptor total_mrs x src_item
                 else if MsgItem.is_string_item src_item
                 then transfer_string sfuel src dst total_mrs x src_item
                 else ret (Overflow (x_total_len x))) in
      match r with
      | Overflow l => ret (Overflow l)
      | Continue x => item_loop fuel sfuel src dst acceptor total_mrs x
      end
  end.

(** an item takes at least two of at most 64 message registers, a step of the
    string loop uses up a message register or a buffer register *)
Definition ITEM_FUEL : nat := 64.
Definition STRING_FUEL : nat := 128.

Definition extended_transfer (src dst msgtag : Z) : K Z :=
  let total_mrs := w64 (MsgTag.get_untyped msgtag + MsgTag.get_typed msgtag) in
  if total_mrs >? Config.IPC_NUM_MR then hang else
  set_state src ThreadState.locked_running ;;;
  set_state dst ThreadState.locked_waiting ;;;
  let* dst_id := get_global_id dst in
  set_partner src dst_id ;;;
  set_misc src (misc_with_w5 0) ;;;
  let* acceptor := get_br dst 0 in
  let* r := item_loop ITEM_FUEL STRING_FUEL src dst acceptor total_mrs
              (Xfer (w64 (MsgTag.get_untyped msgtag + 1)) 1 0
                    (Acceptor.accept_strings acceptor)) in
  match r with
  | Continue _ =>
      release_copy_area src ;;;
      cancel_timeout src ;;;
      tcb_set src (fun t => tcb_with_flags (Bitmask.sub (tcb_flags t) HAS_XFER_TIMEOUT) t) ;;;
      ret msgtag
  | Overflow total_len =>
      release_copy_area src ;;;
      cancel_timeout src ;;;
      set_error_code dst (IPC_RCV_ERROR (ERR_IPC_MSG_OVERFLOW total_len)) ;;;
      set_error_code src (IPC_SND_ERROR (ERR_IPC_MSG_OVERFLOW total_len)) ;;;
      ret (MsgTag.set_error msgtag)
  end.

End Operations.

Arguments Continue {A} a.
Arguments Overflow {A} total_len.

(** ** The transfer ends *)

Section Termination.
Context {V : Type} `{!VirtualMemory V}.
Implicit Types s : kstate V.
Hypothesis map_fpage_ends :
  forall f_sp f base t_sp w grant, never_hangs (vm_map_fpage (V := V) f_sp f base t_sp w grant).
Hypothesis memcpy_ends : forall sp d a l, never_hangs (vm_memcpy (V := V) sp d a l).
Variables src dst : Z.

(** sender and receiver share their space: strings are copied directly *)
Definition one_space s : Prop := tcb_space (tcb_of s src) = tcb_space (tcb_of s dst).

Lemma keeps_one_space s s' : keeps tcb_space s s' -> one_space s -> one_space s'.
Proof. intros Hk. unfold one_space. now rewrite !Hk. Qed.

Lemma lift_keeps {A} (m : M V A) : preserves (keeps (V := V) tcb_space) (lift m).
Proof. intros s a s'. unfold lift. destruct (m (ks_vm s)) as [[b v]| |]; [|done|done]. now intros [= _ <-]. Qed.

Lemma lift_never_hangs {A} (m : M V A) : never_hangs m -> never_hangs (lift m).
Proof. intros Hm s. unfold lift. specialize (Hm (ks_vm s)). now destruct (m (ks_vm s)) as [[b v]| |]. Qed.

(** a step that neither hangs nor moves a thread to another space *)
Lemma ends_step {A B} (m : M (kstate V) A) (k : A -> M (kstate V) B) s Q :
  never_hangs m -> preserves (keeps tcb_space) m -> one_space s ->
  (forall a s', one_space s' -> ends (k a) s' Q) -> ends (bind m k) s Q.
Proof.
  intros Hn Hp Hs Hk. eapply ends_bind; [now apply (ends_never_hangs m (keeps tcb_space))|].
  intros a s' Ha. apply Hk. now apply (keeps_one_space s).
Qed.

Lemma get_word_never_hangs p i : never_hangs (get_word (V := V) p i).
Proof. no_hang. Qed.
Lemma set_word_never_hangs p i v : never_hangs (set_word (V := V) p i v).
Proof. no_hang. Qed.
Lemma get_word_keeps p i : preserves (keeps (V := V) tcb_space) (get_word p i).
Proof. keep. Qed.
Lemma set_word_keeps p i v : preserves (keeps (V := V) tcb_space) (set_word p i v).
Proof. keep. Qed.

(** clipping never makes a length larger *)
Lemma clip_le l1 l2 len :
  (if l2 <? (if l1 <? len then l1 else len) then l2 else if l1 <? len then l1 else len) <= len.
Proof. destruct (Z.ltb_spec l1 len), (Z.ltb_spec l2 l1), (Z.ltb_spec l2 len); lia. Qed.

(** [ipc_copy] within one space *)
Lemma ipc_copy_ends src_addr dst_addr len s :
  one_space s -> ends (ipc_copy src src_addr dst dst_addr len) s (fun n s' => n <= len /\ one_space s').
Proof.
  intros Hs. unfold ipc_copy, ends.
  destruct (Z.eqb_spec src NULL) as [->|Hsrc]; [done|].
  destruct (Z.eqb_spec dst NULL) as [->|Hdst].
  { unfold get_space. rewrite bind_tcb_get by done. done. }
  unfold get_space. rewrite !bind_tcb_get by done. unfold one_space in Hs. rewrite <- Hs, Z.eqb_refl.
  cbn [negb]. rewrite bind_ret_l.
  pose proof (clip_le (get_copy_limit src_addr len) (get_copy_limit dst_addr len) len) as Hle.
  set (n := if get_copy_limit dst_addr len <? _ then _ else _) in *. clearbody n.
  match goal with |- match ?m s with _ => _ end => change (ends m s (fun n s' => n <= len /\ one_space s')) end.
  repeat (apply ends_step; [no_hang|keep|done|intros [] ? ?]).
  apply ends_step; [now apply lift_never_hangs|apply lift_keeps|done|intros [] ? ?].
  apply ends_step; [no_hang|keep|done|intros [] ? ?]. done.
Qed.


(** *** Strings *)

Lemma ptr_count_bounds i : 1 <= MsgItem.get_string_ptr_count i <= 32.
Proof.
  unfold MsgItem.get_string_ptr_count.
  pose proof (bf_get_bounds MsgItem.f_num_ptrs i ltac:(bf_side)) as H.
  change (2 ^ bf_width MsgItem.f_num_ptrs) with 32 in H. rewrite wrap_small by lia. lia.
Qed.

Lemma string_length_bounds i : is_word (MsgItem.get_string_length i).
Proof.
  unfold MsgItem.get_string_length, is_word.
  pose proof (bf_get_bounds MsgItem.f_length i ltac:(bf_side)) as H.
  change (2 ^ bf_width MsgItem.f_length) with (2 ^ 54) in H. lia.
Qed.

(** the current pieces lie within the message and the buffer registers *)
Record strs_ok (total : Z) (x : strs) : Prop := {
  so_src : 0 <= st_src_idx x /\ 1 <= st_src_ptridx x <= MsgItem.get_string_ptr_count (st_src_item x);
  so_total : st_src_idx x + MsgItem.get_string_ptr_count (st_src_item x) <= total;
  so_dst : 1 <= st_br_idx x /\ 1 <= st_dst_ptridx x <= MsgItem.get_string_ptr_count (st_dst_item x);
  so_br : st_br_idx x + MsgItem.get_string_ptr_count (st_dst_item x) <= Config.IPC_NUM_BR;
  so_len : is_word (st_src_len x) /\ is_word (st_dst_len x);
}.

(** how far the two cursors have come *)
Definition progress (x : strs) : Z := st_src_idx x + st_src_ptridx x + st_br_idx x + st_dst_ptridx x.

Lemma progress_bound total x : strs_ok total x -> progress x <= total + Config.IPC_NUM_BR.
Proof. intros []. unfold progress. lia. Qed.

Ltac step := apply ends_step;
  [ solve [no_hang | apply get_word_never_hangs | apply set_word_never_hangs]
  | solve [keep | apply get_word_keeps | apply set_word_keeps] | done | intros ? ? ?].
Ltac finish := split; [done|].

Lemma skip_buffer_ends fuel br_idx item accept s :
  one_space s -> (0 < fuel)%nat -> Config.IPC_NUM_BR - br_idx < 2 * Z.of_nat fuel ->
  ends (skip_buffer fuel dst br_idx item accept) s (fun r s' => one_space s' /\ br_idx <= r.1).
Proof.
  revert br_idx item s. induction fuel as [|fuel IH]; intros br_idx item s Hs Hpos Hf; [lia|].
  cbn [skip_buffer]. pose proof (ptr_count_bounds item) as Hc.
  destruct (Z.geb_spec (br_idx + MsgItem.get_string_ptr_count item + 1) Config.IPC_NUM_BR);
    [finish; simpl; lia|].
  step. destruct (MsgItem.is_string_compound item); [|finish; simpl; lia].
  eapply ends_weaken; [apply IH; [done|lia|lia]|]. intros r s2 [? ?]. split; [done|lia].
Qed.

Lemma next_source_ends total x s :
  one_space s -> strs_ok total x ->
  ends (next_source src total x) s (fun r s' => one_space s' /\
    match r with
    | Continue (Some x', _) => strs_ok total x' /\ progress x < progress x' /\
        st_src_idx x <= st_src_idx x' /\ st_br_idx x' = st_br_idx x /\
        st_dst_item x' = st_dst_item x /\ st_dst_len x' = st_dst_len x
    | Continue (None, i) => st_src_idx x < i
    | Overflow _ => True
    end).
Proof.
  intros Hs [H1 H2 H3 H4 [H5 H6]]. unfold next_source.
  destruct (Z.ltb_spec (st_src_ptridx x) (MsgItem.get_string_ptr_count (st_src_item x))).
  { step. finish. split_and!; try done; try (unfold progress; simpl; lia).
    split; simpl; try done; try lia. split; [apply string_length_bounds|done]. }
  destruct (MsgItem.is_string_compound (st_src_item x)); [|finish; lia].
  unfold CHECK_MR_IDX. destruct (Z.gtb_spec (st_src_idx x + st_src_ptridx x + 1 + 1) total); [done|].
  step. step. pose proof (ptr_count_bounds a) as Hc.
  destruct (Z.gtb_spec (st_src_idx x + st_src_ptridx x + 1 + MsgItem.get_string_ptr_count a) total); [done|].
  finish. split_and!; try done; try (unfold progress; simpl; lia).
  split; simpl; try done; try lia. split; [apply string_length_bounds|done].
Qed.

Lemma next_buffer_ends total x s :
  one_space s -> strs_ok total x ->
  ends (next_buffer dst x) s (fun r s' => one_space s' /\
    match r with
    | Continue x' => strs_ok total x' /\ st_src_idx x' = st_src_idx x /\
        progress x <= progress x' /\ (st_dst_len x = 0 -> progress x < progress x')
    | Overflow _ => True
    end).
Proof.
  intros Hs [H1 H2 H3 H4 [H5 H6]]. unfold next_buffer.
  destruct (Z.eqb_spec (st_dst_len x) 0); cbn [negb].
  2: { finish. split_and!; [now split|done|lia|done]. }
  destruct (Z.ltb_spec (st_dst_ptridx x) (MsgItem.get_string_ptr_count (st_dst_item x))).
  { step. finish. split_and!; try done; try (unfold progress; simpl; lia).
    split; simpl; try done; try lia. split; [done|apply string_length_bounds]. }
  destruct (MsgItem.is_string_compound (st_dst_item x)); [|done].
  unfold CHECK_BR_IDX.
  destruct (Z.gtb_spec (st_br_idx x + st_dst_ptridx x + 1 + 1) Config.IPC_NUM_BR); [done|].
  step. step. pose proof (ptr_count_bounds a) as Hc.
  destruct (Z.gtb_spec (st_br_idx x + st_dst_ptridx x + 1 + MsgItem.get_string_ptr_count a) Config.IPC_NUM_BR);
    [done|].
  finish. split_and!; try done; try (unfold progress; simpl; lia).
  split; simpl; try done; try lia. split; [done|apply string_length_bounds].
Qed.


(** the lengths after one piece was copied *)
Lemma copied_piece sl dl n :
  is_word sl -> is_word dl -> n = (if dl <? sl then dl else sl) ->
  w64 (sl - n) = 0 \/ w64 (dl - n) = 0.
Proof.
  unfold is_word. intros Hs Hd ->. destruct (Z.ltb_spec dl sl); [right|left]; now rewrite Z.sub_diag.
Qed.

(** a part of the source and one of the destination are used up in turn *)
Lemma string_loop_ends fuel total x s :
  one_space s -> strs_ok total x -> total <= Config.IPC_NUM_MR ->
  total + Config.IPC_NUM_BR - progress x + 18 <= Z.of_nat fuel ->
  ends (string_loop fuel src dst total x) s (fun r s' => one_space s' /\
    match r with
    | Continue x' => st_src_idx x < x_src_idx x' /\ 1 <= x_br_idx x'
    | Overflow _ => True
    end).
Proof.
  revert x s. induction fuel as [|fuel IH]; intros x s Hs Hx Ht Hf.
  { pose proof (progress_bound total x Hx). lia. }
  cbn [string_loop]. pose proof (progress_bound total x Hx) as Hpb.
  apply ends_step; [no_hang|keep|done|]. intros _ s1 Hs1.
  set (len := if st_dst_len x <? st_src_len x then st_dst_len x else st_src_len x).
  eapply ends_bind; [now apply ipc_copy_ends|]. intros n s2 [Hn Hs2]. cbv beta.
  destruct (Z.ltb_spec n len) as [|Hge]; [done|].
  pose proof Hx as [H1 H2 H3 H4 [H5 H6]].
  assert (Hlen := copied_piece _ _ n H5 H6 ltac:(unfold len in *; lia)).
  set (x1 := Strs _ _ _ _ _ _ _ _ _ _ _ _).
  assert (Hx1 : strs_ok total x1) by (split; simpl; try done; split; apply w64_is_word).
  assert (Hp1 : progress x1 = progress x) by done.
  eapply (ends_bind _ _ _ (fun r s' => one_space s' /\
    match r with
    | Continue (Some x', _) => strs_ok total x' /\ progress x <= progress x' /\
        st_src_idx x <= st_src_idx x' /\
        (progress x < progress x' \/ st_dst_len x' = 0)
    | Continue (None, i) => st_src_idx x < i
    | Overflow _ => True
    end)).
  - destruct (Z.eqb_spec (st_src_len x1) 0) as [E|E].
    + eapply ends_weaken; [now apply (next_source_ends total)|].
      intros [[[x'|] i]|l] s3 [Hs3 Hr]; finish; [|exact Hr|done].
      destruct Hr as (? & ? & ? & _). split_and!; [done|lia|done|left; lia].
    + finish. split_and!; [done|lia|done|right]. destruct Hlen as [Hl|Hl]; [done|exact Hl].
  - intros [[[x'|] i]|l] s3 [Hs3 Hr]; [|..|done].
    + destruct Hr as (Hx' & Hp' & Hi' & Hor).
      eapply ends_bind; [now apply (next_buffer_ends total)|].
      intros [x''|l] s4 [Hs4 Hr]; [|done]. destruct Hr as (Hx'' & Hi'' & Hp'' & Hor'').
      assert (progress x < progress x'') by (destruct Hor as [|Hz]; [lia|specialize (Hor'' Hz); lia]).
      eapply ends_weaken; [apply (IH x'' s4); [done|done|done|lia]|].
      intros [y|l] s5 [Hs5 Hy]; [split; [done|split; [lia|apply Hy]]|done].
    + unfold Config.IPC_NUM_MR, Config.IPC_NUM_BR in *.
      eapply ends_bind; [apply skip_buffer_ends; [done|lia|unfold Config.IPC_NUM_BR; simpl; lia]|].
      intros [br acc] s4 [Hs4 Hbr]. finish. simpl in *. lia.
Qed.

(** *** Typed items *)

(** what an item leaves *)
Definition item_post (x : xfer) (r : xfer_result xfer) s : Prop :=
  one_space s /\
  match r with
  | Continue x' => x_src_idx x < x_src_idx x' /\ 1 <= x_br_idx x'
  | Overflow _ => True
  end.

Lemma transfer_mapping_ends acceptor total x item s :
  one_space s -> 1 <= x_br_idx x ->
  ends (transfer_mapping src dst acceptor total x item) s (item_post x).
Proof.
  intros Hs Hbr. unfold transfer_mapping. destruct (CHECK_MR_IDX _ _); [done|].
  step. destruct (is_nil_fpage _); [done|].
  do 4 (apply ends_step; [no_hang|keep|done|intros ? ? ?]).
  apply ends_step; [now apply lift_never_hangs|apply lift_keeps|done|intros ? ? ?].
  finish. simpl. lia.
Qed.

Lemma transfer_string_ends total x item s :
  one_space s -> 0 <= x_src_idx x < total -> total <= Config.IPC_NUM_MR -> 1 <= x_br_idx x ->
  ends (transfer_string STRING_FUEL src dst total x item) s (item_post x).
Proof.
  intros Hs Hi Ht Hbr. unfold transfer_string.
  apply ends_step; [no_hang|keep|done|intros ? ? ?].
  destruct (x_accept_strings x); [cbn [negb]|done].
  pose proof (ptr_count_bounds item) as Hc. unfold CHECK_MR_IDX.
  destruct (Z.gtb_spec (x_src_idx x + MsgItem.get_string_ptr_count item) total); [done|].
  step. step. unfold CHECK_BR_IDX. pose proof (ptr_count_bounds a1) as Hd.
  destruct (Z.gtb_spec (x_br_idx x + MsgItem.get_string_ptr_count a1) Config.IPC_NUM_BR); [done|].
  step. destruct (MsgItem.is_string_item a1); [cbn [negb]|done].
  eapply ends_weaken; [apply (string_loop_ends _ total); [done| |done|]|now intros [y|l] s3].
  - split; simpl; try lia. split; apply string_length_bounds.
  - unfold progress, STRING_FUEL, Config.IPC_NUM_BR, Config.IPC_NUM_MR in *. simpl. lia.
Qed.


(** each item takes at least one message register *)
Lemma item_loop_ends fuel acceptor total x s :
  one_space s -> 0 <= x_src_idx x -> 1 <= x_br_idx x -> total <= Config.IPC_NUM_MR ->
  total - x_src_idx x <= Z.of_nat fuel ->
  ends (item_loop fuel STRING_FUEL src dst acceptor total x) s (fun _ s' => one_space s').
Proof.
  revert x s. induction fuel as [|fuel IH]; intros x s Hs Hi Hbr Ht Hf; cbn [item_loop];
    (destruct (Z.ltb_spec (x_src_idx x) total) as [Hlt|Hlt]; cbn [negb]; [|done]); [lia|].
  step. eapply (ends_bind _ _ _ (item_post x)).
  - destruct (MsgItem.is_map_item a || MsgItem.is_grant_item a);
      [now apply transfer_mapping_ends|].
    destruct (MsgItem.is_string_item a); [|done]. now apply transfer_string_ends.
  - intros [x'|l] s2 [Hs2 Hr]; [|done]. apply IH; [done|lia|lia|done|lia].
Qed.

(** how a transfer can end: with the tag as it was, or with the error bit set
    and both threads told how much was transferred *)
Definition transfer_outcome (tag a : Z) s : Prop :=
  a = tag \/
  a = MsgTag.set_error tag /\ exists len,
    utcb_error_code (utcb_of s (tcb_utcb (tcb_of s src))) = IPC_SND_ERROR (ERR_IPC_MSG_OVERFLOW len) /\
    (tcb_utcb (tcb_of s src) <> tcb_utcb (tcb_of s dst) ->
     utcb_error_code (utcb_of s (tcb_utcb (tcb_of s dst))) = IPC_RCV_ERROR (ERR_IPC_MSG_OVERFLOW len)).

Lemma report_overflow tag len s :
  ends (set_error_code dst (IPC_RCV_ERROR (ERR_IPC_MSG_OVERFLOW len)) ;;;
        set_error_code src (IPC_SND_ERROR (ERR_IPC_MSG_OVERFLOW len)) ;;;
        ret (MsgTag.set_error tag)) s (transfer_outcome tag).
Proof.
  unfold ends, bind, set_error_code, utcb_set, ret.
  destruct ((dst =? NULL) || (tcb_utcb (tcb_of s dst) =? NULL)); [done|].
  rewrite tcb_of_upd_utcb. destruct ((src =? NULL) || (tcb_utcb (tcb_of s src) =? NULL)); [done|].
  right. split; [done|]. exists len. rewrite !tcb_of_upd_utcb, utcb_of_upd_utcb_eq. split; [done|].
  intros Hne. rewrite utcb_of_upd_utcb_ne, utcb_of_upd_utcb_eq by done. done.
Qed.

Lemma extended_transfer_ends tag s :
  one_space s -> w64 (MsgTag.get_untyped tag + MsgTag.get_typed tag) <= Config.IPC_NUM_MR ->
  ends (extended_transfer src dst tag) s (transfer_outcome tag).
Proof.
  intros Hs Ht. unfold extended_transfer.
  set (total := w64 (MsgTag.get_untyped tag + MsgTag.get_typed tag)) in *.
  destruct (Z.gtb_spec total Config.IPC_NUM_MR); [lia|].
  do 5 (apply ends_step; [no_hang|keep|done|intros ? ? ?]).
  step. eapply (ends_bind _ _ _ (fun _ s' => one_space s')).
  - apply item_loop_ends; simpl; try done; [apply w64_is_word|].
    pose proof (w64_is_word (MsgTag.get_untyped tag + 1)) as [? ?].
    unfold ITEM_FUEL, Config.IPC_NUM_MR in *. simpl. lia.
  - intros [x|l] s2 Hs2.
    + do 3 (apply ends_step; [no_hang|keep|done|intros ? ? ?]). now left.
    + do 2 (apply ends_step; [no_hang|keep|done|intros ? ? ?]). apply report_overflow.
Qed.

End Termination.

(** ** Calls that do not return

    Mapping can stop the kernel (when it runs out of memory) and so can a copy
    that faults.  [stopping] is the same virtual memory with a call of either
    that does not return made visible as [Crash]; the transfer against it differs
    from the real one at most in that. *)

Definition hang_visible {S A} (m : M S A) : M S A := fun s =>
  match m s with Hang => Crash | r => r end.

Definition stopping {V} (vm : VirtualMemory V) : VirtualMemory V := {|
  vm_allocate_space := vm_allocate_space;
  vm_free_space := vm_free_space;
  vm_init_mappings := vm_init_mappings;
  vm_allocate_utcb := vm_allocate_utcb;
  vm_map_fpage f_sp f base t_sp w grant := hang_visible (vm_map_fpage f_sp f base t_sp w grant);
  vm_unmap_fpage := vm_unmap_fpage;
  vm_map_sigma0 := vm_map_sigma0;
  vm_allocate_tcb := vm_allocate_tcb;
  vm_map_dummy_tcb := vm_map_dummy_tcb;
  vm_memcpy sp d a l := hang_visible (vm_memcpy sp d a l);
  vm_lookup_mapping := vm_lookup_mapping;
  vm_load := vm_load;
  vm_store := vm_store;
|}.

Lemma hang_visible_ends {S A} (m : M S A) : never_hangs (hang_visible m).
Proof. intros s. unfold hang_visible. now destruct (m s). Qed.

(** [m'] behaves as [m] but for calls that do not return *)
Definition stops {S A} (m m' : M S A) : Prop := forall s, m s = m' s \/ (m s = Hang /\ m' s = Crash).

Lemma stops_refl {S A} (m : M S A) : stops m m.
Proof. now left. Qed.

Lemma stops_bind {S A B} (m m' : M S A) (k k' : A -> M S B) :
  stops m m' -> (forall a, stops (k a) (k' a)) -> stops (bind m k) (bind m' k').
Proof.
  intros Hm Hk s. unfold bind. destruct (Hm s) as [->|[-> ->]]; [|now right].
  destruct (m' s) as [[a s']| |]; [apply Hk|now left..].
Qed.

Lemma stops_lift_visible {V A} (m : M V A) : stops (lift m) (lift (hang_visible m)).
Proof. intros s. unfold lift, hang_visible. destruct (m (ks_vm s)) as [[a v]| |]; auto. Qed.

(** walk through two texts that only differ in the calls *)
Ltac same_text rec :=
  lazymatch goal with
  | |- stops ?m ?m => apply stops_refl
  | |- stops (bind _ _) (bind _ _) => apply stops_bind; [same_text rec|intros ?; same_text rec]
  | |- stops (lift _) (lift _) => apply stops_lift_visible
  | |- stops (if ?b then _ else _) _ => destruct b; same_text rec
  | |- stops (match ?x with _ => _ end) _ => destruct x; same_text rec
  | |- _ => rec
  end.

Section Stopping.
Context {V : Type} (vm : VirtualMemory V).
Variables src dst : Z.

Lemma ipc_copy_stops src_addr dst_addr len :
  stops (ipc_copy (VirtualMemory0 := vm) src src_addr dst dst_addr len)
        (ipc_copy (VirtualMemory0 := stopping vm) src src_addr dst dst_addr len).
Proof. unfold ipc_copy. same_text fail. Qed.

Lemma string_loop_stops fuel total x :
  stops (string_loop (VirtualMemory0 := vm) fuel src dst total x)
        (string_loop (VirtualMemory0 := stopping vm) fuel src dst total x).
Proof.
  revert x. induction fuel as [|fuel IH]; intros x; cbn [string_loop];
    same_text ltac:(first [apply ipc_copy_stops|apply IH]).
Qed.

Lemma item_loop_stops fuel sfuel acceptor total x :
  stops (item_loop (VirtualMemory0 := vm) fuel sfuel src dst acceptor total x)
        (item_loop (VirtualMemory0 := stopping vm) fuel sfuel src dst acceptor total x).
Proof.
  revert x. induction fuel as [|fuel IH]; intros x; cbn [item_loop]; unfold transfer_mapping, transfer_string;
    same_text ltac:(first [apply string_loop_stops|apply IH]).
Qed.

Lemma extended_transfer_stops tag :
  stops (extended_transfer (VirtualMemory0 := vm) src dst tag)
        (extended_transfer (VirtualMemory0 := stopping vm) src dst tag).
Proof. unfold extended_transfer. same_text ltac:(apply item_loop_stops). Qed.

End Stopping.

(** C27 The loops of an extended transfer within one space end, whatever the typed
    items are (64 items and 128 pieces of strings are never exceeded), if tag and
    items fit the message registers; a longer message stops the kernel, as not
    implemented.  Nothing is assumed of mapping and copying: against a virtual
    memory in which a call that does not return crashes, the transfer never
    hangs, and the real transfer is the same unless a call of [map_fpage] or [memcpy]
    that it makes does not return.  When the transfer returns, the message was
    transferred completely or both threads get the overflow error with the same
    offset. *)
Theorem extended_transfer_terminates {V} (vm : VirtualMemory V) (src dst tag : Z) (s : kstate V) :
  one_space src dst s ->
  let total := w64 (MsgTag.get_untyped tag + MsgTag.get_typed tag) in
  let real := extended_transfer (VirtualMemory0 := vm) src dst tag s in
  let visible := extended_transfer (VirtualMemory0 := stopping vm) src dst tag s in
  (Config.IPC_NUM_MR < total -> real = Hang) /\
  (total <= Config.IPC_NUM_MR -> visible <> Hang /\ (real = visible \/ real = Hang /\ visible = Crash)) /\
  (forall a s', real = Ok (a, s') -> transfer_outcome src dst tag a s').
Proof.
  intros Hs total real visible.
  assert (Config.IPC_NUM_MR < total -> real = Hang) as Hlong.
  { intros Hgt. unfold real, extended_transfer. fold total.
    destruct (Z.gtb_spec total Config.IPC_NUM_MR); [done|lia]. }
  assert (real = visible \/ real = Hang /\ visible = Crash) as Hcases by apply extended_transfer_stops.
  split; [exact Hlong|]. destruct (Z.le_gt_cases total Config.IPC_NUM_MR) as [Hle|Hgt];
    [|rewrite (Hlong Hgt); split; [lia|done]].
  assert (ends (extended_transfer (VirtualMemory0 := stopping vm) src dst tag) s (transfer_outcome src dst tag)) as He.
  { apply extended_transfer_ends; [intros; apply hang_visible_ends..|exact Hs|exact Hle]. }
  split.
  - intros _. split; [now apply ends_no_hang in He|exact Hcases].
  - intros a s' E. destruct Hcases as [Hc|[Hc _]]; [|congruence].
    unfold ends in He. fold visible in He. now rewrite <- Hc, E in He.
Qed.

(** thread 2 sends 3 a string of 8 bytes, for which 3 has a buffer of 16 *)
Definition sending_state : kstate unit :=
  upd_utcb 101 (fun u => utcb_with_word 66 96 (utcb_with_word 65 (Z.shiftl 16 10) (utcb_with_word 64 17 u)))
    (upd_utcb 100 (fun u => utcb_with_word 3 64 (utcb_with_word 2 (Z.shiftl 8 10) u))
      (upd_tcb 2 (fun t => tcb_with_utcb 100 (tcb_with_space 4096 t))
        (upd_tcb 3 (fun t => tcb_with_utcb 101 (tcb_with_space 4096 t)) (boot_state tt)))).
Definition sending_tag : Z := MsgTag.set 2 1 0.

Lemma extended_transfer_terminates_witness :
  one_space 2 3 sending_state /\ extended_transfer 2 3 sending_tag sending_state <> Hang.
Proof.
  assert (Hs : one_space 2 3 sending_state) by (vm_compute; reflexivity).
  split; [exact Hs|].
  destruct (extended_transfer_terminates flat_vm 2 3 sending_tag sending_state Hs) as (_ & H & _).
  destruct H as [H1 [H2|[_ H2]]]; [vm_compute; discriminate|now rewrite H2|].
  exfalso. revert H2. vm_compute. discriminate.
Defined.
