(* ===== verification/Ipc.v ===== *)
(** * The IPC system call

    [api/backup/ipc.cc] without its SMP parts, and the kernel-generated IPCs
    of [api/v4/thread.cc].  In this source tree the assembly of
    [tcb_t::switch_to] is commented out: a switch assigns [current_tcb] and the
    code after it runs on, which is what the model does. *)

From Stdlib Require Import ZArith Lia Bool List.
From stdpp Require Import base numbers list option gmap.
From S2P Require Import Prelude Types Time Kip ThreadId Fpage State Msg Ring Monad Tcb Sched.
From S2P Require Import Wakeup Sendq Vspace Unwind Ipcx.
Open Scope Z_scope.

Section Operations.
Context {V : Type} `{!VirtualMemory V}.
Abbreviation S := (kstate V).
Abbreviation K := (M (kstate V)).

Definition transfer_message (src dst : Z) : K bool :=
  let* tag := get_tag src in
  let tag := MsgTag.clear_receive_flags tag in
  (if MsgTag.is_propagated tag
   then let* id := get_global_id src in set_actual_sender dst id
   else ret tt) ;;;
  when (truth (MsgTag.get_untyped tag)) (copy_mrs src dst 1 (MsgTag.get_untyped tag)) ;;;
  if MsgTag.get_typed tag =? 0 then
    set_tag dst tag ;;; ret true
  else
    let* tag := extended_transfer src dst tag in
    set_tag dst tag ;;; ret (negb (MsgTag.is_error tag)).

(** the sender's id as the receiver will see it: a propagated message carries
    the virtual sender's, if the sender may speak for it *)
Definition effective_sender (current to_tcb : Z) : K Z :=
  let* sender_id := get_global_id current in
  let* tag := get_tag current in
  if MsgTag.is_propagated tag then
    let* vs := get_virtual_sender current in
    let virt_sender := get_tcb vs in
    let* vid := get_global_id virt_sender in
    let* cspace := get_space current in
    let* vspace := get_space virt_sender in
    let* tspace := get_space to_tcb in
    if (vs =? vid) && ((cspace =? vspace) || (cspace =? tspace)) then ret vs
    else
      let* tag := get_tag current in
      set_tag current (MsgTag.set_propagated false tag) ;;;
      ret sender_id
  else ret sender_id.

(** the destination waits for this sender, for anyone, or for a local thread
    and the sender is one *)
Definition dest_ready (current to_tcb sender_id : Z) : K bool :=
  let* st := get_state to_tcb in
  let* partner := get_partner to_tcb in
  let* tspace := get_space to_tcb in
  let* cspace := get_space current in
  ret (ThreadState.is_waiting st &&
       ((partner =? sender_id) || is_anythread partner ||
        (is_anylocalthread partner && (tspace =? cspace)))).

(** the destination is not ready: [true] if the system call is over because the
    send timeout is zero *)
Definition send_blocking (current to_tcb to_tid timeout : Z) : K bool :=
  if negb (time_is_never (get_snd timeout)) && time_is_zero (get_snd timeout) then
    set_state current ThreadState.running ;;;
    set_tag current MsgTag.error_tag ;;;
    set_error_code current (IPC_SND_ERROR ERR_IPC_TIMEOUT) ;;;
    ret true
  else
    when (negb (time_is_never (get_snd timeout))) (set_timeout current (get_snd timeout)) ;;;
    enqueue_send current to_tcb ;;;
    set_partner current to_tid ;;;
    set_state current ThreadState.polling ;;;
    switch_to_idle current ;;;
    cancel_timeout current ;;;
    dequeue_send current to_tcb ;;;
    ret false.

(** the send phase: [Some id] if the system call returns [id] in it *)
Definition send_phase (current to_tid timeout : Z) : K (option Z) :=
  let to_tcb := get_tcb to_tid in
  let* id := get_global_id to_tcb in
  if negb (id =? to_tid) then
    set_error_code current (IPC_SND_ERROR ERR_IPC_NON_EXISTING) ;;;
    set_tag current MsgTag.error_tag ;;;
    ret (Some nilthread)
  else
    let* sender_id := effective_sender current to_tcb in
    let* ready := dest_ready current to_tcb sender_id in
    let* over := (if ready then ret false
                  else send_blocking current to_tcb to_tid timeout) in
    if over then ret (Some nilthread) else
    set_partner to_tcb sender_id ;;;
    let* ok := transfer_message current to_tcb in
    if negb ok then
      let* tag := get_tag to_tcb in
      set_tag current tag ;;;
      set_state to_tcb ThreadState.running ;;;
      enqueue_ready to_tcb false ;;;
      ret (Some to_tid)
    else ret None.

(** a send without a receive phase, to a [to_tcb] that may be [NULL] *)
Definition finish_send (current to_tcb : Z) : K unit :=
  if to_tcb =? NULL then ret tt else
  let* sp := get_saved_partner to_tcb in
  set_state to_tcb (if is_nilthread sp then ThreadState.running
                    else ThreadState.locked_running_ipc_done) ;;;
  set_state current ThreadState.running ;;;
  let* up := check_dispatch_thread current to_tcb in
  if up then enqueue_ready current false ;;; switch_to current to_tcb
  else cancel_timeout to_tcb ;;; enqueue_ready to_tcb false.

(** the thread to receive from: [None] if the id is not valid *)
Definition receive_from (current from_tid : Z) : K (option Z) :=
  if is_anythread from_tid then let* h := tcb_get current tcb_send_head in ret (Some h)
  else if negb (is_anylocalthread from_tid) then
    let from_tcb := get_tcb from_tid in
    let* id := get_global_id from_tcb in
    let* fspace := get_space from_tcb in
    let* cspace := get_space current in
    let* lid := get_local_id from_tcb in
    if negb (id =? from_tid) && (negb (fspace =? cspace) || negb (lid =? from_tid))
    then ret None else ret (Some from_tcb)
  else let* h := tcb_get current tcb_send_head in ret (Some h).

(** [from_tcb] is there and polls on the current thread *)
Definition is_polling_on (from_tcb current : Z) : K bool :=
  if from_tcb =? NULL then ret false else
  let* st := get_state from_tcb in
  let* partner := get_partner from_tcb in
  let* id := get_global_id current in
  let* lid := get_local_id current in
  ret (ThreadState.is_polling st && ((partner =? id) || (partner =? lid))).

(** nobody sends yet: [true] if the system call is over because the receive
    timeout is zero *)
Definition receive_blocking (current to_tcb from_tid timeout : Z) : K bool :=
  let rcv := get_rcv timeout in
  let* over := (if negb (time_is_never rcv) then
      set_error_code current (IPC_RCV_ERROR ERR_IPC_TIMEOUT) ;;;
      if time_is_zero rcv then
        set_tag current MsgTag.error_tag ;;;
        set_state current ThreadState.running ;;;
        when (negb (to_tcb =? NULL))
          (enqueue_ready current false ;;; switch_to current to_tcb) ;;;
        ret true
      else
        set_timeout current rcv ;;;
        set_state current ThreadState.waiting_timeout ;;;
        ret false
    else set_state current ThreadState.waiting_forever ;;; ret false) in
  if over then ret true else
  set_partner current from_tid ;;;
  switch_to current (if to_tcb =? NULL then get_idle_tcb else to_tcb) ;;;
  cancel_timeout current ;;;
  ret false.

Definition receive_ready (current to_tcb from_tcb : Z) : K unit :=
  set_state from_tcb ThreadState.locked_running ;;;
  set_state current ThreadState.locked_waiting ;;;
  if negb (to_tcb =? NULL) then
    let* up := check_dispatch_thread from_tcb to_tcb in
    if up then
      cancel_timeout from_tcb ;;;
      enqueue_ready from_tcb false ;;;
      switch_to current to_tcb
    else
      set_state to_tcb ThreadState.running ;;;
      enqueue_ready to_tcb false ;;;
      switch_to current from_tcb
  else switch_to current from_tcb.

Definition receive_phase (current to_tcb to_tid from_tid timeout : Z) : K Z :=
  if (from_tid =? to_tid) && timeout_is_never timeout then
    set_partner current from_tid ;;;
    set_state current ThreadState.waiting_forever ;;;
    switch_to current to_tcb ;;;
    set_state current ThreadState.running ;;;
    get_partner current
  else
    let* from := receive_from current from_tid in
    match from with
    | None =>
        set_tag current MsgTag.error_tag ;;;
        set_error_code current (IPC_RCV_ERROR ERR_IPC_NON_EXISTING) ;;;
        ret nilthread
    | Some from_tcb =>
        let* ready := is_polling_on from_tcb current in
        let* over := (if ready then receive_ready current to_tcb from_tcb ;;; ret false
                      else receive_blocking current to_tcb from_tid timeout) in
        if over then ret nilthread else
        set_state current ThreadState.running ;;;
        get_partner current
    end.

Definition sys_ipc (to_tid from_tid timeout : Z) : K Z :=
  let* current := get_current_tcb in
  let* sent := (if negb (is_nilthread to_tid) then send_phase current to_tid timeout
                else ret None) in
  match sent with
  | Some id => ret id
  | None =>
      let to_tcb := if is_nilthread to_tid then NULL else get_tcb to_tid in
      if is_nilthread from_tid then finish_send current to_tcb ;;; ret from_tid
      else receive_phase current to_tcb to_tid from_tid timeout
  end.

(** ** Kernel-generated IPCs *)

Definition do_ipc (p to_tid from_tid timeout : Z) : K Z :=
  sys_ipc to_tid from_tid timeout ;;; get_mr p 0.

(** [space_t::access_e] *)
Inductive access_e := acc_read | acc_write | acc_readwrite | acc_execute.
#[export] Instance access_e_eq_dec : EqDecision access_e.
Proof. solve_decision. Defined.

Definition access_bits (a : access_e) : Z :=
  match a with acc_read => 4 | acc_write => 2 | acc_execute => 1 | acc_readwrite => 6 end.

Definition send_pagefault_ipc (p addr ip : Z) (access : access_e) : K unit :=
  save_state p ;;;
  set_tag p (MsgTag.set 0 2 (Z.lor IPC_MR0_PAGEFAULT (access_bits access))) ;;;
  set_mr p 1 addr ;;;
  set_mr p 2 ip ;;;
  set_br p 0 (Acceptor.set_rcv_window fpage_complete Acceptor.clear) ;;;
  let* pager := get_pager p in
  let* tag := do_ipc p pager pager timeout_never in
  if MsgTag.is_error tag then hang else
  restore_state p.

Definition send_preemption_ipc (p time : Z) : K bool :=
  save_state p ;;;
  set_tag p MsgTag.preemption_tag ;;;
  set_mr p 1 time ;;;
  set_mr p 2 (Z.shiftr (Z.shiftr time (BITS_WORD - 1)) 1) ;;;
  set_br p 0 0 ;;;
  let* sched := get_scheduler p in
  let* tag := do_ipc p sched nilthread timeout_never in
  restore_state p ;;;
  if MsgTag.is_error tag then hang else ret (MsgTag.is_error tag).

End Operations.

(** ** IPCs that fail at once *)

Section Errors.
Context {V : Type} `{!VirtualMemory V}.
Implicit Types s : kstate V.

Definition utcb_ptr s (p : Z) : Z := tcb_utcb (tcb_of s p).
Definition tag_of s (p : Z) : Z := word_at (utcb_of s (utcb_ptr s p)) 0.

(** the running thread's message registers and error code after a failure *)
Definition ipc_failed (err : Z) (u : utcb) : utcb :=
  utcb_with_error_code err (utcb_with_word 0 MsgTag.error_tag u).
Definition failed s (p err : Z) : kstate V := upd_utcb (utcb_ptr s p) (ipc_failed err) s.

(** somebody waits for [p], or for anyone, or for a local thread, which [p] is *)
Definition waits_for s (q p : Z) : bool :=
  let t := tcb_of s q in
  ThreadState.is_waiting (tcb_thread_state t) &&
  ((tcb_partner t =? tcb_myself_global (tcb_of s p)) || is_anythread (tcb_partner t) ||
   (is_anylocalthread (tcb_partner t) && (tcb_space t =? tcb_space (tcb_of s p)))).

Lemma send_phase_nonexistent p to timeout s :
  p <> NULL -> utcb_ptr s p <> NULL -> tcb_myself_global (tcb_of s (get_tcb to)) <> to ->
  send_phase p to timeout s = Ok (Some nilthread, failed s p (IPC_SND_ERROR ERR_IPC_NON_EXISTING)).
Proof.
  intros Hp Hu Hid. pose proof (get_tcb_nonnull to) as Ht. unfold send_phase, utcb_ptr in *. krun.
  apply Z.eqb_neq in Hid. rewrite Hid. cbn [negb]. krun. reflexivity.
Qed.

Lemma effective_sender_plain p to s :
  p <> NULL -> utcb_ptr s p <> NULL -> MsgTag.is_propagated (tag_of s p) = false ->
  effective_sender p to s = Ok (tcb_myself_global (tcb_of s p), s).
Proof.
  intros Hp Hu Ht. unfold effective_sender, get_global_id. rewrite bind_tcb_get by done.
  unfold get_tag, get_mr. rewrite get_word_eq, bind_utcb_get by (done || kindex).
  fold (utcb_ptr s p). change (word_at (utcb_of s (utcb_ptr s p)) 0) with (tag_of s p). now rewrite Ht.
Qed.

Lemma dest_ready_run p to s :
  p <> NULL -> to <> NULL ->
  dest_ready p to (tcb_myself_global (tcb_of s p)) s = Ok (waits_for s to p, s).
Proof. intros Hp Ht. unfold dest_ready. krun. reflexivity. Qed.

Lemma send_phase_no_time p to timeout s :
  p <> NULL -> utcb_ptr s p <> NULL -> MsgTag.is_propagated (tag_of s p) = false ->
  tcb_myself_global (tcb_of s (get_tcb to)) = to -> waits_for s (get_tcb to) p = false ->
  time_is_never (get_snd timeout) = false -> time_is_zero (get_snd timeout) = true ->
  exists s', send_phase p to timeout s = Ok (Some nilthread, s') /\
    s' ≡ upd_tcb p (tcb_with_thread_state ThreadState.running) (failed s p (IPC_SND_ERROR ERR_IPC_TIMEOUT)).
Proof.
  intros Hp Hu Htag Hid Hw Hn Hz. pose proof (get_tcb_nonnull to) as Ht.
  unfold send_phase, get_global_id. rewrite bind_tcb_get by done. rewrite Hid, Z.eqb_refl. cbn [negb].
  rewrite (bind_ok _ _ _ _ _ (effective_sender_plain p (get_tcb to) s Hp Hu Htag)).
  rewrite (bind_ok _ _ _ _ _ (dest_ready_run p (get_tcb to) s Hp Ht)). rewrite Hw.
  unfold send_blocking. rewrite Hn, Hz. cbn [negb andb]. unfold utcb_ptr in *. krun.
  eexists. split; [reflexivity|]. unfold failed, utcb_ptr, ipc_failed. kequiv.
Qed.

(** nobody to receive from *)
Definition no_sender s (from p : Z) : Prop :=
  from = NULL \/ ThreadState.is_polling (tcb_thread_state (tcb_of s from)) = false \/
  tcb_partner (tcb_of s from) <> tcb_myself_global (tcb_of s p) /\
  tcb_partner (tcb_of s from) <> tcb_myself_local (tcb_of s p).

Lemma is_polling_on_none from p s :
  p <> NULL -> no_sender s from p -> is_polling_on from p s = Ok (false, s).
Proof.
  intros Hp Hn. unfold is_polling_on. destruct (Z.eqb_spec from NULL); [done|]. krun. unfold ret.
  do 2 f_equal. destruct Hn as [|[->|[H1%Z.eqb_neq H2%Z.eqb_neq]]]; [done|done|].
  now rewrite H1, H2, andb_false_r.
Qed.

(** whom a receive specification names *)
Definition receive_source s (p from : Z) : option Z :=
  if is_anythread from || is_anylocalthread from then Some (tcb_send_head (tcb_of s p))
  else
    let t := tcb_of s (get_tcb from) in
    if negb (tcb_myself_global t =? from) &&
       (negb (tcb_space t =? tcb_space (tcb_of s p)) || negb (tcb_myself_local t =? from))
    then None else Some (get_tcb from).

Lemma receive_from_run p from s : p <> NULL -> receive_from p from s = Ok (receive_source s p from, s).
Proof.
  intros Hp. pose proof (get_tcb_nonnull from) as Hf. unfold receive_from, receive_source.
  destruct (is_anythread from); cbn [orb]; [now krun|].
  destruct (is_anylocalthread from); cbn [negb]; krun; [done|]. now case_match.
Qed.

Lemma receive_nonexistent p from timeout s :
  p <> NULL -> utcb_ptr s p <> NULL -> is_nilthread from = false -> receive_source s p from = None ->
  receive_phase p NULL nilthread from timeout s =
    Ok (nilthread, failed s p (IPC_RCV_ERROR ERR_IPC_NON_EXISTING)).
Proof.
  intros Hp Hu Hn Hs. unfold receive_phase. change (from =? nilthread) with (is_nilthread from).
  rewrite Hn. cbn [andb]. rewrite (bind_ok _ _ _ _ _ (receive_from_run p from s Hp)), Hs.
  unfold utcb_ptr in *. krun. unfold ret, failed, utcb_ptr, ipc_failed. reflexivity.
Qed.

Lemma receive_no_time p from from_tcb timeout s :
  p <> NULL -> utcb_ptr s p <> NULL -> is_nilthread from = false ->
  receive_source s p from = Some from_tcb -> no_sender s from_tcb p ->
  time_is_never (get_rcv timeout) = false -> time_is_zero (get_rcv timeout) = true ->
  exists s', receive_phase p NULL nilthread from timeout s = Ok (nilthread, s') /\
    s' ≡ upd_tcb p (tcb_with_thread_state ThreadState.running) (failed s p (IPC_RCV_ERROR ERR_IPC_TIMEOUT)).
Proof.
  intros Hp Hu Hn Hs Hno Hnv Hz. unfold receive_phase. change (from =? nilthread) with (is_nilthread from).
  rewrite Hn. cbn [andb]. rewrite (bind_ok _ _ _ _ _ (receive_from_run p from s Hp)), Hs.
  rewrite (bind_ok _ _ _ _ _ (is_polling_on_none from_tcb p s Hp Hno)).
  unfold receive_blocking. rewrite Hnv, Hz. cbn [negb]. unfold utcb_ptr in *. krun.
  eexists. split; [reflexivity|]. unfold failed, utcb_ptr, ipc_failed. kequiv.
Qed.


(** C30 IPCs that cannot take place now and must not block return the nil thread,
    with the error bit in the caller's tag and the error code of the phase, and
    change nothing else: a send to an id that names no thread, a send with a
    zero timeout to a thread that does not wait for the caller, a receive from
    an id that names no thread, and a receive with a zero timeout when no thread
    it admits is sending. *)
Theorem sys_ipc_fails_at_once to from timeout s :
  let p := ks_current_tcb s in
  let dest := get_tcb to in
  let running := upd_tcb p (tcb_with_thread_state ThreadState.running) in
  p <> NULL -> utcb_ptr s p <> NULL ->
  (is_nilthread to = false -> tcb_myself_global (tcb_of s dest) <> to ->
     sys_ipc to from timeout s = Ok (nilthread, failed s p (IPC_SND_ERROR ERR_IPC_NON_EXISTING))) /\
  (is_nilthread to = false -> tcb_myself_global (tcb_of s dest) = to ->
     MsgTag.is_propagated (tag_of s p) = false -> waits_for s dest p = false ->
     time_is_never (get_snd timeout) = false -> time_is_zero (get_snd timeout) = true ->
     exists s', sys_ipc to from timeout s = Ok (nilthread, s') /\
       s' ≡ running (failed s p (IPC_SND_ERROR ERR_IPC_TIMEOUT))) /\
  (to = nilthread -> is_nilthread from = false -> receive_source s p from = None ->
     sys_ipc to from timeout s = Ok (nilthread, failed s p (IPC_RCV_ERROR ERR_IPC_NON_EXISTING))) /\
  (forall src, to = nilthread -> is_nilthread from = false -> receive_source s p from = Some src ->
     no_sender s src p -> time_is_never (get_rcv timeout) = false -> time_is_zero (get_rcv timeout) = true ->
     exists s', sys_ipc to from timeout s = Ok (nilthread, s') /\
       s' ≡ running (failed s p (IPC_RCV_ERROR ERR_IPC_TIMEOUT))).
Proof.
  intros p dest running Hp Hu. unfold sys_ipc, get_current_tcb. rewrite !bind_gets. fold p. split_and!.
  - intros Hto Hid. rewrite Hto. cbn [negb]. now rewrite (bind_ok _ _ _ _ _ (send_phase_nonexistent p to timeout s Hp Hu Hid)).
  - intros Hto Hid Htag Hw Hn Hz. rewrite Hto. cbn [negb].
    destruct (send_phase_no_time p to timeout s Hp Hu Htag Hid Hw Hn Hz) as (s' & E & Heq).
    rewrite (bind_ok _ _ _ _ _ E). now exists s'.
  - intros -> Hfrom Hsrc. change (is_nilthread nilthread) with true. cbn [negb]. rewrite bind_ret_l, Hfrom.
    now apply receive_nonexistent.
  - intros src -> Hfrom Hsrc Hno Hn Hz. change (is_nilthread nilthread) with true. cbn [negb].
    rewrite bind_ret_l, Hfrom. now apply (receive_no_time p from src).
Qed.

(** ** A rendezvous *)

(** sending a message of untyped words *)
Lemma transfer_untyped p q s :
  p <> NULL -> q <> NULL -> utcb_ptr s p <> NULL -> utcb_ptr s q <> NULL ->
  let tag := MsgTag.clear_receive_flags (tag_of s p) in
  MsgTag.is_propagated tag = false -> MsgTag.get_typed tag = 0 ->
  transfer_message p q s = Ok (true, upd_utcb (utcb_ptr s q) (utcb_with_word 0 tag) s).
Proof.
  intros Hp Hq Hu Hv tag Hpr Hty. unfold transfer_message, get_tag, get_mr.
  rewrite get_word_eq, bind_utcb_get by (done || kindex).
  fold (utcb_ptr s p). change (word_at (utcb_of s (utcb_ptr s p)) 0) with (tag_of s p). fold tag.
  rewrite Hpr, bind_ret_l, Hty, Z.eqb_refl. unfold copy_mrs, set_tag, set_mr.
  rewrite set_word_eq by kindex.
  destruct (truth (MsgTag.get_untyped tag)); [rewrite bind_when_true, bind_ret_l|rewrite bind_when_false];
    now rewrite bind_utcb_set.
Qed.

Definition received s (p q : Z) : kstate V :=
  upd_tcb q (tcb_with_partner (tcb_myself_global (tcb_of s p)))
    (upd_utcb (utcb_ptr s q) (utcb_with_word 0 (MsgTag.clear_receive_flags (tag_of s p))) s).

Lemma send_phase_ready p to timeout s :
  let q := get_tcb to in
  let tag := MsgTag.clear_receive_flags (tag_of s p) in
  p <> NULL -> utcb_ptr s p <> NULL -> utcb_ptr s q <> NULL ->
  MsgTag.is_propagated (tag_of s p) = false -> MsgTag.is_propagated tag = false -> MsgTag.get_typed tag = 0 ->
  tcb_myself_global (tcb_of s q) = to -> waits_for s q p = true ->
  send_phase p to timeout s = Ok (None, received s p q).
Proof.
  intros q tag Hp Hu Hv Htag Hpr Hty Hid Hw. assert (Hq : q <> NULL) by apply get_tcb_nonnull.
  unfold send_phase, get_global_id. fold q. rewrite bind_tcb_get by done. rewrite Hid, Z.eqb_refl. cbn [negb].
  rewrite (bind_ok _ _ _ _ _ (effective_sender_plain p q s Hp Hu Htag)).
  rewrite (bind_ok _ _ _ _ _ (dest_ready_run p q s Hp Hq)). rewrite Hw, bind_ret_l.
  unfold set_partner. rewrite bind_tcb_set by done. set (s1 := upd_tcb q _ s).
  assert (Hptr : forall x, utcb_ptr s1 x = utcb_ptr s x)
    by (intros x; now apply (tcb_field_frame tcb_utcb)).
  assert (Htg : tag_of s1 p = tag_of s p) by (unfold tag_of; now rewrite Hptr).
  rewrite (bind_ok _ _ _ _ _ (transfer_untyped p q s1 Hp Hq ltac:(now rewrite Hptr) ltac:(now rewrite Hptr)
    ltac:(now rewrite Htg) ltac:(now rewrite Htg))).
  cbn [negb]. rewrite Hptr, Htg. reflexivity.
Qed.

(** the states of the two threads when the message has been handed over *)
Definition after_ipc s (q : Z) : Z :=
  if is_nilthread (tcb_saved_partner (tcb_of s q)) then ThreadState.running
  else ThreadState.locked_running_ipc_done.
Definition both_running s (p q : Z) : kstate V :=
  upd_tcb p (tcb_with_thread_state ThreadState.running)
    (upd_tcb q (tcb_with_thread_state (after_ipc s q)) s).

(** the ready queues with [x] behind all others of its priority, if it was not
    queued yet *)
Definition requeued s (Q : Z -> list Z) (x : Z) : Z -> list Z :=
  if queued s x then Q else qset Q (prio_of s x) (Q (prio_of s x) ++ [x]).

(** [s'] is [s1] up to the queues, after the dispatch decision between the
    sender [p] and the receiver [q]: the one that does not get the processor is
    queued, all other members of the queues stay *)
Record dispatched s1 (Q : Z -> list Z) (W : list Z) (p q : Z) s' : Prop := {
  dp_current : ks_current_tcb s' = if preempts s1 p q then q else ks_current_tcb s1;
  dp_queued : forall x, queued s' x = if decide (x = if preempts s1 p q then p else q) then true else queued s1 x;
  dp_ready : ready_ok s' (requeued s1 Q (if preempts s1 p q then p else q));
  dp_wait : wait_ok s' (if preempts s1 p q then W else remove_member q W);
  dp_tcb : forall x, mask2 (tcb_of s' x) = mask2 (tcb_of s1 x);
  dp_utcb : forall u, utcb_of s' u = utcb_of s1 u;
}.

Lemma queue_and_switch p q s Q W :
  ready_ok s Q -> wait_ok s W -> p <> NULL -> prio_ok (prio_of s p) = true -> preempts s p q = true ->
  exists s', (enqueue_ready p false ;;; switch_to p q) s = Ok (tt, s') /\ dispatched s Q W p q s'.
Proof.
  intros Hr Hw Hp Hprio Hd. unfold enqueue_ready.
  destruct (pq_enqueue_spec s Q p false Hr Hp Hprio) as (s1 & E1 & Hf1 & _ & Hq1 & Hr1).
  rewrite (bind_ok _ _ _ _ _ E1). eexists. split; [reflexivity|].
  destruct (ready_frame_mask _ _ Hf1) as (Hwl & Hg & Hm & Hv).
  split; rewrite ?Hd; try done.
  - intros x. change (queued s1 x = if decide (x = p) then true else queued s x).
    case_decide as Hx; [now subst|now apply (pq_enqueue_queued s p false)].
  - unfold requeued. eapply (ready_ok_other s1); [exact Hr1|done..].
  - now apply (wait_ok_other s).
  - intros u. rewrite utcb_of_with_current_tcb. now apply (rf_global (fun s => utcb_of s u)).
Qed.

Lemma wake_receiver p q s Q W :
  ready_ok s Q -> wait_ok s W -> q <> NULL -> prio_ok (prio_of s q) = true -> preempts s p q = false ->
  exists s', (cancel_timeout q ;;; enqueue_ready q false) s = Ok (tt, s') /\ dispatched s Q W p q s'.
Proof.
  intros Hr Hw Hq Hprio Hd.
  destruct (cancel_timeout_spec s W q Hw Hq) as (s1 & E1 & Hf1 & Hw1).
  rewrite (bind_ok _ _ _ _ _ E1). destruct (wait_frame_mask _ _ Hf1) as [_ Hm1].
  pose proof (wait_frame_ready_ok _ _ _ Hf1 Hr) as Hr1. unfold enqueue_ready.
  assert (Hp1 : prio_of s1 q = prio_of s q) by now apply (wf_field tcb_priority _ _ q Hf1).
  destruct (pq_enqueue_spec s1 Q q false Hr1 Hq) as (s2 & E2 & Hf2 & _ & Hq2 & Hr2); [now rewrite Hp1|].
  destruct (ready_frame_mask _ _ Hf2) as (Hwl & Hg2 & Hm2 & Hv2).
  exists s2. split; [exact E2|]. split; rewrite ?Hd.
  - rewrite (rf_global ks_current_tcb _ _ Hf2) by done. now apply (wf_global ks_current_tcb _ _ Hf1).
  - intros x. rewrite <- (wait_frame_queued s s1 x Hf1).
    case_decide as Hx; [now subst|now apply (pq_enqueue_queued s1 q false)].
  - unfold requeued. rewrite <- (wait_frame_queued s s1 q Hf1), <- Hp1. exact Hr2.
  - now apply (wait_ok_other s1).
  - intros x. now rewrite Hm2.
  - intros u. rewrite (rf_global (fun s => utcb_of s u) _ _ Hf2) by done.
    now apply (wf_global (fun s => utcb_of s u) _ _ Hf1).
Qed.

Lemma finish_send_run p q s Q W :
  let s1 := both_running s p q in
  ready_ok s Q -> wait_ok s W -> p <> NULL -> q <> NULL -> utcb_ptr s p <> NULL ->
  prio_ok (prio_of s p) = true -> prio_ok (prio_of s q) = true ->
  exists s', finish_send p q s = Ok (tt, s') /\ dispatched s1 Q W p q s'.
Proof.
  intros s1 Hr Hw Hp Hq Hu Hpp Hpq. unfold finish_send.
  destruct (Z.eqb_spec q NULL); [done|]. unfold get_saved_partner, set_state.
  rewrite bind_tcb_get, !bind_tcb_set by done. fold (after_ipc s q).
  change (upd_tcb p _ (upd_tcb q _ s)) with s1.
  assert (Hf : forall A (g : tcb -> A) x, (forall v t, g (tcb_with_thread_state v t) = g t) ->
    g (tcb_of s1 x) = g (tcb_of s x)).
  { intros A g x Hg. unfold s1, both_running. rewrite !(tcb_field_frame g); [done|apply Hg..]. }
  assert (Hr1 : ready_ok s1 Q) by now do 2 (apply ready_ok_upd_tcb; [done|]).
  assert (Hw1 : wait_ok s1 W) by (apply (wait_ok_other s); [done|intros x; now apply Hf|done]).
  rewrite (bind_ok _ _ _ _ _ (check_dispatch_run s1 p q Hp ltac:(now rewrite (Hf _ tcb_utcb)) Hq)).
  destruct (preempts s1 p q) eqn:Hd.
  - apply (queue_and_switch p q s1 Q W); try done. unfold prio_of. now rewrite (Hf _ tcb_priority).
  - apply (wake_receiver p q s1 Q W); try done. unfold prio_of. now rewrite (Hf _ tcb_priority).
Qed.

(** C5 A rendezvous: a send of untyped words to a thread that waits for the
    caller succeeds at once.  The receiver gets the caller's tag without its
    error, redirection and cross-processor bits and learns who sent; the caller's
    state is running, the receiver's too unless its IPC was nested in another one
    ([after_ipc]: it then goes on as the handler of that IPC).  If the receiver
    preempts the caller it gets the processor, and the caller is put behind all
    others of its priority if it was in no ready queue; otherwise the caller goes
    on, and the receiver loses its timeout and is queued in the same way.  The
    ready queues are well-formed with exactly these members: all other
    memberships, also that of a caller the scheduler left in its queue, stay as they
    were, and nothing but queue links changes in any other thread. *)
Theorem send_rendezvous to timeout s Q W :
  let p := ks_current_tcb s in
  let q := get_tcb to in
  let s1 := both_running (received s p q) p q in
  ready_ok s Q -> wait_ok s W -> p <> NULL -> p <> q -> is_nilthread to = false ->
  utcb_ptr s p <> NULL -> utcb_ptr s q <> NULL ->
  prio_ok (prio_of s p) = true -> prio_ok (prio_of s q) = true ->
  MsgTag.is_propagated (tag_of s p) = false -> MsgTag.get_typed (tag_of s p) = 0 ->
  tcb_myself_global (tcb_of s q) = to -> waits_for s q p = true ->
  exists s', sys_ipc to nilthread timeout s = Ok (nilthread, s') /\
    dispatched s1 Q W p q s' /\
    tag_of s' q = MsgTag.clear_receive_flags (tag_of s p) /\
    tcb_partner (tcb_of s' q) = tcb_myself_global (tcb_of s p) /\
    tcb_thread_state (tcb_of s' q) = after_ipc s q /\
    tcb_thread_state (tcb_of s' p) = ThreadState.running /\
    (forall x, x <> p -> x <> q -> mask2 (tcb_of s' x) = mask2 (tcb_of s x)).
Proof.
  intros p q s1 Hr Hw Hp Hpq Hto Hu Hv Hpp Hqp Htag Hty Hid Hwf.
  destruct (clear_receive_keeps (tag_of s p)) as (Hk1 & Hk2 & _).
  assert (Hq : q <> NULL) by apply get_tcb_nonnull.
  pose proof (send_phase_ready p to timeout s Hp Hu Hv Htag ltac:(now rewrite Hk1)
    ltac:(now rewrite Hk2) Hid Hwf) as E1. fold q in E1. set (r := received s p q) in *.
  assert (Hf : forall A (g : tcb -> A) x, (forall v t, g (tcb_with_partner v t) = g t) ->
    g (tcb_of r x) = g (tcb_of s x)).
  { intros A g x Hg. unfold r, received. now rewrite (tcb_field_frame g), tcb_of_upd_utcb. }
  assert (Hr1 : ready_ok r Q) by (apply (ready_ok_other s); [done|intros x; now apply Hf|done|done]).
  assert (Hw1 : wait_ok r W) by (apply (wait_ok_other s); [done|intros x; now apply Hf|done]).
  destruct (finish_send_run p q r Q W Hr1 Hw1 Hp Hq) as (s' & E2 & Hd);
    [unfold utcb_ptr; now rewrite (Hf _ tcb_utcb)|unfold prio_of; now rewrite (Hf _ tcb_priority)..|].
  exists s'. split.
  { unfold sys_ipc, get_current_tcb. rewrite bind_gets. fold p. rewrite Hto. cbn [negb].
    rewrite (bind_ok _ _ _ _ _ E1). fold q. change (is_nilthread nilthread) with true. cbn match.
    now rewrite (bind_ok _ _ _ _ _ E2). }
  assert (Hm : forall A (g : tcb -> A) x, (forall t, g (mask2 t) = g t) -> g (tcb_of s' x) = g (tcb_of s1 x)).
  { intros A g x Hg. apply (mask2_field g _ _ Hg), (dp_tcb _ _ _ _ _ _ Hd). }
  split; [exact Hd|]. unfold tag_of, utcb_ptr. rewrite (Hm _ tcb_utcb) by done.
  rewrite (Hm _ tcb_partner), !(Hm _ tcb_thread_state), (dp_utcb _ _ _ _ _ _ Hd) by done.
  split_and!.
  - replace (tcb_utcb (tcb_of s1 q)) with (utcb_ptr s q)
      by (unfold s1, both_running; now rewrite !(tcb_field_frame tcb_utcb), (Hf _ tcb_utcb)).
    unfold s1, both_running, r, received. kobserve. rewrite decide_True by done.
    now rewrite word_at_with, decide_True.
  - unfold s1, both_running, r, received. kobserve. now rewrite decide_False, !decide_True.
  - unfold s1, both_running, r, received, after_ipc. kobserve. now rewrite decide_False, !decide_True.
  - unfold s1, both_running. kobserve. now rewrite decide_True.
  - intros x Hx1 Hx2. rewrite (dp_tcb _ _ _ _ _ _ Hd). f_equal.
    unfold s1, both_running, r, received. kobserve. now rewrite !decide_False.
Qed.

End Errors.

(** thread 2 runs; thread 3 waits for it, with priority 0 *)
Definition calling_state : kstate unit :=
  ks_with_current_tcb (get_tcb (threadid 2 1))
    (upd_tcb (get_tcb (threadid 2 1)) (fun t => tcb_with_myself_global (threadid 2 1)
        (tcb_with_thread_state ThreadState.running (tcb_with_utcb 100 (tcb_with_space 4096 t))))
      (upd_tcb (get_tcb (threadid 3 1)) (fun t => tcb_with_myself_global (threadid 3 1)
        (tcb_with_thread_state ThreadState.waiting_forever (tcb_with_partner (threadid 2 1)
          (tcb_with_utcb 101 (tcb_with_space 8192 t)))))
        (boot_state tt))).

Lemma sys_ipc_fails_at_once_witness :
  sys_ipc (threadid 4 1) nilthread 0 calling_state =
    Ok (nilthread, failed calling_state (get_tcb (threadid 2 1)) (IPC_SND_ERROR ERR_IPC_NON_EXISTING)).
Proof.
  destruct (sys_ipc_fails_at_once (threadid 4 1) nilthread 0 calling_state) as [H _];
    [vm_compute; done|vm_compute; done|].
  apply H; vm_compute; [reflexivity|done].
Defined.

Lemma calling_ok : ready_ok calling_state (fun _ => []) /\ wait_ok calling_state [].
Proof.
  assert (H : forall A (g : tcb -> A) t, (forall x v, g (tcb_with_myself_global v x) = g x) ->
    (forall x v, g (tcb_with_thread_state v x) = g x) -> (forall x v, g (tcb_with_utcb v x) = g x) ->
    (forall x v, g (tcb_with_space v x) = g x) -> (forall x v, g (tcb_with_partner v x) = g x) ->
    g (tcb_of calling_state t) = g (tcb_of (boot_state tt) t)).
  { intros A g t H1 H2 H3 H4 H5. unfold calling_state. rewrite tcb_of_with_current_tcb.
    rewrite !(tcb_field_frame g); [done|intros x; now rewrite H1, H2, ?H5, H3, H4..]. }
  split.
  - apply (ready_ok_other (boot_state tt)); [apply boot_state_ok|intros q; now apply (H _ ready_view)|done|done].
  - split; [split_and!; [constructor|apply not_elem_of_nil|done]|]. intros t.
    split; [|now intros Ht%elem_of_nil]. unfold waits. rewrite (H _ tcb_queue_state) by done.
    unfold tcb_of, boot_state. simpl. now rewrite lookup_empty.
Qed.

Lemma send_rendezvous_witness :
  exists s', sys_ipc (threadid 3 1) nilthread 0 calling_state = Ok (nilthread, s') /\
    tcb_partner (tcb_of s' (get_tcb (threadid 3 1))) = threadid 2 1 /\
    queued s' (get_tcb (threadid 3 1)) = true.
Proof.
  destruct calling_ok as [Hr Hw].
  destruct (send_rendezvous (threadid 3 1) 0 calling_state _ _ Hr Hw) as (s' & E & Hd & _ & Hp & _);
    [vm_compute; congruence..|].
  exists s'. split; [exact E|]. split; [now rewrite Hp|]. now rewrite (dp_queued _ _ _ _ _ _ Hd).
Defined.
