(* ===== verification/Schedule.v ===== *)
(** * Timer interrupts and the scheduling system calls

    The rest of [api/backup/schedule.cc]: the timer interrupt, the expiry of
    quanta, [sys_thread_switch], [sys_schedule], and the start of the
    scheduler. *)

From Stdlib Require Import ZArith Lia Bool List.
From stdpp Require Import base numbers list option gmap.
From S2P Require Import Prelude Types Time Kip ThreadId Fpage State Msg Ring Monad Tcb Sched.
From S2P Require Import Vspace Unwind Ipcx Ipc.
Open Scope Z_scope.

(** error codes of [glue/v4-mips64/syscalls.h] *)
Definition EOK : Z := 0.
Definition ENO_PRIVILEGE : Z := 1.
Definition EINVALID_THREAD : Z := 2.
Definition EINVALID_SPACE : Z := 3.
Definition EINVALID_SCHEDULER : Z := 4.
Definition EINVALID_PARAM : Z := 5.
Definition EUTCB_AREA : Z := 6.
Definition EKIP_AREA : Z := 7.
Definition ENO_MEM : Z := 8.

Section Operations.
Context {V : Type} `{!VirtualMemory V}.
Abbreviation S := (kstate V).
Abbreviation K := (M (kstate V)).

Definition TOTAL_QUANTUM_EXPIRED : Z := w64 (-1).

Definition total_quantum_expired (tcb : Z) : K unit :=
  let* now := get_current_time in
  send_preemption_ipc tcb now ;;; ret tt.

(** the timeslice of the running thread, after the tick was subtracted; it is
    an [s64_t] combined with a [u64_t] *)
Definition tick (slice : Z) : Z := swrap 64 (slice - Layout.TIMER_TICK_LENGTH).

(** an expired timeslice: [true] to reschedule, [false] if the preemption is
    delayed *)
Definition timeslice_expired (current wakeup : Z) : K bool :=
  let* flags := get_preempt_flags current in
  let* delay := (if PreemptFlags.is_delayed flags then delay_preemption current wakeup
                 else ret false) in
  if delay then
    let* d := tcb_get current tcb_current_max_delay in
    modify (upd_pq (fun q => pq_with_current_timeslice
                               (swrap 64 (pq_current_timeslice q + d)) q)) ;;;
    tcb_set current (tcb_with_current_max_delay 0) ;;;
    let* flags := get_preempt_flags current in
    set_preempt_flags current (PreemptFlags.set_pending flags) ;;;
    ret false
  else
    end_of_timeslice current ;;; ret true.

Definition account_quantum (current : Z) : K unit :=
  let* q := tcb_get current tcb_total_quantum in
  if truth q then
    let* len := tcb_get current tcb_timeslice_length in
    if q =? TOTAL_QUANTUM_EXPIRED then total_quantum_expired current
    else if q <=? len then
      tcb_set current (fun t => tcb_with_current_timeslice
                                  (swrap 64 (tcb_current_timeslice t + tcb_total_quantum t)) t) ;;;
      tcb_set current (tcb_with_total_quantum TOTAL_QUANTUM_EXPIRED)
    else
      tcb_set current (fun t => tcb_with_total_quantum
                                  (w64 (tcb_total_quantum t - tcb_timeslice_length t)) t)
  else ret tt.

Definition handle_timer_interrupt (fuel : nat) : K unit :=
  modify (fun s => ks_with_current_time
                     (w64 (ks_current_time s + Layout.TIMER_TICK_LENGTH)) s) ;;;
  let* current := get_current_tcb in
  let* wakeup := parse_wakeup_queues fuel current in
  if current =? get_idle_tcb then ret tt else
  let* len := tcb_get current tcb_timeslice_length in
  let* expired := (if truth len then
      modify (upd_pq (fun q => pq_with_current_timeslice (tick (pq_current_timeslice q)) q)) ;;;
      gets (fun s => pq_timeslice s <=? 0)
    else ret false) in
  let* reschedule := (if expired then timeslice_expired current wakeup else ret false) in
  if negb reschedule then
    if wakeup =? current then ret tt else
    preempt_thread current wakeup ;;;
    switch_to current wakeup
  else
    account_quantum current ;;;
    enqueue_ready current false ;;;
    schedule fuel current ;;; ret tt.

(** ** System calls *)

Definition yield (fuel : nat) (current : Z) : K unit :=
  enqueue_ready current false ;;;
  let* refresh := tcb_get current (fun t => tcb_current_max_delay t <? tcb_max_delay t) in
  (if refresh then
    let* flags := get_preempt_flags current in
    set_preempt_flags current (PreemptFlags.clear_pending flags) ;;;
    tcb_set current (fun t => tcb_with_current_max_delay (tcb_max_delay t) t)
   else ret tt) ;;;
  set_pq_timeslice 0 ;;;
  end_of_timeslice current ;;;
  schedule fuel current ;;; ret tt.

Definition sys_thread_switch (fuel : nat) (dest : Z) : K unit :=
  let* current := get_current_tcb in
  if negb (is_nilthread dest) then
    get_current_space ;;;
    let dest_tcb := get_tcb dest in
    if dest_tcb =? current then ret tt else
    let* st := get_state dest_tcb in
    let* id := get_global_id dest_tcb in
    if ThreadState.is_runnable st && (id =? dest) && is_local_cpu dest_tcb then
      enqueue_ready current false ;;;
      switch_to current dest_tcb
    else yield fuel current
  else yield fuel current.

(** [(prio_t)prio]: a word converted to [int] *)
Definition to_prio (prio : Z) : Z := swrap 32 prio.

Definition do_schedule (tcb time_control prio preemption_control : Z) : K unit :=
  let* old := get_priority tcb in
  when (negb (prio =? w64 (-1)) && negb (to_prio prio =? old))
    (dequeue_ready tcb ;;;
     set_priority tcb (to_prio (Z.land prio 0xff)) ;;;
     enqueue_ready tcb false) ;;;
  when (negb (time_control =? w64 (-1)))
    (let quantum := time_set_raw time_control in
     when (time_is_period quantum) (set_total_quantum tcb quantum ;;; enqueue_ready tcb false) ;;;
     let slice := time_set_raw (Z.shiftr time_control 16) in
     when (time_is_period slice) (set_timeslice_length tcb slice)) ;;;
  (if negb (preemption_control =? w64 (-1)) then
     set_maximum_delay tcb (Z.land preemption_control 0xffff) ;;;
     let sens_prio := to_prio (Z.land (Z.shiftr preemption_control 16) 0xff) in
     let* p := get_priority tcb in
     when (p <=? sens_prio) (set_sensitive_prio tcb sens_prio)
   else ret tt).

(** the result code for the thread's state *)
Definition schedule_result (state : Z) : Z :=
  if state =? ThreadState.aborted then 1
  else if ThreadState.is_halted state then 2
  else if ThreadState.is_running state then 3
  else if ThreadState.is_polling state then 4
  else if ThreadState.is_sending state then 5
  else if ThreadState.is_waiting state then 6
  else if ThreadState.is_receiving state then 7
  else 0.

(** the result and the old time control *)
Definition sys_schedule (dest_tid time_control processor_control prio preemption_control : Z)
    : K (Z * Z) :=
  let* cspace := get_current_space in
  let dest_tcb := get_tcb dest_tid in
  let* current := get_current_tcb in
  let* id := get_global_id dest_tcb in
  if negb (id =? dest_tid) then
    set_error_code current EINVALID_THREAD ;;; ret (0, 0)
  else
    let* sched_tid := get_scheduler dest_tcb in
    let sched_tcb := get_tcb sched_tid in
    let* sid := get_global_id sched_tcb in
    let* sspace := get_space sched_tcb in
    if negb (sid =? sched_tid) || negb (sspace =? cspace) then
      set_error_code current ENO_PRIVILEGE ;;; ret (0, 0)
    else
      when (is_local_cpu dest_tcb)
        (do_schedule dest_tcb time_control prio preemption_control) ;;;
      let* state := get_state dest_tcb in
      ret (schedule_result state, 0).

(** ** Initialisation *)

Definition initial_switch_to (tcb idle_space : Z) : K unit :=
  set_space tcb idle_space ;;; modify (ks_with_current_tcb tcb).

Definition start (cpuid idle_space : Z) : K unit :=
  set_cpu get_idle_tcb cpuid ;;; initial_switch_to get_idle_tcb idle_space.

End Operations.
