(* ===== verification/Resources.v ===== *)
(** * Thread resources

    [glue/v4-mips64/resources.cc] and [resources.h]: the floating-point unit is
    handed to threads lazily.  [processor_resources] names the thread whose
    registers are in the unit; a thread that does not own it has bit CU1 of its
    saved status word clear, so that its next floating-point instruction traps.
    The status word of coprocessor 0 is that of [arch/mips64/mips_cpu.h]. *)

From Stdlib Require Import ZArith Lia Bool List.
From stdpp Require Import base numbers list option gmap.
From S2P Require Import Prelude Types Time Kip ThreadId Fpage State Msg Ring Monad Tcb Sched.
Open Scope Z_scope.

Section Operations.
Context {V : Type}.
Abbreviation S := (kstate V).
Abbreviation K := (M (kstate V)).

(** ** Coprocessor 0 *)

Definition set_cp0_status (set : Z) : K unit :=
  modify (fun s => ks_with_cp0_status (Z.lor (ks_cp0_status s) set) s).
Definition clear_cp0_status (clear : Z) : K unit :=
  modify (fun s => ks_with_cp0_status (Z.land (ks_cp0_status s) (w32 (Z.lnot clear))) s).

(** [0x2 << 28] *)
Definition ST_CU1 : Z := Z.shiftl 2 28.
Definition enable_fpu : K unit := set_cp0_status ST_CU1.
Definition disable_fpu : K unit := clear_cp0_status ST_CU1.

(** ** [processor_resources_t] *)

Definition get_fp_lazy_tcb : K Z := gets ks_fp_lazy_tcb.
Definition set_fp_lazy_tcb (tcb : Z) : K unit := modify (ks_with_fp_lazy_tcb tcb).
Definition clear_fp_lazy_tcb : K unit := modify (ks_with_fp_lazy_tcb NULL).
Definition processor_resources_init_cpu : K unit := modify (ks_with_fp_lazy_tcb NULL).

(** ** [thread_resources_t] *)

Definition resources_save (tcb : Z) : K unit := ret tt.
Definition resources_load (tcb : Z) : K unit := ret tt.
Definition resources_purge (tcb : Z) : K unit := ret tt.
Definition resources_free (tcb : Z) : K unit := ret tt.

Definition resources_init (tcb : Z) : K unit :=
  tcb_set tcb (tcb_with_resource_bits ResourceBits.init) ;;;
  clear_fp_lazy_tcb ;;;
  tcb_set tcb (tcb_with_fpu_fpcsr 0).

Definition set_exception_ipc (tcb : Z) : K unit :=
  tcb_set tcb (fun t => tcb_with_resource_bits (ResourceBits.add (tcb_resource_bits t) ResourceBits.EXCEPTION) t).
Definition clear_exception_ipc (tcb : Z) : K unit :=
  tcb_set tcb (fun t => tcb_with_resource_bits (ResourceBits.remove (tcb_resource_bits t) ResourceBits.EXCEPTION) t).

(** the status word in the exception context of [tcb] *)
Definition change_status (tcb : Z) (f : Z -> Z) : K unit :=
  tcb_set tcb (fun t => tcb_with_context (ic_with_status (f (ic_status (tcb_context t))) (tcb_context t)) t).

Definition deactivate_fpu (tcb : Z) : K unit :=
  clear_fp_lazy_tcb ;;;
  change_status tcb (fun st => Z.land st (wnot ST_CU1)).
Definition activate_fpu (tcb : Z) : K unit :=
  set_fp_lazy_tcb tcb ;;;
  change_status tcb (fun st => Z.lor st ST_CU1).

(** A floating-point instruction of the kernel needs CU1; without it the
    processor raises an exception in the middle of the handler. *)
Definition fpu_instructions {A} (m : K A) : K A := fun s =>
  if Z.testbit (ks_cp0_status s) 29 then m s else Crash.

(** [s.d] of the 32 registers and [cfc1], which extends the sign *)
Definition spill_fpu (this tcb : Z) : K unit :=
  fpu_instructions (
    let* c := gets ks_cpu in
    tcb_set this (tcb_with_fpu_gprs (cpu_fpr c)) ;;;
    tcb_set this (tcb_with_fpu_fpcsr (w64 (swrap 32 (cpu_fcr31 c))))) ;;;
  deactivate_fpu tcb.

(** [l.d] of the 32 registers and [ctc1] *)
Definition restore_fpu (this tcb : Z) : K unit :=
  activate_fpu tcb ;;;
  fpu_instructions (
    let* gprs := tcb_get this tcb_fpu_gprs in
    let* fpcsr := tcb_get this tcb_fpu_fpcsr in
    modify (fun s => ks_with_cpu (cpu_with_fcr31 (w32 fpcsr) (cpu_with_fpr gprs (ks_cpu s))) s)).

Definition mips64_fpu_unavail_exception (this tcb : Z) : K unit :=
  let* fp_tcb := get_fp_lazy_tcb in
  enable_fpu ;;;
  when (negb (fp_tcb =? NULL)) (spill_fpu fp_tcb fp_tcb) ;;;
  restore_fpu this tcb.

Definition mips64_fpu_spill (tcb : Z) : K unit :=
  let* fp_tcb := get_fp_lazy_tcb in
  when (tcb =? fp_tcb) (enable_fpu ;;; spill_fpu fp_tcb fp_tcb).

(** ** The unit as user code sees it

    [RESTORE_ALL] of [context.h] takes CU1 from the saved status word, so a
    floating-point instruction of the current thread either runs on the
    registers of the unit or traps and is executed again. *)

Definition has_cu1 (t : tcb) : bool := Z.testbit (ic_status (tcb_context t)) 29.

(** contents of the floating-point registers and of the control register *)
Abbreviation fp_file := (list Z * Z)%type.
Definition unit_file (s : S) : fp_file := (cpu_fpr (ks_cpu s), cpu_fcr31 (ks_cpu s)).
Definition with_unit_file (x : fp_file) (s : S) : S :=
  ks_with_cpu (cpu_with_fcr31 (w32 x.2) (cpu_with_fpr x.1 (ks_cpu s))) s.

Definition user_fpu_instruction (f : fp_file -> fp_file) : K unit :=
  let* current := get_current_tcb in
  let* enabled := tcb_get current has_cu1 in
  when (negb enabled) (mips64_fpu_unavail_exception current current) ;;;
  modify (fun s => with_unit_file (f (unit_file s)) s).

(** the registers that belong to [p], wherever they are kept *)
Definition saved_file (t : tcb) : fp_file := (tcb_fpu_gprs t, w32 (tcb_fpu_fpcsr t)).
Definition file_of (s : S) (p : Z) : fp_file :=
  if decide (ks_fp_lazy_tcb s = p) then unit_file s else saved_file (tcb_of s p).

(** exactly the owner has access *)
Record fpu_ok (s : S) : Prop := {
  fo_access : forall p, p <> NULL -> has_cu1 (tcb_of s p) = (ks_fp_lazy_tcb s =? p);
  fo_fcr31 : 0 <= cpu_fcr31 (ks_cpu s) < 2 ^ 32;
}.

(** a control block without what the lazy switch may change *)
Definition but_fp (t : tcb) : tcb :=
  tcb_with_fpu_gprs [] (tcb_with_fpu_fpcsr 0
    (tcb_with_context (ic_with_status (Z.land (ic_status (tcb_context t)) (wnot ST_CU1)) (tcb_context t)) t)).

End Operations.

(** ** The lazy switch is invisible *)

Section Theory.
Context {V : Type}.
Implicit Types s : kstate V.

Lemma has_cu1_set t st c :
  has_cu1 (tcb_with_context (ic_with_status (Z.lor st ST_CU1) c) t) = true.
Proof. unfold has_cu1. cbn [tcb_context ic_status tcb_with_context ic_with_status]. rewrite Z.lor_spec. apply orb_true_r. Qed.

Lemma has_cu1_clear t st c :
  has_cu1 (tcb_with_context (ic_with_status (Z.land st (wnot ST_CU1)) c) t) = false.
Proof. unfold has_cu1. cbn [tcb_context ic_status tcb_with_context ic_with_status]. rewrite Z.land_spec. apply andb_false_r. Qed.

Lemma cleared_set st : Z.land (Z.lor st ST_CU1) (wnot ST_CU1) = Z.land st (wnot ST_CU1).
Proof. rewrite Z.land_lor_distr_l. replace (Z.land ST_CU1 (wnot ST_CU1)) with 0 by done. apply Z.lor_0_r. Qed.

Lemma cleared_clear st : Z.land (Z.land st (wnot ST_CU1)) (wnot ST_CU1) = Z.land st (wnot ST_CU1).
Proof. now rewrite <- Z.land_assoc, Z.land_diag. Qed.

(** [cfc1] followed by [ctc1] *)
Lemma fcr31_roundtrip x : 0 <= x < 2 ^ 32 -> w32 (w64 (swrap 32 x)) = x.
Proof.
  intros Hx. unfold swrap, wrap. simpl Z.pow in *. case_match; zlia.
Qed.

(** what the floating-point switch leaves alone *)
Record fp_frame s s' : Prop := {
  ff_tcb : forall p, but_fp (tcb_of s' p) = but_fp (tcb_of s p);
  ff_cpu : cpu_with_fpr [] (cpu_with_fcr31 0 (ks_cpu s')) = cpu_with_fpr [] (cpu_with_fcr31 0 (ks_cpu s));
  ff_rest : ks_with_tcbs ∅ (ks_with_fp_lazy_tcb NULL (ks_with_cp0_status 0 (ks_with_cpu zero_cpu s'))) =
            ks_with_tcbs ∅ (ks_with_fp_lazy_tcb NULL (ks_with_cp0_status 0 (ks_with_cpu zero_cpu s)));
}.

#[export] Instance fp_frame_preorder : PreOrder fp_frame.
Proof.
  split; [now split|]. intros s1 s2 s3 [A1 A2 A3] [B1 B2 B3].
  split; [intros p; now rewrite B1, A1|now rewrite B2, A2|now rewrite B3, A3].
Qed.

(** nobody's registers change *)
Definition files_kept s s' : Prop := forall p, p <> NULL -> file_of s' p = file_of s p.

Lemma enable_fpu_ok s :
  run_to enable_fpu s (fun _ s' =>
    Z.testbit (ks_cp0_status s') 29 = true /\ fp_frame s s' /\ files_kept s s' /\
    ks_fp_lazy_tcb s' = ks_fp_lazy_tcb s /\ (fpu_ok s -> fpu_ok s')).
Proof.
  apply run_to_modify. split_and!; [|now split|done|done|now intros []].
  cbn [ks_cp0_status ks_with_cp0_status]. rewrite Z.lor_spec. apply orb_true_r.
Qed.

Lemma spill_fpu_run p s :
  p <> NULL -> Z.testbit (ks_cp0_status s) 29 = true ->
  spill_fpu p p s = Ok (tt, upd_tcb p
    (fun t => tcb_with_context (ic_with_status (Z.land (ic_status (tcb_context t)) (wnot ST_CU1)) (tcb_context t))
      (tcb_with_fpu_fpcsr (w64 (swrap 32 (cpu_fcr31 (ks_cpu s)))) (tcb_with_fpu_gprs (cpu_fpr (ks_cpu s)) t)))
    (ks_with_fp_lazy_tcb NULL s)).
Proof.
  intros Hp Hc. unfold spill_fpu, fpu_instructions, deactivate_fpu, clear_fp_lazy_tcb, change_status.
  unfold bind at 1. rewrite Hc. rewrite !bind_gets. rewrite bind_tcb_set, tcb_set_run by done.
  rewrite bind_modify. rewrite tcb_set_run by done. f_equal. f_equal.
  rewrite upd_tcb_fuse. exact (upd_tcb_fuse p _ _ (ks_with_fp_lazy_tcb NULL s)).
Qed.

Lemma spill_fpu_ok p s :
  fpu_ok s -> ks_fp_lazy_tcb s = p -> p <> NULL -> Z.testbit (ks_cp0_status s) 29 = true ->
  run_to (spill_fpu p p) s (fun _ s' =>
    fpu_ok s' /\ ks_fp_lazy_tcb s' = NULL /\ ks_cp0_status s' = ks_cp0_status s /\
    fp_frame s s' /\ files_kept s s' /\ saved_file (tcb_of s' p) = unit_file s).
Proof.
  intros [Ha Hf] Hl Hp Hc. eexists _, _. split; [now apply spill_fpu_run|].
  set (s' := upd_tcb _ _ _).
  assert (Hsame : saved_file (tcb_of s' p) = unit_file s).
  { subst s'. rewrite tcb_of_upd_tcb_eq. unfold saved_file, unit_file. simpl. now rewrite fcr31_roundtrip. }
  split_and!; [|done|done| |intros q Hq|done].
  - split; [|done]. intros q Hq. subst s'. rewrite tcb_of_upd_tcb. case_decide as E.
    + subst. rewrite has_cu1_clear. symmetry. apply Z.eqb_neq. intros E'. now apply Hq.
    + change (tcb_of (ks_with_fp_lazy_tcb NULL s) q) with (tcb_of s q). rewrite Ha by done.
      transitivity false; [|symmetry]; apply Z.eqb_neq; [congruence|]. intros E'. now apply Hq.
  - split; [|done|done]. intros q. subst s'. rewrite tcb_of_upd_tcb. case_decide; [|done].
    unfold but_fp. simpl. now rewrite cleared_clear.
  - unfold file_of at 1. simpl. rewrite decide_False by (intros E; now apply Hq).
    unfold file_of. case_decide as E; [rewrite <- E, Hl; exact Hsame|].
    subst s'. rewrite tcb_of_upd_tcb_ne by congruence. done.
Qed.

Lemma restore_fpu_run p s :
  p <> NULL -> Z.testbit (ks_cp0_status s) 29 = true ->
  restore_fpu p p s = Ok (tt, with_unit_file (tcb_fpu_gprs (tcb_of s p), tcb_fpu_fpcsr (tcb_of s p))
    (upd_tcb p
      (fun t => tcb_with_context (ic_with_status (Z.lor (ic_status (tcb_context t)) ST_CU1) (tcb_context t)) t)
      (ks_with_fp_lazy_tcb p s))).
Proof.
  intros Hp Hc. unfold restore_fpu, activate_fpu, set_fp_lazy_tcb, change_status, fpu_instructions.
  rewrite bind_assoc, bind_modify, bind_tcb_set by done.
  match goal with |- context [ks_cp0_status ?x] => change (ks_cp0_status x) with (ks_cp0_status s) end. rewrite Hc.
  rewrite !bind_tcb_get, tcb_of_upd_tcb_eq by done. done.
Qed.

(** loading the registers of a thread into the free unit *)
Lemma restore_fpu_ok p s :
  fpu_ok s -> ks_fp_lazy_tcb s = NULL -> p <> NULL -> Z.testbit (ks_cp0_status s) 29 = true ->
  run_to (restore_fpu p p) s (fun _ s' =>
    fpu_ok s' /\ ks_fp_lazy_tcb s' = p /\ fp_frame s s' /\ files_kept s s').
Proof.
  intros [Ha Hf] Hl Hp Hc. eexists _, _. split; [now apply restore_fpu_run|].
  set (s' := with_unit_file _ _).
  split_and!; [|done| |].
  - split; [|apply wrap_bounds; lia]. intros q Hq. subst s'.
    change (has_cu1 (tcb_of (upd_tcb p (fun t => tcb_with_context (ic_with_status
      (Z.lor (ic_status (tcb_context t)) ST_CU1) (tcb_context t)) t) (ks_with_fp_lazy_tcb p s)) q) = (p =? q)).
    rewrite tcb_of_upd_tcb. case_decide as E.
    + subst. rewrite has_cu1_set. lia.
    + change (has_cu1 (tcb_of s q) = (p =? q)). rewrite Ha, Hl by done. unfold NULL in *. lia.
  - split; [|done|done]. intros q.
    change (but_fp (tcb_of (upd_tcb p (fun t => tcb_with_context (ic_with_status
      (Z.lor (ic_status (tcb_context t)) ST_CU1) (tcb_context t)) t) (ks_with_fp_lazy_tcb p s)) q) = but_fp (tcb_of s q)).
    rewrite tcb_of_upd_tcb. case_decide; [|done]. unfold but_fp. simpl. now rewrite cleared_set.
  - intros q Hq. unfold file_of. rewrite Hl, (decide_False (P := NULL = q)) by congruence.
    simpl. case_decide as E; [now subst|].
    change (saved_file (tcb_of (upd_tcb p (fun t => tcb_with_context (ic_with_status
      (Z.lor (ic_status (tcb_context t)) ST_CU1) (tcb_context t)) t) (ks_with_fp_lazy_tcb p s)) q) = saved_file (tcb_of s q)).
    now rewrite tcb_of_upd_tcb_ne.
Qed.

Lemma fpu_unavail_ok p s :
  fpu_ok s -> p <> NULL ->
  run_to (mips64_fpu_unavail_exception p p) s (fun _ s' =>
    fpu_ok s' /\ ks_fp_lazy_tcb s' = p /\ fp_frame s s' /\ files_kept s s').
Proof.
  intros Hok Hp. unfold mips64_fpu_unavail_exception, get_fp_lazy_tcb.
  destruct (enable_fpu_ok s) as ([] & s1 & E1 & Hc1 & F1 & K1 & L1 & O1).
  unfold run_to. rewrite bind_gets, (bind_ok _ _ _ _ _ E1).
  apply (run_to_bind _ _ _ (fun _ s' => fpu_ok s' /\ ks_fp_lazy_tcb s' = NULL /\
    Z.testbit (ks_cp0_status s') 29 = true /\ fp_frame s s' /\ files_kept s s')).
  - apply run_to_when; intros Hl.
    + eapply run_to_weaken; [apply (spill_fpu_ok (ks_fp_lazy_tcb s)); [now apply O1|done|lia|done]|].
      simpl. intros _ s2 (A & B & C & D & E & _). split_and!; [done|done|now rewrite C| |].
      * now transitivity s1.
      * intros q Hq. rewrite E, K1; done.
    + split_and!; [now apply O1|unfold NULL in *; lia|done|done|done].
  - intros _ s2 (O2 & L2 & C2 & F2 & K2).
    eapply run_to_weaken; [now apply restore_fpu_ok|]. simpl. intros _ s3 (A & B & C & D).
    split_and!; [done|done|now transitivity s2|]. intros q Hq. now rewrite D, K2.
Qed.

(** C10. The lazy switch gives every thread floating-point registers of its own.
    When exactly the owner has access, a floating-point instruction of any
    thread ends with the effect it has on the registers that belong to that
    thread, whether they were in the unit or in its control block; the
    registers of all other threads keep their values wherever they are moved,
    again exactly the owner has access, and nothing else changes. *)
Theorem lazy_fpu_is_private s (f : list Z * Z -> list Z * Z) :
  let p := ks_current_tcb s in
  fpu_ok s -> p <> NULL ->
  run_to (user_fpu_instruction f) s (fun _ s' =>
    fpu_ok s' /\
    file_of s' p = (let x := f (file_of s p) in (x.1, w32 x.2)) /\
    (forall q, q <> NULL -> q <> p -> file_of s' q = file_of s q) /\
    fp_frame s s').
Proof.
  intros p Hok Hp. unfold user_fpu_instruction, get_current_tcb, run_to. rewrite bind_gets.
  rewrite bind_tcb_get by done. fold p.
  apply (run_to_bind _ _ _ (fun _ s' => fpu_ok s' /\ ks_fp_lazy_tcb s' = p /\ fp_frame s s' /\ files_kept s s')).
  - apply run_to_when; intros E; [now apply fpu_unavail_ok|].
    rewrite (fo_access _ Hok p Hp) in E. split_and!; [done|lia|done|done].
  - intros _ s1 (O1 & L1 & F1 & K1). apply run_to_modify. split_and!.
    + destruct O1 as [A B]. split; [exact A|]. apply wrap_bounds. lia.
    + unfold file_of at 1. simpl. rewrite decide_True by done. rewrite <- (K1 p Hp).
      unfold file_of. now rewrite decide_True by done.
    + intros q Hq Hn. rewrite <- (K1 q Hq). unfold file_of. simpl. now rewrite L1, !decide_False by congruence.
    + transitivity s1; [done|]. split; done.
Qed.

(** what an instruction leaves in the registers *)
Definition after (f : list Z * Z -> list Z * Z) (x : list Z * Z) : list Z * Z := ((f x).1, w32 (f x).2).

(** a thread with access runs on what the unit holds *)
Lemma user_fpu_instruction_enabled s f :
  ks_current_tcb s <> NULL -> has_cu1 (tcb_of s (ks_current_tcb s)) = true ->
  user_fpu_instruction f s = Ok (tt, with_unit_file (f (unit_file s)) s).
Proof.
  intros Hp Hc. unfold user_fpu_instruction, get_current_tcb. rewrite bind_gets, bind_tcb_get by done.
  rewrite Hc. now rewrite bind_when_false.
Qed.

(** a thread without access, when nobody is said to own the unit *)
Lemma user_fpu_instruction_unowned s f q :
  ks_current_tcb s = q -> q <> NULL -> has_cu1 (tcb_of s q) = false -> ks_fp_lazy_tcb s = NULL ->
  exists s', user_fpu_instruction f s = Ok (tt, s') /\ unit_file s' = after f (saved_file (tcb_of s q)) /\
    forall p, p <> q -> tcb_of s' p = tcb_of s p.
Proof.
  intros Hq Hn Hc Hl. unfold user_fpu_instruction, get_current_tcb. rewrite bind_gets, Hq, bind_tcb_get by done.
  rewrite Hc, bind_when_true. unfold mips64_fpu_unavail_exception, get_fp_lazy_tcb.
  rewrite bind_assoc, bind_gets, Hl. destruct (enable_fpu_ok s) as ([] & s1 & E1 & Hc1 & _).
  assert (Hs1 : forall p, tcb_of s1 p = tcb_of s p) by (unfold enable_fpu, set_cp0_status in E1; now injection E1 as <-).
  rewrite bind_assoc, (bind_ok _ _ _ _ _ E1).
  change (negb (NULL =? NULL)) with false. rewrite bind_assoc, bind_when_false.
  rewrite (bind_ok _ _ _ _ _ (restore_fpu_run q s1 Hn Hc1)). eexists. split_and!; [reflexivity| |].
  - unfold unit_file, after, saved_file. simpl. now rewrite Hs1.
  - intros p Hp. rewrite <- Hs1.
    exact (tcb_of_upd_tcb_ne q p _ (ks_with_fp_lazy_tcb q s1) (not_eq_sym Hp)).
Qed.

(** C34. Initialising the resources of a new thread forgets the owner of the
    unit without saving its registers or taking its access away: when another
    thread then uses the unit, the former owner goes on with the registers of
    that thread, and what it had in its own is lost. *)
Theorem thread_creation_leaks_fpu s new q f g :
  let p := ks_fp_lazy_tcb s in
  fpu_ok s -> p <> NULL -> new <> NULL -> new <> p -> q <> NULL -> q <> p -> q <> new ->
  run_to (resources_init new ;;; switch_to p q ;;; user_fpu_instruction f ;;;
          switch_to q p ;;; user_fpu_instruction g) s
    (fun _ s' => unit_file s' = after g (after f (file_of s q))).
Proof.
  intros p Hok Hp Hnew Hnp Hq Hqp Hqn. unfold resources_init, clear_fp_lazy_tcb, run_to.
  rewrite bind_assoc, bind_tcb_set by done. rewrite bind_assoc, bind_modify, bind_tcb_set by done.
  unfold switch_to at 1. rewrite bind_modify. set (s1 := ks_with_current_tcb q _).
  assert (Hs1 : forall t, t <> new -> tcb_of s1 t = tcb_of s t).
  { intros t Ht. subst s1. simpl. unfold tcb_of at 1. simpl. now rewrite !lookup_insert_ne by congruence. }
  destruct (user_fpu_instruction_unowned s1 f q) as (s2 & E2 & U2 & F2); [done..| |done|].
  { rewrite Hs1 by done. rewrite (fo_access _ Hok q Hq). fold p. lia. }
  rewrite (bind_ok _ _ _ _ _ E2). unfold switch_to. rewrite bind_modify.
  rewrite user_fpu_instruction_enabled; [|done|].
  - eexists _, _. split; [reflexivity|]. unfold with_unit_file, unit_file at 1. simpl.
    change (unit_file (ks_with_current_tcb p s2)) with (unit_file s2). rewrite U2, Hs1 by done.
    unfold file_of. now rewrite decide_False by (intros E; now apply Hqp).
  - change (has_cu1 (tcb_of s2 p) = true). rewrite F2, Hs1 by congruence.
    rewrite (fo_access _ Hok p Hp). fold p. apply Z.eqb_refl.
Qed.

End Theory.

(** thread 3 owns the unit, thread 2 runs *)
Definition fpu_state : kstate unit :=
  upd_tcb 3 (tcb_with_context (ic_with_status ST_CU1 zero_context))
    (ks_with_fp_lazy_tcb 3 (ks_with_current_tcb 2 (boot_state tt))).

Lemma fpu_state_ok : fpu_ok fpu_state.
Proof.
  split; [|done]. intros p _. unfold fpu_state. rewrite tcb_of_upd_tcb. case_decide as E; [now subst|].
  change (false = (3 =? p)). lia.
Qed.

(** the instruction loads 9 into every register *)
Definition load_nine (x : list Z * Z) : list Z * Z := (replicate 32 9, x.2).

Lemma lazy_fpu_is_private_witness :
  exists s', user_fpu_instruction load_nine fpu_state = Ok (tt, s') /\ file_of s' 3 = file_of fpu_state 3.
Proof.
  destruct (lazy_fpu_is_private fpu_state load_nine) as ([] & s' & E & _ & _ & H & _); [apply fpu_state_ok|done|].
  exists s'. split; [exact E|]. apply H; vm_compute; discriminate.
Defined.

Lemma thread_creation_leaks_fpu_witness :
  exists s', (resources_init 4 ;;; switch_to 3 2 ;;; user_fpu_instruction load_nine ;;;
              switch_to 2 3 ;;; user_fpu_instruction id) fpu_state = Ok (tt, s') /\
    unit_file s' = (replicate 32 9, 0).
Proof.
  destruct (thread_creation_leaks_fpu fpu_state 4 2 load_nine id) as ([] & s' & E & H);
    [apply fpu_state_ok|done..|].
  exists s'. split; [exact E|]. rewrite H. reflexivity.
Defined.
