(* ===== verification/Thread.v ===== *)
(** * Creation, activation, deletion and migration of threads

    [api/v4/thread.cc] (without its SMP parts) and the initialisation of the
    scheduler object, which creates the idle thread. *)

From Stdlib Require Import ZArith Lia Bool List.
From stdpp Require Import base numbers list option gmap.
From S2P Require Import Prelude Types Time Kip ThreadId Fpage State Msg Ring Monad Tcb Sched.
From S2P Require Import Wakeup Sendq Vspace Unwind Resources.
Open Scope Z_scope.

Section Operations.
Context {V : Type} `{!VirtualMemory V}.
Abbreviation S := (kstate V).
Abbreviation K := (M (kstate V)).

Definition get_kip : K kip_t := gets ks_kip.

Definition is_interrupt_thread (p : Z) : K bool :=
  let* kip := get_kip in
  let* id := get_global_id p in
  ret (is_interrupt kip id &&
       (get_threadno id <? ThreadInfo.get_system_base (kip_thread_info kip))).

(** [static void thread_startup()] *)
Definition thread_startup_handler : K unit :=
  let* current := get_current_tcb in
  let* ip := get_mr current 1 in set_user_ip current ip ;;;
  let* sp := get_mr current 2 in set_user_sp current sp ;;;
  set_saved_state current ThreadState.aborted.

Definition fake_wait_for_startup (tcb pager : Z) : K unit :=
  set_state tcb ThreadState.waiting_forever ;;;
  set_partner tcb pager ;;;
  set_br tcb 0 0 ;;;
  set_saved_partner tcb nilthread ;;;
  set_saved_state tcb ThreadState.running.

(** [tcb_t::init] *)
Definition init (p dest : Z) : K unit :=
  allocate p ;;;
  tcb_set p (tcb_with_utcb NULL) ;;;
  tcb_set p (tcb_with_space NULL) ;;;
  set_state p ThreadState.aborted ;;;
  let* st := get_state p in set_saved_state p st ;;;
  set_partner p nilthread ;;;
  set_saved_partner p nilthread ;;;
  tcb_set p (tcb_with_myself_global dest) ;;;
  tcb_set p (tcb_with_myself_local nilthread) ;;;
  resources_init p ;;;
  tcb_set p (tcb_with_queue_state QueueState.init) ;;;
  tcb_set p (tcb_with_send_head NULL) ;;;
  init_tcb p Config.DEFAULT_PRIORITY DEFAULT_TOTAL_QUANTUM DEFAULT_TIMESLICE_LENGTH ;;;
  init_stack p.

Definition create_kernel_thread (p dest utcb : Z) : K unit :=
  init p dest ;;;
  tcb_set p (tcb_with_utcb utcb) ;;;
  set_priority p 0.

Definition create_inactive (p dest scheduler : Z) : K unit :=
  init p dest ;;;
  tcb_set p (tcb_with_scheduler scheduler).

Definition activate (p : Z) (startup_func : kfunc) (pager : Z) : K bool :=
  let* sp := get_space p in
  let* utcb := allocate_utcb sp p in
  tcb_set p (tcb_with_utcb utcb) ;;;
  if utcb =? NULL then ret false else
  let* id := get_global_id p in
  tcb_set_global_id p id ;;;
  set_pager p pager ;;;
  set_cpu p get_current_cpu ;;;
  let* sched := get_scheduler p in
  set_scheduler p sched ;;;
  set_exception_handler p nilthread ;;;
  create_startup_stack p startup_func ;;;
  ret true.

Definition check_utcb_location (p utcb_location : Z) : K bool :=
  let* sp := get_space p in
  let* area := get_utcb_page_area sp in
  ret (is_range_in_fpage area utcb_location (w64 (utcb_location + Layout.UTCB_SIZE))).

(** [while(send_head) send_head->dequeue_send(this);] *)
Fixpoint drop_senders (fuel : nat) (p : Z) : K unit :=
  let* hd := tcb_get p tcb_send_head in
  if hd =? NULL then ret tt else
  match fuel with
  | O => hang
  | Datatypes.S fuel => dequeue_send hd p ;;; drop_senders fuel p
  end.

Definition delete_tcb (fuel : nat) (p : Z) : K unit :=
  let* act := is_activated p in
  (if act then
     dequeue_ready p ;;;
     let* st := get_state p in
     when (ThreadState.is_sending st || ThreadState.is_receiving st) (unwind p abort) ;;;
     drop_senders fuel p ;;;
     resources_free p ;;;
     tcb_set p (tcb_with_utcb NULL)
   else ret tt) ;;;
  tcb_set p (tcb_with_myself_global nilthread) ;;;
  tcb_set p (tcb_with_myself_local nilthread) ;;;
  set_space p NULL ;;;
  set_state p ThreadState.aborted.

Definition migrate_to_space (p sp : Z) : K bool :=
  let* new_utcb := allocate_utcb sp p in
  if new_utcb =? NULL then ret false else
  unwind p abort ;;;
  let* old := get_space p in
  let* last := remove_tcb old p in
  (if last then
     space_free sp ;;;
     let* old := get_space p in free_space old
   else ret tt) ;;;
  set_space p sp ;;;
  tcb_set p (tcb_with_utcb new_utcb) ;;;
  ret true.

(** [scheduler_t::init] *)
Definition scheduler_init (bootcpu : bool) : K unit :=
  modify (ks_with_wakeup_list NULL) ;;;
  pq_init ;;;
  create_kernel_thread get_idle_tcb nilthread idle_utcb ;;;
  tcb_set get_idle_tcb (tcb_with_myself_global 0x1d1e1d1e1d1e1d1e) ;;;
  notify get_idle_tcb idle_thread [] ;;;
  when bootcpu (notify get_idle_tcb init_all_threads []).

End Operations.

(** ** New threads *)

Section Theory.
Context {V : Type} `{!VirtualMemory V}.
Implicit Types s : kstate V.

(** a control block after [init]: what is left of the old one are the links of
    queues it is in no more, its processor, its scheduler and its flags *)
Definition fresh_tcb (dest : Z) (t : tcb) : tcb :=
  let slice := get_microseconds DEFAULT_TIMESLICE_LENGTH in
  Tcb dest nilthread (tcb_cpu t) NULL ThreadState.aborted nilthread ResourceBits.init [] zero_context
      QueueState.init (tcb_ready_list t) (tcb_wait_list t) (tcb_send_list t) NULL
      0 slice (swrap 64 slice) (tcb_absolute_timeout t)
      Config.DEFAULT_PRIORITY Config.DEFAULT_PRIORITY 0 0 (tcb_scheduler t) NULL (tcb_flags t)
      (tcb_int_mask t) (tcb_misc t) nilthread ThreadState.aborted 0 (tcb_fpu_gprs t).

Lemma init_run p dest s :
  p <> NULL ->
  exists s', init p dest s = Ok (tt, s') /\ s' ≡ upd_tcb p (fresh_tcb dest) (ks_with_fp_lazy_tcb NULL s).
Proof.
  intros Hp. unfold init, resources_init, clear_fp_lazy_tcb, init_tcb, set_timeslice_length, set_total_quantum, set_priority,
    set_sensitive_prio, get_sensitive_prio, set_maximum_delay. krun.
  destruct (_ <? Config.DEFAULT_PRIORITY); krun; (eexists; split; [reflexivity|kequiv]).
Qed.

Lemma create_inactive_run p dest sched s :
  p <> NULL ->
  exists s', create_inactive p dest sched s = Ok (tt, s') /\
    s' ≡ upd_tcb p (fun t => tcb_with_scheduler sched (fresh_tcb dest t)) (ks_with_fp_lazy_tcb NULL s).
Proof.
  intros Hp. unfold create_inactive. destruct (init_run p dest s Hp) as (s1 & E1 & Heq).
  rewrite (bind_ok _ _ _ _ _ E1). rewrite tcb_set_run by done. eexists. split; [reflexivity|].
  rewrite Heq, upd_tcb_fuse. reflexivity.
Qed.


(** ** Deletion *)

(** [while(send_head) send_head->dequeue_send(this);] empties the queue *)
Lemma drop_senders_run L : forall fuel p s,
  send_ok s p L -> p <> NULL -> (length L <= fuel)%nat ->
  exists s', drop_senders fuel p s = Ok (tt, s') /\ send_frame p s s' /\
    tcb_send_head (tcb_of s' p) = NULL /\
    (forall q, sends s' q = if bool_decide (q ∈ L) then false else sends s q).
Proof.
  induction L as [|t L IH]; intros fuel p s Hok Hp Hlen.
  - pose proof (so_ring _ _ _ Hok) as (_ & _ & Hh).
    exists s. assert (drop_senders fuel p s = Ok (tt, s)) as ->.
    { destruct fuel; cbn [drop_senders]; rewrite bind_tcb_get by done; now rewrite Hh. }
    split_and!; done.
  - destruct fuel as [|fuel]; [simpl in Hlen; lia|].
    pose proof (so_ring _ _ _ Hok) as (Hnd & Hnl & Hh). destruct Hh as [Hh _].
    assert (Ht : t <> NULL) by (apply (not_null_member (t :: L)); [done|left]).
    cbn [drop_senders]. rewrite bind_tcb_get by done. rewrite Hh.
    destruct (Z.eqb_spec t NULL); [done|].
    destruct (dequeue_send_spec s p t (t :: L) Hok Hp ltac:(left)) as (s1 & E1 & Hf1 & Hok1 & Ht1 & Hq1).
    rewrite (bind_ok _ _ _ _ _ E1).
    assert (Hrm : remove_member t (t :: L) = L) by exact (remove_member_split t [] L Hnd).
    rewrite Hrm in Hok1.
    destruct (IH fuel p s1 Hok1 Hp ltac:(simpl in Hlen; lia)) as (s2 & E2 & Hf2 & Hh2 & Hq2).
    exists s2. split_and!; [exact E2|now transitivity s1|done|]. intros q. rewrite Hq2.
    destruct (decide (q = t)) as [->|Hne].
    + rewrite Ht1, (bool_decide_eq_true_2 (t ∈ t :: L)) by left. now destruct (bool_decide _).
    + rewrite Hq1 by done. erewrite bool_decide_ext; [reflexivity|]. rewrite elem_of_cons. tauto.
Qed.

(** send queues do not notice changes of the ready queues *)
Lemma sends_ready_frame s s' q : ready_frame s s' -> sends s' q = sends s q.
Proof.
  intros Hf. apply (rf_field (fun t => QueueState.is_set QueueState.send (tcb_queue_state t)) _ _ _ Hf).
  intros x. unfold mask_ready. simpl. rewrite QueueState.is_set_clear. now rewrite bool_decide_eq_false_2.
Qed.

Lemma send_ok_ready_frame s s' p L : ready_frame s s' -> send_ok s p L -> send_ok s' p L.
Proof.
  intros Hf [Hr Hm]. split.
  - rewrite (rf_field tcb_send_head _ _ _ Hf) by done. apply (send_list_ext s); [|done].
    intros q. now apply (rf_field tcb_send_list _ _ _ Hf).
  - intros t Ht. rewrite (sends_ready_frame s s') by done. now apply Hm.
Qed.

(** the control block of a deleted thread *)
Definition deleted_tcb (act : bool) (t : tcb) : tcb :=
  tcb_with_thread_state ThreadState.aborted (tcb_with_space NULL (tcb_with_myself_local nilthread
    (tcb_with_myself_global nilthread (if act then tcb_with_utcb NULL t else t)))).

(** a control block without anything that depends on ready and send queues *)
Definition mask_sched (b : bool) (t : tcb) : tcb := mask_send b (mask_ready t).

Lemma mask_sched_ready b t t' : mask_ready t' = mask_ready t -> mask_sched b t' = mask_sched b t.
Proof. unfold mask_sched. now intros ->. Qed.

Lemma mask_sched_send b t t' : mask_send b t' = mask_send b t -> mask_sched b t' = mask_sched b t.
Proof.
  intros H. apply (f_equal mask_ready) in H. unfold mask_sched.
  assert (Hc : forall t, mask_send b (mask_ready t) = mask_ready (mask_send b t)).
  { intros u. unfold mask_send, mask_ready, QueueState.clear.
    destruct b; simpl; rewrite <- !Z.land_assoc, (Z.land_comm (wnot _)); done. }
  now rewrite !Hc.
Qed.

Lemma delete_rest_run (act : bool) p s :
  p <> NULL ->
  exists s', (when act (tcb_set p (tcb_with_utcb NULL)) ;;;
    tcb_set p (tcb_with_myself_global nilthread) ;;; tcb_set p (tcb_with_myself_local nilthread) ;;;
    set_space p NULL ;;; set_state p ThreadState.aborted) s = Ok (tt, s') /\
    s' = upd_tcb p (deleted_tcb act) s.
Proof.
  intros Hp. destruct act; krun; eexists; (split; [reflexivity|]); apply upd_tcb_ext; now destruct (tcb_of s p).
Qed.

(** ids, space and UTCB do not matter for the ready queues and the wakeup queue *)
Lemma queued_deleted act p s q : queued (upd_tcb p (deleted_tcb act) s) q = queued s q.
Proof. unfold queued. f_equal. apply (tcb_field_frame tcb_queue_state). now destruct act. Qed.

Lemma wait_ok_deleted act p s W : wait_ok s W -> wait_ok (upd_tcb p (deleted_tcb act) s) W.
Proof.
  intros HW. apply (wait_ok_other s); [done| |done]. intros q.
  apply (tcb_field_frame wait_view). now destruct act.
Qed.

(** the wakeup queue does not notice changes of a send queue *)
Lemma wait_ok_send_frame s s' p W : send_frame p s s' -> wait_ok s W -> wait_ok s' W.
Proof.
  intros Hf HW. apply (wait_ok_other s); [done| |now apply (sf_global ks_wakeup_list _ _ _ Hf)].
  intros q. apply (sf_field wait_view _ _ _ q Hf). intros b t. unfold wait_view, mask_send.
  destruct b; cbn; f_equal; rewrite QueueState.is_set_clear; now rewrite bool_decide_eq_false_2.
Qed.

Lemma delete_active_run fuel p s Q L :
  p <> NULL -> ready_ok s Q -> send_ok s p L -> (length L <= fuel)%nat ->
  negb (tcb_utcb (tcb_of s p) =? NULL) = true ->
  ThreadState.is_sending (tcb_thread_state (tcb_of s p)) ||
    ThreadState.is_receiving (tcb_thread_state (tcb_of s p)) = false ->
  exists s', delete_tcb fuel p s = Ok (tt, s') /\
    ready_ok s' (if queued s p then qset Q (prio_of s p) (remove_member p (Q (prio_of s p))) else Q) /\
    queued s' p = false /\ (forall q, q <> p -> queued s' q = queued s q) /\
    mask_sched true (tcb_of s' p) = mask_sched true (deleted_tcb true (tcb_of s p)) /\
    (forall q, q <> p -> mask_sched false (tcb_of s' q) = mask_sched false (tcb_of s q)) /\
    tcb_send_head (tcb_of s' p) = NULL /\
    (forall q, sends s' q = if bool_decide (q ∈ L) then false else sends s q) /\
    (forall W, wait_ok s W -> wait_ok s' W) /\
    mask_queues s' = mask_queues s.
Proof.
  intros Hp HQ HL Hlen Ea Hst. set (st := tcb_thread_state _) in Hst.
  unfold delete_tcb, is_activated. rewrite bind_tcb_get, Ea by done.
  unfold dequeue_ready, get_state, resources_free. rewrite !bind_assoc.
  destruct (pq_dequeue_spec s Q p HQ Hp) as (s1 & E1 & Hf1 & _ & Hq1 & Ho1 & Hok1).
  rewrite (bind_ok _ _ _ _ _ E1). rewrite bind_assoc, bind_tcb_get by done.
  assert (tcb_thread_state (tcb_of s1 p) = st) as -> by now apply (rf_field tcb_thread_state _ _ _ Hf1).
  rewrite Hst, bind_assoc, bind_when_false, bind_assoc.
  pose proof (send_ok_ready_frame _ _ _ _ Hf1 HL) as HL1.
  destruct (drop_senders_run L fuel p s1 HL1 Hp Hlen) as (s2 & E2 & Hf2 & Hh2 & Hs2).
  rewrite (bind_ok _ _ _ _ _ E2), bind_assoc, bind_ret_l.
  destruct (delete_rest_run true p s2 Hp) as (s' & E & ->). exists (upd_tcb p (deleted_tcb true) s2).
  split; [exact E|].
  assert (Hmask : forall q, mask_sched (bool_decide (q = p)) (tcb_of s2 q) =
                            mask_sched (bool_decide (q = p)) (tcb_of s q)).
  { intros q. rewrite (mask_sched_send _ _ _ (sf_tcb _ _ _ Hf2 q)).
    apply mask_sched_ready, (rf_tcb _ _ Hf1). }
  assert (Hqueued : forall q, queued s2 q = queued s1 q).
  { intros q. pose proof (sf_field ready_view _ _ _ q Hf2 ready_view_send) as Hv. now injection Hv. }
  split_and!.
  - apply ready_ok_upd_tcb; [done|exact (send_frame_ready_ok _ _ _ _ Hf2 Hok1)].
  - now rewrite queued_deleted, Hqueued.
  - intros q Hq. now rewrite queued_deleted, Hqueued, Ho1.
  - rewrite tcb_of_upd_tcb_eq. specialize (Hmask p). rewrite bool_decide_eq_true_2 in Hmask by done.
    apply (f_equal (deleted_tcb true)) in Hmask. exact Hmask.
  - intros q Hq. rewrite tcb_of_upd_tcb_ne by congruence. specialize (Hmask q).
    now rewrite bool_decide_eq_false_2 in Hmask.
  - now rewrite (tcb_field_frame tcb_send_head).
  - intros q. unfold sends. rewrite (tcb_field_frame tcb_queue_state) by done. fold (sends s2 q).
    rewrite Hs2. destruct (bool_decide (q ∈ L)); [done|]. now apply sends_ready_frame.
  - intros W HW. apply wait_ok_deleted, (wait_ok_send_frame _ _ _ _ Hf2).
    destruct (ready_frame_mask _ _ Hf1) as (Hwl & _ & _ & Hv). now apply (wait_ok_other s).
  - change (mask_queues s2 = mask_queues s).
    rewrite <- (rf_rest _ _ Hf1). now apply (sf_global mask_queues _ _ _ Hf2).
Qed.

(** C8 Deleting a thread that is in no IPC terminates.  A thread that was
    activated is taken out of its ready queue, in which the others stay in order,
    and all threads that were queued to send to it are taken off its send queue
    (as many steps as there are senders are enough) and stay polling.  A thread that was never activated only becomes aborted and loses its id and space: if
    it was in a ready queue it is there still.  In both cases the thread has no
    space, UTCB or id any more, the ready queues are well-formed, and apart from
    queue links and marks no other thread changes.  The wakeup queue does not
    change either: a thread with a timeout stays in it. *)
Theorem delete_tcb_spec fuel p s Q L :
  p <> NULL -> ready_ok s Q -> send_ok s p L -> (length L <= fuel)%nat ->
  let act := negb (tcb_utcb (tcb_of s p) =? NULL) in
  let st := tcb_thread_state (tcb_of s p) in
  ThreadState.is_sending st || ThreadState.is_receiving st = false ->
  exists s', delete_tcb fuel p s = Ok (tt, s') /\
    ready_ok s' (if act && queued s p
                 then qset Q (prio_of s p) (remove_member p (Q (prio_of s p))) else Q) /\
    (forall q, queued s' q = if decide (q = p) then negb act && queued s p else queued s q) /\
    mask_sched true (tcb_of s' p) = mask_sched true (deleted_tcb act (tcb_of s p)) /\
    (forall q, q <> p -> mask_sched false (tcb_of s' q) = mask_sched false (tcb_of s q)) /\
    (act = false -> s' = upd_tcb p (deleted_tcb false) s) /\
    (act = true -> tcb_send_head (tcb_of s' p) = NULL /\
       forall q, sends s' q = if bool_decide (q ∈ L) then false else sends s q) /\
    (forall W, wait_ok s W -> wait_ok s' W) /\
    mask_queues s' = mask_queues s.
Proof.
  intros Hp HQ HL Hlen act st Hst. destruct act eqn:Ea; subst act.
  - destruct (delete_active_run fuel p s Q L Hp HQ HL Hlen Ea Hst)
      as (s' & E & Hok & Hqp & Hq & Hm & Ho & Hh & Hs & Hw & Hg).
    exists s'. split_and!; try done. intros q. case_decide; [now subst|now apply Hq].
  - exists (upd_tcb p (deleted_tcb false) s). split_and!; try done.
    + unfold delete_tcb, is_activated. rewrite bind_tcb_get, Ea by done.
      destruct (delete_rest_run false p s Hp) as (s' & E & ->). exact E.
    + now apply ready_ok_upd_tcb.
    + intros q. rewrite queued_deleted. case_decide; now subst.
    + now rewrite tcb_of_upd_tcb_eq.
    + intros q Hq. now rewrite tcb_of_upd_tcb_ne by congruence.
    + intros W HW. now apply wait_ok_deleted.
Qed.
End Theory.

(** thread 4 polls on thread 3, which waits to be deleted *)
Definition doomed_state : kstate unit :=
  match (enqueue_send 4 3 ;;; enqueue_ready 3 false)
          (upd_tcb 3 (tcb_with_utcb 101) (upd_tcb 4 (tcb_with_thread_state ThreadState.polling) (boot_state tt))) with
  | Ok (_, s) => s
  | _ => boot_state tt
  end.

Lemma doomed_ok : ready_ok doomed_state (qset (fun _ => []) 0 [3]) /\ send_ok doomed_state 3 [4].
Proof.
  unfold doomed_state. set (s0 := upd_tcb 3 _ _).
  assert (Hr0 : ready_ok s0 (fun _ => [])) by (do 2 (apply ready_ok_upd_tcb; [done|]); apply boot_state_ok).
  assert (Hs0 : send_ok s0 3 []).
  { split; [split_and!; [constructor|apply not_elem_of_nil|done]|]. intros t Ht. now apply elem_of_nil in Ht. }
  destruct (enqueue_send_spec s0 3 4 [] Hs0) as (s1 & E1 & Hf1 & Hs1 & _); [done|done|vm_compute; done|].
  rewrite (bind_ok _ _ _ _ _ E1). pose proof (send_frame_ready_ok _ _ _ _ Hf1 Hr0) as Hr1.
  assert (Hp : prio_of s1 3 = 0) by (unfold prio_of; rewrite (sf_field tcb_priority _ _ _ _ Hf1);
    [vm_compute; reflexivity|intros [] t; reflexivity]).
  destruct (pq_enqueue_spec s1 _ 3 false Hr1) as (s2 & E2 & Hf2 & _ & _ & Hr2); [done|now rewrite Hp|].
  unfold enqueue_ready. rewrite E2. split.
  - rewrite Hp in Hr2. destruct (queued s1 3) eqn:Eq; [|exact Hr2].
    destruct (ro_all _ _ Hr1 3 Eq) as [_ H]. now apply elem_of_nil in H.
  - exact (send_ok_ready_frame _ _ _ _ Hf2 Hs1).
Qed.

Lemma delete_tcb_spec_witness :
  exists s', delete_tcb 1 3 doomed_state = Ok (tt, s') /\ queued s' 3 = false /\ sends s' 4 = false.
Proof.
  destruct doomed_ok as [Hr Hs].
  destruct (delete_tcb_spec 1 3 doomed_state _ _ ltac:(done) Hr Hs ltac:(simpl; lia)
    ltac:(vm_compute; reflexivity)) as (s' & E & _ & Hq & _ & _ & _ & H & _).
  exists s'. split; [exact E|]. destruct (H ltac:(vm_compute; reflexivity)) as (_ & H2).
  split; [rewrite Hq; vm_compute; reflexivity|]. exact (H2 4).
Defined.
