(* ===== verification/Interrupt.v ===== *)
(** * Interrupts

    [api/backup/interrupt.cc] and the interrupt controller of
    [glue/v4-mips64/intctrl.h]: delivery of interrupts as IPC, and the control
    of interrupt threads. *)

From Stdlib Require Import ZArith Lia Bool List.
From stdpp Require Import base numbers list option gmap.
From S2P Require Import Prelude Types Time Kip ThreadId Fpage State Msg Ring Monad Tcb Sched.
From S2P Require Import Vspace Unwind Resources Thread.
Open Scope Z_scope.

Section Operations.
Context {V : Type} `{!VirtualMemory V}.
Abbreviation S := (kstate V).
Abbreviation K := (M (kstate V)).

(** ** [intctrl_t]

    [1 << irq] and [(1 << 8) << irq] are [int] shifts; the mask word lives in
    the idle thread's control block, the enable bits in coprocessor 0. *)

Definition irq_bit (irq : Z) : Z := Z.shiftl 1 irq.
Definition status_bit (irq : Z) : Z := Z.shiftl (Z.shiftl 1 8) irq.

Definition irq_mask (irq : Z) : K unit :=
  tcb_set get_idle_tcb (fun t => tcb_with_int_mask
    (Z.land (tcb_int_mask t) (wnot (irq_bit irq))) t) ;;;
  clear_cp0_status (status_bit irq).
Definition irq_unmask (irq : Z) : K bool :=
  tcb_set get_idle_tcb (fun t => tcb_with_int_mask (Z.lor (tcb_int_mask t) (irq_bit irq)) t) ;;;
  set_cp0_status (status_bit irq) ;;;
  ret false.
Definition irq_disable (irq : Z) : K unit := irq_mask irq.
Definition irq_enable (irq : Z) : K bool := irq_unmask irq.
Definition get_number_irqs : Z := 7.
(** the argument is an [int] *)
Definition is_irq_available (irq : Z) : bool := (swrap 32 irq <? 7) && (swrap 32 irq >=? 2).

(** ** Delivery *)

(** the handler waits for the interrupt: it gets the message, and runs now or
    is queued as the scheduler decides *)
Definition deliver_irq (current irq_tcb handler_tcb irq_tid handler_tid : Z) : K unit :=
  set_partner irq_tcb handler_tid ;;;
  set_state irq_tcb ThreadState.waiting_forever ;;;
  set_tag handler_tcb MsgTag.irq_tag ;;;
  set_partner handler_tcb irq_tid ;;;
  if current =? get_idle_tcb then switch_to current handler_tcb
  else
    let* up := check_dispatch_thread current handler_tcb in
    if up then
      preempt_thread current handler_tcb ;;;
      switch_to current handler_tcb
    else
      set_state handler_tcb ThreadState.running ;;;
      enqueue_ready handler_tcb false.

(** the handler does not wait: the interrupt thread queues up to send *)
Definition queue_irq (irq_tcb handler_tcb handler_tid : Z) : K unit :=
  set_tag irq_tcb MsgTag.irq_tag ;;;
  set_partner irq_tcb handler_tid ;;;
  set_state irq_tcb ThreadState.polling ;;;
  enqueue_send irq_tcb handler_tcb.

Definition handle_interrupt (irq : Z) : K unit :=
  let* current := get_current_tcb in
  let irq_tid := irqthread irq in
  let irq_tcb := get_tcb irq_tid in
  let* st := get_state irq_tcb in
  if st =? ThreadState.aborted then ret tt else
  let* handler_tid := get_irq_handler irq_tcb in
  let handler_tcb := get_tcb handler_tid in
  let* hid := get_global_id handler_tcb in
  if negb (hid =? handler_tid) then set_state irq_tcb ThreadState.aborted else
  let* hst := get_state handler_tcb in
  let* partner := get_partner handler_tcb in
  if ThreadState.is_waiting hst && ((partner =? irq_tid) || is_anythread partner)
  then deliver_irq current irq_tcb handler_tcb irq_tid handler_tid
  else queue_irq irq_tcb handler_tcb handler_tid.

(** [intctrl_t_handle_irq]: the entry from the exception vector *)
Definition intctrl_t_handle_irq (irq : Z) : K unit :=
  irq_mask irq ;;; handle_interrupt irq.

(** one turn of the loop of [irq_thread] *)
Definition irq_thread_turn : K unit :=
  let* current := get_current_tcb in
  let* id := get_global_id current in
  let irq := get_irqno id in
  let* handler := get_irq_handler current in
  let handler_tcb := get_tcb handler in
  let* sending := queue_state_is_set current QueueState.send in
  (if sending then
     dequeue_send current handler_tcb ;;;
     set_tag handler_tcb MsgTag.irq_tag ;;;
     let* me := get_global_id current in
     set_partner handler_tcb me ;;;
     let* h := get_irq_handler current in
     set_partner current h ;;;
     set_state current ThreadState.waiting_forever ;;;
     switch_to current handler_tcb
   else ret tt) ;;;
  set_state current ThreadState.halted ;;;
  let* pending := irq_unmask irq in
  when pending (handle_interrupt irq) ;;;
  switch_to_idle current.

(** ** Control *)

Definition thread_control_interrupt (irq_tid handler_tid : Z) : K bool :=
  let irq_tcb := get_tcb irq_tid in
  let irq := get_irqno irq_tid in
  let* kip := get_kip in
  if negb (is_interrupt kip irq_tid) || negb (is_irq_available irq) then ret false else
  allocate irq_tcb ;;;
  let* act := is_activated irq_tcb in
  let* unchanged := (if act then
      let* h := get_irq_handler irq_tcb in
      if h =? handler_tid then ret true else
      let* st := get_state irq_tcb in
      (if ThreadState.is_polling st then
         let* handler_tcb := get_partner_tcb irq_tcb in
         dequeue_send irq_tcb handler_tcb
       else ret tt) ;;;
      ret false
    else
      create_kernel_thread irq_tcb irq_tid irq_utcb ;;;
      set_priority irq_tcb Config.MAX_PRIO ;;;
      notify irq_tcb irq_thread_fn [] ;;;
      ret false) in
  if unchanged then ret true else
  set_irq_handler irq_tcb handler_tid ;;;
  (if irq_tid =? handler_tid then
     irq_disable irq ;;;
     set_state irq_tcb ThreadState.aborted
   else
     set_state irq_tcb ThreadState.halted ;;;
     irq_enable irq ;;; ret tt) ;;;
  ret true.

(** [init_interrupt_threads] *)
Definition init_interrupt_threads : K unit :=
  modify (fun s => ks_with_kip
    (kip_set_thread_info
       (ThreadInfo.set_system_base get_number_irqs (kip_thread_info (ks_kip s))) (ks_kip s)) s).

End Operations.
