(* ===== verification/Timer.v ===== *)
(** * Interrupt vectors and the periodic timer

    [glue/v4-mips64/intctrl.cc] with the tables of interrupt and exception
    handlers, and [glue/v4-mips64/timer.cc]: the timer that interrupts when the
    register Count reaches Compare.  The registers have 32 bits; Count goes on
    by itself, so [cpu_count] is its value at the time of the interrupt. *)

From Stdlib Require Import ZArith Lia Bool List.
From stdpp Require Import base numbers list option gmap.
From S2P Require Import Prelude Types Time Kip ThreadId Fpage State Msg Ring Monad Pgent Cache Tcb Sched.
From S2P Require Import Vspace Unwind Resources Thread Interrupt.
From S2P Require Schedule.
Open Scope Z_scope.

(** neither CONFIG_PLAT_SB1 *)
Definition CONFIG_CPU_CLOCK_SPEED : Z := 100000.
Definition TIMER_PERIOD : Z := CONFIG_CPU_CLOCK_SPEED.

(** [(0xff<<8)] and [(1<<22)] *)
Definition ST_IM : Z := Z.shiftl 0xff 8.
Definition ST_BEV : Z := Z.shiftl 1 22.

Section Operations.
Context {V : Type} `{!VirtualMemory V}.
Abbreviation S := (kstate V).
Abbreviation K := (M (kstate V)).

Definition modify_cpu (f : cpu_t -> cpu_t) : K unit := modify (fun s => ks_with_cpu (f (ks_cpu s)) s).

(** ** The tables of handlers *)

Definition register_exception_handler (vector : Z) (handler : exception_vector) : K unit :=
  modify_cpu (fun c => cpu_with_exception_handlers (<[Z.to_nat vector := handler]> (cpu_exception_handlers c)) c).
Definition register_interrupt_handler (vector : Z) (handler : interrupt_vector) : K unit :=
  modify_cpu (fun c => cpu_with_interrupt_handlers (<[Z.to_nat vector := handler]> (cpu_interrupt_handlers c)) c).

(** the cache instructions are issued *)
Definition cache_do (r : result (list cache_op)) : K unit :=
  match r with
  | Ok l => modify_cpu (fun c => cpu_with_cache_ops (cpu_cache_ops c ++ l) c)
  | Hang => hang
  | Crash => crash
  end.

Definition setup_exception_vectors : K unit :=
  register_exception_handler 0 ev_interrupt ;;;
  register_exception_handler 1 ev_tlb_mod ;;;
  register_exception_handler 2 ev_stlb_miss ;;;
  register_exception_handler 3 ev_stlb_miss ;;;
  register_exception_handler 8 ev_l4syscall ;;;
  register_interrupt_handler 2 iv_handle_irq ;;;
  register_interrupt_handler 3 iv_handle_irq ;;;
  register_interrupt_handler 4 iv_handle_irq ;;;
  register_interrupt_handler 5 iv_handle_irq ;;;
  register_interrupt_handler 6 iv_handle_irq ;;;
  cache_do flush_cache_all.

(** [intctrl_t::init_arch]; the code of the exception vectors, which it copies to
    the start of kseg0, is assembly, and the body of [cli] is commented out *)
Definition intctrl_init_arch : K unit :=
  cache_do flush_cache_all ;;;
  modify_cpu (cpu_with_exception_handlers (replicate 32 ev_exception)) ;;;
  modify_cpu (cpu_with_interrupt_handlers (replicate 8 iv_spurious)) ;;;
  setup_exception_vectors.

Definition intctrl_init_cpu : K unit :=
  clear_cp0_status ST_IM ;;;
  tcb_set get_idle_tcb (tcb_with_int_mask 0) ;;;
  clear_cp0_status ST_BEV.

Definition spurious_interrupt (irq : Z) : K unit := hang.

(** ** The timer *)

(** how far Count is past [compare]: an [s64_t] from two [u32_t] *)
Definition timer_difference (counter compare : Z) : Z :=
  if counter <? compare then swrap 64 (counter + 2 ^ 32 - compare) else counter - compare.

(** [while (difference > 0)]; no sum leaves the range of an [s64_t] *)
Fixpoint catch_up (n : nat) (compare difference : Z) : K Z :=
  if difference >? 0 then
    match n with
    | O => hang
    | Datatypes.S n => catch_up n (compare + TIMER_PERIOD) (difference - TIMER_PERIOD)
    end
  else ret compare.

(** [n] bounds the rounds of the loop, [fuel] is the scheduler's *)
Definition handle_timer_interrupt (n fuel : nat) : K unit :=
  let* compare := gets (fun s => w32 (cpu_timer_compare (ks_cpu s))) in
  let* counter := gets (fun s => w32 (cpu_count (ks_cpu s))) in
  let* compare := catch_up n compare (timer_difference counter compare) in
  modify_cpu (cpu_with_compare (w32 compare)) ;;;
  modify_cpu (cpu_with_timer_compare (w32 compare)) ;;;
  Schedule.handle_timer_interrupt fuel.

Definition timer_init_global : K unit := register_interrupt_handler 7 iv_timer.
Definition timer_init_cpu : K unit :=
  modify_cpu (cpu_with_count 0) ;;;
  modify_cpu (cpu_with_compare TIMER_PERIOD) ;;;
  modify_cpu (cpu_with_timer_compare TIMER_PERIOD) ;;;
  irq_unmask 7 ;;; ret tt.

(** what the entry in the exception vector calls for interrupt [irq] *)
Definition call_interrupt_handler (n fuel : nat) (irq : Z) : K unit :=
  let* table := gets (fun s => cpu_interrupt_handlers (ks_cpu s)) in
  match nth (Z.to_nat irq) table iv_none with
  | iv_none => crash
  | iv_spurious => spurious_interrupt irq
  | iv_handle_irq => intctrl_t_handle_irq irq
  | iv_timer => handle_timer_interrupt n fuel
  end.
End Operations.

(** ** The next interrupt *)

Section Theory.
Context {V : Type} `{!VirtualMemory V}.
Implicit Types s : kstate V.

(** the number of periods from [compare] that reach [late] counts further *)
Definition periods (late : Z) : Z := (late + TIMER_PERIOD - 1) / TIMER_PERIOD.

Lemma catch_up_run n compare d s : 0 <= d <= TIMER_PERIOD * Z.of_nat n ->
  catch_up n compare d s = Ok (compare + TIMER_PERIOD * periods d, s).
Proof.
  revert compare d. induction n as [|n IH]; intros compare d Hd; cbn [catch_up].
  - change (Z.of_nat 0) with 0 in Hd. assert (d = 0) as -> by lia. cbn. unfold ret. do 2 f_equal. unfold periods, TIMER_PERIOD, CONFIG_CPU_CLOCK_SPEED. zlia.
  - destruct (Z.gtb_spec d 0) as [Hlt|Hge].
    + destruct (Z.leb_spec d TIMER_PERIOD) as [Hle|Hgt].
      * assert (periods d = 1) as -> by (unfold periods, TIMER_PERIOD, CONFIG_CPU_CLOCK_SPEED in *; zlia).
        destruct n; cbn [catch_up]; replace (d - TIMER_PERIOD >? 0) with false by lia; unfold ret; do 2 f_equal; lia.
      * rewrite IH by (unfold TIMER_PERIOD, CONFIG_CPU_CLOCK_SPEED in *; lia). do 2 f_equal.
        unfold periods, TIMER_PERIOD, CONFIG_CPU_CLOCK_SPEED in *. zlia.
    + assert (d = 0) as -> by lia. unfold ret. do 2 f_equal. unfold periods, TIMER_PERIOD, CONFIG_CPU_CLOCK_SPEED. zlia.
Qed.

Lemma timer_difference_mod counter compare : 0 <= counter < 2 ^ 32 -> 0 <= compare < 2 ^ 32 ->
  timer_difference counter compare = w32 (counter - compare).
Proof.
  intros Hc Hp. unfold timer_difference, swrap. destruct (Z.ltb_spec counter compare).
  - rewrite wrap_small by zlia. replace (counter + 2 ^ 32 - compare <? 2 ^ (64 - 1)) with true by (symmetry; zlia).
    unfold wrap. zlia.
  - rewrite wrap_small by lia. reflexivity.
Qed.

(** C21 The timer catches up.  However late an interrupt is handled, the loop ends,
    Compare and its copy get the next value one or more whole periods after the last
    that is not before Count, and the scheduler accounts for one tick, however many
    periods have passed.  Unless Count has just reached the end of a period, the
    new value lies ahead of Count by less than a period, so the timer interrupts
    again within one.  If it has, Compare gets the value of Count itself, which the
    processor reaches again after 2^32 counts only: the timer then does not
    interrupt within a period. *)
Theorem timer_catches_up n fuel s :
  let counter := cpu_count (ks_cpu s) in
  let compare := cpu_timer_compare (ks_cpu s) in
  let late := w32 (counter - compare) in
  let next := w32 (compare + TIMER_PERIOD * periods late) in
  0 <= counter < 2 ^ 32 -> 0 <= compare < 2 ^ 32 -> 2 ^ 32 <= TIMER_PERIOD * Z.of_nat n ->
  handle_timer_interrupt n fuel s =
    Schedule.handle_timer_interrupt fuel
      (ks_with_cpu (cpu_with_timer_compare next (cpu_with_compare next (ks_cpu s))) s) /\
  (if late mod TIMER_PERIOD =? 0 then next = counter else 0 < w32 (next - counter) < TIMER_PERIOD).
Proof.
  intros counter compare late next Hc Hp Hn.
  assert (0 <= late < 2 ^ 32) as Hl by (apply wrap_bounds; lia).
  split.
  - unfold handle_timer_interrupt. rewrite !bind_gets.
    fold counter compare. rewrite !wrap_small, timer_difference_mod by done. fold late.
    rewrite (bind_ok _ _ _ _ _ (catch_up_run n compare late s ltac:(lia))). fold next.
    unfold modify_cpu. rewrite !bind_modify. reflexivity.
  - unfold next, late, periods, TIMER_PERIOD, CONFIG_CPU_CLOCK_SPEED, wrap in *. clearbody counter compare.
    match goal with |- context [?x =? 0] => destruct (Z.eqb_spec x 0) end; zlia.
Qed.

(** a conjunction of masks of the status word *)
Lemma status_masked st : Z.land (Z.lor (Z.land (Z.land st (w32 (Z.lnot ST_IM))) (w32 (Z.lnot ST_BEV))) (status_bit 7)) ST_IM
  = status_bit 7.
Proof.
  rewrite Z.land_lor_distr_l, <- !Z.land_assoc.
  replace (Z.land (w32 (Z.lnot ST_IM)) (Z.land (w32 (Z.lnot ST_BEV)) ST_IM)) with 0 by reflexivity.
  now rewrite Z.land_0_r.
Qed.

(** the tables after [intctrl_init_arch] *)
Definition vectors_set (l : list cache_op) (c : cpu_t) : cpu_t :=
  cpu_with_cache_ops (cpu_cache_ops c ++ l)
    (cpu_with_exception_handlers ([ev_interrupt; ev_tlb_mod; ev_stlb_miss; ev_stlb_miss] ++ replicate 4 ev_exception ++
                                    [ev_l4syscall] ++ replicate 23 ev_exception)
       (cpu_with_interrupt_handlers ([iv_spurious; iv_spurious] ++ replicate 5 iv_handle_irq ++ [iv_spurious]) c)).

Lemma intctrl_init_arch_run s : exists l,
  intctrl_init_arch s = Ok (tt, ks_with_cpu (vectors_set l (ks_cpu s)) s).
Proof.
  destruct flush_cache_all_covers as (d & i & E & _). set (l := d ++ i) in *. clearbody l.
  exists (l ++ l). unfold intctrl_init_arch, setup_exception_vectors, cache_do. rewrite E.
  destruct s as [? ? ? ? ? ? ? ? ? ? ? ? ? ? ? []].
  unfold vectors_set. rewrite app_assoc. reflexivity.
Qed.

(** what the rest of the initialisation leaves *)
Definition timer_set (c : cpu_t) : cpu_t :=
  cpu_with_count 0 (cpu_with_compare TIMER_PERIOD (cpu_with_timer_compare TIMER_PERIOD
    (cpu_with_interrupt_handlers (<[7%nat := iv_timer]> (cpu_interrupt_handlers c)) c))).

Lemma timer_init_run s :
  (intctrl_init_cpu ;;; timer_init_global ;;; timer_init_cpu) s =
    Ok (tt, ks_with_cp0_status
              (Z.lor (Z.land (Z.land (ks_cp0_status s) (w32 (Z.lnot ST_IM))) (w32 (Z.lnot ST_BEV))) (status_bit 7))
              (ks_with_cpu (timer_set (ks_cpu s))
                 (upd_tcb get_idle_tcb (fun t => tcb_with_int_mask (Z.lor (tcb_int_mask t) (irq_bit 7)) t)
                    (upd_tcb get_idle_tcb (tcb_with_int_mask 0) s)))).
Proof. destruct s as [? ? ? ? ? ? ? ? ? ? ? ? ? ? ? []]. reflexivity. Qed.

(** C28 Every interrupt has its handler.  After the initialisation of interrupt
    controller and timer, whatever the state before: the timer is the only interrupt that is not masked
    and is due after one period; it calls the handler of the timer, the interrupts 2 to 6 that
    [is_irq_available] lets threads attach to call the delivery by IPC, and the
    software interrupts 0 and 1 stop the kernel; system calls, interrupts and the exceptions of
    the translation buffer have their own entries, all other exceptions the common one. *)
Theorem interrupts_are_routed s :
  exists s',
    (intctrl_init_arch ;;; intctrl_init_cpu ;;; timer_init_global ;;; timer_init_cpu) s = Ok (tt, s') /\
    Z.land (ks_cp0_status s') ST_IM = status_bit 7 /\
    tcb_int_mask (tcb_of s' get_idle_tcb) = irq_bit 7 /\
    cpu_count (ks_cpu s') = 0 /\ cpu_compare (ks_cpu s') = TIMER_PERIOD /\
    cpu_timer_compare (ks_cpu s') = TIMER_PERIOD /\
    (forall n fuel irq, 0 <= irq < 8 ->
       call_interrupt_handler n fuel irq s' =
         if irq =? 7 then handle_timer_interrupt n fuel s'
         else if is_irq_available irq then intctrl_t_handle_irq irq s' else Hang) /\
    (forall code, 0 <= code < 32 ->
       nth (Z.to_nat code) (cpu_exception_handlers (ks_cpu s')) ev_none =
         match code with
         | 0 => ev_interrupt | 1 => ev_tlb_mod | 2 => ev_stlb_miss | 3 => ev_stlb_miss | 8 => ev_l4syscall
         | _ => ev_exception
         end).
Proof.
  destruct (intctrl_init_arch_run s) as [l E]. set (c := vectors_set l (ks_cpu s)) in E.
  rewrite (bind_ok _ _ _ _ _ E), timer_init_run. set (s' := ks_with_cp0_status _ _).
  exists s'. split; [reflexivity|]. split; [apply status_masked|].
  assert (ks_cpu s' = timer_set c) as Hc by reflexivity.
  assert (cpu_interrupt_handlers (timer_set c) =
            [iv_spurious; iv_spurious] ++ replicate 5 iv_handle_irq ++ [iv_timer]) as Hi by reflexivity.
  assert (cpu_exception_handlers (timer_set c) = [ev_interrupt; ev_tlb_mod; ev_stlb_miss; ev_stlb_miss] ++
            replicate 4 ev_exception ++ [ev_l4syscall] ++ replicate 23 ev_exception) as He by reflexivity.
  split_and!.
  - subst s'. change (tcb_int_mask (tcb_of (upd_tcb get_idle_tcb
      (fun t => tcb_with_int_mask (Z.lor (tcb_int_mask t) (irq_bit 7)) t)
      (upd_tcb get_idle_tcb (tcb_with_int_mask 0) (ks_with_cpu c s))) get_idle_tcb) = irq_bit 7).
    rewrite !tcb_of_upd_tcb_eq. reflexivity.
  - now rewrite Hc.
  - now rewrite Hc.
  - now rewrite Hc.
  - intros n fuel irq Hr. unfold call_interrupt_handler. rewrite bind_gets, Hc, Hi.
    assert (irq = 0 \/ irq = 1 \/ irq = 2 \/ irq = 3 \/ irq = 4 \/ irq = 5 \/ irq = 6 \/ irq = 7) as H by lia.
    repeat destruct H as [->|H]; [reflexivity..|]. subst. reflexivity.
  - intros code Hr. rewrite Hc, He. assert (exists k, (k < 32)%nat /\ code = Z.of_nat k) as (k & Hk & ->)
      by (exists (Z.to_nat code); lia).
    rewrite Nat2Z.id. clear - Hk. do 32 (destruct k as [|k]; [reflexivity|]). lia.
Qed.
End Theory.

(** ** An example *)

Lemma timer_catches_up_witness :
  let s := ks_with_cpu (cpu_with_count 250000 (cpu_with_timer_compare 100000 zero_cpu)) (boot_state tt) in
  handle_timer_interrupt 42950 0 s =
    Schedule.handle_timer_interrupt 0
      (ks_with_cpu (cpu_with_timer_compare 300000 (cpu_with_compare 300000 (ks_cpu s))) s).
Proof.
  intros s.
  destruct (timer_catches_up 42950 0 s) as [E _];
    [split; [discriminate|reflexivity]|split; [discriminate|reflexivity]|vm_compute; discriminate|].
  exact E.
Defined.
