(* ===== verification/ThreadControl.v ===== *)
(** * The ThreadControl system call

    [sys_thread_control] of [api/v4/thread.cc] and the creation of the kernel
    threads and root servers at startup. *)

From Stdlib Require Import ZArith Lia Bool List.
From stdpp Require Import base numbers list option gmap.
From S2P Require Import Prelude Types Time Kip ThreadId Fpage State Msg Ring Monad Tcb Sched.
From S2P Require Import Vspace Unwind Ipcx Ipc Schedule Thread Interrupt.
Open Scope Z_scope.

Section Operations.
Context {V : Type} `{!VirtualMemory V}.
Abbreviation S := (kstate V).
Abbreviation K := (M (kstate V)).

(** [get_current_tcb ()->set_error_code (err); return_thread_control (0);] *)
Definition fail (err : Z) : K Z :=
  let* current := get_current_tcb in
  set_error_code current err ;;; ret 0.

(** [space_tid] is nil: deletion *)
Definition thread_control_delete (fuel : nat) (dest_tcb : Z) : K Z :=
  let* current := get_current_tcb in
  if dest_tcb =? current then fail EINVALID_THREAD else
  let* ex := exists_ dest_tcb in
  (if ex then
     let* sp := get_space dest_tcb in
     delete_tcb fuel dest_tcb ;;;
     let* last := remove_tcb sp dest_tcb in
     when last (space_free sp ;;; free_space sp)
   else ret tt) ;;;
  ret 1.

(** setting the pager: activates an inactive thread; [Some err] on failure *)
Definition modify_pager (dest_tcb pager_tid utcb_location : Z) : K (option Z) :=
  if is_nilthread pager_tid then ret None else
  let* act := is_activated dest_tcb in
  if act then set_pager dest_tcb pager_tid ;;; ret None else
  let* ok := check_utcb_location dest_tcb utcb_location in
  if negb ok then ret (Some EUTCB_AREA) else
  let* ok := activate dest_tcb thread_startup pager_tid in
  if negb ok then ret (Some ENO_MEM) else
  fake_wait_for_startup dest_tcb pager_tid ;;; ret None.

(** [utcb_location != ~0UL]: the new location; [Some err] on failure *)
Definition modify_location (dest_tcb utcb_location : Z) : K (option Z) :=
  if utcb_location =? w64 (-1) then ret None else
  let* act := is_activated dest_tcb in
  if act then ret (Some EUTCB_AREA) else
  let* ok := check_utcb_location dest_tcb utcb_location in
  if negb ok then ret (Some EUTCB_AREA) else
  set_utcb_location dest_tcb utcb_location ;;; ret None.

(** the space of [space_tid] if it differs; [Some err] on failure *)
Definition modify_space (dest_tcb space_tcb space_tid : Z) : K (option Z) :=
  let* sid := get_global_id space_tcb in
  if negb (sid =? space_tid) then ret (Some EINVALID_SPACE) else
  let* sp := get_space space_tcb in
  let* dsp := get_space dest_tcb in
  if negb (dsp =? sp) then
    let* ok := migrate_to_space dest_tcb sp in
    if negb ok then ret (Some ENO_MEM) else ret None
  else ret None.

Definition thread_control_modify
    (dest_tcb dest_tid space_tcb space_tid scheduler_tid pager_tid utcb_location : Z) : K Z :=
  let* e := modify_location dest_tcb utcb_location in
  match e with Some err => fail err | None =>
  let* e := modify_space dest_tcb space_tcb space_tid in
  match e with Some err => fail err | None =>
  let* e := modify_pager dest_tcb pager_tid utcb_location in
  match e with Some err => fail err | None =>
  when (negb (is_nilthread scheduler_tid)) (set_scheduler dest_tcb scheduler_tid) ;;;
  let* id := get_global_id dest_tcb in
  when (negb (id =? dest_tid)) (tcb_set_global_id dest_tcb dest_tid) ;;;
  ret 1
  end end end.

(** [~0U]: 32 bits, unlike the [~0UL] of the modification path *)
Definition NO_LOCATION_32 : Z := w32 (-1).

(** the checks of the creation path: [Some err] on failure *)
Definition create_checks (dest_tid space_tcb space_tid scheduler_tid pager_tid utcb_location : Z)
    : K (option Z) :=
  if is_nilthread scheduler_tid then ret (Some EINVALID_THREAD) else
  let* sid := get_global_id space_tcb in
  if negb (dest_tid =? space_tid) && negb (sid =? space_tid) then ret (Some EINVALID_SPACE) else
  if is_nilthread pager_tid then ret None else
  if dest_tid =? space_tid then ret (Some EINVALID_SPACE) else
  let* sp := get_space space_tcb in
  let* ini := is_initialized sp in
  if negb ini then ret (Some EINVALID_SPACE) else
  if utcb_location =? NO_LOCATION_32 then ret (Some EUTCB_AREA) else
  let* ok := check_utcb_location space_tcb utcb_location in
  ret (if ok then None else Some EUTCB_AREA).

Definition thread_control_create
    (dest_tcb dest_tid space_tcb space_tid scheduler_tid pager_tid utcb_location : Z) : K Z :=
  let* e := create_checks dest_tid space_tcb space_tid scheduler_tid pager_tid utcb_location in
  match e with Some err => fail err | None =>
  create_inactive dest_tcb dest_tid scheduler_tid ;;;
  when (negb (utcb_location =? NO_LOCATION_32)) (set_utcb_location dest_tcb utcb_location) ;;;
  let* sp := (if negb (dest_tid =? space_tid) then get_space space_tcb else allocate_space) in
  set_space dest_tcb sp ;;;
  add_tcb sp dest_tcb ;;;
  (if negb (is_nilthread pager_tid) then
     let* ok := activate dest_tcb thread_startup pager_tid in
     if negb ok then hang else fake_wait_for_startup dest_tcb pager_tid
   else ret tt) ;;;
  ret 1
  end.

Definition sys_thread_control (fuel : nat)
    (dest_tid space_tid scheduler_tid pager_tid utcb_location : Z) : K Z :=
  let* cspace := get_current_space in
  let* priv := gets (fun s => is_privileged_space s cspace) in
  if negb priv then fail ENO_PRIVILEGE else
  if negb (is_global dest_tid) then fail EINVALID_SPACE else
  let dest_tcb := get_tcb dest_tid in
  let* kip := get_kip in
  if get_threadno dest_tid <? ThreadInfo.get_system_base (kip_thread_info kip) then
    let* ok := thread_control_interrupt dest_tid pager_tid in
    if ok then ret 1 else fail EINVALID_THREAD
  else if get_threadno dest_tid <? ThreadInfo.get_user_base (kip_thread_info kip) then
    fail EINVALID_THREAD
  else if is_nilthread space_tid then
    thread_control_delete fuel dest_tcb
  else
    allocate dest_tcb ;;;
    let space_tcb := get_tcb space_tid in
    let* ex := exists_ dest_tcb in
    if ex then
      thread_control_modify dest_tcb dest_tid space_tcb space_tid scheduler_tid pager_tid
        utcb_location
    else
      thread_control_create dest_tcb dest_tid space_tcb space_tid scheduler_tid pager_tid
        utcb_location.

(** ** Startup *)

Definition init_kernel_threads : K unit :=
  modify (fun s => ks_with_kip
    (let ti := kip_thread_info (ks_kip s) in
     kip_set_thread_info
       (ThreadInfo.set_user_base (w64 (ThreadInfo.get_system_base ti + 32)) ti) (ks_kip s)) s) ;;;
  let* kip := get_kip in
  let ktid := set_global_id (ThreadInfo.get_system_base (kip_thread_info kip)) 1 0 in
  let tcb := get_tcb ktid in
  create_kernel_thread tcb ktid kernel_utcb ;;;
  set_state tcb ThreadState.aborted.

Definition create_root_server
    (dest_tid scheduler_tid pager_tid utcb_area kip_area utcb_location : Z) : K Z :=
  get_current_space ;;;
  let tcb := get_tcb dest_tid in
  let* sp := allocate_space in
  create_inactive tcb dest_tid scheduler_tid ;;;
  space_init sp utcb_area kip_area ;;;
  set_space tcb sp ;;;
  add_tcb sp tcb ;;;
  set_utcb_location tcb utcb_location ;;;
  let* ok := activate tcb thread_return pager_tid in
  if negb ok then hang else
  set_state tcb ThreadState.running ;;;
  set_priority tcb Config.ROOT_PRIORITY ;;;
  enqueue_ready tcb false ;;;
  ret tcb.

End Operations.

(** ** Refusals *)

Section Refusals.
Context {V : Type} `{!VirtualMemory V}.
Implicit Types s : kstate V.

(** the caller is told [err], nothing else happens *)
Definition refused s (err : Z) : kstate V :=
  upd_utcb (tcb_utcb (tcb_of s (ks_current_tcb s))) (utcb_with_error_code err) s.

(** the running thread can be told an error *)
Definition caller_ok s : Prop :=
  ks_current_tcb s <> NULL /\ tcb_utcb (tcb_of s (ks_current_tcb s)) <> NULL.

Lemma fail_run err s : caller_ok s -> fail err s = Ok (0, refused s err).
Proof. intros [Hc Hu]. unfold fail. autounfold with kacc. rewrite bind_gets, bind_utcb_set by done. done. Qed.

Definition caller_privileged s : bool :=
  is_privileged_space s (tcb_space (tcb_of s (ks_current_tcb s))).
Definition system_base s : Z := ThreadInfo.get_system_base (kip_thread_info (ks_kip s)).
Definition user_base s : Z := ThreadInfo.get_user_base (kip_thread_info (ks_kip s)).

(** what the system call does once the caller is known to be privileged and the
    destination to be a user thread's global id *)
Definition thread_control_user (fuel : nat)
    (dest_tid space_tid scheduler_tid pager_tid utcb_location : Z) : M (kstate V) Z :=
  let dest_tcb := get_tcb dest_tid in
  if is_nilthread space_tid then thread_control_delete fuel dest_tcb
  else
    allocate dest_tcb ;;;
    let space_tcb := get_tcb space_tid in
    let* ex := exists_ dest_tcb in
    if ex then
      thread_control_modify dest_tcb dest_tid space_tcb space_tid scheduler_tid pager_tid utcb_location
    else
      thread_control_create dest_tcb dest_tid space_tcb space_tid scheduler_tid pager_tid utcb_location.

Lemma sys_thread_control_user fuel dest sp sched pager loc s :
  caller_ok s -> caller_privileged s = true -> is_global dest = true ->
  system_base s <= get_threadno dest -> user_base s <= get_threadno dest ->
  sys_thread_control fuel dest sp sched pager loc s = thread_control_user fuel dest sp sched pager loc s.
Proof.
  intros [Hc Hu] Hp Hg Hs Hb. unfold sys_thread_control, get_current_space. autounfold with kacc.
  rewrite bind_assoc, bind_gets, bind_tcb_get, bind_gets by done. fold (caller_privileged s).
  rewrite Hp, Hg. cbn [negb]. unfold get_kip. rewrite bind_gets. fold (system_base s) (user_base s).
  destruct (Z.ltb_spec (get_threadno dest) (system_base s)); [lia|].
  destruct (Z.ltb_spec (get_threadno dest) (user_base s)); [lia|]. done.
Qed.

(** C29 ThreadControl is refused, with the error code as the only effect, to a
    caller without privilege, for a destination that is no global id, for the
    kernel's own thread numbers, and to a thread that wants to delete itself. *)
Theorem sys_thread_control_refuses fuel dest sp sched pager loc s :
  caller_ok s ->
  let call := sys_thread_control fuel dest sp sched pager loc s in
  (caller_privileged s = false -> call = Ok (0, refused s ENO_PRIVILEGE)) /\
  (caller_privileged s = true -> is_global dest = false -> call = Ok (0, refused s EINVALID_SPACE)) /\
  (caller_privileged s = true -> is_global dest = true ->
     system_base s <= get_threadno dest < user_base s -> call = Ok (0, refused s EINVALID_THREAD)) /\
  (caller_privileged s = true -> is_global dest = true -> is_nilthread sp = true ->
     system_base s <= get_threadno dest -> user_base s <= get_threadno dest ->
     get_tcb dest = ks_current_tcb s -> call = Ok (0, refused s EINVALID_THREAD)).
Proof.
  intros Hok call. pose proof Hok as [Hc Hu].
  assert (Hcall : call = (if negb (caller_privileged s) then fail ENO_PRIVILEGE s else
     if negb (is_global dest) then fail EINVALID_SPACE s else
     if get_threadno dest <? system_base s then
       (let* ok := thread_control_interrupt dest pager in if ok then ret 1 else fail EINVALID_THREAD) s
     else if get_threadno dest <? user_base s then fail EINVALID_THREAD s
     else thread_control_user fuel dest sp sched pager loc s)).
  { unfold call, sys_thread_control, get_current_space. autounfold with kacc.
    rewrite bind_assoc, bind_gets, bind_tcb_get, bind_gets by done. fold (caller_privileged s).
    destruct (caller_privileged s); [|done]. destruct (is_global dest); [|done]. cbn [negb].
    unfold get_kip. rewrite bind_gets. fold (system_base s) (user_base s).
    destruct (_ <? system_base s); [done|]. destruct (_ <? user_base s); done. }
  rewrite Hcall. split_and!.
  - intros ->. now apply fail_run.
  - intros -> ->. now apply fail_run.
  - intros -> -> Hr. cbn [negb]. destruct (Z.ltb_spec (get_threadno dest) (system_base s)); [lia|].
    destruct (Z.ltb_spec (get_threadno dest) (user_base s)); [|lia]. now apply fail_run.
  - intros -> -> Hn Hr1 Hr2 Hself. cbn [negb].
    destruct (Z.ltb_spec (get_threadno dest) (system_base s)); [lia|].
    destruct (Z.ltb_spec (get_threadno dest) (user_base s)); [lia|].
    unfold thread_control_user. rewrite Hn. unfold thread_control_delete. autounfold with kacc.
    rewrite bind_gets, Hself, Z.eqb_refl. now apply fail_run.
Qed.


(** ** Creation *)

(** why a creation is refused *)
Definition create_error s (dest space_tid sched pager loc : Z) : option Z :=
  let space_tcb := tcb_of s (get_tcb space_tid) in
  if is_nilthread sched then Some EINVALID_THREAD
  else if negb (dest =? space_tid) && negb (tcb_myself_global space_tcb =? space_tid) then Some EINVALID_SPACE
  else if is_nilthread pager then None
  else if dest =? space_tid then Some EINVALID_SPACE
  else
    let sp := space_of s (tcb_space space_tcb) in
    if is_nil_fpage (sp_kip_area sp) then Some EINVALID_SPACE
    else if loc =? NO_LOCATION_32 then Some EUTCB_AREA
    else if is_range_in_fpage (sp_utcb_area sp) loc (w64 (loc + Layout.UTCB_SIZE)) then None
    else Some EUTCB_AREA.

Lemma create_checks_run dest space_tid sched pager loc s :
  (is_nilthread pager = false -> dest <> space_tid -> tcb_space (tcb_of s (get_tcb space_tid)) <> NULL) ->
  create_checks dest (get_tcb space_tid) space_tid sched pager loc s =
    Ok (create_error s dest space_tid sched pager loc, s).
Proof.
  intros Hsp. pose proof (get_tcb_nonnull space_tid) as Ht. unfold create_checks, create_error.
  destruct (is_nilthread sched); [done|]. krun.
  destruct (negb (dest =? space_tid) && _); [done|].
  destruct (is_nilthread pager); [done|]. specialize (Hsp eq_refl).
  destruct (Z.eqb_spec dest space_tid) as [|Hd]; [done|]. specialize (Hsp Hd). krun. rewrite negb_involutive.
  destruct (is_nil_fpage _); [done|]. destruct (loc =? NO_LOCATION_32); [done|].
  unfold check_utcb_location. krun. now destruct (is_range_in_fpage _ _ _).
Qed.

(** a thread created without a pager *)
Definition inactive_tcb (dest sched loc sp : Z) (t : tcb) : tcb :=
  tcb_with_space sp
    (tcb_with_myself_local (if loc =? NO_LOCATION_32 then nilthread else loc)
      (tcb_with_scheduler sched (fresh_tcb dest t))).

(** the state with the new thread [dest] in the space [sp], whose object becomes
    [f] of what it was; the floating-point unit has no owner any more *)
Definition created (dest sched loc sp : Z) (f : space -> space) s : kstate V :=
  upd_tcb (get_tcb dest) (inactive_tcb dest sched loc sp) (upd_space sp f (ks_with_fp_lazy_tcb NULL s)).

Definition one_thread_more (x : space) : space := sp_with_thread_count (w64 (sp_thread_count x + 1)) x.
(** a space fresh from the allocator that counts one thread *)
Definition space_of_one : space := sp_with_thread_count 1 zero_space.

(** the first steps of a creation without a pager: the block is initialised and
    has its location, the space is still to be found *)
Lemma create_first_steps dest space_tid sched loc s (k : M (kstate V) Z) :
  let p := get_tcb dest in
  create_error s dest space_tid sched nilthread loc = None ->
  exists s1, s1 ≡ upd_tcb p (fun t => tcb_with_myself_local
      (if loc =? NO_LOCATION_32 then nilthread else loc) (tcb_with_scheduler sched (fresh_tcb dest t)))
      (ks_with_fp_lazy_tcb NULL s) /\
    thread_control_create p dest (get_tcb space_tid) space_tid sched nilthread loc s =
      (let* sp := (if negb (dest =? space_tid) then get_space (get_tcb space_tid) else allocate_space) in
       set_space p sp ;;; add_tcb sp p ;;; ret 1) s1.
Proof.
  intros p He. assert (Hp : p <> NULL) by apply get_tcb_nonnull. unfold thread_control_create.
  assert (E0 : create_checks dest (get_tcb space_tid) space_tid sched nilthread loc s = Ok (None, s)).
  { rewrite <- He. now apply create_checks_run. }
  rewrite (bind_ok _ _ _ _ _ E0).
  destruct (create_inactive_run p dest sched s Hp) as (s1 & E1 & Heq).
  rewrite (bind_ok _ _ _ _ _ E1). change (negb (is_nilthread nilthread)) with false. cbn iota.
  destruct (loc =? NO_LOCATION_32) eqn:El; cbn [negb].
  - exists s1. split; [rewrite Heq; kequiv|]. now rewrite bind_when_false.
  - unfold set_utcb_location. rewrite bind_when_true, bind_tcb_set by done.
    eexists. split; [|reflexivity]. rewrite Heq. kequiv.
Qed.

Lemma create_in_space dest space_tid sched loc s :
  let sp := tcb_space (tcb_of s (get_tcb space_tid)) in
  create_error s dest space_tid sched nilthread loc = None -> dest <> space_tid ->
  get_tcb space_tid <> get_tcb dest -> sp <> NULL ->
  exists s', thread_control_create (get_tcb dest) dest (get_tcb space_tid) space_tid sched nilthread loc s =
      Ok (1, s') /\ s' ≡ created dest sched loc sp one_thread_more s.
Proof.
  intros sp He Hne Hnp Hsp. pose proof (get_tcb_nonnull dest) as Hp. pose proof (get_tcb_nonnull space_tid) as Ht.
  destruct (create_first_steps dest space_tid sched loc s (ret 1) He) as (s1 & Heq & ->).
  assert (Hs1 : tcb_space (tcb_of s1 (get_tcb space_tid)) = sp).
  { destruct Heq as [-> _ _ _]. now rewrite tcb_of_upd_tcb_ne by congruence. }
  rewrite (proj2 (Z.eqb_neq _ _) Hne). cbn [negb]. unfold get_space, set_space, add_tcb.
  rewrite bind_tcb_get, Hs1, bind_tcb_set, bind_space_set by done.
  eexists. split; [reflexivity|]. rewrite Heq. unfold created, inactive_tcb, one_thread_more.
  split; intros; kobserve; same_object || reflexivity.
Qed.

Lemma allocate_space_run s spn v : vm_allocate_space (ks_vm s) = Ok (spn, v) ->
  allocate_space s =
    Ok (spn, upd_space spn (fun _ => zero_space) (ks_with_vm v s)).
Proof. intros E. unfold allocate_space, bind, lift. now rewrite E. Qed.

Lemma with_vm_equiv s s' v : s ≡ s' -> ks_with_vm v s ≡ ks_with_vm v s'.
Proof. intros [H1 H2 H3 H4]. split; [exact H1|exact H2|exact H3|exact (f_equal (ks_with_vm v) H4)]. Qed.

Lemma upd_tcb_with_vm p f v s : upd_tcb p f (ks_with_vm v s) = ks_with_vm v (upd_tcb p f s).
Proof. done. Qed.

(** the first thread of a new space *)
Lemma create_with_space dest sched loc spn v s :
  create_error s dest dest sched nilthread loc = None ->
  vm_allocate_space (ks_vm s) = Ok (spn, v) -> spn <> NULL ->
  exists s', thread_control_create (get_tcb dest) dest (get_tcb dest) dest sched nilthread loc s = Ok (1, s') /\
    s' ≡ created dest sched loc spn (fun _ => space_of_one) (ks_with_vm v s).
Proof.
  intros He Hv Hsp. pose proof (get_tcb_nonnull dest) as Hp.
  destruct (create_first_steps dest dest sched loc s (ret 1) He) as (s1 & Heq & ->).
  assert (Hv1 : vm_allocate_space (ks_vm s1) = Ok (spn, v)).
  { destruct Heq as [_ _ _ H4]. replace (ks_vm s1) with (ks_vm s); [done|].
    symmetry. exact (f_equal ks_vm H4). }
  rewrite Z.eqb_refl. cbn [negb]. unfold set_space, add_tcb.
  rewrite (bind_ok _ _ _ _ _ (allocate_space_run s1 spn v Hv1)), bind_tcb_set, bind_space_set by done.
  eexists. split; [reflexivity|]. rewrite (with_vm_equiv _ _ v Heq). unfold created, inactive_tcb.
  rewrite <- upd_tcb_with_vm.
  split; intros; kobserve; try (case_decide; subst); same_object || reflexivity.
Qed.

Lemma create_error_equiv s s' dest space_tid sched pager loc :
  s ≡ s' -> create_error s dest space_tid sched pager loc = create_error s' dest space_tid sched pager loc.
Proof. intros [H1 _ H3 _]. unfold create_error. now rewrite H1, H3. Qed.

Lemma refused_equiv s s' err : s ≡ s' -> refused s err ≡ refused s' err.
Proof.
  intros Heq. pose proof Heq as [H1 _ _ H4]. unfold refused. rewrite H1.
  assert (ks_current_tcb s = ks_current_tcb s') as -> by exact (f_equal ks_current_tcb H4).
  now rewrite Heq.
Qed.

Lemma caller_ok_equiv s s' : s ≡ s' -> caller_ok s -> caller_ok s'.
Proof.
  intros [H1 _ _ H4] [Hc Hu].
  assert (ks_current_tcb s = ks_current_tcb s') as E by exact (f_equal ks_current_tcb H4).
  split; [congruence|]. now rewrite <- E, <- H1.
Qed.

(** the system call gets to the creation, in a state that reads as before *)
Lemma sys_thread_control_creation fuel dest space_tid sched pager loc s :
  caller_ok s -> caller_privileged s = true -> is_global dest = true ->
  system_base s <= get_threadno dest -> user_base s <= get_threadno dest ->
  is_nilthread space_tid = false -> tcb_space (tcb_of s (get_tcb dest)) = NULL ->
  exists s0, s0 ≡ s /\ sys_thread_control fuel dest space_tid sched pager loc s =
    thread_control_create (get_tcb dest) dest (get_tcb space_tid) space_tid sched pager loc s0.
Proof.
  intros Hok Hpr Hg Hs Hb Hn Hno. pose proof (get_tcb_nonnull dest) as Hp. set (p := get_tcb dest) in *.
  rewrite sys_thread_control_user by done. unfold thread_control_user. rewrite Hn. fold p.
  unfold allocate. rewrite bind_tcb_set by done. exists (upd_tcb p (fun t => t) s).
  pose proof (upd_tcb_same p (fun t => t) s) as Heq. split; [now apply Heq|].
  unfold exists_. rewrite bind_tcb_get by done. rewrite tcb_of_upd_tcb_eq, Hno. done.
Qed.

(** what a successful creation without a pager leaves: the new thread in the space
    of [space_tid], or in a new one if [space_tid] names the thread itself *)
Definition creation_result s (dest space_tid sched loc : Z) s' : Prop :=
  if decide (dest = space_tid) then
    exists spn v, vm_allocate_space (ks_vm s) = Ok (spn, v) /\
      s' ≡ created dest sched loc spn (fun _ => space_of_one) (ks_with_vm v s)
  else s' ≡ created dest sched loc (tcb_space (tcb_of s (get_tcb space_tid))) one_thread_more s.

Lemma created_equiv dest sched loc sp f s s' : s ≡ s' -> created dest sched loc sp f s ≡ created dest sched loc sp f s'.
Proof.
  intros [H1 H2 H3 H4].
  assert (ks_with_fp_lazy_tcb NULL s ≡ ks_with_fp_lazy_tcb NULL s') as Heq.
  { split; [exact H1|exact H2|exact H3|exact (f_equal (ks_with_fp_lazy_tcb NULL) H4)]. }
  unfold created. now rewrite Heq.
Qed.

Lemma sys_thread_control_creates fuel dest space_tid sched loc s :
  caller_ok s -> caller_privileged s = true -> is_global dest = true ->
  system_base s <= get_threadno dest -> user_base s <= get_threadno dest ->
  is_nilthread space_tid = false -> tcb_space (tcb_of s (get_tcb dest)) = NULL ->
  (dest <> space_tid -> tcb_space (tcb_of s (get_tcb space_tid)) <> NULL) ->
  (dest = space_tid -> exists spn v, vm_allocate_space (ks_vm s) = Ok (spn, v) /\ spn <> NULL) ->
  create_error s dest space_tid sched nilthread loc = None ->
  exists s', sys_thread_control fuel dest space_tid sched nilthread loc s = Ok (1, s') /\
    creation_result s dest space_tid sched loc s'.
Proof.
  intros Hok Hpr Hg Hs Hb Hn Hno Hsp Hal Hc.
  destruct (sys_thread_control_creation fuel dest space_tid sched nilthread loc s) as (s0 & Heq & ->); try done.
  pose proof Heq as [H1 _ _ H4].
  assert (Hc0 : create_error s0 dest space_tid sched nilthread loc = None)
    by now rewrite (create_error_equiv s0 s).
  unfold creation_result. case_decide as Hd.
  - subst space_tid. destruct (Hal eq_refl) as (spn & v & Hv & Hspn).
    assert (Hv0 : vm_allocate_space (ks_vm s0) = Ok (spn, v)).
    { replace (ks_vm s0) with (ks_vm s); [done|]. symmetry. exact (f_equal ks_vm H4). }
    destruct (create_with_space dest sched loc spn v s0 Hc0 Hv0 Hspn) as (s' & E & Hs').
    exists s'. split; [exact E|]. exists spn, v. split; [done|]. rewrite Hs'. apply created_equiv.
    now apply with_vm_equiv.
  - specialize (Hsp Hd).
    assert (Hnp : get_tcb space_tid <> get_tcb dest) by (intros E; now rewrite E in Hsp).
    destruct (create_in_space dest space_tid sched loc s0 Hc0 Hd Hnp) as (s' & E & Hs'); [now rewrite H1|].
    exists s'. split; [exact E|]. rewrite Hs', H1. now apply created_equiv.
Qed.


End Refusals.

(** the root task (number 2) is about to create a thread in its own space *)
Definition creating_state : kstate unit :=
  ks_with_roottask_space 4096 (ks_with_current_tcb (get_tcb (set_global_id 50 1 0))
    (ks_with_kip (kip_set_thread_info (ThreadInfo.set_user_base 40 (ThreadInfo.set_system_base 8 0)) zero_kip)
      (upd_tcb (get_tcb (set_global_id 50 1 0))
        (fun t => tcb_with_myself_global (set_global_id 50 1 0) (tcb_with_utcb 100 (tcb_with_space 4096 t)))
        (boot_state tt)))).
Definition root_id : Z := set_global_id 50 1 0.
Definition new_id : Z := set_global_id 60 1 0.

Lemma sys_thread_control_refuses_witness :
  sys_thread_control 1 (set_global_id 20 1 0) root_id root_id root_id 0 creating_state =
    Ok (0, refused creating_state EINVALID_THREAD).
Proof.
  destruct (sys_thread_control_refuses 1 (set_global_id 20 1 0) root_id root_id root_id 0 creating_state
    ltac:(split; vm_compute; done)) as (_ & _ & H & _).
  apply H; [vm_compute; reflexivity|vm_compute; reflexivity|split; vm_compute; done].
Defined.

