(* ===== verification/SpaceControl.v ===== *)
(** * Page faults and the SpaceControl system call

    [api/backup/space.cc]: the page fault handler with its transfer timeouts
    and tunneled faults, [sys_space_control] and [sys_unmap]. *)

From Stdlib Require Import ZArith Lia Bool List.
From stdpp Require Import base numbers list option gmap.
From S2P Require Import Prelude Types Time Kip ThreadId Fpage State Msg Ring Monad Tcb Sched.
From S2P Require Import Vspace Unwind Ipcx Ipc Schedule Thread.
Open Scope Z_scope.

Section Operations.
Context {V : Type} `{!VirtualMemory V}.
Abbreviation S := (kstate V).
Abbreviation K := (M (kstate V)).

(** *** Page faults *)

Definition tunnel_pagefault (addr : Z) : K unit :=
  let* current := get_current_tcb in
  let* partner := get_partner_tcb current in
  send_pagefault_ipc current addr (w64 (-1)) acc_write ;;;
  set_state current ThreadState.locked_waiting ;;;
  set_state partner ThreadState.locked_running ;;;
  enqueue_ready partner false ;;;
  switch_to current partner.

Definition handle_xfer_timeouts (sender : Z) : K unit :=
  let* has := tcb_get sender (fun t => Bitmask.is_set (tcb_flags t) HAS_XFER_TIMEOUT) in
  if has then ret tt else
  let* partner := get_partner_tcb sender in
  let* snd_to := get_xfer_timeout_snd sender in
  let* rcv_to := get_xfer_timeout_rcv partner in
  let set :=
    let* lt := time_lt snd_to rcv_to in
    set_timeout sender (if lt then snd_to else rcv_to) ;;;
    tcb_set sender (fun t => tcb_with_flags (Bitmask.add (tcb_flags t) HAS_XFER_TIMEOUT) t) in
  if time_is_zero snd_to || time_is_zero rcv_to then
    handle_ipc_timeout ThreadState.locked_running ;;; set
  else if time_is_never snd_to && time_is_never rcv_to then ret tt
  else set.

(** a fault that a pager resolves *)
Definition user_pagefault (sp addr ip : Z) (access : access_e) (kernel : bool) : K unit :=
  let* current := get_current_tcb in
  let* csp := get_space current in
  let* sigma0 := gets (fun s => is_sigma0_space s csp) in
  if negb sigma0 then
    let* st := get_state current in
    if (kernel && negb (st =? ThreadState.locked_running)) || negb (is_user_area addr) then hang else
    (if st =? ThreadState.locked_running then
       set_misc current (misc_with_w8 addr) ;;;
       handle_xfer_timeouts current
     else ret tt) ;;;
    when (negb kernel) (set_partner current nilthread) ;;;
    send_pagefault_ipc current addr ip access
  else if is_user_area addr then lift (vm_map_sigma0 sp addr)
  else hang.

(** [space_t::handle_pagefault].  [copy_area_real_address] is [UNIMPLEMENTED],
    so a fault in the copy area never gets past it. *)
Definition handle_pagefault (sp addr ip : Z) (access : access_e) (kernel : bool) : K unit :=
  if is_user_area addr || negb kernel then user_pagefault sp addr ip access kernel
  else if is_tcb_area addr then
    match access with
    | acc_write => lift (vm_allocate_tcb addr)
    | _ => lift (vm_map_dummy_tcb sp addr)
    end
  else hang.

(** *** System calls *)

Definition space_control_fail (err : Z) : K (Z * Z) :=
  let* current := get_current_tcb in
  set_error_code current err ;;; ret (0, 0).

(** the areas of a new space: [Some err] if they are not acceptable *)
Definition check_areas (kip : kip_t) (utcb_area kip_area : Z) : option Z :=
  if (UtcbInfo.get_minimal_size (kip_utcb_info kip) >? get_size utcb_area) ||
     negb (is_user_fpage utcb_area) then Some EUTCB_AREA
  else if (KipAreaInfo.get_size (kip_kip_area_info kip) >? get_size kip_area) ||
          negb (is_user_fpage kip_area) || is_overlapping kip_area utcb_area
  then Some EKIP_AREA
  else None.

Definition sys_space_control (space_tid control kip_area utcb_area redirector_tid : Z) : K (Z * Z) :=
  let* cspace := get_current_space in
  let* priv := gets (fun s => is_privileged_space s cspace) in
  if negb priv then space_control_fail ENO_PRIVILEGE else
  if negb (is_global space_tid) then space_control_fail EINVALID_SPACE else
  let space_tcb := get_tcb space_tid in
  let* id := get_global_id space_tcb in
  if negb (id =? space_tid) then space_control_fail EINVALID_SPACE else
  let* sp := get_space space_tcb in
  let* ini := is_initialized sp in
  let* kip := get_kip in
  let* e := (if ini then ret None else
      match check_areas kip utcb_area kip_area with
      | Some err => ret (Some err)
      | None => space_init sp utcb_area kip_area ;;; ret None
      end) in
  match e with
  | Some err => space_control_fail err
  | None => ret (1, space_control sp control)
  end.

(** the body of the loop of [sys_unmap] for message register [i] *)
Definition unmap_item (i : Z) (flush : bool) : K unit :=
  let* current := get_current_tcb in
  let* fpage := get_mr current i in
  let* sp := get_current_space in
  if sp =? NULL then crash else
  let* fpage := lift (vm_unmap_fpage sp fpage flush false) in
  set_mr current i fpage.

Fixpoint unmap_items (n : nat) (i : Z) (flush : bool) : K unit :=
  match n with
  | O => ret tt
  | Datatypes.S n => unmap_item i flush ;;; unmap_items n (i + 1) flush
  end.

Definition sys_unmap (control : Z) : K unit :=
  let num := Z.land control 0x3f in
  let flush := truth (Z.land control (2 ^ 6)) in
  unmap_items (Z.to_nat (num + 1)) 0 flush.

End Operations.
