(* ===== verification/Tlb.v ===== *)
(** * The translation buffer

    [put_tc] and [purge_tc] of [arch/mips64/tlb.h] on the translation buffer of
    the processor, [init_tlb] of [glue/v4-mips64/tlb.cc] and the miss handlers of
    [glue/v4-mips64/space.cc].  The buffer is that of the architecture: a slot
    holds the translations of a pair of pages of 4 KB, and matches an address if
    the page pair and region agree and it is global or the address space agrees. *)

From Stdlib Require Import ZArith Lia Bool List.
From stdpp Require Import base numbers list option gmap.
From S2P Require Import Pgent.
From S2P Require Import Prelude Types Time Kip ThreadId Fpage State Msg Ring Monad Tcb Sched.
From S2P Require Import Vspace Unwind Ipcx Ipc Thread SpaceControl.
Open Scope Z_scope.
Import Translation.

(** ** The hardware *)

Definition TLB_SIZE : Z := 48.

(** region and page pair, address space identifier *)
Definition region_of (hi : Z) : Z := Z.shiftr hi 62 mod 4.
Definition vpn2_of (hi : Z) : Z := Z.shiftr hi 13 mod 2 ^ 27.
Definition asid_of (hi : Z) : Z := hi mod 2 ^ 8.

(** the two G bits of an entry are one, their conjunction *)
Definition is_global (e : tlb_entry) : bool :=
  bf_flag f_global (entry_lo0 e) && bf_flag f_global (entry_lo1 e).
Definition same_pair (hi hi' : Z) : bool :=
  (region_of hi =? region_of hi') && (vpn2_of hi =? vpn2_of hi').
Definition matches (hi : Z) (e : tlb_entry) : bool :=
  same_pair (entry_hi e) hi && (is_global e || (asid_of (entry_hi e) =? asid_of hi)).

Definition slot (c : cpu_t) (i : Z) : tlb_entry := default (TlbEntry 0 0 0) (cpu_tlb c !! i).

Definition tlbp (hi : Z) (c : cpu_t) : option Z :=
  find (fun i => matches hi (slot c i)) (seqZ 0 TLB_SIZE).
Definition tlbr (e : tlb_entry) : tlb_entry :=
  let g := Z.b2z (is_global e) in
  TlbEntry (entry_hi e) (set_global g (entry_lo0 e)) (set_global g (entry_lo1 e)).
Definition tlbwi (i : Z) (e : tlb_entry) (c : cpu_t) : cpu_t := cpu_with_tlb (<[i := e]> (cpu_tlb c)) c.
Definition tlbwr (e : tlb_entry) (c : cpu_t) : cpu_t := tlbwi (cpu_random c) e c.

(** the translation of a user address, without the G bit: [None] is a miss or an
    invalid entry *)
Definition page_hi (vaddr asid : Z) : Z := Z.shiftl (Z.shiftr vaddr 13) 13 + asid.
Definition translate (c : cpu_t) (vaddr asid : Z) : option Z :=
  match tlbp (page_hi vaddr asid) c with
  | None => None
  | Some i =>
      let e := slot c i in
      let lo := if is_odd vaddr 12 then entry_lo1 e else entry_lo0 e in
      if bf_flag f_valid lo then Some (set_global 0 lo) else None
  end.

(** ** [put_tc], [purge_tc] and [init_tlb]

    EntryHi is saved and restored, so it does not change. *)

(** what a probe and [tlbr] find *)
Definition probe (c : cpu_t) (hi : Z) : option tlb_entry := (fun i => tlbr (slot c i)) <$> tlbp hi c.

Definition put_tc (vaddr page_size asid raw : Z) (c : cpu_t) : cpu_t :=
  let e := Translation.put_tc vaddr page_size asid (probe c) raw in
  match tlbp (put_hi vaddr page_size asid raw) c with
  | Some i => tlbwi i e c
  | None => tlbwr e c
  end.

Definition purge_tc (vaddr page_size asid : Z) (c : cpu_t) : cpu_t :=
  match tlbp (purge_hi vaddr page_size asid) c, Translation.purge_tc vaddr page_size asid (probe c) with
  | Some i, Some e => tlbwi i e c
  | _, _ => c
  end.

Definition init_tlb (c : cpu_t) : cpu_t :=
  cpu_with_entryhi 0 (foldl (fun c i => tlbwi i (TlbEntry i 0 0) c) c (seqZ 0 TLB_SIZE)).

(** ** Theory *)

Definition user_vaddr (v : Z) : Prop := 0 <= v < 2 ^ 40.
Definition user_asid (a : Z) : Prop := 0 <= a < 2 ^ 8.
(** a translation of a user page: valid, not global, of the user region *)
Definition user_raw (raw : Z) : Prop :=
  bf_flag f_valid raw = true /\ bf_get f_global raw = 0 /\ bf_get f_rid raw = 0.
Definition is_slot (i : Z) : Prop := 0 <= i < TLB_SIZE.

(** no two slots answer the same probe, and user pages are not global *)
Record tlb_ok (c : cpu_t) : Prop := {
  to_unique : forall i j hi, is_slot i -> is_slot j ->
    matches hi (slot c i) = true -> matches hi (slot c j) = true -> i = j;
  to_global : forall i, is_slot i -> is_global (slot c i) = true -> region_of (entry_hi (slot c i)) <> 0;
}.

Lemma slot_tlbwi c i j e : slot (tlbwi i e c) j = if decide (i = j) then e else slot c j.
Proof. unfold slot, tlbwi. simpl. rewrite lookup_insert. now case_decide; subst. Qed.

Lemma tlbp_some c hi i : tlbp hi c = Some i -> is_slot i /\ matches hi (slot c i) = true.
Proof.
  intros H. apply find_some in H as [H1 H2]. split; [|done].
  apply list_elem_of_In, elem_of_seqZ in H1. exact H1.
Qed.

Lemma tlbp_none c hi i : tlbp hi c = None -> is_slot i -> matches hi (slot c i) = false.
Proof.
  intros H Hi. apply (find_none _ _ H i). apply list_elem_of_In, elem_of_seqZ. exact Hi.
Qed.

Lemma tlbp_intro c hi i : tlb_ok c -> is_slot i -> matches hi (slot c i) = true -> tlbp hi c = Some i.
Proof.
  intros Hok Hi Hm. destruct (tlbp hi c) as [j|] eqn:E.
  - apply tlbp_some in E as [Hj Hm']. f_equal. now apply (to_unique _ Hok j i hi).
  - now rewrite (tlbp_none _ _ _ E Hi) in Hm.
Qed.

Lemma lor_shiftl_13 a k : 0 <= a < 2 ^ 13 -> Z.lor a (Z.shiftl k 13) = Z.shiftl k 13 + a.
Proof.
  intros Ha. assert (Hd : Z.land a (Z.shiftl k 13) = 0).
  { apply Z.bits_inj'. intros i Hi. rewrite Z.land_spec, Z.bits_0. destruct (Z.lt_ge_cases i 13).
    - rewrite Z.shiftl_spec_low by lia. apply andb_false_r.
    - rewrite (testbit_above 13) by lia. done. }
  rewrite <- Z.lxor_lor, <- Z.add_nocarry_lxor by done. lia.
Qed.

Lemma page_hi_parts v a : user_vaddr v -> user_asid a ->
  region_of (page_hi v a) = 0 /\ vpn2_of (page_hi v a) = v / 2 ^ 13 /\ asid_of (page_hi v a) = a.
Proof.
  unfold user_vaddr, user_asid, region_of, vpn2_of, asid_of, page_hi. intros Hv Ha.
  rewrite Z.shiftl_mul_pow2, !Z.shiftr_div_pow2 by lia. split_and!; zlia.
Qed.

Lemma put_hi_user v a raw : user_vaddr v -> user_asid a -> bf_get f_global raw = 0 -> bf_get f_rid raw = 0 ->
  put_hi v 12 a raw = page_hi v a.
Proof.
  unfold user_vaddr, user_asid. intros Hv Ha Hg Hr. unfold put_hi, get_global. rewrite Hg, Hr.
  change (truth 0) with false. cbv iota. change (w64 (Z.shiftl 0 62)) with 0. rewrite Z.lor_0_l.
  rewrite lor_shiftl_13 by lia. unfold page_hi. f_equal. f_equal. change (Z.shiftl 1 27 - 1) with (2 ^ 27 - 1).
  rewrite aligned_land_mask by lia. change (12 + 1) with 13. rewrite Z.shiftr_div_pow2 by lia. apply Z.mod_small. zlia.
Qed.

Lemma purge_hi_user v a : user_vaddr v -> user_asid a -> purge_hi v 12 a = page_hi v a.
Proof.
  unfold user_vaddr, user_asid. intros Hv Ha. unfold purge_hi, page_hi. change (Z.shiftl 1 (12 + 1) - 1) with (2 ^ 13 - 1).
  rewrite land_wnot_mask by (unfold is_word; lia). rewrite Z.lor_comm.
  replace (v - v mod 2 ^ 13) with (Z.shiftl (v / 2 ^ 13) 13) by (rewrite Z.shiftl_mul_pow2 by lia; zlia).
  rewrite lor_shiftl_13 by lia. now rewrite Z.shiftr_div_pow2 by lia.
Qed.

(** for user pages, a match is an entry of the same pair and address space *)
Lemma matches_page c i v a : tlb_ok c -> is_slot i -> user_vaddr v -> user_asid a ->
  matches (page_hi v a) (slot c i) = true ->
  same_pair (entry_hi (slot c i)) (page_hi v a) = true /\ asid_of (entry_hi (slot c i)) = a /\
  is_global (slot c i) = false.
Proof.
  intros Hok Hi Hv Ha Hm. destruct (page_hi_parts v a Hv Ha) as (Hr & _ & Has).
  unfold matches in Hm. apply andb_prop in Hm as [Hp Hm]. split; [done|].
  destruct (is_global (slot c i)) eqn:G.
  - apply (to_global _ Hok i Hi) in G. unfold same_pair in Hp. lia.
  - split; [|done]. simpl in Hm. lia.
Qed.

(** an entry for the pair of [v] *)
Record page_entry (v a : Z) (e : tlb_entry) : Prop := {
  pe_pair : same_pair (entry_hi e) (page_hi v a) = true;
  pe_asid : asid_of (entry_hi e) = a;
  pe_user : is_global e = false;
}.

Lemma page_entry_matches v a e hi : page_entry v a e ->
  matches hi e = same_pair (page_hi v a) hi && (a =? asid_of hi).
Proof. intros [H1 H2 H3]. unfold matches. rewrite H2, H3. unfold same_pair in *. cbn [orb]. lia. Qed.

(** putting an entry for [v] where the probe says, or anywhere if it finds nothing *)
Lemma write_ok c i0 e v a : tlb_ok c -> is_slot i0 -> user_vaddr v -> user_asid a -> page_entry v a e ->
  (tlbp (page_hi v a) c = Some i0 \/ tlbp (page_hi v a) c = None) -> tlb_ok (tlbwi i0 e c).
Proof.
  intros Hok Hi0 Hv Ha He Ht. destruct (page_hi_parts v a Hv Ha) as (Hr & Hvp & Has).
  assert (Hother : forall j hi, is_slot j -> matches hi e = true -> matches hi (slot c j) = true -> j = i0).
  { intros j hi Hj M1 M2. rewrite (page_entry_matches v a e hi He) in M1.
    assert (M : matches (page_hi v a) (slot c j) = true).
    { assert (G : is_global (slot c j) = false).
      { destruct (is_global (slot c j)) eqn:G; [|done]. apply (to_global _ Hok j Hj) in G.
        unfold matches, same_pair in *. lia. }
      unfold matches in *. rewrite G in *. unfold same_pair in *. cbn [orb] in *. lia. }
    destruct Ht as [Ht|Ht]; [|now rewrite (tlbp_none _ _ _ Ht Hj) in M].
    rewrite (tlbp_intro _ _ _ Hok Hj M) in Ht. congruence. }
  split.
  - intros i j hi Hi Hj. rewrite !slot_tlbwi. repeat case_decide; subst; try done.
    + intros M1 M2. symmetry. now apply (Hother j hi).
    + intros M1 M2. now apply (Hother i hi).
    + now apply (to_unique _ Hok).
  - intros i Hi. rewrite slot_tlbwi. case_decide; [now rewrite (pe_user _ _ _ He)|now apply (to_global _ Hok)].
Qed.

Lemma tlbp_written c i0 e v a : tlb_ok (tlbwi i0 e c) -> is_slot i0 -> page_entry v a e -> user_vaddr v -> user_asid a ->
  tlbp (page_hi v a) (tlbwi i0 e c) = Some i0.
Proof.
  intros Hok Hi He Hv Ha. destruct (page_hi_parts v a Hv Ha) as (_ & _ & Has).
  apply tlbp_intro; [done..|]. rewrite slot_tlbwi, decide_True by done.
  rewrite (page_entry_matches v a e _ He), Has. unfold same_pair. lia.
Qed.

(** other pairs and spaces: what they had, unless their entry made room *)
Lemma tlbp_others c i0 e v a w b : tlb_ok c -> tlb_ok (tlbwi i0 e c) -> is_slot i0 ->
  page_entry v a e -> user_vaddr v -> user_asid a -> user_vaddr w -> user_asid b ->
  (w / 2 ^ 13 <> v / 2 ^ 13 \/ b <> a) ->
  tlbp (page_hi w b) (tlbwi i0 e c) = if decide (tlbp (page_hi w b) c = Some i0) then None else tlbp (page_hi w b) c.
Proof.
  intros Hok Hok' Hi0 He Hv Ha Hw Hb Hne.
  destruct (page_hi_parts v a Hv Ha) as (Hr & Hvp & Has). destruct (page_hi_parts w b Hw Hb) as (Hr' & Hvp' & Has').
  assert (Hno : matches (page_hi w b) e = false).
  { rewrite (page_entry_matches v a e _ He). unfold same_pair. lia. }
  destruct (tlbp (page_hi w b) (tlbwi i0 e c)) as [j|] eqn:E.
  - apply tlbp_some in E as [Hj M]. rewrite slot_tlbwi in M. case_decide as D; [congruence|].
    rewrite (tlbp_intro c _ j Hok Hj M). now rewrite decide_False by congruence.
  - destruct (tlbp (page_hi w b) c) as [j|] eqn:E'; [|now rewrite decide_False].
    apply tlbp_some in E' as [Hj M]. case_decide as D; [done|].
    apply (tlbp_none _ _ j) in E; [|done]. rewrite slot_tlbwi, decide_False in E by congruence. congruence.
Qed.

Lemma is_odd_page v : is_odd v 12 = Z.odd (v / 2 ^ 12).
Proof.
  unfold is_odd, truth. rewrite Z.shiftl_1_l, land_pow2_eqb by lia.
  rewrite negb_involutive. rewrite <- Z.shiftr_div_pow2 by lia. rewrite <- Z.bit0_odd, Z.shiftr_spec by lia. done.
Qed.

Lemma same_pair_refl hi : same_pair hi hi = true.
Proof. unfold same_pair. now rewrite !Z.eqb_refl. Qed.

(** the two pages of a pair *)
Lemma is_odd_other v w : v / 2 ^ 13 = w / 2 ^ 13 -> v / 2 ^ 12 <> w / 2 ^ 12 -> is_odd w 12 = negb (is_odd v 12).
Proof.
  intros H1 H2. rewrite !is_odd_page, !Zodd_mod.
  destruct (Z.eqb_spec ((w / 2 ^ 12) mod 2) 1), (Z.eqb_spec ((v / 2 ^ 12) mod 2) 1); try done; exfalso; zlia.
Qed.

Definition half (odd : bool) (e : tlb_entry) : Z := if odd then entry_lo1 e else entry_lo0 e.
Lemma half_with_half o o' raw e : half o (with_half o' raw e) = if Bool.eqb o o' then raw else half o e.
Proof. now destruct o, o'. Qed.
Lemma with_half_hi o raw e : entry_hi (with_half o raw e) = entry_hi e.
Proof. now destruct o. Qed.
Lemma with_half_global o raw e : bf_flag f_global raw = false -> is_global (with_half o raw e) = false.
Proof. intros H. unfold is_global, with_half. destruct o; simpl; rewrite H; [apply andb_false_r|done]. Qed.

(** what a word means in a slot *)
Definition meaning (lo : Z) : option Z := if bf_flag f_valid lo then Some (set_global 0 lo) else None.
Lemma translate_unfold c v a :
  translate c v a = match tlbp (page_hi v a) c with Some i => meaning (half (is_odd v 12) (slot c i)) | None => None end.
Proof. unfold translate. now destruct (tlbp _ _). Qed.
Lemma meaning_set_global g lo : meaning (set_global g lo) = meaning lo.
Proof. unfold meaning, set_global, bf_flag. bf_simpl. reflexivity. Qed.
Lemma meaning_user raw : user_raw raw -> meaning raw = Some raw.
Proof.
  intros (Hv & Hg & _). unfold meaning. rewrite Hv. f_equal. unfold set_global. rewrite <- Hg at 1.
  apply bf_set_get. done.
Qed.

Lemma same_pair_page v a w b : user_vaddr v -> user_asid a -> user_vaddr w -> user_asid b ->
  w / 2 ^ 13 = v / 2 ^ 13 -> b = a -> page_hi w b = page_hi v a.
Proof.
  intros _ _ _ _ H1 ->. unfold page_hi. rewrite !Z.shiftr_div_pow2 by lia. now rewrite H1.
Qed.

Definition same_page (v a w b : Z) : Prop := w / 2 ^ 12 = v / 2 ^ 12 /\ b = a.

(** writing one half of the entry of a pair: the halves of the entry written are
    [raw] and, in meaning, what the pair had before *)
Lemma write_half c i0 e v a raw : tlb_ok c -> is_slot i0 -> user_vaddr v -> user_asid a -> page_entry v a e ->
  (tlbp (page_hi v a) c = Some i0 \/ tlbp (page_hi v a) c = None) ->
  half (is_odd v 12) e = raw ->
  meaning (half (negb (is_odd v 12)) e) =
    match tlbp (page_hi v a) c with Some i => meaning (half (negb (is_odd v 12)) (slot c i)) | None => None end ->
  let c' := tlbwi i0 e c in
  tlb_ok c' /\ translate c' v a = meaning raw /\
  (forall w b, user_vaddr w -> user_asid b -> ~ same_page v a w b ->
     translate c' w b = translate c w b \/
     (tlbp (page_hi v a) c = None /\ translate c' w b = None)).
Proof.
  intros Hok Hi0 Hv Ha He Ht Hraw Hm c'. pose proof (write_ok _ _ _ _ _ Hok Hi0 Hv Ha He Ht) as Hok'. fold c' in Hok'.
  pose proof (tlbp_written c i0 e v a Hok' Hi0 He Hv Ha) as Hp. fold c' in Hp.
  assert (Hs : slot c' i0 = e) by (unfold c'; now rewrite slot_tlbwi, decide_True).
  split_and!; [done|now rewrite translate_unfold, Hp, Hs, Hraw|].
  intros w b Hw Hb Hne. destruct (decide (w / 2 ^ 13 = v / 2 ^ 13 /\ b = a)) as [[Hpair Hba]|Hother].
  - left. rewrite !translate_unfold, (same_pair_page v a w b Hv Ha Hw Hb Hpair Hba). rewrite Hp, Hs.
    rewrite (is_odd_other v w (eq_sym Hpair)) by (intros E; apply Hne; split; congruence). exact Hm.
  - assert (Hcase : w / 2 ^ 13 <> v / 2 ^ 13 \/ b <> a) by (destruct (decide (b = a)); [left; tauto|now right]).
    rewrite !translate_unfold. unfold c' at 1 3.
    rewrite (tlbp_others c i0 e v a w b Hok Hok' Hi0 He Hv Ha Hw Hb Hcase). case_decide as D.
    + destruct Ht as [Ht|Ht]; [|right; split; [exact Ht|reflexivity]]. exfalso. apply tlbp_some in D as [_ D]. apply tlbp_some in Ht as [_ Ht].
      destruct (page_hi_parts v a Hv Ha) as (_ & Hvp & Has), (page_hi_parts w b Hw Hb) as (_ & Hvp' & Has').
      destruct (matches_page c i0 v a Hok Hi0 Hv Ha Ht) as (P1 & A1 & _).
      destruct (matches_page c i0 w b Hok Hi0 Hw Hb D) as (P2 & A2 & _). unfold same_pair in *. lia.
    + left. destruct (tlbp (page_hi w b) c) as [j|] eqn:E; [|reflexivity]. unfold c'.
      rewrite slot_tlbwi, decide_False by congruence. reflexivity.
Qed.

Lemma put_tc_page c v a raw :
  tlb_ok c -> is_slot (cpu_random c) -> user_vaddr v -> user_asid a -> user_raw raw ->
  let c' := put_tc v 12 a raw c in
  tlb_ok c' /\ translate c' v a = Some raw /\
  forall w b, user_vaddr w -> user_asid b -> ~ same_page v a w b ->
    translate c' w b = translate c w b \/ translate c' w b = None.
Proof.
  intros Hok Hrnd Hv Ha Hraw. pose proof Hraw as (_ & Hg & Hr). unfold put_tc, Translation.put_tc, probe, tlbwr.
  rewrite put_hi_user by done.
  assert (Hgf : bf_flag f_global raw = false) by (unfold bf_flag; rewrite Hg; done).
  rewrite <- (meaning_user raw Hraw).
  destruct (tlbp (page_hi v a) c) as [i|] eqn:E; cbn [fmap option_fmap option_map].
  - destruct (tlbp_some _ _ _ E) as [Hi Hm]. destruct (matches_page c i v a Hok Hi Hv Ha Hm) as (P1 & P2 & P3).
    destruct (write_half c i (with_half (is_odd v 12) raw (tlbr (slot c i))) v a raw Hok Hi Hv Ha) as (W1 & W2 & W3).
    + split; rewrite ?with_half_hi; [exact P1|exact P2|now apply with_half_global].
    + left. exact E.
    + rewrite half_with_half, eqb_reflx. reflexivity.
    + rewrite half_with_half, E. replace (Bool.eqb _ _) with false by now destruct (is_odd v 12).
      unfold tlbr. destruct (is_odd v 12); simpl; apply meaning_set_global.
    + split; [exact W1|]. split; [exact W2|]. intros w b Hw Hb Hne.
      destruct (W3 w b Hw Hb Hne) as [H|[_ H]]; [left|right]; exact H.
  - destruct (page_hi_parts v a Hv Ha) as (Hr0 & Hvp & Has).
    destruct (write_half c (cpu_random c) (with_half (is_odd v 12) raw (TlbEntry (page_hi v a) 1 1)) v a raw Hok Hrnd Hv Ha)
      as (W1 & W2 & W3).
    + split; rewrite ?with_half_hi; [apply same_pair_refl|exact Has|now apply with_half_global].
    + right. exact E.
    + rewrite half_with_half, eqb_reflx. reflexivity.
    + rewrite half_with_half, E. destruct (is_odd v 12); reflexivity.
    + split; [exact W1|]. split; [exact W2|]. intros w b Hw Hb Hne.
      destruct (W3 w b Hw Hb Hne) as [H|[_ H]]; [left|right]; exact H.
Qed.

(** With a larger page size, address and odd page are those of a 4 KB page with
    the number of the large page. *)
Lemma put_tc_size c n v a raw : 12 <= n <= 24 -> user_vaddr v ->
  put_tc v n a raw c = put_tc (v / 2 ^ n * 2 ^ 12) 12 a raw c.
Proof.
  unfold user_vaddr. intros Hn Hv.
  assert (Ho : is_odd v n = is_odd (v / 2 ^ n * 2 ^ 12) 12).
  { unfold is_odd, truth. rewrite !Z.shiftl_1_l, !land_pow2_eqb by lia. rewrite !negb_involutive.
    rewrite Z.mul_pow2_bits by lia. rewrite <- Z.shiftr_div_pow2, Z.shiftr_spec by lia. reflexivity. }
  assert (Hh : put_hi v n a raw = put_hi (v / 2 ^ n * 2 ^ 12) 12 a raw).
  { unfold put_hi. f_equal. f_equal. f_equal. rewrite !Z.shiftr_div_pow2 by lia.
    rewrite !Z.pow_add_r, <- !Z.div_div by lia. now rewrite Z.div_mul by lia. }
  unfold put_tc, Translation.put_tc. now rewrite Ho, Hh.
Qed.

(** C35. Inserting a translation of page size 2^n makes exactly the 4 KB page with
    the number of the large page translate to it, which is the page of the
    address for 4 KB pages and one at a lower address for larger ones: afterwards
    that page has the translation in its address space, and every other page, of
    that or another space, has the one it had or, if its entry made room for the
    new one, none; the buffer still answers every probe with at most one entry. *)
Theorem put_tc_installs c n v a raw :
  12 <= n <= 24 -> tlb_ok c -> is_slot (cpu_random c) -> user_vaddr v -> user_asid a -> user_raw raw ->
  let c' := put_tc v n a raw c in
  let page := v / 2 ^ n * 2 ^ 12 in
  tlb_ok c' /\ translate c' page a = Some raw /\
  forall w b, user_vaddr w -> user_asid b -> ~ same_page page a w b ->
    translate c' w b = translate c w b \/ translate c' w b = None.
Proof.
  intros Hn Hok Hr Hv Ha Hraw. cbv zeta. rewrite put_tc_size by assumption.
  apply put_tc_page; try assumption. unfold user_vaddr in *. split.
  - apply Z.mul_nonneg_nonneg; [|lia]. apply Z.div_pos; lia.
  - assert (v / 2 ^ n <= v / 2 ^ 12) by (apply Z.div_le_compat_l; [lia|]; split; [lia|]; apply Z.pow_le_mono_r; lia).
    zlia.
Qed.

(** Purging a user page removes exactly its translation: afterwards the page
    does not translate in its address space, and every other page has the
    translation it had. *)
Theorem purge_tc_removes c v a :
  tlb_ok c -> user_vaddr v -> user_asid a ->
  let c' := purge_tc v 12 a c in
  tlb_ok c' /\ translate c' v a = None /\
  forall w b, user_vaddr w -> user_asid b -> ~ same_page v a w b -> translate c' w b = translate c w b.
Proof.
  intros Hok Hv Ha. unfold purge_tc, Translation.purge_tc, probe. rewrite purge_hi_user by done.
  destruct (tlbp (page_hi v a) c) as [i|] eqn:E; cbn [fmap option_fmap option_map].
  - destruct (tlbp_some _ _ _ E) as [Hi Hm]. destruct (matches_page c i v a Hok Hi Hv Ha Hm) as (P1 & P2 & P3).
    destruct (write_half c i (with_half (is_odd v 12) 0 (tlbr (slot c i))) v a 0 Hok Hi Hv Ha) as (W1 & W2 & W3).
    + split; rewrite ?with_half_hi; [exact P1|exact P2|now apply with_half_global].
    + left. exact E.
    + rewrite half_with_half, eqb_reflx. reflexivity.
    + rewrite half_with_half, E. replace (Bool.eqb _ _) with false by now destruct (is_odd v 12).
      unfold tlbr. destruct (is_odd v 12); simpl; apply meaning_set_global.
    + split; [exact W1|]. split; [exact W2|]. intros w b Hw Hb Hne.
      destruct (W3 w b Hw Hb Hne) as [H|[H _]]; [exact H|congruence].
  - split; [exact Hok|]. split; [|reflexivity]. rewrite translate_unfold, E. reflexivity.
Qed.

(** the buffer after [init_tlb] answers every probe with at most one entry and
    translates nothing *)
Lemma slot_init c i : is_slot i -> slot (init_tlb c) i = TlbEntry i 0 0.
Proof.
  intros Hi. unfold is_slot, TLB_SIZE in Hi. unfold init_tlb.
  assert (H : forall l c, i ∈ l \/ slot c i = TlbEntry i 0 0 ->
    slot (foldl (fun c i => tlbwi i (TlbEntry i 0 0) c) c l) i = TlbEntry i 0 0).
  { clear. induction l as [|x l IH]; intros c [H|H]; simpl; [now apply elem_of_nil in H|done| |].
    - apply IH. apply elem_of_cons in H as [->|H]; [right; now rewrite slot_tlbwi, decide_True|now left].
    - apply IH. right. rewrite slot_tlbwi. case_decide; [now subst|done]. }
  apply (H (seqZ 0 TLB_SIZE) c). left. apply elem_of_seqZ. unfold TLB_SIZE. lia.
Qed.

Lemma matches_init hi i : is_slot i -> matches hi (TlbEntry i 0 0) = true -> i = asid_of hi.
Proof.
  intros Hi H. apply andb_prop in H as [_ H]. change (is_global (TlbEntry i 0 0)) with false in H.
  apply Z.eqb_eq in H. rewrite <- H. cbn [entry_hi]. unfold asid_of. rewrite Z.mod_small; [reflexivity|].
  unfold is_slot, TLB_SIZE in Hi. lia.
Qed.

Lemma init_tlb_ok c : tlb_ok (init_tlb c).
Proof.
  split.
  - intros i j hi Hi Hj. rewrite !slot_init by assumption. intros M1 M2.
    rewrite (matches_init hi i Hi M1), (matches_init hi j Hj M2). reflexivity.
  - intros i Hi. rewrite slot_init by assumption. discriminate.
Qed.

(** ** Miss handlers *)

Section Handlers.
Context {V : Type} `{!VirtualMemory V}.
Abbreviation S := (kstate V).
Abbreviation K := (M (kstate V)).
(** [space->get_asid()->get()], file Asid *)
Variable asid_get : Z -> K Z.

Definition modify_cpu (f : cpu_t -> cpu_t) : K unit := modify (fun s => ks_with_cpu (f (ks_cpu s)) s).

(** [1UL << (hw_pgshifts[pgent_t::size_max+1]-1)] *)
Definition ktcb_bit : Z := shl64 1 (page_shift (size_max + 1) - 1).
(** the address a fault in the TCB area is looked up at *)
Definition fault_address (faddr : Z) : Z :=
  if negb (Z.land faddr Layout.KTCB_AREA_START =? 0) then Z.lor faddr ktcb_bit else faddr.
Definition space_or_kernel (sp : Z) : K Z :=
  let* kernel_space := gets ks_kernel_space in ret (if sp =? NULL then kernel_space else sp).

Definition put_mapping (space faddr : Z) (m : mapping_t) : K unit :=
  let* asid := asid_get space in
  modify_cpu (put_tc faddr (page_shift (mapped_size m)) asid (mapped_raw m)).

(** the two halves of a pair at once, with [tlbwr] *)
Definition put_pair (faddr asid raw1 raw2 : Z) : K unit :=
  let faddr := Z.land faddr (wnot ktcb_bit) in
  modify_cpu (tlbwr (TlbEntry (Z.lor (Z.shiftl (Z.shiftr faddr 13) 13) asid) raw1 raw2)).

(** [false]: the handler jumps to the general exception vector *)
Definition handle_xtlb_miss (saved_pagetable faddr : Z) : K bool :=
  let* space := space_or_kernel saved_pagetable in
  let faddr := fault_address faddr in
  let* found := lift (vm_lookup_mapping space faddr) in
  match found with
  | None => ret false
  | Some m =>
      let mapsize := Z.shiftl 1 Layout.MIPS64_PAGE_BITS in
      let odd := negb (Z.land faddr mapsize =? 0) in
      let* buddy := lift (vm_lookup_mapping space (addr_offset faddr (if odd then w64 (- mapsize) else mapsize))) in
      match buddy with
      | Some b =>
          let* asid := asid_get space in
          put_pair faddr asid (mapped_raw (if odd then b else m)) (mapped_raw (if odd then m else b)) ;;;
          ret true
      | None => put_mapping space faddr m ;;; ret true
      end
  end.

(** one look at the page table: whether it let the access through *)
Definition try_mapping (space faddr : Z) (write : bool) : K bool :=
  let* found := lift (vm_lookup_mapping space faddr) in
  match found with
  | Some m =>
      if (write && mapped_writable m) || (negb write && mapped_readable m)
      then put_mapping space faddr m ;;; ret true
      else ret false
  | None => ret false
  end.

(** Status and cause are those of the exception frame; the page fault is
    raised at most once. *)
Definition handle_stlb_miss (faddr cause status epc : Z) : K unit :=
  let* current := get_current_tcb in
  let* sp := get_space current in
  let* space := space_or_kernel sp in
  let faddr := fault_address faddr in
  let write := Z.land cause (Z.shiftl 31 2) =? Z.shiftl 3 2 in
  let* ok := try_mapping space faddr write in
  if ok then ret tt else
  let kernel := if is_user_area faddr then Z.land status (Z.shiftl 3 3) =? 0 else true in
  handle_pagefault space faddr epc (if write then acc_write else acc_read) kernel ;;;
  let* ok := try_mapping space faddr write in ret tt.

Definition handle_tlb_mod (faddr status epc : Z) : K unit :=
  let* current := get_current_tcb in
  let* sp := get_space current in
  let* space := space_or_kernel sp in
  let faddr := fault_address faddr in
  let* found := lift (vm_lookup_mapping space faddr) in
  let fault := handle_pagefault space faddr epc acc_write (Z.land status (Z.shiftl 3 3) =? 0) in
  match found with
  | Some m => if mapped_writable m then put_mapping space faddr m else fault
  | None => fault
  end.

End Handlers.

(** ** Refills *)

(** writing both halves of a pair that has no entry *)
Lemma write_pair c v a raw1 raw2 : tlb_ok c -> is_slot (cpu_random c) -> user_vaddr v -> user_asid a ->
  tlbp (page_hi v a) c = None -> user_raw raw1 -> user_raw raw2 ->
  let c' := tlbwr (TlbEntry (page_hi v a) raw1 raw2) c in
  tlb_ok c' /\
  (forall w, user_vaddr w -> w / 2 ^ 13 = v / 2 ^ 13 ->
     translate c' w a = Some (if is_odd w 12 then raw2 else raw1)) /\
  (forall w b, user_vaddr w -> user_asid b -> (w / 2 ^ 13 <> v / 2 ^ 13 \/ b <> a) ->
     translate c' w b = translate c w b \/ translate c' w b = None).
Proof.
  intros Hok Hrnd Hv Ha Hn H1 H2 c'. destruct (page_hi_parts v a Hv Ha) as (_ & _ & Has).
  assert (He : page_entry v a (TlbEntry (page_hi v a) raw1 raw2)).
  { split; [apply same_pair_refl|exact Has|]. destruct H1 as (_ & Hg & _). unfold is_global, bf_flag. cbn [entry_lo0].
    rewrite Hg. reflexivity. }
  pose proof (write_ok _ _ _ _ _ Hok Hrnd Hv Ha He (or_intror Hn)) as Hok'.
  pose proof (tlbp_written _ _ _ _ _ Hok' Hrnd He Hv Ha) as Hp.
  split; [exact Hok'|]. split.
  - intros w Hw Hpair. rewrite translate_unfold, (same_pair_page v a w a Hv Ha Hw Ha Hpair eq_refl).
    unfold c', tlbwr. rewrite Hp, slot_tlbwi, decide_True by reflexivity.
    destruct (is_odd w 12); cbn [half entry_lo0 entry_lo1]; now apply meaning_user.
  - intros w b Hw Hb Hcase. rewrite !translate_unfold. unfold c', tlbwr.
    rewrite (tlbp_others c _ _ v a w b Hok Hok' Hrnd He Hv Ha Hw Hb Hcase). case_decide as D; [right; reflexivity|].
    left. destruct (tlbp (page_hi w b) c) as [j|]; [|reflexivity].
    rewrite slot_tlbwi, decide_False by congruence. reflexivity.
Qed.

(** the other page of the pair *)
Definition buddy_of (v : Z) : Z := if is_odd v 12 then v - 2 ^ 12 else v + 2 ^ 12.

Lemma user_ktcb_bit v : user_vaddr v -> Z.land v (wnot ktcb_bit) = v.
Proof.
  intros Hv. unfold user_vaddr in Hv. apply Z.bits_inj'. intros i Hi. rewrite Z.land_spec.
  destruct (Z.lt_ge_cases i 40).
  - change (wnot ktcb_bit) with (wnot (2 ^ 40)). unfold wnot. rewrite wrap_testbit, Z.lnot_spec, Z.pow2_bits_false by lia.
    replace (i <? 64) with true by lia. apply andb_true_r.
  - rewrite (testbit_above 40) by lia. reflexivity.
Qed.

Lemma user_fault_address v : user_vaddr v -> fault_address v = v.
Proof.
  intros Hv. unfold fault_address. replace (Z.land v Layout.KTCB_AREA_START) with 0; [reflexivity|]. symmetry.
  unfold user_vaddr in Hv. change Layout.KTCB_AREA_START with (2 ^ 62).
  apply Z.eqb_eq. rewrite land_pow2_eqb, (testbit_above 40) by lia. reflexivity.
Qed.

Lemma buddy_address v : user_vaddr v ->
  addr_offset v (if is_odd v 12 then w64 (- 2 ^ 12) else 2 ^ 12) = buddy_of v /\
  user_vaddr (buddy_of v) /\ buddy_of v / 2 ^ 13 = v / 2 ^ 13 /\ is_odd (buddy_of v) 12 = negb (is_odd v 12).
Proof.
  intros Hv. assert (H : user_vaddr (buddy_of v) /\ buddy_of v / 2 ^ 13 = v / 2 ^ 13 /\ v / 2 ^ 12 <> buddy_of v / 2 ^ 12).
  { unfold buddy_of, user_vaddr in *. rewrite is_odd_page, Zodd_mod.
    destruct (Z.eqb_spec ((v / 2 ^ 12) mod 2) 1); split_and!; zlia. }
  destruct H as (H1 & H2 & H3). split; [|split; [exact H1|split; [exact H2|]]].
  - unfold buddy_of, addr_offset, user_vaddr in *. destruct (is_odd v 12).
    + unfold wrap. rewrite Zplus_mod_idemp_r. rewrite Z.mod_small; lia.
    + rewrite wrap_small; lia.
  - apply is_odd_other; [symmetry; exact H2|exact H3].
Qed.

Section Refill.
Context {V : Type} `{!VirtualMemory V}.
Implicit Types s : kstate V.
Variable asid_get : Z -> M (kstate V) Z.

(** A refill of a user address that the page table maps installs what the
    page table says: the handler returns, the page translates to its entry and so
    does, if it is mapped, the other page of its pair; every other page has the
    translation it had or none, no probe has two answers, and nothing but the
    translation buffer changes. *)
Theorem refill_installs_page_table sp v a m b s :
  let c := ks_cpu s in
  tlb_ok c -> is_slot (cpu_random c) -> user_vaddr v -> user_asid a -> sp <> NULL ->
  tlbp (page_hi v a) c = None ->
  asid_get sp s = Ok (a, s) ->
  vm_lookup_mapping sp v (ks_vm s) = Ok (Some m, ks_vm s) -> mapped_size m = size_4k -> user_raw (mapped_raw m) ->
  vm_lookup_mapping sp (buddy_of v) (ks_vm s) = Ok (b, ks_vm s) -> (forall m', b = Some m' -> user_raw (mapped_raw m')) ->
  exists c', handle_xtlb_miss asid_get sp v s = Ok (true, ks_with_cpu c' s) /\ tlb_ok c' /\
    translate c' v a = Some (mapped_raw m) /\
    (forall m', b = Some m' -> translate c' (buddy_of v) a = Some (mapped_raw m')) /\
    (forall w d, user_vaddr w -> user_asid d -> ~ same_page v a w d ->
       (b <> None -> ~ same_page (buddy_of v) a w d) ->
       translate c' w d = translate c w d \/ translate c' w d = None).
Proof.
  intros c Hok Hrnd Hv Ha Hsp Hmiss Hasid Hm Hsz Hraw Hb Hrb.
  destruct (buddy_address v Hv) as (Eb & Hbv & Hbp & Hbo).
  unfold handle_xtlb_miss, space_or_kernel. rewrite bind_assoc, bind_gets, bind_ret_l.
  replace (sp =? NULL) with false by (symmetry; now apply Z.eqb_neq).
  rewrite (user_fault_address v Hv).
  assert (El : forall x r, vm_lookup_mapping sp x (ks_vm s) = Ok (r, ks_vm s) ->
    lift (vm_lookup_mapping sp x) s = Ok (r, s)) by (intros x r E; unfold lift; rewrite E; now destruct s).
  rewrite (bind_ok _ _ _ _ _ (El _ _ Hm)). change (Z.shiftl 1 Layout.MIPS64_PAGE_BITS) with (2 ^ 12).
  change (negb (Z.land v (2 ^ 12) =? 0)) with (is_odd v 12). rewrite Eb.
  rewrite (bind_ok _ _ _ _ _ (El _ _ Hb)).
  destruct b as [m'|].
  - rewrite (bind_ok _ _ _ _ _ Hasid). unfold put_pair, modify_cpu. rewrite bind_modify. fold c.
    rewrite (user_ktcb_bit v Hv).
    set (raw1 := mapped_raw (if is_odd v 12 then m' else m)). set (raw2 := mapped_raw (if is_odd v 12 then m else m')).
    assert (Hhi : Z.lor (Z.shiftl (Z.shiftr v 13) 13) a = page_hi v a).
    { unfold user_asid in Ha. rewrite Z.lor_comm, lor_shiftl_13 by lia. reflexivity. }
    rewrite Hhi. destruct (write_pair c v a raw1 raw2 Hok Hrnd Hv Ha Hmiss) as (W1 & W2 & W3);
      [unfold raw1; destruct (is_odd v 12); auto|unfold raw2; destruct (is_odd v 12); auto|].
    eexists. split; [reflexivity|]. split; [exact W1|]. split; [|split].
    + rewrite (W2 v Hv eq_refl). unfold raw1, raw2. destruct (is_odd v 12); reflexivity.
    + intros m'' [= <-]. rewrite (W2 _ Hbv Hbp), Hbo. unfold raw1, raw2. destruct (is_odd v 12); reflexivity.
    + intros w d Hw Hd N1 N2. apply W3; [exact Hw|exact Hd|].
      destruct (decide (w / 2 ^ 13 = v / 2 ^ 13)) as [E|E]; [right|left; exact E]. intros ->.
      destruct (decide (w / 2 ^ 12 = v / 2 ^ 12)) as [E'|E']; [now apply N1|]. apply N2; [discriminate|]. split; [|reflexivity].
      clear - E E' Hbp Hbo Hv. pose proof (is_odd_other v w (eq_sym E) (not_eq_sym E')) as Ho.
      rewrite <- Hbo, !is_odd_page, !Zodd_mod in Ho.
      destruct (Z.eqb_spec ((w / 2 ^ 12) mod 2) 1), (Z.eqb_spec ((buddy_of v / 2 ^ 12) mod 2) 1); try discriminate; zlia.
  - unfold put_mapping, modify_cpu. rewrite bind_assoc, (bind_ok _ _ _ _ _ Hasid), bind_modify. fold c. rewrite Hsz.
    change (page_shift size_4k) with 12.
    destruct (put_tc_page c v a (mapped_raw m) Hok Hrnd Hv Ha Hraw) as (W1 & W2 & W3).
    eexists. split; [reflexivity|]. split; [exact W1|]. split; [exact W2|]. split; [discriminate|].
    intros w d Hw Hd N1 _. now apply W3.
Qed.

End Refill.

(** ** Examples *)

Definition example_cpu : cpu_t := init_tlb zero_cpu.
(** writable page frame 5, page frame 6 *)
Definition example_raw : Z := Translation.make l4default true true false 0x5000.

Lemma example_raw_user : user_raw example_raw.
Proof. vm_compute. intuition congruence. Qed.

Lemma put_tc_installs_witness :
  let c' := put_tc 0x12345000 14 7 example_raw example_cpu in
  translate c' 0x48d1000 7 = Some example_raw /\ translate c' 0x12345000 7 = None.
Proof.
  destruct (put_tc_installs example_cpu 14 0x12345000 7 example_raw) as (_ & H & Ho);
    [lia|apply init_tlb_ok|vm_compute; intuition congruence|vm_compute; intuition congruence|
     vm_compute; intuition congruence|exact example_raw_user|].
  split; [exact H|]. destruct (Ho 0x12345000 7) as [->| ->];
    [vm_compute; intuition congruence|vm_compute; intuition congruence|vm_compute; intuition congruence| |reflexivity].
  vm_compute. reflexivity.
Defined.

Lemma purge_tc_removes_witness :
  let c := put_tc 0x12345000 12 7 example_raw example_cpu in
  translate c 0x12345000 7 = Some example_raw /\ translate (purge_tc 0x12345000 12 7 c) 0x12345000 7 = None.
Proof.
  destruct (put_tc_page example_cpu 0x12345000 7 example_raw) as (Hok & H & _);
    [apply init_tlb_ok|vm_compute; intuition congruence|vm_compute; intuition congruence|
     vm_compute; intuition congruence|exact example_raw_user|].
  split; [exact H|].
  destruct (purge_tc_removes _ 0x12345000 7 Hok) as (_ & H' & _);
    [vm_compute; intuition congruence|vm_compute; intuition congruence|]. exact H'.
Defined.

Definition refill_state : kstate (gmap Z Z) := ks_with_cpu example_cpu (boot_state ∅).

Lemma refill_installs_page_table_witness :
  exists c', handle_xtlb_miss (fun _ => ret 7) 4096 0x5000 refill_state = Ok (true, ks_with_cpu c' refill_state) /\
    translate c' 0x5000 7 = Some example_raw.
Proof.
  destruct (refill_installs_page_table (V := gmap Z Z) (fun _ => ret 7) 4096 0x5000 7
    (Mapping 0 true true 0x5000 example_raw)
    (Some (Mapping 0 true true 0x4000 (Translation.make l4default true true false 0x4000))) refill_state)
    as (c' & E & _ & H & _).
  - apply init_tlb_ok.
  - vm_compute; intuition congruence.
  - vm_compute; intuition congruence.
  - vm_compute; intuition congruence.
  - discriminate.
  - vm_compute; reflexivity.
  - reflexivity.
  - vm_compute; reflexivity.
  - reflexivity.
  - exact example_raw_user.
  - vm_compute; reflexivity.
  - intros m' [= <-]. vm_compute; intuition congruence.
  - exact (ex_intro _ c' (conj E H)).
Defined.
