(* ===== verification/Spacevm.v ===== *)
(** * Virtual memory

    The class [VirtualMemory] of file Vspace implemented by the page tables, the
    mapping database and the memory allocator: the operations of
    [glue/v4-mips64/space.cc] and [generic/linear_ptab_walker.cc] that the kernel's
    system calls use.  A space is the address of its [space_t].  What these
    operations do to the translation buffer is recorded, in the order of the
    code, and done by [update_tlb]: page tables are never read through the buffer. *)

From Stdlib Require Import ZArith Lia Bool List.
From stdpp Require Import base numbers list option gmap.
From S2P Require Import Prelude Types Time Kip ThreadId Fpage State Msg Ring Monad Lib Kmem Pgent Ptab.
From S2P Require Import MdbAlloc Mdb Walker Asid Tcb Vspace.
From S2P Require Tlb.
Open Scope Z_scope.

(** ** The state *)

(** a translation that [add_mapping] puts into the buffer *)
Record tlb_put := TlbPut { tp_space : Z; tp_vaddr : Z; tp_log2size : Z; tp_raw : Z }.

(** the kernel's memory with the mapping database, the cache of address space
    identifiers, and what was put into the translation buffer *)
Record vmem := Vmem { vm_mdb : mdb_t; vm_asids : asid_cache; vm_puts : list tlb_put }.
Definition vm_with_mdb (s : mdb_t) (v : vmem) : vmem := Vmem s (vm_asids v) (vm_puts v).
Definition vm_with_asids (c : asid_cache) (v : vmem) : vmem := Vmem (vm_mdb v) c (vm_puts v).
Definition vm_with_puts (l : list tlb_put) (v : vmem) : vmem := Vmem (vm_mdb v) (vm_asids v) l.
Definition vm_kmem (v : vmem) : kmem_t := md_kmem (vm_mdb v).

Definition on_mdb {A} (m : MD A) : M vmem A := fun v =>
  match m (vm_mdb v) with
  | Ok (a, s) => Ok (a, vm_with_mdb s v)
  | Hang => Hang
  | Crash => Crash
  end.

(** the member [asid] of [space_t], at the end of its last word *)
Definition sizeof_space_t : Z := 8 * Z.shiftl 1 10.
Definition get_asid (sp : Z) : Z := sp + 8 * (Z.shiftl 1 10 - 1).
Definition space_asid_get (sp : Z) : M vmem Z := fun v =>
  match Asid.get (get_asid sp) (vm_asids v) with
  | Ok (a, c) => Ok (a, vm_with_asids c v)
  | Hang => Hang
  | Crash => Crash
  end.

(** ** The operations *)

(** what the operations know of the rest of the kernel: the fuel of the loops and
    the global variables *)
Record globals := Globals {
  g_fuel : nat;
  g_sigma0_space : Z;
  g_sigma0_mapnode : Z;
  g_kernel_space : Z;
  g_kip : Z;
  g_dummy_tcb : Z;
}.

Section Instance.
Variable g : globals.
Abbreviation fuel := (g_fuel g).

(** the end of [add_mapping]: the new entry goes into the translation buffer *)
Definition put_entry (sp vaddr : Z) : M vmem unit :=
  modify (fun v =>
    match Ptab.lookup_mapping sp vaddr (vm_kmem v) with
    | Some (pg, size) =>
        vm_with_puts (vm_puts v ++ [TlbPut sp vaddr (page_shift size) (Pgent.raw_at (vm_kmem v) pg)]) v
    | None => v
    end).

Definition init_space (sp utcb_area kip_area : Z) : M vmem unit :=
  on_mdb (wr sp utcb_area_word utcb_area) ;;;
  on_mdb (wr sp kip_area_word kip_area) ;;;
  modify (fun v => vm_with_asids (asid_init (get_asid sp) (vm_asids v)) v) ;;;
  on_mdb (kmem_do (Ptab.init_mappings fuel sp (g_kernel_space g) (g_kip g) (get_base kip_area))) ;;;
  put_entry sp (get_base kip_area).

Definition vm_map_utcb (sp utcb : Z) : M vmem Z :=
  let* found := gets (fun v => Ptab.lookup_mapping sp utcb (vm_kmem v)) in
  let* kaddr := on_mdb (on_kmem (Ptab.allocate_utcb fuel sp utcb)) in
  match found with
  | Some _ => ret kaddr
  | None => put_entry sp utcb ;;; ret kaddr
  end.

(** *** User memory

    The processor accesses it through the translations of the page table: byte
    [i] of a word is its [i]th from the top.  Where nothing is mapped the access
    faults, which is not modelled here. *)
Definition user_paddr (sp vaddr : Z) : M vmem Z := fun v =>
  match Ptab.lookup_mapping sp vaddr (vm_kmem v) with
  | Some e => Ok (Ptab.paddr_of (vm_kmem v) vaddr e, v)
  | None => Hang
  end.
Definition byte_shift (paddr : Z) : Z := 8 * (7 - paddr mod 8).
Definition word_of (paddr : Z) : Z := phys_to_virt (paddr - paddr mod 8).
Definition load_byte (sp vaddr : Z) : M vmem Z :=
  let* paddr := user_paddr sp vaddr in
  gets (fun v => w8 (Z.shiftr (Ptab.readmem_phys (paddr - paddr mod 8) (vm_kmem v)) (byte_shift paddr))).
Definition store_byte (sp vaddr x : Z) : M vmem unit :=
  let* paddr := user_paddr sp vaddr in
  on_mdb (modify (fun s =>
    md_with_kmem (Pgent.with_mem
      (fun m => store (word_of paddr)
                  (bf_set (BF (byte_shift paddr) 8) x (load m (word_of paddr))) m) (md_kmem s)) s)).

Fixpoint load_bytes (n : nat) (sp vaddr acc : Z) : M vmem Z :=
  match n with
  | O => ret acc
  | S n => let* x := load_byte sp vaddr in load_bytes n sp (w64 (vaddr + 1)) (256 * acc + x)
  end.
Fixpoint store_bytes (n : nat) (sp vaddr x : Z) : M vmem unit :=
  match n with
  | O => ret tt
  | S n => store_byte sp vaddr (w8 (Z.shiftr x (8 * Z.of_nat n))) ;;; store_bytes n sp (w64 (vaddr + 1)) x
  end.

Definition found_mapping (v : vmem) (e : Z * Z) : mapping_t :=
  let '(pg, size) := e in
  let raw := Pgent.raw_at (vm_kmem v) pg in
  Mapping size (Pgent.is_readable size raw) (Pgent.is_writable size raw) (Pgent.address size raw) raw.

#[local] Instance space_vm : VirtualMemory vmem := {
  vm_allocate_space := on_mdb (on_kmem (alloc fuel sizeof_space_t));
  vm_free_space sp := on_mdb (kmem_do (free fuel sp sizeof_space_t));
  vm_init_mappings := init_space;
  vm_allocate_utcb := vm_map_utcb;
  vm_map_fpage this snd_fp base t_space rcv_fp grant :=
    on_mdb (map_fpage fuel (g_sigma0_space g) (g_sigma0_mapnode g) this snd_fp base t_space rcv_fp grant);
  vm_unmap_fpage this fpage flush unmap_all := on_mdb (unmap_fpage fuel this fpage flush unmap_all);
  vm_map_sigma0 sp addr := on_mdb (kmem_do (Ptab.map_sigma0 fuel sp addr)) ;;; put_entry sp addr;
  vm_allocate_tcb addr :=
    on_mdb (kmem_do (Ptab.allocate_tcb fuel (g_kernel_space g) addr)) ;;; put_entry (g_kernel_space g) addr;
  vm_map_dummy_tcb sp addr :=
    on_mdb (kmem_do (Ptab.map_dummy_tcb fuel sp addr (g_dummy_tcb g))) ;;; put_entry sp addr;
  vm_memcpy sp dst src len := memcpy (load_byte sp) (store_byte sp) dst src len ;;; ret tt;
  vm_lookup_mapping sp vaddr :=
    gets (fun v => option_map (found_mapping v) (Ptab.lookup_mapping sp vaddr (vm_kmem v)));
  vm_load sp vaddr n := load_bytes (Z.to_nat n) sp vaddr 0;
  vm_store sp vaddr n x := store_bytes (Z.to_nat n) sp vaddr x;
}.

(** ** The translation buffer *)

Abbreviation K := (M (kstate vmem)).

Definition asid_get (sp : Z) : K Z := lift (space_asid_get sp).

(** [space_t::flush_tlbent] *)
Definition flush_tlbent (f : tlb_flush) : K unit :=
  let* asid := asid_get (tf_space f) in
  Tlb.modify_cpu (Tlb.purge_tc (tf_vaddr f) (tf_log2size f) asid).
Definition put_translation (p : tlb_put) : K unit :=
  let* asid := asid_get (tp_space p) in
  Tlb.modify_cpu (Tlb.put_tc (tp_vaddr p) (tp_log2size p) asid (tp_raw p)).

Fixpoint for_each {A} (f : A -> K unit) (l : list A) : K unit :=
  match l with
  | [] => ret tt
  | x :: l => f x ;;; for_each f l
  end.

(** what was recorded is done; no operation records both kinds *)
Definition update_tlb : K unit :=
  let* v := gets ks_vm in
  modify (fun s => ks_with_vm (vm_with_puts [] (vm_with_mdb (md_with_flushes [] (vm_mdb v)) v)) s) ;;;
  for_each flush_tlbent (md_flushes (vm_mdb v)) ;;;
  for_each put_translation (vm_puts v).

End Instance.
