(* ===== verification/Coherence.v ===== *)
(** * The translation buffer agrees with the page tables

    Page tables, mapping database, address space identifiers and translation
    buffer together, through the instance of file Spacevm: whatever the processor
    translates is what the page table of the space says.  A refill keeps it so,
    and so does unmapping a page from everybody it was mapped on to. *)

From Stdlib Require Import ZArith Lia Bool List.
From stdpp Require Import base numbers list option gmap.
From S2P Require Import Prelude Types Time Kip ThreadId Fpage State Msg Ring Monad Kmem Pgent Ptab Mapnode.
From S2P Require Import MdbAlloc Mdbpools Mdb Mdbflush Mdbtree Walker Walkmap Tcb Sched Vspace SpaceControl Tlb Spacevm.
From S2P Require Asid.
Open Scope Z_scope.

Section Theory.
Implicit Types s : kstate vmem.

Definition asids s : Asid.asid_cache := vm_asids (ks_vm s).
Definition tables s : kmem_t := vm_kmem (ks_vm s).

(** the space [sp] has the number [a] *)
Definition has_asid s (sp a : Z) : Prop :=
  Asid.is_valid (get_asid sp) (asids s) = true /\ Asid.value (get_asid sp) (asids s) = a.
(** the page table of [sp] has the 4 KB page [raw] at [w] *)
Definition has_page s (sp w raw : Z) : Prop :=
  exists pg, Ptab.lookup_mapping sp w (tables s) = Some (pg, size_4k) /\ Pgent.raw_at (tables s) pg = raw.
Definition cached s (w a raw : Z) : Prop :=
  user_vaddr w /\ user_asid a /\ translate (ks_cpu s) w a = Some raw.

(** every translation in the buffer is one of the space that has its number *)
Record coherent s : Prop := {
  co_tlb : tlb_ok (ks_cpu s);
  co_asids : exists free, Asid.asid_ok (asids s) free;
  co_agree : forall w a raw, cached s w a raw -> exists sp, has_asid s sp a /\ has_page s sp w raw;
}.

(** ** Address space identifiers *)

Lemma has_asid_user s sp a : (exists free, Asid.asid_ok (asids s) free) -> has_asid s sp a -> user_asid a.
Proof.
  intros [free (_ & _ & _ & Ho)] [Hv <-]. destruct (Ho _ Hv) as (_ & Hr & _). unfold user_asid.
  unfold Asid.in_range, Asid.CONFIG_MAX_NUM_ASIDS in Hr. lia.
Qed.

Lemma has_asid_unique s sp sp' a : (exists free, Asid.asid_ok (asids s) free) ->
  has_asid s sp a -> has_asid s sp' a -> sp = sp'.
Proof.
  intros [free Hok] [Hv E] [_ E']. assert (get_asid sp = get_asid sp') as H.
  { apply (Asid.asid_ok_injective _ _ _ _ Hok Hv). congruence. }
  unfold get_asid in H. lia.
Qed.

Lemma asid_get_valid s sp a : has_asid s sp a -> asid_get sp s = Ok (a, s).
Proof.
  intros [Hv <-]. unfold asid_get, lift, space_asid_get. rewrite Asid.get_valid by done.
  unfold vm_with_asids, asids. destruct s as [? ? ? [? ? ?] ? ? ? ? ? ? ? ? ? ? ? ?]. reflexivity.
Qed.

Definition with_asids (c : Asid.asid_cache) s : kstate vmem := ks_with_vm (vm_with_asids c (ks_vm s)) s.

(** a space gets its number, a new one if it has none yet *)
Lemma asid_get_run s sp free : Asid.asid_ok (asids s) free -> get_asid sp <> NULL ->
  (Asid.is_valid (get_asid sp) (asids s) = false -> free <> []) ->
  exists a c free', asid_get sp s = Ok (a, with_asids c s) /\ Asid.asid_ok c free' /\
    has_asid (with_asids c s) sp a /\
    (length free <= S (length free'))%nat /\
    (Asid.is_valid (get_asid sp) (asids s) = true -> free' = free) /\
    (forall sp' b, has_asid s sp' b -> has_asid (with_asids c s) sp' b) /\
    (forall sp' b, has_asid (with_asids c s) sp' b -> sp' <> sp -> has_asid s sp' b).
Proof.
  intros Hok Hn Hfree. destruct (Asid.is_valid (get_asid sp) (asids s)) eqn:Ev.
  - exists (Asid.value (get_asid sp) (asids s)), (asids s), free.
    assert (with_asids (asids s) s = s) as Ew.
    { unfold with_asids, vm_with_asids, asids. destruct s as [? ? ? [? ? ?] ? ? ? ? ? ? ? ? ? ? ? ?]. reflexivity. }
    rewrite Ew. split_and!; [|done|done|lia|done|done|done]. apply asid_get_valid. done.
  - destruct free as [|a free']; [now destruct (Hfree eq_refl)|].
    destruct (Asid.get_fresh _ _ _ _ Hok Hn Ev) as (c & E & Hok' & Hval & Ho).
    exists a, c, free'.
    assert (forall sp', sp' <> sp -> get_asid sp' <> get_asid sp) as Hne by (unfold get_asid; lia).
    assert (forall sp', sp' <> sp -> Asid.is_valid (get_asid sp') c = Asid.is_valid (get_asid sp') (asids s)) as Hvv.
    { intros sp' Hs. unfold Asid.is_valid. destruct (Ho _ (Hne sp' Hs)) as [-> _]. done. }
    split_and!; [| done | | simpl; lia | done | |].
    + unfold asid_get, lift, space_asid_get. fold (asids s). rewrite E. reflexivity.
    + split; [|exact Hval]. apply Asid.is_valid_value. fold (asids (with_asids c s)).
      change (Asid.value (get_asid sp) c <> Asid.invalid). rewrite Hval. apply Asid.in_range_valid.
      destruct Hok as ((_ & Hr & _) & _). exact Hr.
    + intros sp' b [Hv Hb]. assert (sp' <> sp) as Hs by (intros ->; congruence).
      split; [|].
      * change (Asid.is_valid (get_asid sp') c = true). now rewrite Hvv.
      * change (Asid.value (get_asid sp') c = b). destruct (Ho _ (Hne sp' Hs)) as [-> _]. exact Hb.
    + intros sp' b [Hv Hb] Hs.
      change (Asid.is_valid (get_asid sp') c = true) in Hv. change (Asid.value (get_asid sp') c = b) in Hb.
      split; [now rewrite <- Hvv|]. destruct (Ho _ (Hne sp' Hs)) as [<- _]. exact Hb.
Qed.

(** ** Purging translations *)

Lemma translate_page c v w a : w / 2 ^ 12 = v / 2 ^ 12 -> translate c w a = translate c v a.
Proof.
  intros E. rewrite !translate_unfold, !is_odd_page, E. unfold page_hi. rewrite !Z.shiftr_div_pow2 by lia.
  replace (w / 2 ^ 13) with (v / 2 ^ 13) by zlia. reflexivity.
Qed.

Lemma has_asid_fun s sp a b : has_asid s sp a -> has_asid s sp b -> a = b.
Proof. intros [_ <-] [_ <-]. done. Qed.

(** every number the buffer knows belongs to a space *)
Definition owned_asids s : Prop := forall w a raw, cached s w a raw -> exists sp, has_asid s sp a.

(** a flush of a 4 KB page of a space *)
Definition flush_ok (f : tlb_flush) : Prop :=
  user_vaddr (tf_vaddr f) /\ tf_log2size f = 12 /\ get_asid (tf_space f) <> NULL.

Definition purges s (f : tlb_flush) (w a : Z) : Prop :=
  has_asid s (tf_space f) a /\ w / 2 ^ 12 = tf_vaddr f / 2 ^ 12.

(** the translations of [fl] are gone, and only they *)
Record purged s (fl : list tlb_flush) s' : Prop := {
  pu_state : exists c cpu, s' = ks_with_cpu cpu (with_asids c s);
  pu_tlb : tlb_ok (ks_cpu s');
  pu_kept : forall sp a, has_asid s sp a -> has_asid s' sp a;
  pu_asid : forall f, f ∈ fl -> exists a, has_asid s' (tf_space f) a;
  pu_cached : forall w a raw, cached s' w a raw <->
    cached s w a raw /\ forall f, f ∈ fl -> ~ purges s' f w a;
}.

Lemma purged_owned s fl s' : purged s fl s' -> owned_asids s -> owned_asids s'.
Proof.
  intros Hp Ho w a raw Hc. apply (pu_cached _ _ _ Hp) in Hc as [Hc _]. destruct (Ho _ _ _ Hc) as [sp Hs].
  exists sp. now apply (pu_kept _ _ _ Hp).
Qed.

Lemma purged_cons s f fl s1 s' : purged s [f] s1 -> purged s1 fl s' -> purged s (f :: fl) s'.
Proof.
  intros H1 H2. destruct (pu_asid _ _ _ H1 f) as [a0 Ha0]; [left|].
  pose proof (pu_kept _ _ _ H2 _ _ Ha0) as Ha0'.
  assert (forall w a, purges s' f w a <-> purges s1 f w a) as Hp.
  { intros w a. split; intros [Ha E]; (split; [|exact E]);
      [now rewrite (has_asid_fun _ _ _ _ Ha Ha0')|now rewrite (has_asid_fun _ _ _ _ Ha Ha0)]. }
  split.
  - destruct (pu_state _ _ _ H1) as (c & cpu & ->), (pu_state _ _ _ H2) as (c' & cpu' & ->). exists c', cpu'. reflexivity.
  - exact (pu_tlb _ _ _ H2).
  - intros sp a Ha. apply (pu_kept _ _ _ H2), (pu_kept _ _ _ H1), Ha.
  - intros f' [->|Hf]%elem_of_cons; [now exists a0|exact (pu_asid _ _ _ H2 f' Hf)].
  - intros w a raw. rewrite (pu_cached _ _ _ H2), (pu_cached _ _ _ H1). split.
    + intros [[Hc Hf] Hfl]. split; [exact Hc|]. intros f' [->|Hin]%elem_of_cons; [|now apply Hfl].
      rewrite Hp. apply Hf. left.
    + intros [Hc Hfl]. split; [split; [exact Hc|]|].
      * intros f' ->%list_elem_of_singleton. rewrite <- Hp. apply Hfl. left.
      * intros f' Hin. apply Hfl. now right.
Qed.

Lemma purged_nil s : tlb_ok (ks_cpu s) -> purged s [] s.
Proof.
  intros Ht. split; [|exact Ht|done|intros f []%elem_of_nil|].
  - exists (asids s), (ks_cpu s). unfold with_asids, vm_with_asids, asids.
    destruct s as [? ? ? [? ? ?] ? ? ? ? ? ? ? ? ? ? ? ?]. reflexivity.
  - intros w a raw. split; [|now intros [? _]]. intros Hc. split; [exact Hc|]. intros f []%elem_of_nil.
Qed.

Lemma flush_one s f free :
  tlb_ok (ks_cpu s) -> Asid.asid_ok (asids s) free -> owned_asids s -> flush_ok f ->
  (Asid.is_valid (get_asid (tf_space f)) (asids s) = false -> free <> []) ->
  exists s' free', flush_tlbent f s = Ok (tt, s') /\ purged s [f] s' /\ Asid.asid_ok (asids s') free' /\
    (length free <= S (length free'))%nat /\
    (Asid.is_valid (get_asid (tf_space f)) (asids s) = true -> free' = free).
Proof.
  intros Ht Ha Ho (Hv & Hl & Hn) Hfree.
  destruct (asid_get_run s (tf_space f) free Ha Hn Hfree) as (a & c & free' & E & Hok & Has & Hlen & Hsame & Hkept & Hback).
  assert (user_asid a) as Hua by (apply (has_asid_user (with_asids c s) (tf_space f)); [now exists free'|done]).
  set (s' := ks_with_cpu (purge_tc (tf_vaddr f) 12 a (ks_cpu s)) (with_asids c s)).
  destruct (purge_tc_removes (ks_cpu s) (tf_vaddr f) a Ht Hv Hua) as (P1 & P2 & P3).
  exists s', free'. split_and!; [| |exact Hok|exact Hlen|exact Hsame].
  { unfold flush_tlbent. rewrite (bind_ok _ _ _ _ _ E), Hl. reflexivity. }
  split; [now exists c, (ks_cpu s')|exact P1|exact Hkept| |].
  - intros f' ->%list_elem_of_singleton. now exists a.
  - assert (forall w b, purges s' f w b <-> b = a /\ w / 2 ^ 12 = tf_vaddr f / 2 ^ 12) as Hp.
    { intros w b. split; [intros [Hb Hw]|intros [-> Hw]]; (split; [|exact Hw]); [|exact Has].
      exact (has_asid_fun _ _ _ _ Hb Has). }
    intros w b raw. split.
    + intros (Hw & Hb & Htr). assert (~ purges s' f w b) as Hne.
      { rewrite Hp. intros [-> Hpg]. change (ks_cpu s') with (purge_tc (tf_vaddr f) 12 a (ks_cpu s)) in Htr.
        rewrite (translate_page _ (tf_vaddr f) w a Hpg), P2 in Htr. discriminate. }
      split; [|intros f' ->%list_elem_of_singleton; exact Hne]. split_and!; [exact Hw|exact Hb|].
      rewrite <- P3; [exact Htr|exact Hw|exact Hb|]. rewrite Hp in Hne. intros [H1 H2]. now apply Hne.
    + intros [(Hw & Hb & Htr) Hne]. split_and!; [exact Hw|exact Hb|].
      change (translate (purge_tc (tf_vaddr f) 12 a (ks_cpu s)) w b = Some raw).
      rewrite P3; [exact Htr|exact Hw|exact Hb|]. specialize (Hne f ltac:(left)). rewrite Hp in Hne.
      intros [H1 H2]. now apply Hne.
Qed.

(** the flushes of spaces that have no number yet *)
Definition unnumbered s (fl : list tlb_flush) : list tlb_flush :=
  filter (fun f => Asid.is_valid (get_asid (tf_space f)) (asids s) = false) fl.

Lemma flush_all fl s free :
  tlb_ok (ks_cpu s) -> Asid.asid_ok (asids s) free -> owned_asids s -> (forall f, f ∈ fl -> flush_ok f) ->
  (length (unnumbered s fl) <= length free)%nat ->
  exists s' free', for_each flush_tlbent fl s = Ok (tt, s') /\ purged s fl s' /\ Asid.asid_ok (asids s') free'.
Proof.
  revert s free. induction fl as [|f fl IH]; intros s free Ht Ha Ho Hf Hlen.
  { exists s, free. split; [reflexivity|]. split; [now apply purged_nil|done]. }
  destruct (flush_one s f free) as (s1 & free1 & E1 & P1 & A1 & L1 & V1); [done..|apply Hf; left| |].
  { intros Hv ->. unfold unnumbered in Hlen. rewrite filter_cons_True in Hlen by done. simpl in Hlen. lia. }
  destruct (IH s1 free1) as (s' & free' & E' & P' & A').
  - exact (pu_tlb _ _ _ P1).
  - exact A1.
  - now apply (purged_owned s [f]).
  - intros f' Hin. apply Hf. now right.
  - assert (length (unnumbered s1 fl) <= length (unnumbered s fl))%nat as Hle.
    { unfold unnumbered. clear - P1. induction fl as [|x fl IH]; [done|]. rewrite !filter_cons.
      repeat case_decide; simpl; try lia. exfalso.
      destruct (Asid.is_valid (get_asid (tf_space x)) (asids s)) eqn:E; [|done].
      destruct (pu_kept _ _ _ P1 (tf_space x) _ (conj E eq_refl)) as [H' _]. congruence. }
    destruct (Asid.is_valid (get_asid (tf_space f)) (asids s)) eqn:Ev.
    + rewrite V1 by done. unfold unnumbered in Hlen at 1. rewrite filter_cons_False in Hlen by congruence.
      fold (unnumbered s fl) in Hlen. lia.
    + unfold unnumbered in Hlen at 1. rewrite filter_cons_True in Hlen by done. fold (unnumbered s fl) in Hlen.
      simpl in Hlen. lia.
  - exists s', free'. split_and!; [|now apply (purged_cons s f fl s1)|done].
    cbn [for_each]. now rewrite (bind_ok _ _ _ _ _ E1).
Qed.

(** ** Unmapping *)

Section Unmap.
Context {fuel : nat} {inv : mdb_t -> (Z -> Z -> Prop) -> (Z -> Prop) -> Prop} `{HB : !BufferHeap fuel inv}.

Definition mdb s : mdb_t := vm_mdb (ks_vm s).

(** every cached address that the entry of mapping [e] translates is the one
    its node records, in the space it records *)
Definition named s (e : Z * Z) : Prop :=
  let f := purge (mdb s) 12 e in
  forall sp w a raw, cached s w a raw -> has_asid s sp a ->
    Ptab.lookup_mapping sp w (tables s) = Some (e.2, size_4k) -> sp = tf_space f /\ w / 2 ^ 12 = tf_vaddr f / 2 ^ 12.

(** the tables used for cached addresses are not among what is removed *)
Definition tables_apart s (live : Z -> Z -> Prop) (owned : Z -> Prop) (pgs : list Z) : Prop :=
  forall sp w a raw, cached s w a raw -> has_asid s sp a -> way_apart (mdb s) live owned sp w (-1) pgs.

(** after a removal of 4 KB mappings from the database, in a state [s1] that
    differs from [s] in the database and, maybe, outside virtual memory and
    processor *)
Lemma update_after_removal s s1 m live owned p all rest :
  coherent s -> md_flushes (mdb s) = [] -> vm_puts (ks_vm s) = [] ->
  ks_cpu s1 = ks_cpu s -> ks_vm s1 = vm_with_mdb m (ks_vm s) ->
  all_removed (inv := inv) (mdb s) m live owned size_4k p all rest ->
  (forall e, e ∈ all -> flush_ok (purge (mdb s) 12 e) /\ named s e) -> tables_apart s live owned all.*2 ->
  (exists free, Asid.asid_ok (asids s) free /\
     (length (unnumbered s (map (purge (mdb s) 12) all)) <= length free)%nat) ->
  exists c cpu, let s' := ks_with_cpu cpu (ks_with_vm (Vmem (md_with_flushes [] m) c []) s1) in
    update_tlb s1 = Ok (tt, s') /\ coherent s' /\ tables s' = md_kmem m /\
    (forall sp a, has_asid s sp a -> has_asid s' sp a).
Proof.
  intros Hco Hfl Hpt Hcpu Hvm Hrm Hnamed Hway (free & Hfree & Hlen).
  set (fl := map (purge (mdb s) 12) all) in *.
  assert (md_flushes m = fl) as Efl by (rewrite (ar_flushes _ _ _ _ _ _ _ _ Hrm), Hfl; reflexivity).
  set (s2 := ks_with_vm (vm_with_puts [] (vm_with_mdb (md_with_flushes [] m) (ks_vm s1))) s1).
  assert (asids s2 = asids s) as Ea by (unfold asids, s2; cbn; now rewrite Hvm).
  assert (ks_cpu s2 = ks_cpu s) as Ec by exact Hcpu.
  assert (forall sp a, has_asid s2 sp a <-> has_asid s sp a) as Eh by (intros; unfold has_asid; now rewrite Ea).
  assert (forall w a raw, cached s2 w a raw <-> cached s w a raw) as Eca by (intros; unfold cached; now rewrite Ec).
  destruct (flush_all fl s2 free) as (s' & free' & Er & Hp & Hok).
  - rewrite Ec. exact (co_tlb _ Hco).
  - now rewrite Ea.
  - intros w a raw Hc%Eca. destruct (co_agree _ Hco _ _ _ Hc) as (sp & Hs & _). exists sp. now apply Eh.
  - intros f Hf. unfold fl in Hf. apply list_elem_of_fmap in Hf as (e & -> & He). now apply Hnamed.
  - unfold unnumbered in *. rewrite Ea. exact Hlen.
  - destruct (pu_state _ _ _ Hp) as (c & cpu & Es'). exists c, cpu. cbv zeta.
    assert (s' = ks_with_cpu cpu (ks_with_vm (Vmem (md_with_flushes [] m) c []) s1)) as E by exact Es'.
    rewrite <- E. split_and!.
    + assert (vm_mdb (ks_vm s1) = m /\ vm_puts (ks_vm s1) = []) as [Em Ep] by (rewrite Hvm; split; [done|exact Hpt]).
      unfold update_tlb. rewrite bind_gets, bind_modify, Em, Ep, Efl. fold s2.
      now rewrite (bind_ok _ _ _ _ _ Er).
    + split; [exact (pu_tlb _ _ _ Hp)|now exists free'|]. intros w a raw Hc'.
      apply (pu_cached _ _ _ Hp) in Hc' as [Hc%Eca Hnp].
      destruct (co_agree _ Hco _ _ _ Hc) as (sp & Hs & pg & Hl & Hraw). exists sp.
      assert (has_asid s' sp a) as Hs' by (apply (pu_kept _ _ _ Hp), Eh, Hs). split; [exact Hs'|].
      destruct (lookup_survives (mdb s) m live owned sp w pg all.*2) as [Hl' Hraw'].
      * exact Hl.
      * intros Hin. apply list_elem_of_fmap in Hin as (e & -> & He). destruct (Hnamed e He) as [_ Hn].
        destruct (Hn sp w a raw Hc Hs Hl) as [Esp Ew]. apply (Hnp (purge (mdb s) 12 e)).
        -- unfold fl. now apply list_elem_of_fmap_2.
        -- split; [now rewrite <- Esp|exact Ew].
      * intros e He. apply (ar_cleared _ _ _ _ _ _ _ _ Hrm e He).
      * exact (ar_words _ _ _ _ _ _ _ _ Hrm).
      * now apply (Hway sp w a raw).
      * exists pg. rewrite E. split; [exact Hl'|]. etransitivity; [exact Hraw'|exact Hraw].
    + now rewrite E.
    + intros sp a Ha. apply (pu_kept _ _ _ Hp), Eh, Ha.
Qed.
(** the 4 KB page [pg] of [this] at [vaddr] can be revoked: its node [f] is followed,
    in depth-first order, by the deeper mappings [sub] and by [rest] *)
Record revocable (m : mdb_t) (live : Z -> Z -> Prop) (owned : Z -> Prop) (this vaddr p f pg : Z)
    (sub rest : list (Z * Z)) : Prop := {
  rv_user : Walker.is_user_area vaddr = true;
  rv_mappable : is_mappable this vaddr m = Ok (true, m);
  rv_way : way_ok (md_kmem m) this vaddr;
  rv_reaches : reaches (md_kmem m) this vaddr pg size_4k;
  rv_valid : Pgent.is_valid size_4k (lds m pg) = true;
  rv_page : Pgent.is_subtree size_4k (lds m pg) = false;
  rv_node : Pgent.mapnode (md_kmem m) pg (addr_mask vaddr (wnot (page_mask size_4k))) = f;
  rv_inv : inv m live owned;
  rv_live a : a ∈ p :: f :: (sub ++ rest).*1 -> live a sizeof_mapnode_t;
  rv_nodup : NoDup (p :: f :: (sub ++ rest).*1);
  rv_next : next_map_is (nd m p) f;
  rv_chain : chain m p ((f, pg) :: sub ++ rest);
  rv_entries e : e ∈ ((f, pg) :: sub).*2 -> entry_ok live owned e;
  rv_apart : entries_apart ((f, pg) :: sub).*2;
  rv_deeper a : a ∈ sub.*1 -> Mapnode.get_depth (nd m f) < Mapnode.get_depth (nd m a);
  rv_end a : hd_error rest.*1 = Some a -> Mapnode.get_depth (nd m a) <= Mapnode.get_depth (nd m f);
}.

(** C2 The Unmap system call takes a 4 KB page away from everybody it was mapped on
    to (for larger pages it does not, see [Mdbtree.mdb_flush_misses_mappings]).  The
    current thread flushes, with all rights, a 4 KB page of its space, whose
    entry [pg] heads the subtree [all] of mappings derived from it.  Assumed are the
    representation of the mapping database for this subtree ([revocable]), that
    each of its nodes names the space and the address its entry is reached by
    ([named]), that its entries share no table with the entries on the way to them
    ([tables_apart], [way_apart]), free address space numbers for the spaces in
    the subtree that have none, and a fuel as large as the subtree.
    Afterwards no address that the page table entry of the page or of a mapping
    derived from it translated is translated in its space any more, neither by
    the page table nor by the translation buffer, and the buffer still agrees
    with all page tables. *)
Theorem sys_unmap_revokes_access g s live owned vaddr p f pg sub rest :
  let t := ks_current_tcb s in
  let this := tcb_space (tcb_of s t) in
  let fpage := word_at (utcb_of s (tcb_utcb (tcb_of s t))) 0 in
  let all := (f, pg) :: sub in
  g_fuel g = fuel -> t <> NULL -> tcb_utcb (tcb_of s t) <> NULL -> this <> NULL ->
  get_size_log2 fpage = page_shift size_4k -> Walker.address fpage (page_shift size_4k) = vaddr -> is_rwx fpage = true ->
  coherent s -> md_flushes (mdb s) = [] -> vm_puts (ks_vm s) = [] ->
  revocable (mdb s) live owned this vaddr p f pg sub rest ->
  (forall e, e ∈ all -> flush_ok (purge (mdb s) 12 e) /\ named s e) -> tables_apart s live owned all.*2 ->
  (exists free, Asid.asid_ok (asids s) free /\
     (length (unnumbered s (map (purge (mdb s) 12) all)) <= length free)%nat) ->
  (9 <= fuel)%nat -> (length sub < fuel)%nat ->
  exists s', (sys_unmap (VirtualMemory0 := space_vm g) (2 ^ 6) ;;; update_tlb) s = Ok (tt, s') /\ coherent s' /\
    forall sp va e, e ∈ all.*2 -> reaches (tables s) sp va e size_4k -> Pgent.is_subtree size_4k (lds (mdb s) e) = false ->
      way_apart (mdb s) live owned sp va size_4k all.*2 ->
      Ptab.lookup_mapping sp va (tables s') = None /\
      forall a, user_vaddr va -> has_asid s' sp a -> translate (ks_cpu s') va a = None.
Proof.
  intros t this fpage all Hg Ht Hu Hsp Hsz Hva Hrwx Hco Hfl Hpt [] Hnamed Htab Hfree Hfuel Hsub.
  destruct (unmap_fpage_revokes_page (mdb s) live owned this fpage false size_4k vaddr p f pg sub rest)
    as (m & E & Hrm & Hgone); try done.
  { apply rv_live0. left. }
  { intros a Ha. apply rv_live0. right. exact Ha. }
  set (r := set_rwx _ fpage) in E.
  set (s1 := upd_utcb (tcb_utcb (tcb_of s t)) (utcb_with_word 0 r) (ks_with_vm (vm_with_mdb m (ks_vm s)) s)).
  assert (sys_unmap (VirtualMemory0 := space_vm g) (2 ^ 6) s = Ok (tt, s1)) as Eu.
  { unfold sys_unmap. change (Z.to_nat (Z.land (2 ^ 6) 63 + 1)) with 1%nat.
    change (truth (Z.land (2 ^ 6) (2 ^ 6))) with true. cbn [unmap_items]. unfold unmap_item, get_current_space, get_current_tcb.
    rewrite bind_assoc, bind_gets. fold t. unfold get_mr, set_mr. rewrite get_word_eq by kindex.
    rewrite bind_assoc, bind_utcb_get by done. fold fpage. rewrite bind_assoc, bind_assoc, bind_gets. fold t.
    unfold get_space. rewrite bind_tcb_get by done. fold this.
    replace (this =? NULL) with false by (symmetry; now apply Z.eqb_neq).
    assert (lift (vm_unmap_fpage (VirtualMemory := space_vm g) this fpage true false) s
            = Ok (r, ks_with_vm (vm_with_mdb m (ks_vm s)) s)) as El.
    { unfold lift. cbn [vm_unmap_fpage space_vm]. unfold on_mdb. rewrite Hg. fold (mdb s). now rewrite E. }
    rewrite bind_assoc, (bind_ok _ _ _ _ _ El), set_word_eq, bind_utcb_set by (done || kindex). reflexivity. }
  rewrite (bind_ok _ _ _ _ _ Eu).
  destruct (update_after_removal s s1 m live owned p all rest) as (c & cpu & Ew & Hco' & Htab' & Hkept); [done..|].
  eexists. split; [exact Ew|]. split; [exact Hco'|]. intros sp va e He Hr Hs Hway.
  rewrite Htab'. assert (Ptab.lookup_mapping sp va (md_kmem m) = None) as Hnone by now apply (Hgone sp va e).
  split; [exact Hnone|]. intros a Huv Ha. destruct (translate _ va a) as [raw|] eqn:Etr; [|done]. exfalso.
  pose proof (has_asid_user _ _ _ (co_asids _ Hco') Ha) as Hua.
  destruct (co_agree _ Hco' va a raw) as (sp' & Ha' & pg' & Hl & _); [done|].
  rewrite <- (has_asid_unique _ _ _ _ (co_asids _ Hco') Ha Ha'), Htab', Hnone in Hl. discriminate.
Qed.
End Unmap.

(** ** Refills *)

(** addresses of the same 4 KB page have the same entry *)
Lemma page_index n w v : 0 <= n <= size_max -> w / 2 ^ 12 = v / 2 ^ 12 -> page_table_index n w = page_table_index n v.
Proof.
  intros Hn E. assert (12 <= page_shift n) as Hs.
  { unfold size_max, size_4g in Hn.
    assert (n = 0 \/ n = 1 \/ n = 2 \/ n = 3 \/ n = 4 \/ n = 5 \/ n = 6 \/ n = 7) as H by lia.
    destruct H as [->|[->|[->|[->|[->|[->|[->| ->]]]]]]]; vm_compute; discriminate. }
  unfold page_table_index. f_equal. replace (page_shift n) with (12 + (page_shift n - 12)) by lia.
  rewrite <- !Z.shiftr_shiftr, !(Z.shiftr_div_pow2 _ 12) by lia. now rewrite E.
Qed.

Lemma lookup_page k sp w v : w / 2 ^ 12 = v / 2 ^ 12 -> Ptab.lookup_mapping sp w k = Ptab.lookup_mapping sp v k.
Proof.
  intros E. assert (forall n pg, Z.of_nat n <= size_max -> lookup_loop n w pg k = lookup_loop n v pg k) as H.
  { induction n as [|n IH]; intros pg Hn; cbn [lookup_loop]; [done|].
    unfold descend. rewrite (page_index (Z.of_nat (S n) - 1) w v) by (done || lia). rewrite IH by lia. done. }
  unfold Ptab.lookup_mapping. rewrite (page_index _ w v) by (done || (unfold size_max, size_4g; lia)). apply H.
  unfold size_max, size_4g. lia.
Qed.

Lemma has_page_same s sp w v raw : w / 2 ^ 12 = v / 2 ^ 12 -> has_page s sp v raw -> has_page s sp w raw.
Proof. intros E (pg & Hl & Hr). exists pg. now rewrite (lookup_page _ _ w v). Qed.

(** a buffer whose translations are old ones or pages of [sp] *)
Lemma coherent_cpu s c : coherent s -> tlb_ok c ->
  (forall w b raw, user_vaddr w -> user_asid b -> translate c w b = Some raw ->
     translate (ks_cpu s) w b = Some raw \/ exists sp, has_asid s sp b /\ has_page s sp w raw) ->
  coherent (ks_with_cpu c s).
Proof.
  intros Hco Hc Htr. split; [exact Hc|exact (co_asids _ Hco)|]. intros w b raw (Hw & Hb & Ht).
  destruct (Htr w b raw Hw Hb Ht) as [H|H]; [|exact H]. now apply (co_agree _ Hco).
Qed.

Lemma coherent_put s sp v a raw : coherent s -> is_slot (cpu_random (ks_cpu s)) -> user_vaddr v ->
  has_asid s sp a -> has_page s sp v raw -> user_raw raw ->
  coherent (ks_with_cpu (put_tc v 12 a raw (ks_cpu s)) s).
Proof.
  intros Hco Hr Hv Ha Hp Hraw. pose proof (has_asid_user _ _ _ (co_asids _ Hco) Ha) as Hua.
  destruct (put_tc_page (ks_cpu s) v a raw (co_tlb _ Hco) Hr Hv Hua Hraw) as (P1 & P2 & P3).
  apply coherent_cpu; [done..|]. intros w b raw' Hw Hb Ht.
  destruct (decide (w / 2 ^ 12 = v / 2 ^ 12 /\ b = a)) as [[E ->]|Hne].
  - right. exists sp. rewrite (translate_page _ v w a E), P2 in Ht. injection Ht as <-.
    split; [done|]. now apply (has_page_same _ _ _ v).
  - left. destruct (P3 w b Hw Hb) as [<-|E]; [intros [H1 H2]; now apply Hne|done|congruence].
Qed.

(** the user pages of [sp] are 4 KB pages that the buffer can hold *)
Definition small_pages s (sp : Z) : Prop :=
  forall w pg size, user_vaddr w -> Ptab.lookup_mapping sp w (tables s) = Some (pg, size) ->
    size = size_4k /\ user_raw (Pgent.raw_at (tables s) pg).

(** C12 A refill for a space whose user pages are all 4 KB pages ([small_pages]; for
    larger ones [put_tc] installs a wrong page) keeps the translation buffer in
    agreement with the page tables.
    For an address of the space without an entry in the buffer the handler reports
    a fault exactly if the page table has no translation, and then changes
    nothing; otherwise the address translates as the page table says. *)
Theorem refill_keeps_coherence g s sp v a :
  coherent s -> is_slot (cpu_random (ks_cpu s)) -> user_vaddr v -> sp <> NULL -> has_asid s sp a ->
  tlbp (page_hi v a) (ks_cpu s) = None -> small_pages s sp ->
  exists b s', handle_xtlb_miss (VirtualMemory0 := space_vm g) asid_get sp v s = Ok (b, s') /\ coherent s' /\
    if b then exists raw, has_page s sp v raw /\ translate (ks_cpu s') v a = Some raw
    else s' = s /\ Ptab.lookup_mapping sp v (tables s) = None.
Proof.
  intros Hco Hr Hv Hsp Ha Hmiss Hsmall. pose proof (has_asid_user _ _ _ (co_asids _ Hco) Ha) as Hua.
  destruct (buddy_address v Hv) as (_ & Hbv & _).
  destruct (Ptab.lookup_mapping sp v (tables s)) as [[pg size]|] eqn:El.
  2: { exists false, s. split; [|done]. unfold handle_xtlb_miss, space_or_kernel.
       rewrite bind_assoc, bind_gets, bind_ret_l. replace (sp =? NULL) with false by (symmetry; now apply Z.eqb_neq).
       rewrite user_fault_address by done. unfold lift. cbn [vm_lookup_mapping space_vm].
       unfold bind at 1, gets. unfold tables in El. rewrite El. cbn [option_map]. now destruct s. }
  destruct (Hsmall v pg size Hv El) as [-> Hraw].
  set (entry x := option_map (found_mapping (ks_vm s)) (Ptab.lookup_mapping sp x (tables s))).
  assert (forall x m, user_vaddr x -> entry x = Some m -> has_page s sp x (mapped_raw m) /\ user_raw (mapped_raw m)) as Hentry.
  { intros x m Hx. unfold entry. destruct (Ptab.lookup_mapping sp x (tables s)) as [[pg' size']|] eqn:E; [|done].
    destruct (Hsmall x pg' size' Hx E) as [-> Hraw']. intros [= <-]. split; [|exact Hraw']. now exists pg'. }
  destruct (refill_installs_page_table (VirtualMemory0 := space_vm g) asid_get sp v a
    (found_mapping (ks_vm s) (pg, size_4k)) (entry (buddy_of v)) s) as (c' & E & W1 & W2 & W3 & W4);
    [exact (co_tlb _ Hco)|exact Hr|exact Hv|exact Hua|exact Hsp|exact Hmiss|now apply asid_get_valid| |reflexivity|exact Hraw|
     reflexivity|intros m' Hm'; now apply (Hentry (buddy_of v))|].
  { cbn [vm_lookup_mapping space_vm]. unfold gets. fold (tables s). now rewrite El. }
  exists true, (ks_with_cpu c' s). split; [exact E|]. split.
  2: { exists (Pgent.raw_at (tables s) pg). split; [now exists pg|exact W2]. }
  apply coherent_cpu; [done..|]. intros w b raw Hw Hb Ht.
  destruct (decide (w / 2 ^ 12 = v / 2 ^ 12 /\ b = a)) as [[Ew ->]|Hne].
  { right. exists sp. rewrite (translate_page _ v w a Ew), W2 in Ht. injection Ht as <-. split; [done|].
    apply (has_page_same _ _ _ v); [done|]. now exists pg. }
  destruct (decide (entry (buddy_of v) <> None /\ w / 2 ^ 12 = buddy_of v / 2 ^ 12 /\ b = a)) as [(He & Ew & ->)|Hnb].
  - destruct (entry (buddy_of v)) as [m'|] eqn:Em; [|done]. right. exists sp. split; [done|].
    rewrite (translate_page _ (buddy_of v) w a Ew), (W3 m' eq_refl) in Ht. injection Ht as <-.
    apply (has_page_same _ _ _ (buddy_of v)); [done|]. now apply Hentry.
  - left. destruct (W4 w b Hw Hb) as [<-|E']; [intros [H1 H2]; now apply Hne| |exact Ht|congruence].
    intros He [H1 H2]. apply Hnb. split; [exact He|]. now split.
Qed.

End Theory.

(** ** An example

    The two spaces of [shared_page], with the numbers 1 and 2; the page at 2^32 is
    in the translation buffer for both. *)

Definition numbered (c : Asid.asid_cache) (sp : Z) : Asid.asid_cache :=
  match Asid.get (get_asid sp) c with Ok (_, c') => c' | _ => c end.
Definition two_numbers : Asid.asid_cache := numbered (numbered Asid.example_cache 0x10000) 0x20000.

Lemma two_numbers_ok : Asid.asid_ok two_numbers [3].
Proof.
  destruct (Asid.get_fresh (get_asid 0x10000) _ _ _ Asid.example_cache_ok) as (c1 & E1 & O1 & _ & H1);
    [discriminate|vm_compute; reflexivity|].
  assert (numbered Asid.example_cache 0x10000 = c1) as Ec by (unfold numbered; now rewrite E1).
  destruct (Asid.get_fresh (get_asid 0x20000) c1 2 [3] O1) as (c2 & E2 & O2 & _); [discriminate| |].
  { rewrite <- Ec. vm_compute. reflexivity. }
  unfold two_numbers, numbered at 1. rewrite Ec, E2. exact O2.
Qed.

Definition example_fpage : Z := fpage_set (2 ^ 32) 12 true true true.
Definition example_tcb : tcb := tcb_with_space 0x10000 (tcb_with_utcb 4096 zero_tcb).
Definition shared_state (c : cpu_t) : kstate vmem :=
  ks_with_cpu c (ks_with_current_tcb 2
    (upd_tcb 2 (fun _ => example_tcb) (upd_utcb 4096 (utcb_with_word 0 example_fpage) (boot_state (Vmem shared_page two_numbers []))))).
Definition example_globals : globals := Globals 20 0x8000 0x9000 NULL NULL NULL.
Definition page_raw : Z := Pgent.set_entry 0 0x7000 true true true false.

Lemma translate_init c w a : user_vaddr w -> user_asid a -> translate (init_tlb c) w a = None.
Proof.
  intros Hw Ha. rewrite translate_unfold. destruct (tlbp _ _) as [i|] eqn:E; [|done].
  destruct (tlbp_some _ _ _ E) as [Hi _]. rewrite slot_init by done. now destruct (Translation.is_odd w 12).
Qed.

Lemma shared_state_asids c : has_asid (shared_state c) 0x10000 1 /\ has_asid (shared_state c) 0x20000 2.
Proof. vm_compute. intuition congruence. Qed.

Lemma shared_state_pages c : has_page (shared_state c) 0x10000 (2 ^ 32) page_raw /\
  has_page (shared_state c) 0x20000 (2 ^ 32) page_raw.
Proof. split; [exists (kseg 0x40000)|exists (kseg 0x60000)]; vm_compute; intuition congruence. Qed.

Lemma shared_state_empty : coherent (shared_state example_cpu).
Proof.
  split; [apply init_tlb_ok|exists [3]; exact two_numbers_ok|].
  intros w a raw (Hw & Ha & Ht). change (ks_cpu _) with example_cpu in Ht. unfold example_cpu in Ht.
  rewrite translate_init in Ht by done. discriminate.
Qed.

Definition cpu_one : cpu_t := cpu_with_random 1 (put_tc (2 ^ 32) 12 1 page_raw example_cpu).
Definition cpu_two : cpu_t := put_tc (2 ^ 32) 12 2 page_raw cpu_one.

Lemma page_raw_user : user_raw page_raw.
Proof. vm_compute. intuition congruence. Qed.

Lemma shared_state_put c sp a : coherent (shared_state c) -> is_slot (cpu_random c) ->
  has_asid (shared_state c) sp a -> has_page (shared_state c) sp (2 ^ 32) page_raw ->
  coherent (shared_state (put_tc (2 ^ 32) 12 a page_raw c)).
Proof.
  intros Hco Hr Ha Hp. assert (user_vaddr (2 ^ 32)) as Hv by (unfold user_vaddr; lia).
  exact (coherent_put (shared_state c) sp (2 ^ 32) a page_raw Hco Hr Hv Ha Hp page_raw_user).
Qed.

(** where the next random write goes does not matter *)
Lemma shared_state_random i c : coherent (shared_state c) -> coherent (shared_state (cpu_with_random i c)).
Proof.
  intros [[H1 H2] Ha Hc]. split; [split; [exact H1|exact H2]|exact Ha|]. intros w a raw H. exact (Hc w a raw H).
Qed.

Lemma example_slot : is_slot (cpu_random example_cpu).
Proof. vm_compute. intuition congruence. Qed.
Lemma cpu_one_slot : is_slot (cpu_random cpu_one).
Proof. vm_compute. intuition congruence. Qed.

Lemma shared_state_one : coherent (shared_state cpu_one).
Proof.
  apply shared_state_random. exact (shared_state_put example_cpu 0x10000 1 shared_state_empty example_slot
           (proj1 (shared_state_asids _)) (proj1 (shared_state_pages _))).
Qed.

Lemma shared_state_two : coherent (shared_state cpu_two).
Proof.
  exact (shared_state_put cpu_one 0x20000 2 shared_state_one cpu_one_slot
           (proj2 (shared_state_asids _)) (proj2 (shared_state_pages _))).
Qed.

Lemma translate_random i c w a : translate (cpu_with_random i c) w a = translate c w a.
Proof. reflexivity. Qed.

(** nothing else is cached *)
Lemma shared_state_cached w a raw : cached (shared_state cpu_two) w a raw ->
  w / 2 ^ 12 = 2 ^ 32 / 2 ^ 12 /\ (a = 1 \/ a = 2).
Proof.
  assert (H : forall c v b raw w a raw', tlb_ok c -> is_slot (cpu_random c) -> user_vaddr v -> user_asid b -> user_raw raw ->
    user_vaddr w -> user_asid a -> translate (put_tc v 12 b raw c) w a = Some raw' ->
    (w / 2 ^ 12 = v / 2 ^ 12 /\ a = b) \/ translate c w a = Some raw').
  { intros c v b raw0 w0 a0 raw' H1 H2 H3 H4 H5 Hw Ha Ht.
    destruct (put_tc_page c v b raw0 H1 H2 H3 H4 H5) as (_ & _ & P).
    destruct (decide (w0 / 2 ^ 12 = v / 2 ^ 12 /\ a0 = b)) as [?|Hne]; [now left|right].
    destruct (P w0 a0 Hw Ha) as [<-|E]; [intros [E1 E2]; now apply Hne|done|congruence]. }
  intros (Hw & Ha & Ht). change (ks_cpu _) with cpu_two in Ht. unfold cpu_two in Ht.
  apply H in Ht as [[E ->]|Ht]; [split; [exact E|now right]|..];
    [|exact (co_tlb _ shared_state_one)|exact cpu_one_slot|vm_compute; intuition congruence|
      vm_compute; intuition congruence|exact page_raw_user|exact Hw|exact Ha].
  unfold cpu_one in Ht. rewrite translate_random in Ht.
  apply H in Ht as [[E ->]|Ht]; [split; [exact E|now left]|..];
    [|exact (co_tlb _ shared_state_empty)|vm_compute; intuition congruence|vm_compute; intuition congruence|
      vm_compute; intuition congruence|exact page_raw_user|exact Hw|exact Ha].
  unfold example_cpu in Ht. rewrite translate_init in Ht by done. discriminate.
Qed.

(** the entries that can be reached below an entry are 4 KB pages *)
Fixpoint small_check (n : nat) (pg : Z) (k : kmem_t) : bool :=
  let size := Z.of_nat n in
  let raw := Pgent.raw_at k pg in
  if Pgent.is_valid size raw then
    if Pgent.is_subtree size raw then
      match n with
      | O => true
      | S m => forallb (fun i => small_check m (Pgent.next (size - 1) i (Pgent.subtree size pg raw)) k)
                 (seqZ 0 (page_table_size (size - 1)))
      end
    else (size =? size_4k) && bf_flag Translation.f_valid raw && (bf_get Translation.f_global raw =? 0) &&
         (bf_get Translation.f_rid raw =? 0)
  else true.

Lemma page_table_index_range n w : 0 <= n <= size_max -> 0 <= page_table_index n w < page_table_size n.
Proof.
  intros Hn. unfold size_max, size_4g in Hn. unfold page_table_index.
  assert (n = 0 \/ n = 1 \/ n = 2 \/ n = 3 \/ n = 4 \/ n = 5 \/ n = 6 \/ n = 7) as H by lia.
  destruct H as [->|[->|[->|[->|[->|[->|[->| ->]]]]]]];
    match goal with |- context [page_table_size ?n] =>
      let m := eval vm_compute in (page_table_size n) in change (page_table_size n) with m;
      let l := eval vm_compute in (Z.log2 m) in
      change (m - 1) with (Z.ones l); rewrite Z.land_ones by lia; change m with (2 ^ l);
      apply Z.mod_pos_bound; lia
    end.
Qed.

Lemma small_check_ok k w n pg pg' size : Z.of_nat n <= size_max -> small_check n pg k = true ->
  lookup_loop n w pg k = Some (pg', size) -> size = size_4k /\ user_raw (Pgent.raw_at k pg').
Proof.
  revert pg. induction n as [|n IH]; intros pg Hn Hc Hl; cbn [small_check lookup_loop] in Hc, Hl;
    (destruct (Pgent.is_valid (Z.of_nat _) _) in Hc, Hl; [|discriminate Hl]);
    (destruct (Pgent.is_subtree (Z.of_nat _) _) in Hc, Hl;
     [|injection Hl as <- <-; apply andb_prop in Hc as [[[H1 H2]%andb_prop H3]%andb_prop H4]; apply Z.eqb_eq in H1, H3, H4; now split]); [discriminate|].
  refine (IH _ _ _ Hl); [lia|]. rewrite forallb_forall in Hc. apply Hc, list_elem_of_In, elem_of_seqZ.
  apply page_table_index_range. lia.
Qed.

Definition small_space (k : kmem_t) (sp : Z) : bool :=
  forallb (fun i => small_check (Z.to_nat size_max) (Ptab.pgent sp i) k) (seqZ 0 (page_table_size size_max)).

Lemma small_space_ok k sp w pg size : small_space k sp = true -> Ptab.lookup_mapping sp w k = Some (pg, size) ->
  size = size_4k /\ user_raw (Pgent.raw_at k pg).
Proof.
  intros Hc Hl. unfold small_space in Hc. rewrite forallb_forall in Hc.
  refine (small_check_ok k w (Z.to_nat size_max) _ pg size _ (Hc _ _) Hl);
    [unfold size_max, size_4g; lia|].
  apply list_elem_of_In, elem_of_seqZ. apply page_table_index_range. unfold size_max, size_4g. lia.
Qed.

Lemma shared_state_tables c : tables (shared_state c) = md_kmem shared_page.
Proof. reflexivity. Qed.

Lemma shared_state_small c : small_pages (shared_state c) 0x10000.
Proof.
  intros w pg size _. rewrite shared_state_tables. apply small_space_ok. vm_compute. reflexivity.
Qed.

Lemma refill_keeps_coherence_witness :
  exists s', handle_xtlb_miss (VirtualMemory0 := space_vm example_globals) asid_get 0x10000 (2 ^ 32)
               (shared_state example_cpu) = Ok (true, s') /\ coherent s' /\
    translate (ks_cpu s') (2 ^ 32) 1 = Some page_raw.
Proof.
  destruct (refill_keeps_coherence example_globals (shared_state example_cpu) 0x10000 (2 ^ 32) 1 shared_state_empty)
    as (b & s' & E & Hco & H).
  - vm_compute; intuition congruence.
  - vm_compute; intuition congruence.
  - discriminate.
  - exact (proj1 (shared_state_asids _)).
  - vm_compute; reflexivity.
  - apply shared_state_small.
  - destruct b.
    + destruct H as (raw & (pg & Hl & Hr) & Ht). exists s'. split; [exact E|]. split; [exact Hco|].
      assert (Some (pg, size_4k) = Some (kseg 0x40000, size_4k)) as [= ->] by (rewrite <- Hl; vm_compute; reflexivity).
      rewrite Ht, <- Hr. vm_compute. reflexivity.
    + exfalso. destruct H as [_ H]. vm_compute in H. discriminate.
Defined.

Lemma reaches_page k sp w v pg n : w / 2 ^ 12 = v / 2 ^ 12 -> reaches k sp w pg n -> reaches k sp v pg n.
Proof.
  intros E. induction 1 as [|pg size H IH Hpos Hv Hs].
  - rewrite (page_index _ w v) by (done || (unfold size_max, size_4g; lia)). constructor.
  - pose proof (reaches_size _ _ _ _ _ H). unfold descend. rewrite (page_index _ w v) by (done || lia).
    constructor; done.
Qed.

Lemma way_apart_all s sp w vaddr pgs : w / 2 ^ 12 = vaddr / 2 ^ 12 -> way_check (md_kmem s) sp vaddr pgs = true ->
  way_apart s example_live example_owned sp w (-1) pgs.
Proof.
  intros E Hc pg' n Hr Hn. apply (reaches_page _ _ _ _ _ _ E) in Hr. pose proof (reaches_size _ _ _ _ _ Hr).
  destruct (way_check_ok _ _ _ _ _ _ Hc Hr) as [H1 H2].
  split; [now apply example_foreign|]. intros pg Hpg. destruct (H2 pg Hpg) as [H3 H4]. split; [done|].
  intros E'. specialize (H4 E'). assert (n = 0 \/ n = 1 \/ n = 2 \/ n = 3 \/ n = 4) as [->|[->|[->|[->| ->]]]] by lia; reflexivity.
Qed.

(** the removed mappings: the page itself and what it was mapped on to *)
Definition removed_maps : list (Z * Z) := [(8096, kseg 0x40000); (8072, kseg 0x60000)].

Lemma removed_purge c :
  purge (mdb (shared_state c)) 12 (8096, kseg 0x40000) = TlbFlush 0x10000 (2 ^ 32) 12 /\
  purge (mdb (shared_state c)) 12 (8072, kseg 0x60000) = TlbFlush 0x20000 (2 ^ 32) 12.
Proof.
  destruct shared_page_nodes as (_ & N1 & N2). unfold purge. cbn [fst snd].
  change (mdb (shared_state c)) with shared_page. rewrite N1, N2. split; vm_compute; reflexivity.
Qed.

Lemma shared_state_owner sp a raw w : cached (shared_state cpu_two) w a raw -> has_asid (shared_state cpu_two) sp a ->
  w / 2 ^ 12 = 2 ^ 32 / 2 ^ 12 /\ (sp = 0x10000 \/ sp = 0x20000).
Proof.
  intros Hc Ha. destruct (shared_state_cached _ _ _ Hc) as [E Hcase]. split; [exact E|].
  pose proof (co_asids _ shared_state_two) as Hok. destruct (shared_state_asids cpu_two) as [A1 A2].
  destruct Hcase as [->| ->]; [left|right].
  - exact (has_asid_unique _ _ _ _ Hok Ha A1).
  - exact (has_asid_unique _ _ _ _ Hok Ha A2).
Qed.

Lemma removed_named e : e ∈ removed_maps ->
  flush_ok (purge (mdb (shared_state cpu_two)) 12 e) /\ named (shared_state cpu_two) e.
Proof.
  intros He. destruct (removed_purge cpu_two) as [P1 P2].
  assert (H : forall e f sp' sp2, purge (mdb (shared_state cpu_two)) 12 e = f ->
    f = TlbFlush sp' (2 ^ 32) 12 -> get_asid sp' <> NULL ->
    (sp' = 0x10000 /\ sp2 = 0x20000 \/ sp' = 0x20000 /\ sp2 = 0x10000) ->
    (forall pg, Ptab.lookup_mapping sp2 (2 ^ 32) (md_kmem shared_page) = Some (pg, size_4k) -> pg <> e.2) ->
    flush_ok (purge (mdb (shared_state cpu_two)) 12 e) /\ named (shared_state cpu_two) e).
  { intros e' f sp' sp2 Ef -> Hn Hsp Hother. unfold named. rewrite Ef. split.
    { split; [|split; [reflexivity|exact Hn]]. cbn [tf_vaddr]. unfold user_vaddr. lia. }
    intros sp w a raw Hc Ha Hl. destruct (shared_state_owner sp a raw w Hc Ha) as [Ew Hcase]. split; [|exact Ew].
    cbn [tf_space]. rewrite shared_state_tables, (lookup_page _ sp w (2 ^ 32) Ew) in Hl.
    assert (sp <> sp2) as Hne by (intros ->; exact (Hother _ Hl eq_refl)). lia. }
  unfold removed_maps in He. apply elem_of_cons in He as [->|He].
  - apply (H _ _ 0x10000 0x20000 eq_refl P1); [discriminate|lia|].
    intros pg Hl. change (pg <> kseg 0x40000). intros ->. vm_compute in Hl. discriminate.
  - apply list_elem_of_singleton in He as ->. apply (H _ _ 0x20000 0x10000 eq_refl P2); [discriminate|lia|].
    intros pg Hl. change (pg <> kseg 0x60000). intros ->. vm_compute in Hl. discriminate.
Qed.

Lemma removed_tables_apart : tables_apart (shared_state cpu_two) example_live example_owned removed_maps.*2.
Proof.
  intros sp w a raw Hc Ha. destruct (shared_state_owner sp a raw w Hc Ha) as [Ew Hcase].
  change (mdb (shared_state cpu_two)) with shared_page.
  destruct Hcase as [->| ->]; apply (way_apart_all _ _ _ (2 ^ 32)); try exact Ew; vm_compute; reflexivity.
Qed.

Lemma shared_page_revocable : revocable (inv := pools_inv 20) shared_page example_live example_owned
  0x10000 (2 ^ 32) 8120 8096 (kseg 0x40000) [(8072, kseg 0x60000)] [].
Proof.
  destruct shared_page_nodes as (N0 & N1 & N2). destruct shared_page_reach as [R1 R2].
  split.
  - reflexivity.
  - vm_compute. reflexivity.
  - apply (way_check_way_ok _ _ _ []). vm_compute. reflexivity.
  - exact R1.
  - vm_compute. reflexivity.
  - vm_compute. reflexivity.
  - vm_compute. reflexivity.
  - exact shared_page_inv.
  - simpl. intros a [->|[->|[->|[]%elem_of_nil]%elem_of_cons]%elem_of_cons]%elem_of_cons.
    + apply (example_live_at 2). lia.
    + apply (example_live_at 3). lia.
    + apply (example_live_at 4). lia.
  - apply (bool_decide_unpack _). vm_compute. exact I.
  - rewrite N0. repeat split.
  - cbn [chain app]. rewrite N1, N2. repeat split.
  - simpl. intros e [->|[->|[]%elem_of_nil]%elem_of_cons]%elem_of_cons; apply example_entry_ok; vm_compute; congruence.
  - cbn [entries_apart fmap list_fmap snd]. split; [|split; [|exact I]].
    + intros pg q ->%list_elem_of_singleton [->| ->] [E|E]; vm_compute in E; discriminate.
    + intros pg q []%elem_of_nil.
  - simpl. intros a ->%list_elem_of_singleton. rewrite N1, N2. reflexivity.
  - simpl. intros a [=].
Qed.

Lemma sys_unmap_revokes_access_witness :
  translate cpu_two (2 ^ 32) 1 = Some page_raw /\ translate cpu_two (2 ^ 32) 2 = Some page_raw /\
  exists s', (sys_unmap (VirtualMemory0 := space_vm example_globals) (2 ^ 6) ;;; update_tlb) (shared_state cpu_two) = Ok (tt, s') /\
    Ptab.lookup_mapping 0x20000 (2 ^ 32) (tables s') = None /\
    (forall a, has_asid s' 0x20000 a -> translate (ks_cpu s') (2 ^ 32) a = None).
Proof.
  split; [vm_compute; reflexivity|]. split; [vm_compute; reflexivity|].
  destruct (sys_unmap_revokes_access (fuel := 20) (inv := pools_inv 20) example_globals (shared_state cpu_two)
    example_live example_owned (2 ^ 32) 8120 8096 (kseg 0x40000) [(8072, kseg 0x60000)] []) as (s' & E & _ & Hgone).
  - reflexivity.
  - discriminate.
  - discriminate.
  - discriminate.
  - vm_compute. reflexivity.
  - vm_compute. reflexivity.
  - vm_compute. reflexivity.
  - exact shared_state_two.
  - reflexivity.
  - reflexivity.
  - exact shared_page_revocable.
  - exact removed_named.
  - exact removed_tables_apart.
  - exists [3]. split; [exact two_numbers_ok|]. cbn [map]. destruct (removed_purge cpu_two) as [-> ->]. vm_compute. lia.
  - lia.
  - simpl. lia.
  - exists s'. split; [exact E|]. destruct (Hgone 0x20000 (2 ^ 32) (kseg 0x60000)) as [H1 H2].
    + right; left.
    + exact (proj2 shared_page_reach).
    + vm_compute. reflexivity.
    + apply way_check_apart. vm_compute. reflexivity.
    + split; [exact H1|]. intros a. apply H2. unfold user_vaddr. lia.
Defined.
