(* ===== verification/Memcontrol.v ===== *)
(** * The MemoryControl system call

    [glue/v4-mips64/memcontrol.cc]: the memory attributes of the pages of an
    fpage, over page tables, translation buffer and caches (the instance of file
    Spacevm). *)

From Stdlib Require Import ZArith Lia Bool List.
From stdpp Require Import base numbers list option gmap.
From S2P Require Import Prelude Types Time Kip ThreadId Fpage State Msg Ring Monad Kmem Pgent Cache Ptab MdbAlloc Mdb.
From S2P Require Import Walker Walkmap Tcb Sched Vspace Tlb Spacevm Coherence.
From S2P Require Asid Schedule Timer.
Open Scope Z_scope.

(** ** Attributes *)

Inductive attribute_e :=
| a_l4default | a_uncached | a_write_back | a_write_through | a_write_through_noalloc | a_flush_i | a_flush_d.
(** a word converted to the enumeration, which has 32 bits *)
Definition attribute_of (att : Z) : option attribute_e :=
  let a := w32 att in
  if a =? 0 then Some a_l4default else if a =? 1 then Some a_uncached else if a =? 2 then Some a_write_back
  else if a =? 3 then Some a_write_through else if a =? 4 then Some a_write_through_noalloc
  else if a =? 30 then Some a_flush_i else if a =? 31 then Some a_flush_d else None.
(** [new_att], for the attributes that modify *)
Definition new_att (a : attribute_e) : option Z :=
  match a with
  | a_l4default => Some Translation.l4default
  | a_uncached => Some (Translation.memattrib_val Translation.uncached)
  | a_write_back => Some (Translation.memattrib_val Translation.write_back)
  | a_write_through => Some (Translation.memattrib_val Translation.write_through)
  | a_write_through_noalloc => Some (Translation.memattrib_val Translation.write_through_noalloc)
  | a_flush_i | a_flush_d => None
  end.

Abbreviation K := (M (kstate vmem)).

(** an operation on the page tables *)
Definition on_tables {A} (m : MD A) : K A := lift (on_mdb m).

(** ** [attrib_fpage] *)

(** the variables of a round.  Going down into a subtree the code saves [pg] and
    [num] in [r_pg] and [r_num], which nothing ever reads. *)
Record attrib_t := Attrib { at_num : Z; at_size : Z; at_pg : Z; at_vaddr : Z }.

(** where a round ends: the next one, or [return] *)
Inductive attrib_end := Next_round (v : attrib_t) | Return (r : Z).

Definition invalid_fpage (current : Z) : K attrib_end := set_error_code current 9 ;;; ret (Return 1).

(** [Next_entry] *)
Definition next_entry (v : attrib_t) : attrib_end :=
  Next_round (Attrib (w64 (at_num v - 1)) (at_size v) (Pgent.next (at_size v) 1 (at_pg v))
                (addr_offset (at_vaddr v) (page_size (at_size v)))).

(** the page of a round *)
Definition attrib_page (current space : Z) (attrib : option attribute_e) (v : attrib_t) : K attrib_end :=
  match attrib with
  | None => set_error_code current Schedule.EINVALID_PARAM ;;; ret (Return 1)
  | Some a_flush_d => Timer.cache_do (flush_cache_page (at_vaddr v) (at_size v)) ;;; ret (next_entry v)
  | Some a_flush_i => Timer.cache_do (flush_icache_page (at_vaddr v) (at_size v)) ;;; ret (next_entry v)
  | Some a =>
      flush_tlbent (TlbFlush space (at_vaddr v) (page_shift (at_size v))) ;;;
      on_tables (pg_upd (at_pg v) (Translation.set_attrib (default 0 (new_att a)))) ;;;
      ret (next_entry v)
  end.

Definition attrib_round (current space : Z) (attrib : option attribute_e) (pgsize : Z) (v : attrib_t) : K attrib_end :=
  let size := at_size v in
  if negb (Vspace.is_user_area (at_vaddr v)) then ret (Return 0) else
  let* raw := on_tables (entry (at_pg v)) in
  if size >? pgsize then
    if negb (Pgent.is_valid size raw) then ret (Return 0)
    else if Pgent.is_subtree size raw then
      let* pg := on_tables (subtree_entry (at_pg v) size (at_vaddr v)) in
      ret (Next_round (Attrib (at_num v) (size - 1) pg (at_vaddr v)))
    else invalid_fpage current
  else if negb (Pgent.is_valid size raw) then ret (next_entry v)
  else if Pgent.is_subtree size raw then
    let* pg := on_tables (subtree_table (at_pg v) size) in
    ret (Next_round (Attrib (page_table_size (size - 1)) (size - 1) pg (at_vaddr v)))
  else
    let* ok := on_tables (is_mappable space (at_vaddr v)) in
    if ok then attrib_page current space attrib v else ret (next_entry v).

Fixpoint attrib_loop (n : nat) (current space : Z) (attrib : option attribute_e) (pgsize : Z) (v : attrib_t) : K Z :=
  if at_num v =? 0 then ret 0 else
  match n with
  | O => hang
  | S n =>
      let* r := attrib_round current space attrib pgsize v in
      match r with
      | Next_round v => attrib_loop n current space attrib pgsize v
      | Return r => ret r
      end
  end.
Definition ATTRIB_FUEL : nat := 1000.

Definition attrib_fpage (current fpage : Z) (attrib : option attribute_e) : K Z :=
  let* space := get_space current in
  let num := get_size_log2 fpage in
  let vaddr := Walker.address fpage num in
  if num <? page_shift size_4k then set_error_code current 9 ;;; ret 1 else
  let num := if num >? page_shift (size_max + 1) then page_shift (size_max + 1) else num in
  let pgsize := fpage_pgsize num in
  attrib_loop ATTRIB_FUEL current space attrib pgsize
    (Attrib (shl64 1 (num - page_shift pgsize)) size_max (pgent space (page_table_index size_max vaddr)) vaddr).

(** ** The system call *)

Section SystemCall.
Variable g : globals.

(** one fpage: [Some r] to return [r] *)
Definition memory_control_item (fp_idx attribute0 attribute1 attribute2 attribute3 : Z) : K (option Z) :=
  let* current := get_current_tcb in
  let* space := get_space current in
  let* fpage := get_mr current fp_idx in
  if is_nil_fpage fpage then ret None else
  let kind := Z.land fpage 3 in
  let att := if kind =? 0 then attribute0 else if kind =? 1 then attribute1
             else if kind =? 2 then attribute2 else attribute3 in
  let addr := Walker.address fpage (get_size_log2 fpage) in
  let* found := lift (vm_lookup_mapping (VirtualMemory := space_vm g) space addr) in
  let* refused :=
    match found with
    | Some _ => ret false
    | None =>
        let* sp := get_space current in
        let* sigma0 := gets (fun s => is_sigma0_space s sp) in
        if negb sigma0 then set_error_code current Schedule.ENO_PRIVILEGE ;;; ret true
        else lift (vm_map_sigma0 (VirtualMemory := space_vm g) space addr) ;;; update_tlb ;;; ret false
    end in
  if refused then ret (Some 0) else
  let* r := attrib_fpage current fpage (attribute_of att) in
  ret (if truth r then Some 0 else None).

Fixpoint memory_control_items (n : nat) (fp_idx attribute0 attribute1 attribute2 attribute3 : Z) : K Z :=
  match n with
  | O => ret 1
  | S n =>
      let* r := memory_control_item fp_idx attribute0 attribute1 attribute2 attribute3 in
      match r with
      | Some r => ret r
      | None => memory_control_items n (fp_idx + 1) attribute0 attribute1 attribute2 attribute3
      end
  end.

Definition sys_memory_control (control attribute0 attribute1 attribute2 attribute3 : Z) : K Z :=
  let* current := get_current_tcb in
  get_space current ;;;
  let* cspace := get_current_space in
  let* priv := gets (fun s => is_privileged_space s cspace) in
  if negb priv then set_error_code current Schedule.ENO_PRIVILEGE ;;; ret 0 else
  if control =? w64 (-2) then Timer.cache_do flush_cache_all ;;; ret 1 else
  if control >=? 2 ^ 6 then set_error_code current Schedule.EINVALID_PARAM ;;; ret 0 else
  memory_control_items (Z.to_nat (control + 1)) 0 attribute0 attribute1 attribute2 attribute3.
End SystemCall.

(** ** The loop ends *)

Section Theory.
Implicit Types s : kstate vmem.

(** reading page tables *)
Definition reads {A} (m : MD A) : Prop := forall k, ends m k (fun _ k' => k' = k).

Lemma reads_bind {A B} (m : MD A) (f : A -> MD B) : reads m -> (forall a, reads (f a)) -> reads (bind m f).
Proof.
  intros Hm Hf k. apply (ends_bind _ _ _ (fun _ k' => k' = k)); [apply Hm|]. intros a k' ->. apply Hf.
Qed.
Lemma reads_ret {A} (a : A) : reads (ret a).
Proof. intros k. reflexivity. Qed.
Lemma reads_pg_get {A} pg (f : kmem_t -> A) : reads (pg_get pg f).
Proof. intros k. unfold pg_get, of_option, ends. destruct (pg =? NULL); [exact I|reflexivity]. Qed.
Lemma reads_rd p o : reads (rd p o).
Proof. intros k. unfold rd, of_option, ends. destruct (p =? NULL); [exact I|reflexivity]. Qed.
Lemma reads_is_mappable sp v : reads (is_mappable sp v).
Proof.
  unfold is_mappable, get_kip_page_area, get_utcb_page_area. destruct (negb _); [apply reads_ret|].
  apply reads_bind; [apply reads_rd|]. intros kip. destruct (is_addr_in_fpage _ _); [apply reads_ret|].
  apply reads_bind; [apply reads_rd|]. intros utcb. apply reads_ret.
Qed.

Lemma on_tables_reads {A} (m : MD A) s : reads m -> ends (on_tables m) s (fun _ s' => s' = s).
Proof.
  intros Hm. specialize (Hm (mdb s)). unfold on_tables, lift, on_mdb, ends in *. fold (mdb s).
  destruct (m (mdb s)) as [[a k]| |]; [|done|done]. rewrite Hm. unfold vm_with_mdb, mdb.
  destruct s as [? ? ? [? ? ?] ? ? ? ? ? ? ? ? ? ? ? ?]. reflexivity.
Qed.

(** at most [n] words of memory differ; the numbers of spaces stay *)
Definition differ (n : nat) s s' : Prop :=
  (exists l, (length l <= n)%nat /\ forall p, p ∉ l -> load (mem (tables s')) p = load (mem (tables s)) p) /\
  (forall sp a, has_asid s sp a -> has_asid s' sp a).

Lemma differ_same n s s' : mem (tables s') = mem (tables s) -> asids s' = asids s -> differ n s s'.
Proof.
  intros E1 E2. split; [exists []; split; [simpl; lia|]; intros p _; now rewrite E1|].
  intros sp a. unfold has_asid. now rewrite E2.
Qed.
Lemma differ_trans n m s s1 s' : differ n s s1 -> differ m s1 s' -> differ (n + m) s s'.
Proof.
  intros [(l & Hl & E1) A1] [(l' & Hl' & E2) A2]. split; [|auto]. exists (l ++ l'). rewrite length_app. split; [lia|].
  intros p [H1 H2]%not_elem_of_app. now rewrite E2, E1.
Qed.
Lemma differ_weaken n m s s' : (n <= m)%nat -> differ n s s' -> differ m s s'.
Proof. intros H [(l & Hl & E) A]. split; [|exact A]. exists l. split; [lia|exact E]. Qed.

(** entries of the tables below a size *)
Fixpoint entries_below (n : nat) : Z :=
  match n with
  | O => 0
  | S n => entries_below n + page_table_size (Z.of_nat n) + 1
  end.
Definition rounds_left (v : attrib_t) : Z := at_num v + entries_below (Z.to_nat (at_size v)).
Definition place_ok (v : attrib_t) : Prop := 0 <= at_num v < 2 ^ 64 /\ 0 <= at_size v <= size_max.

Lemma size_cases n : 0 <= n <= size_max -> n = 0 \/ n = 1 \/ n = 2 \/ n = 3 \/ n = 4 \/ n = 5 \/ n = 6 \/ n = 7.
Proof. unfold size_max, size_4g. lia. Qed.

Lemma entries_below_down n : 0 < n <= size_max -> 0 < page_table_size (n - 1) < 2 ^ 64 /\
  page_table_size (n - 1) + entries_below (Z.to_nat (n - 1)) + 1 = entries_below (Z.to_nat n).
Proof.
  intros Hn. destruct (size_cases n) as [->|[->|[->|[->|[->|[->|[->| ->]]]]]]]; [lia|lia|..];
    (split; [split; reflexivity|reflexivity]).
Qed.
Lemma entries_below_nonneg n : 0 <= n <= size_max -> 0 <= entries_below (Z.to_nat n) <= 287.
Proof.
  intros Hn. destruct (size_cases n Hn) as [->|[->|[->|[->|[->|[->|[->| ->]]]]]]]; (split; [discriminate|discriminate]).
Qed.

Definition round_ok (v : attrib_t) (r : attrib_end) : Prop :=
  match r with
  | Next_round v' => place_ok v' /\ rounds_left v' < rounds_left v
  | Return _ => True
  end.

Lemma next_entry_ok v : place_ok v -> at_num v <> 0 -> round_ok v (next_entry v).
Proof.
  intros [Hn Hs] H0. unfold round_ok, next_entry, place_ok, rounds_left. cbn [at_num at_size].
  rewrite wrap_small by lia. lia.
Qed.

Lemma set_error_code_ends p e s : ends (set_error_code p e) s (fun _ s' => differ 0 s s').
Proof.
  unfold set_error_code, utcb_set, ends. destruct (_ || _); [exact I|]. now apply differ_same.
Qed.

Lemma cache_do_ends r s : (exists l, r = Ok l) -> ends (Timer.cache_do r) s (fun _ s' => differ 0 s s').
Proof. intros [l ->]. now apply differ_same. Qed.

Lemma flush_tlbent_ends f s a : has_asid s (tf_space f) a -> ends (flush_tlbent f) s (fun _ s' => differ 0 s s').
Proof.
  intros Ha. unfold flush_tlbent, ends. rewrite (bind_ok _ _ _ _ _ (asid_get_valid _ _ _ Ha)). now apply differ_same.
Qed.

Lemma pg_upd_ends pg f s : ends (on_tables (pg_upd pg f)) s (fun _ s' => differ 1 s s').
Proof.
  unfold on_tables, lift, on_mdb, pg_upd, pg_do, of_option, ends. destruct (pg =? NULL); [exact I|].
  split; [|done]. exists [pg]. split; [simpl; lia|]. intros p Hp.
  unfold tables, vm_kmem. cbn. apply load_store_ne. set_solver.
Qed.

Lemma attrib_page_ends current space attrib v s a : has_asid s space a -> place_ok v -> at_num v <> 0 ->
  ends (attrib_page current space attrib v) s (fun r s' => differ 1 s s' /\ round_ok v r).
Proof.
  intros Ha Hv H0. pose proof (next_entry_ok v Hv H0) as Hr. destruct Hv as [_ Hs].
  destruct (flush_page_total (at_vaddr v) (at_size v) Hs) as (d & i & Ed & Ei).
  assert (Hmod : forall b, ends (flush_tlbent (TlbFlush space (at_vaddr v) (page_shift (at_size v))) ;;;
    on_tables (pg_upd (at_pg v) (Translation.set_attrib b)) ;;; ret (next_entry v)) s
    (fun r s' => differ 1 s s' /\ round_ok v r)).
  { intros b. eapply ends_bind; [exact (flush_tlbent_ends (TlbFlush _ _ _) s a Ha)|]. intros [] s1 H1.
    eapply ends_bind; [apply pg_upd_ends|]. intros [] s2 H2. split; [|exact Hr]. exact (differ_trans 0 1 _ _ _ H1 H2). }
  assert (Hfl : forall r, (exists l, r = Ok l) -> ends (Timer.cache_do r ;;; ret (next_entry v)) s
    (fun r s' => differ 1 s s' /\ round_ok v r)).
  { intros r Hl. eapply ends_bind; [apply cache_do_ends, Hl|]. intros [] s1 H1.
    split; [|exact Hr]. now apply (differ_weaken 0); [lia|]. }
  unfold attrib_page. destruct attrib as [[]|]; try apply Hmod; try (apply Hfl; eauto).
  eapply ends_bind; [apply set_error_code_ends|]. intros [] s1 H1. split; [|exact I]. now apply (differ_weaken 0); [lia|].
Qed.

(** a read from the tables, then the rest *)
Lemma ends_read {A B} (m : MD A) (f : A -> K B) s Q : reads m -> (forall a, ends (f a) s Q) -> ends (bind (on_tables m) f) s Q.
Proof. intros Hm Hf. eapply ends_bind; [apply on_tables_reads, Hm|]. intros a s' ->. apply Hf. Qed.

Lemma reads_entry pg : reads (entry pg).
Proof. apply reads_pg_get. Qed.

Lemma attrib_round_ends current space attrib pgsize v s a :
  0 <= pgsize -> has_asid s space a -> place_ok v -> at_num v <> 0 ->
  ends (attrib_round current space attrib pgsize v) s (fun r s' => differ 1 s s' /\ round_ok v r).
Proof.
  intros Hpg Ha Hv H0. pose proof (next_entry_ok v Hv H0) as Hr.
  assert (Hret : forall r, round_ok v r -> ends (ret r) s (fun r s' => differ 1 s s' /\ round_ok v r))
    by (intros r H; split; [now apply differ_same|exact H]).
  assert (Hdown : forall (num pg : Z), at_size v > 0 -> (num = at_num v \/ num = page_table_size (at_size v - 1)) ->
    round_ok v (Next_round (Attrib num (at_size v - 1) pg (at_vaddr v)))).
  { intros num pg Hs Hnum. destruct Hv as [Hn Hsz]. destruct (entries_below_down (at_size v)) as [H1 H2]; [lia|].
    unfold round_ok, place_ok, rounds_left. cbn [at_num at_size]. destruct Hnum as [->| ->]; lia. }
  unfold attrib_round. destruct (negb _); [now apply Hret|].
  apply ends_read; [apply reads_entry|]. intros raw.
  destruct (Z.gtb_spec (at_size v) pgsize).
  - destruct (negb _); [now apply Hret|]. destruct (Pgent.is_subtree (at_size v) raw).
    + apply ends_read; [apply reads_bind; [apply reads_entry|intros; apply reads_ret]|]. intros pg.
      apply Hret, Hdown; [lia|now left].
    + eapply ends_bind; [apply set_error_code_ends|]. intros [] s1 H1. split; [|exact I]. now apply (differ_weaken 0); [lia|].
  - destruct (negb _); [now apply Hret|]. destruct (Pgent.is_subtree (at_size v) raw) eqn:Est.
    + apply ends_read; [apply reads_bind; [apply reads_entry|intros; apply reads_ret]|]. intros pg.
      apply Hret, Hdown; [|now right]. destruct (Z.eq_dec (at_size v) 0) as [E|]; [|destruct Hv; lia].
      exfalso. rewrite E in Est. unfold Pgent.is_subtree in Est. cbn [Pgent.is_tree_size] in Est.
      change (Pgent.is_tree_size 0) with false in Est. apply Z.ltb_lt in Est.
      assert (bf_ok Pgent.map_pgsize) as Hok by bf_side. pose proof (bf_get_bounds _ raw Hok). lia.
    + apply ends_read; [apply reads_is_mappable|]. intros ok. destruct ok; [|now apply Hret].
      now apply (attrib_page_ends _ _ _ _ _ a).
Qed.

Lemma rounds_left_nonneg v : place_ok v -> 0 <= rounds_left v.
Proof. intros [Hn Hs]. pose proof (entries_below_nonneg _ Hs). unfold rounds_left. lia. Qed.

Lemma attrib_loop_ends n current space attrib pgsize v s a :
  0 <= pgsize -> has_asid s space a -> place_ok v -> rounds_left v <= Z.of_nat n ->
  ends (attrib_loop n current space attrib pgsize v) s (fun _ s' => differ (Z.to_nat (rounds_left v)) s s').
Proof.
  intros Hpg. revert v s. induction n as [|n IH]; intros v s Ha Hv Hl; cbn [attrib_loop];
    destruct (Z.eqb_spec (at_num v) 0) as [E|Hne]; try now apply differ_same.
  - exfalso. destruct Hv as [Hn Hs]. pose proof (entries_below_nonneg _ Hs). unfold rounds_left in Hl. lia.
  - eapply ends_bind; [now apply (attrib_round_ends _ _ _ _ _ _ a)|]. intros r s1 [Hd Hr].
    destruct r as [v'|r].
    + destruct Hr as [Hv' Hlt]. eapply ends_weaken; [apply IH; [now apply Hd|exact Hv'|lia]|].
      intros x s' Hd'. apply (differ_weaken (1 + Z.to_nat (rounds_left v'))); [|exact (differ_trans _ _ _ _ _ Hd Hd')].
      pose proof (rounds_left_nonneg _ Hv'). lia.
    + apply (differ_weaken 1); [|exact Hd]. pose proof (entries_below_nonneg _ (proj2 Hv)). unfold rounds_left.
      destruct Hv. lia.
Qed.

(** the number of entries at the chosen page size *)
Lemma num_pgsize num : 12 <= num <= 41 -> 0 <= fpage_pgsize num /\ 0 < shl64 1 (num - page_shift (fpage_pgsize num)) <= 512.
Proof.
  intros H. assert (exists k, (k < 30)%nat /\ num = 12 + Z.of_nat k) as (k & Hk & ->) by (exists (Z.to_nat (num - 12)); lia).
  do 30 (destruct k as [|k]; [split; [discriminate|split; [reflexivity|discriminate]]|]). lia.
Qed.

(** C25 MemoryControl ends on every fpage, and changes little.  Whatever the page tables
    are, for a space that has an address space identifier, changing the attributes of an fpage
    does not loop for ever, and at most 799 words of memory are different afterwards: going
    down into a table the loop forgets where it came from, so of the complete address space, which can
    have 2^28 pages, and of any larger fpage, it changes the first tables only. *)
Theorem attrib_fpage_ends_early current fpage attrib s a :
  has_asid s (tcb_space (tcb_of s current)) a ->
  ends (attrib_fpage current fpage attrib) s (fun _ s' =>
    exists changed, (length changed <= 799)%nat /\
      forall p, p ∉ changed -> load (mem (tables s')) p = load (mem (tables s)) p).
Proof.
  intros Ha. unfold attrib_fpage.
  apply (ends_bind _ _ _ (fun sp s' => sp = tcb_space (tcb_of s current) /\ s' = s)).
  { unfold get_space, tcb_get, ends. destruct (current =? NULL); [exact I|done]. }
  intros space s' [Esp ->]. rewrite <- Esp in Ha. clear Esp.
  set (num0 := get_size_log2 fpage).
  destruct (Z.ltb_spec num0 (page_shift size_4k)) as [Hlt|Hge].
  - eapply ends_bind; [apply set_error_code_ends|]. intros [] s1 [(l & Hl & E) _]. exists l. split; [lia|exact E].
  - set (num := if _ >? _ then _ else _). assert (12 <= num <= 41) as Hnum.
    { unfold num. change (page_shift (size_max + 1)) with 41. change (page_shift size_4k) with 12 in Hge.
      destruct (Z.gtb_spec num0 41); lia. }
    clearbody num. destruct (num_pgsize num Hnum) as [Hpg Hn]. set (v := Attrib _ _ _ _).
    assert (place_ok v) as Hv by (split; [cbn [at_num v]; lia|split; discriminate]).
    assert (rounds_left v <= 799) as Hr by (unfold rounds_left; cbn [at_num at_size v]; change (entries_below _) with 287; lia).
    eapply ends_weaken; [apply (attrib_loop_ends ATTRIB_FUEL current space attrib _ v s a); [done..|unfold ATTRIB_FUEL; lia]|].
    intros x s' [H _]%(differ_weaken _ 799); [exact H|lia].
Qed.

(** ** The attributes of a page *)

Lemma on_tables_run {A} (m : MD A) s a k : m (mdb s) = Ok (a, k) ->
  on_tables m s = Ok (a, ks_with_vm (vm_with_mdb k (ks_vm s)) s).
Proof. intros E. unfold on_tables, lift, on_mdb. fold (mdb s). now rewrite E. Qed.
Lemma on_tables_same {A} (m : MD A) s a : m (mdb s) = Ok (a, mdb s) -> on_tables m s = Ok (a, s).
Proof.
  intros E. rewrite (on_tables_run _ _ _ _ E). unfold vm_with_mdb, mdb.
  destruct s as [? ? ? [? ? ?] ? ? ? ? ? ? ? ? ? ? ? ?]. reflexivity.
Qed.
Lemma bind_tables {A B} (m : MD A) (f : A -> K B) s a : m (mdb s) = Ok (a, mdb s) -> bind (on_tables m) f s = f a s.
Proof. intros E. exact (bind_ok _ _ _ _ _ (on_tables_same m s a E)). Qed.

Lemma entry_run pg (m : mdb_t) : pg <> NULL -> entry pg m = Ok (Pgent.raw_at (md_kmem m) pg, m).
Proof. intros Hp. unfold entry, pg_get. destruct (Z.eqb_spec pg NULL); done. Qed.
Lemma bind_table_entry {B} pg (f : Z -> K B) s : pg <> NULL ->
  bind (on_tables (entry pg)) f s = f (Pgent.raw_at (tables s) pg) s.
Proof. intros Hp. apply bind_tables. now apply entry_run. Qed.

Section Page.
Context (s : kstate vmem) (current space vaddr pg : Z) (attrib : option attribute_e).
Hypothesis Huser : Vspace.is_user_area vaddr = true.
Hypothesis Hway : way_ok (tables s) space vaddr.
Hypothesis Hpage : reaches (tables s) space vaddr pg size_4k.
Hypothesis Hvalid : Pgent.is_valid size_4k (Pgent.raw_at (tables s) pg) = true.
Hypothesis Hmappable : is_mappable space vaddr (mdb s) = Ok (true, mdb s).

Lemma attrib_loop_next n v v' s' : at_num v <> 0 ->
  attrib_round current space attrib size_4k v s = Ok (Next_round v', s') ->
  attrib_loop (S n) current space attrib size_4k v s = attrib_loop n current space attrib size_4k v' s'.
Proof. intros Hn E. cbn [attrib_loop]. apply Z.eqb_neq in Hn. rewrite Hn. unfold bind. now rewrite E. Qed.

(** down to the page *)
Lemma attrib_walk d : forall n size pg', Z.to_nat size = d -> 0 <= size <= size_max ->
  reaches (tables s) space vaddr pg' size ->
  attrib_loop (d + n) current space attrib size_4k (Attrib 1 size pg' vaddr) s =
  attrib_loop n current space attrib size_4k (Attrib 1 size_4k pg vaddr) s.
Proof.
  induction d as [|d IH]; intros n size pg' Hd Hsz Hr'.
  - assert (size = size_4k) as -> by (unfold size_4k; lia). now rewrite (reaches_unique _ _ _ _ _ _ Hr' Hpage).
  - destruct (reaches_above _ _ _ _ _ size Hpage Hsz) as (pg2 & Hr2 & Hgo).
    pose proof (reaches_unique _ _ _ _ _ _ Hr' Hr2) as <-. destruct Hgo as (Hv' & Hs' & Hdn); [unfold size_4k; lia|].
    change (S d + n)%nat with (S (d + n)).
    rewrite (attrib_loop_next _ _ (Attrib 1 (size - 1) (descend size vaddr pg' (Pgent.raw_at (tables s) pg')) vaddr) s);
      [apply IH; [lia|lia|exact Hdn]|discriminate|].
    unfold attrib_round. cbn [at_size at_pg at_vaddr at_num]. rewrite Huser. cbn [negb].
    assert (pg' <> NULL) as Hn by now apply (Hway _ size).
    rewrite bind_table_entry, Hv', Hs' by done.
    replace (size >? size_4k) with true by (symmetry; rewrite Z.gtb_ltb; apply Z.ltb_lt; unfold size_4k; lia).
    cbn [negb]. erewrite bind_tables; [reflexivity|].
    unfold subtree_entry. rewrite (bind_ok _ _ _ _ _ (entry_run pg' (mdb s) Hn)). reflexivity.
Qed.

Lemma attrib_last n v' s' : attrib_page current space attrib (Attrib 1 size_4k pg vaddr) s = Ok (Next_round v', s') ->
  at_num v' = 0 -> attrib_loop (S (S n)) current space attrib size_4k (Attrib 1 size_4k pg vaddr) s = Ok (0, s').
Proof.
  intros E H0. rewrite (attrib_loop_next _ _ v' s'); [cbn [attrib_loop]; now rewrite H0|discriminate|].
  unfold attrib_round. cbn [at_size at_pg at_vaddr at_num]. rewrite Huser. cbn [negb].
  rewrite bind_table_entry by (now apply (Hway _ size_4k)). rewrite Z.gtb_ltb, Z.ltb_irrefl, Hvalid. cbn [negb].
  assert (Pgent.is_subtree size_4k (Pgent.raw_at (tables s) pg) = false) as ->.
  { unfold Pgent.is_subtree. change (Pgent.is_tree_size size_4k) with false. cbn iota. apply Z.ltb_ge.
    apply bf_get_bounds. bf_side. }
  rewrite (bind_tables _ _ _ true) by exact Hmappable. exact E.
Qed.

(** the state after *)
Definition attrib_set (a b : Z) : kstate vmem :=
  ks_with_vm (vm_with_mdb (md_with_kmem (Pgent.set_raw pg (Translation.set_attrib b (Pgent.raw_at (tables s) pg)) (tables s))
                             (mdb s)) (ks_vm s))
    (ks_with_cpu (purge_tc vaddr 12 a (ks_cpu s)) s).

Lemma attrib_page_run a b x : pg <> NULL -> has_asid s space a -> attrib = Some x -> new_att x = Some b ->
  attrib_page current space attrib (Attrib 1 size_4k pg vaddr) s =
    Ok (next_entry (Attrib 1 size_4k pg vaddr), attrib_set a b).
Proof.
  intros Hn Ha -> Hb.
  assert (attrib_page current space (Some x) (Attrib 1 size_4k pg vaddr) s =
    (flush_tlbent (TlbFlush space vaddr 12) ;;;
     on_tables (pg_upd pg (Translation.set_attrib b)) ;;; ret (next_entry (Attrib 1 size_4k pg vaddr))) s) as ->.
  { unfold attrib_page. rewrite Hb. destruct x; try reflexivity; discriminate. }
  unfold flush_tlbent. rewrite bind_assoc. cbn [tf_space tf_vaddr tf_log2size].
  rewrite (bind_ok _ _ _ _ _ (asid_get_valid _ _ _ Ha)). unfold Tlb.modify_cpu. rewrite bind_modify.
  set (s1 := ks_with_cpu _ s).
  assert (on_tables (pg_upd pg (Translation.set_attrib b)) s1 = Ok (tt, attrib_set a b)) as E.
  { apply (on_tables_run _ s1). unfold pg_upd, pg_do, of_option. destruct (Z.eqb_spec pg NULL); done. }
  now rewrite (bind_ok _ _ _ _ _ E).
Qed.

Lemma attrib_fpage_run fpage a b x : current <> NULL -> tcb_space (tcb_of s current) = space ->
  get_size_log2 fpage = 12 -> Walker.address fpage 12 = vaddr ->
  has_asid s space a -> attrib = Some x -> new_att x = Some b ->
  attrib_fpage current fpage attrib s = Ok (0, attrib_set a b).
Proof.
  intros Hc Hsp Hsz Hva Ha Hx Hb. unfold attrib_fpage. rewrite Hsz, Hva. unfold get_space. rewrite bind_tcb_get, Hsp by done.
  change (12 <? page_shift size_4k) with false. change (12 >? page_shift (size_max + 1)) with false. cbn iota.
  change (fpage_pgsize 12) with size_4k. change (shl64 1 (12 - page_shift size_4k)) with 1.
  change ATTRIB_FUEL with (7 + S (S 991))%nat.
  rewrite (attrib_walk 7 _ size_max); [|reflexivity|unfold size_max, size_4g; lia|constructor].
  eapply (attrib_last _ (Attrib _ _ _ _)); [|reflexivity].
  apply (attrib_page_run a b x); [now apply (Hway _ size_4k)|done..].
Qed.
End Page.

(** attributes play no part in walking page tables *)
Lemma set_attrib_fields b raw : bf_flag Pgent.map_is_valid (Translation.set_attrib b raw) = bf_flag Pgent.map_is_valid raw /\
  bf_get Pgent.map_is_subtree (Translation.set_attrib b raw) = bf_get Pgent.map_is_subtree raw /\
  bf_get Pgent.map_pgsize (Translation.set_attrib b raw) = bf_get Pgent.map_pgsize raw.
Proof. unfold Translation.set_attrib, bf_flag. rewrite !bf_get_set_ne by bf_side. done. Qed.

Lemma set_attrib_predicates n b raw :
  Pgent.is_valid n (Translation.set_attrib b raw) = Pgent.is_valid n raw /\
  Pgent.is_subtree n (Translation.set_attrib b raw) = Pgent.is_subtree n raw.
Proof.
  destruct (set_attrib_fields b raw) as (E1 & E2 & E3). unfold Pgent.is_valid, Pgent.is_subtree.
  change Pgent.tree_is_subtree with Pgent.map_is_subtree. unfold bf_flag in *. now rewrite E1, E2, E3.
Qed.

Lemma raw_at_set_raw pg raw k p : Pgent.raw_at (Pgent.set_raw pg raw k) p = if decide (p = pg) then raw else Pgent.raw_at k p.
Proof. unfold Pgent.raw_at, Pgent.set_raw, Pgent.with_mem. cbn. rewrite load_store. repeat case_decide; congruence. Qed.

Lemma set_attrib_lookup k pg b sp w : bf_flag Pgent.map_is_subtree (Pgent.raw_at k pg) = false ->
  Ptab.lookup_mapping sp w (Pgent.set_raw pg (Translation.set_attrib b (Pgent.raw_at k pg)) k) = Ptab.lookup_mapping sp w k.
Proof.
  intros Hf. unfold Ptab.lookup_mapping. generalize (pgent sp (page_table_index size_max w)).
  induction (Z.to_nat size_max) as [|n IH]; intros p; cbn [lookup_loop]; rewrite !raw_at_set_raw;
    (case_decide as E; [subst p|]).
  - destruct (set_attrib_predicates (Z.of_nat 0) b (Pgent.raw_at k pg)) as [-> ->]. done.
  - done.
  - destruct (set_attrib_predicates (Z.of_nat (S n)) b (Pgent.raw_at k pg)) as [-> ->].
    destruct (Pgent.is_valid _ _); [|done]. destruct (Pgent.is_subtree _ _) eqn:Est; [|done].
    unfold descend, Pgent.subtree. unfold Pgent.is_subtree in Est.
    destruct (Pgent.is_tree_size _); [|apply IH]. change Pgent.tree_is_subtree with Pgent.map_is_subtree in Est. congruence.
  - now rewrite IH.
Qed.

(** no other page is translated by the entry [pg] of [vaddr] *)
Definition own_entry s (space vaddr pg : Z) : Prop := forall sp w a raw, cached s w a raw -> has_asid s sp a ->
  Ptab.lookup_mapping sp w (tables s) = Some (pg, size_4k) -> sp = space /\ w / 2 ^ 12 = vaddr / 2 ^ 12.

Lemma attrib_set_coherent s space vaddr pg a b :
  coherent s -> user_vaddr vaddr -> has_asid s space a -> own_entry s space vaddr pg ->
  bf_flag Pgent.map_is_subtree (Pgent.raw_at (tables s) pg) = false ->
  coherent (attrib_set s vaddr pg a b) /\ translate (ks_cpu (attrib_set s vaddr pg a b)) vaddr a = None.
Proof.
  intros Hco Hv Ha Hown Hf. pose proof (has_asid_user _ _ _ (co_asids _ Hco) Ha) as Hua.
  destruct (purge_tc_removes (ks_cpu s) vaddr a (co_tlb _ Hco) Hv Hua) as (P1 & P2 & P3).
  split; [|exact P2]. split; [exact P1|exact (co_asids _ Hco)|].
  intros w c raw (Hw & Hc & Ht). change (ks_cpu _) with (purge_tc vaddr 12 a (ks_cpu s)) in Ht.
  assert (~ same_page vaddr a w c) as Hne.
  { intros [E ->]. rewrite (translate_page _ vaddr w a E), P2 in Ht. discriminate. }
  rewrite P3 in Ht by done.
  assert (cached s w c raw) as Hca by done.
  destruct (co_agree _ Hco w c raw Hca) as (sp & Hs & q & Hl & Hraw). exists sp. split; [exact Hs|]. exists q.
  change (tables (attrib_set s vaddr pg a b)) with (Pgent.set_raw pg (Translation.set_attrib b (Pgent.raw_at (tables s) pg)) (tables s)).
  rewrite set_attrib_lookup, raw_at_set_raw by done. split; [exact Hl|]. case_decide as E; [|exact Hraw].
  subst q. destruct (Hown sp w c raw Hca Hs Hl) as [-> Ew]. destruct Hne. split; [exact Ew|].
  exact (has_asid_fun _ _ _ _ Hs Ha).
Qed.

(** C11 MemoryControl sets the memory attributes of a 4 KB page, named by a 4 KB fpage
    (for larger pages the purge of the translation buffer is wrong).  A privileged thread names in
    message register 0 a 4 KB page of its space and in its two low bits one of the attribute
    words, which asks for the default, uncached, write-back or write-through memory.  The call
    succeeds, the attribute of the page table entry is what was asked for, every address of every space is still
    mapped by the same entry, nothing else in memory has changed, the page's translation is
    gone from the translation buffer, and the buffer agrees with all page tables. *)
Theorem memory_control_sets_attribute g s pg a b x attribute0 attribute1 attribute2 attribute3 :
  let t := ks_current_tcb s in
  let space := tcb_space (tcb_of s t) in
  let fpage := word_at (utcb_of s (tcb_utcb (tcb_of s t))) 0 in
  let vaddr := Walker.address fpage 12 in
  let raw := Pgent.raw_at (tables s) pg in
  let att := nth (Z.to_nat (Z.land fpage 3)) [attribute0; attribute1; attribute2; attribute3] 0 in
  t <> NULL -> tcb_utcb (tcb_of s t) <> NULL -> is_privileged_space s space = true ->
  fpage <> 0 -> get_size_log2 fpage = 12 -> attribute_of att = Some x -> new_att x = Some b ->
  Ptab.lookup_mapping space vaddr (tables s) = Some (pg, size_4k) -> way_ok (tables s) space vaddr ->
  bf_flag Pgent.map_is_subtree raw = false -> is_mappable space vaddr (mdb s) = Ok (true, mdb s) ->
  coherent s -> user_vaddr vaddr -> has_asid s space a -> own_entry s space vaddr pg ->
  exists s', sys_memory_control g 0 attribute0 attribute1 attribute2 attribute3 s = Ok (1, s') /\
    s' = attrib_set s vaddr pg a b /\
    Pgent.get_attributes size_4k (Pgent.raw_at (tables s') pg) = b /\
    (forall p, p <> pg -> load (mem (tables s')) p = load (mem (tables s)) p) /\
    (forall sp w, Ptab.lookup_mapping sp w (tables s') = Ptab.lookup_mapping sp w (tables s)) /\
    translate (ks_cpu s') vaddr a = None /\ coherent s'.
Proof.
  intros t space fpage vaddr raw att Ht Hu Hpriv Hnil Hsz Hatt Hb Hl Hway Hf Hmap Hco Hv Ha Hown.
  destruct (lookup_inv _ _ _ _ _ Hl) as (Hr & Hvalid & _).
  destruct (attrib_set_coherent s space vaddr pg a b Hco Hv Ha Hown Hf) as [Hco' Htr].
  assert (Vspace.is_user_area vaddr = true) as Huser.
  { unfold Vspace.is_user_area, user_vaddr in *. change Layout.USER_AREA_START with 0.
    change Layout.USER_AREA_END with (2 ^ 40 - 1). lia. }
  exists (attrib_set s vaddr pg a b). split.
  2: { split; [reflexivity|]. change (tables (attrib_set s vaddr pg a b)) with (Pgent.set_raw pg (Translation.set_attrib b raw) (tables s)).
       rewrite raw_at_set_raw. case_decide; [|done]. split_and!; [|intros p Hp; now apply load_store_ne|
         intros sp w; now apply set_attrib_lookup|exact Htr|exact Hco'].
       unfold Pgent.get_attributes, Translation.memattrib, Translation.set_attrib. rewrite bf_get_set_eq by bf_side.
       destruct x; first [discriminate Hb|injection Hb as <-; reflexivity]. }
  assert (memory_control_item g 0 attribute0 attribute1 attribute2 attribute3 s = Ok (None, attrib_set s vaddr pg a b)) as Ei.
  { unfold memory_control_item, get_current_tcb. rewrite bind_gets. fold t. unfold get_space. rewrite bind_tcb_get by done.
    fold space. unfold get_mr. rewrite get_word_eq by kindex. rewrite bind_utcb_get by done. fold fpage.
    unfold is_nil_fpage. replace (fpage =? 0) with false by (symmetry; now apply Z.eqb_neq). cbv zeta.
    rewrite Hsz. fold vaddr.
    assert (lift (vm_lookup_mapping (VirtualMemory := space_vm g) space vaddr) s =
            Ok (Some (found_mapping (ks_vm s) (pg, size_4k)), s)) as El.
    { unfold lift. cbn [vm_lookup_mapping space_vm]. unfold gets. fold (tables s). rewrite Hl. now destruct s. }
    rewrite (bind_ok _ _ _ _ _ El), bind_ret_l. cbv iota.
    assert (attribute_of (if Z.land fpage 3 =? 0 then attribute0 else if Z.land fpage 3 =? 1 then attribute1
             else if Z.land fpage 3 =? 2 then attribute2 else attribute3) = Some x) as ->.
    { rewrite <- Hatt. unfold att. f_equal. change 3 with (Z.ones 2). rewrite Z.land_ones by lia.
      pose proof (Z.mod_pos_bound fpage (2 ^ 2)). 
      assert (fpage mod 2 ^ 2 = 0 \/ fpage mod 2 ^ 2 = 1 \/ fpage mod 2 ^ 2 = 2 \/ fpage mod 2 ^ 2 = 3) as H4 by lia.
      destruct H4 as [->|[->|[->| ->]]]; reflexivity. }
    rewrite (bind_ok _ _ _ _ _ (attrib_fpage_run s t space vaddr pg (Some x) Huser Hway Hr Hvalid Hmap
               fpage a b x Ht eq_refl Hsz eq_refl Ha eq_refl Hb)).
    reflexivity. }
  unfold sys_memory_control, get_current_space, get_current_tcb. rewrite bind_gets. fold t. unfold get_space.
  rewrite bind_tcb_get, bind_assoc, bind_gets, bind_tcb_get, bind_gets by done. fold t space. rewrite Hpriv.
  change (0 =? w64 (-2)) with false. change (0 >=? 2 ^ 6) with false. cbn [negb]. cbv iota.
  change (Z.to_nat (0 + 1)) with 1%nat. cbn [memory_control_items]. now rewrite (bind_ok _ _ _ _ _ Ei).
Qed.
End Theory.

(** ** Examples

    The state of file Coherence, whose current thread is in sigma0's space now. *)

Definition example_state : kstate vmem := ks_with_sigma0_space 0x10000 (shared_state cpu_two).

Lemma example_state_coherent : coherent example_state.
Proof. destruct shared_state_two as [H1 H2 H3]. split; [exact H1|exact H2|exact H3]. Qed.

Lemma example_own_entry : own_entry example_state 0x10000 (2 ^ 32) (kseg 0x40000).
Proof.
  intros sp w a raw Hc Ha Hl. destruct (shared_state_owner sp a raw w Hc Ha) as [Ew Hcase]. split; [|exact Ew].
  change (tables example_state) with (md_kmem shared_page) in Hl. rewrite (lookup_page _ sp w (2 ^ 32) Ew) in Hl.
  destruct Hcase as [->| ->]; [reflexivity|]. vm_compute in Hl. discriminate.
Qed.

Lemma memory_control_sets_attribute_witness :
  Pgent.get_attributes size_4k page_raw = Translation.memattrib_val Translation.write_back /\
  exists s', sys_memory_control example_globals 0 0 0 0 1 example_state = Ok (1, s') /\
    Pgent.get_attributes size_4k (Pgent.raw_at (tables s') (kseg 0x40000)) = Translation.memattrib_val Translation.uncached /\
    coherent s'.
Proof.
  split; [vm_compute; reflexivity|].
  destruct (memory_control_sets_attribute example_globals example_state (kseg 0x40000) 1
    (Translation.memattrib_val Translation.uncached) a_uncached 0 0 0 1) as (s' & E & _ & Hat & _ & _ & _ & Hco).
  - discriminate.
  - discriminate.
  - vm_compute; reflexivity.
  - vm_compute; discriminate.
  - vm_compute; reflexivity.
  - vm_compute; reflexivity.
  - reflexivity.
  - vm_compute; reflexivity.
  - apply (way_check_way_ok _ _ _ []). vm_compute. reflexivity.
  - vm_compute; reflexivity.
  - vm_compute; reflexivity.
  - exact example_state_coherent.
  - vm_compute; intuition congruence.
  - exact (proj1 (shared_state_asids cpu_two)).
  - exact example_own_entry.
  - exists s'. split; [exact E|]. split; [exact Hat|exact Hco].
Defined.

Lemma attrib_fpage_ends_early_witness :
  ends (attrib_fpage 2 fpage_complete (Some a_uncached)) example_state (fun _ s' =>
    exists changed, (length changed <= 799)%nat /\
      forall p, p ∉ changed -> load (mem (tables s')) p = load (mem (tables example_state)) p).
Proof. apply (attrib_fpage_ends_early 2 fpage_complete (Some a_uncached) example_state 1). exact (proj1 (shared_state_asids cpu_two)). Defined.

(** the page at 2^32 and the fifteen after it *)
Fixpoint more_pages (n : nat) (k : kmem_t) : kmem_t :=
  match n with
  | O => k
  | S n =>
      let i := Z.of_nat (S n) in
      match add_mapping 20 0x10000 (2 ^ 32 + 4096 * i) (0x10000 + 4096 * i) size_4k true false (more_pages n k) with
      | Ok k => k
      | _ => k
      end
  end.
Definition sixteen_pages : kstate vmem :=
  let s := upd_utcb 4096 (utcb_with_word 0 (fpage_set (2 ^ 32) 16 true true true)) example_state in
  ks_with_vm (vm_with_mdb (md_with_kmem (more_pages 15 (tables s)) (mdb s)) (ks_vm s)) s.
Definition attribute_at (s : kstate vmem) (vaddr : Z) : option Z :=
  match Ptab.lookup_mapping 0x10000 vaddr (tables s) with
  | Some (pg, size) => Some (Pgent.get_attributes size (Pgent.raw_at (tables s) pg))
  | None => None
  end.

(** MemoryControl reports success although it has changed a quarter of the pages.  A
    64 KB fpage consists of sixteen mapped 4 KB pages with write-back memory.  The call that
    makes it uncached returns 1, but only the first four pages are uncached afterwards: the loop ends with the
    first 16 KB subtable, since [r_pg] and [r_num] are never restored. *)
Theorem memory_control_misses_pages :
  exists s', sys_memory_control example_globals 0 1 1 1 1 sixteen_pages = Ok (1, s') /\
    forall i, 0 <= i < 16 ->
      attribute_at sixteen_pages (2 ^ 32 + 4096 * i) = Some (Translation.memattrib_val Translation.write_back) /\
      attribute_at s' (2 ^ 32 + 4096 * i) =
        Some (Translation.memattrib_val (if i <? 4 then Translation.uncached else Translation.write_back)).
Proof.
  assert (exists s', sys_memory_control example_globals 0 1 1 1 1 sixteen_pages = Ok (1, s') /\
    forallb (fun i =>
      bool_decide (attribute_at sixteen_pages (2 ^ 32 + 4096 * i) = Some (Translation.memattrib_val Translation.write_back)) &&
      bool_decide (attribute_at s' (2 ^ 32 + 4096 * i) =
        Some (Translation.memattrib_val (if i <? 4 then Translation.uncached else Translation.write_back))))
      (seqZ 0 16) = true) as (s' & E & H).
  { eexists. split; [vm_compute; reflexivity|vm_compute; reflexivity]. }
  exists s'. split; [exact E|]. intros i Hi. rewrite forallb_forall in H.
  specialize (H i). rewrite <- list_elem_of_In, elem_of_seqZ in H. specialize (H ltac:(lia)).
  apply andb_prop in H as [H1 H2]. apply bool_decide_eq_true in H1, H2. split; [exact H1|exact H2].
Qed.
