(* ===== verification/Exception.v ===== *)
(** * Exceptions of user threads

    [glue/v4-mips64/exception.cc]: exception and system call IPCs, the kernel
    interface system call, the emulation of load linked and store conditional,
    and the dispatch of exceptions.  An exception context is that of the current
    thread, at the top of its kernel stack. *)

From Stdlib Require Import ZArith Lia Bool List.
From stdpp Require Import base numbers list option gmap.
From S2P Require Import Prelude Types Time Kip ThreadId Fpage State Msg Ring Monad Tcb Sched.
From S2P Require Import Vspace Unwind Ipcx Ipc Resources Thread SpaceControl Pgent.
Open Scope Z_scope.

(** ** Message formats of [exception.h] *)
Definition EXCEPT_IPC_GEN_LABEL : Z := w64 (Z.shiftl (w64 (-5)) 4).
Definition EXCEPT_IPC_GEN_MR_NUM : Z := 6.
Definition EXCEPT_IPC_SYS_LABEL : Z := w64 (Z.shiftl (w64 (-5)) 4).
Definition EXCEPT_IPC_SYS_MR_NUM : Z := 13.

(** ** Cause register *)
Definition CAUSE_EXCCODE_NUM (cause : Z) : Z := Z.land (shr64 cause 2) 31.
Definition CAUSE_CE_NUM (cause : Z) : Z := Z.land (shr64 cause 28) 3.

(** ** Registers by number *)

Definition get_reg (c : irq_context) (num : Z) : Z :=
  match num with
  | 1 => ic_at c | 2 => ic_v0 c | 3 => ic_v1 c | 4 => ic_a0 c | 5 => ic_a1 c | 6 => ic_a2 c
  | 7 => ic_a3 c | 8 => ic_t0 c | 9 => ic_t1 c | 10 => ic_t2 c | 11 => ic_t3 c | 12 => ic_t4 c
  | 13 => ic_t5 c | 14 => ic_t6 c | 15 => ic_t7 c | 16 => ic_s0 c | 17 => ic_s1 c | 18 => ic_s2 c
  | 19 => ic_s3 c | 20 => ic_s4 c | 21 => ic_s5 c | 22 => ic_s6 c | 23 => ic_s7 c | 24 => ic_t8 c
  | 25 => ic_t9 c | 28 => ic_gp c | 29 => ic_sp c | 30 => ic_s8 c | 31 => ic_ra c
  | _ => 0
  end.

Definition set_reg (num v : Z) (c : irq_context) : irq_context :=
  match num with
  | 1 => ic_with_at v c | 2 => ic_with_v0 v c | 3 => ic_with_v1 v c | 4 => ic_with_a0 v c
  | 5 => ic_with_a1 v c | 6 => ic_with_a2 v c | 7 => ic_with_a3 v c | 8 => ic_with_t0 v c
  | 9 => ic_with_t1 v c | 10 => ic_with_t2 v c | 11 => ic_with_t3 v c | 12 => ic_with_t4 v c
  | 13 => ic_with_t5 v c | 14 => ic_with_t6 v c | 15 => ic_with_t7 v c | 16 => ic_with_s0 v c
  | 17 => ic_with_s1 v c | 18 => ic_with_s2 v c | 19 => ic_with_s3 v c | 20 => ic_with_s4 v c
  | 21 => ic_with_s5 v c | 22 => ic_with_s6 v c | 23 => ic_with_s7 v c | 24 => ic_with_t8 v c
  | 25 => ic_with_t9 v c | 28 => ic_with_gp v c | 29 => ic_with_sp v c | 30 => ic_with_s8 v c
  | 31 => ic_with_ra v c
  | _ => c
  end.

(** [load_instr]: the members are listed from the low bits up and not turned
    around for a big-endian machine, whose compilers allocate them from the high
    bits down *)
Record load_instr := LoadInstr { x_offset : Z; x_rt : Z; x_base : Z; x_op : Z }.
Definition load_instr_of (raw : Z) : load_instr :=
  LoadInstr (swrap 16 (Z.shiftr raw 16)) (Z.land (Z.shiftr raw 11) 31)
            (Z.land (Z.shiftr raw 6) 31) (Z.land raw 63).

Definition OP_LL : Z := 0x30.
Definition OP_LLD : Z := 0x34.
Definition OP_SC : Z := 0x38.
Definition OP_SCD : Z := 0x3c.
Definition is_load (op : Z) : bool := (op =? OP_LL) || (op =? OP_LLD).
Definition is_store (op : Z) : bool := (op =? OP_SC) || (op =? OP_SCD).
Definition is_double (op : Z) : bool := (op =? OP_LLD) || (op =? OP_SCD).

Definition MAGIC_KIP_REQUEST : Z := 0x1FACECA1114e1f64.

Section Operations.
Context {V : Type} `{!VirtualMemory V}.
Abbreviation S := (kstate V).
Abbreviation K := (M (kstate V)).
(** [kip.kdebug_entry] points to a kernel debugger, if there is one *)
Variable kdebug_entry : K unit.

Definition get_context (p : Z) : K irq_context := tcb_get p tcb_context.
Definition set_context (p : Z) (f : irq_context -> irq_context) : K unit :=
  tcb_set p (fun t => tcb_with_context (f (tcb_context t)) t).

(** ** Exception IPC *)

(** the message registers from [i] on *)
Fixpoint get_mrs (p i : Z) (n : nat) : K (list Z) :=
  match n with
  | O => ret []
  | Datatypes.S n => let* v := get_mr p i in let* l := get_mrs p (i + 1) n in ret (v :: l)
  end.
Fixpoint set_mrs (p i : Z) (l : list Z) : K unit :=
  match l with
  | [] => ret tt
  | v :: l => set_mr p i v ;;; set_mrs p (i + 1) l
  end.

(** saving and restoring around the IPC: the message registers, the partner and
    the state *)
Definition save_for_exception (p : Z) (n : nat) : K (list Z) :=
  let* saved_mr := get_mrs p 0 n in
  let* partner := get_partner p in set_saved_partner p partner ;;;
  let* st := get_state p in set_saved_state p st ;;;
  ret saved_mr.
Definition restore_after_exception (p : Z) (saved_mr : list Z) : K unit :=
  set_mrs p 0 saved_mr ;;;
  let* partner := get_saved_partner p in set_partner p partner ;;;
  set_saved_partner p nilthread ;;;
  let* st := get_saved_state p in set_state p st ;;;
  set_saved_state p ThreadState.aborted.

(** the IPC with the exception handler: its tag *)
Definition exception_ipc (p : Z) : K Z :=
  set_exception_ipc p ;;;
  let* to_tid := get_exception_handler p in
  let* from_tid := get_exception_handler p in
  let* tag := do_ipc p to_tid from_tid timeout_never in
  clear_exception_ipc p ;;;
  ret tag.

(** instruction pointer, stack pointer and flags from message registers [i] on *)
Definition load_user_context (p i : Z) : K unit :=
  let* v := get_mr p i in set_user_ip p v ;;;
  let* v := get_mr p (i + 1) in set_user_sp p v ;;;
  let* v := get_mr p (i + 2) in set_user_flags p v.

Definition send_exception_ipc (exc_no exc_code : Z) : K bool :=
  let* current := get_current_tcb in
  let* handler := get_exception_handler current in
  if is_nilthread handler then ret false else
  let* saved_mr := save_for_exception current (Z.to_nat (EXCEPT_IPC_GEN_MR_NUM + 1)) in
  set_tag current (MsgTag.set 0 EXCEPT_IPC_GEN_MR_NUM EXCEPT_IPC_GEN_LABEL) ;;;
  let* v := get_user_ip current in set_mr current 1 v ;;;
  let* v := get_user_sp current in set_mr current 2 v ;;;
  let* v := get_user_flags current in set_mr current 3 v ;;;
  set_mr current 4 exc_no ;;;
  set_mr current 5 exc_code ;;;
  let* v := get_local_id current in set_mr current 6 v ;;;
  let* tag := exception_ipc current in
  when (negb (MsgTag.is_error tag)) (load_user_context current 1) ;;;
  restore_after_exception current saved_mr ;;;
  ret (negb (MsgTag.is_error tag)).

Definition halt_user_thread : K unit :=
  let* current := get_current_tcb in
  set_state current ThreadState.halted ;;;
  switch_to_idle current.

(** nobody handles the exception *)
Definition unhandled : K unit :=
  let* kip := get_kip in
  when (negb (kip_kdebug_entry kip =? NULL)) kdebug_entry ;;;
  halt_user_thread.

(** ** Exceptions the kernel handles

    Each returns whether it did, and the error code for the handler. *)

Definition sys_clock : K Z := gets ks_current_time.

Definition mips64_break : K bool := ret false.
Definition mips64_watch (code : Z) : K (bool * Z) := ret (false, code).

Definition mips64_cpu_unavail (code : Z) : K (bool * Z) :=
  let* current := get_current_tcb in
  let* c := get_context current in
  if CAUSE_CE_NUM (ic_cause c) =? 1 then
    mips64_fpu_unavail_exception current current ;;;
    ret (true, code)
  else ret (false, ic_cause c).

(** the end of [mips64_exception] *)
Definition deliver_exception (exc_no exc_code : Z) : K unit :=
  let* sent := send_exception_ipc exc_no exc_code in
  when (negb sent) unhandled.

(** [mips64_exception] on the context faked for a misaligned access, whose cause
    is that of an address error *)
Definition address_error_exception (exc_no : Z) : K unit :=
  let* exc_code := gets (fun s => cpu_badvaddr (ks_cpu s)) in
  deliver_exception exc_no exc_code.

(** the loop that waits for a mapping; [fuel] bounds its rounds *)
Fixpoint wait_for_mapping (fuel : nat) (space address epc : Z) (write : bool) : K mapping_t :=
  match fuel with
  | O => hang
  | Datatypes.S fuel =>
      let* found := lift (vm_lookup_mapping space address) in
      match found with
      | Some m =>
          if write && negb (mapped_writable m) then
            handle_pagefault space address epc acc_write false ;;;
            wait_for_mapping fuel space address epc write
          else ret m
      | None =>
          handle_pagefault space address epc (if write then acc_write else acc_read) false ;;;
          wait_for_mapping fuel space address epc write
      end
  end.

Definition set_llval (address space : Z) : K unit :=
  modify (fun s => ks_with_cpu (cpu_with_llval_space space (cpu_with_llval_address address (ks_cpu s))) s).

(** the access itself: [paddr] is the physical address *)
Definition emulate (current space paddr address : Z) (op : load_instr) : K unit :=
  let bytes := if is_double (x_op op) then 8 else 4 in
  if is_load (x_op op) then
    set_llval paddr space ;;;
    let* v := lift (vm_load space address bytes) in
    set_context current (set_reg (x_rt op) (if is_double (x_op op) then v else w64 (swrap 32 v)))
  else if is_store (x_op op) then
    let* c := gets ks_cpu in
    if (cpu_llval_address c =? paddr) && (cpu_llval_space c =? space) then
      let* ctx := get_context current in
      let v := get_reg ctx (x_rt op) in
      lift (vm_store space address bytes (if is_double (x_op op) then v else w32 v)) ;;;
      set_context current (set_reg (x_rt op) 1)
    else set_context current (set_reg (x_rt op) 0)
  else ret tt.

(** [space_t::write ? 5 : 4] *)
Definition alignment_exc_no : Z := 5.

Definition emulate_instruction (fuel : nat) (current : Z) (op : load_instr) : K unit :=
  let* ctx := get_context current in
  let address := w64 (get_reg ctx (x_base op) + x_offset op) in
  let* sp := get_space current in
  let* kernel_space := gets ks_kernel_space in
  let space := if sp =? NULL then kernel_space else sp in
  let* m := wait_for_mapping fuel space address (ic_epc ctx) (is_store (x_op op)) in
  let paddr := addr_offset (mapped_address m) (Z.land address (page_mask (mapped_size m))) in
  when (negb (Z.land address (if is_double (x_op op) then 7 else 3) =? 0))
    (address_error_exception alignment_exc_no) ;;;
  emulate current space paddr address op.

(** the answer to [KernelInterface] *)
Definition kernel_interface (current : Z) : K unit :=
  let* space := get_current_space in
  let* area := get_kip_page_area space in
  let* kip := get_kip in
  set_context current (fun c =>
    ic_with_t3 (if negb (kip_kernel_desc_ptr kip =? NULL) then kip_kernel_descriptor kip else 0)
      (ic_with_t2 (ApiFlags.to_word (kip_api_flags kip))
        (ic_with_t1 (ApiVersion.to_word (kip_api_version kip))
          (ic_with_t0 (get_base area) c)))).

Definition mips64_illegal (fuel : nat) (code : Z) : K (bool * Z) :=
  let* current := get_current_tcb in
  let* ctx := get_context current in
  let skip := set_context current (fun c => ic_with_epc (w64 (ic_epc c + 4)) c) in
  if ic_at ctx =? MAGIC_KIP_REQUEST then
    kernel_interface current ;;; skip ;;; ret (true, code)
  else
    let* space := get_current_space in
    let* code := lift (vm_load space (ic_epc ctx) 4) in
    let op := load_instr_of code in
    if negb (is_load (x_op op) || is_store (x_op op)) then ret (false, code) else
    emulate_instruction fuel current op ;;; skip ;;; ret (true, code).

(** ** The dispatcher *)

Definition mips64_exception (fuel : nat) : K unit :=
  let* current := get_current_tcb in
  let* ctx := get_context current in
  let exc_no := CAUSE_EXCCODE_NUM (ic_cause ctx) in
  let* (result, exc_code) :=
    (match exc_no with
     | 4 | 5 => let* c := gets ks_cpu in ret (false, cpu_badvaddr c)
     | 9 => let* r := mips64_break in ret (r, 0)
     | 10 => mips64_illegal fuel 0
     | 11 => mips64_cpu_unavail 0
     | 13 => set_context current (fun c => ic_with_epc (w64 (ic_epc c + 4)) c) ;;; ret (false, 0)
     | 23 => mips64_watch 0
     | _ => ret (false, 0)
     end) in
  when (negb result) (deliver_exception exc_no exc_code).

(** ** System calls the kernel does not know *)

Definition send_syscall_ipc : K bool :=
  let* current := get_current_tcb in
  let* handler := get_exception_handler current in
  if is_nilthread handler then ret false else
  let* saved_mr := save_for_exception current (Z.to_nat (EXCEPT_IPC_SYS_MR_NUM + 1)) in
  set_tag current (MsgTag.set 0 EXCEPT_IPC_SYS_MR_NUM EXCEPT_IPC_SYS_LABEL) ;;;
  let* c := get_context current in
  set_mrs current 1 [ic_v0 c; ic_v1 c; ic_a0 c; ic_a1 c; ic_a2 c; ic_a3 c; ic_t0 c; ic_t1 c; ic_t2 c; ic_t3 c] ;;;
  let* v := get_user_ip current in set_mr current 11 v ;;;
  let* v := get_user_sp current in set_mr current 12 v ;;;
  let* v := get_user_flags current in set_mr current 13 v ;;;
  let* tag := exception_ipc current in
  when (negb (MsgTag.is_error tag)) (load_user_context current 11) ;;;
  let* v0 := get_mr current 1 in set_context current (ic_with_v0 v0) ;;;
  let* v1 := get_mr current 2 in set_context current (ic_with_v1 v1) ;;;
  let* a0 := get_mr current 3 in set_context current (ic_with_a0 a0) ;;;
  let* a1 := get_mr current 4 in set_context current (ic_with_a1 a1) ;;;
  let* a2 := get_mr current 5 in set_context current (ic_with_a2 a2) ;;;
  let* a3 := get_mr current 6 in set_context current (ic_with_a3 a3) ;;;
  let* t0 := get_mr current 7 in set_context current (ic_with_t0 t0) ;;;
  let* t1 := get_mr current 8 in set_context current (ic_with_t1 t1) ;;;
  let* t2 := get_mr current 9 in set_context current (ic_with_t2 t2) ;;;
  let* t3 := get_mr current 10 in set_context current (ic_with_t3 t3) ;;;
  restore_after_exception current saved_mr ;;;
  ret (negb (MsgTag.is_error tag)).

Definition syscall_exception : K unit :=
  let* sent := send_syscall_ipc in
  when (negb sent) unhandled.

End Operations.

(** ** Registers *)

Definition is_saved_reg (n : Z) : bool := (1 <=? n) && (n <=? 31) && negb (n =? 26) && negb (n =? 27).

(** Registers are read back as they were set: setting one of the registers
    an exception saves changes what is read for that number and for no other;
    register 0 and the two registers of the kernel read 0 and ignore what is
    set. *)
Lemma get_reg_set_reg n m v c :
  get_reg (set_reg n v c) m = if (n =? m) && is_saved_reg n then v else get_reg c m.
Proof.
  destruct (is_saved_reg n) eqn:E.
  - rewrite andb_true_r. unfold is_saved_reg in E.
    assert (Hn : In n [1;2;3;4;5;6;7;8;9;10;11;12;13;14;15;16;17;18;19;20;21;22;23;24;25;28;29;30;31])
      by (simpl; lia).
    simpl in Hn. repeat destruct Hn as [<-|Hn]; [..|done];
      (destruct m as [|m|m]; [reflexivity| |reflexivity]; do 6 (try destruct m as [m|m|]); reflexivity).
  - rewrite andb_false_r. replace (set_reg n v c) with c; [done|]. unfold is_saved_reg in E.
    destruct n as [|n|n]; [done| |done]; do 6 (try destruct n as [n|n|]); first [done|discriminate E].
Qed.

Section Theory.
Context {V : Type} `{!VirtualMemory V}.
Implicit Types s : kstate V.
Variable kdebug_entry : M (kstate V) unit.

Definition exc_no_of s : Z := CAUSE_EXCCODE_NUM (ic_cause (tcb_context (tcb_of s (ks_current_tcb s)))).

(** The kernel does not handle the exception of the running thread: if it is an
    illegal instruction (10) it is not the request for the interface page, and the word
    read at the program counter is no instruction the kernel emulates; if it is
    an unusable coprocessor (11) it is not the floating-point unit. *)
Definition not_handled s : Prop :=
  let t := tcb_of s (ks_current_tcb s) in
  let ctx := tcb_context t in
  (exc_no_of s = 10 -> ic_at ctx <> MAGIC_KIP_REQUEST /\
     exists raw, vm_load (tcb_space t) (ic_epc ctx) 4 (ks_vm s) = Ok (raw, ks_vm s) /\
       is_load (x_op (load_instr_of raw)) || is_store (x_op (load_instr_of raw)) = false) /\
  (exc_no_of s = 11 -> CAUSE_CE_NUM (ic_cause ctx) <> 1).

(** the program counter of a trap (13) is moved behind it before anybody looks *)
Definition trap_skipped (n : Z) (t : tcb) : tcb :=
  if n =? 13 then tcb_with_context (ic_with_epc (w64 (ic_epc (tcb_context t) + 4)) (tcb_context t)) t else t.

Lemma deliver_unhandled p n c s :
  ks_current_tcb s = p -> p <> NULL -> tcb_utcb (tcb_of s p) <> NULL ->
  kip_kdebug_entry (ks_kip s) = NULL ->
  is_nilthread (utcb_exception_handler (utcb_of s (tcb_utcb (tcb_of s p)))) = true ->
  deliver_exception kdebug_entry n c s =
    Ok (tt, ks_with_current_tcb idle_tcb (upd_tcb p (tcb_with_thread_state ThreadState.halted) s)).
Proof.
  intros Hc Hp Hu Hk Hh. unfold deliver_exception, send_exception_ipc, get_current_tcb, get_exception_handler.
  rewrite bind_assoc, bind_gets, Hc. rewrite bind_assoc, bind_utcb_get by done. rewrite Hh, bind_ret_l.
  cbn [negb]. unfold when, unhandled, get_kip. rewrite bind_gets, Hk, bind_when_false.
  unfold halt_user_thread, get_current_tcb, set_state. rewrite bind_gets, Hc. now rewrite bind_tcb_set.
Qed.

(** the instruction at the program counter is none that is emulated *)
Lemma illegal_unknown fuel code raw s :
  let p := ks_current_tcb s in
  let ctx := tcb_context (tcb_of s p) in
  p <> NULL -> ic_at ctx <> MAGIC_KIP_REQUEST ->
  vm_load (tcb_space (tcb_of s p)) (ic_epc ctx) 4 (ks_vm s) = Ok (raw, ks_vm s) ->
  is_load (x_op (load_instr_of raw)) || is_store (x_op (load_instr_of raw)) = false ->
  mips64_illegal kdebug_entry fuel code s = Ok ((false, raw), s).
Proof.
  intros p ctx Hp Hat Hl Ho. unfold mips64_illegal, get_current_tcb, get_context, get_current_space, get_space.
  rewrite bind_gets. fold p. rewrite bind_tcb_get by done. fold ctx.
  destruct (Z.eqb_spec (ic_at ctx) MAGIC_KIP_REQUEST) as [|_]; [done|].
  rewrite bind_assoc. unfold get_current_tcb. rewrite bind_gets. fold p. rewrite bind_tcb_get by done.
  assert (El : lift (vm_load (tcb_space (tcb_of s p)) (ic_epc ctx) 4) s = Ok (raw, s)).
  { unfold lift. rewrite Hl. now destruct s. }
  now rewrite (bind_ok _ _ _ _ _ El), Ho.
Qed.

(** the first part of the dispatcher does not handle the exception *)
Lemma exception_not_handled fuel s :
  let p := ks_current_tcb s in
  p <> NULL -> not_handled s ->
  exists c, mips64_exception kdebug_entry fuel s =
    deliver_exception kdebug_entry (exc_no_of s) c
      (if exc_no_of s =? 13 then upd_tcb p (trap_skipped 13) s else s).
Proof.
  intros p Hp [H10 H11]. unfold mips64_exception, get_current_tcb, get_context. rewrite bind_gets. fold p.
  rewrite bind_tcb_get by done. change (CAUSE_EXCCODE_NUM _) with (exc_no_of s).
  destruct (decide (exc_no_of s = 10)) as [E|N10].
  { destruct (H10 E) as (Hat & raw & Hl & Ho). rewrite E. exists raw.
    now rewrite (bind_ok _ _ _ _ _ (illegal_unknown fuel 0 raw s Hp Hat Hl Ho)). }
  destruct (decide (exc_no_of s = 11)) as [E|N11].
  { specialize (H11 E). rewrite E. unfold mips64_cpu_unavail, get_current_tcb, get_context.
    rewrite bind_assoc, bind_gets, bind_assoc. fold p. rewrite bind_tcb_get by done.
    apply Z.eqb_neq in H11. fold p in H11. rewrite H11, bind_ret_l. now eexists. }
  clear H10 H11. destruct (decide (exc_no_of s = 13)) as [E|N13].
  { rewrite E. unfold set_context. rewrite bind_assoc, bind_tcb_set, bind_ret_l by done. now eexists. }
  pose proof N13 as E%Z.eqb_neq. rewrite E. clear E.
  generalize (deliver_exception kdebug_entry) as d. intros d. destruct (exc_no_of s) as [|n|n]; [eexists; reflexivity| |eexists; reflexivity].
  do 5 (try destruct n as [n|n|]); first [destruct N10; reflexivity|destruct N11; reflexivity|destruct N13; reflexivity|eexists; reflexivity].
Qed.

(** C31 A thread without exception handler that causes an exception the kernel does
    not handle itself ([not_handled]; all exception numbers are covered) is halted and
    loses the processor to the idle thread, if the interface page names no entry
    of a debugger.  Nothing else changes, and the thread's registers stay as they were
    when it failed; only the program counter of a trap is moved behind it. *)
Theorem unhandled_exception_halts fuel s :
  let p := ks_current_tcb s in
  p <> NULL -> tcb_utcb (tcb_of s p) <> NULL -> not_handled s ->
  kip_kdebug_entry (ks_kip s) = NULL ->
  is_nilthread (utcb_exception_handler (utcb_of s (tcb_utcb (tcb_of s p)))) = true ->
  mips64_exception kdebug_entry fuel s =
    Ok (tt, ks_with_current_tcb idle_tcb
      (upd_tcb p (fun t => tcb_with_thread_state ThreadState.halted (trap_skipped (exc_no_of s) t)) s)).
Proof.
  intros p Hp Hu Hn Hk Hh. destruct (exception_not_handled fuel s Hp Hn) as [c ->]. fold p.
  destruct (Z.eqb_spec (exc_no_of s) 13) as [->|N].
  - rewrite (deliver_unhandled p) by (done || now rewrite tcb_of_upd_tcb_eq).
    now rewrite upd_tcb_fuse.
  - rewrite (deliver_unhandled p) by done. do 3 f_equal. unfold trap_skipped.
    apply Z.eqb_neq in N. now rewrite N.
Qed.

(** *** Load linked *)

(** The word the compiler reads as the operation is the low end of the offset. *)
Definition linked_instruction (op base rt offset : Z) : Z :=
  Z.lor (Z.shiftl op 26) (Z.lor (Z.shiftl base 21) (Z.lor (Z.shiftl rt 16) offset)).

Lemma linked_instruction_op op base rt offset :
  x_op (load_instr_of (linked_instruction op base rt offset)) = Z.land offset 63.
Proof.
  unfold load_instr_of, linked_instruction. cbn [x_op]. rewrite !Z.land_lor_distr_l.
  assert (H : forall x k, 6 <= k -> Z.land (Z.shiftl x k) 63 = 0).
  { intros x k Hk. apply Z.bits_inj'. intros i Hi. change 63 with (Z.ones 6).
    rewrite Z.land_spec, Z.bits_0. destruct (Z.lt_ge_cases i 6).
    - rewrite Z.shiftl_spec_low by lia. done.
    - rewrite Z.ones_spec_high by lia. apply andb_false_r. }
  now rewrite !H by lia.
Qed.

(** The emulation does not recognise the instructions it is for: in this
    big-endian configuration an LL, LLD, SC or SCD whose offset has a low end
    below 48, as every word-aligned offset below 48 has, is reported as an
    illegal instruction and nothing is changed. *)
Theorem linked_instructions_not_recognised fuel code op base rt offset s :
  let p := ks_current_tcb s in
  let ctx := tcb_context (tcb_of s p) in
  let raw := linked_instruction op base rt offset in
  p <> NULL -> ic_at ctx <> MAGIC_KIP_REQUEST -> Z.land offset 63 < 0x30 ->
  vm_load (tcb_space (tcb_of s p)) (ic_epc ctx) 4 (ks_vm s) = Ok (raw, ks_vm s) ->
  mips64_illegal kdebug_entry fuel code s = Ok ((false, raw), s).
Proof.
  intros p ctx raw Hp Hat Ho Hl. apply illegal_unknown; [done|done|exact Hl|].
  subst raw. rewrite linked_instruction_op.
  unfold is_load, is_store, OP_LL, OP_LLD, OP_SC, OP_SCD. lia.
Qed.

(** *** The IPC with the handler *)

(** a call to a thread that waits for the caller *)
Lemma call_run h s :
  let p := ks_current_tcb s in
  let q := get_tcb h in
  p <> NULL -> p <> q -> is_nilthread h = false -> utcb_ptr s p <> NULL -> utcb_ptr s q <> NULL ->
  MsgTag.is_propagated (tag_of s p) = false -> MsgTag.get_typed (tag_of s p) = 0 ->
  tcb_myself_global (tcb_of s q) = h -> waits_for s q p = true ->
  sys_ipc h h timeout_never s =
    Ok (h, ks_with_current_tcb q
      (upd_tcb p (fun t => tcb_with_thread_state ThreadState.running (tcb_with_partner h t)) (received s p q))).
Proof.
  intros p q Hp Hpq Hh Hu Hv Htag Hty Hid Hw. destruct (clear_receive_keeps (tag_of s p)) as (Hk1 & Hk2 & _).
  unfold sys_ipc, get_current_tcb. rewrite bind_gets. fold p. rewrite Hh. cbn [negb].
  rewrite (bind_ok _ _ _ _ _ (send_phase_ready p h timeout_never s Hp Hu Hv Htag ltac:(now rewrite Hk1)
    ltac:(now rewrite Hk2) Hid Hw)). fold q.
  unfold receive_phase. rewrite Z.eqb_refl. change (timeout_is_never timeout_never) with true. cbn [andb].
  unfold set_partner, set_state, switch_to, get_partner.
  rewrite !bind_tcb_set, bind_modify, bind_tcb_set, tcb_get_run by done.
  rewrite (upd_tcb_fuse p (tcb_with_thread_state ThreadState.waiting_forever)). set (r := received s p q).
  change (upd_tcb p (tcb_with_thread_state ThreadState.running) (ks_with_current_tcb q ?x))
    with (ks_with_current_tcb q (upd_tcb p (tcb_with_thread_state ThreadState.running) x)).
  rewrite upd_tcb_fuse. rewrite tcb_of_with_current_tcb, tcb_of_upd_tcb_eq. reflexivity.
Qed.

(** what an exception IPC changes: the bits of [p], what the handler [q] gets *)
Record exception_sent s (p q h : Z) s' : Prop := {
  es_current : ks_current_tcb s' = q;
  es_sender : tcb_of s' p = tcb_with_resource_bits
    (ResourceBits.remove (ResourceBits.add (tcb_resource_bits (tcb_of s p)) ResourceBits.EXCEPTION) ResourceBits.EXCEPTION)
    (tcb_with_thread_state ThreadState.running (tcb_with_partner h (tcb_of s p)));
  es_handler : tcb_of s' q = tcb_with_partner (tcb_myself_global (tcb_of s p)) (tcb_of s q);
  es_others : forall x, x <> p -> x <> q -> tcb_of s' x = tcb_of s x;
  es_tag : utcb_of s' (utcb_ptr s q) =
    utcb_with_word 0 (MsgTag.clear_receive_flags (tag_of s p)) (utcb_of s (utcb_ptr s q));
  es_utcbs : forall u, u <> utcb_ptr s q -> utcb_of s' u = utcb_of s u;
}.

Lemma exception_ipc_run h s :
  let p := ks_current_tcb s in
  let q := get_tcb h in
  p <> NULL -> p <> q -> is_nilthread h = false -> utcb_ptr s p <> NULL -> utcb_ptr s q <> NULL ->
  utcb_ptr s p <> utcb_ptr s q -> utcb_exception_handler (utcb_of s (utcb_ptr s p)) = h ->
  MsgTag.is_propagated (tag_of s p) = false -> MsgTag.get_typed (tag_of s p) = 0 ->
  tcb_myself_global (tcb_of s q) = h -> waits_for s q p = true ->
  exists s', exception_ipc p s = Ok (tag_of s p, s') /\ exception_sent s p q h s'.
Proof.
  intros p q Hp Hpq Hh Hu Hv Huv Heh Htag Hty Hid Hw.
  unfold exception_ipc, set_exception_ipc, get_exception_handler. rewrite bind_tcb_set by done.
  set (s1 := upd_tcb p _ s).
  assert (Hf : forall A (g : tcb -> A) x, (forall v t, g (tcb_with_resource_bits v t) = g t) ->
    g (tcb_of s1 x) = g (tcb_of s x)) by (intros A g x Hg; now apply tcb_field_frame).
  assert (Hptr : forall x, utcb_ptr s1 x = utcb_ptr s x) by (intros x; now apply Hf).
  assert (Htg : tag_of s1 p = tag_of s p) by (unfold tag_of; now rewrite Hptr).
  rewrite !bind_utcb_get by (done || (fold (utcb_ptr s1 p); now rewrite Hptr)).
  change (utcb_exception_handler (utcb_of s1 (tcb_utcb (tcb_of s1 p)))) with
    (utcb_exception_handler (utcb_of s1 (utcb_ptr s1 p))). rewrite Hptr.
  change (utcb_of s1 (utcb_ptr s p)) with (utcb_of s (utcb_ptr s p)). rewrite Heh.
  unfold do_ipc. rewrite bind_assoc.
  pose proof (call_run h s1) as C. cbv zeta in C. change (ks_current_tcb s1) with p in C.
  change (get_tcb h) with q in C. rewrite !Hptr, !Htg, (Hf _ tcb_myself_global) in C by done.
  assert (Hw1 : waits_for s1 q p = true).
  { unfold waits_for. rewrite !(Hf _ tcb_thread_state), !(Hf _ tcb_partner), !(Hf _ tcb_myself_global), !(Hf _ tcb_space)
      by done. exact Hw. }
  rewrite (bind_ok _ _ _ _ _ (C Hp Hpq Hh Hu Hv Htag Hty Hid Hw1)). clear C.
  set (s2 := ks_with_current_tcb q _).
  assert (Hp2 : utcb_ptr s2 p = utcb_ptr s p).
  { unfold utcb_ptr. subst s2. rewrite tcb_of_with_current_tcb, tcb_of_upd_tcb_eq. simpl. unfold received.
    rewrite tcb_of_upd_tcb_ne by congruence. now rewrite tcb_of_upd_utcb, (Hf _ tcb_utcb). }
  assert (Hu2 : forall u, u <> utcb_ptr s q -> utcb_of s2 u = utcb_of s u).
  { intros u Hn. subst s2. unfold received. rewrite Hptr. rewrite utcb_of_with_current_tcb, !utcb_of_upd_tcb.
    now rewrite utcb_of_upd_utcb_ne by congruence. }
  unfold get_mr. rewrite get_word_eq by kindex.
  rewrite bind_utcb_get by (done || (fold (utcb_ptr s2 p); now rewrite Hp2)). fold (utcb_ptr s2 p).
  rewrite Hp2, Hu2 by done. unfold clear_exception_ipc. rewrite bind_tcb_set by done.
  eexists. split; [reflexivity|]. subst s2 s1. unfold received. split.
  - done.
  - kobserve. rewrite decide_True by done. rewrite !(decide_True (P := p = p)) by done.
    rewrite decide_False by congruence. destruct (tcb_of s p). reflexivity.
  - kobserve. rewrite !(decide_False (P := p = q)) by congruence. rewrite !decide_True by done. reflexivity.
  - intros x Hx1 Hx2. kobserve. now rewrite !decide_False by congruence.
  - rewrite utcb_of_upd_tcb, utcb_of_with_current_tcb. kobserve. rewrite Hptr, decide_True by done. now rewrite Htg.
  - intros u Hn. rewrite utcb_of_upd_tcb, utcb_of_with_current_tcb. kobserve. now rewrite Hptr, decide_False by congruence.
Qed.

(** the words [i], ..., [i + n - 1] of a UTCB *)
Fixpoint words_at (u : utcb) (i : Z) (n : nat) : list Z :=
  match n with O => [] | Datatypes.S n => word_at u i :: words_at u (i + 1) n end.

Lemma words_at_length u n i : length (words_at u i n) = n.
Proof. revert i. induction n as [|n IH]; intros i; simpl; auto. Qed.

Lemma nth_words_at u n : forall i k, (k < n)%nat -> nth k (words_at u i n) 0 = word_at u (i + Z.of_nat k).
Proof.
  induction n as [|n IH]; intros i k Hk; [lia|]. destruct k as [|k]; simpl.
  - f_equal. lia.
  - rewrite IH by lia. f_equal. lia.
Qed.

Lemma get_mrs_run p n : forall i s,
  p <> NULL -> utcb_ptr s p <> NULL -> 0 <= i -> i + Z.of_nat n <= UTCB_WORDS ->
  get_mrs p i n s = Ok (words_at (utcb_of s (utcb_ptr s p)) i n, s).
Proof.
  induction n as [|n IH]; intros i s Hp Hu Hi Hn; [done|]. simpl. unfold get_mr.
  rewrite get_word_eq by lia. rewrite bind_utcb_get by done.
  rewrite (bind_ok _ _ _ _ _ (IH (i + 1) s Hp Hu ltac:(lia) ltac:(lia))). reflexivity.
Qed.

(** [s'] is [s] with the words [l] at [i] in the UTCB [u] *)
Record words_set s (u i : Z) (l : list Z) s' : Prop := {
  ws_words : forall j, word_at (utcb_of s' u) j =
    if decide (i <= j < i + Z.of_nat (length l)) then nth (Z.to_nat (j - i)) l 0 else word_at (utcb_of s u) j;
  ws_utcbs : forall v, v <> u -> utcb_of s' v = utcb_of s v;
  ws_rest : ks_with_utcbs ∅ s' = ks_with_utcbs ∅ s;
}.

Lemma words_set_tcb s u i l s' x : words_set s u i l s' -> tcb_of s' x = tcb_of s x.
Proof. intros [_ _ H]. apply (f_equal ks_tcbs) in H. simpl in H. unfold tcb_of. now rewrite H. Qed.

Lemma words_set_current s u i l s' : words_set s u i l s' -> ks_current_tcb s' = ks_current_tcb s.
Proof. intros [_ _ H]. now apply (f_equal ks_current_tcb) in H. Qed.

Lemma set_mrs_run p l : forall i s,
  p <> NULL -> utcb_ptr s p <> NULL -> 0 <= i -> i + Z.of_nat (length l) <= UTCB_WORDS ->
  exists s', set_mrs p i l s = Ok (tt, s') /\ words_set s (utcb_ptr s p) i l s'.
Proof.
  induction l as [|v l IH]; intros i s Hp Hu Hi Hn.
  - exists s. split; [done|]. split; [|done|done]. intros j. simpl. rewrite decide_False by lia. done.
  - simpl in Hn |- *. unfold set_mr. rewrite set_word_eq by lia. rewrite bind_utcb_set by done.
    fold (utcb_ptr s p). set (s1 := upd_utcb _ _ s).
    destruct (IH (i + 1) s1 Hp Hu ltac:(lia) ltac:(lia)) as (s' & E & [W O R]). change (utcb_ptr s1 p) with (utcb_ptr s p) in *.
    exists s'. split; [exact E|]. split; [|intros x Hx|].
    + intros j. rewrite W. subst s1. rewrite utcb_of_upd_utcb_eq, word_at_with. cbn [length].
      destruct (decide (i = j)) as [<-|Hj].
      * rewrite decide_False, decide_True by lia. now rewrite Z.sub_diag.
      * destruct (decide (i + 1 <= j < i + 1 + Z.of_nat (length l))).
        -- rewrite decide_True by lia. replace (Z.to_nat (j - i)) with (Datatypes.S (Z.to_nat (j - (i + 1)))) by lia. done.
        -- rewrite decide_False by lia. done.
    + rewrite O by done. subst s1. now rewrite utcb_of_upd_utcb_ne by congruence.
    + rewrite R. done.
Qed.

Definition exception_tag : Z := MsgTag.set 0 EXCEPT_IPC_GEN_MR_NUM EXCEPT_IPC_GEN_LABEL.

(** a control block after the exception IPC *)
Definition after_exception (t : tcb) : tcb :=
  tcb_with_saved_state ThreadState.aborted (tcb_with_saved_partner nilthread
    (tcb_with_resource_bits
      (ResourceBits.remove (ResourceBits.add (tcb_resource_bits t) ResourceBits.EXCEPTION) ResourceBits.EXCEPTION) t)).

Lemma save_for_exception_run p n s :
  p <> NULL -> utcb_ptr s p <> NULL -> Z.of_nat n <= UTCB_WORDS ->
  save_for_exception p n s = Ok (words_at (utcb_of s (utcb_ptr s p)) 0 n,
    upd_tcb p (fun t => tcb_with_saved_state (tcb_thread_state t) (tcb_with_saved_partner (tcb_partner t) t)) s).
Proof.
  intros Hp Hu Hn. unfold save_for_exception.
  rewrite (bind_ok _ _ _ _ _ (get_mrs_run p n 0 s Hp Hu ltac:(lia) ltac:(lia))).
  unfold get_partner, set_saved_partner, get_state, set_saved_state.
  rewrite bind_tcb_get, bind_tcb_set, bind_tcb_get, bind_tcb_set by done.
  rewrite upd_tcb_fuse, tcb_of_upd_tcb_eq. unfold ret. f_equal.
Qed.

(** the message in the UTCB of the thread *)
Definition exception_message s (p exc_no exc_code : Z) (w : utcb) : utcb :=
  let t := tcb_of s p in
  utcb_with_word 6 (tcb_myself_local t) (utcb_with_word 5 exc_code (utcb_with_word 4 exc_no
    (utcb_with_word 3 (ic_status (tcb_context t)) (utcb_with_word 2 (ic_sp (tcb_context t))
      (utcb_with_word 1 (ic_epc (tcb_context t)) (utcb_with_word 0 exception_tag w)))))).

Lemma restore_after_exception_run p l s :
  p <> NULL -> utcb_ptr s p <> NULL -> Z.of_nat (length l) <= UTCB_WORDS ->
  exists s', restore_after_exception p l s = Ok (tt, s') /\
    (exists s1, words_set s (utcb_ptr s p) 0 l s1 /\ s' = upd_tcb p (fun t =>
      tcb_with_saved_state ThreadState.aborted (tcb_with_thread_state (tcb_saved_state t)
        (tcb_with_saved_partner nilthread (tcb_with_partner (tcb_saved_partner t) t)))) s1).
Proof.
  intros Hp Hu Hn. unfold restore_after_exception.
  destruct (set_mrs_run p l 0 s Hp Hu ltac:(lia) ltac:(lia)) as (s1 & E & W).
  rewrite (bind_ok _ _ _ _ _ E). eexists. split; [|exists s1; split; [exact W|reflexivity]].
  unfold get_saved_partner, set_partner, set_saved_partner, get_saved_state, set_state, set_saved_state.
  rewrite bind_tcb_get, !bind_tcb_set, bind_tcb_get, bind_tcb_set, tcb_set_run by done. f_equal. f_equal.
  rewrite !upd_tcb_fuse. apply upd_tcb_ext. now rewrite !tcb_of_upd_tcb_eq.
Qed.

Lemma load_user_context_run p i s :
  p <> NULL -> utcb_ptr s p <> NULL -> 0 <= i -> i + 2 < UTCB_WORDS ->
  load_user_context p i s = Ok (tt, upd_tcb p (fun t => tcb_with_context
    (ic_with_sp (word_at (utcb_of s (utcb_ptr s p)) (i + 1))
      (ic_with_epc (word_at (utcb_of s (utcb_ptr s p)) i) (tcb_context t))) t) s).
Proof.
  intros Hp Hu Hi Hn. unfold load_user_context, get_mr, set_user_ip, set_user_sp, set_user_flags.
  rewrite !get_word_eq by lia. rewrite bind_utcb_get, bind_tcb_set by done. fold (utcb_ptr s p).
  assert (H : forall f, (forall t, tcb_utcb (f t) = tcb_utcb t) -> utcb_ptr (upd_tcb p f s) p = utcb_ptr s p).
  { intros f Hf. now apply (tcb_field_frame tcb_utcb). }
  set (s1 := upd_tcb p _ s). assert (Hs1 : tcb_utcb (tcb_of s1 p) = utcb_ptr s p) by now apply H.
  rewrite bind_utcb_get by congruence. rewrite bind_tcb_set by done. rewrite Hs1.
  change (utcb_of s1 (utcb_ptr s p)) with (utcb_of s (utcb_ptr s p)). subst s1. rewrite upd_tcb_fuse.
  rewrite bind_utcb_get; [reflexivity|done|]. rewrite (tcb_field_frame tcb_utcb) by done. exact Hu.
Qed.

(** C13. An exception of a thread whose handler waits for it is delivered and
    leaves no trace in the thread: the handler gets the exception tag from the
    thread, and the thread has its message registers, its partner, its state and
    its user registers back; only its saved state is reset, and control is with
    the handler. *)
Theorem exception_ipc_leaves_no_trace exc_no exc_code s :
  let p := ks_current_tcb s in
  let u := utcb_ptr s p in
  let h := utcb_exception_handler (utcb_of s u) in
  let q := get_tcb h in
  p <> NULL -> p <> q -> is_nilthread h = false -> u <> NULL -> utcb_ptr s q <> NULL -> u <> utcb_ptr s q ->
  tcb_myself_global (tcb_of s q) = h -> waits_for s q p = true ->
  exists s', send_exception_ipc exc_no exc_code s = Ok (true, s') /\
    tcb_of s' p = after_exception (tcb_of s p) /\
    (forall j, word_at (utcb_of s' u) j = word_at (utcb_of s u) j) /\
    tcb_of s' q = tcb_with_partner (tcb_myself_global (tcb_of s p)) (tcb_of s q) /\
    utcb_of s' (utcb_ptr s q) = utcb_with_word 0 exception_tag (utcb_of s (utcb_ptr s q)) /\
    (forall x, x <> p -> x <> q -> tcb_of s' x = tcb_of s x) /\
    (forall v, v <> u -> v <> utcb_ptr s q -> utcb_of s' v = utcb_of s v) /\
    ks_current_tcb s' = q.
Proof.
  intros p u h q Hp Hpq Hh Hu Hv Huv Hid Hw.
  unfold send_exception_ipc, get_current_tcb, get_exception_handler. rewrite bind_gets. fold p.
  rewrite bind_utcb_get by done. fold (utcb_ptr s p). fold u h. rewrite Hh.
  change (Z.to_nat (EXCEPT_IPC_GEN_MR_NUM + 1)) with 7%nat.
  rewrite (bind_ok _ _ _ _ _ (save_for_exception_run p 7 s Hp Hu ltac:(unfold UTCB_WORDS, Config.IPC_NUM_MR; lia))). fold u.
  set (F := fun t => tcb_with_saved_state (tcb_thread_state t) (tcb_with_saved_partner (tcb_partner t) t)).
  set (ws := words_at (utcb_of s u) 0 7).
  set (t := tcb_of s p). set (w := utcb_of s u).
  set (s2 := upd_tcb p F (upd_utcb u (exception_message s p exc_no exc_code) s)).
  assert (E2 : forall A (k : unit -> M (kstate V) A),
    (set_tag p exception_tag ;;;
     let* v := get_user_ip p in set_mr p 1 v ;;;
     let* v := get_user_sp p in set_mr p 2 v ;;;
     let* v := get_user_flags p in set_mr p 3 v ;;;
     set_mr p 4 exc_no ;;; set_mr p 5 exc_code ;;;
     let* v := get_local_id p in bind (set_mr p 6 v) k) (upd_tcb p F s) = k tt s2).
  { intros A k. krun. reflexivity. }
  rewrite E2. clear E2.
  assert (Hptr : forall x, utcb_ptr s2 x = utcb_ptr s x)
    by (intros x; unfold utcb_ptr; subst s2; now rewrite (tcb_field_frame tcb_utcb), tcb_of_upd_utcb).
  assert (Hw2 : utcb_of s2 u = exception_message s p exc_no exc_code w)
    by (subst s2; now rewrite utcb_of_upd_tcb, utcb_of_upd_utcb_eq).
  assert (Htag : tag_of s2 p = exception_tag).
  { unfold tag_of. rewrite Hptr. fold u. rewrite Hw2. unfold exception_message. now rewrite !word_at_with. }
  assert (Hf : forall A (g : tcb -> A) x, (forall t, g (F t) = g t) -> g (tcb_of s2 x) = g (tcb_of s x))
    by (intros A g x Hg; subst s2; now rewrite (tcb_field_frame g), tcb_of_upd_utcb).
  assert (Hp2 : tcb_of s2 p = F t) by (subst s2; now rewrite tcb_of_upd_tcb_eq, tcb_of_upd_utcb).
  assert (Ho2 : forall x, x <> p -> tcb_of s2 x = tcb_of s x)
    by (intros x Hx; subst s2; now rewrite tcb_of_upd_tcb_ne, tcb_of_upd_utcb by congruence).
  assert (Hv2 : forall v, v <> u -> utcb_of s2 v = utcb_of s v)
    by (intros v Hn; subst s2; now rewrite utcb_of_upd_tcb, utcb_of_upd_utcb_ne by congruence).
  assert (Hw3 : waits_for s2 q p = true).
  { unfold waits_for. rewrite !(Hf _ tcb_thread_state), !(Hf _ tcb_partner), !(Hf _ tcb_myself_global), !(Hf _ tcb_space)
      by done. exact Hw. }
  pose proof (exception_ipc_run h s2) as X. cbv zeta in X. change (ks_current_tcb s2) with p in X.
  change (get_tcb h) with q in X. rewrite !Hptr, !Htag, (Hf _ tcb_myself_global) in X by done.
  fold u in X. rewrite Hw2 in X.
  destruct (X Hp Hpq Hh Hu Hv Huv eq_refl eq_refl eq_refl Hid Hw3) as (s3 & E3 & [C3 P3 Q3 O3 T3 U3]). clear X.
  rewrite (bind_ok _ _ _ _ _ E3). change (MsgTag.is_error exception_tag) with false. cbn [negb].
  rewrite bind_when_true. rewrite Hptr in T3, U3. rewrite Htag in T3.
  assert (Hp3 : utcb_ptr s3 p = u) by (unfold utcb_ptr; rewrite P3, Hp2; reflexivity).
  assert (Hw3' : utcb_of s3 u = exception_message s p exc_no exc_code w) by now rewrite U3.
  rewrite (bind_ok _ _ _ _ _ (load_user_context_run p 1 s3 Hp ltac:(now rewrite Hp3) ltac:(lia)
    ltac:(unfold UTCB_WORDS; lia))).
  set (s4 := upd_tcb p _ s3).
  assert (Hp4 : tcb_of s4 p = tcb_of s3 p).
  { subst s4. rewrite tcb_of_upd_tcb_eq, Hp3, Hw3', P3, Hp2. unfold exception_message. rewrite !word_at_with.
    fold t. destruct t as [? ? ? ? ? ? ? ? c]. destruct c. reflexivity. }
  assert (Hptr4 : utcb_ptr s4 p = u) by (unfold utcb_ptr; rewrite Hp4; exact Hp3).
  destruct (restore_after_exception_run p ws s4 Hp ltac:(now rewrite Hptr4)
    ltac:(unfold ws; rewrite words_at_length; unfold UTCB_WORDS; lia)) as (s' & E5 & s5 & W & ->).
  rewrite (bind_ok _ _ _ _ _ E5). rewrite Hptr4 in W.
  eexists. split; [reflexivity|]. split_and!.
  - rewrite tcb_of_upd_tcb_eq, (words_set_tcb _ _ _ _ _ p W), Hp4, P3, Hp2. fold t. destruct t. reflexivity.
  - intros j. rewrite utcb_of_upd_tcb, (ws_words _ _ _ _ _ W). unfold ws. rewrite words_at_length.
    case_decide as Hj.
    + rewrite nth_words_at by lia. f_equal. lia.
    + subst s4. rewrite utcb_of_upd_tcb, Hw3'. unfold exception_message. fold w. rewrite !word_at_with.
      now rewrite !decide_False by lia.
  - rewrite tcb_of_upd_tcb_ne, (words_set_tcb _ _ _ _ _ q W) by done. subst s4.
    rewrite tcb_of_upd_tcb_ne, Q3, (Ho2 q), Hp2 by congruence. fold t. destruct t; reflexivity.
  - rewrite utcb_of_upd_tcb, (ws_utcbs _ _ _ _ _ W) by congruence. subst s4.
    now rewrite utcb_of_upd_tcb, T3, (Hv2 _ (not_eq_sym Huv)).
  - intros x Hx1 Hx2. rewrite tcb_of_upd_tcb_ne, (words_set_tcb _ _ _ _ _ x W) by congruence. subst s4.
    rewrite tcb_of_upd_tcb_ne, O3 by congruence. now apply Ho2.
  - intros v H1 H2. rewrite utcb_of_upd_tcb, (ws_utcbs _ _ _ _ _ W) by congruence. subst s4.
    rewrite utcb_of_upd_tcb, U3 by congruence. now apply Hv2.
  - change (ks_current_tcb s5 = q). rewrite (words_set_current _ _ _ _ _ W). exact C3.
Qed.

End Theory.

(** ** Load linked and store conditional

    Over a memory of words the emulation is run on its own operands, whatever
    the decoding made of the instruction. *)

Section LinkedAccess.
Implicit Types s : kstate (gmap Z Z).

Definition lld (r : Z) : load_instr := LoadInstr 0 r 0 OP_LLD.
Definition scd (r : Z) : load_instr := LoadInstr 0 r 0 OP_SCD.
Definition word_of s (a : Z) : Z := default 0 (ks_vm s !! a).
Definition reg_of s (p r : Z) : Z := get_reg (tcb_context (tcb_of s p)) r.
Definition put_reg (p r v : Z) s : kstate (gmap Z Z) :=
  upd_tcb p (fun t => tcb_with_context (set_reg r v (tcb_context t)) t) s.
Definition linked (paddr space : Z) s : kstate (gmap Z Z) :=
  ks_with_cpu (cpu_with_llval_space space (cpu_with_llval_address paddr (ks_cpu s))) s.
Definition linked_to s (paddr space : Z) : Prop :=
  cpu_llval_address (ks_cpu s) = paddr /\ cpu_llval_space (ks_cpu s) = space.

Lemma emulate_lld p space paddr a r s :
  p <> NULL -> emulate p space paddr a (lld r) s = Ok (tt, put_reg p r (word_of s a) (linked paddr space s)).
Proof.
  intros Hp. unfold emulate, set_llval, lift. simpl. rewrite bind_modify. unfold bind at 1. simpl.
  unfold set_context. now rewrite tcb_set_run.
Qed.

Lemma emulate_scd p space paddr a r s :
  p <> NULL -> linked_to s paddr space ->
  emulate p space paddr a (scd r) s = Ok (tt, put_reg p r 1 (ks_with_vm (<[a := reg_of s p r]> (ks_vm s)) s)).
Proof.
  intros Hp [Ha Hsp]. unfold emulate, lift. simpl. rewrite bind_gets, Ha, Hsp, !Z.eqb_refl. cbn [andb].
  unfold get_context. rewrite bind_tcb_get by done. unfold bind at 1. simpl. unfold set_context.
  now rewrite tcb_set_run.
Qed.

Lemma emulate_scd_fails p space paddr a r s :
  p <> NULL -> ~ linked_to s paddr space ->
  emulate p space paddr a (scd r) s = Ok (tt, put_reg p r 0 s).
Proof.
  intros Hp Hn. unfold emulate, lift. simpl. rewrite bind_gets.
  destruct (Z.eqb_spec (cpu_llval_address (ks_cpu s)) paddr), (Z.eqb_spec (cpu_llval_space (ks_cpu s)) space);
    [now destruct Hn|..]; cbn [andb]; unfold set_context; now rewrite tcb_set_run.
Qed.

Lemma reg_of_put_reg p q r v s :
  is_saved_reg r = true -> reg_of (put_reg p r v s) q r = if decide (p = q) then v else reg_of s q r.
Proof.
  intros Hr. unfold reg_of, put_reg. rewrite tcb_of_upd_tcb. case_decide; [subst|done]. simpl.
  rewrite get_reg_set_reg. now rewrite Z.eqb_refl, Hr.
Qed.

(** the thread adds one to its register *)
Definition increment (p r : Z) : M (kstate (gmap Z Z)) unit :=
  set_context p (fun c => set_reg r (w64 (get_reg c r + 1)) c).
Lemma increment_run p r s : p <> NULL -> increment p r s = Ok (tt, put_reg p r (w64 (reg_of s p r + 1)) s).
Proof.
  intros Hp. unfold increment, set_context. rewrite tcb_set_run by done. f_equal.
Qed.

(** C33. The emulated store conditional does not protect an update: a store
    leaves the link of other threads of the space alone.  When two threads load
    a word linked, add one and store it conditionally, the second one between
    load and store of the first, both are told that they succeeded, and the word
    is only one higher. *)
Theorem store_conditional_loses_update s p q space paddr a r :
  p <> NULL -> q <> NULL -> p <> q -> is_saved_reg r = true ->
  exists s', (emulate p space paddr a (lld r) ;;;
              emulate q space paddr a (lld r) ;;; increment q r ;;; emulate q space paddr a (scd r) ;;;
              increment p r ;;; emulate p space paddr a (scd r)) s = Ok (tt, s') /\
    reg_of s' p r = 1 /\ reg_of s' q r = 1 /\ word_of s' a = w64 (word_of s a + 1).
Proof.
  intros Hp Hq Hpq Hr.
  rewrite (bind_ok _ _ _ _ _ (emulate_lld p space paddr a r s Hp)). set (s1 := put_reg _ _ _ _).
  rewrite (bind_ok _ _ _ _ _ (emulate_lld q space paddr a r s1 Hq)). set (s2 := put_reg _ _ _ _).
  rewrite (bind_ok _ _ _ _ _ (increment_run q r s2 Hq)). set (s3 := put_reg _ _ _ s2).
  rewrite (bind_ok _ _ _ _ _ (emulate_scd q space paddr a r s3 Hq ltac:(now split))). set (s4 := put_reg _ _ _ _).
  rewrite (bind_ok _ _ _ _ _ (increment_run p r s4 Hp)). set (s5 := put_reg _ _ _ s4).
  rewrite (emulate_scd p space paddr a r s5 Hp ltac:(now split)). eexists. split; [reflexivity|].
  assert (H1 : reg_of s4 p r = word_of s a).
  { unfold s4. rewrite reg_of_put_reg, decide_False by congruence. change (reg_of s3 p r = word_of s a).
    unfold s3, s2. rewrite !reg_of_put_reg, !decide_False by congruence. change (reg_of s1 p r = word_of s a).
    unfold s1. now rewrite reg_of_put_reg, decide_True. }
  split_and!.
  - now rewrite reg_of_put_reg, decide_True.
  - rewrite reg_of_put_reg, decide_False by congruence. change (reg_of s5 q r = 1).
    unfold s5. rewrite reg_of_put_reg, decide_False by congruence. unfold s4. now rewrite reg_of_put_reg, decide_True.
  - unfold word_of at 1. simpl. rewrite lookup_insert_eq. simpl. unfold s5.
    rewrite reg_of_put_reg, decide_True by done. now rewrite H1.
Qed.

End LinkedAccess.

(** ** Examples *)

(** thread 2 runs and has the exception handler 3, which waits for it *)
Definition faulting_state : kstate unit :=
  upd_utcb 100 (utcb_with_exception_handler (threadid 3 1)) calling_state.

(** thread 2 causes a trap *)
Definition trapped_state : kstate unit :=
  upd_tcb (ks_current_tcb calling_state) (fun t => tcb_with_context
    (ic_with_cause (Z.shiftl 13 2) (ic_with_epc 4096 (tcb_context t))) t) calling_state.

Lemma unhandled_exception_halts_witness :
  exists s', mips64_exception (V := unit) crash 0 trapped_state = Ok (tt, s') /\
    tcb_thread_state (tcb_of s' (ks_current_tcb calling_state)) = ThreadState.halted /\
    ic_epc (tcb_context (tcb_of s' (ks_current_tcb calling_state))) = 4100.
Proof.
  rewrite (unhandled_exception_halts crash 0 trapped_state);
    [|vm_compute; congruence|vm_compute; congruence|split; intros E; discriminate E|vm_compute; congruence..].
  eexists. split; [reflexivity|]. split; vm_compute; reflexivity.
Defined.

Lemma exception_ipc_leaves_no_trace_witness :
  exists s', send_exception_ipc 4 0x1234 faulting_state = Ok (true, s') /\
    tcb_partner (tcb_of s' (get_tcb (threadid 3 1))) = threadid 2 1.
Proof.
  destruct (exception_ipc_leaves_no_trace 4 0x1234 faulting_state) as (s' & E & _ & _ & Hq & _);
    [vm_compute; congruence..|].
  exists s'. split; [exact E|]. change (utcb_exception_handler _) with (threadid 3 1) in Hq.
  rewrite Hq. vm_compute. reflexivity.
Defined.

Lemma store_conditional_loses_update_witness :
  exists s', (emulate 2 4096 64 64 (lld 8) ;;;
              emulate 3 4096 64 64 (lld 8) ;;; increment 3 8 ;;; emulate 3 4096 64 64 (scd 8) ;;;
              increment 2 8 ;;; emulate 2 4096 64 64 (scd 8)) (boot_state (<[64 := 10]> ∅)) = Ok (tt, s') /\
    word_of s' 64 = 11.
Proof.
  destruct (store_conditional_loses_update (boot_state (<[64 := 10]> ∅)) 2 3 4096 64 64 8) as (s' & E & _ & _ & H);
    [done..|].
  exists s'. split; [exact E|]. rewrite H. vm_compute. reflexivity.
Defined.

(** an instruction LL with offset 8 at address 0 *)
Lemma linked_instructions_not_recognised_witness :
  mips64_illegal crash 0 0 (ks_with_current_tcb 2 (boot_state (<[0 := linked_instruction OP_LL 4 5 8]> ∅))) =
    Ok ((false, linked_instruction OP_LL 4 5 8),
        ks_with_current_tcb 2 (boot_state (<[0 := linked_instruction OP_LL 4 5 8]> ∅))).
Proof.
  apply linked_instructions_not_recognised; [done|done|vm_compute; done|vm_compute; reflexivity].
Defined.
