(* ===== verification/Exregs.v ===== *)
(** * The ExchangeRegisters system call

    [api/backup/exregs.cc], local operation. *)

From Stdlib Require Import ZArith Lia Bool List.
From stdpp Require Import base numbers list option gmap.
From S2P Require Import Prelude Types Time Kip ThreadId Fpage State Msg Ring Monad Tcb Sched.
From S2P Require Import Vspace Unwind Ipcx Ipc Schedule.
Open Scope Z_scope.

(** control bits of [api/v4/syscalls.h] *)
Definition EXREGS_CONTROL_HALT : Z := 1.
Definition EXREGS_CONTROL_RECV : Z := 2.
Definition EXREGS_CONTROL_SEND : Z := 4.
Definition EXREGS_CONTROL_SP : Z := 8.
Definition EXREGS_CONTROL_IP : Z := 16.
Definition EXREGS_CONTROL_FLAGS : Z := 32.
Definition EXREGS_CONTROL_UHANDLE : Z := 64.
Definition EXREGS_CONTROL_PAGER : Z := 128.
Definition EXREGS_CONTROL_HALTFLAG : Z := 256.

(** the in/out parameters *)
Record exregs := ExRegs {
  ex_control : Z; ex_sp : Z; ex_ip : Z; ex_flags : Z; ex_pager : Z; ex_uhandle : Z
}.

Definition has (ctrl bit : Z) : bool := truth (Z.land ctrl bit).

Section Operations.
Context {V : Type} `{!VirtualMemory V}.
Abbreviation S := (kstate V).
Abbreviation K := (M (kstate V)).

(** the return values, read before anything is written *)
Definition read_exregs (tcb : Z) : K exregs :=
  let* usp := get_user_sp tcb in
  let* uip := get_user_ip tcb in
  let* uhandle := get_user_handle tcb in
  let* uflags := get_user_flags tcb in
  let* pager := get_pager tcb in
  ret (ExRegs 0 usp uip uflags pager uhandle).

Definition write_exregs (tcb : Z) (x : exregs) : K unit :=
  let ctrl := ex_control x in
  when (has ctrl EXREGS_CONTROL_SP) (set_user_sp tcb (ex_sp x)) ;;;
  when (has ctrl EXREGS_CONTROL_IP) (set_user_ip tcb (ex_ip x)) ;;;
  when (has ctrl EXREGS_CONTROL_PAGER) (set_pager tcb (ex_pager x)) ;;;
  when (has ctrl EXREGS_CONTROL_UHANDLE) (set_user_handle tcb (ex_uhandle x)) ;;;
  when (has ctrl EXREGS_CONTROL_FLAGS) (set_user_flags tcb (ex_flags x)).

(** the thread's IPC is broken off and it runs the error handler *)
Definition abort_ipc (tcb : Z) : K unit :=
  unwind tcb abort ;;;
  set_state tcb ThreadState.running ;;;
  notify tcb handle_ipc_error_fn [] ;;;
  enqueue_ready tcb false.

(** the bits of the old control word for an ongoing IPC *)
Definition exregs_ipc (tcb ctrl : Z) : K Z :=
  let* st := get_state tcb in
  if ThreadState.is_sending st then
    when (has ctrl EXREGS_CONTROL_SEND) (abort_ipc tcb) ;;; ret EXREGS_CONTROL_SEND
  else if ThreadState.is_receiving st then
    when (has ctrl EXREGS_CONTROL_RECV) (abort_ipc tcb) ;;; ret EXREGS_CONTROL_RECV
  else ret 0.

(** resuming a halted thread and halting a running one *)
Definition exregs_halt (tcb ctrl : Z) : K Z :=
  let* st := get_state tcb in
  if ThreadState.is_halted st then
    when (has ctrl EXREGS_CONTROL_HALTFLAG && negb (has ctrl EXREGS_CONTROL_HALT))
      (set_state tcb ThreadState.running ;;; enqueue_ready tcb false) ;;;
    ret EXREGS_CONTROL_HALT
  else
    when (has ctrl EXREGS_CONTROL_HALTFLAG && has ctrl EXREGS_CONTROL_HALT &&
          ThreadState.is_running st)
      (set_state tcb ThreadState.halted ;;;
       let* current := get_current_tcb in
       when (tcb =? current) (switch_to_idle current)) ;;;
    ret 0.

Definition perform_exregs (tcb : Z) (x : exregs) : K exregs :=
  let* old := read_exregs tcb in
  write_exregs tcb x ;;;
  let* c1 := exregs_ipc tcb (ex_control x) in
  let* c2 := exregs_halt tcb (ex_control x) in
  ret (ExRegs (Z.lor c1 c2) (ex_sp old) (ex_ip old) (ex_flags old) (ex_pager old)
              (ex_uhandle old)).

(** the thread id and the registers that are returned *)
Definition sys_exchange_registers (dest_tid : Z) (x : exregs) (is_local : bool)
    : K (Z * exregs) :=
  let* sp := get_current_space in
  let tcb := get_tcb dest_tid in
  let* act := is_activated tcb in
  let* tsp := get_space tcb in
  let* gid := get_global_id tcb in
  let* lid := get_local_id tcb in
  if negb act || negb (tsp =? sp) || (negb (gid =? dest_tid) && negb (lid =? dest_tid)) then
    let* current := get_current_tcb in
    set_error_code current EINVALID_THREAD ;;;
    ret (nilthread, ExRegs 0 0 0 0 nilthread 0)
  else
    let* out := perform_exregs tcb x in
    let* id := (if is_local then get_global_id tcb else get_local_id tcb) in
    ret (id, out).

End Operations.

(** ** What is exchanged *)

Section Theory.
Context {V : Type} `{!VirtualMemory V}.
Implicit Types s : kstate V.

(** the registers in the exception frame and in the UTCB *)
Definition swap_regs (x : exregs) (t : tcb) : tcb :=
  let c := tcb_context t in
  let c := if has (ex_control x) EXREGS_CONTROL_SP then ic_with_sp (ex_sp x) c else c in
  let c := if has (ex_control x) EXREGS_CONTROL_IP then ic_with_epc (ex_ip x) c else c in
  tcb_with_context c t.
Definition swap_utcb (x : exregs) (u : utcb) : utcb :=
  let u := if has (ex_control x) EXREGS_CONTROL_PAGER then utcb_with_pager (ex_pager x) u else u in
  if has (ex_control x) EXREGS_CONTROL_UHANDLE then utcb_with_user_defined_handle (ex_uhandle x) u else u.

Definition old_exregs s (t ctrl : Z) : exregs :=
  let c := tcb_context (tcb_of s t) in
  let u := utcb_of s (tcb_utcb (tcb_of s t)) in
  ExRegs ctrl (ic_sp c) (ic_epc c) (ic_status c) (utcb_pager u) (utcb_user_defined_handle u).

Lemma read_exregs_run t s :
  t <> NULL -> tcb_utcb (tcb_of s t) <> NULL -> read_exregs t s = Ok (old_exregs s t 0, s).
Proof. intros Ht Hu. unfold read_exregs. krun. done. Qed.

Lemma write_exregs_run t x s :
  t <> NULL -> tcb_utcb (tcb_of s t) <> NULL ->
  exists s', write_exregs t x s = Ok (tt, s') /\
    s' ≡ upd_tcb t (swap_regs x) (upd_utcb (tcb_utcb (tcb_of s t)) (swap_utcb x) s).
Proof.
  intros Ht Hu. unfold write_exregs, swap_regs, swap_utcb.
  destruct (has _ EXREGS_CONTROL_SP), (has _ EXREGS_CONTROL_IP), (has _ EXREGS_CONTROL_PAGER),
    (has _ EXREGS_CONTROL_UHANDLE), (has _ EXREGS_CONTROL_FLAGS); 
    krun; eexists; (split; [reflexivity|kequiv]).
Qed.

(** *** Resuming and halting *)

Definition is_resumed (ctrl : Z) : bool := has ctrl EXREGS_CONTROL_HALTFLAG && negb (has ctrl EXREGS_CONTROL_HALT).
Definition is_halting (ctrl st : Z) : bool :=
  has ctrl EXREGS_CONTROL_HALTFLAG && has ctrl EXREGS_CONTROL_HALT && ThreadState.is_running st.

(** the state of a thread that is not resumed *)
Definition halt_state (ctrl st : Z) : Z := if is_halting ctrl st then ThreadState.halted else st.

Lemma exregs_halt_run t ctrl s :
  t <> NULL ->
  let st := tcb_thread_state (tcb_of s t) in
  ThreadState.is_halted st && is_resumed ctrl = false ->
  exists s', exregs_halt t ctrl s =
      Ok ((if ThreadState.is_halted st then EXREGS_CONTROL_HALT else 0), s') /\
    s' ≡ (if negb (ThreadState.is_halted st) && is_halting ctrl st && (t =? ks_current_tcb s)
          then ks_with_current_tcb idle_tcb else id)
         (upd_tcb t (tcb_with_thread_state (if ThreadState.is_halted st then st else halt_state ctrl st)) s).
Proof.
  intros Ht st Hr. unfold exregs_halt, halt_state. fold (is_resumed ctrl). krun. fold st.
  destruct (ThreadState.is_halted st); cbn [andb negb] in *.
  - rewrite Hr. eexists. split; [reflexivity|]. unfold id. symmetry. apply upd_tcb_same. unfold st. now destruct (tcb_of s t).
  - fold (is_halting ctrl st). destruct (is_halting ctrl st); krun.
    + destruct (t =? ks_current_tcb s); krun; (eexists; split; [reflexivity|kequiv]).
    + eexists. split; [reflexivity|]. unfold id. symmetry. apply upd_tcb_same. unfold st. now destruct (tcb_of s t).
Qed.

(** the thread is not in an IPC *)
Definition no_ipc (st : Z) : bool := negb (ThreadState.is_sending st) && negb (ThreadState.is_receiving st).

(** C23 ExchangeRegisters on a thread that is in no IPC and is not to be resumed
    returns the old stack and instruction pointer, flags, pager and user handle
    and whether it was halted; it writes exactly those of stack and instruction
    pointer, pager and user handle whose control bit is set (the flags are never
    written), halts the thread if it runs and that is asked for (switching to
    the idle thread if it halts itself), and changes nothing else. *)
Theorem perform_exregs_swaps t x s :
  t <> NULL -> tcb_utcb (tcb_of s t) <> NULL ->
  let st := tcb_thread_state (tcb_of s t) in
  let ctrl := ex_control x in
  no_ipc st = true -> ThreadState.is_halted st && is_resumed ctrl = false ->
  exists s', perform_exregs t x s =
      Ok (old_exregs s t (if ThreadState.is_halted st then EXREGS_CONTROL_HALT else 0), s') /\
    s' ≡ (if is_halting ctrl st && (t =? ks_current_tcb s) then ks_with_current_tcb idle_tcb else id)
         (upd_tcb t (fun y => tcb_with_thread_state (halt_state ctrl st) (swap_regs x y))
           (upd_utcb (tcb_utcb (tcb_of s t)) (swap_utcb x) s)).
Proof.
  intros Ht Hu st ctrl Hi Hr. unfold perform_exregs.
  rewrite (bind_ok _ _ _ _ _ (read_exregs_run t s Ht Hu)).
  destruct (write_exregs_run t x s Ht Hu) as (s1 & E1 & Heq1).
  rewrite (bind_ok _ _ _ _ _ E1).
  assert (Hst : tcb_thread_state (tcb_of s1 t) = st).
  { destruct Heq1 as [-> _ _ _]. rewrite tcb_of_upd_tcb_eq. done. }
  assert (Hcur : ks_current_tcb s1 = ks_current_tcb s).
  { destruct Heq1 as [_ _ _ H]. now apply (f_equal ks_current_tcb) in H. }
  unfold exregs_ipc, get_state. rewrite bind_assoc, bind_tcb_get, Hst by done.
  apply andb_true_iff in Hi as [H1%negb_true_iff H2%negb_true_iff]. rewrite H1, H2, bind_ret_l.
  destruct (exregs_halt_run t ctrl s1 Ht) as (s2 & E2 & Heq2); [now rewrite Hst|].
  rewrite Hst, Hcur in *. fold ctrl. rewrite (bind_ok _ _ _ _ _ E2). exists s2. split.
  { unfold ret, old_exregs. simpl. now destruct (ThreadState.is_halted st). }
  rewrite Heq2. clear E1 E2.
  assert (Hh : (if ThreadState.is_halted st then st else halt_state ctrl st) = halt_state ctrl st).
  { unfold halt_state, is_halting. destruct (ThreadState.is_halted st) eqn:E; [|done].
    apply Z.eqb_eq in E. rewrite E. now rewrite andb_false_r. }
  assert (Hn : negb (ThreadState.is_halted st) && is_halting ctrl st = is_halting ctrl st).
  { unfold is_halting. destruct (ThreadState.is_halted st) eqn:E; [|done].
    apply Z.eqb_eq in E. rewrite E. now rewrite andb_false_r. }
  rewrite Hh, Hn.
  transitivity ((if is_halting ctrl st && (t =? ks_current_tcb s) then ks_with_current_tcb idle_tcb else id)
    (upd_tcb t (tcb_with_thread_state (halt_state ctrl st))
      (upd_tcb t (swap_regs x) (upd_utcb (tcb_utcb (tcb_of s t)) (swap_utcb x) s)))).
  - destruct (is_halting ctrl st && (t =? ks_current_tcb s)); unfold id; now rewrite Heq1.
  - rewrite upd_tcb_fuse. done.
Qed.

(** ExchangeRegisters refuses a thread that is not activated, is in another
    space or is not named by its global or local id: the caller gets the nil
    thread and the error code EINVALID_THREAD, nothing else changes. *)
Theorem sys_exchange_registers_refuses dest x is_local s :
  let t := get_tcb dest in
  let c := ks_current_tcb s in
  c <> NULL -> tcb_utcb (tcb_of s c) <> NULL ->
  tcb_utcb (tcb_of s t) = NULL \/ tcb_space (tcb_of s t) <> tcb_space (tcb_of s c) \/
    tcb_myself_global (tcb_of s t) <> dest /\ tcb_myself_local (tcb_of s t) <> dest ->
  sys_exchange_registers dest x is_local s =
    Ok ((nilthread, ExRegs 0 0 0 0 nilthread 0),
        upd_utcb (tcb_utcb (tcb_of s c)) (utcb_with_error_code EINVALID_THREAD) s).
Proof.
  intros t c Hc Hu Hbad. assert (Ht : t <> NULL) by apply get_tcb_nonnull.
  unfold sys_exchange_registers, get_current_space. fold t. autounfold with kacc.
  rewrite bind_assoc, bind_gets. fold c. rewrite !bind_tcb_get by done.
  match goal with |- (if ?b then _ else _) s = _ => assert (b = true) as -> end.
  { rewrite !orb_true_iff, !negb_true_iff, andb_true_iff, !negb_true_iff, negb_false_iff, !Z.eqb_neq, Z.eqb_eq. tauto. }
  rewrite bind_gets. fold c. now rewrite bind_utcb_set by done.
Qed.
End Theory.

(** thread 3 (number 2) runs, thread 2 exchanges its registers *)
Definition exregs_state : kstate unit :=
  ks_with_current_tcb 2
    (upd_tcb 2 (fun t => tcb_with_utcb 100 (tcb_with_space 4096 t))
      (upd_tcb 3 (fun t => tcb_with_thread_state ThreadState.running
                    (tcb_with_context (ic_with_epc 0x1000 (ic_with_sp 0x2000 zero_context)) (tcb_with_utcb 101 (tcb_with_space 4096 t))))
        (boot_state tt))).
Definition halt_and_move : exregs :=
  ExRegs (EXREGS_CONTROL_IP + EXREGS_CONTROL_HALT + EXREGS_CONTROL_HALTFLAG) 0 0x3000 0 0 0.

Lemma perform_exregs_swaps_witness :
  exists s', perform_exregs 3 halt_and_move exregs_state = Ok (ExRegs 0 0x2000 0x1000 0 0 0, s') /\
    tcb_thread_state (tcb_of s' 3) = ThreadState.halted /\
    ic_epc (tcb_context (tcb_of s' 3)) = 0x3000 /\ ic_sp (tcb_context (tcb_of s' 3)) = 0x2000.
Proof.
  destruct (perform_exregs_swaps 3 halt_and_move exregs_state ltac:(done) ltac:(vm_compute; done)
    ltac:(vm_compute; reflexivity) ltac:(vm_compute; reflexivity)) as (s' & E & Heq).
  exists s'. split; [exact E|]. destruct Heq as [Ht _ _ _]. rewrite !Ht.
  split_and!; vm_compute; reflexivity.
Defined.

Lemma sys_exchange_registers_refuses_witness :
  exists s', sys_exchange_registers (set_global_id 5 1 0) halt_and_move true exregs_state =
      Ok ((nilthread, ExRegs 0 0 0 0 nilthread 0), s') /\
    utcb_error_code (utcb_of s' 100) = EINVALID_THREAD.
Proof.
  eexists. split.
  - apply (sys_exchange_registers_refuses (set_global_id 5 1 0) halt_and_move true exregs_state);
      [vm_compute; done|vm_compute; done|left; vm_compute; reflexivity].
  - vm_compute. reflexivity.
Defined.
