(* ===== verification/Invariant.v ===== *)
(** * The scheduler's queues under sequences of entries into the kernel

    The ready queues and the wakeup queue are rings through the control blocks,
    which every part of the kernel that blocks or unblocks a thread changes:
    IPC, its unwinding, ThreadSwitch, Schedule, ExchangeRegisters, deletion of
    threads, the timer and the interrupts.  [run_entry] is one entry into the
    kernel; that the queues are well-formed is an invariant of all entries that
    are [admissible], and a creation that is not breaks them. *)

From Stdlib Require Import ZArith Lia Bool List.
From stdpp Require Import base numbers list option gmap relations.
From S2P Require Import Prelude Types Time Kip ThreadId Fpage State Msg Ring Monad Tcb Sched.
From S2P Require Import Wakeup Sendq Vspace Unwind Ipcx Ipc Schedule Resources Thread Interrupt.
From S2P Require Import ThreadControl SpaceControl Exception Exregs.
From S2P Require Timer.
Open Scope Z_scope.

(** ** The invariant *)

Section Calm.
Context {V : Type} `{!VirtualMemory V}.
Abbreviation S := (kstate V).
Implicit Types s : kstate V.

Record queues_ok s : Prop := {
  qk_ready : exists Q, ready_ok s Q;
  qk_wait : exists W, wait_ok s W;
  qk_prio t : prio_ok (prio_of s t) = true;
}.

(** the thread [o], if there is one, is not in the wakeup queue *)
Definition calm (o : option Z) s : Prop := queues_ok s /\ forall t, o = Some t -> waits s t = false.
Definition stays (o : option Z) s s' : Prop := calm o s -> calm o s'.

#[export] Instance stays_preorder o : PreOrder (stays o).
Proof. split; [now intros s H|]. intros s1 s2 s3 H1 H2 H. now apply H2, H1. Qed.

(** what the invariant says of a control block *)
Definition queue_view (t : tcb) : (ringlist * bool * Z) * (ringlist * bool) := (ready_view t, wait_view t).
Definition heads s : (Z -> Z) * Z * Z := (pq_head s, max_prio s, ks_wakeup_list s).

Lemma stays_other o s s' : keeps queue_view s s' -> heads s' = heads s -> stays o s s'.
Proof.
  intros Hk Hh [[(Q & HQ) (W & HW) Hp] Ho]. injection Hh as H1 H2 H3.
  assert (forall q, ready_view (tcb_of s' q) = ready_view (tcb_of s q) /\ wait_view (tcb_of s' q) = wait_view (tcb_of s q))
    as Hv by (intros q; exact (conj (f_equal fst (Hk q)) (f_equal snd (Hk q)))).
  split; [split|].
  - exists Q. apply (ready_ok_other s); [done|apply Hv|intros p; now rewrite H1|done].
  - exists W. apply (wait_ok_other s); [done|intros q; apply Hv|done].
  - intros t. unfold prio_of. destruct (Hv t) as [E _]. unfold ready_view in E. injection E as _ _ ->. apply Hp.
  - intros t Ht. unfold waits. destruct (Hv t) as [_ E]. unfold wait_view in E. injection E as _ ->. now apply Ho.
Qed.

Lemma stays_upd_tcb o p f s : (forall t, queue_view (f t) = queue_view t) -> stays o s (upd_tcb p f s).
Proof. intros Hf. apply stays_other; [apply keeps_upd_tcb, Hf|done]. Qed.

(** *** Primitives *)

Lemma stays_tcb_get {A} o p (f : tcb -> A) : preserves (stays o) (tcb_get p f).
Proof. intros s a s'. unfold tcb_get. case_match; [done|]. now intros [= _ <-]. Qed.
Lemma stays_tcb_set o p f : (forall t, queue_view (f t) = queue_view t) -> preserves (stays o) (tcb_set p f).
Proof. intros Hf s a s'. unfold tcb_set. case_match; [done|]. intros [= _ <-]. now apply stays_upd_tcb. Qed.
Lemma stays_utcb_get {A} o p (f : utcb -> A) : preserves (stays o) (utcb_get p f).
Proof. intros s a s'. unfold utcb_get. case_match; [done|]. now intros [= _ <-]. Qed.
Lemma stays_utcb_set o p f : preserves (stays o) (utcb_set p f).
Proof. intros s a s'. unfold utcb_set. case_match; [done|]. intros [= _ <-]. now apply stays_other. Qed.
Lemma stays_space_get {A} o p (f : space -> A) : preserves (stays o) (space_get p f).
Proof. intros s a s'. unfold space_get. case_match; [done|]. now intros [= _ <-]. Qed.
Lemma stays_space_set o p f : preserves (stays o) (space_set p f).
Proof. intros s a s'. unfold space_set. case_match; [done|]. intros [= _ <-]. now apply stays_other. Qed.
Lemma stays_modify o f :
  (forall s, ks_tcbs (f s) = ks_tcbs s) -> (forall s, heads (f s) = heads s) -> preserves (stays o) (modify f).
Proof.
  intros H1 H2. apply preserves_modify. intros s. apply stays_other; [|done].
  intros q. unfold tcb_of. now rewrite H1.
Qed.
Lemma stays_lift {A} o (m : M V A) : preserves (stays o) (lift m).
Proof. intros s a s'. unfold lift. case_match; [case_match|..]; try done. intros [= _ <-]. now apply stays_other. Qed.

(** the senders' queues have links and a flag of their own *)
Lemma view_queue_state q t :
  QueueState.is_set QueueState.ready q = QueueState.is_set QueueState.ready (tcb_queue_state t) ->
  QueueState.is_set QueueState.wakeup q = QueueState.is_set QueueState.wakeup (tcb_queue_state t) ->
  queue_view (tcb_with_queue_state q t) = queue_view t.
Proof. intros H1 H2. unfold queue_view, ready_view, wait_view. simpl. now rewrite H1, H2. Qed.

Lemma stays_put o p r s : stays o s (rput (RingHeap := send_ring) p r s).
Proof. apply stays_upd_tcb. intros t. done. Qed.

Lemma stays_set_send o p : preserves (stays o) (set_queue_state p QueueState.send).
Proof. apply stays_tcb_set. intros t. apply view_queue_state; autorewrite with bf; now rewrite bool_decide_eq_false_2. Qed.
Lemma stays_clear_send o p : preserves (stays o) (clear_queue_state p QueueState.send).
Proof. apply stays_tcb_set. intros t. apply view_queue_state; autorewrite with bf; now rewrite bool_decide_eq_false_2. Qed.

Lemma stays_enqueue_send_ring o h t : preserves (stays o) (of_option (ENQUEUE_LIST_TAIL (RingHeap0 := send_ring) h t)).
Proof.
  apply preserves_of_option. intros s a s'.
  apply (ENQUEUE_LIST_TAIL_frame (RingHeap0 := send_ring) (stays o) (stays_put o)).
Qed.
Lemma stays_dequeue_send_ring o h t : preserves (stays o) (of_option (DEQUEUE_LIST (RingHeap0 := send_ring) h t)).
Proof.
  apply preserves_of_option. intros s a s'.
  apply (DEQUEUE_LIST_frame (RingHeap0 := send_ring) (stays o) (stays_put o)).
Qed.

(** *** The ready queues *)

Lemma wait_view_mask_ready t : wait_view (mask_ready t) = wait_view t.
Proof.
  unfold wait_view, mask_ready. simpl. f_equal. rewrite QueueState.is_set_clear.
  now rewrite bool_decide_eq_false_2.
Qed.

(** a change of the ready queues only *)
Lemma stays_ready_frame o s s' Q : ready_frame s s' -> ready_ok s' Q -> stays o s s'.
Proof.
  intros Hf HQ [[_ (W & HW) Hp] Ho].
  assert (keeps wait_view s s') as Hk by (intros q; apply (rf_field wait_view _ _ _ Hf), wait_view_mask_ready).
  split; [split|].
  - now exists Q.
  - exists W. apply (wait_ok_other s); [done|done|]. now apply (rf_global ks_wakeup_list).
  - intros t. rewrite (rf_prio _ _ _ Hf). apply Hp.
  - intros t Ht. unfold waits. injection (Hk t) as _ ->. now apply Ho.
Qed.

Lemma stays_enqueue_ready o t head : preserves (stays o) (enqueue_ready t head).
Proof.
  intros s a s' E Hc. assert (t <> NULL) as Ht by (intros ->; done).
  destruct Hc as [[(Q & HQ) HW Hp] Ho] eqn:Ec. destruct (pq_enqueue_spec s Q t head HQ Ht (Hp t)) as (s2 & E2 & Hf & _ & _ & HQ2).
  unfold enqueue_ready in E. rewrite E2 in E. injection E as _ <-.
  now apply (stays_ready_frame o s _ _ Hf HQ2).
Qed.

Lemma stays_dequeue_ready o t : preserves (stays o) (dequeue_ready t).
Proof.
  intros s a s' E Hc. assert (t <> NULL) as Ht by (intros ->; done).
  destruct Hc as [[(Q & HQ) HW Hp] Ho] eqn:Ec. destruct (pq_dequeue_spec s Q t HQ Ht) as (s2 & E2 & Hf & _ & _ & _ & HQ2).
  unfold dequeue_ready in E. rewrite E2 in E. injection E as _ <-.
  now apply (stays_ready_frame o s _ _ Hf HQ2).
Qed.

(** *** The wakeup queue *)

Lemma stays_wait_frame o s s' W : wait_frame s s' -> wait_ok s' W ->
  (forall t, o = Some t -> waits s t = false -> waits s' t = false) -> stays o s s'.
Proof.
  intros Hf HW Hw [[(Q & HQ) _ Hp] Ho]. split; [split|].
  - exists Q. now apply (wait_frame_ready_ok s).
  - now exists W.
  - intros t. unfold prio_of. rewrite (wf_field tcb_priority _ _ _ Hf) by done. apply Hp.
  - intros t Ht. apply Hw; [done|]. now apply Ho.
Qed.

Lemma cancel_timeout_waits t s s' a : queues_ok s -> cancel_timeout t s = Ok (a, s') ->
  queues_ok s' /\ waits s' t = false /\ forall u, waits s u = false -> waits s' u = false.
Proof.
  intros [HQ (W & HW) Hp] E. assert (t <> NULL) as Ht by (intros ->; done).
  destruct (cancel_timeout_spec s W t HW Ht) as (s2 & E2 & Hf & HW2). rewrite E2 in E. injection E as _ <-.
  assert (forall u, u ∉ W \/ u = t -> waits s2 u = false) as Hu.
  { intros u Hu. apply not_true_iff_false. rewrite (wo_mem _ _ HW2). unfold remove_member.
    rewrite list_elem_of_filter. tauto. }
  split_and!.
  - apply (stays_wait_frame None s _ _ Hf HW2); [done|]. split; [|done]. split; [done|now exists W|done].
  - apply Hu. now right.
  - intros u Hw. apply Hu. left. rewrite <- (wo_mem _ _ HW). congruence.
Qed.

Lemma stays_cancel_timeout o t : preserves (stays o) (cancel_timeout t).
Proof.
  intros s a s' E [Hq Ho]. destruct (cancel_timeout_waits _ _ _ _ Hq E) as (Hq' & _ & Hw).
  split; [done|]. intros u Hu. apply Hw. now apply Ho.
Qed.

(** a thread enters the wakeup queue when it is not there *)
Lemma set_timeout_ok t time s a s' : calm (Some t) s -> set_timeout t time s = Ok (a, s') -> queues_ok s'.
Proof.
  intros [[(Q & HQ) (W & HW) Hp] Ho] E. unfold set_timeout in E. destruct (time_is_point time); [done|].
  unfold get_current_time in E. rewrite bind_gets in E.
  assert (t <> NULL) as Ht by (intros ->; done).
  destruct (set_timeout_abs_spec s W t (w64 (ks_current_time s + get_microseconds time)) HW Ht (Ho t eq_refl)) as (s2 & E2 & Hf & HW2). rewrite E2 in E.
  injection E as _ <-.
  assert (queues_ok (upd_tcb t (tcb_with_absolute_timeout (w64 (ks_current_time s + get_microseconds time))) s)) as Hq0.
  { apply (stays_upd_tcb None t _ s); [done|]. split; [|done]. split; [now exists Q|now exists W|done]. }
  apply (stays_wait_frame None _ _ _ Hf HW2); [done|]. split; [done|done].
Qed.

(** *** The choice of the next thread

    The queues are finite, so there is fuel that [find_next_thread] cannot
    exhaust, and more fuel does not change what it returns. *)

Lemma find_in_queue_more fuel fuel' prio t s r : (fuel <= fuel')%nat ->
  find_in_queue fuel prio t s = Ok r -> find_in_queue fuel' prio t s = Ok r.
Proof.
  revert fuel' t s. induction fuel as [|fuel IH]; intros fuel' t s Hle E; cbn [find_in_queue] in E.
  - destruct fuel'; cbn [find_in_queue]; destruct (t =? NULL); done.
  - destruct fuel' as [|fuel']; [lia|]. cbn [find_in_queue]. destruct (t =? NULL); [done|].
    destruct r as [r s']. kinv E. rewrite (bind_ok _ _ _ _ _ E0).
    destruct (ThreadState.is_runnable a); [done|].
    kinv E. rewrite (bind_ok _ _ _ _ _ E1). kinv E. rewrite (bind_ok _ _ _ _ _ E2). apply IH; [lia|done].
Qed.

Lemma find_from_more fuel fuel' n s r : (fuel <= fuel')%nat ->
  find_from fuel n s = Ok r -> find_from fuel' n s = Ok r.
Proof.
  intros Hle. revert s. induction n as [|n IH]; intros s E; cbn [find_from] in *; [done|].
  destruct r as [r s']. kinv E. rewrite (bind_ok _ _ _ _ _ E0). kinv E.
  rewrite (bind_ok _ _ _ _ _ (find_in_queue_more _ _ _ _ _ _ Hle E1)). destruct a0; [done|]. now apply IH.
Qed.

Lemma fits_some (Q : Z -> list Z) : exists fuel, fits Q fuel.
Proof.
  exists (sum_list_with (fun p => length (Q (Z.of_nat p))) (seq 0 256)). intros p Hp. unfold prio_ok, Config.MAX_PRIO in Hp.
  apply andb_prop in Hp as [H1%Z.leb_le H2%Z.leb_le]. rewrite <- (Z2Nat.id p) by lia.
  apply (sum_list_with_in _ (fun p => length (Q (Z.of_nat p)))). apply elem_of_seq. lia.
Qed.

Lemma stays_find_next_thread o fuel : preserves (stays o) (find_next_thread fuel).
Proof.
  intros s r s' E Hc. destruct Hc as [[(Q & HQ) HW Hp] Ho] eqn:Ec. destruct (fits_some Q) as (m & Hm).
  assert (fits Q (Nat.max fuel m)) as Hfit by (intros p Hpp; specialize (Hm p Hpp); lia).
  destruct (find_next_thread_picks (Nat.max fuel m) s Q HQ Hfit) as (r2 & s2 & Q2 & E2 & Hf & HQ2 & _).
  assert (find_next_thread (Nat.max fuel m) s = Ok (r, s')) as E3.
  { unfold find_next_thread in *. rewrite bind_gets in *. apply (find_from_more fuel); [lia|done]. }
  rewrite E2 in E3. injection E3 as _ <-. now apply (stays_ready_frame o s _ _ Hf HQ2).
Qed.

(** *** The end of a timeslice *)

(** the queue of a priority is rotated past a thread in it *)
Lemma stays_rotate o t s : queued s t = true ->
  stays o s (upd_pq (pq_with_head (prio_of s t) (next (tcb_ready_list (tcb_of s t)))) s).
Proof.
  intros Hq Hc. destruct Hc as [[(Q & HQ) HW Hp] Ho] eqn:Ec. destruct (ro_all _ _ HQ t Hq) as [Hpt Hin].
  pose proof (ro_ring _ _ HQ _ Hpt) as Hring.
  apply list_elem_of_split in Hin as (l1 & l2 & Hsp). rewrite Hsp in Hring. apply is_ring_after in Hring.
  eapply stays_ready_frame; [now apply ready_frame_upd_pq| |exact Hc].
  apply (ready_ok_rotate s Q (prio_of s t) _ (l2 ++ l1 ++ [t]) HQ Hpt); [|exact Hring].
  intros x. rewrite Hsp, !elem_of_app, !elem_of_cons, elem_of_nil. tauto.
Qed.

Lemma stays_end_of_timeslice o t : preserves (stays o) (end_of_timeslice t).
Proof.
  intros s a s' E Hc. unfold end_of_timeslice in E. kinv E.
  pose proof (stays_enqueue_ready o t true _ _ _ E0 Hc) as Hc1.
  assert (t <> NULL) as Ht by (intros ->; done).
  assert (queued s0 t = true) as Hq.
  { destruct Hc as [[(Q & HQ) HW Hp] Ho]. destruct (pq_enqueue_spec s Q t true HQ Ht (Hp t)) as (s2 & E2 & _ & _ & Hq2 & _).
    unfold enqueue_ready in E0. rewrite E2 in E0. now injection E0 as _ <-. }
  unfold get_priority in E. rewrite bind_tcb_get, bind_tcb_get in E by done. fold (prio_of s0 t) in E.
  assert (prio_ok (prio_of s0 t) = true) as Hp by apply Hc1.
  unfold pq_set in E. rewrite Hp, bind_modify in E.
  pose proof (stays_rotate o t s0 Hq Hc1) as Hc2. set (s2 := upd_pq _ s0) in *.
  rewrite bind_gets, bind_tcb_set in E by done. unfold pq_get in E. rewrite Hp, bind_gets in E. kinv E.
  assert (preserves (stays o) (set_pq_timeslice (V := V) a1)) as Hm by now apply stays_modify.
  apply (Hm _ _ _ E), (stays_tcb_get o _ _ _ _ _ E1). now apply stays_upd_tcb.
Qed.

End Calm.

Create HintDb calm discriminated.
#[export] Hint Resolve stays_enqueue_ready stays_dequeue_ready stays_cancel_timeout stays_find_next_thread
  stays_end_of_timeslice stays_lift stays_set_send stays_clear_send stays_enqueue_send_ring
  stays_dequeue_send_ring stays_tcb_get stays_utcb_get stays_utcb_set stays_space_get stays_space_set : calm.

(** the operation keeps the queues well-formed, by walking through its text *)
Ltac calm := walk_pres ltac:(fun _ => first
  [ apply stays_tcb_set; solve [intros ?; reflexivity]
  | apply stays_modify; solve [intros ?; reflexivity]
  | solve [auto with calm] ]).

(** a hypothesis [calm] across a run that keeps it *)
Ltac by_calm E Hc :=
  match type of Hc with calm ?o _ => match type of E with ?m _ = _ =>
    let P := fresh "P" in assert (preserves (stays o) m) as P by calm; apply (P _ _ _ E) in Hc; clear P end end.

Section Parts.
Context {V : Type} `{!VirtualMemory V}.
Implicit Types s : kstate V.

(** *** Loops *)

Lemma stays_skip_buffer o f dst b i a : preserves (stays (V := V) o) (skip_buffer f dst b i a).
Proof. revert b i a. induction f as [|f IH]; intros; cbn [skip_buffer]; calm. Qed.
Hint Resolve stays_skip_buffer : calm.

Lemma stays_string_loop o f src dst mrs x : preserves (stays (V := V) o) (string_loop f src dst mrs x).
Proof. revert x. induction f as [|f IH]; intros; cbn [string_loop]; calm. Qed.
Hint Resolve stays_string_loop : calm.

Lemma stays_item_loop o f sf src dst acc mrs x : preserves (stays (V := V) o) (item_loop f sf src dst acc mrs x).
Proof. revert x. induction f as [|f IH]; intros; cbn [item_loop]; calm. Qed.
Hint Resolve stays_item_loop : calm.

Lemma stays_extended_transfer o src dst tag : preserves (stays (V := V) o) (extended_transfer src dst tag).
Proof. calm. Qed.
Hint Resolve stays_extended_transfer : calm.

Lemma stays_unwind_pass o p r tag : preserves (stays (V := V) o) (unwind_pass p r tag).
Proof. calm. Qed.
Hint Resolve stays_unwind_pass : calm.

Lemma stays_unwind o p r : preserves (stays (V := V) o) (unwind p r).
Proof.
  assert (forall f tag, preserves (stays (V := V) o) (unwind_loop f p r tag)) as H.
  { induction f as [|f IH]; intros; cbn [unwind_loop]; calm. }
  calm.
Qed.
Hint Resolve stays_unwind : calm.

Lemma stays_parse_wakeup_queues o f c : preserves (stays (V := V) o) (parse_wakeup_queues f c).
Proof.
  assert (forall f h t, preserves (stays (V := V) o) (wakeup_loop f h t)) as H.
  { clear f c. induction f as [|f IH]; intros; cbn [wakeup_loop]; calm. }
  calm.
Qed.
Hint Resolve stays_parse_wakeup_queues : calm.

Lemma stays_drop_senders o f p : preserves (stays (V := V) o) (drop_senders f p).
Proof. induction f as [|f IH]; intros; cbn [drop_senders]; calm. Qed.
Hint Resolve stays_drop_senders : calm.

Lemma stays_schedule o f c : preserves (stays (V := V) o) (schedule f c).
Proof. calm. Qed.
Hint Resolve stays_schedule : calm.

(** *** System calls that do not wait *)

Lemma stays_delete_tcb o f p : preserves (stays (V := V) o) (delete_tcb f p).
Proof. calm. Qed.
Lemma stays_sys_exchange_registers o tid x l : preserves (stays (V := V) o) (sys_exchange_registers tid x l).
Proof. calm. Qed.
Lemma stays_sys_thread_switch o f dest : preserves (stays (V := V) o) (sys_thread_switch f dest).
Proof. calm. Qed.
Lemma stays_handle_interrupt o irq : preserves (stays (V := V) o) (intctrl_t_handle_irq irq).
Proof. calm. Qed.
Lemma stays_irq_thread_turn o : preserves (stays (V := V) o) irq_thread_turn.
Proof. calm. Qed.
Lemma stays_handle_ipc_timeout o st : preserves (stays (V := V) o) (handle_ipc_timeout st).
Proof. calm. Qed.
Lemma stays_handle_ipc_error o : preserves (stays (V := V) o) handle_ipc_error.
Proof. calm. Qed.

(** *** IPC

    A thread that waits with a timeout has left the wakeup queue when its call
    goes on. *)

Lemma cancelled c s a s' : queues_ok s -> cancel_timeout c s = Ok (a, s') -> calm (V := V) (Some c) s'.
Proof.
  intros Hq E. destruct (cancel_timeout_waits _ _ _ _ Hq E) as (Hq' & Hw & _). split; [done|]. now intros t [= <-].
Qed.

Lemma calm_none o s : calm (V := V) o s -> calm None s.
Proof. intros [Hq _]. now split. Qed.

Lemma stays_send_blocking c to tid timeout : preserves (stays (V := V) (Some c)) (send_blocking c to tid timeout).
Proof.
  unfold send_blocking. destruct (_ && _); [calm|]. intros s a s' E Hc. kinv E.
  assert (calm None s0) as Hc0.
  { destruct (negb (time_is_never (get_snd timeout))); cbn [when] in E0.
    - split; [exact (set_timeout_ok _ _ _ _ _ Hc E0)|done].
    - injection E0 as _ <-. now apply calm_none in Hc. }
  kinv E. by_calm E1 Hc0.
  kinv E. by_calm E2 Hc0.
  kinv E. by_calm E3 Hc0.
  kinv E. by_calm E4 Hc0.
  kinv E. pose proof (cancelled _ _ _ _ (proj1 Hc0) E5) as Hc1. by_calm E Hc1. exact Hc1.
Qed.

Lemma stays_receive_blocking c to from timeout : preserves (stays (V := V) (Some c)) (receive_blocking c to from timeout).
Proof.
  unfold receive_blocking. intros s a s' E Hc. kinv E.
  assert (queues_ok s0 /\ (a0 = true -> calm (Some c) s0)) as [Hq Ho].
  { destruct (negb (time_is_never (get_rcv timeout))).
    - kinv E0. by_calm E1 Hc. destruct (time_is_zero (get_rcv timeout)).
      + by_calm E0 Hc. split; [apply Hc|done].
      + kinv E0. pose proof (set_timeout_ok _ _ _ _ _ Hc E2) as Hq.
        match type of Hq with queues_ok ?x => assert (calm None x) as Hc3 by now split end.
        kinv E0. by_calm E3 Hc3. injection E0 as <- <-. split; [apply Hc3|done].
    - kinv E0. by_calm E1 Hc. injection E0 as <- <-. split; [apply Hc|done]. }
  destruct a0; [injection E as _ <-; now apply Ho|]. assert (calm None s0) as Hc0 by now split.
  kinv E. by_calm E1 Hc0.
  kinv E. by_calm E2 Hc0. kinv E. injection E as _ <-. exact (cancelled _ _ _ _ (proj1 Hc0) E3).
Qed.
Hint Resolve stays_send_blocking stays_receive_blocking : calm.

Lemma calm_sys_ipc c to from timeout s a s' : ks_current_tcb s = c ->
  sys_ipc to from timeout s = Ok (a, s') -> calm (V := V) (Some c) s -> calm (Some c) s'.
Proof.
  intros Hcur E. unfold sys_ipc, get_current_tcb in E. rewrite bind_gets, Hcur in E.
  intros Hc. by_calm E Hc. exact Hc.
Qed.

(** *** Priorities

    The priority of a thread changes only while it is in no ready queue. *)

Lemma ready_ok_outside s Q p f : ready_ok s Q -> queued s p = false -> queued (upd_tcb p f s) p = false ->
  ready_ok (V := V) (upd_tcb p f s) Q.
Proof.
  intros HQ H1 H2.
  assert (forall q, q <> p -> tcb_of (upd_tcb p f s) q = tcb_of s q) as Hne
    by (intros q Hq; apply tcb_of_upd_tcb_ne; congruence).
  assert (forall q t, prio_ok q = true -> t ∈ Q q -> t <> p) as Hin
    by (intros q t Hq Ht ->; destruct (ro_mem _ _ HQ q p Hq Ht); congruence).
  split.
  - intros q Hq. change (pq_head (upd_tcb p f s) q) with (pq_head s q).
    apply (is_ring_same_but (RingHeap0 := ready_ring) s _ _ _ [p]); [now apply ro_ring| |].
    + intros x Hx. change (tcb_ready_list (tcb_of (upd_tcb p f s) x) = tcb_ready_list (tcb_of s x)).
      rewrite Hne; [done|]. intros ->. apply Hx. left.
    + intros x Hx ->%list_elem_of_singleton. now apply (Hin q p Hq Hx).
  - intros q t Hq Ht. unfold prio_of, queued. rewrite Hne by now apply (Hin q). now apply (ro_mem _ _ HQ).
  - intros t Ht. destruct (decide (t = p)) as [->|Htp]; [congruence|]. unfold queued, prio_of in *.
    rewrite Hne in * by done. now apply (ro_all _ _ HQ).
  - exact (ro_max _ _ HQ).
  - exact (ro_bound _ _ HQ).
Qed.

Lemma stays_priority o p prio s : prio_ok prio = true -> queued s p = false ->
  stays (V := V) o s (upd_tcb p (tcb_with_priority prio) s).
Proof.
  intros Hpr Hq [[(Q & HQ) (W & HW) Hp] Ho].
  assert (keeps wait_view s (upd_tcb p (tcb_with_priority prio) s)) as Hk by now apply keeps_upd_tcb.
  split; [split|].
  - exists Q. apply ready_ok_outside; [done|done|]. unfold queued in *. now rewrite tcb_of_upd_tcb_eq.
  - exists W. now apply (wait_ok_other s).
  - intros t. unfold prio_of. rewrite tcb_of_upd_tcb. case_decide; [done|apply Hp].
  - intros t Ht. unfold waits. injection (Hk t) as _ ->. now apply Ho.
Qed.

Lemma set_priority_calm o p prio s a s' : prio_ok prio = true -> queued s p = false ->
  set_priority p prio s = Ok (a, s') -> calm (V := V) o s -> calm o s' /\ queued s' p = false.
Proof.
  intros Hpr Hq E Hc. assert (p <> NULL) as Hp by (intros ->; done).
  unfold set_priority in E. rewrite bind_tcb_set in E by done.
  pose proof (stays_priority o p prio s Hpr Hq Hc) as Hc1. set (s1 := upd_tcb p _ s) in *.
  assert (queued s1 p = false) as Hq1 by (unfold queued, s1 in *; now rewrite tcb_of_upd_tcb_eq).
  revert E. match goal with |- ?m _ = _ -> _ =>
    assert (preserves (stays (V := V) o) m) as P by calm;
    assert (preserves (keeps (V := V) tcb_queue_state) m) as P2 by keep end.
  intros E. split; [now apply (P _ _ _ E)|]. unfold queued. now rewrite (P2 _ _ _ E p).
Qed.

Lemma to_prio_ok w : prio_ok (to_prio (Z.land w 0xff)) = true.
Proof.
  unfold to_prio, prio_ok, Config.MAX_PRIO. replace 255 with (2 ^ 8 - 1) by lia. rewrite aligned_land_mask by lia.
  pose proof (Z.mod_pos_bound w (2 ^ 8) ltac:(lia)). unfold swrap. rewrite wrap_small by lia. cbv zeta.
  destruct (Z.ltb_spec (w mod 2 ^ 8) (2 ^ (32 - 1))); [|lia]. apply andb_true_intro. split; apply Z.leb_le; lia.
Qed.

Lemma dequeue_ready_out o p s a s' : calm (V := V) o s -> dequeue_ready p s = Ok (a, s') -> queued s' p = false.
Proof.
  intros [[(Q & HQ) _ _] _] E. assert (p <> NULL) as Hp by (intros ->; done).
  destruct (pq_dequeue_spec s Q p HQ Hp) as (s2 & E2 & _ & _ & Hq & _). unfold dequeue_ready in E. rewrite E2 in E.
  now injection E as _ <-.
Qed.

Lemma stays_reprioritise o p prio :
  preserves (stays (V := V) o) (dequeue_ready p ;;; set_priority p (to_prio (Z.land prio 0xff)) ;;; enqueue_ready p false).
Proof.
  intros s a s' E Hc. kinv E. pose proof (dequeue_ready_out _ _ _ _ _ Hc E0) as Hq.
  apply (stays_dequeue_ready o p _ _ _ E0) in Hc. kinv E.
  destruct (set_priority_calm o _ _ _ _ _ (to_prio_ok prio) Hq E1 Hc) as [Hc2 _].
  exact (stays_enqueue_ready o p false _ _ _ E Hc2).
Qed.
Hint Resolve stays_reprioritise : calm.

Lemma stays_sys_schedule o tid tc pc prio pre : preserves (stays (V := V) o) (sys_schedule tid tc pc prio pre).
Proof.
  assert (forall p, preserves (stays (V := V) o) (do_schedule p tc prio pre)) as H.
  { intros p. unfold do_schedule. apply preserves_bind; [typeclasses eauto|calm|]. intros old.
    apply preserves_bind; [typeclasses eauto| |intros _; calm].
    apply preserves_when; [typeclasses eauto|apply stays_reprioritise]. }
  calm.
Qed.

(** *** IPCs of the kernel

    They wait without timeout. *)

Lemma stays_send_blocking_never o c to tid : preserves (stays (V := V) o) (send_blocking c to tid timeout_never).
Proof.
  unfold send_blocking. change (time_is_never (get_snd timeout_never)) with true. cbn [negb andb when]. calm.
Qed.
Lemma stays_receive_blocking_never o c to from : preserves (stays (V := V) o) (receive_blocking c to from timeout_never).
Proof. unfold receive_blocking. change (time_is_never (get_rcv timeout_never)) with true. cbn [negb]. calm. Qed.
Hint Resolve stays_send_blocking_never stays_receive_blocking_never : calm.

Lemma stays_do_ipc o p to from : preserves (stays (V := V) o) (do_ipc p to from timeout_never).
Proof. calm. Qed.
Hint Resolve stays_do_ipc : calm.

Lemma stays_handle_timer_interrupt o f : preserves (stays (V := V) o) (handle_timer_interrupt f).
Proof. calm. Qed.
Lemma stays_catch_up o n c d : preserves (stays (V := V) o) (Timer.catch_up n c d).
Proof. revert c d. induction n as [|n IH]; intros c d; cbn [Timer.catch_up]; destruct (d >? 0); calm. Qed.
#[local] Hint Resolve stays_catch_up stays_handle_timer_interrupt stays_handle_interrupt : calm.
Lemma stays_interrupt o n f irq : preserves (stays (V := V) o) (Timer.call_interrupt_handler n f irq).
Proof. calm. Qed.

(** *** Page faults *)

(** a transfer that faults gets its timeout, once *)
Lemma handle_xfer_timeouts_ok p s a s' : handle_xfer_timeouts p s = Ok (a, s') -> calm (V := V) (Some p) s -> queues_ok s'.
Proof.
  intros E Hc. unfold handle_xfer_timeouts in E. kinv E.
  apply (stays_tcb_get (Some p) _ _ _ _ _ E0) in Hc. destruct a0; [injection E as _ <-; apply Hc|].
  assert (forall l r s a s', calm (V := V) (Some p) s ->
    (let* lt := time_lt l r in
     set_timeout p (if lt then l else r) ;;;
     tcb_set p (fun t => tcb_with_flags (Bitmask.add (tcb_flags t) HAS_XFER_TIMEOUT) t)) s = Ok (a, s') -> queues_ok s')
    as Hset.
  { clear. intros l r s a s' Hc E. kinv E. by_calm E0 Hc. kinv E. pose proof (set_timeout_ok _ _ _ _ _ Hc E1) as Hq.
    assert (calm None s1) as Hc1 by now split. by_calm E Hc1. apply Hc1. }
  kinv E. by_calm E1 Hc.
  kinv E. by_calm E2 Hc.
  kinv E. by_calm E3 Hc.
  destruct (_ || _).
  - kinv E. by_calm E4 Hc. now apply Hset in E.
  - destruct (_ && _); [injection E as _ <-; apply Hc|]. now apply Hset in E.
Qed.

Lemma handle_pagefault_ok sp addr ip acc k s a s' : handle_pagefault sp addr ip acc k s = Ok (a, s') ->
  calm (V := V) (Some (ks_current_tcb s)) s -> queues_ok s'.
Proof.
  intros E Hc. unfold handle_pagefault in E.
  destruct (_ || _).
  2: { revert E. match goal with |- ?m _ = _ -> _ => assert (preserves (stays (V := V) (Some (ks_current_tcb s))) m) as P by calm end.
       intros E. apply (P _ _ _ E Hc). }
  unfold user_pagefault, get_current_tcb in E. rewrite bind_gets in E. set (c := ks_current_tcb s) in *.
  kinv E. by_calm E0 Hc.
  rewrite bind_gets in E. destruct (negb _).
  2: { revert E. match goal with |- ?m _ = _ -> _ => assert (preserves (stays (V := V) (Some c)) m) as P by calm end.
       intros E. apply (P _ _ _ E Hc). }
  kinv E. by_calm E1 Hc.
  destruct (_ || _); [done|]. kinv E.
  assert (calm None s2) as Hc2.
  { split; [|done]. destruct (_ =? ThreadState.locked_running).
    - kinv E2. by_calm E3 Hc. exact (handle_xfer_timeouts_ok _ _ _ _ E2 Hc).
    - injection E2 as _ <-. apply Hc. }
  by_calm E Hc2. apply Hc2.
Qed.

(** *** Creation

    A control block that is initialised is in no queue. *)

Definition outside s p : Prop := queued s p = false /\ waits s p = false.

Lemma init_state_bits q : QueueState.is_set q QueueState.init = false.
Proof. now destruct q. Qed.

Lemma queues_ok_outside s p f : queues_ok s -> outside s p -> prio_ok (tcb_priority (f (tcb_of s p))) = true ->
  tcb_queue_state (f (tcb_of s p)) = QueueState.init -> queues_ok (V := V) (upd_tcb p f s) /\ outside (upd_tcb p f s) p.
Proof.
  intros [(Q & HQ) (W & HW) Hp] [Hq Hw] Hpr Hst.
  assert (queued (upd_tcb p f s) p = false) as Hq' by (unfold queued; now rewrite tcb_of_upd_tcb_eq, Hst).
  assert (waits (upd_tcb p f s) p = false) as Hw' by (unfold waits; now rewrite tcb_of_upd_tcb_eq, Hst).
  assert (p ∉ W) as Hn by (rewrite <- (wo_mem _ _ HW); congruence).
  split; [split|done].
  - exists Q. now apply ready_ok_outside.
  - exists W. split.
    + apply (is_ring_same_but (RingHeap0 := wait_ring) s _ _ _ [p]); [exact (wo_ring _ _ HW)| |].
      * intros x Hx. change (tcb_wait_list (tcb_of (upd_tcb p f s) x) = tcb_wait_list (tcb_of s x)).
        rewrite tcb_of_upd_tcb_ne; [done|]. intros ->. apply Hx. left.
      * intros x Hx ->%list_elem_of_singleton. done.
    + intros t. destruct (decide (t = p)) as [->|Ht]; [rewrite Hw'; split; [done|intros; contradiction]|].
      unfold waits. rewrite tcb_of_upd_tcb_ne by congruence. apply (wo_mem _ _ HW).
  - intros t. unfold prio_of. rewrite tcb_of_upd_tcb. case_decide; [now subst|apply Hp].
Qed.

(** the queues are what can be read of them *)
Lemma queues_ok_equiv s s' : s ≡ s' -> queues_ok s -> queues_ok (V := V) s'.
Proof.
  intros [H1 _ _ H4] Hq. apply (stays_other None s s'); [|  |now split].
  - intros q. now rewrite H1.
  - exact (f_equal heads (eq_sym H4)).
Qed.

Lemma init_ok p dest s a s' : queues_ok s -> outside s p -> init p dest s = Ok (a, s') ->
  queues_ok s' /\ outside s' p.
Proof.
  intros Hq Ho E. assert (p <> NULL) as Hp by (intros ->; done).
  destruct (init_run p dest s Hp) as (s1 & E1 & Heq). rewrite E1 in E. injection E as _ <-.
  destruct (queues_ok_outside (ks_with_fp_lazy_tcb NULL s) p (fresh_tcb dest)) as [H1 H2]; [|done|done|done|].
  { apply (stays_other None s); [done|done|now split]. }
  split.
  - symmetry in Heq. now apply (queues_ok_equiv _ _ Heq).
  - unfold outside, queued, waits. destruct Heq as [Ht _ _ _]. now rewrite Ht.
Qed.

Lemma create_kernel_thread_ok p dest u s a s' : queues_ok s -> outside s p ->
  create_kernel_thread p dest u s = Ok (a, s') -> queues_ok (V := V) s' /\ queued s' p = false.
Proof.
  intros Hq Ho E. unfold create_kernel_thread in E. kinv E. destruct (init_ok _ _ _ _ _ Hq Ho E0) as [Hq1 [Ho1 _]].
  assert (calm None s0) as Hc by now split. kinv E. by_calm E1 Hc.
  assert (preserves (keeps (V := V) tcb_queue_state) (tcb_set p (tcb_with_utcb u))) as P2 by keep.
  destruct (set_priority_calm None p 0 s1 a s') as [[H1 _] H2]; [done| |done|done|done].
  unfold queued. now rewrite (P2 _ _ _ E1 p).
Qed.

Lemma thread_control_interrupt_ok tid h s a s' :
  queues_ok s -> (tcb_utcb (tcb_of s (get_tcb tid)) = NULL -> outside s (get_tcb tid)) ->
  thread_control_interrupt tid h s = Ok (a, s') -> queues_ok (V := V) s'.
Proof.
  intros Hq Ho E. pose proof (get_tcb_nonnull tid) as Hp. set (p := get_tcb tid) in *.
  unfold thread_control_interrupt, get_kip in E. rewrite bind_gets in E. fold p in E.
  destruct (_ || _); [now injection E as _ <-|]. unfold allocate, is_activated in E.
  rewrite bind_tcb_set, bind_tcb_get in E by done. rewrite tcb_of_upd_tcb_eq in E.
  set (s1 := upd_tcb p (fun t => t) s) in *.
  assert (calm None s1) as Hc1 by (apply (stays_upd_tcb None p _ s); [done|now split]).
  assert (outside s p -> outside s1 p) as Ho1 by (unfold outside, queued, waits, s1; now rewrite tcb_of_upd_tcb_eq).
  kinv E. assert (calm None s0) as Hc0.
  { destruct (Z.eqb_spec (tcb_utcb (tcb_of s p)) NULL) as [Hn|Hn]; cbn [negb] in E0.
    - specialize (Ho1 (Ho Hn)). kinv E0.
      destruct (create_kernel_thread_ok _ _ _ _ _ _ (proj1 Hc1) Ho1 E1) as [H1 H2].
      kinv E0. destruct (set_priority_calm None p Config.MAX_PRIO s2 a2 s3) as [H3 _]; [done|done|done|now split|].
      by_calm E0 H3. apply H3.
    - by_calm E0 Hc1. apply Hc1. }
  by_calm E Hc0. apply Hc0.
Qed.

Lemma thread_control_create_ok p d st si sc pg loc s a s' : queues_ok s -> outside s p ->
  thread_control_create p d st si sc pg loc s = Ok (a, s') -> queues_ok (V := V) s'.
Proof.
  intros Hq Ho E. assert (calm None s) as Hc0 by now split. unfold thread_control_create in E. kinv E. by_calm E0 Hc0.
  assert (preserves (keeps (V := V) tcb_queue_state) (create_checks d st si sc pg loc)) as P2 by keep.
  assert (outside s0 p) as Ho0 by (unfold outside, queued, waits; now rewrite (P2 _ _ _ E0 p)).
  destruct a0.
  { by_calm E Hc0. apply Hc0. }
  kinv E. unfold create_inactive in E1. kinv E1. destruct (init_ok _ _ _ _ _ (proj1 Hc0) Ho0 E2) as [Hq1 _].
  assert (calm None s2) as Hc by now split.
  by_calm E1 Hc. by_calm E Hc. apply Hc.
Qed.

Lemma sys_thread_control_ok f tid si sc pg loc s a s' :
  queues_ok s ->
  (get_threadno tid < system_base s -> tcb_utcb (tcb_of s (get_tcb tid)) = NULL -> outside s (get_tcb tid)) ->
  (is_nilthread si = false -> tcb_space (tcb_of s (get_tcb tid)) = NULL -> outside s (get_tcb tid)) ->
  sys_thread_control f tid si sc pg loc s = Ok (a, s') -> queues_ok (V := V) s'.
Proof.
  intros Hq Hi Ho E. pose proof (get_tcb_nonnull tid) as Hp. set (p := get_tcb tid) in *.
  assert (calm None s) as Hc by now split. unfold sys_thread_control, get_current_space, get_current_tcb in E.
  rewrite bind_assoc, bind_gets in E. kinv E. unfold get_space in E0.
  assert (s0 = s) as ->.
  { revert E0. clear. unfold tcb_get. case_match; [done|]. now intros [= _ <-]. }
  rewrite bind_gets in E. destruct (negb _); [by_calm E Hc; apply Hc|].
  destruct (negb _); [by_calm E Hc; apply Hc|]. unfold get_kip in E. rewrite bind_gets in E. fold p in E.
  fold (system_base s) in E. destruct (Z.ltb_spec (get_threadno tid) (system_base s)) as [Hlt|_].
  { specialize (Hi Hlt). kinv E. assert (calm None s0) as Hc1.
    { split; [|done]. now apply (thread_control_interrupt_ok tid pg s a1 s0 Hq). }
    by_calm E Hc1. apply Hc1. }
  destruct (_ <? _); [by_calm E Hc; apply Hc|]. destruct (is_nilthread si); [by_calm E Hc; apply Hc|].
  specialize (Ho eq_refl). unfold allocate, exists_ in E. rewrite bind_tcb_set, bind_tcb_get in E by done. rewrite tcb_of_upd_tcb_eq in E.
  set (s1 := upd_tcb p (fun t => t) s) in *.
  assert (calm None s1) as Hc1 by (apply (stays_upd_tcb None p _ s); done).
  destruct (Z.eqb_spec (tcb_space (tcb_of s p)) NULL) as [Hn|Hn]; cbn [negb] in E.
  - apply (thread_control_create_ok p tid (get_tcb si) si sc pg loc s1 a s'); [apply Hc1| |done].
    specialize (Ho Hn). unfold outside, queued, waits, s1. now rewrite tcb_of_upd_tcb_eq.
  - by_calm E Hc1. apply Hc1.
Qed.

Lemma stays_space_control o tid c k u r : preserves (stays (V := V) o) (sys_space_control tid c k u r).
Proof. calm. Qed.

Lemma stays_sys_unmap o c : preserves (stays (V := V) o) (sys_unmap c).
Proof.
  assert (forall n i f, preserves (stays (V := V) o) (unmap_items n i f)) as H.
  { induction n as [|n IH]; intros; cbn [unmap_items]; calm. }
  calm.
Qed.

(** *** Exceptions

    Without a kernel debugger, and leaving out the emulation of instructions,
    which may fault. *)

Lemma stays_set_mrs o p l i : preserves (stays (V := V) o) (set_mrs p i l).
Proof. revert i. induction l as [|v l IH]; intros i; cbn [set_mrs]; calm. Qed.
Lemma stays_get_mrs o p n i : preserves (stays (V := V) o) (get_mrs p i n).
Proof. revert i. induction n as [|n IH]; intros i; cbn [get_mrs]; calm. Qed.
Hint Resolve stays_set_mrs stays_get_mrs : calm.

Lemma stays_syscall_exception o : preserves (stays (V := V) o) (syscall_exception hang).
Proof. calm. Qed.
Lemma stays_deliver_exception o n c : preserves (stays (V := V) o) (deliver_exception hang n c).
Proof. calm. Qed.
Hint Resolve stays_deliver_exception : calm.

Lemma preserves_fpu_instructions {A} o (m : M (kstate V) A) :
  preserves (stays o) m -> preserves (stays o) (fpu_instructions m).
Proof. intros Hm s a s'. unfold fpu_instructions. case_match; [apply Hm|done]. Qed.
Lemma stays_spill_fpu o p q : preserves (stays (V := V) o) (spill_fpu p q).
Proof.
  unfold spill_fpu. apply preserves_bind; [typeclasses eauto|apply preserves_fpu_instructions; calm|intros _; calm].
Qed.
Lemma stays_restore_fpu o p q : preserves (stays (V := V) o) (restore_fpu p q).
Proof.
  unfold restore_fpu. apply preserves_bind; [typeclasses eauto|calm|intros _; apply preserves_fpu_instructions; calm].
Qed.
Hint Resolve stays_spill_fpu stays_restore_fpu : calm.
Lemma stays_cpu_unavail o c : preserves (stays (V := V) o) (mips64_cpu_unavail c).
Proof. calm. Qed.

Hint Resolve stays_cpu_unavail : calm.

Lemma mips64_exception_ok fuel s a s' : exc_no_of s <> 10 ->
  mips64_exception hang fuel s = Ok (a, s') -> queues_ok s -> queues_ok (V := V) s'.
Proof.
  intros Hn E Hq. assert (calm None s) as Hc by now split.
  unfold mips64_exception, get_current_tcb, get_context in E. rewrite bind_gets in E.
  destruct (decide (ks_current_tcb s = NULL)) as [Hp|Hp]; [now rewrite Hp in E|].
  rewrite bind_tcb_get in E by done. change (CAUSE_EXCCODE_NUM _) with (exc_no_of s) in E.
  set (n := exc_no_of s) in *. kinv E.
  assert (calm None s0) as Hc0.
  { revert E0. match goal with |- ?m _ = _ -> _ => assert (preserves (stays (V := V) None) m) as P end.
    { destruct n as [|n|n]; [calm| |calm]. do 5 (try destruct n as [n|n|]); first [now destruct Hn|calm]. }
    intros E0. exact (P _ _ _ E0 Hc). }
  destruct a0 as [r c]. by_calm E Hc0. apply Hc0.
Qed.

(** ** Entries into the kernel *)

(** one entry: a system call, an interrupt, a turn of an interrupt thread, a page
    fault, the handlers of a faulting extended transfer, an exception *)
Inductive entry :=
| EntryIpc (to from time : Z)
| EntryThreadSwitch (fuel : nat) (dest : Z)
| EntrySchedule (tid tc pc prio pre : Z)
| EntryExchangeRegisters (tid : Z) (x : exregs) (is_local : bool)
| EntryThreadControl (fuel : nat) (tid space_tid sched pager loc : Z)
| EntrySpaceControl (tid control kip_area utcb_area redirector : Z)
| EntryUnmap (control : Z)
| EntryInterrupt (n fuel : nat) (irq : Z)
| EntryIrqThread
| EntryPagefault (sp addr ip : Z) (access : access_e) (kernel : bool)
| EntryIpcTimeout (state : Z)
| EntryIpcError
| EntryException (fuel : nat)
| EntrySyscallException.

(** what the kernel does; [enter_kdebug] stops it *)
Definition run_entry (e : entry) : M (kstate V) unit :=
  match e with
  | EntryIpc to from t => sys_ipc to from t ;;; ret tt
  | EntryThreadSwitch fuel dest => sys_thread_switch fuel dest
  | EntrySchedule tid tc pc prio pre => sys_schedule tid tc pc prio pre ;;; ret tt
  | EntryExchangeRegisters tid x l => sys_exchange_registers tid x l ;;; ret tt
  | EntryThreadControl fuel tid si sc pg loc => sys_thread_control fuel tid si sc pg loc ;;; ret tt
  | EntrySpaceControl tid c k u r => sys_space_control tid c k u r ;;; ret tt
  | EntryUnmap c => sys_unmap c
  | EntryInterrupt n fuel irq => Timer.call_interrupt_handler n fuel irq
  | EntryIrqThread => irq_thread_turn
  | EntryPagefault sp addr ip acc k => handle_pagefault sp addr ip acc k
  | EntryIpcTimeout st => handle_ipc_timeout st
  | EntryIpcError => handle_ipc_error
  | EntryException fuel => mips64_exception hang fuel
  | EntrySyscallException => syscall_exception hang
  end.

(** What the theorem asks of an entry in the state it is made in.  The thread that
    makes an IPC or faults has no timeout running; ThreadControl does not create
    a thread, or an interrupt thread, on a control block that is still in a queue
    (Schedule can have put a thread there that was never activated, and a deletion
    leaves it there); the exception is not one of those whose instructions the kernel emulates. *)
Definition admissible (e : entry) s : Prop :=
  match e with
  | EntryIpc _ _ _ | EntryPagefault _ _ _ _ _ => waits s (ks_current_tcb s) = false
  | EntryThreadControl _ tid space_tid _ _ _ =>
      let p := get_tcb tid in
      (get_threadno tid < system_base s -> tcb_utcb (tcb_of s p) = NULL -> outside s p) /\
      (is_nilthread space_tid = false -> tcb_space (tcb_of s p) = NULL -> outside s p)
  | EntryException _ => exc_no_of s <> 10
  | _ => True
  end.

(** a sequence of entries, each of them admissible and returning *)
Inductive entries : list entry -> kstate V -> kstate V -> Prop :=
| entries_nil s : entries [] s s
| entries_cons e es s s1 s' :
    admissible e s -> run_entry e s = Ok (tt, s1) -> entries es s1 s' -> entries (e :: es) s s'.

Lemma stays_step {A} (m : M (kstate V) A) s a s' :
  preserves (stays None) m -> queues_ok s -> m s = Ok (a, s') -> queues_ok (V := V) s'.
Proof. intros P Hq E. apply (P _ _ _ E). now split. Qed.

Lemma run_entry_ok e s s' : admissible e s -> run_entry e s = Ok (tt, s') -> queues_ok s -> queues_ok (V := V) s'.
Proof.
  intros Ha E Hq. assert (forall b (m : M (kstate V) b), (m ;;; ret tt) s = Ok (tt, s') -> exists r, m s = Ok (r, s')) as Hret.
  { intros b m H. kinv H. injection H as <-. now exists a. }
  destruct e; cbn [run_entry admissible] in E, Ha; try (apply Hret in E as [r E]).
  - apply (calm_sys_ipc (ks_current_tcb s) to from time s r s'); [done..|]. split; [done|]. now intros t [= <-].
  - now apply (stays_step _ _ _ _ (stays_sys_thread_switch None _ _) Hq E).
  - now apply (stays_step _ _ _ _ (stays_sys_schedule None _ _ _ _ _) Hq E).
  - now apply (stays_step _ _ _ _ (stays_sys_exchange_registers None _ _ _) Hq E).
  - destruct Ha as [Hi Ho]. exact (sys_thread_control_ok _ _ _ _ _ _ _ _ _ Hq Hi Ho E).
  - now apply (stays_step _ _ _ _ (stays_space_control None _ _ _ _ _) Hq E).
  - now apply (stays_step _ _ _ _ (stays_sys_unmap None _) Hq E).
  - now apply (stays_step _ _ _ _ (stays_interrupt None _ _ _) Hq E).
  - now apply (stays_step _ _ _ _ (stays_irq_thread_turn None) Hq E).
  - apply (handle_pagefault_ok _ _ _ _ _ _ _ _ E). split; [done|]. now intros t [= <-].
  - now apply (stays_step _ _ _ _ (stays_handle_ipc_timeout None _) Hq E).
  - now apply (stays_step _ _ _ _ (stays_handle_ipc_error None) Hq E).
  - exact (mips64_exception_ok _ _ _ _ Ha E Hq).
  - now apply (stays_step _ _ _ _ (stays_syscall_exception None) Hq E).
Qed.

Lemma boot_queues_ok (v : V) : queues_ok (boot_state v).
Proof.
  split.
  - exists (fun _ => []). apply boot_state_ok.
  - exists []. split; [split_and!; [constructor|apply not_elem_of_nil|done]|].
    intros t. unfold waits, tcb_of, boot_state. simpl. rewrite lookup_empty. split; [done|]. now intros ?%elem_of_nil.
  - intros t. unfold prio_of, tcb_of, boot_state. simpl. now rewrite lookup_empty.
Qed.

(** C1 Entries into the kernel keep the scheduler's queues well-formed.  From a state
    with well-formed queues (as the empty state at boot, [boot_queues_ok]), after any
    sequence of returning system calls, interrupts (the timer's among them), page faults,
    exceptions and IPC handlers that are each [admissible] in the state they are made
    in, with a debugger that stops the kernel: for every priority the ready queue
    is a ring of exactly the threads of that priority whose ready flag is set, no queue lies
    above [max_prio], the wakeup queue is a ring of exactly the threads whose wakeup flag
    is set, and every priority is in bounds.  That no thread is created on a block
    that is still in a ready queue is needed ([creating_queued_thread_breaks_queues]). *)
Theorem entries_keep_queues es s s' : queues_ok s -> entries es s s' -> queues_ok (V := V) s'.
Proof.
  intros Hq H. induction H as [s|e es s s1 s' Ha E _ IH]; [done|].
  apply IH. now apply (run_entry_ok e s).
Qed.

(** A creation replaces the marks of the thread and leaves the links: a ring
    through its block stays a ring. *)
Lemma created_queues dest sched loc sp f s Q' :
  let p := get_tcb dest in
  queued s p = true -> queues_ok s -> ~ ready_ok (V := V) (created dest sched loc sp f s) Q'.
Proof.
  intros p Hp [(Q & HQ) _ _] HQ'. set (s' := created _ _ _ _ _ _) in HQ'.
  assert (Hl : forall q, tcb_ready_list (tcb_of s' q) = tcb_ready_list (tcb_of s q)).
  { intros q. unfold s', created. rewrite (tcb_field_frame tcb_ready_list) by done.
    now rewrite tcb_of_upd_space. }
  destruct (ro_all _ _ HQ p Hp) as [Hprio Hin]. set (prio := prio_of s p) in *.
  assert (is_ring (RingHeap0 := ready_ring) s (pq_head s prio) (Q' prio)) as Hr'.
  { apply (ready_list_ext s'); [intros q; symmetry; apply Hl|]. exact (ro_ring _ _ HQ' prio Hprio). }
  rewrite (is_ring_unique (RingHeap0 := ready_ring) _ _ _ _ (ro_ring _ _ HQ prio Hprio) Hr') in Hin.
  destruct (ro_mem _ _ HQ' prio p Hprio Hin) as [_ Hq]. revert Hq.
  unfold queued, s', created. now rewrite tcb_of_upd_tcb_eq.
Qed.

(** C32 Why creations must be admissible: ThreadControl does not look whether a
    control block without a space is still in a ready queue.  From any state with
    well-formed queues, creating a thread without a pager on a block that is in one
    succeeds, clears its mark and leaves it in the ring: the queues are ill-formed
    afterwards, so a later insertion into that ring writes links of a block that counts
    as not queued. *)
Theorem creating_queued_thread_breaks_queues fuel dest space_tid sched loc s :
  queues_ok s -> queued s (get_tcb dest) = true ->
  caller_ok s -> caller_privileged s = true -> is_global dest = true ->
  system_base s <= get_threadno dest -> user_base s <= get_threadno dest ->
  is_nilthread space_tid = false -> tcb_space (tcb_of s (get_tcb dest)) = NULL ->
  (dest <> space_tid -> tcb_space (tcb_of s (get_tcb space_tid)) <> NULL) ->
  (dest = space_tid -> exists spn v, vm_allocate_space (ks_vm s) = Ok (spn, v) /\ spn <> NULL) ->
  create_error s dest space_tid sched nilthread loc = None ->
  exists s', sys_thread_control fuel dest space_tid sched nilthread loc s = Ok (1, s') /\
    queued s' (get_tcb dest) = false /\ ~ queues_ok (V := V) s'.
Proof.
  intros Hq Hp Hok Hpr Hg Hs Hb Hn Hno Hsp Hal Hc.
  destruct (sys_thread_control_creates fuel dest space_tid sched loc s) as (s' & E & R); try done.
  exists s'. split; [exact E|].
  assert (exists sp f s0, s' ≡ created dest sched loc sp f s0 /\ queues_ok s0 /\ queued s0 (get_tcb dest) = true)
    as (sp & f & s0 & Heq & Hq0 & Hp0).
  { unfold creation_result in R. case_decide.
    - destruct R as (spn & v & _ & R). eexists _, _, (ks_with_vm v s). split; [exact R|].
      split; [|exact Hp]. apply (stays_other None s); [done|done|now split].
    - eexists _, _, s. split_and!; [exact R|done..]. }
  split.
  - unfold queued. destruct Heq as [-> _ _ _]. unfold created. now rewrite tcb_of_upd_tcb_eq.
  - intros Hq'. destruct (queues_ok_equiv _ _ Heq Hq') as [(Q' & HQ') _ _].
    exact (created_queues dest sched loc sp f s0 Q' Hp0 Hq0 HQ').
Qed.
End Parts.

(** ** An example *)

Definition after {A} (m : M (kstate unit) A) (s : kstate unit) : kstate unit :=
  match m s with Ok (_, s') => s' | _ => s end.

(** a send, the halting of the sender and a tick of the timer *)
Definition example_send := sys_ipc (V := unit) (threadid 3 1) nilthread 0.
Definition example_tick := Timer.call_interrupt_handler (V := unit) 1 10 7.
(** the vectors are set up and the timer has just run down *)
Definition example_start : kstate unit :=
  ks_with_cpu (cpu_with_count Timer.TIMER_PERIOD (Timer.timer_set (Timer.vectors_set [] zero_cpu))) calling_state.
Definition example_halt := sys_exchange_registers (V := unit) (threadid 2 1)
  (ExRegs (EXREGS_CONTROL_HALTFLAG + EXREGS_CONTROL_HALT) 0 0 0 0 0) false.

Lemma calling_queues_ok : queues_ok calling_state.
Proof.
  destruct calling_ok as [Hr Hw]. split; [exact (ex_intro _ _ Hr)|exact (ex_intro _ _ Hw)|].
  intros t. unfold prio_of, calling_state. rewrite tcb_of_with_current_tcb.
  rewrite !(tcb_field_frame tcb_priority) by done. unfold tcb_of, boot_state. simpl. now rewrite lookup_empty.
Qed.

Lemma example_start_ok : queues_ok example_start.
Proof.
  assert (calm None example_start) as [H _]; [|exact H].
  apply (stays_other None calling_state); [intros q; reflexivity|reflexivity|]. split; [exact calling_queues_ok|done].
Qed.

(** the witness runs a send, a halting and a tick *)
Lemma entries_keep_queues_witness :
  let s1 := after example_send example_start in
  let s2 := after example_halt s1 in
  let s3 := after example_tick s2 in
  queues_ok s3 /\ queued s3 (get_tcb (threadid 3 1)) = true /\ ks_current_time s3 <> ks_current_time calling_state.
Proof.
  intros s1 s2 s3. split; [|split; [vm_compute; reflexivity|vm_compute; discriminate]].
  apply (entries_keep_queues [EntryIpc (threadid 3 1) nilthread 0;
    EntryExchangeRegisters (threadid 2 1) (ExRegs (EXREGS_CONTROL_HALTFLAG + EXREGS_CONTROL_HALT) 0 0 0 0 0) false;
    EntryInterrupt 1 10 7] example_start); [exact example_start_ok|].
  apply (entries_cons _ _ _ s1); [vm_compute; reflexivity..|].
  apply (entries_cons _ _ _ s2); [done|vm_compute; reflexivity|].
  apply (entries_cons _ _ _ s3); [done|vm_compute; reflexivity|apply entries_nil].
Defined.

(** the root task creates a thread, schedules it and deletes it: it is still queued *)
Definition example_create := sys_thread_control (V := unit) 1 new_id root_id root_id nilthread (w64 (-1)).
Definition example_schedule := sys_schedule (V := unit) new_id (w64 (-1)) (w64 (-1)) 7 (w64 (-1)).
Definition example_delete := sys_thread_control (V := unit) 1 new_id nilthread nilthread nilthread (w64 (-1)).

Definition example_queued : kstate unit :=
  after example_delete (after example_schedule (after example_create creating_state)).

Lemma creating_queues_ok : queues_ok creating_state.
Proof.
  assert (calm None creating_state) as [H _]; [|exact H].
  set (s1 := upd_tcb (get_tcb (set_global_id 50 1 0)) (fun t => tcb_with_myself_global (set_global_id 50 1 0)
    (tcb_with_utcb 100 (tcb_with_space 4096 t))) (boot_state tt)).
  apply (stays_other None s1); [done|done|].
  apply stays_upd_tcb; [done|]. split; [apply boot_queues_ok|done].
Qed.

Lemma after_entry_ok {A} (m : M (kstate unit) A) e s :
  run_entry e = (m ;;; ret tt) -> admissible e s -> queues_ok s -> queues_ok (V := unit) (after m s).
Proof.
  intros He Ha Hq. unfold after. destruct (m s) as [[a s']| |] eqn:E; [|done..].
  apply (run_entry_ok e s); [done| |done]. rewrite He. unfold bind. now rewrite E.
Qed.

Lemma example_queued_ok : queues_ok example_queued.
Proof.
  apply (after_entry_ok _ (EntryThreadControl 1 new_id nilthread nilthread nilthread (w64 (-1)))); [reflexivity| |].
  { split; [|intros Hd; discriminate Hd]. intros Hlt. exfalso. revert Hlt. vm_compute. discriminate. }
  apply (after_entry_ok _ (EntrySchedule new_id (w64 (-1)) (w64 (-1)) 7 (w64 (-1)))); [reflexivity|exact I|].
  apply (after_entry_ok _ (EntryThreadControl 1 new_id root_id root_id nilthread (w64 (-1)))); [reflexivity| |].
  - split; intros _ _; split; vm_compute; reflexivity.
  - exact creating_queues_ok.
Qed.

Lemma creating_queued_thread_breaks_queues_witness :
  exists s', sys_thread_control 1 new_id root_id root_id nilthread (w64 (-1)) example_queued = Ok (1, s') /\
    ~ queues_ok (V := unit) s'.
Proof.
  destruct (creating_queued_thread_breaks_queues 1 new_id root_id root_id (w64 (-1)) example_queued example_queued_ok)
    as (s' & E & _ & H);
    [vm_compute; reflexivity|split; vm_compute; discriminate|vm_compute; (reflexivity || discriminate || (intros; congruence))..|].
  exists s'. split; [exact E|exact H].
Defined.
