(* ===== verification/Boot.v ===== *)
(** * Start of the system

    [glue/v4-mips64/init.cc] with the parts of the kernel it calls: the kernel's
    memory, its address space, the processor descriptor ([api/backup/processor.cc]), and
    the first threads, which [api/v4/thread.cc] and [api/backup/schedule.cc] create on the stack of
    the idle thread. *)

From Stdlib Require Import ZArith Lia Bool List.
From stdpp Require Import base numbers list option gmap relations.
From S2P Require Import Prelude Types Time Kip ThreadId Fpage State Msg Ring Monad Kmem Pgent Cache Ptab MdbAlloc Mdb.
From S2P Require Import Walker Tcb Sched Wakeup Vspace Unwind Resources Thread Interrupt ThreadControl Spacevm Invariant.
From S2P Require Walkmap Region Asid Tlb Coherence Schedule Timer.
Open Scope Z_scope.

(** ** The first threads *)

Section Threads.
Context {V : Type} `{!VirtualMemory V}.
Abbreviation S := (kstate V).
Abbreviation K := (M (kstate V)).

Definition modify_kip (f : kip_t -> kip_t) : K unit := modify (fun s => ks_with_kip (f (ks_kip s)) s).

(** [while ((1U << size_utcb) < ...) size_utcb++]: an [unsigned int] is shifted *)
Fixpoint utcb_area_size (n : nat) (size need : Z) : result Z :=
  if w32 (Z.shiftl 1 (size mod 32)) <? need then
    match n with
    | O => Hang
    | Datatypes.S n => utcb_area_size n (size + 1) need
    end
  else Ok size.
Definition utcb_need (utcb_info : Z) : Z :=
  max (UtcbInfo.get_minimal_size utcb_info) (w64 (UtcbInfo.get_utcb_size utcb_info * Config.ROOT_MAX_THREADS)).

Definition root_utcb_area (size_utcb : Z) : Z := fpage_set Layout.ROOT_UTCB_START size_utcb false false false.
Definition root_kip_area (kip : kip_t) : Z :=
  fpage_set Layout.ROOT_KIP_START (KipAreaInfo.get_size_log2 (kip_kip_area_info kip)) false false false.

(** one of the three servers: its control block, with the user registers the
    kernel interface page gives *)
Definition start_server (server : root_server_t) (tid scheduler pager utcb_area kip_area : Z) : K Z :=
  let* tcb := create_root_server tid scheduler pager utcb_area kip_area Layout.ROOT_UTCB_START in
  set_user_ip tcb (rs_ip server) ;;;
  set_user_sp tcb (rs_sp server) ;;;
  get_space tcb.

Definition init_root_servers : K unit :=
  let* kip := get_kip in
  let ubase := ThreadInfo.get_user_base (kip_thread_info kip) in
  match utcb_area_size 64 0 (utcb_need (kip_utcb_info kip)) with
  | Ok size_utcb =>
      let utcb_area := root_utcb_area size_utcb in
      let kip_area := root_kip_area kip in
      if Region.is_empty (rs_mem_region (kip_sigma0 kip)) then hang else
      let sigma0 := set_global_id ubase Config.ROOT_VERSION 0 in
      let sigma1 := set_global_id (w64 (ubase + 1)) Config.ROOT_VERSION 0 in
      let root_server := set_global_id (w64 (ubase + 2)) Config.ROOT_VERSION 0 in
      let* space := start_server (kip_sigma0 kip) sigma0 root_server nilthread utcb_area kip_area in
      modify (ks_with_sigma0_space space) ;;;
      when (negb (Region.is_empty (rs_mem_region (kip_sigma1 kip))))
        (let* space := start_server (kip_sigma1 kip) sigma1 root_server sigma0 utcb_area kip_area in
         modify (ks_with_sigma1_space space)) ;;;
      when (negb (Region.is_empty (rs_mem_region (kip_root_server kip))))
        (let* space := start_server (kip_root_server kip) root_server root_server sigma0 utcb_area kip_area in
         modify (ks_with_roottask_space space))
  | Hang => hang
  | Crash => crash
  end.

(** [init_all_threads] *)
Definition init_threads : K unit := init_interrupt_threads ;;; init_kernel_threads ;;; init_root_servers.

(** a turn of the loop of [idle_thread] *)
Definition idle_turn (fuel : nat) : K bool := schedule fuel get_idle_tcb.

(** ** Processors *)

Definition sys_processor_control (processor_no internal_frequency external_frequency voltage : Z) : K unit := ret tt.

(** [get_procdesc] of the kernel interface page gives the place of a descriptor *)
Variable get_procdesc : kip_t -> Z -> option nat.

Definition init_processor (processor external_freq internal_freq : Z) : K unit :=
  let* kip := get_kip in
  match get_procdesc kip processor with
  | None => crash
  | Some i =>
      modify_kip (fun k => kip_set_procdescs
        (alter (fun d => set_internal_frequency internal_freq (set_external_frequency external_freq d)) i
           (kip_procdescs k)) k) ;;;
      modify_kip (fun k =>
        if bf_get ProcessorInfo.processors (kip_processor_info k) <? processor
        then kip_set_processor_info (bf_set ProcessorInfo.processors processor (kip_processor_info k)) k else k)
  end.

End Threads.

(** ** Memory and devices *)

(** what the linker and the code of the interface page, which is not part of the
    sources, provide: the end of the boot stack and of the kernel's text, the insertion of a
    memory descriptor (type, virtual, bounds), the rest of the initialisation of the page, its
    processor descriptors, and the function that the page names for the debugger *)
Record image := Image {
  im_bootstack_top : Z;
  im_start_text_phys : Z;
  im_end_text_phys : Z;
  im_insert : Memdesc.type_e -> bool -> Z -> Z -> kip_t -> kip_t;
  im_kip_init : kip_t -> kip_t;
  im_get_procdesc : kip_t -> Z -> option nat;
  im_kdebug_init : M (kstate vmem) unit;
}.

Definition CONFIG_BOOTMEM_PAGES : Z := 1024.
Definition bootmem_size : Z := Z.shiftl CONFIG_BOOTMEM_PAGES Layout.MIPS64_PAGE_BITS.

(** [init_platform] of [platform/u4600/plat.cc] *)
Definition plat_cpu_freq : Z := 100000000.
Definition plat_bus_freq : Z := 33300000.

Section Memory.
Variable im : image.
Variable g : globals.
Abbreviation K := (M (kstate vmem)).
Abbreviation fuel := (g_fuel g).

Definition raise_to (start : Z) (server : root_server_t) : Z :=
  if start <? Region.high (rs_mem_region server) then Region.high (rs_mem_region server) else start.
(** where the kernel's memory starts *)
Definition start_bootmem_phys (kip : kip_t) : Z :=
  raise_to (raise_to (raise_to (virt_to_phys (im_bootstack_top im)) (kip_sigma0 kip)) (kip_sigma1 kip))
    (kip_root_server kip).

(** the descriptors that [init_bootmem] registers *)
Definition register_memory (start_phys end_phys : Z) (kip : kip_t) : kip_t :=
  let insert := im_insert im in
  let kip := insert Memdesc.conventional true 0 (2 ^ 40) kip in
  let kip := insert Memdesc.conventional false Layout.MIPS64_PAGE_SIZE
               (addr_align (Region.high (kip_main_mem kip)) 4096) kip in
  let kip := insert Memdesc.reserved false (addr_align_up (Region.high (kip_main_mem kip)) 4096) (w64 (-1)) kip in
  let kip := insert Memdesc.reserved false (addr_align (im_start_text_phys im) 4096)
               (addr_align_up (im_end_text_phys im) 4096) kip in
  let kip := insert Memdesc.reserved false (addr_align start_phys 4096) (addr_align_up end_phys 4096) kip in
  let kip := insert Memdesc.reserved false 0 Layout.MIPS64_PAGE_SIZE kip in
  let kip := kip_set_dedicated_mem0 (Region.set 0x10000000 0x14001000) kip in
  let kip := insert Memdesc.dedicated false 0x10000000 0x14001000 kip in
  let kip := kip_set_dedicated_mem1 (Region.set 0x1c000000 0x1cc00000) kip in
  insert Memdesc.dedicated false 0x1c000000 0x1cc00000 kip.

Definition init_bootmem : K unit :=
  let* kip := get_kip in
  let start_phys := start_bootmem_phys kip in
  let start := phys_to_virt start_phys in
  let fin := w64 (start + bootmem_size) in
  lift (on_mdb (kmem_do (kmem_init fuel start fin))) ;;;
  modify_kip (register_memory start_phys (w64 (start_phys + bootmem_size))).

(** [init_kernel_space]: the address of the page for blocks that do not exist *)
Definition init_kernel_space : K Z :=
  let* sp := allocate_space (VirtualMemory0 := space_vm g) in
  modify (ks_with_kernel_space sp) ;;;
  lift (modify (fun v => vm_with_asids (Asid.asid_init (get_asid sp) (vm_asids v)) v)) ;;;
  lift (on_mdb (kmem_do (Ptab.init_kernel_mappings fuel sp))) ;;;
  lift (on_mdb (on_kmem (alloc fuel Layout.MIPS64_PAGE_SIZE))).

(** the numbers of address spaces: [get_asid_cache()->init ()] and [set_valid] *)
Definition init_asids : K unit :=
  lift (fun v =>
    match Asid.set_valid 0 (Asid.CONFIG_MAX_NUM_ASIDS - 1) (Asid.cache_init (vm_asids v)) with
    | Ok c => Ok (tt, vm_with_asids c v)
    | Hang => Hang
    | Crash => Crash
    end).

Definition init_arch : K Z :=
  Tlb.modify_cpu Tlb.init_tlb ;;;
  Timer.intctrl_init_arch ;;;
  Timer.intctrl_init_cpu ;;;
  init_asids ;;;
  init_bootmem ;;;
  modify_kip (im_kip_init im) ;;;
  let* dummy_tcb := init_kernel_space in
  lift (on_mdb (init_mdb fuel (g_sigma0_mapnode g))) ;;;
  let* kip := get_kip in
  when (truth (kip_kdebug_init kip)) (im_kdebug_init im) ;;;
  Timer.timer_init_global ;;;
  Timer.timer_init_cpu ;;;
  init_processor (im_get_procdesc im) 0 (plat_bus_freq / 1000) (plat_cpu_freq / 1000) ;;;
  ret dummy_tcb.

(** [finalize_cpu_init] prints a message *)
Definition finalize_cpu_init (cpu_id : Z) : K unit := ret tt.

(** [startup_system]; [idle_space] is the static space of the idle thread.  [init_cpu] is
    assembly, and [init_platform] has set the two frequencies.  The
    switch to the idle thread only sets the current thread, and what comes after it is an
    endless loop; the model goes on with the functions on the stack of the idle thread. *)
Definition startup_system (idle_space : Z) : K Z :=
  Timer.cache_do Cache.init_cpu ;;;
  let* dummy_tcb := init_arch in
  scheduler_init true ;;;
  notify get_idle_tcb finalize_cpu_init_fn [0] ;;;
  Schedule.start 0 idle_space ;;;
  ret dummy_tcb.

Definition boot (idle_space : Z) : K Z :=
  let* dummy_tcb := startup_system idle_space in
  finalize_cpu_init 0 ;;;
  init_threads (VirtualMemory0 := space_vm g) ;;;
  ret dummy_tcb.
End Memory.

(** ** The root servers *)

Section Servers.
Context {V : Type} `{!VirtualMemory V}.
Implicit Types s : kstate V.

Lemma bind_lift {A B} (m : M V A) (f : A -> M (kstate V) B) s a v : m (ks_vm s) = Ok (a, v) ->
  bind (lift m) f s = f a (ks_with_vm v s).
Proof. intros E. unfold bind, lift. now rewrite E. Qed.

(** the virtual memory creates a space and its first UTCB *)
Definition creates (ua ka loc : Z) (v : V) (sp u : Z) (v' : V) : Prop :=
  sp <> NULL /\ u <> NULL /\ exists v1 v2, vm_allocate_space v = Ok (sp, v1) /\
    vm_init_mappings sp ua ka v1 = Ok (tt, v2) /\ vm_allocate_utcb sp loc v2 = Ok (u, v').

(** what the creation of a server says of its control block *)
Definition created_view (t : tcb) :=
  (tcb_myself_global t, tcb_myself_local t, tcb_scheduler t, tcb_space t, tcb_utcb t, tcb_thread_state t, tcb_priority t,
   map fr_func (tcb_stack t)).
Definition server_view (t : tcb) := (created_view t, (ic_epc (tcb_context t), ic_sp (tcb_context t))).
Definition created (tid sched sp u loc : Z) :=
  (tid, loc, sched, sp, u, (ThreadState.running : Z), Config.ROOT_PRIORITY, [thread_return; mips64_restore_user]).
(** a server: it runs in its own space, at the top priority, and goes to the program's entry point *)
Definition is_server s (server : root_server_t) (tid sched sp u : Z) : Prop :=
  server_view (tcb_of s (get_tcb tid)) = (created tid sched sp u Layout.ROOT_UTCB_START, (rs_ip server, rs_sp server)).

(** the fields of the kernel that do not change *)
Definition boot_view s := (ks_current_tcb s, ks_kip s, ks_wakeup_list s,
  (ks_sigma0_space s, ks_sigma1_space s, ks_roottask_space s)).

(** up to the entry into the ready queue *)
Lemma create_root_server_prefix s tid sched pager ua ka loc sp u v :
  let p := get_tcb tid in
  ks_current_tcb s <> NULL -> creates ua ka loc (ks_vm s) sp u v ->
  exists s', create_root_server tid sched pager ua ka loc s = (enqueue_ready p false ;;; ret p) s' /\
    created_view (tcb_of s' p) = created tid sched sp u loc /\ boot_view s' = boot_view s /\ ks_vm s' = v /\
    (forall q, q <> p -> tcb_of s' q = tcb_of s q) /\ queued s' p = false /\
    ks_root_prio_queue s' = ks_root_prio_queue s.
Proof.
  intros p Hc (Hsp & Hu & v1 & v2 & E1 & E2 & E3). assert (Hp : p <> NULL) by apply get_tcb_nonnull.
  unfold create_root_server, get_current_space. krun. fold p. unfold allocate_space. krun.
  rewrite (bind_lift _ _ s sp v1 E1). krun. set (s1 := ks_with_spaces _ _).
  destruct (create_inactive_run p tid sched s1 Hp) as (s2 & F2 & Heq). rewrite (bind_ok _ _ _ _ _ F2).
  pose proof (keq_rest _ _ Heq) as Hr. assert (ks_vm s2 = v1) as Hv2 by exact (f_equal ks_vm Hr).
  unfold space_init. krun. set (s3 := upd_space sp (sp_with_asid (-1)) _).
  rewrite (bind_lift _ _ s3 tt v2) by (change (ks_vm s3) with (ks_vm s2); now rewrite Hv2).
  unfold activate. krun. unfold allocate_utcb. krun.
  rewrite !tcb_of_upd_space, !tcb_of_upd_tcb_eq. simpl (tcb_space _).
  replace (sp =? NULL) with false by (symmetry; now apply Z.eqb_neq).
  set (s4 := upd_tcb p (tcb_with_myself_local loc) _).
  rewrite (bind_lift _ _ s4 u v) by exact E3.
  replace (u =? NULL) with false by (symmetry; now apply Z.eqb_neq).
  set (s5 := ks_with_vm v s4). unfold create_startup_stack. krun.
  assert (forall q, tcb_of s5 q = if decide (p = q) then
    tcb_with_myself_local loc (tcb_with_space sp (tcb_with_scheduler sched (fresh_tcb tid (tcb_of s p)))) else tcb_of s q) as T5.
  { intros q. unfold s5, s4. change (tcb_of (ks_with_vm v ?x) q) with (tcb_of x q). rewrite !tcb_of_upd_tcb.
    assert (tcb_of s3 q = if decide (p = q) then tcb_with_scheduler sched (fresh_tcb tid (tcb_of s p)) else tcb_of s q) as T3.
    { etransitivity; [exact (keq_tcb _ _ Heq q)|]. rewrite tcb_of_upd_tcb. now case_decide as Hd; subst. }
    rewrite !tcb_of_upd_space, !tcb_of_upd_tcb. change (tcb_of (ks_with_vm v2 s3) q) with (tcb_of s3 q). rewrite T3.
    now case_decide. }
  assert (boot_view s5 = boot_view s /\ ks_root_prio_queue s5 = ks_root_prio_queue s) as [V5 R5].
  { split; [|exact (f_equal ks_root_prio_queue Hr)]. exact (f_equal boot_view Hr). }
  pose proof (T5 p) as Tp. rewrite decide_True in Tp by done.
  unfold set_priority, get_sensitive_prio, set_sensitive_prio. krun.
  destruct (_ <? _); unfold when; krun; eexists; (split; [reflexivity|]);
    (split_and!; [|exact V5|done| | |exact R5]); unfold created_view, queued;
    rewrite ?tcb_of_upd_tcb_eq, ?tcb_of_upd_utcb, ?Tp; try reflexivity.
  all: intros q Hq; rewrite ?tcb_of_upd_tcb_ne, ?tcb_of_upd_utcb, T5 by done; case_decide; congruence.
Qed.

Lemma not_queued s Q p : ready_ok s Q -> (forall r, p ∉ Q r) -> queued s p = false.
Proof.
  intros HQ Hp. destruct (queued s p) eqn:E; [|done]. destruct (ro_all _ _ HQ p E) as [_ Hin]. now apply Hp in Hin.
Qed.

(** everything but the control block of [p] stays *)
Lemma ready_ok_new s s' Q p : ready_ok s Q -> (forall r, p ∉ Q r) -> (forall q, q <> p -> tcb_of s' q = tcb_of s q) ->
  queued s' p = false -> ks_root_prio_queue s' = ks_root_prio_queue s -> ready_ok s' Q.
Proof.
  intros HQ Hp Ht Hq Hr. apply (ready_ok_other (upd_tcb p (fun _ => tcb_of s' p) s)).
  - apply ready_ok_outside; [done|now apply (not_queued s Q)|]. unfold queued. now rewrite tcb_of_upd_tcb_eq.
  - intros q. rewrite tcb_of_upd_tcb. case_decide as Hd; [now subst|]. now rewrite Ht.
  - intros r. unfold pq_head. now rewrite Hr.
  - unfold max_prio. now rewrite Hr.
Qed.

(** [v] is what the virtual memory becomes; the server is the last of its queue *)
Record server_started s s' (Q : Z -> list Z) (server : root_server_t) (tid sched sp u : Z) (v : V) : Prop := {
  st_queue : ready_ok s' (qset Q Config.ROOT_PRIORITY (Q Config.ROOT_PRIORITY ++ [get_tcb tid]));
  st_server : is_server s' server tid sched sp u;
  st_others : forall q, q <> get_tcb tid -> server_view (tcb_of s' q) = server_view (tcb_of s q);
  st_vm : ks_vm s' = v;
  st_view : boot_view s' = boot_view s;
}.

Lemma start_server_run s Q server tid sched pager ua ka sp u v :
  ks_current_tcb s <> NULL -> ready_ok s Q -> (forall r, get_tcb tid ∉ Q r) ->
  creates ua ka Layout.ROOT_UTCB_START (ks_vm s) sp u v ->
  exists s', start_server server tid sched pager ua ka s = Ok (sp, s') /\ server_started s s' Q server tid sched sp u v.
Proof.
  intros Hc HQ Hin Hv. set (p := get_tcb tid). assert (Hp : p <> NULL) by apply get_tcb_nonnull.
  destruct (create_root_server_prefix s tid sched pager _ _ _ _ _ _ Hc Hv) as (s1 & E1 & C1 & V1 & M1 & T1 & Q1 & R1).
  fold p in E1, C1, T1, Q1.
  pose proof (ready_ok_new s s1 Q p HQ Hin T1 Q1 R1) as HQ1.
  assert (prio_of s1 p = Config.ROOT_PRIORITY) as Hpr by now injection C1.
  destruct (pq_enqueue_spec s1 Q p false HQ1 Hp ltac:(now rewrite Hpr)) as (s2 & E2 & F2 & _ & _ & HQ2).
  rewrite Q1, Hpr in HQ2.
  unfold start_server, set_user_ip, set_user_sp, get_space. rewrite (bind_ok _ _ s p s2)
    by (rewrite E1; unfold enqueue_ready; now rewrite (bind_ok _ _ _ _ _ E2)).
  krun. assert (forall q, created_view (tcb_of s2 q) = created_view (tcb_of s1 q)) as C2
    by (intros q; now apply (rf_field created_view)).
  eexists. split.
  { pose proof (C2 p) as C. rewrite C1 in C. injection C as _ _ _ -> _ _ _ _. reflexivity. }
  split.
  - apply ready_ok_upd_tcb; [reflexivity|exact HQ2].
  - unfold is_server, server_view. fold p. rewrite tcb_of_upd_tcb_eq. f_equal. exact (eq_trans (C2 p) C1).
  - intros q Hq. fold p in Hq. rewrite tcb_of_upd_tcb_ne by done. rewrite <- T1 by done. now apply (rf_field server_view).
  - rewrite <- M1. now apply (rf_global ks_vm _ _ F2).
  - rewrite <- V1. now apply (rf_global boot_view _ _ F2).
Qed.

(** the size of the UTCB area: the least power of two that holds the UTCBs *)
Lemma utcb_area_size_from n size need : 0 <= size <= 31 -> need <= 2 ^ 31 -> (forall i, 0 <= i < size -> 2 ^ i < need) ->
  (Z.of_nat n >= 31 - size) -> utcb_area_size n size need = Ok (Z.log2_up need).
Proof.
  revert size. induction n as [|n IH]; intros size Hs Hn Hlow Hf; cbn [utcb_area_size];
    rewrite (Z.mod_small size 32), Z.shiftl_1_l by lia;
    replace (w32 (2 ^ size)) with (2 ^ size)
      by (symmetry; apply wrap_small; split; [apply Z.pow_nonneg; lia|apply Z.pow_lt_mono_r; lia]).
  all: assert (2 ^ size < need \/ need <= 2 ^ size) as [H|H] by lia.
  1: pose proof (Z.pow_le_mono_r 2 31 size); lia.
  2: assert (size <> 31) by (intros ->; lia); replace (2 ^ size <? need) with true by (symmetry; now apply Z.ltb_lt);
    apply IH; [lia|done| |lia]; intros i Hi; destruct (decide (i = size)) as [->|]; [done|apply Hlow; lia].
  all: replace (2 ^ size <? need) with false by (symmetry; apply Z.ltb_ge; lia); f_equal; symmetry;
    destruct (decide (size = 0)) as [->|]; [apply Z.log2_up_eqn0; simpl in H; lia|].
  all: apply Z.log2_up_unique; [lia|]; specialize (Hlow (size - 1)); rewrite <- Z.sub_1_r; lia.
Qed.

Lemma utcb_area_size_ok need : need <= 2 ^ 31 -> utcb_area_size 64 0 need = Ok (Z.log2_up need).
Proof. intros. apply utcb_area_size_from; lia. Qed.

(** the kernel's own thread is in no queue *)
Lemma init_kernel_run s Q : ready_ok s Q -> (forall r, get_tcb (threadid 7 1) ∉ Q r) ->
  exists s', (init_interrupt_threads ;;; init_kernel_threads) s = Ok (tt, s') /\ ready_ok s' Q /\ ks_vm s' = ks_vm s /\
    ks_current_tcb s' = ks_current_tcb s /\
    ks_kip s' = kip_set_thread_info (ThreadInfo.set_user_base 39
      (ThreadInfo.set_system_base 7 (kip_thread_info (ks_kip s)))) (ks_kip s).
Proof.
  intros HQ Hin. unfold init_interrupt_threads, init_kernel_threads, get_kip.
  assert (forall w, ThreadInfo.get_system_base (ThreadInfo.set_system_base 7 w) = 7) as Hb
    by (intros w; unfold ThreadInfo.get_system_base, ThreadInfo.set_system_base; bf_simpl; reflexivity).
  rewrite !bind_modify, bind_gets. cbv beta. set (k := kip_set_thread_info (ThreadInfo.set_user_base 39
      (ThreadInfo.set_system_base 7 (kip_thread_info (ks_kip s)))) (ks_kip s)).
  set (s1 := ks_with_kip _ (ks_with_kip _ _)).
  assert (ks_kip s1 = k) as Hk.
  { unfold s1, k. destruct s. cbn. unfold get_number_irqs. now rewrite Hb. }
  assert (ThreadInfo.get_system_base (kip_thread_info (ks_kip s1)) = 7) as Hs7.
  { rewrite Hk. unfold k. destruct (ks_kip s). cbn. unfold ThreadInfo.get_system_base, ThreadInfo.set_user_base,
      ThreadInfo.set_system_base. bf_simpl. reflexivity. }
  rewrite Hs7. change (set_global_id 7 1 0) with (threadid 7 1). set (p := get_tcb (threadid 7 1)).
  assert (Hp : p <> NULL) by apply get_tcb_nonnull.
  unfold create_kernel_thread. destruct (init_run p (threadid 7 1) s1 Hp) as (s2 & E2 & Heq).
  rewrite !bind_assoc, (bind_ok _ _ _ _ _ E2). pose proof (keq_rest _ _ Heq) as Hr.
  unfold set_priority, get_sensitive_prio, set_sensitive_prio. krun.
  assert (forall q, tcb_of s2 q = if decide (p = q) then fresh_tcb (threadid 7 1) (tcb_of s p) else tcb_of s q) as T2.
  { intros q. etransitivity; [exact (keq_tcb _ _ Heq q)|]. rewrite tcb_of_upd_tcb. now case_decide as Hd; subst. }
  destruct (_ <? 0); unfold when; krun; eexists; (split; [reflexivity|]); (split_and!;
    [|exact (f_equal ks_vm Hr)|exact (f_equal ks_current_tcb Hr)|exact (eq_trans (f_equal ks_kip Hr) Hk)]).
  all: apply (ready_ok_new s _ Q p HQ Hin); [|unfold queued; now rewrite tcb_of_upd_tcb_eq, T2, decide_True|
    exact (f_equal ks_root_prio_queue Hr)]; intros q Hq; rewrite tcb_of_upd_tcb_ne, T2 by done; case_decide; congruence.
Qed.

Definition top_queue (l : list Z) : Z -> list Z := qset (fun _ => []) Config.ROOT_PRIORITY l.

Lemma top_queue_requeue s l l' : ready_ok s (qset (top_queue l) Config.ROOT_PRIORITY l') <-> ready_ok s (top_queue l').
Proof.
  assert (forall p, qset (top_queue l) Config.ROOT_PRIORITY l' p = top_queue l' p) as H
    by (intros p; unfold top_queue, qset; now case_decide).
  split; intros HQ; (apply (ready_ok_ext s s _ _ HQ); [done|done| |exact (ro_max _ _ HQ)|exact (ro_bound _ _ HQ)]); auto.
Qed.

(** a server is started, and [note] notes its space *)
Lemma next_server s l server tid sched pager ua ka sp u v (note : kstate V -> kstate V) :
  ks_current_tcb s <> NULL -> ready_ok s (top_queue l) -> get_tcb tid ∉ l ->
  creates ua ka Layout.ROOT_UTCB_START (ks_vm s) sp u v ->
  (forall s, ks_tcbs (note s) = ks_tcbs s /\ ks_root_prio_queue (note s) = ks_root_prio_queue s /\
    ks_vm (note s) = ks_vm s /\ ks_current_tcb (note s) = ks_current_tcb s) ->
  exists s', start_server server tid sched pager ua ka s = Ok (sp, s') /\ ready_ok (note s') (top_queue (l ++ [get_tcb tid])) /\
    is_server (note s') server tid sched sp u /\
    (forall q, q <> get_tcb tid -> server_view (tcb_of (note s') q) = server_view (tcb_of s q)) /\
    ks_vm (note s') = v /\ ks_current_tcb (note s') <> NULL /\ boot_view s' = boot_view s.
Proof.
  intros Hc HQ Hin Hv Hn.
  assert (forall r, get_tcb tid ∉ top_queue l r) as Hin'
    by (intros r; unfold top_queue, qset; case_decide; [done|apply not_elem_of_nil]).
  destruct (start_server_run s _ server tid sched pager ua ka sp u v Hc HQ Hin' Hv) as (s' & E & [HQ' Hs Ho Hv' Hw]).
  exists s'. split; [done|]. destruct (Hn s') as (N1 & N2 & N3 & N4).
  assert (forall q, tcb_of (note s') q = tcb_of s' q) as Ht by (intros q; unfold tcb_of; now rewrite N1).
  split_and!; [|unfold is_server; now rewrite Ht|intros q Hq; rewrite Ht; now apply Ho|now rewrite N3|
    rewrite N4; injection Hw as -> _ _ _; done|done].
  rewrite top_queue_requeue, (qset_eq (fun _ => []) Config.ROOT_PRIORITY l : top_queue l _ = l) in HQ'.
  apply (ready_ok_other s' (note s')); [done|intros q; now rewrite Ht| |]; intros; unfold pq_head, max_prio; now rewrite N2.
Qed.

Definition sigma0_id := threadid 39 1.
Definition sigma1_id := threadid 40 1.
Definition root_id := threadid 41 1.

(** C9 Starting from empty ready queues, the initialisation of the threads creates the
    three servers the interface page names.  They are the threads 39, 40 and 41 (after
    the interrupts and the kernel's own thread), each in a space of its own, scheduled by the
    root server, ready to return to user mode at its entry point; the queue of the top
    priority holds them in the order of their creation and the other queues are empty.
    Privileged are the spaces of the root server and of sigma0, not that of sigma1.  The size of the UTCB area is the least power
    of two that holds the UTCBs of 256 threads. *)
Theorem root_servers_start s sp0 sp1 sp2 u0 u1 u2 v0 v1 v2 :
  let k := ks_kip s in
  let created_in := creates (root_utcb_area (Z.log2_up (utcb_need (kip_utcb_info k)))) (root_kip_area k) Layout.ROOT_UTCB_START in
  ks_current_tcb s <> NULL -> ready_ok s (fun _ => []) -> utcb_need (kip_utcb_info k) <= 2 ^ 31 ->
  Forall (fun server => Region.is_empty (rs_mem_region server) = false) [kip_sigma0 k; kip_sigma1 k; kip_root_server k] ->
  created_in (ks_vm s) sp0 u0 v0 -> created_in v0 sp1 u1 v1 -> created_in v1 sp2 u2 v2 ->
  exists s', init_threads s = Ok (tt, s') /\
    ready_ok s' (top_queue [get_tcb sigma0_id; get_tcb sigma1_id; get_tcb root_id]) /\
    is_server s' (kip_sigma0 k) sigma0_id root_id sp0 u0 /\
    is_server s' (kip_sigma1 k) sigma1_id root_id sp1 u1 /\
    is_server s' (kip_root_server k) root_id root_id sp2 u2 /\
    ks_vm s' = v2 /\ (forall sp, is_privileged_space s' sp = (sp =? sp2) || (sp =? sp0)).
Proof.
  intros k created_in Hc HQ Hneed Hregions Hv0 Hv1 Hv2.
  destruct (init_kernel_run s _ HQ (fun _ => not_elem_of_nil _)) as (s1 & E1 & HQ1 & M1 & C1 & K1).
  inversion_clear Hregions as [|? ? G0 H]. inversion_clear H as [|? ? G1 H1]. inversion_clear H1 as [|? ? G2 _].
  unfold init_threads. rewrite <- bind_assoc, (bind_ok _ _ _ _ _ E1). unfold init_root_servers, get_kip. rewrite bind_gets, K1.
  fold k. set (k1 := kip_set_thread_info (ThreadInfo.set_user_base 39 _) k).
  assert (ThreadInfo.get_user_base (kip_thread_info k1) = 39) as ->.
  { unfold k1. destruct k. cbn. unfold ThreadInfo.get_user_base, ThreadInfo.set_user_base. bf_simpl. reflexivity. }
  change (kip_utcb_info k1) with (kip_utcb_info k). change (kip_kip_area_info k1) with (kip_kip_area_info k).
  change (kip_sigma0 k1) with (kip_sigma0 k). change (kip_sigma1 k1) with (kip_sigma1 k).
  change (kip_root_server k1) with (kip_root_server k). rewrite (utcb_area_size_ok _ Hneed), G0, G1, G2.
  change (set_global_id 39 _ 0) with sigma0_id. change (set_global_id (w64 (39 + 1)) _ 0) with sigma1_id.
  change (set_global_id (w64 (39 + 2)) _ 0) with root_id. cbv zeta. unfold negb, when.
  change (root_kip_area k1) with (root_kip_area k).
  assert (get_tcb sigma0_id = 40 /\ get_tcb sigma1_id = 41 /\ get_tcb root_id = 42) as (I0 & I1 & I2) by done.
  rewrite <- C1 in Hc. rewrite <- M1 in Hv0.
  assert (ready_ok s1 (top_queue [])) as HQ2.
  { apply (ready_ok_ext s1 s1 _ _ HQ1); [done|done| |exact (ro_max _ _ HQ1)|exact (ro_bound _ _ HQ1)].
    intros r _. unfold top_queue, qset. now case_decide. }
  destruct (next_server s1 [] (kip_sigma0 k) sigma0_id root_id nilthread _ _ _ _ _ (ks_with_sigma0_space sp0) Hc HQ2
    (not_elem_of_nil _) Hv0 ltac:(done)) as (s2 & F2 & Q3 & A3 & _ & V3 & C3 & B3).
  rewrite (bind_ok _ _ _ _ _ F2), bind_modify. set (s3 := ks_with_sigma0_space sp0 s2) in *. rewrite <- V3 in Hv1.
  destruct (next_server s3 _ (kip_sigma1 k) sigma1_id root_id sigma0_id _ _ _ _ _ (ks_with_sigma1_space sp1) C3 Q3
    ltac:(rewrite I0, I1; intros H%list_elem_of_singleton; lia) Hv1 ltac:(done)) as (s4 & F4 & Q5 & A5 & O5 & V5 & C5 & B5).
  rewrite bind_assoc, (bind_ok _ _ _ _ _ F4), bind_modify. set (s5 := ks_with_sigma1_space sp1 s4) in *.
  rewrite <- V5 in Hv2.
  destruct (next_server s5 _ (kip_root_server k) root_id root_id sigma0_id _ _ _ _ _ (ks_with_roottask_space sp2) C5 Q5
    ltac:(rewrite I0, I1, I2; intros [H|[H|H%elem_of_nil]%elem_of_cons]%elem_of_cons; [lia|lia|done]) Hv2 ltac:(done)) as (s6 & F6 & Q7 & A7 & O7 & V7 & _ & B7).
  rewrite (bind_ok _ _ _ _ _ F6). set (s7 := ks_with_roottask_space sp2 s6) in *.
  exists s7. split; [reflexivity|]. split; [exact Q7|]. unfold is_server in *.
  rewrite O7, O7, O5 by (rewrite ?I0, ?I1, ?I2; lia). split_and!; try done.
  intros sp. injection B7 as _ _ _ B7 _ _. injection B5 as _ _ _ B5 _ _.
  unfold is_privileged_space, is_roottask_space, is_sigma0_space, is_sigma1_space. change (ks_roottask_space s7) with sp2.
  change (ks_sigma0_space s7) with (ks_sigma0_space s6).
  rewrite B7. change (ks_sigma0_space s5) with (ks_sigma0_space s4). rewrite B5. change (ks_sigma0_space s3) with sp0.
  destruct (sp =? sp2), (sp =? sp0); reflexivity.
Qed.
End Servers.

(** a virtual memory whose state is the number of spaces created; a space is a
    page, and its UTCBs are where the user asks for them *)
#[local] Instance counting_vm : VirtualMemory Z := {
  vm_allocate_space := fun n => Ok (4096 * (n + 1), n + 1);
  vm_free_space _ := ret tt;
  vm_init_mappings _ _ _ := ret tt;
  vm_allocate_utcb _ location := ret location;
  vm_map_fpage _ _ _ _ _ _ := ret tt;
  vm_unmap_fpage _ _ _ _ := ret 0;
  vm_map_sigma0 _ _ := ret tt;
  vm_allocate_tcb _ := ret tt;
  vm_map_dummy_tcb _ _ := ret tt;
  vm_memcpy _ _ _ _ := ret tt;
  vm_lookup_mapping _ addr := ret (Some (identity_mapping addr));
  vm_load _ _ _ := ret 0;
  vm_store _ _ _ _ := ret tt;
}.

Definition example_server (i : Z) : root_server_t := RootServer (2 ^ 20 * i + 0x1000) (2 ^ 20 * i) (Region.Region (2 ^ 20 * i) (2 ^ 20 * i + 0x8000)).
Definition example_kip : kip_t :=
  Kip 0 0 0 0 0 0 0 0 0 0 (example_server 1) (example_server 2) (example_server 3)
    (Region.Region 0 (2 ^ 26)) (Region.Region 0 0) (Region.Region 0 0) [].
Definition before_threads : kstate Z := ks_with_kip example_kip (boot_state 0).

Lemma root_servers_start_witness : exists s', init_threads before_threads = Ok (tt, s') /\
  ready_ok s' (top_queue [40; 41; 42]) /\ is_server s' (example_server 2) sigma1_id root_id 8192 (2 ^ 32) /\
  is_privileged_space s' 8192 = false /\ is_privileged_space s' 12288 = true.
Proof.
  destruct (root_servers_start before_threads 4096 8192 12288 (2 ^ 32) (2 ^ 32) (2 ^ 32) 1 2 3)
    as (s' & E & HQ & _ & H1 & _ & _ & Hp).
  - vm_compute. discriminate.
  - apply (ready_ok_other (boot_state 0)); [apply boot_state_ok|done|done|done].
  - vm_compute. discriminate.
  - repeat constructor.
  - split_and!; [done|done|]. exists 1, 1. split_and!; reflexivity.
  - split_and!; [done|done|]. exists 2, 2. split_and!; reflexivity.
  - split_and!; [done|done|]. exists 3, 3. split_and!; reflexivity.
  - exists s'. rewrite !Hp. split_and!; [exact E|exact HQ|exact H1|reflexivity|reflexivity].
Defined.

(** ** The kernel's memory *)

Lemma raise_to_le start server : start <= raise_to start server /\ Region.high (rs_mem_region server) <= raise_to start server.
Proof. unfold raise_to. destruct (Z.ltb_spec start (Region.high (rs_mem_region server))); lia. Qed.

Lemma start_bootmem_le im kip : let p := start_bootmem_phys im kip in
  virt_to_phys (im_bootstack_top im) <= p /\
  Forall (fun server => Region.high (rs_mem_region server) <= p) [kip_sigma0 kip; kip_sigma1 kip; kip_root_server kip].
Proof.
  unfold start_bootmem_phys. set (b := virt_to_phys _). pose proof (raise_to_le b (kip_sigma0 kip)) as [A1 A2].
  set (p1 := raise_to b _) in *. pose proof (raise_to_le p1 (kip_sigma1 kip)) as [B1 B2]. set (p2 := raise_to p1 _) in *.
  pose proof (raise_to_le p2 (kip_root_server kip)) as [C1 C2]. split; [lia|]. repeat constructor; lia.
Qed.

Definition BOOTMEM_CHUNKS : nat := Z.to_nat (bootmem_size / KMEM_CHUNKSIZE).

Lemma free_spec_nil a n : free_spec a n [] = block a n.
Proof. unfold free_spec. rewrite filter_nil. apply app_nil_r. Qed.


Definition example_image : image := Image (Layout.AS_KSEG_START + 0x100000) 0x1000 0x80000
  (fun _ _ _ _ kip => kip) (fun kip => kip) (fun _ _ => Some 0%nat) (ret tt).
Definition before_memory : kstate vmem := ks_with_kip example_kip (boot_state (Vmem Walkmap.shared_page Coherence.two_numbers [])).

